(* ===== verification/_CoqProject ===== *)
-Q . S2P
Prelude.v
Machine.v
Status.v
MemFuncs.v
BinFuncs.v
Strings.v
Vga.v
Heap.v
Pmm.v
Paging.v
BootTables.v
Print.v
Tests.v
Security.v
Serial.v
Stop.v
Descriptors.v
Interrupts.v
Keyboard.v
Startup.v
Multiboot.v
Bootstrap.v
Dispatch.v
Entry.v
Typing.v
EfiBoot.v
CTypes.v
Headers.v
EfiHeaders.v
BootHeaders.v
CharMap.v
Layouts.v
