(* ===== verification/Prelude.v ===== *)
(** * Feral: a model of the kernel and of what its functions do

    Feral is a small monolithic kernel for x86_64 PCs, written in C.  This
    development translates its C functions one by one into executable
    definitions and proves what they do, on every branch the theorems name,
    with the memory they leave written out.  Paths below are relative to
    [src/].

    ** The program

    A boot loader hands over to [kern_init] ([kern/entry/mb2entry.c]), which
    collects the loader's tags, sets up the text console and calls
    [KiSystemStartup] ([kern/kernel_main.c]).  That function starts the memory
    manager ([kern/mm/mmsetup.c], on the bitmap of page frames; the heap of
    [kern/mm/heap.c] is placed behind it), the serial port
    ([drivers/serial/serial.c]), the processor's tables
    ([kern/arch/x86_64/archstart.c], [interrupts.c], [mm/paging.c]) and ends in
    the debug shell ([drivers/serial/kshell/kshell.c]).  Everything prints
    through [kern/lib/kernel_printfuncs.c], which goes through a table of
    firmware functions to the VGA driver ([kern/arch/x86_64/vga/vga_driver.c]);
    everything that cannot go on ends in [KiStopError] ([sec/sec.c]).
    [bootloader/boot.c] is a separate UEFI program that loads the kernel.

    ** The machine ([Machine])

    A C function returning [A] is a [K A]: it takes the state [kernel] (RAM
    byte by byte, the trace of port accesses and of privileged instructions,
    and one field per static variable of the kernel that is not accessed
    through a pointer) to an [outcome]: a value and a state, a fault (an
    address the page tables do not map, a division by zero, or a value the code
    never set), a stop in [KiStopError], or fuel that ran out.  Loads and stores
    go byte by byte through an address translation [AddrSpace], a parameter;
    [boot_xlate] is the one [kern/arch/x86_64/boot/init.asm] sets up.  Integers
    are [Z], and every conversion to a width is written out with [u].  Structures
    in memory are offsets with the names of the fields, read and written field
    by field, and [Layouts] derives these offsets from the declarations of the
    headers; [window a p n] says that [n] bytes from virtual address [a]
    lie at physical address [p], and it is how theorems say what is mapped.

    Loops are [cloop] (or [for_lt] for the counting ones), with 2^65 rounds of
    binary fuel: twice the number of values of a 64-bit counter, more than any
    loop of the program that ends takes.  Theorems about a loop are
    total: [cloop_total] and [triple_cloop] ask for a decreasing measure and
    give a result, and [cloop_diverges] shows that no number of rounds leaves a
    loop.

    ** The files

    - [Prelude]: machine integers, bits, lists, tactics.  [Machine]: above.
    - [Status]: [inc/feral/feralstatus.h], [efistatus.h], [KiGetErrorType].
    - [MemFuncs], [BinFuncs], [Strings]: the routines of [kern/lib/], and
      [inc/feral/string.h].
    - [Vga]: the text console.  [Print]: formatted printing over the interface
      [KrnlFirmwareFunctions], which the console implements.
    - [Heap], [Pmm], [Paging]: memory.  [Pmm] is written against the interface
      [StopError], which [Stop] implements; [Paging] maps pages with an
      allocator that is an interface with laws, [AllocatorLaws].
    - [Security]: [sec/secsrv/hydrogen.c].  [Stop]: [sec/sec.c] and
      [sec/stackcheck.c].
    - [Serial]: the UART and the debug shell.
    - [Descriptors], [Interrupts], [Keyboard]: descriptor tables, interrupt
      controllers, handlers.
    - [BootTables]: [_start] of [boot/init.asm], the tables it builds and the
      translation the processor makes of them.
    - [Startup]: [kernel_main.c] and what it starts.  [Multiboot]: the entry.
      [Bootstrap]: the whole start.  [EfiBoot]: the UEFI loader.
    - [Dispatch]: the running kernel, as a step relation: the shell and the
      interrupts, delivered through the table in memory.  [Entry]: everything
      from the loader's tags to the running kernel.
    - [Tests]: the program's own tests ([tests/test_main.c]).
    - [Typing]: the types of C as an invariant of every execution.
    - [CTypes]: the C types and the rules that lay them out on x86_64: widths,
      alignment, packing, unions, arrays, bit-fields, enumerations.  [Headers]
      ([inc/], [kern/inc/] and the sources that declare types), [EfiHeaders]
      ([kern/inc/libreefi/]) and [BootHeaders] ([multiboot2.h], [elf.h]): the
      program's types as they are declared.  [Layouts]: the components against
      these declarations.  [CharMap]: the font and the console of
      [kern/entry/efientry.c].

    ** What the theorems show

    - The routines: [KiCopyMemory], [KiSetMemoryBytes] and [KiCompareMemory]
      give exactly the stated memory and result, including the bytes their
      block loops touch beyond the amount asked for, and the loops that never
      end; the number printers write the numeral of the number in the base
      ([internalItoaBaseChange_spec], [KiItoaSigned_spec]); the string functions
      agree with their references.
    - The console keeps its invariant and stays within its buffer for every
      text; scrolling moves every row up by one; and [VgaAutoPrint], unlike
      [VgaAutoPrintln], can leave the buffer.
    - The physical memory manager refines a finite set of used frames: what it
      allocates was free and is used afterwards, successive allocations are
      distinct, and lookups decide membership.  Its setup is total, with the
      exact set of frames in use; two theorems show the memory it takes for
      free and is not, and the frame past the end it can hand out.
    - The heap the kernel makes returns the same odd address to every request
      ([MmKernelMalloc_same]), and is no allocator for page tables.
    - Page tables: [x86MapAddress] over a lawful allocator makes the hardware's
      walk find the page asked for and keeps every address mapped that was; its error path; what unmapping clears; and what
      [x86ValidateVirtualAddress] gets wrong.
    - Printing refines a specification of the format language.
    - Serial: the programming of the UART, what a send puts on the wire and what
      it drops, and the line the shell loses.
    - Interrupts: the tables as the processor decodes them, the programming of
      the controllers, one tick per timer interrupt, what a key press types.
    - [Startup]: the boot memory map becomes the memory manager's and the
      manager starts on it; the first processor gets its tables.  [Bootstrap]
      composes everything: [KiSystemStartup] reaches the shell with the memory
      manager and the tables up, and never returns.
    - The running kernel ([Dispatch]): every run of the shell and of
      interrupts, in any order, keeps the memory manager, the heap, the tables
      and the console's invariant, and stops only by a double or a page fault;
      every vector reaches its handler, and the handler returns and
      acknowledges.  Without interrupts the runs are the shell as it is
      written.
    - The tables of [_start] give the processor the translation [boot_xlate]
      at every address, and [x86MapAddress] on them writes into ordinary memory.
    - Types: cells are bytes, port accesses have their widths and the statics
      their types in every state an execution ends in, faults and stops
      included.
    - The multiboot walk finds what the tags say, for every list of tags; and
      [kern_init] on such a list sets up the console and leads to a running
      kernel ([kern_init_keeps_running]), the composition of everything above.
    - The program's own tests pass wherever their locals are.
    - The UEFI loader gives up on every loadable kernel.
    - Layouts: every structure of the program has a sound layout
      ([declared_layouts_sound]), so that assigning to a member, bit-field or
      not, changes that member only ([declared_member_update]); the offsets,
      sizes and enumerators the components use are the declared ones
      ([component_layouts_agree], [component_enumerators_agree]); the code of
      the descriptor tables writes the declared members
      ([descriptors_as_declared]); and the bit-fields of a page table entry are
      the bits the paging code computes with ([page_entry_fields]).
    - The font has a glyph of its own for every character it is to show, and is
      unreadable through the type the header gives it
      ([uefi_char_map_unreadable]); the UEFI console prints nothing
      ([uefi_console_silent]).

    ** Parameters

    What the compiler, the linker, the build and the hardware decide is an
    argument: where string literals ([Literals]), locals and statics whose
    address is taken are ([FormatBuffer], [DescriptorTables], [StartupAddresses],
    [EntryLocals], [EfiLocals], ...), the end of the image ([KernelImage]), the version
    numbers ([KernelVersion]), what devices answer to a read of a port
    ([Device]), what [cpuid] answers ([CpuId], and [BootCpu] before paging), where
    the image puts the first tables ([BootImage]), the registers a stop reports
    ([StopRegisters]), the local array of the keyboard's handler, the firmware
    ([EfiServices]), the width of [wchar_t], which depends on the compiler's
    options ([WideChar]), and where the font and its descriptor lie
    ([FontAddresses]).  Theorems that rely on
    them say so in a record of hypotheses, and each has a witness that meets it.

    ** Not modelled

    - The page tables in force do not change during a theorem: [AddrSpace] is
      fixed, so that after [x86UnmapAddress] the model still reads through the
      old translation.  The theorems on tables are about their contents.
      Only [_start] changes the translation under itself.
    - Concurrency: a handler runs between two operations of the shell, never
      within one.  The vectors on which the processor pushes an error code are
      taken only when their handler stops, since the handlers are declared
      without one.
    - The UEFI entry of [boot/init64.asm] and [boot/helper.asm], [mm/mm.asm] and the
      aarch64 port: the model has the effect of the routines the C code calls
      as events or parameters.
    - The rest of [kern_init] and [KiStartupSystem] of [kern/entry/efientry.c],
      and [kern/driver/frlddk.c]: no build compiles them, and they use types and
      fields that no file declares.
    - The prototypes of [efifs.h] and the structure of [port/packet.h], which are
      not C; the constants of headers that nothing uses; the stand-ins for the
      machine in [tests/inc/x86-stub.h], which the tests never call; and what the
      tests' macros print. *)

From stdpp Require Export base numbers list gmap strings.
From Stdlib Require Export ZArith Lia.

#[global] Open Scope Z_scope.

(** ** Machine-width integers *)

(** [u w x] is the C conversion of [x] to an unsigned [w]-bit type. *)
Definition u (w x : Z) : Z := x mod 2 ^ w.

Declare Scope cint_scope.
Delimit Scope cint_scope with cint.
Abbreviation u8 := (u 8).
Abbreviation u16 := (u 16).
Abbreviation u32 := (u 32).
Abbreviation u64 := (u 64).

(** The value of a [w]-bit pattern read as a two's complement integer. *)
Definition sx (w x : Z) : Z :=
  let r := u w x in if 2 ^ (w - 1) <=? r then r - 2 ^ w else r.

(** C truth values. *)
Definition b2z (b : bool) : Z := if b then 1 else 0.

Lemma u_range w x : 0 <= w -> 0 <= u w x < 2 ^ w.
Proof. intros. apply Z.mod_pos_bound, Z.pow_pos_nonneg; lia. Qed.

Lemma u_small w x : 0 <= x < 2 ^ w -> u w x = x.
Proof. apply Z.mod_small. Qed.

Lemma u_idemp w x : u w (u w x) = u w x.
Proof. apply Zmod_mod. Qed.

Lemma u_add_l w x y : u w (u w x + y) = u w (x + y).
Proof. apply Zplus_mod_idemp_l. Qed.

Lemma u_add_r w x y : u w (x + u w y) = u w (x + y).
Proof. apply Zplus_mod_idemp_r. Qed.

Lemma u_sub_add w x y : u w (u w (x + y) - y) = u w x.
Proof. unfold u. rewrite Zminus_mod_idemp_l. f_equal. lia. Qed.

Lemma u_u_le v w x : 0 <= v <= w -> u v (u w x) = u v x.
Proof.
  intros. unfold u. apply Z.mod_mod_divide.
  exists (2 ^ (w - v)). rewrite <- Z.pow_add_r by lia. f_equal. lia.
Qed.

Lemma sx_small w x : 0 <= x < 2 ^ (w - 1) -> 1 <= w -> sx w x = x.
Proof.
  intros Hx Hw. unfold sx.
  assert (2 ^ w = 2 * 2 ^ (w - 1)) as E.
  { rewrite <- (Z.pow_succ_r 2 (w - 1)) by lia. f_equal. lia. }
  rewrite u_small by lia. destruct (Z.leb_spec (2 ^ (w - 1)) x); lia.
Qed.

Lemma sx_u w x : sx w (u w x) = sx w x.
Proof. unfold sx. by rewrite u_idemp. Qed.

(** ** Bits *)

Lemma testbit_setbit_pow n b x :
  0 <= n -> 0 <= b -> Z.testbit (Z.lor x (Z.shiftl 1 b)) n = Z.testbit x n || (n =? b).
Proof.
  intros. rewrite Z.lor_spec, Z.shiftl_1_l. f_equal.
  rewrite Z.pow2_bits_eqb by lia. apply Z.eqb_sym.
Qed.

Lemma land_mask_range x n : 0 <= n -> 0 <= Z.land x (Z.ones n) < 2 ^ n.
Proof. intros. rewrite Z.land_ones by lia. apply Z.mod_pos_bound, Z.pow_pos_nonneg; lia. Qed.

Lemma land_1_testbit x b : 0 <= b -> Z.land (Z.shiftr x b) 1 = b2z (Z.testbit x b).
Proof.
  intros. change 1 with (Z.ones 1) at 1. rewrite Z.land_ones by lia.
  change (2 ^ 1) with 2. rewrite <- Z.bit0_mod, Z.shiftr_spec by lia.
  rewrite Z.add_0_l. by destruct (Z.testbit x b).
Qed.

Lemma land_pow2 x b : Z.land x (2 ^ b) = if Z.testbit x b then 2 ^ b else 0.
Proof.
  destruct (Z.lt_ge_cases b 0) as [Hb|Hb].
  { rewrite Z.pow_neg_r, Z.land_0_r by lia. by destruct (Z.testbit x b). }
  apply Z.bits_inj'. intros n Hn. rewrite Z.land_spec, Z.pow2_bits_eqb by lia.
  destruct (Z.eqb_spec b n) as [->|Hne].
  - rewrite andb_true_r. destruct (Z.testbit x n); [|by rewrite Z.bits_0].
    by rewrite Z.pow2_bits_true.
  - rewrite andb_false_r. destruct (Z.testbit x b); [|by rewrite Z.bits_0].
    by rewrite Z.pow2_bits_false.
Qed.

Lemma lor_bound x y n : 0 <= n -> 0 <= x < 2 ^ n -> 0 <= y < 2 ^ n -> 0 <= Z.lor x y < 2 ^ n.
Proof.
  intros Hn Hx Hy. split; [apply Z.lor_nonneg; lia|].
  destruct (Z.eq_dec (Z.lor x y) 0) as [E|E].
  { rewrite E. apply Z.pow_pos_nonneg; lia. }
  assert (0 <= Z.lor x y) by (apply Z.lor_nonneg; lia).
  apply Z.log2_lt_pow2; [lia|]. rewrite Z.log2_lor by lia.
  destruct (Z.eq_dec n 0) as [->|].
  { change (2 ^ 0) with 1 in *. assert (x = 0) as -> by lia. assert (y = 0) as -> by lia. done. }
  assert (forall z, 0 <= z < 2 ^ n -> Z.log2 z < n) as H'.
  { intros z Hz. destruct (Z.eq_dec z 0) as [->|]; [simpl; lia|]. apply Z.log2_lt_pow2; lia. }
  pose proof (H' x Hx); pose proof (H' y Hy); lia.
Qed.

Lemma land_bound_l x y n : 0 <= n -> 0 <= x < 2 ^ n -> 0 <= Z.land x y < 2 ^ n.
Proof.
  intros Hn Hx.
  assert (Z.land x y = Z.land (Z.land x y) (Z.ones n)) as E.
  { rewrite <- Z.land_assoc, (Z.land_comm y), Z.land_assoc, (Z.land_ones x) by lia.
    rewrite (Z.mod_small x) by lia. done. }
  rewrite E. by apply land_mask_range.
Qed.

(** ** Lists indexed by [Z] *)

Definition zlen {A} (l : list A) : Z := Z.of_nat (length l).

Lemma zlen_nonneg {A} (l : list A) : 0 <= zlen l.
Proof. unfold zlen; lia. Qed.

Lemma zlen_app {A} (l1 l2 : list A) : zlen (l1 ++ l2) = zlen l1 + zlen l2.
Proof. unfold zlen. rewrite length_app. lia. Qed.

Lemma zlen_cons {A} (x : A) l : zlen (x :: l) = 1 + zlen l.
Proof. unfold zlen. simpl. lia. Qed.

Lemma zlen_snoc {A} (x : A) l : zlen (l ++ [x]) = zlen l + 1.
Proof. by rewrite zlen_app. Qed.

Lemma zlen_replicate {A} n (x : A) : zlen (replicate n x) = Z.of_nat n.
Proof. unfold zlen. by rewrite length_replicate. Qed.

Lemma nth_replicate {A} n (x d : A) i : (i < n)%nat -> nth i (replicate n x) d = x.
Proof.
  revert i. induction n as [|n IH]; intros i Hi; [lia|].
  destruct i as [|i]; [done|]. apply IH. lia.
Qed.

(** ** Tactics *)

(** Case analysis on the boolean comparisons of the goal. *)
Ltac bdestr :=
  repeat match goal with
  | |- context [Z.leb ?a ?b] => destruct (Z.leb_spec a b)
  | |- context [Z.ltb ?a ?b] => destruct (Z.ltb_spec a b)
  | |- context [Z.eqb ?a ?b] => destruct (Z.eqb_spec a b)
  end.

(** [lia] with Euclidean division made explicit. *)
Ltac dlia := Z.div_mod_to_equations; lia.

(** Split a conjunction and close the easy parts. *)
Ltac kdone := repeat (progress (cbv beta iota; split_and?; try done)); try lia.
