(* ===== verification/Machine.v ===== *)
(** * The machine the kernel runs on

    The store and the effects every component of the kernel shares: byte
    addressed RAM behind an address translation, the I/O ports, the kernel's
    static variables, and the monad the translated C functions live in.  A C
    function returning [A] is a [K A]; it may also fault (an access the page
    tables do not map), halt in [KiStopError], or run out of loop fuel.  *)

From S2P Require Import Prelude.

(** ** Static data of the kernel *)

(** [VgaContext] of [vga.h]: the state of the text console. *)
Record VgaContext := mkVgaContext {
  Framebuffer : Z;
  SwappedBuffer : Z;
  ScreenWidth : Z;
  ScreenHeight : Z;
  BPP : Z;
  Background : Z;
  Foreground : Z;
  Highlight : Z;
  CurrentRow : Z;
  CurrentCol : Z;
  TextMode : Z;
  FollowingInput : Z;
  CursorEnabled : Z;
}.

(** [MemoryManagementState] of [mmsetup.c]; the first two are pointers. *)
Record MemoryManagementState := mkMmState {
  pAllocInfo : Z;
  BitmaskUsedFrames : Z;
  MaxPAddr : Z;
}.

(** [AllocatorState] of [mm.h].  [NumArenas] is [None] while it is
    indeterminate: the code never assigns it. *)
Record AllocatorState := mkAllocatorState {
  as_sType : Z;
  as_pNext : Z;
  NumArenas : option Z;
  Arenas : Z;
}.

(** [PS2KeyboardContext] of [interrupts.c]. *)
Record PS2KeyboardContext := mkKeyboard {
  ShiftModifier : Z;
  ControlModifier : Z;
  AltModifier : Z;
  CapsLock : Z;
}.

(** [GDTPointer] and [IDTPointer]: the operands of [lgdt] and [lidt]. *)
Record DescPointer := mkDescPointer { dp_Limit : Z; dp_Base : Z }.

(** [SystemBootInfo] of [krnlentry.h]. *)
Record SystemBootInfo := mkBootInfo {
  NumDisplays : Z;
  FramebufferPAddrs : Z;
  NumMemoryRanges : Z;
  MemoryRanges : Z;
}.

(** What the processor does besides memory accesses, oldest last. *)
Inductive io_event :=
| EvIn (port val : Z)
| EvOut (port val : Z)
| EvStall                         (* an indeterminate byte to port 0x80 *)
| EvSti
| EvCli
| EvLgdt (p : DescPointer)
| EvLidt (p : DescPointer)
| EvFlushTLB.

Record kernel := Kernel {
  ram : gmap Z Z;
  trace : list io_event;
  vga : VgaContext;
  vga_on : bool;
  mms : MemoryManagementState;
  heap : AllocatorState;
  kbd : PS2KeyboardContext;
  timer : Z;
  gdtp : DescPointer;
  idtp : DescPointer;
  bootinfo : SystemBootInfo;
  MaxAddress : Z;
  MemoryRangeCount : Z;
}.

Definition with_ram (r : gmap Z Z) (k : kernel) : kernel :=
  let 'Kernel _ b c d e f g h i j l m n := k in Kernel r b c d e f g h i j l m n.
Definition with_trace (t : list io_event) (k : kernel) : kernel :=
  let 'Kernel a _ c d e f g h i j l m n := k in Kernel a t c d e f g h i j l m n.
Definition with_vga (v : VgaContext) (k : kernel) : kernel :=
  let 'Kernel a b _ d e f g h i j l m n := k in Kernel a b v d e f g h i j l m n.
Definition with_vga_on (v : bool) (k : kernel) : kernel :=
  let 'Kernel a b c _ e f g h i j l m n := k in Kernel a b c v e f g h i j l m n.
Definition with_mms (v : MemoryManagementState) (k : kernel) : kernel :=
  let 'Kernel a b c d _ f g h i j l m n := k in Kernel a b c d v f g h i j l m n.
Definition with_heap (v : AllocatorState) (k : kernel) : kernel :=
  let 'Kernel a b c d e _ g h i j l m n := k in Kernel a b c d e v g h i j l m n.
Definition with_kbd (v : PS2KeyboardContext) (k : kernel) : kernel :=
  let 'Kernel a b c d e f _ h i j l m n := k in Kernel a b c d e f v h i j l m n.
Definition with_timer (v : Z) (k : kernel) : kernel :=
  let 'Kernel a b c d e f g _ i j l m n := k in Kernel a b c d e f g v i j l m n.
Definition with_gdtp (v : DescPointer) (k : kernel) : kernel :=
  let 'Kernel a b c d e f g h _ j l m n := k in Kernel a b c d e f g h v j l m n.
Definition with_idtp (v : DescPointer) (k : kernel) : kernel :=
  let 'Kernel a b c d e f g h i _ l m n := k in Kernel a b c d e f g h i v l m n.
Definition with_boot (v : SystemBootInfo) (mx cnt : Z) (k : kernel) : kernel :=
  let 'Kernel a b c d e f g h i j _ _ _ := k in Kernel a b c d e f g h i j v mx cnt.

(** ** The monad *)

Inductive outcome (A : Type) :=
| Ok (a : A) (k : kernel)
| Fault (k : kernel)              (* an access not mapped, or a division by zero *)
| Halted (st : Z) (k : kernel)    (* spinning for ever in KiStopError st *)
| Spin (k : kernel).              (* out of loop fuel *)
Arguments Ok {A} _ _.
Arguments Fault {A} _.
Arguments Halted {A} _ _.
Arguments Spin {A} _.

Definition K (A : Type) : Type := kernel -> outcome A.

#[global] Instance K_ret : MRet K := fun A a k => Ok a k.
#[global] Instance K_bind : MBind K := fun A B f m k =>
  match m k with
  | Ok a k' => f a k'
  | Fault k' => Fault k'
  | Halted st k' => Halted st k'
  | Spin k' => Spin k'
  end.

Lemma bind_ok {A B} (m : K A) (f : A -> K B) k a k' :
  m k = Ok a k' -> (m ≫= f) k = f a k'.
Proof. intros H. unfold mbind, K_bind. by rewrite H. Qed.

Lemma bind_fault {A B} (m : K A) (f : A -> K B) k k' :
  m k = Fault k' -> (m ≫= f) k = Fault k'.
Proof. intros H. unfold mbind, K_bind. by rewrite H. Qed.

Lemma bind_halted {A B} (m : K A) (f : A -> K B) k st k' :
  m k = Halted st k' -> (m ≫= f) k = Halted st k'.
Proof. intros H. unfold mbind, K_bind. by rewrite H. Qed.

Lemma bind_spin {A B} (m : K A) (f : A -> K B) k k' :
  m k = Spin k' -> (m ≫= f) k = Spin k'.
Proof. intros H. unfold mbind, K_bind. by rewrite H. Qed.

Lemma bind_ok_inv {A B} (m : K A) (f : A -> K B) k b k' :
  (m ≫= f) k = Ok b k' -> exists a k1, m k = Ok a k1 /\ f a k1 = Ok b k'.
Proof.
  unfold mbind, K_bind. destruct (m k) eqn:E; try discriminate. eauto.
Qed.

Lemma bind_assoc {A B C} (m : K A) (f : A -> K B) (g : B -> K C) k :
  ((m ≫= f) ≫= g) k = (m ≫= fun a => f a ≫= g) k.
Proof. unfold mbind, K_bind. by destruct (m k). Qed.

Lemma ret_ok {A} (a : A) k : (mret a : K A) k = Ok a k.
Proof. done. Qed.

Definition gets {A} (f : kernel -> A) : K A := fun k => Ok (f k) k.
Definition modify (f : kernel -> kernel) : K () := fun k => Ok () (f k).
Definition fault {A} : K A := fun k => Fault k.
Definition halt {A} (st : Z) : K A := fun k => Halted st k.
Definition spin {A} : K A := fun k => Spin k.
Definition skip : K () := mret ().
Definition when (b : bool) (m : K ()) : K () := if b then m else skip.

(** A C loop: [body s] either goes round again with the new values of the
    loop's variables ([inl]) or leaves the loop ([inr]).  [rounds] is the
    reference meaning, [iterate] the same with binary fuel, so that a loop can
    be given more fuel than any counter of the program has values and still be
    run by the kernel. *)
Fixpoint rounds {S R} (n : nat) (body : S -> K (S + R)) (s : S) : K (S + R) :=
  match n with
  | O => mret (inl s)
  | Datatypes.S n =>
      x ← body s;
      match x with inl s' => rounds n body s' | inr r => mret (inr r) end
  end.

Fixpoint iterate {S R} (p : positive) (body : S -> K (S + R)) (s : S) : K (S + R) :=
  match p with
  | xH => body s
  | xO p =>
      x ← iterate p body s;
      match x with inl s' => iterate p body s' | inr r => mret (inr r) end
  | xI p =>
      x ← body s;
      match x with
      | inl s1 =>
          y ← iterate p body s1;
          match y with inl s2 => iterate p body s2 | inr r => mret (inr r) end
      | inr r => mret (inr r)
      end
  end.

(** Twice the number of values of a 64-bit counter. *)
Definition FUEL : positive := 36893488147419103232.

Definition cloop {S R} (body : S -> K (S + R)) (s : S) : K R :=
  x ← iterate FUEL body s;
  match x with inl _ => spin | inr r => mret r end.

Lemma rounds_add {S R} a b (body : S -> K (S + R)) s k :
  rounds (a + b) body s k =
    (x ← rounds a body s;
     match x with inl s' => rounds b body s' | inr r => mret (inr r) end) k.
Proof.
  revert s k. induction a as [|a IH]; intros s k; [done|].
  simpl. unfold mbind, K_bind. destruct (body s k) as [x k'| | |]; try done.
  destruct x as [s'|r]; [|done]. rewrite IH. done.
Qed.

Lemma iterate_rounds {S R} p (body : S -> K (S + R)) s k :
  iterate p body s k = rounds (Pos.to_nat p) body s k.
Proof.
  revert s k. induction p as [p IH|p IH|]; intros s k.
  - rewrite Pos2Nat.inj_xI, <- Nat.double_twice. unfold Nat.double.
    cbn [iterate rounds]. unfold mbind, K_bind.
    destruct (body s k) as [[s'|r] k'| | |]; try done.
    rewrite rounds_add, IH. unfold mbind, K_bind.
    destruct (rounds _ _ s' k') as [[s2|r] k2| | |]; try done.
  - rewrite Pos2Nat.inj_xO, <- Nat.double_twice. unfold Nat.double.
    rewrite rounds_add. cbn [iterate]. unfold mbind, K_bind. rewrite IH.
    destruct (rounds _ _ s k) as [[s2|r] k2| | |]; try done.
  - simpl. unfold mbind, K_bind. by destruct (body s k) as [[s'|r] k'| | |].
Qed.

Lemma rounds_total {S R} (I : S -> kernel -> Prop) (Q : R -> kernel -> Prop)
    (mu : S -> Z) (body : S -> K (S + R)) :
  (forall s k, I s k -> exists x k', body s k = Ok x k' /\
     match x with
     | inl s' => I s' k' /\ 0 <= mu s' < mu s
     | inr r => Q r k'
     end) ->
  forall n s k, I s k -> 0 <= mu s < Z.of_nat n ->
  exists r k', rounds n body s k = Ok (inr r) k' /\ Q r k'.
Proof.
  intros Hb n. induction n as [|n IH]; intros s k HI Hf; [lia|].
  destruct (Hb s k HI) as (x & k' & Hx & Hpost). cbn [rounds].
  rewrite (bind_ok _ _ _ _ _ Hx).
  destruct x as [s'|r]; [|eauto].
  destruct Hpost. apply IH; [done|lia].
Qed.

(** Total correctness of a loop: from a state satisfying [I s k] every round
    succeeds, and either leaves with [Q] or keeps [I] and lowers the measure. *)
Lemma cloop_total {S R} (I : S -> kernel -> Prop) (Q : R -> kernel -> Prop)
    (mu : S -> Z) (body : S -> K (S + R)) :
  (forall s k, I s k -> exists x k', body s k = Ok x k' /\
     match x with
     | inl s' => I s' k' /\ 0 <= mu s' < mu s
     | inr r => Q r k'
     end) ->
  forall s k, I s k -> 0 <= mu s < Z.pos FUEL ->
  exists r k', cloop body s k = Ok r k' /\ Q r k'.
Proof.
  intros Hb s k HI Hm. rewrite <- positive_nat_Z in Hm.
  destruct (rounds_total I Q mu body Hb _ s k HI Hm) as (r & k' & Hr & HQ).
  rewrite <- iterate_rounds in Hr. exists r, k'. split; [|done].
  unfold cloop. by rewrite (bind_ok _ _ _ _ _ Hr).
Qed.

Lemma rounds_inl {S R} n (body : S -> K (S + R)) s k s' k' :
  body s k = Ok (inl s') k' -> rounds (Datatypes.S n) body s k = rounds n body s' k'.
Proof. intros E. cbn [rounds]. by rewrite (bind_ok _ _ _ _ _ E). Qed.

Lemma rounds_inr {S R} n (body : S -> K (S + R)) s k r k' :
  body s k = Ok (inr r) k' -> rounds (Datatypes.S n) body s k = Ok (inr r) k'.
Proof. intros E. cbn [rounds]. by rewrite (bind_ok _ _ _ _ _ E). Qed.

Lemma rounds_more {S R} a b (body : S -> K (S + R)) s k r k' :
  rounds a body s k = Ok (inr r) k' -> rounds (a + b) body s k = Ok (inr r) k'.
Proof. intros E. rewrite rounds_add. by rewrite (bind_ok _ _ _ _ _ E). Qed.

(** A loop that leaves after [n] rounds. *)
Lemma cloop_rounds {S R} n (body : S -> K (S + R)) s k r k' :
  rounds n body s k = Ok (inr r) k' -> Z.of_nat n <= Z.pos FUEL -> cloop body s k = Ok r k'.
Proof.
  intros E Hn. rewrite <- positive_nat_Z in Hn.
  assert (rounds (n + (Pos.to_nat FUEL - n)) body s k = Ok (inr r) k') as E' by by apply rounds_more.
  replace (n + (Pos.to_nat FUEL - n))%nat with (Pos.to_nat FUEL) in E' by lia.
  rewrite <- iterate_rounds in E'. unfold cloop. by rewrite (bind_ok _ _ _ _ _ E').
Qed.

Lemma cloop_ok_inv {S R} (body : S -> K (S + R)) s k r k' :
  cloop body s k = Ok r k' -> rounds (Pos.to_nat FUEL) body s k = Ok (inr r) k'.
Proof.
  unfold cloop. intros H. apply bind_ok_inv in H as ([s'|r'] & k1 & E & H); [discriminate H|].
  rewrite iterate_rounds in E. by injection H as -> ->.
Qed.

(** The round that leaves the loop. *)
Lemma rounds_last {S R} n (body : S -> K (S + R)) s k r k' :
  rounds n body s k = Ok (inr r) k' ->
  exists m s' k1, (m < n)%nat /\ rounds m body s k = Ok (inl s') k1 /\ body s' k1 = Ok (inr r) k'.
Proof.
  revert s k. induction n as [|n IH]; intros s k H; [discriminate H|]. cbn [rounds] in H.
  apply bind_ok_inv in H as ([s1|r1] & k1 & E & H).
  - destruct (IH s1 k1 H) as (m & s' & k2 & Hm & E2 & E3). exists (Datatypes.S m), s', k2.
    split; [lia|]. split; [by rewrite (rounds_inl _ _ _ _ _ _ E)|done].
  - injection H as -> ->. exists O, s, k. split; [lia|]. done.
Qed.

Lemma rounds_snoc {S R} n (body : S -> K (S + R)) s k s' k' x k2 :
  rounds n body s k = Ok (inl s') k' -> body s' k' = Ok x k2 -> rounds (n + 1) body s k = Ok x k2.
Proof.
  intros E1 E2. rewrite rounds_add, (bind_ok _ _ _ _ _ E1). cbn [rounds]. rewrite (bind_ok _ _ _ _ _ E2).
  by destruct x.
Qed.

(** Divergence: if every round from [I] succeeds and stays in [I], no number
    of rounds leaves the loop. *)
Lemma cloop_diverges {S R} (I : S -> kernel -> Prop) (body : S -> K (S + R)) :
  (forall s k, I s k -> exists s' k', body s k = Ok (inl s') k' /\ I s' k') ->
  forall s k, I s k ->
    (forall n, exists s' k', rounds n body s k = Ok (inl s') k') /\
    exists k', cloop body s k = Spin k'.
Proof.
  intros Hb.
  assert (forall n s k, I s k -> exists s' k', rounds n body s k = Ok (inl s') k') as Hr.
  { intros n. induction n as [|n IH]; intros s k HI; [simpl; eauto|].
    destruct (Hb s k HI) as (s' & k' & Hx & HI'). cbn [rounds].
    rewrite (bind_ok _ _ _ _ _ Hx). auto. }
  intros s k HI. split; [auto|].
  destruct (Hr (Pos.to_nat FUEL) s k HI) as (s' & k' & E).
  rewrite <- iterate_rounds in E. exists k'. unfold cloop.
  by rewrite (bind_ok _ _ _ _ _ E).
Qed.

(** [for (; i < hi; i += step) body], on a [w]-bit unsigned counter; the
    result is the counter's last value. *)
Definition for_lt (w hi step : Z) (body : Z -> K ()) : Z -> K Z :=
  cloop (fun i =>
    if i <? hi then body i ;; mret (inl (u w (i + step))) else mret (inr i)).

Lemma for_lt_total w hi step (body : Z -> K ()) (I : Z -> kernel -> Prop) lo k :
  0 < step -> 0 <= lo -> 0 <= w <= 64 -> hi + step <= 2 ^ w ->
  (forall i k, lo <= i < hi -> I i k ->
     exists k', body i k = Ok () k' /\ I (i + step) k') ->
  I lo k ->
  exists i k', for_lt w hi step body lo k = Ok i k' /\ I i k' /\
    lo <= i /\ hi <= i /\ (i = lo \/ i < hi + step).
Proof.
  intros Hs Hlo Hw Hhi Hb HI.
  assert (2 ^ w <= 2 ^ 64) by (apply Z.pow_le_mono_r; lia).
  destruct (cloop_total
    (fun i k => I i k /\ lo <= i /\ (i = lo \/ i < hi + step))
    (fun i k => I i k /\ lo <= i /\ hi <= i /\ (i = lo \/ i < hi + step))
    (fun i => Z.max 0 (hi - i))
    (fun i => if i <? hi then body i ;; mret (inl (u w (i + step))) else mret (inr i)))
    with (s := lo) (k := k) as (r & k' & E & HQ).
  - intros i k1 (HI1 & Hle & Hor). destruct (Z.ltb_spec i hi).
    + destruct (Hb i k1 ltac:(lia) HI1) as (k2 & E & HI2).
      exists (inl (u w (i + step))), k2. rewrite (bind_ok _ _ _ _ _ E).
      rewrite u_small by lia. repeat split; [done|lia|lia|lia|lia].
    + exists (inr i), k1. repeat split; auto; lia.
  - repeat split; [done|lia|lia].
  - unfold FUEL. lia.
  - exists r, k'. split; [exact E|]. destruct HQ as (?&?&?&?). auto.
Qed.

(** ** Triples *)

(** Total correctness: from [P], [m] returns normally, in [Q]. *)
Definition triple {A} (P : kernel -> Prop) (m : K A) (Q : A -> kernel -> Prop) : Prop :=
  forall k, P k -> exists a k', m k = Ok a k' /\ Q a k'.

Lemma triple_ret {A} (P : kernel -> Prop) (a : A) (Q : A -> kernel -> Prop) :
  (forall k, P k -> Q a k) -> triple P (mret a) Q.
Proof. intros H k HP. exists a, k. auto. Qed.

Lemma triple_bind {A B} P (m : K A) Q (f : A -> K B) R :
  triple P m Q -> (forall a, triple (Q a) (f a) R) -> triple P (m ≫= f) R.
Proof.
  intros Hm Hf k HP. destruct (Hm k HP) as (a & k1 & E & HQ).
  rewrite (bind_ok _ _ _ _ _ E). by apply Hf.
Qed.

Lemma triple_weaken {A} (P P' : kernel -> Prop) (m : K A) (Q Q' : A -> kernel -> Prop) :
  triple P' m Q' -> (forall k, P k -> P' k) -> (forall a k, Q' a k -> Q a k) -> triple P m Q.
Proof. intros Hm HP HQ k Hk. destruct (Hm k (HP k Hk)) as (a & k' & E & H). eauto. Qed.

Lemma triple_gets {A} (f : kernel -> A) (P : kernel -> Prop) :
  triple P (gets f) (fun a k => P k /\ a = f k).
Proof. intros k HP. exists (f k), k. auto. Qed.

Lemma triple_modify (f : kernel -> kernel) (P Q : kernel -> Prop) :
  (forall k, P k -> Q (f k)) -> triple P (modify f) (fun _ => Q).
Proof. intros H k HP. exists (), (f k). auto. Qed.

Lemma triple_if {A} (b : bool) P (m1 m2 : K A) Q :
  (b = true -> triple P m1 Q) -> (b = false -> triple P m2 Q) ->
  triple P (if b then m1 else m2) Q.
Proof. destruct b; auto. Qed.

Lemma triple_pure {A} (phi : Prop) P (m : K A) Q :
  (phi -> triple P m Q) -> triple (fun k => phi /\ P k) m Q.
Proof. intros H k [Hphi HP]. by apply H. Qed.

(** Draw a fact out of the precondition. *)
Lemma triple_have {A} (phi : Prop) (P P' : kernel -> Prop) (m : K A) Q :
  (forall k, P k -> phi /\ P' k) -> (phi -> triple P' m Q) -> triple P m Q.
Proof. intros HP H k Hk. destruct (HP k Hk). by apply H. Qed.

Lemma triple_for_lt w hi step (body : Z -> K ()) (I : Z -> kernel -> Prop) lo :
  0 < step -> 0 <= lo -> 0 <= w <= 64 -> hi + step <= 2 ^ w ->
  (forall i, lo <= i < hi -> triple (I i) (body i) (fun _ => I (i + step))) ->
  triple (I lo) (for_lt w hi step body lo) (fun i k => I i k /\ lo <= i /\ hi <= i).
Proof.
  intros Hs Hlo Hw Hhi Hb k HI.
  assert (T : forall i k1, lo <= i < hi -> I i k1 ->
            exists k2, body i k1 = Ok () k2 /\ I (i + step) k2).
  { intros i k1 Hi HI1. destruct (Hb i Hi k1 HI1) as ([] & k2 & E & H). eauto. }
  edestruct (for_lt_total w hi step body I lo k) as (i & k' & E & HI' & ? & ? & _); eauto.
  exists i, k'. auto.
Qed.

Lemma triple_cloop {S R} (I : S -> kernel -> Prop) (mu : S -> Z) (body : S -> K (S + R))
    (Q : R -> kernel -> Prop) s :
  (forall s, triple (I s) (body s) (fun x k =>
     match x with inl s' => I s' k /\ 0 <= mu s' < mu s | inr r => Q r k end)) ->
  0 <= mu s < Z.pos FUEL ->
  triple (I s) (cloop body s) Q.
Proof.
  intros Hb Hmu k HI. apply (cloop_total I Q mu); auto.
Qed.

(** ** Address translation *)

(** What the page tables in force map a virtual address to. *)
Class AddrSpace := xlate : Z -> option Z.

Definition KERN_VIRT_OFFSET : Z := 0xFFFFFF8000000000.
Definition KERN_VIRT_TO_PHYS (x : Z) : Z := u64 (x - KERN_VIRT_OFFSET).
Definition KERN_PHYS_TO_VIRT (x : Z) : Z := u64 (x + KERN_VIRT_OFFSET).

(** The tables of [init.asm]: entries 0 and 511 of [p4_table] point to
    [p3_table], its entries 0 and 511 to [p2_table], whose 512 huge pages map
    the first gigabyte in order.  Addresses must be canonical. *)
Definition canonical (a : Z) : bool := (a <? 2 ^ 47) || (2 ^ 64 - 2 ^ 47 <=? a).
Definition boot_p4_present (i : Z) : bool := (i =? 0) || (i =? 511).
Definition boot_p3_present (i : Z) : bool := (i =? 0) || (i =? 511).
Definition boot_xlate (a : Z) : option Z :=
  if canonical a
     && boot_p4_present (Z.land (Z.shiftr a 39) 511)
     && boot_p3_present (Z.land (Z.shiftr a 30) 511)
  then Some (Z.land a (Z.ones 30)) else None.
Definition boot_space : AddrSpace := boot_xlate.

(** ** Bytes of RAM *)

Definition rb (m : gmap Z Z) (p : Z) : Z := default 0 (m !! p).

Fixpoint read_bytes (m : gmap Z Z) (p : Z) (n : nat) : list Z :=
  match n with
  | O => []
  | S n => rb m p :: read_bytes m (p + 1) n
  end.

Fixpoint write_bytes (m : gmap Z Z) (p : Z) (bs : list Z) : gmap Z Z :=
  match bs with
  | [] => m
  | b :: bs => write_bytes (<[p := b]> m) (p + 1) bs
  end.

(** Little-endian values. *)
Fixpoint le_val (bs : list Z) : Z :=
  match bs with
  | [] => 0
  | b :: bs => b + 256 * le_val bs
  end.

Fixpoint le_bytes (n : nat) (v : Z) : list Z :=
  match n with
  | O => []
  | S n => v mod 256 :: le_bytes n (v / 256)
  end.

Definition rdn (n : nat) (m : gmap Z Z) (p : Z) : Z := le_val (read_bytes m p n).
Definition wrn (n : nat) (m : gmap Z Z) (p v : Z) : gmap Z Z := write_bytes m p (le_bytes n v).

Definition byte (b : Z) : Prop := 0 <= b < 256.
(** Every cell of RAM holds a byte. *)
Definition ram_ok (m : gmap Z Z) : Prop := forall p, byte (rb m p).

Lemma rb_insert m p q b : rb (<[p := b]> m) q = if p =? q then b else rb m q.
Proof.
  unfold rb. destruct (Z.eqb_spec p q) as [->|].
  - by rewrite lookup_insert_eq.
  - by rewrite lookup_insert_ne.
Qed.

Lemma length_read_bytes m p n : length (read_bytes m p n) = n.
Proof. revert p. induction n; intros; simpl; auto. Qed.

Lemma length_le_bytes n v : length (le_bytes n v) = n.
Proof. revert v. induction n; intros; simpl; auto. Qed.

Lemma rb_write_bytes m p bs q :
  rb (write_bytes m p bs) q =
    if (p <=? q) && (q <? p + zlen bs) then nth (Z.to_nat (q - p)) bs 0 else rb m q.
Proof.
  revert m p. induction bs as [|b bs IH]; intros m p; simpl.
  - unfold zlen. simpl. bdestr; simpl; try lia; done.
  - rewrite IH, rb_insert, zlen_cons. pose proof (zlen_nonneg bs).
    bdestr; simpl; try lia; try done.
    + replace (Z.to_nat (q - p)) with (S (Z.to_nat (q - (p + 1)))) by lia. done.
    + subst. by rewrite Z.sub_diag.
Qed.

Lemma rb_write_other m p bs q :
  q < p \/ p + zlen bs <= q -> rb (write_bytes m p bs) q = rb m q.
Proof. intros. rewrite rb_write_bytes. bdestr; simpl; lia || done. Qed.

Lemma write_bytes_app m p l1 l2 :
  write_bytes m p (l1 ++ l2) = write_bytes (write_bytes m p l1) (p + zlen l1) l2.
Proof.
  revert m p. induction l1 as [|b l IH]; intros; simpl.
  - unfold zlen; simpl. by rewrite Z.add_0_r.
  - rewrite IH, zlen_cons. f_equal. lia.
Qed.

Lemma write_bytes_snoc m p l b :
  <[p + zlen l := b]> (write_bytes m p l) = write_bytes m p (l ++ [b]).
Proof. by rewrite write_bytes_app. Qed.

Lemma read_bytes_ext m m' p n :
  (forall q, p <= q < p + Z.of_nat n -> rb m q = rb m' q) ->
  read_bytes m p n = read_bytes m' p n.
Proof.
  revert p. induction n as [|n IH]; intros p H; simpl; [done|].
  rewrite H by lia. f_equal. apply IH. intros. apply H. lia.
Qed.

Lemma read_bytes_app m p a b :
  read_bytes m p (a + b) = read_bytes m p a ++ read_bytes m (p + Z.of_nat a) b.
Proof.
  revert p. induction a as [|a IH]; intros p; simpl.
  - by rewrite Z.add_0_r.
  - rewrite IH. do 2 f_equal. f_equal. lia.
Qed.

(** A slice of what was read is what is read there. *)
Lemma read_bytes_slice m p len o n :
  (o + n <= len)%nat -> read_bytes m (p + Z.of_nat o) n = take n (drop o (read_bytes m p len)).
Proof.
  intros H. replace len with (o + (n + (len - o - n)))%nat by lia. rewrite !read_bytes_app.
  rewrite drop_app_length' by (by rewrite length_read_bytes).
  by rewrite take_app_length' by (by rewrite length_read_bytes).
Qed.

Lemma nth_read_bytes m p n i :
  (i < n)%nat -> nth i (read_bytes m p n) 0 = rb m (p + Z.of_nat i).
Proof.
  revert p i. induction n as [|n IH]; intros p i Hi; [lia|]. simpl.
  destruct i as [|i]; [by rewrite Z.add_0_r|]. rewrite IH by lia. f_equal. lia.
Qed.

Lemma read_write_same m p bs : read_bytes (write_bytes m p bs) p (length bs) = bs.
Proof.
  revert m p. induction bs as [|b bs IH]; intros m p; simpl; [done|].
  rewrite IH. f_equal. rewrite rb_write_other by lia.
  rewrite rb_insert. by rewrite Z.eqb_refl.
Qed.

Lemma read_write_other m p bs q n :
  q + Z.of_nat n <= p \/ p + zlen bs <= q ->
  read_bytes (write_bytes m p bs) q n = read_bytes m q n.
Proof. intros. apply read_bytes_ext. intros. apply rb_write_other. lia. Qed.

Lemma lookup_write_bytes m p l q :
  write_bytes m p l !! q =
    if (p <=? q) && (q <? p + zlen l) then l !! Z.to_nat (q - p) else m !! q.
Proof.
  revert m p. induction l as [|b l IH]; intros m p; cbn [write_bytes].
  - unfold zlen. simpl. bdestr; simpl; try lia; done.
  - rewrite IH, zlen_cons. pose proof (zlen_nonneg l).
    destruct (Z.eq_dec q p) as [->|Hne].
    + rewrite lookup_insert_eq, Z.sub_diag. bdestr; simpl; lia || done.
    + rewrite lookup_insert_ne by congruence. bdestr; simpl; try lia; try done.
      by replace (Z.to_nat (q - p)) with (S (Z.to_nat (q - (p + 1)))) by lia.
Qed.

(** Writing over bytes just written. *)
Lemma write_bytes_over m p l1 l2 :
  length l1 = length l2 -> write_bytes (write_bytes m p l1) p l2 = write_bytes m p l2.
Proof.
  intros H. apply map_eq. intros q. rewrite !lookup_write_bytes. unfold zlen.
  rewrite H. by destruct (_ && _).
Qed.

Lemma write_bytes_insert m p (l : list Z) i b :
  0 <= i < zlen l ->
  <[p + i := b]> (write_bytes m p l) = write_bytes m p (<[Z.to_nat i := b]> l).
Proof.
  intros Hi. apply map_eq. intros q. rewrite lookup_write_bytes.
  unfold zlen in *. rewrite length_insert.
  destruct (Z.eq_dec q (p + i)) as [->|Hne].
  - rewrite lookup_insert_eq. replace (Z.to_nat (p + i - p)) with (Z.to_nat i) by lia.
    rewrite list_lookup_insert_eq by lia. bdestr; simpl; lia || done.
  - rewrite lookup_insert_ne, lookup_write_bytes by congruence. unfold zlen.
    bdestr; simpl; try done. by rewrite list_lookup_insert_ne by lia.
Qed.

Lemma le_val_bytes n v : le_val (le_bytes n v) = v mod 2 ^ (8 * Z.of_nat n).
Proof.
  revert v. induction n as [|n IH]; intros v; simpl le_bytes; simpl le_val.
  - change (8 * Z.of_nat 0) with 0. by rewrite Z.mod_1_r.
  - rewrite IH. replace (8 * Z.of_nat (S n)) with (8 + 8 * Z.of_nat n) by lia.
    rewrite Z.pow_add_r by lia. change (2 ^ 8) with 256.
    rewrite Z.rem_mul_r; [done|lia|]. apply Z.pow_pos_nonneg; lia.
Qed.

Lemma le_bytes_val bs : Forall byte bs -> le_bytes (length bs) (le_val bs) = bs.
Proof.
  induction 1 as [|b bs Hb _ IH]; [done|]. cbn [length le_bytes le_val]. unfold byte in Hb.
  replace ((b + 256 * le_val bs) mod 256) with b by dlia.
  replace ((b + 256 * le_val bs) / 256) with (le_val bs) by dlia. by rewrite IH.
Qed.

Lemma le_val_bound bs : Forall byte bs -> 0 <= le_val bs < 2 ^ (8 * zlen bs).
Proof.
  induction 1 as [|b bs Hb _ IH]; [done|]. rewrite zlen_cons. simpl le_val.
  replace (8 * (1 + zlen bs)) with (8 + 8 * zlen bs) by lia.
  rewrite Z.pow_add_r; [|lia|pose proof (zlen_nonneg bs); lia].
  change (2 ^ 8) with 256. unfold byte in Hb. lia.
Qed.

Lemma rdn_wrn_same n m p v : rdn n (wrn n m p v) p = v mod 2 ^ (8 * Z.of_nat n).
Proof.
  unfold rdn, wrn. rewrite <- le_val_bytes. f_equal.
  pose proof (read_write_same m p (le_bytes n v)) as H.
  by rewrite length_le_bytes in H.
Qed.

Lemma rdn_write_other n m p bs q :
  q + Z.of_nat n <= p \/ p + zlen bs <= q -> rdn n (write_bytes m p bs) q = rdn n m q.
Proof. intros. unfold rdn. by rewrite read_write_other. Qed.

Lemma zlen_le_bytes n v : zlen (le_bytes n v) = Z.of_nat n.
Proof. unfold zlen. by rewrite length_le_bytes. Qed.

Lemma rdn_wrn_other a n m p v q :
  q + Z.of_nat a <= p \/ p + Z.of_nat n <= q -> rdn a (wrn n m p v) q = rdn a m q.
Proof. intros. apply rdn_write_other. by rewrite zlen_le_bytes. Qed.

Lemma rb_wrn_other n m p v q :
  q < p \/ p + Z.of_nat n <= q -> rb (wrn n m p v) q = rb m q.
Proof. intros. apply rb_write_other. by rewrite zlen_le_bytes. Qed.

Lemma ram_ok_insert m p b : ram_ok m -> byte b -> ram_ok (<[p := b]> m).
Proof. intros Hm Hb q. rewrite rb_insert. by destruct (p =? q). Qed.

Lemma ram_ok_write m p bs : ram_ok m -> Forall byte bs -> ram_ok (write_bytes m p bs).
Proof.
  intros Hm Hbs. revert m p Hm. induction Hbs; intros; simpl; [done|].
  auto using ram_ok_insert.
Qed.

Lemma le_bytes_byte n v : Forall byte (le_bytes n v).
Proof.
  revert v. induction n; intros; simpl; constructor; [|done].
  apply Z.mod_pos_bound. lia.
Qed.

Lemma ram_ok_wrn n m p v : ram_ok m -> ram_ok (wrn n m p v).
Proof. intros. apply ram_ok_write; [done|apply le_bytes_byte]. Qed.

Lemma rdn_ext n m m' p :
  (forall q, p <= q < p + Z.of_nat n -> rb m q = rb m' q) -> rdn n m p = rdn n m' p.
Proof. intros. unfold rdn. by rewrite (read_bytes_ext m m'). Qed.

Lemma rdn_bound n m p : ram_ok m -> 0 <= rdn n m p < 2 ^ (8 * Z.of_nat n).
Proof.
  intros Hm. unfold rdn.
  pose proof (le_val_bound (read_bytes m p n)) as H.
  unfold zlen in H. rewrite length_read_bytes in H. apply H.
  clear H. revert p. induction n; intros; simpl; constructor; auto.
Qed.

(** Writing back what was read changes no byte. *)
Lemma rb_wrn_rdn n m p q : ram_ok m -> rb (wrn n m p (rdn n m p)) q = rb m q.
Proof.
  intros Hm. unfold wrn, rdn.
  assert (Forall byte (read_bytes m p n)) as Hb.
  { clear q. revert p. induction n; intros; simpl; constructor; auto. }
  pose proof (le_bytes_val _ Hb) as E. rewrite length_read_bytes in E. rewrite E, rb_write_bytes.
  unfold zlen. rewrite length_read_bytes. bdestr; simpl; try done.
  rewrite nth_read_bytes by lia. f_equal. lia.
Qed.

(** ** Loads and stores *)

Section Access.
Context `{AS : AddrSpace}.

Definition load8 (a : Z) : K Z := fun k =>
  match xlate (u64 a) with
  | Some p => Ok (rb (ram k) p) k
  | None => Fault k
  end.

Definition store8 (a v : Z) : K () := fun k =>
  match xlate (u64 a) with
  | Some p => Ok () (with_ram (<[p := u8 v]> (ram k)) k)
  | None => Fault k
  end.

Fixpoint loadn (n : nat) (a : Z) : K Z :=
  match n with
  | O => mret 0
  | S n => b ← load8 a; r ← loadn n (a + 1); mret (b + 256 * r)
  end.

Fixpoint storen (n : nat) (a v : Z) : K () :=
  match n with
  | O => mret ()
  | S n => store8 a v ;; storen n (a + 1) (v / 256)
  end.

(** [n] bytes from virtual address [a] are mapped, in order, to the [n]
    bytes from physical address [p]. *)
Definition window (a p n : Z) : Prop :=
  forall i, 0 <= i < n -> xlate (u64 (a + i)) = Some (p + i).

Lemma window_sub a p n o l :
  window a p n -> 0 <= o -> o + l <= n -> window (a + o) (p + o) l.
Proof.
  intros W Ho Hl i Hi. rewrite <- !Z.add_assoc. apply W. lia.
Qed.

Lemma window_u64 a p n : window (u64 a) p n <-> window a p n.
Proof. unfold window. by setoid_rewrite u_add_l. Qed.

Lemma window_le a p n l : window a p n -> l <= n -> window a p l.
Proof. intros W Hl i Hi. apply W. lia. Qed.

Lemma load8_ok a p k : window a p 1 -> load8 a k = Ok (rb (ram k) p) k.
Proof.
  intros W. unfold load8. specialize (W 0 ltac:(lia)).
  rewrite !Z.add_0_r in W. by rewrite W.
Qed.

Lemma store8_ok a p v k :
  window a p 1 -> store8 a v k = Ok () (with_ram (<[p := u8 v]> (ram k)) k).
Proof.
  intros W. unfold store8. specialize (W 0 ltac:(lia)).
  rewrite !Z.add_0_r in W. by rewrite W.
Qed.

Lemma ram_with_ram r k : ram (with_ram r k) = r.
Proof. by destruct k. Qed.

Lemma ram_with_vga v k : ram (with_vga v k) = ram k.
Proof. by destruct k. Qed.

Lemma ram_with_trace t k : ram (with_trace t k) = ram k.
Proof. by destruct k. Qed.

Lemma with_ram_with_ram r r' k : with_ram r (with_ram r' k) = with_ram r k.
Proof. by destruct k. Qed.

Lemma with_ram_id k : with_ram (ram k) k = k.
Proof. by destruct k. Qed.

Lemma loadn_ok n a p k :
  window a p (Z.of_nat n) -> loadn n a k = Ok (rdn n (ram k) p) k.
Proof.
  revert a p. induction n as [|n IH]; intros a p W; simpl; [done|].
  assert (window a p 1) as W1 by (eapply window_le; [exact W|lia]).
  rewrite (bind_ok _ _ _ _ _ (load8_ok _ _ k W1)).
  assert (window (a + 1) (p + 1) (Z.of_nat n)) as W2.
  { eapply window_sub; [exact W|lia|lia]. }
  rewrite (bind_ok _ _ _ _ _ (IH _ _ W2)). done.
Qed.

Lemma storen_ok n a p v k :
  window a p (Z.of_nat n) -> storen n a v k = Ok () (with_ram (wrn n (ram k) p v) k).
Proof.
  revert a p v k. induction n as [|n IH]; intros a p v k W; simpl.
  - unfold wrn. simpl. by rewrite with_ram_id.
  - assert (window a p 1) as W1 by (eapply window_le; [exact W|lia]).
    rewrite (bind_ok _ _ _ _ _ (store8_ok _ _ v k W1)).
    assert (window (a + 1) (p + 1) (Z.of_nat n)) as W2.
    { eapply window_sub; [exact W|lia|lia]. }
    rewrite (IH _ _ _ _ W2), with_ram_with_ram, ram_with_ram. done.
Qed.

(** The same at an offset of a larger window. *)
Lemma loadn_at n a p len a' o k :
  window a p len -> a' = a + o -> 0 <= o -> o + Z.of_nat n <= len ->
  loadn n a' k = Ok (rdn n (ram k) (p + o)) k.
Proof. intros W -> Ho Hl. apply loadn_ok. by eapply window_sub. Qed.

Lemma storen_at n a p len a' o v k :
  window a p len -> a' = a + o -> 0 <= o -> o + Z.of_nat n <= len ->
  storen n a' v k = Ok () (with_ram (wrn n (ram k) (p + o) v) k).
Proof. intros W -> Ho Hl. apply storen_ok. by eapply window_sub. Qed.

Definition load32 := loadn 4.
Definition load64 := loadn 8.
Definition store32 := storen 4.
Definition store64 := storen 8.
End Access.

(** The low gigabyte is visible both at its own address and in the kernel's
    high window. *)
Lemma boot_window_low a n :
  0 <= a -> a + n <= 2 ^ 30 -> window (AS := boot_space) a a n.
Proof.
  intros Ha Hn i Hi. unfold xlate, boot_space, boot_xlate.
  rewrite u_small by lia.
  assert (canonical (a + i) = true) as ->.
  { unfold canonical. apply orb_true_iff. left. apply Z.ltb_lt. lia. }
  rewrite !Z.shiftr_div_pow2 by lia.
  rewrite !(Z.div_small (a + i)) by lia. simpl.
  rewrite Z.land_ones by lia. rewrite Z.mod_small by lia. done.
Qed.

Lemma boot_window_high a n :
  0 <= a -> a + n <= 2 ^ 30 ->
  window (AS := boot_space) (KERN_VIRT_OFFSET + a) a n.
Proof.
  intros Ha Hn i Hi. unfold xlate, boot_space, boot_xlate, KERN_VIRT_OFFSET.
  rewrite u_small by lia.
  assert (canonical (0xFFFFFF8000000000 + a + i) = true) as ->.
  { unfold canonical. apply orb_true_iff. right. apply Z.leb_le. lia. }
  rewrite !Z.shiftr_div_pow2 by lia.
  assert ((0xFFFFFF8000000000 + a + i) / 2 ^ 39 = 0x1FFFFFF) as -> by dlia.
  assert ((0xFFFFFF8000000000 + a + i) / 2 ^ 30 = 0x3FFFFFE00) as -> by dlia.
  change (Z.land 0x1FFFFFF 511) with 511. change (Z.land 0x3FFFFFE00 511) with 0.
  simpl. rewrite Z.land_ones by lia. f_equal. dlia.
Qed.

(** The macro maps the low window to the high one. *)
Lemma boot_window_virt a n :
  0 <= a -> 0 <= n -> a + n <= 2 ^ 30 ->
  window (AS := boot_space) (KERN_PHYS_TO_VIRT a) a n.
Proof.
  intros. unfold KERN_PHYS_TO_VIRT. apply window_u64.
  rewrite Z.add_comm. by apply boot_window_high.
Qed.

Lemma phys_virt_phys a : 0 <= a < 2 ^ 64 -> KERN_VIRT_TO_PHYS (KERN_PHYS_TO_VIRT a) = a.
Proof.
  intros. unfold KERN_VIRT_TO_PHYS, KERN_PHYS_TO_VIRT.
  rewrite u_sub_add. by apply u_small.
Qed.

(** ** Port I/O *)

(** The devices: the value an [inb] returns, given everything that happened
    on the bus before it. *)
Class Device := dev_in8 : list io_event -> Z -> Z.

Section Ports.
Context `{DV : Device}.

Definition emit (e : io_event) : K () := modify (fun k => with_trace (e :: trace k) k).

Definition x86inb (port : Z) : K Z := fun k =>
  let v := u8 (dev_in8 (trace k) (u16 port)) in
  Ok v (with_trace (EvIn (u16 port) v :: trace k) k).

Definition x86outb (port val : Z) : K () := emit (EvOut (u16 port) (u8 val)).

(** [x86_io_stall] writes whatever is in [al] to port 0x80. *)
Definition x86_io_stall : K () := emit EvStall.

Definition FlushTLB : K () := emit EvFlushTLB.

Definition KiRestoreInterrupts (value : Z) : K () :=
  if negb (value =? 0) then emit EvSti else emit EvCli.
End Ports.

(** The kernel's statics as the loader leaves them: everything zero. *)
Definition vga0 : VgaContext := mkVgaContext 0 0 0 0 0 0 0 0 0 0 0 0 0.
Definition kernel0 : kernel :=
  Kernel ∅ [] vga0 false (mkMmState 0 0 0) (mkAllocatorState 0 0 (Some 0) 0)
    (mkKeyboard 0 0 0 0) 0 (mkDescPointer 0 0) (mkDescPointer 0 0)
    (mkBootInfo 0 0 0 0) 0 0.

Lemma ram_ok_empty : ram_ok ∅.
Proof. intros p. unfold rb. rewrite lookup_empty. unfold byte. simpl. lia. Qed.

Create HintDb kern.
Create Rewrite HintDb kern.
#[export] Hint Rewrite @ram_with_ram @with_ram_with_ram ram_with_vga ram_with_trace : kern.
#[export] Hint Resolve le_bytes_byte ram_ok_insert ram_ok_write : kern.

(** Run the next primitive of the program with a lemma for it. *)
Ltac kstep L := rewrite (bind_ok _ _ _ _ _ L); cbv beta.

(** Run an assignment to the kernel's statics. *)
Ltac kmodify :=
  match goal with |- context [mbind _ (modify ?f) ?k] =>
    rewrite (bind_ok (modify f) _ k () (f k) eq_refl); cbv beta
  end.
