(* ===== verification/Status.v ===== *)
(** * Status codes

    The kernel's [FERALSTATUS] values ([inc/feral/feralstatus.h]) with
    [KiGetErrorType] ([sec/sec.c]), and the firmware's [EFI_STATUS] values with
    [EfiErrorToString] ([kern/inc/libreefi/efistatus.h]).  A function that
    returns a string literal returns its text here. *)

From S2P Require Import Prelude.

(** ** FERALSTATUS *)

Definition STATUS_SEVERITY_SUCCESS : Z := 0x00000000.
Definition STATUS_SEVERITY_INFORMATIONAL : Z := 0x40000000.
Definition STATUS_SEVERITY_WARNING : Z := 0x80000000.
Definition STATUS_SEVERITY_ERROR : Z := 0xC0000000.

(** The enumeration, with the constructors the code names. *)
Inductive FERALSTATUS :=
| STATUS_SUCCESS
| STATUS_INFORMATIONAL
| STATUS_WAS_UNLOCKED
| STATUS_WARNING
| STATUS_UNAUTHORIZED_MEMORY_LOCATION
| STATUS_UNSUPPORTED_OPERATION
| STATUS_ERROR
| STATUS_STACK_GUARD_VIOLATION
| STATUS_MEMORY_ACCESS_VIOLATION
| STATUS_MEMORY_PAGE_FAILURE
| STATUS_MEMORY_PAGE_CONFLICT
| STATUS_WRONG_VOLUME
| STATUS_NO_MEDIA_IN_DEVICE
| STATUS_UNRECOGNIZED_MEDIA
| STATUS_NONEXISTENT_SECTOR
| STATUS_OUT_OF_MEMORY
| STATUS_INVALID_MEMORY_LOCATION
| STATUS_INVALID_OPCODE.

#[export] Instance FERALSTATUS_eq_dec : EqDecision FERALSTATUS.
Proof. solve_decision. Defined.

(** The integer each enumerator stands for. *)
Definition status_val (st : FERALSTATUS) : Z :=
  match st with
  | STATUS_SUCCESS => STATUS_SEVERITY_SUCCESS
  | STATUS_INFORMATIONAL => STATUS_SEVERITY_INFORMATIONAL
  | STATUS_WAS_UNLOCKED => Z.lor STATUS_SEVERITY_INFORMATIONAL 0x00000017
  | STATUS_WARNING => STATUS_SEVERITY_WARNING
  | STATUS_UNAUTHORIZED_MEMORY_LOCATION => Z.lor STATUS_SEVERITY_WARNING 0x000000A0
  | STATUS_UNSUPPORTED_OPERATION => Z.lor STATUS_SEVERITY_WARNING 0x0000F0A1
  | STATUS_ERROR => STATUS_SEVERITY_ERROR
  | STATUS_STACK_GUARD_VIOLATION => Z.lor STATUS_SEVERITY_ERROR 0x00000001
  | STATUS_MEMORY_ACCESS_VIOLATION => Z.lor STATUS_SEVERITY_ERROR 0x00000005
  | STATUS_MEMORY_PAGE_FAILURE => Z.lor STATUS_SEVERITY_ERROR 0x00000006
  | STATUS_MEMORY_PAGE_CONFLICT => Z.lor STATUS_SEVERITY_ERROR 0x00000007
  | STATUS_WRONG_VOLUME => Z.lor STATUS_SEVERITY_ERROR 0x00000012
  | STATUS_NO_MEDIA_IN_DEVICE => Z.lor STATUS_SEVERITY_ERROR 0x00000013
  | STATUS_UNRECOGNIZED_MEDIA => Z.lor STATUS_SEVERITY_ERROR 0x00000014
  | STATUS_NONEXISTENT_SECTOR => Z.lor STATUS_SEVERITY_ERROR 0x00000015
  | STATUS_OUT_OF_MEMORY => Z.lor STATUS_SEVERITY_ERROR 0x00000017
  | STATUS_INVALID_MEMORY_LOCATION => Z.lor STATUS_SEVERITY_ERROR 0x000000A0
  | STATUS_INVALID_OPCODE => Z.lor STATUS_SEVERITY_ERROR 0x00080001
  end.

(** The C comparison [a == b] of two status values. *)
Definition status_eqb (a b : FERALSTATUS) : bool := status_val a =? status_val b.

Definition all_status : list FERALSTATUS :=
  [STATUS_SUCCESS; STATUS_INFORMATIONAL; STATUS_WAS_UNLOCKED; STATUS_WARNING;
   STATUS_UNAUTHORIZED_MEMORY_LOCATION; STATUS_UNSUPPORTED_OPERATION; STATUS_ERROR;
   STATUS_STACK_GUARD_VIOLATION; STATUS_MEMORY_ACCESS_VIOLATION;
   STATUS_MEMORY_PAGE_FAILURE; STATUS_MEMORY_PAGE_CONFLICT; STATUS_WRONG_VOLUME;
   STATUS_NO_MEDIA_IN_DEVICE; STATUS_UNRECOGNIZED_MEDIA; STATUS_NONEXISTENT_SECTOR;
   STATUS_OUT_OF_MEMORY; STATUS_INVALID_MEMORY_LOCATION; STATUS_INVALID_OPCODE].

Lemma all_status_complete st : In st all_status.
Proof. destruct st; simpl; tauto. Qed.

Lemma status_val_inj a b : status_val a = status_val b -> a = b.
Proof. destruct a, b; intros H; first [reflexivity | discriminate H]. Qed.

Lemma status_eqb_eq a b : status_eqb a b = true <-> a = b.
Proof.
  unfold status_eqb. rewrite Z.eqb_eq. split; [apply status_val_inj | by intros ->].
Qed.

Lemma status_eqb_refl a : status_eqb a a = true.
Proof. by apply status_eqb_eq. Qed.

(** [KiGetErrorType]. *)
Definition KiGetErrorType (Status : FERALSTATUS) : string :=
  if status_eqb Status STATUS_SUCCESS then "STATUS_SUCCESS"
  else if status_eqb Status STATUS_STACK_GUARD_VIOLATION then "STATUS_STACK_GUARD_VIOLATION"
  else if status_eqb Status STATUS_MEMORY_ACCESS_VIOLATION
  then "STATUS_MEMORY_ACCESS_VIOLATION"
  else if status_eqb Status STATUS_MEMORY_PAGE_FAILURE then "STATUS_MEMORY_PAGE_FAILURE"
  else if status_eqb Status STATUS_INVALID_MEMORY_LOCATION
  then "STATUS_INVALID_MEMORY_LOCATION"
  else if status_eqb Status STATUS_OUT_OF_MEMORY then "STATUS_OUT_OF_MEMORY"
  else if status_eqb Status STATUS_INVALID_OPCODE then "STATUS_INVALID_OPCODE"
  else "OTHER_ERROR".

(** ** EFI_STATUS *)

Definition EFI_STATUS := Z.
Definition EFI_WARN (x : Z) : EFI_STATUS := Z.lor 0x0000000000000000 x.
Definition EFI_ERROR (x : Z) : EFI_STATUS := Z.lor 0x8000000000000000 x.
Definition EFI_SUCCESS : EFI_STATUS := 0.
Definition EFI_LOAD_ERROR : EFI_STATUS := EFI_ERROR 1.
Definition EFI_INVALID_PARAMETER : EFI_STATUS := EFI_ERROR 2.
Definition EFI_UNSUPPORTED : EFI_STATUS := EFI_ERROR 3.
Definition EFI_BAD_BUFFER_SIZE : EFI_STATUS := EFI_ERROR 4.
Definition EFI_BUFFER_TOO_SMALL : EFI_STATUS := EFI_ERROR 5.
Definition EFI_NOT_READY : EFI_STATUS := EFI_ERROR 6.
Definition EFI_DEVICE_ERROR : EFI_STATUS := EFI_ERROR 7.
Definition EFI_WRITE_PROTECTED : EFI_STATUS := EFI_ERROR 8.
Definition EFI_OUT_OF_RESOURCES : EFI_STATUS := EFI_ERROR 9.
Definition EFI_VOLUME_CORRUPTED : EFI_STATUS := EFI_ERROR 10.
Definition EFI_VOLUME_FULL : EFI_STATUS := EFI_ERROR 11.
Definition EFI_NO_MEDIA : EFI_STATUS := EFI_ERROR 12.
Definition EFI_MEDIA_CHANGED : EFI_STATUS := EFI_ERROR 13.
Definition EFI_NOT_FOUND : EFI_STATUS := EFI_ERROR 14.
Definition EFI_ACCESS_DENIED : EFI_STATUS := EFI_ERROR 15.
Definition EFI_NO_RESPONSE : EFI_STATUS := EFI_ERROR 16.
Definition EFI_NO_MAPPING : EFI_STATUS := EFI_ERROR 17.
Definition EFI_TIMEOUT : EFI_STATUS := EFI_ERROR 18.
Definition EFI_NOT_STARTED : EFI_STATUS := EFI_ERROR 19.
Definition EFI_ALREADY_STARTED : EFI_STATUS := EFI_ERROR 20.
Definition EFI_ABORTED : EFI_STATUS := EFI_ERROR 21.
Definition EFI_ICMP_ERROR : EFI_STATUS := EFI_ERROR 22.
Definition EFI_TFTP_ERROR : EFI_STATUS := EFI_ERROR 23.
Definition EFI_PROTOCOL_ERROR : EFI_STATUS := EFI_ERROR 24.
Definition EFI_INCOMPATIBLE_VERSION : EFI_STATUS := EFI_ERROR 25.
Definition EFI_SECURITY_VIOLATION : EFI_STATUS := EFI_ERROR 26.
Definition EFI_CRC_ERROR : EFI_STATUS := EFI_ERROR 27.
Definition EFI_END_OF_MEDIA : EFI_STATUS := EFI_ERROR 28.
Definition EFI_END_OF_FILE : EFI_STATUS := EFI_ERROR 31.
Definition EFI_INVALID_LANGUAGE : EFI_STATUS := EFI_ERROR 32.
Definition EFI_COMPROMISED_DATA : EFI_STATUS := EFI_ERROR 33.
Definition EFI_IP_ADDRESS_CONFLICT : EFI_STATUS := EFI_ERROR 34.
Definition EFI_HTTP_ERROR : EFI_STATUS := EFI_ERROR 35.
Definition EFI_WARN_UNKNOWN_GLYPH : EFI_STATUS := EFI_WARN 1.
Definition EFI_WARN_DELETE_FAILURE : EFI_STATUS := EFI_WARN 2.
Definition EFI_WARN_WRITE_FAILURE : EFI_STATUS := EFI_WARN 3.
Definition EFI_WARN_BUFFER_TOO_SMALL : EFI_STATUS := EFI_WARN 4.
Definition EFI_WARN_STALE_DATA : EFI_STATUS := EFI_WARN 5.
Definition EFI_WARN_FILE_SYSTEM : EFI_STATUS := EFI_WARN 6.
Definition EFI_WARN_RESET_REQUIRED : EFI_STATUS := EFI_WARN 7.

(** The cases of the switch in [EfiErrorToString], in order, and its text. *)
Definition efi_cases : list (EFI_STATUS * string) :=
  [(EFI_SUCCESS, "EFI_SUCCESS"%string);
   (EFI_LOAD_ERROR, "EFI_LOAD_ERROR"%string);
   (EFI_INVALID_PARAMETER, "EFI_INVALID_PARAMETER"%string);
   (EFI_UNSUPPORTED, "EFI_UNSUPPORTED"%string);
   (EFI_BAD_BUFFER_SIZE, "EFI_BAD_BUFFER_SIZE"%string);
   (EFI_BUFFER_TOO_SMALL, "EFI_BAD_BUFFER_SIZE"%string);
   (EFI_NOT_READY, "EFI_NOT_READY"%string);
   (EFI_DEVICE_ERROR, "EFI_DEVICE_ERROR"%string);
   (EFI_WRITE_PROTECTED, "EFI_WRITE_PROTECTED"%string);
   (EFI_OUT_OF_RESOURCES, "EFI_OUT_OF_RESOURCES"%string);
   (EFI_VOLUME_CORRUPTED, "EFI_VOLUME_CORRUPTED"%string);
   (EFI_VOLUME_FULL, "EFI_VOLUME_FULL"%string);
   (EFI_NO_MEDIA, "EFI_NO_MEDIA"%string);
   (EFI_MEDIA_CHANGED, "EFI_MEDIA_CHANGED"%string);
   (EFI_NOT_FOUND, "EFI_NOT_FOUND"%string);
   (EFI_ACCESS_DENIED, "EFI_ACCESS_DENIED"%string);
   (EFI_NO_RESPONSE, "EFI_NO_RESPONSE"%string);
   (EFI_NO_MAPPING, "EFI_NO_MAPPING"%string);
   (EFI_TIMEOUT, "EFI_TIMEOUT"%string);
   (EFI_NOT_STARTED, "EFI_NOT_STARTED"%string);
   (EFI_ALREADY_STARTED, "EFI_ALREADY_STARTED"%string);
   (EFI_ABORTED, "EFI_ABORTED"%string);
   (EFI_ICMP_ERROR, "EFI_ICMP_ERROR"%string);
   (EFI_TFTP_ERROR, "EFI_TFTP_ERROR"%string);
   (EFI_PROTOCOL_ERROR, "EFI_PROTOCOL_ERROR"%string);
   (EFI_INCOMPATIBLE_VERSION, "EFI_INCOMPATIBLE_VERSION"%string);
   (EFI_SECURITY_VIOLATION, "EFI_SECURITY_VIOLATION"%string);
   (EFI_CRC_ERROR, "EFI_CRC_ERROR"%string);
   (EFI_END_OF_MEDIA, "EFI_END_OF_MEDIA"%string);
   (EFI_END_OF_FILE, "EFI_END_OF_FILE"%string);
   (EFI_INVALID_LANGUAGE, "EFI_INVALID_LANGUAGE"%string);
   (EFI_COMPROMISED_DATA, "EFI_COMPROMISED_DATA"%string);
   (EFI_IP_ADDRESS_CONFLICT, "EFI_IP_ADDRESS_CONFLICT"%string);
   (EFI_HTTP_ERROR, "EFI_HTTP_ERROR"%string);
   (EFI_WARN_UNKNOWN_GLYPH, "EFI_WARN_UNKNOWN_GLYPH"%string);
   (EFI_WARN_DELETE_FAILURE, "EFI_WARN_DELETE_FAILURE"%string);
   (EFI_WARN_WRITE_FAILURE, "EFI_WARN_WRITE_FAILURE"%string);
   (EFI_WARN_BUFFER_TOO_SMALL, "EFI_WARN_BUFFER_TOO_SMALL"%string);
   (EFI_WARN_STALE_DATA, "EFI_WARN_STALE_DATA"%string);
   (EFI_WARN_FILE_SYSTEM, "EFI_WARN_FILE_SYSTEM"%string);
   (EFI_WARN_RESET_REQUIRED, "EFI_WARN_RESET_REQUIRED"%string)].

Fixpoint efi_switch (cases : list (EFI_STATUS * string)) (Status : EFI_STATUS) : string :=
  match cases with
  | [] => "Unknown EFI status?"
  | (c, text) :: rest => if Status =? c then text else efi_switch rest Status
  end.

Definition EfiErrorToString (Status : EFI_STATUS) : string := efi_switch efi_cases Status.

(** ** Properties *)

(** distinct enumerators are distinct 32-bit values, so the code's
    comparisons of status values identify exactly the enumerator; and the
    text [KiGetErrorType] returns determines the status, unless it is the
    catch-all [OTHER_ERROR]. *)
Theorem KiGetErrorType_faithful (a b : FERALSTATUS) :
  0 <= status_val a < 2 ^ 32
  /\ (status_eqb a b = true <-> a = b)
  /\ (KiGetErrorType a = KiGetErrorType b -> a = b \/ KiGetErrorType a = "OTHER_ERROR"%string).
Proof.
  split; [|split; [apply status_eqb_eq|]].
  - destruct a; simpl; vm_compute; split; congruence.
  - destruct a, b; vm_compute; intros H; try discriminate H; auto.
Qed.

Lemma efi_switch_in cases Status text :
  In (Status, text) cases -> NoDup (map fst cases) -> efi_switch cases Status = text.
Proof.
  induction cases as [|[c t] rest IH]; [done|]. simpl. intros Hin Hnd.
  apply NoDup_cons in Hnd as [Hn Hnd]. destruct (Z.eqb_spec Status c) as [->|Hne].
  - destruct Hin as [[= ->]|Hin]; [done|]. exfalso. apply Hn.
    apply list_elem_of_In, in_map_iff. by exists (c, text).
  - destruct Hin as [[= -> ->]|Hin]; [done|]. auto.
Qed.

(** every [case] of the switch in [EfiErrorToString] is a different
    value, so each is reachable and returns its own text; the name returned
    determines the code except that [EFI_BUFFER_TOO_SMALL] is reported under
    the name of [EFI_BAD_BUFFER_SIZE]. *)
Theorem EfiErrorToString_cases (Status : EFI_STATUS) (text : string) :
  In (Status, text) efi_cases ->
  EfiErrorToString Status = text
  /\ (forall Status', In Status' (map fst efi_cases) -> EfiErrorToString Status' = text ->
        Status' = Status
        \/ (text = "EFI_BAD_BUFFER_SIZE"%string
            /\ In Status [EFI_BAD_BUFFER_SIZE; EFI_BUFFER_TOO_SMALL]
            /\ In Status' [EFI_BAD_BUFFER_SIZE; EFI_BUFFER_TOO_SMALL])).
Proof.
  assert (NoDup (map fst efi_cases)) as Hnd.
  { apply (bool_decide_unpack _). by vm_compute. }
  intros Hin. split; [by apply efi_switch_in|].
  intros Status' Hin' Ht.
  apply in_map_iff in Hin' as ([c t'] & [= ->] & Hin').
  rewrite (efi_switch_in _ _ _ Hin' Hnd : EfiErrorToString Status' = t') in Ht. subst t'.
  assert (forallb (fun x => forallb (fun y =>
      negb (String.eqb (snd x) (snd y)) || (fst x =? fst y) ||
      (String.eqb (snd x) "EFI_BAD_BUFFER_SIZE"
       && existsb (Z.eqb (fst x)) [EFI_BAD_BUFFER_SIZE; EFI_BUFFER_TOO_SMALL]
       && existsb (Z.eqb (fst y)) [EFI_BAD_BUFFER_SIZE; EFI_BUFFER_TOO_SMALL]))
      efi_cases) efi_cases = true) as Hall by (vm_compute; reflexivity).
  rewrite forallb_forall in Hall. specialize (Hall _ Hin).
  rewrite forallb_forall in Hall. specialize (Hall _ Hin'). simpl fst in Hall. simpl snd in Hall.
  rewrite String.eqb_refl in Hall. simpl in Hall.
  apply orb_true_iff in Hall as [H|H]; [left; by apply Z.eqb_eq in H|right].
  apply andb_true_iff in H as [H H2]. apply andb_true_iff in H as [H H1].
  apply String.eqb_eq in H.
  repeat split; [done|clear H2|clear H1].
  all: rewrite !orb_true_iff, !Z.eqb_eq in *; simpl; intuition congruence.
Qed.

Lemma EfiErrorToString_cases_witness :
  EfiErrorToString EFI_BUFFER_TOO_SMALL = "EFI_BAD_BUFFER_SIZE"%string.
Proof.
  apply (EfiErrorToString_cases EFI_BUFFER_TOO_SMALL "EFI_BAD_BUFFER_SIZE"%string).
  vm_compute. tauto.
Defined.
