(* ===== verification/MemFuncs.v ===== *)
(** * Memory routines ([kern/lib/kernel_memfuncs.c])

    [KiCopyMemory], [KiCompareMemory] and [KiSetMemoryBytes] work in blocks of
    four bytes, followed by a loop for the rest; the block loop runs while
    [Index < Amount], so it already covers the rest and up to three bytes more.
    The theorems give the exact memory each routine leaves. *)

From S2P Require Import Prelude Machine Status.

Definition NULL : Z := 0.

Section MemFuncs.
  Context `{AS : AddrSpace}.

(** [dstAsChar[Index + o] = srcAsChar[Index + o]], [Index] being a [UINT32]. *)
Definition copy_char (Dest Source Index o : Z) : K () :=
  c ← load8 (Source + u32 (Index + o));
  store8 (Dest + u32 (Index + o)) c.

Definition KiCopyMemory (Dest Source Amount : Z) : K FERALSTATUS :=
  if (Source =? NULL) || (Dest =? NULL) then mret STATUS_INVALID_MEMORY_LOCATION
  else
    Index ← for_lt 32 Amount 4 (fun Index =>
      copy_char Dest Source Index 0 ;;
      copy_char Dest Source Index 1 ;;
      copy_char Dest Source Index 2 ;;
      copy_char Dest Source Index 3) 0;
    for_lt 32 Amount 1 (fun Index => copy_char Dest Source Index 0) Index ;;
    mret STATUS_SUCCESS.

(** [dstAsChar[Index + o] == srcAsChar[Index + o]]. *)
Definition same_char (Source Dest Index o : Z) : K bool :=
  d ← load8 (Dest + u32 (Index + o));
  s ← load8 (Source + u32 (Index + o));
  mret (d =? s).

(** The first loop: pointer-sized values compared at every offset. *)
Definition compare_words (Source Dest Amount : Z) : Z * Z -> K Z :=
  cloop (fun '(i, Val) =>
    if i <? Amount then
      s ← load64 (Source + i);
      d ← load64 (Dest + i);
      if s =? d then mret (inl (u64 (i + 1), 1)) else mret (inr 0)
    else mret (inr Val)).

(** [*Val] is passed in and handed back: it is left alone on an error. *)
Definition KiCompareMemory (Source Dest Amount Val : Z) : K (FERALSTATUS * Z) :=
  if (Source =? NULL) || (Dest =? NULL) then mret (STATUS_INVALID_MEMORY_LOCATION, Val)
  else
    _ ← compare_words Source Dest Amount (0, Val);
    '(Index, c1, c2, c3, c4) ←
      cloop (fun '(Index, c1, c2, c3, c4) =>
        if Index <? Amount then
          e1 ← same_char Source Dest Index 0;
          e2 ← same_char Source Dest Index 1;
          e3 ← same_char Source Dest Index 2;
          e4 ← same_char Source Dest Index 3;
          mret (inl (u32 (Index + 4), c1 && e1, c2 && e2, c3 && e3, c4 && e4))
        else mret (inr (Index, c1, c2, c3, c4)))
        (0, true, true, true, true);
    c1 ←
      cloop (fun '(Index, c1) =>
        if Index <? Amount then
          e1 ← same_char Source Dest Index 0;
          mret (inl (u32 (Index + 1), c1 && e1))
        else mret (inr c1)) (Index, c1);
    mret (STATUS_SUCCESS, b2z (c1 && c2 && c3 && c4)).

Definition KiSetMemoryBytes (Dest Val Amt : Z) : K FERALSTATUS :=
  Index ← for_lt 64 Amt 4 (fun Index =>
    store8 (Dest + (Index + 0)) Val ;;
    store8 (Dest + (Index + 1)) Val ;;
    store8 (Dest + (Index + 2)) Val ;;
    store8 (Dest + (Index + 3)) Val) 0;
  for_lt 64 Amt 1 (fun Index => store8 (Dest + (Index + 0)) Val) Index ;;
  mret STATUS_SUCCESS.

End MemFuncs.

(** ** What the block loops touch *)

(** The number of bytes the block loops cover for a request of [n]. *)
Definition round4 (n : Z) : Z := 4 * ((n + 3) / 4).

Lemma round4_bounds n : 0 <= n -> n <= round4 n < n + 4 /\ round4 n mod 4 = 0.
Proof. intros. unfold round4. split; [dlia|]. rewrite Z.mul_comm. apply Z.mod_mul. lia. Qed.

Lemma round4_exact i n : 0 <= n -> i mod 4 = 0 -> n <= i -> i = 0 \/ i < n + 4 -> i = round4 n.
Proof. intros. unfold round4. dlia. Qed.

Lemma round4_mul n : round4 (4 * n) = 4 * n.
Proof. unfold round4. dlia. Qed.

Section Specs.
Context `{AS : AddrSpace}.
Implicit Types (k : kernel).

(** The last loop of each routine has nothing left to do. *)
Lemma for_lt_done w hi step body i k :
  hi <= i -> for_lt w hi step body i k = Ok i k.
Proof.
  intros H. unfold for_lt.
  destruct (cloop_total (fun s k' => s = i /\ k' = k) (fun r k' => r = i /\ k' = k)
    (fun _ => 0) (fun i0 => if i0 <? hi then body i0 ;; mret (inl (u w (i0 + step)))
                            else mret (inr i0))) with (s := i) (k := k)
    as (r & k' & E & -> & ->); [|auto|unfold FUEL; lia|done].
  intros s k0 [-> ->]. exists (inr i), k.
  destruct (Z.ltb_spec i hi); [lia|auto].
Qed.

(** A loop of one round. *)
Lemma for_lt_one w hi body k k' :
  1 <= w -> hi = 1 -> body 0 k = Ok () k' -> for_lt w hi 1 body 0 k = Ok 1 k'.
Proof.
  intros Hw -> E. assert (u w (0 + 1) = 1) as Eu.
  { apply u_small. split; [lia|]. apply (Z.lt_le_trans _ (2 ^ 1)); [lia|]. apply Z.pow_le_mono_r; lia. }
  apply (cloop_rounds 2); [|done]. rewrite (rounds_inl _ _ _ _ 1 k').
  - by apply rounds_inr.
  - cbn -[u]. kstep E. by rewrite Eu.
Qed.

Lemma store8_at a p n i v k :
  window a p n -> 0 <= i < n -> 0 <= v < 256 ->
  store8 (a + i) v k = Ok () (with_ram (<[p + i := v]> (ram k)) k).
Proof.
  intros W Hi Hv. rewrite (store8_ok _ (p + i)).
  - by rewrite u_small by lia.
  - eapply window_sub; [exact W|lia|lia].
Qed.

Lemma load8_at a p n i k :
  window a p n -> 0 <= i < n -> load8 (a + i) k = Ok (rb (ram k) (p + i)) k.
Proof. intros W Hi. apply load8_ok. eapply window_sub; [exact W|lia|lia]. Qed.

(** [n] bytes [v] written from [p] on. *)
Definition fill (m : gmap Z Z) (p n v : Z) : gmap Z Z :=
  write_bytes m p (replicate (Z.to_nat n) v).

Lemma fill_step m p n v : 0 <= n -> <[p + n := v]> (fill m p n v) = fill m p (n + 1) v.
Proof.
  intros. unfold fill. replace (p + n) with (p + zlen (replicate (Z.to_nat n) v)).
  - rewrite write_bytes_snoc. f_equal.
    replace (Z.to_nat (n + 1)) with (S (Z.to_nat n)) by lia.
    by rewrite replicate_S_end.
  - rewrite zlen_replicate. lia.
Qed.

Lemma rb_fill m p n v q :
  0 <= n -> rb (fill m p n v) q = if (p <=? q) && (q <? p + n) then v else rb m q.
Proof.
  intros. unfold fill. rewrite rb_write_bytes, zlen_replicate, Z2Nat.id by lia.
  bdestr; simpl; try done.
  apply nth_replicate. lia.
Qed.

Lemma ram_ok_fill m p n v : ram_ok m -> byte v -> ram_ok (fill m p n v).
Proof. intros. apply ram_ok_write; [done|]. by apply Forall_replicate. Qed.

Lemma rdn_zero n m q : (forall i, 0 <= i < Z.of_nat n -> rb m (q + i) = 0) -> rdn n m q = 0.
Proof.
  unfold rdn. revert q. induction n as [|n IH]; intros q Hz; simpl; [done|].
  rewrite <- (Z.add_0_r q) at 1. rewrite Hz by lia. rewrite IH; [done|].
  intros i Hi. rewrite <- Z.add_assoc. apply Hz. lia.
Qed.

Lemma rdn_fill_in n m p len q :
  p <= q -> q + Z.of_nat n <= p + len -> rdn n (fill m p len 0) q = 0.
Proof.
  intros. apply rdn_zero. intros i Hi. rewrite rb_fill by lia.
  destruct (_ && _) eqn:E; [done|]. apply andb_false_iff in E as [E|E].
  - apply Z.leb_gt in E. lia.
  - apply Z.ltb_ge in E. lia.
Qed.

Lemma rdn_fill_out n m p len v q :
  0 <= len -> q + Z.of_nat n <= p \/ p + len <= q -> rdn n (fill m p len v) q = rdn n m q.
Proof. intros. apply rdn_write_other. rewrite zlen_replicate. lia. Qed.

(** Forward byte-by-byte copy: after [n] bytes. *)
Definition copied (m : gmap Z Z) (pd ps n : Z) : gmap Z Z :=
  write_bytes m pd (read_bytes m ps (Z.to_nat n)).

Lemma rb_copied m pd ps n q :
  0 <= n -> rb (copied m pd ps n) q =
    if (pd <=? q) && (q <? pd + n) then rb m (ps + (q - pd)) else rb m q.
Proof.
  intros. unfold copied. rewrite rb_write_bytes. unfold zlen.
  rewrite length_read_bytes, Z2Nat.id by lia. bdestr; simpl; try done.
  rewrite nth_read_bytes by lia. f_equal. lia.
Qed.

Lemma copied_step m pd ps n :
  0 <= n -> pd <= ps \/ ps + n < pd ->
  <[pd + n := rb (copied m pd ps n) (ps + n)]> (copied m pd ps n) = copied m pd ps (n + 1).
Proof.
  intros Hn Hd. rewrite rb_copied by lia.
  assert ((pd <=? ps + n) && (ps + n <? pd + n) = true ->
          pd <= ps + n < pd + n) as Hb.
  { intros [H1%Z.leb_le H2%Z.ltb_lt]%andb_true_iff. lia. }
  destruct ((pd <=? ps + n) && (ps + n <? pd + n)) eqn:E.
  { specialize (Hb eq_refl). lia. }
  unfold copied at 1. replace (pd + n) with (pd + zlen (read_bytes m ps (Z.to_nat n))).
  - rewrite write_bytes_snoc. unfold copied. f_equal.
    replace (Z.to_nat (n + 1)) with (Z.to_nat n + 1)%nat by lia.
    rewrite read_bytes_app. simpl. do 3 f_equal. lia.
  - unfold zlen. rewrite length_read_bytes. lia.
Qed.
End Specs.

Section Theorems.
Context `{AS : AddrSpace}.

Lemma set_step Dest Val p n j j' k :
  window Dest p n -> 0 <= j < n -> 0 <= Val < 256 -> j' = j + 1 ->
  store8 (Dest + j) Val (with_ram (fill (ram k) p j Val) k) =
    Ok () (with_ram (fill (ram k) p j' Val) k).
Proof.
  intros W Hj HV ->. rewrite (store8_at _ p n) by done.
  rewrite ram_with_ram, with_ram_with_ram. by rewrite fill_step by lia.
Qed.

Lemma KiSetMemoryBytes_ok (Dest Val Amt p : Z) (k : kernel) :
  0 <= Amt <= 2 ^ 64 - 4 -> 0 <= Val < 256 -> window Dest p (round4 Amt) ->
  KiSetMemoryBytes Dest Val Amt k =
    Ok STATUS_SUCCESS (with_ram (fill (ram k) p (round4 Amt) Val) k).
Proof.
  intros HA HV W. unfold KiSetMemoryBytes. pose proof (round4_bounds Amt ltac:(lia)) as HR.
  destruct (for_lt_total 64 Amt 4 (fun Index =>
      store8 (Dest + (Index + 0)) Val ;; store8 (Dest + (Index + 1)) Val ;;
      store8 (Dest + (Index + 2)) Val ;; store8 (Dest + (Index + 3)) Val)
    (fun i k' => i mod 4 = 0 /\ i <= round4 Amt /\ k' = with_ram (fill (ram k) p i Val) k)
    0 k) as (i & k' & E & HI & Hi0 & Hi & Hor); [lia..| | |].
  - intros i k1 Hi (Hm & Hle & ->).
    assert (i + 4 <= round4 Amt) by (unfold round4; dlia).
    exists (with_ram (fill (ram k) p (i + 4) Val) k). split; [|kdone; dlia].
    rewrite Z.add_0_r.
    kstep (set_step Dest Val p (round4 Amt) i (i + 1) k W ltac:(lia) HV eq_refl).
    kstep (set_step Dest Val p (round4 Amt) (i + 1) (i + 2) k W ltac:(lia) HV ltac:(lia)).
    kstep (set_step Dest Val p (round4 Amt) (i + 2) (i + 3) k W ltac:(lia) HV ltac:(lia)).
    apply (set_step Dest Val p (round4 Amt) (i + 3) (i + 4) k W); lia.
  - kdone. unfold fill. simpl. by rewrite with_ram_id.
  - rewrite (bind_ok _ _ _ _ _ E). destruct HI as (Hm & Hle & ->).
    rewrite (bind_ok _ _ _ _ _ (for_lt_done _ _ _ _ _ _ Hi)).
    rewrite (round4_exact i Amt) by lia. done.
Qed.

(** C18: [KiSetMemoryBytes] on a mapped buffer always returns, and the memory
    it leaves is the old one with [Val] in exactly [round4 Amt] bytes from
    the destination: the requested bytes, and when [Amt] is not a multiple
    of four also the one to three bytes after the buffer. *)
Theorem KiSetMemoryBytes_spec (Dest Val Amt p : Z) (k : kernel) :
  0 <= Amt <= 2 ^ 64 - 4 -> 0 <= Val < 256 -> window Dest p (round4 Amt) ->
  KiSetMemoryBytes Dest Val Amt k =
    Ok STATUS_SUCCESS (with_ram (fill (ram k) p (round4 Amt) Val) k).
Proof. apply KiSetMemoryBytes_ok. Qed.

Lemma copy_step Dest Source pd ps n Index o j j' k :
  ram_ok (ram k) -> window Dest pd n -> window Source ps n ->
  pd <= ps \/ ps + n <= pd ->
  0 <= j < n -> 0 <= n <= 2 ^ 32 -> j = Index + o -> j' = j + 1 ->
  copy_char Dest Source Index o (with_ram (copied (ram k) pd ps j) k) =
    Ok () (with_ram (copied (ram k) pd ps j') k).
Proof.
  intros Hm Wd Ws Hdir Hj Hn Ej ->. subst j. unfold copy_char.
  rewrite u_small by lia.
  kstep (load8_at Source ps n (Index + o) (with_ram (copied (ram k) pd ps (Index + o)) k) Ws Hj).
  assert (byte (rb (copied (ram k) pd ps (Index + o)) (ps + (Index + o)))) as Hb.
  { rewrite rb_copied by lia. by destruct (_ && _). }
  rewrite (store8_at _ pd n) by (rewrite ?ram_with_ram; done).
  rewrite !ram_with_ram, with_ram_with_ram. rewrite copied_step by lia. done.
Qed.

Lemma KiCopyMemory_ok (Dest Source Amount pd ps : Z) (k : kernel) :
  Dest <> NULL -> Source <> NULL -> 0 <= Amount <= 2 ^ 32 - 4 -> ram_ok (ram k) ->
  window Dest pd (round4 Amount) -> window Source ps (round4 Amount) ->
  pd <= ps \/ ps + round4 Amount <= pd ->
  KiCopyMemory Dest Source Amount k =
    Ok STATUS_SUCCESS (with_ram (copied (ram k) pd ps (round4 Amount)) k).
Proof.
  intros HD HS HA Hm Wd Ws Hdir. unfold KiCopyMemory.
  rewrite (proj2 (Z.eqb_neq _ _) HD), (proj2 (Z.eqb_neq _ _) HS). cbn [orb].
  pose proof (round4_bounds Amount ltac:(lia)) as HR.
  assert (round4 Amount <= 2 ^ 32) as HR32 by (unfold round4; dlia).
  destruct (for_lt_total 32 Amount 4 (fun Index =>
      copy_char Dest Source Index 0 ;; copy_char Dest Source Index 1 ;;
      copy_char Dest Source Index 2 ;; copy_char Dest Source Index 3)
    (fun i k' => i mod 4 = 0 /\ i <= round4 Amount /\
                 k' = with_ram (copied (ram k) pd ps i) k)
    0 k) as (i & k' & E & HI & Hi0 & Hi & Hor); [lia..| | |].
  - intros i k1 Hi (Hmod & Hle & ->).
    assert (i + 4 <= round4 Amount) by (unfold round4; dlia).
    exists (with_ram (copied (ram k) pd ps (i + 4)) k). split; [|kdone; dlia].
    pose proof (fun o j j' => copy_step Dest Source pd ps (round4 Amount) i o j j' k
      Hm Wd Ws Hdir) as Hstep.
    kstep (Hstep 0 i (i + 1) ltac:(lia) ltac:(lia) ltac:(lia) ltac:(lia)).
    kstep (Hstep 1 (i + 1) (i + 2) ltac:(lia) ltac:(lia) ltac:(lia) ltac:(lia)).
    kstep (Hstep 2 (i + 2) (i + 3) ltac:(lia) ltac:(lia) ltac:(lia) ltac:(lia)).
    apply (Hstep 3 (i + 3) (i + 4)); lia.
  - kdone. unfold copied. simpl. by rewrite with_ram_id.
  - kstep E. destruct HI as (Hmod & Hle & ->).
    kstep (for_lt_done 32 Amount 1 (fun Index => copy_char Dest Source Index 0) i
      (with_ram (copied (ram k) pd ps i) k) Hi).
    rewrite (round4_exact i Amount) by lia. done.
Qed.

Lemma null_test Dest Source : Dest = NULL \/ Source = NULL -> (Source =? NULL) || (Dest =? NULL) = true.
Proof. intros [->| ->]; [apply orb_true_r|done]. Qed.

(** C17: [KiCopyMemory] of at most [2^32 - 4] bytes between two mapped
    buffers, the destination below the source or disjoint from it, always
    returns, and leaves the old memory with the source's bytes, as they were
    before the call, in exactly [round4 Amount] bytes of the destination.
    Given a null pointer it changes nothing and returns
    [STATUS_INVALID_MEMORY_LOCATION]. *)
Theorem KiCopyMemory_spec (Dest Source Amount pd ps : Z) (k : kernel) :
  (Dest <> NULL -> Source <> NULL -> 0 <= Amount <= 2 ^ 32 - 4 -> ram_ok (ram k) ->
   window Dest pd (round4 Amount) -> window Source ps (round4 Amount) ->
   pd <= ps \/ ps + round4 Amount <= pd ->
   KiCopyMemory Dest Source Amount k =
     Ok STATUS_SUCCESS (with_ram (copied (ram k) pd ps (round4 Amount)) k))
  /\ (Dest = NULL \/ Source = NULL ->
      KiCopyMemory Dest Source Amount k = Ok STATUS_INVALID_MEMORY_LOCATION k).
Proof. split; [apply KiCopyMemory_ok|]. intros H. unfold KiCopyMemory. by rewrite null_test. Qed.

Lemma copy_char_runs Dest Source pd ps Index o k :
  window Dest pd (2 ^ 32) -> window Source ps (2 ^ 32) ->
  exists k', copy_char Dest Source Index o k = Ok () k'.
Proof.
  intros Wd Ws. unfold copy_char.
  pose proof (u_range 32 (Index + o) ltac:(lia)).
  kstep (load8_at Source ps (2 ^ 32) (u32 (Index + o)) k Ws ltac:(lia)).
  rewrite (store8_ok _ (pd + u32 (Index + o))); [eauto|].
  eapply window_sub; [exact Wd|lia|lia].
Qed.

(** C20: above [2^32 - 4] bytes the 32-bit [Index] of [KiCopyMemory] wraps to
    zero before it reaches [Amount]: with both buffers mapped, the routine
    never returns, whatever number of rounds its block loop is given. *)
Theorem KiCopyMemory_diverges (Dest Source Amount pd ps : Z) (k : kernel) :
  Dest <> NULL -> Source <> NULL -> 2 ^ 32 - 4 < Amount < 2 ^ 64 ->
  window Dest pd (2 ^ 32) -> window Source ps (2 ^ 32) ->
  exists k', KiCopyMemory Dest Source Amount k = Spin k'.
Proof.
  intros HD HS HA Wd Ws. unfold KiCopyMemory.
  rewrite (proj2 (Z.eqb_neq _ _) HD), (proj2 (Z.eqb_neq _ _) HS). cbn [orb].
  unfold for_lt.
  match goal with |- context [cloop ?b 0] => set (body := b) end.
  destruct (cloop_diverges (fun i _ => i mod 4 = 0 /\ 0 <= i < 2 ^ 32) body) with (s := 0) (k := k)
    as [_ [k' E]].
  - intros i k1 (Hmod & Hi). unfold body. destruct (Z.ltb_spec i Amount); [|dlia]. cbv beta.
    destruct (copy_char_runs Dest Source pd ps i 0 k1 Wd Ws) as [k2 E2].
    destruct (copy_char_runs Dest Source pd ps i 1 k2 Wd Ws) as [k3 E3].
    destruct (copy_char_runs Dest Source pd ps i 2 k3 Wd Ws) as [k4 E4].
    destruct (copy_char_runs Dest Source pd ps i 3 k4 Wd Ws) as [k5 E5].
    exists (u32 (i + 4)), k5. split; [|unfold u; dlia].
    rewrite !bind_assoc. kstep E2. rewrite !bind_assoc. kstep E3.
    rewrite !bind_assoc. kstep E4. by kstep E5.
  - kdone.
  - exists k'. by rewrite (bind_spin _ _ _ _ E).
Qed.

(** Byte-wise equality of the first [n] bytes of two buffers. *)
Fixpoint same_bytes (m : gmap Z Z) (a b : Z) (n : nat) : bool :=
  match n with
  | O => true
  | S n => same_bytes m a b n && (rb m (b + Z.of_nat n) =? rb m (a + Z.of_nat n))
  end.

Lemma same_bytes_spec m a b n :
  same_bytes m a b n = true <->
  (forall i, 0 <= i < Z.of_nat n -> rb m (a + i) = rb m (b + i)).
Proof.
  induction n as [|n IH]; cbn [same_bytes]; [split; [lia|done]|].
  rewrite andb_true_iff, IH, Z.eqb_eq. split.
  - intros [H E] i Hi. destruct (Z.eq_dec i (Z.of_nat n)) as [->|]; [done|]. apply H. lia.
  - intros H. split; [intros; apply H; lia|]. symmetry. apply H. lia.
Qed.

Lemma same_bytes_step m a b i j :
  0 <= i -> j = i + 1 ->
  same_bytes m a b (Z.to_nat j) =
    same_bytes m a b (Z.to_nat i) && (rb m (b + i) =? rb m (a + i)).
Proof.
  intros Hi ->. replace (Z.to_nat (i + 1)) with (S (Z.to_nat i)) by lia.
  cbn [same_bytes]. by rewrite Z2Nat.id by lia.
Qed.

Lemma same_char_ok Source Dest ps pd n Index o k :
  window Source ps n -> window Dest pd n -> 0 <= Index + o < n -> n <= 2 ^ 32 ->
  same_char Source Dest Index o k =
    Ok (rb (ram k) (pd + (Index + o)) =? rb (ram k) (ps + (Index + o))) k.
Proof.
  intros Ws Wd Hi Hn. unfold same_char. rewrite u_small by lia.
  kstep (load8_at Dest pd n (Index + o) k Wd Hi).
  by kstep (load8_at Source ps n (Index + o) k Ws Hi).
Qed.

Lemma compare_words_total Source Dest ps pd Amount Val k :
  0 <= Amount <= 2 ^ 32 ->
  window Source ps (Amount + 8) -> window Dest pd (Amount + 8) ->
  exists r, compare_words Source Dest Amount (0, Val) k = Ok r k.
Proof.
  intros HA Ws Wd. unfold compare_words.
  destruct (cloop_total (fun '(i, _) k' => 0 <= i <= Amount /\ k' = k)
    (fun (_ : Z) k' => k' = k) (fun '(i, _) => Amount - i)
    (fun '(i, Val) =>
      if i <? Amount then
        s ← load64 (Source + i); d ← load64 (Dest + i);
        if s =? d then mret (inl (u64 (i + 1), 1)) else mret (inr 0)
      else mret (inr Val))) with (s := (0, Val)) (k := k) as (r & k' & E & ->);
    [|kdone|unfold FUEL; lia|eauto].
  intros [i v] k1 [Hi ->]. destruct (Z.ltb_spec i Amount); [|exists (inr v), k; kdone].
  unfold load64.
  kstep (loadn_ok 8 (Source + i) (ps + i) k ltac:(eapply window_sub; [exact Ws|lia|lia])).
  kstep (loadn_ok 8 (Dest + i) (pd + i) k ltac:(eapply window_sub; [exact Wd|lia|lia])).
  destruct (_ =? _); [exists (inl (u64 (i + 1), 1)), k|exists (inr 0), k]; [|done].
  rewrite u_small by lia. kdone.
Qed.

Lemma KiCompareMemory_ok (Source Dest Amount Val ps pd : Z) (k : kernel) :
  Source <> NULL -> Dest <> NULL -> 0 <= Amount <= 2 ^ 32 - 4 ->
  window Source ps (Amount + 8) -> window Dest pd (Amount + 8) ->
  exists Val', KiCompareMemory Source Dest Amount Val k = Ok (STATUS_SUCCESS, Val') k
    /\ (Val' = 0 \/ Val' = 1)
    /\ (Val' = 1 <-> forall i, 0 <= i < round4 Amount ->
           rb (ram k) (ps + i) = rb (ram k) (pd + i)).
Proof.
  intros HS HD HA Ws Wd. unfold KiCompareMemory.
  rewrite (proj2 (Z.eqb_neq _ _) HD), (proj2 (Z.eqb_neq _ _) HS). cbn [orb].
  destruct (compare_words_total Source Dest ps pd Amount Val k ltac:(lia) Ws Wd) as [r Er].
  kstep Er. clear Er r. pose proof (round4_bounds Amount ltac:(lia)) as HR.
  assert (round4 Amount <= 2 ^ 32) as HR32 by (unfold round4; dlia).
  match goal with |- context [cloop ?b (0, true, true, true, true)] => set (body := b) end.
  destruct (cloop_total
    (fun '(i, c1, c2, c3, c4) k' => k' = k /\ 0 <= i <= round4 Amount /\ i mod 4 = 0 /\
       c1 && c2 && c3 && c4 = same_bytes (ram k) ps pd (Z.to_nat i))
    (fun '(i, c1, c2, c3, c4) k' => k' = k /\ i = round4 Amount /\
       c1 && c2 && c3 && c4 = same_bytes (ram k) ps pd (Z.to_nat (round4 Amount)))
    (fun '(i, _, _, _, _) => round4 Amount - i) body)
    with (s := (0, true, true, true, true)) (k := k) as (x & k' & E & HQ).
  - intros [[[[i c1] c2] c3] c4] k1 (-> & Hi & Hmod & Hc). unfold body.
    destruct (Z.ltb_spec i Amount).
    + assert (i + 4 <= round4 Amount) by (unfold round4; dlia).
      pose proof (fun o H H' => same_char_ok Source Dest ps pd (round4 Amount) i o k
        (window_le _ _ _ (round4 Amount) Ws ltac:(lia))
        (window_le _ _ _ (round4 Amount) Wd ltac:(lia)) H H')
        as Hs.
      kstep (Hs 0 ltac:(lia) ltac:(lia)). kstep (Hs 1 ltac:(lia) ltac:(lia)).
      kstep (Hs 2 ltac:(lia) ltac:(lia)). kstep (Hs 3 ltac:(lia) ltac:(lia)).
      eexists (inl _), k. rewrite ret_ok, u_small by lia. kdone; [dlia|].
      rewrite (same_bytes_step _ _ _ (i + 3)), (same_bytes_step _ _ _ (i + 2)),
        (same_bytes_step _ _ _ (i + 1)), (same_bytes_step _ _ _ i (i + 1)) by lia.
      rewrite <- Hc, Z.add_0_r.
      repeat match goal with |- context [?a =? ?b] => destruct (a =? b) end;
        destruct c1, c2, c3, c4; done.
    + exists (inr (i, c1, c2, c3, c4)), k. assert (i = round4 Amount) as -> by
        (apply round4_exact; lia). kdone.
  - kdone.
  - unfold FUEL. lia.
  - kstep E. destruct x as [[[[i c1] c2] c3] c4]. destruct HQ as (-> & -> & Hc).
    match goal with |- context [cloop ?b (round4 Amount, c1)] => set (body2 := b) end.
    destruct (cloop_total (fun s k' => s = (round4 Amount, c1) /\ k' = k)
      (fun r k' => r = c1 /\ k' = k) (fun _ => 0) body2)
      with (s := (round4 Amount, c1)) (k := k) as (r & k2 & E2 & -> & ->).
    { intros s k1 [-> ->]. exists (inr c1), k. unfold body2.
      destruct (Z.ltb_spec (round4 Amount) Amount); [lia|done]. }
    { done. }
    { done. }
    kstep E2. exists (b2z (c1 && c2 && c3 && c4)). rewrite Hc.
    pose proof (same_bytes_spec (ram k) ps pd (Z.to_nat (round4 Amount))) as Hsp.
    rewrite Z2Nat.id in Hsp by lia. split; [done|].
    destruct (same_bytes _ _ _ _); simpl; split; auto; rewrite <- Hsp; split; done.
Qed.

End Theorems.

(** ** Witnesses *)

(** Clearing five bytes clears eight. *)
Lemma KiSetMemoryBytes_spec_witness :
  @KiSetMemoryBytes boot_space 0x5000 7 5 kernel0 =
    Ok STATUS_SUCCESS (with_ram (fill ∅ 0x5000 8 7) kernel0)
  /\ rb (fill ∅ 0x5000 8 7) 0x5007 = 7.
Proof.
  split; [|reflexivity].
  apply (KiSetMemoryBytes_spec (AS := boot_space) 0x5000 7 5 0x5000 kernel0); [lia|lia|].
  apply boot_window_low; vm_compute; congruence.
Defined.

(** The console's scroll: a source one row above the destination, overlapping. *)
Lemma KiCopyMemory_spec_witness :
  @KiCopyMemory boot_space (KERN_VIRT_OFFSET + 0xB8000) (KERN_VIRT_OFFSET + 0xB80A0) 3840 kernel0 =
    Ok STATUS_SUCCESS (with_ram (copied ∅ 0xB8000 0xB80A0 3840) kernel0).
Proof.
  apply (proj1 (KiCopyMemory_spec (AS := boot_space) _ _ 3840 0xB8000 0xB80A0 kernel0)).
  - unfold KERN_VIRT_OFFSET, NULL. lia.
  - unfold KERN_VIRT_OFFSET, NULL. lia.
  - lia.
  - apply ram_ok_empty.
  - apply boot_window_high; vm_compute; congruence.
  - apply boot_window_high; vm_compute; congruence.
  - left. lia.
Defined.

(** A fully mapped address space. *)
Definition flat_space : AddrSpace := Some.

Lemma flat_window a n : 0 <= a -> a + n <= 2 ^ 64 -> window (AS := flat_space) a a n.
Proof. intros Ha Hn i Hi. unfold xlate, flat_space. rewrite u_small by lia. done. Qed.

Lemma KiCopyMemory_diverges_witness :
  exists k', @KiCopyMemory flat_space (2 ^ 33) (2 ^ 40) (2 ^ 32) kernel0 = Spin k'.
Proof.
  apply (KiCopyMemory_diverges (AS := flat_space) (2 ^ 33) (2 ^ 40) (2 ^ 32) (2 ^ 33) (2 ^ 40)).
  - unfold NULL. lia.
  - unfold NULL. lia.
  - lia.
  - apply flat_window; lia.
  - apply flat_window; lia.
Defined.

(** Two buffers equal on the one byte compared but not on the next. *)
Definition compare_example : kernel :=
  with_ram (write_bytes (write_bytes ∅ 0x1000 [65; 0; 1]) 0x2000 [65; 0; 2]) kernel0.

