(* ===== verification/BinFuncs.v ===== *)
(** * Logarithms and number formatting ([kern/lib/kernel_binfuncs.c])

    The base-two logarithms and the integer to text routines, which write
    into the caller's buffer: digits least significant first, then the string
    is flipped in place and terminated. *)

From S2P Require Import Prelude Machine Status MemFuncs.

(** ** Logarithms *)

Definition KiLog2UInt (Input : Z) : K (FERALSTATUS * Z) :=
  Res ← cloop (fun '(Res, Copy) =>
    if 2 <=? Copy then mret (inl (Res + 1, Copy / 2)) else mret (inr Res)) (0, Input);
  mret (STATUS_SUCCESS, Res).

(** Negating the least [INT64] overflows, which C leaves undefined. *)
Definition KiLog2Int (Input : Z) : K (FERALSTATUS * Z) :=
  let ResultTwo := 0 in
  '(_, _) ← KiLog2UInt (u64 Input);
  if Input =? - 2 ^ 63 then fault
  else
    '(_, ResultOne) ← KiLog2UInt (u64 (- Input));
    mret (STATUS_SUCCESS, b2z (Input <=? 0) * ResultTwo + b2z (0 <? Input) * ResultOne).

(** ** Integers to text *)

(** The character [rem] is encoded as, [rem] being a signed [CHAR]. *)
Definition itoa_char (rem : Z) : Z :=
  if (rem <=? 9) && (0 <=? rem) then rem + 48
  else if rem <? 35 then rem - 10 + 97
  else rem - 36 + 65.

Section Itoa.
Context `{AS : AddrSpace}.

(** The loop that flips the order of the string. *)
Definition flip_string (buf len : Z) : K Z :=
  for_lt 64 (len / 2) 1 (fun i =>
    tmp ← load8 (buf + i);
    c ← load8 (buf + (len - i - 1));
    store8 (buf + i) c ;;
    store8 (buf + (len - i - 1)) tmp) 0.

Definition internalItoaBaseChange (val buf radix : Z) : K () :=
  if val =? 0 then store8 buf 48 ;; store8 (buf + 1) 0
  else
    len ← cloop (fun '(valCopy, len) =>
      if valCopy =? 0 then mret (inr len)
      else if radix =? 0 then fault
      else
        store8 (buf + len) (itoa_char (sx 8 (valCopy mod radix))) ;;
        mret (inl (valCopy / radix, u64 (len + 1)))) (val, 0);
    flip_string buf len ;;
    store8 (buf + len) 0.

Definition internalItoa (val buf : Z) : K () := internalItoaBaseChange val buf 10.

(** [val] is a signed 64-bit value; [0 - val] overflows for the least one. *)
Definition internalSignedItoa (val buf : Z) : K () :=
  let base := 10 in
  if 0 <=? val then internalItoa (u64 val) buf
  else if val =? - 2 ^ 63 then fault
  else
    len ← cloop (fun '(overzero, len) =>
      if overzero =? 0 then mret (inr len)
      else
        let rem := sx 8 (u64 overzero mod base) in
        store8 (buf + len) (rem + 48) ;;
        mret (inl (sx 64 (u64 overzero / base), u64 (len + 1)))) (0 - val, 0);
    store8 (buf + len) 45 ;;
    let len := u64 (len + 1) in
    flip_string buf len ;;
    store8 (buf + len) 0.

Definition KiItoa (Input Result : Z) : K FERALSTATUS :=
  internalItoa (u64 Input) Result ;; mret STATUS_SUCCESS.

Definition KiItoaSigned (Input Result : Z) : K FERALSTATUS :=
  internalSignedItoa (sx 64 Input) Result ;; mret STATUS_SUCCESS.

Definition KiItoaBase (Input Base Result : Z) : K FERALSTATUS :=
  internalItoaBaseChange Input Result Base ;; mret STATUS_SUCCESS.

End Itoa.

(** ** Logarithms: properties *)

Lemma KiLog2UInt_ok Input k :
  0 <= Input < 2 ^ 64 -> KiLog2UInt Input k = Ok (STATUS_SUCCESS, Z.log2 Input) k.
Proof.
  intros HI. unfold KiLog2UInt.
  destruct (cloop_total
    (fun '(Res, Copy) k' => k' = k /\ 0 <= Copy < 2 ^ 64 /\ Res + Z.log2 Copy = Z.log2 Input)
    (fun Res k' => k' = k /\ Res = Z.log2 Input)
    (fun '(Res, Copy) => Copy)
    (fun '(Res, Copy) =>
      if 2 <=? Copy then mret (inl (Res + 1, Copy / 2)) else mret (inr Res)))
    with (s := (0, Input)) (k := k) as (r & k' & E & -> & ->).
  - intros [Res Copy] k1 (-> & HC & HR). destruct (Z.leb_spec 2 Copy).
    + exists (inl (Res + 1, Copy / 2)), k. kdone; try dlia.
      change 2 with (2 ^ 1). rewrite <- Z.shiftr_div_pow2, Z.log2_shiftr by lia.
      pose proof (Z.log2_le_mono 2 Copy ltac:(lia)). change (Z.log2 2) with 1 in *. lia.
    + exists (inr Res), k. kdone. rewrite <- HR.
      pose proof (proj2 (Z.log2_null Copy) ltac:(lia)). lia.
  - kdone.
  - unfold FUEL. lia.
  - by kstep E.
Qed.

(** [KiLog2Int] returns 63 for every positive input and 0 for every other
    one: both calls store into [ResultOne], the second of the negated input,
    whose 64-bit pattern has its top bit set. *)
Theorem KiLog2Int_result (Input : Z) (k : kernel) :
  - 2 ^ 63 < Input < 2 ^ 63 ->
  KiLog2Int Input k = Ok (STATUS_SUCCESS, if 0 <? Input then 63 else 0) k.
Proof.
  intros HI. unfold KiLog2Int.
  kstep (KiLog2UInt_ok (u64 Input) k (u_range 64 Input ltac:(lia))).
  destruct (Z.eqb_spec Input (- 2 ^ 63)); [lia|].
  kstep (KiLog2UInt_ok (u64 (- Input)) k (u_range 64 (- Input) ltac:(lia))).
  destruct (Z.ltb_spec 0 Input) as [Hp|Hp].
  - destruct (Z.leb_spec Input 0); [lia|]. rewrite ret_ok. simpl b2z. do 2 f_equal.
    rewrite Z.mul_0_l, Z.mul_1_l, Z.add_0_l.
    apply Z.log2_unique; [lia|]. unfold u. dlia.
  - destruct (Z.leb_spec Input 0); [|lia]. done.
Qed.

Lemma KiLog2Int_result_witness : KiLog2Int 4096 kernel0 = Ok (STATUS_SUCCESS, 63) kernel0.
Proof. apply (KiLog2Int_result 4096 kernel0). lia. Defined.

(** [KiLog2UInt] terminates on every 64-bit input and returns the floor of
    its base-two logarithm, and zero for zero. *)
Theorem KiLog2UInt_floor (Input : Z) (k : kernel) :
  0 <= Input < 2 ^ 64 ->
  exists Result, KiLog2UInt Input k = Ok (STATUS_SUCCESS, Result) k
    /\ 0 <= Result < 64
    /\ (if Input =? 0 then Result = 0 else 2 ^ Result <= Input < 2 ^ (Result + 1)).
Proof.
  intros HI. exists (Z.log2 Input). split; [by apply KiLog2UInt_ok|].
  destruct (Z.eqb_spec Input 0) as [->|]; [done|].
  pose proof (Z.log2_spec Input ltac:(lia)). pose proof (Z.log2_nonneg Input).
  split; [|by rewrite Z.add_1_r]. split; [done|]. apply Z.log2_lt_pow2; lia.
Qed.

(** ** Text: reference definitions *)

(** The digit a character stands for, the inverse of [itoa_char] below 62. *)
Definition char_digit (c : Z) : Z :=
  if (48 <=? c) && (c <=? 57) then c - 48
  else if (97 <=? c) && (c <=? 122) then c - 87
  else c - 29.

(** The number a digit string denotes, most significant digit first. *)
Definition parse (radix : Z) (s : list Z) : Z :=
  foldl (fun acc c => acc * radix + char_digit c) 0 s.

Definition parse_signed (s : list Z) : Z :=
  match s with
  | [] => 0
  | c :: s' => if c =? 45 then - parse 10 s' else parse 10 s
  end.

(** Least significant digit first. *)
Fixpoint lsf_value (radix : Z) (l : list Z) : Z :=
  match l with
  | [] => 0
  | c :: l => char_digit c + radix * lsf_value radix l
  end.

Lemma parse_reverse radix l : parse radix (reverse l) = lsf_value radix l.
Proof.
  unfold parse. induction l as [|c l IH]; [done|].
  rewrite reverse_cons, foldl_app, IH. simpl. lia.
Qed.

Lemma lsf_value_snoc radix l c :
  0 <= radix -> lsf_value radix (l ++ [c]) = lsf_value radix l + radix ^ zlen l * char_digit c.
Proof.
  intros Hr. induction l as [|b l IH]; simpl.
  - unfold zlen. simpl. lia.
  - rewrite IH, zlen_cons, Z.pow_add_r, Z.pow_1_r by (pose proof (zlen_nonneg l); lia). lia.
Qed.

(** The characters of the digits below 62: distinct, non-zero bytes.  The
    digit 35 comes out as ['@'], not ['z']. *)
Lemma itoa_char_digit d :
  0 <= d < 62 ->
  char_digit (u8 (itoa_char (sx 8 d))) = d /\ 45 < u8 (itoa_char (sx 8 d)) < 128.
Proof.
  intros Hd.
  assert (forallb (fun d => (char_digit (u8 (itoa_char (sx 8 d))) =? d)
     && (45 <? u8 (itoa_char (sx 8 d))) && (u8 (itoa_char (sx 8 d)) <? 128)) (seqZ 0 62) = true)
    as H by (vm_compute; reflexivity).
  rewrite forallb_forall in H. specialize (H d).
  rewrite !andb_true_iff, Z.eqb_eq, !Z.ltb_lt in H.
  destruct H as [[??]?]; [|auto]. apply list_elem_of_In, elem_of_seqZ. lia.
Qed.

(** ** Text: the routines *)

Section Text.
Context `{AS : AddrSpace}.

Lemma flip_string_ok buf p l m k :
  ram_ok m -> Forall byte l -> window buf p (zlen l) -> zlen l < 2 ^ 63 ->
  exists r, flip_string buf (zlen l) (with_ram (write_bytes m p l) k) =
    Ok r (with_ram (write_bytes m p (reverse l)) k).
Proof.
  intros Hm Hl W Hn. unfold flip_string. pose proof (zlen_nonneg l).
  set (n := zlen l) in *.
  destruct (for_lt_total 64 (n / 2) 1 (fun i =>
      tmp ← load8 (buf + i); c ← load8 (buf + (n - i - 1));
      store8 (buf + i) c ;; store8 (buf + (n - i - 1)) tmp)
    (fun i k' => exists l', k' = with_ram (write_bytes m p l') k /\ Forall byte l' /\
       zlen l' = n /\ forall j, 0 <= j < n -> l' !! Z.to_nat j =
         (if (j <? i) || (n - i <=? j) then l !! Z.to_nat (n - 1 - j) else l !! Z.to_nat j))
    0 (with_ram (write_bytes m p l) k)) as (i & k' & E & (l' & -> & Hb & Hlen & Hj) & Hi0 & Hi & Hor);
    [lia..|dlia| | |].
  - intros i k1 Hi (l' & -> & Hb & Hlen & Hj). assert (i < n - i - 1) by dlia.
    kstep (load8_at buf p n i (with_ram (write_bytes m p l') k) W ltac:(lia)).
    kstep (load8_at buf p n (n - i - 1) (with_ram (write_bytes m p l') k) W ltac:(lia)).
    rewrite ram_with_ram.
    pose proof (ram_ok_write m p l' Hm Hb) as Hok.
    set (bi := rb (write_bytes m p l') (p + i)). set (bj := rb (write_bytes m p l') (p + (n - i - 1))).
    assert (byte bi) as Hbi by apply Hok. assert (byte bj) as Hbj by apply Hok.
    kstep (store8_at buf p n i bj (with_ram (write_bytes m p l') k) W ltac:(lia) Hbj).
    rewrite ram_with_ram, with_ram_with_ram, write_bytes_insert by lia.
    eexists. split; [apply (store8_at buf p n); [done|lia|done]|].
    rewrite ram_with_ram, with_ram_with_ram, write_bytes_insert
      by (unfold zlen in *; rewrite length_insert; lia).
    eexists. split; [reflexivity|]. repeat split.
    + by repeat apply Forall_insert.
    + unfold zlen in *. by rewrite !length_insert.
    + intros j Hjn. unfold zlen in Hlen.
      assert (forall a, 0 <= a < n -> l' !! Z.to_nat a = Some (rb (write_bytes m p l') (p + a))) as Hrb.
      { intros a Ha. unfold rb. rewrite lookup_write_bytes. unfold zlen. rewrite Hlen.
        bdestr; simpl; try lia. replace (p + a - p) with a by lia.
        destruct (l' !! Z.to_nat a) eqn:Ea; [done|]. apply lookup_ge_None in Ea. lia. }
      destruct (Z.eq_dec j (n - i - 1)) as [->|Hne1].
      { rewrite list_lookup_insert_eq by (rewrite length_insert; lia).
        unfold bi. rewrite <- Hrb, Hj by lia. bdestr; simpl; try lia; f_equal; lia. }
      rewrite list_lookup_insert_ne by lia.
      destruct (Z.eq_dec j i) as [->|Hne2].
      { rewrite list_lookup_insert_eq by lia.
        unfold bj. rewrite <- Hrb, Hj by lia. bdestr; simpl; try lia; f_equal; lia. }
      rewrite list_lookup_insert_ne, Hj by lia. bdestr; simpl; try lia; done.
  - exists l. repeat split; auto. intros j Hj. bdestr; simpl; try lia; done.
  - exists i. rewrite E. do 3 f_equal. apply list_eq. intros j.
    assert (length l' = length l) as Hll by (unfold n, zlen in *; lia).
    destruct (decide (j < length l)%nat) as [Hlt|Hge].
    + specialize (Hj (Z.of_nat j) ltac:(unfold n, zlen; lia)).
      rewrite Nat2Z.id in Hj. rewrite Hj, reverse_lookup by done. unfold n, zlen in *.
      destruct ((Z.of_nat j <? i) || (Z.of_nat (length l) - i <=? Z.of_nat j)) eqn:Ec.
      * f_equal. lia.
      * apply orb_false_iff in Ec as [E1%Z.ltb_ge E2%Z.leb_gt]. f_equal. dlia.
    + rewrite !lookup_ge_None_2; [done|rewrite length_reverse; lia|lia].
Qed.
End Text.

(** The state of a digit loop: [l] has been written, [vc] is left. *)
Record digits_inv (radix val : Z) (l : list Z) (vc : Z) : Prop := {
  di_value : lsf_value radix l + radix ^ zlen l * vc = val;
  di_chars : Forall (fun c => 45 < c < 128) l;
  di_left : 0 <= vc;
  di_short : l = [] \/ radix ^ (zlen l - 1) <= val;
}.

Definition digit_chars (l : list Z) : Prop := Forall (fun c => 45 < c < 128) l.

Lemma digit_chars_byte l : digit_chars l -> Forall byte l.
Proof. intros H. eapply Forall_impl; [exact H|]. unfold byte. simpl. lia. Qed.

Lemma lsf_value_nonneg radix l : 0 <= radix -> digit_chars l -> 0 <= lsf_value radix l.
Proof.
  intros Hr. induction 1 as [|c l Hc _ IH]; simpl; [done|].
  assert (0 <= char_digit c); [|nia]. unfold char_digit. bdestr; simpl; lia.
Qed.

Lemma digits_inv_pow radix val l vc :
  2 <= radix -> digits_inv radix val l vc -> 0 < vc -> radix ^ zlen l <= val.
Proof.
  intros Hr [Hv Hc _ _] Hp. pose proof (lsf_value_nonneg radix l ltac:(lia) Hc).
  pose proof (Z.pow_pos_nonneg radix (zlen l) ltac:(lia) (zlen_nonneg l)). nia.
Qed.

Lemma pow_exp_lt radix a b v : 2 <= radix -> 0 <= b -> radix ^ a <= v -> v < radix ^ b -> a < b.
Proof. intros. apply (Z.pow_lt_mono_r_iff radix); lia. Qed.

Lemma digits_inv_len radix val l vc n :
  2 <= radix -> 0 <= n -> val < radix ^ n -> digits_inv radix val l vc -> 0 < vc -> zlen l < n.
Proof.
  intros Hr Hn Hval H Hp. eapply pow_exp_lt; [exact Hr|done| |exact Hval].
  by apply (digits_inv_pow radix val l vc).
Qed.

Lemma digits_inv_step radix val l vc :
  2 <= radix <= 62 -> digits_inv radix val l vc -> 0 < vc ->
  digits_inv radix val (l ++ [u8 (itoa_char (sx 8 (vc mod radix)))]) (vc / radix).
Proof.
  intros Hr H Hp. pose proof (digits_inv_pow radix val l vc ltac:(lia) H Hp) as Hpow.
  destruct H as [Hv Hc _ _].
  pose proof (Z.mod_pos_bound vc radix ltac:(lia)) as Hmod.
  destruct (itoa_char_digit (vc mod radix) ltac:(lia)) as [Hd Hrange].
  constructor.
  - rewrite lsf_value_snoc, Hd, zlen_snoc by lia.
    rewrite Z.pow_add_r, Z.pow_1_r by (pose proof (zlen_nonneg l); lia).
    pose proof (Z.div_mod vc radix ltac:(lia)) as Hdm. nia.
  - apply Forall_app. auto.
  - apply Z.div_pos; lia.
  - right. rewrite zlen_snoc.
    by replace (zlen l + 1 - 1) with (zlen l) by lia.
Qed.

Lemma digits_inv_start radix val : 0 <= val -> digits_inv radix val [] val.
Proof. intros. constructor; [unfold zlen; simpl; lia|constructor|done|by left]. Qed.

(** What a formatted number looks like. *)
Definition renders (radix val : Z) (s : list Z) : Prop :=
  parse radix s = val /\ digit_chars s /\ 1 <= zlen s
  /\ (val = 0 \/ radix ^ (zlen s - 1) <= val).

Lemma digits_inv_renders radix val l :
  2 <= radix -> 0 < val -> digits_inv radix val l 0 -> renders radix val (reverse l).
Proof.
  intros Hr Hval [Hv Hc _ Hs]. rewrite Z.mul_0_r, Z.add_0_r in Hv.
  destruct Hs as [->|Hs]; [simpl in Hv; lia|].
  assert (l <> []) as Hne by (intros ->; simpl in Hv; lia).
  assert (1 <= zlen l) as H1 by (destruct l; [done|]; rewrite zlen_cons; pose proof (zlen_nonneg l); lia).
  assert (zlen (reverse l) = zlen l) as Hlen by (unfold zlen; by rewrite length_reverse).
  unfold renders. rewrite parse_reverse, Hlen. repeat split; auto.
  unfold digit_chars. by apply Forall_reverse.
Qed.

Section Formatting.
Context `{AS : AddrSpace}.

Lemma snoc_store buf p n m l c k :
  window buf p n -> 0 <= zlen l < n ->
  store8 (buf + zlen l) c (with_ram (write_bytes m p l) k) =
    Ok () (with_ram (write_bytes m p (l ++ [u8 c])) k).
Proof.
  intros W Hl. rewrite (store8_ok _ (p + zlen l)) by (eapply window_sub; [exact W|lia|lia]).
  rewrite ram_with_ram, with_ram_with_ram. by rewrite write_bytes_snoc.
Qed.

(** Flip what was written and terminate it. *)
Lemma flip_finish buf p m l k len :
  ram_ok m -> Forall byte l -> window buf p (zlen l + 1) -> zlen l < 2 ^ 63 -> len = zlen l ->
  (flip_string buf len ;; store8 (buf + len) 0) (with_ram (write_bytes m p l) k) =
    Ok () (with_ram (write_bytes m p (reverse l ++ [0])) k).
Proof.
  intros Hm Hl W Hn ->. pose proof (zlen_nonneg l).
  destruct (flip_string_ok buf p l m k Hm Hl (window_le _ _ _ (zlen l) W ltac:(lia)) Hn) as [r E].
  kstep E. replace (zlen l) with (zlen (reverse l)) by (unfold zlen; by rewrite length_reverse).
  apply (snoc_store buf p (zlen l + 1)); [done|]. unfold zlen in *. rewrite length_reverse. lia.
Qed.

Lemma itoa_base_ok val buf radix p n k :
  2 <= radix <= 62 -> 2 <= n <= 65 -> 0 <= val < 2 ^ 64 -> val < radix ^ (n - 1) ->
  ram_ok (ram k) -> window buf p n ->
  exists s, internalItoaBaseChange val buf radix k =
      Ok () (with_ram (write_bytes (ram k) p (s ++ [0])) k)
    /\ renders radix val s /\ zlen s <= n - 1.
Proof.
  intros Hr Hn Hval Hfit Hm W. unfold internalItoaBaseChange.
  destruct (Z.eqb_spec val 0) as [->|Hnz].
  { exists [48]. split; [|split; [vm_compute; repeat split; try congruence; auto|unfold zlen; simpl; lia]].
    pose proof (snoc_store buf p n (ram k) [] 48 k W ltac:(unfold zlen; simpl; lia)) as H1.
    unfold zlen in H1. simpl in H1. rewrite Z.add_0_r, with_ram_id in H1. kstep H1.
    exact (snoc_store buf p n (ram k) [48] 0 k W ltac:(unfold zlen; simpl; lia)). }
  match goal with |- context [cloop ?b (val, 0)] => set (body := b) end.
  destruct (cloop_total
    (fun '(vc, len) k' => exists l, k' = with_ram (write_bytes (ram k) p l) k /\ len = zlen l /\
       digits_inv radix val l vc)
    (fun len k' => exists l, k' = with_ram (write_bytes (ram k) p l) k /\ len = zlen l /\
       digits_inv radix val l 0)
    (fun '(vc, _) => vc) body) with (s := (val, 0)) (k := k)
    as (len & k' & E & (l & -> & -> & Hinv)).
  - intros [vc len] k1 (l & -> & -> & Hinv). unfold body.
    destruct (Z.eqb_spec vc 0) as [->|Hvc].
    { exists (inr (zlen l)). eexists. split; [reflexivity|]. exists l. auto. }
    destruct (Z.eqb_spec radix 0); [lia|].
    pose proof (di_left _ _ _ _ Hinv).
    pose proof (digits_inv_len radix val l vc (n - 1) ltac:(lia) ltac:(lia) Hfit Hinv ltac:(lia)).
    pose proof (zlen_nonneg l).
    kstep (snoc_store buf p n (ram k) l (itoa_char (sx 8 (vc mod radix))) k W ltac:(lia)).
    eexists (inl _), _. split; [reflexivity|].
    split; [|split; [apply Z.div_pos; lia|apply Z.div_lt; lia]].
    eexists. split; [reflexivity|]. rewrite zlen_snoc, u_small by lia.
    split; [done|]. apply digits_inv_step; [lia|done|lia].
  - exists []. split; [|split; [done|]].
    + simpl. by rewrite with_ram_id.
    + apply digits_inv_start. lia.
  - unfold FUEL. lia.
  - kstep E. exists (reverse l).
    pose proof (digits_inv_renders radix val l ltac:(lia) ltac:(lia) Hinv) as Hrend.
    assert (zlen (reverse l) <= n - 1) as Hlen.
    { destruct Hrend as (_ & _ & _ & [?|Hp]); [lia|].
      assert (zlen (reverse l) - 1 < n - 1); [|lia].
      eapply pow_exp_lt; [|lia|exact Hp|exact Hfit]. lia. }
    split; [|done]. unfold zlen in Hlen. rewrite length_reverse in Hlen.
    apply flip_finish; [done| |eapply window_le; [exact W|unfold zlen; lia]|unfold zlen; lia|done].
    apply digit_chars_byte, (di_chars _ _ _ _ Hinv).
Qed.

(** The digits 0 to 9 are encoded as the signed routine encodes them. *)
Lemma itoa_char_decimal d : 0 <= d < 10 -> sx 8 d + 48 = itoa_char (sx 8 d).
Proof.
  intros. rewrite sx_small by (simpl; lia). unfold itoa_char.
  destruct (Z.leb_spec d 9); [|lia]. destruct (Z.leb_spec 0 d); [|lia]. done.
Qed.

Lemma parse_signed_digits s : digit_chars s -> parse_signed s = parse 10 s.
Proof.
  intros H. destruct s as [|c s]; [done|]. apply Forall_cons in H as [Hc _].
  unfold parse_signed. destruct (Z.eqb_spec c 45); [lia|done].
Qed.

Lemma itoa_signed_neg_ok val buf p k :
  - 2 ^ 63 < val < 0 -> ram_ok (ram k) -> window buf p 21 ->
  exists s, internalSignedItoa val buf k =
      Ok () (with_ram (write_bytes (ram k) p (45 :: s ++ [0])) k)
    /\ renders 10 (- val) s /\ zlen s <= 19.
Proof.
  intros Hval Hm W. unfold internalSignedItoa.
  destruct (Z.leb_spec 0 val); [lia|]. destruct (Z.eqb_spec val (- 2 ^ 63)); [lia|].
  assert (- val < 10 ^ 19) as Hfit by lia.
  match goal with |- context [cloop ?b (0 - val, 0)] => set (body := b) end.
  destruct (cloop_total
    (fun '(vc, len) k' => exists l, k' = with_ram (write_bytes (ram k) p l) k /\ len = zlen l /\
       vc < 2 ^ 63 /\ digits_inv 10 (- val) l vc)
    (fun len k' => exists l, k' = with_ram (write_bytes (ram k) p l) k /\ len = zlen l /\
       digits_inv 10 (- val) l 0)
    (fun '(vc, _) => vc) body) with (s := (0 - val, 0)) (k := k)
    as (len & k' & E & (l & -> & -> & Hinv)).
  - intros [vc len] k1 (l & -> & -> & Hvc & Hinv). unfold body.
    destruct (Z.eqb_spec vc 0) as [->|Hnz].
    { exists (inr (zlen l)). eexists. split; [reflexivity|]. exists l. auto. }
    pose proof (di_left _ _ _ _ Hinv).
    pose proof (digits_inv_len 10 (- val) l vc 19 ltac:(lia) ltac:(lia) Hfit Hinv ltac:(lia)).
    pose proof (zlen_nonneg l). rewrite !(u_small 64 vc) by lia.
    rewrite itoa_char_decimal by (apply Z.mod_pos_bound; lia).
    kstep (snoc_store buf p 21 (ram k) l (itoa_char (sx 8 (vc mod 10))) k W ltac:(lia)).
    rewrite sx_small by (simpl; dlia).
    eexists (inl _), _. split; [reflexivity|]. split; [|dlia].
    eexists. split; [reflexivity|]. rewrite zlen_snoc, u_small by lia.
    split; [done|]. split; [dlia|]. apply digits_inv_step; [lia|done|lia].
  - exists []. split; [|split; [done|split; [lia|]]].
    + simpl. by rewrite with_ram_id.
    + apply (digits_inv_start 10 (- val)). lia.
  - unfold FUEL. lia.
  - kstep E. exists (reverse l).
    pose proof (digits_inv_renders 10 (- val) l ltac:(lia) ltac:(lia) Hinv) as Hrend.
    assert (zlen (reverse l) = zlen l) as Hrl by (unfold zlen; by rewrite length_reverse).
    assert (zlen l <= 19) as Hlen.
    { destruct Hrend as (_ & _ & _ & [?|Hp]); [lia|]. rewrite Hrl in Hp.
      assert (zlen l - 1 < 19); [|lia]. eapply (pow_exp_lt 10); [lia|lia|exact Hp|exact Hfit]. }
    rewrite Hrl. split; [|done]. pose proof (zlen_nonneg l).
    kstep (snoc_store buf p 21 (ram k) l 45 k W ltac:(lia)).
    rewrite u_small by lia. change (u8 45) with 45.
    erewrite flip_finish.
    + rewrite reverse_snoc. done.
    + done.
    + apply Forall_app. split; [apply digit_chars_byte, (di_chars _ _ _ _ Hinv)|].
      by repeat constructor.
    + eapply window_le; [exact W|rewrite zlen_snoc; lia].
    + rewrite zlen_snoc. lia.
    + by rewrite zlen_snoc.
Qed.


Lemma KiItoaSigned_ok (Input Result p : Z) (k : kernel) :
  - 2 ^ 63 <= Input < 2 ^ 63 -> ram_ok (ram k) -> window Result p 21 ->
  (Input = - 2 ^ 63 /\ KiItoaSigned Input Result k = Fault k)
  \/ exists s, KiItoaSigned Input Result k =
        Ok STATUS_SUCCESS (with_ram (write_bytes (ram k) p (s ++ [0])) k)
      /\ parse_signed s = Input /\ 1 <= zlen s <= 20 /\ Forall (fun c => 0 < c < 128) s.
Proof.
  intros HI Hm W. unfold KiItoaSigned.
  assert (sx 64 Input = Input) as ->.
  { unfold sx. destruct (Z.leb_spec (2 ^ (64 - 1)) (u64 Input)) as [H|H];
      revert H; unfold u; intros H; dlia. }
  destruct (Z.eq_dec Input (- 2 ^ 63)) as [->|Hne]; [by left|right].
  destruct (Z.leb_spec 0 Input) as [Hp|Hp].
  - unfold internalSignedItoa, internalItoa.
    destruct (Z.leb_spec 0 Input); [|lia]. rewrite u_small by lia.
    destruct (itoa_base_ok Input Result 10 p 21 k) as (s & E & (Hs & Hc & Hl & _) & Hn);
      [lia|lia|lia|lia|done|done|].
    exists s. kstep E. split; [done|]. rewrite parse_signed_digits by done.
    split; [done|]. split; [lia|]. eapply Forall_impl; [exact Hc|]. simpl. lia.
  - destruct (itoa_signed_neg_ok Input Result p k) as (s & E & (Hs & Hc & Hl & _) & Hn);
      [lia|done|done|].
    exists (45 :: s). kstep E. split; [done|]. split; [simpl; lia|].
    split; [rewrite zlen_cons; lia|]. constructor; [lia|].
    eapply Forall_impl; [exact Hc|]. simpl. lia.
Qed.


(** [KiItoa] takes a signed argument but prints its unsigned 64-bit
    pattern: a negative input comes out as [2^64] plus itself. *)
Theorem KiItoa_spec (Input Result p : Z) (k : kernel) :
  - 2 ^ 63 <= Input < 2 ^ 63 -> ram_ok (ram k) -> window Result p 21 ->
  exists s, KiItoa Input Result k =
      Ok STATUS_SUCCESS (with_ram (write_bytes (ram k) p (s ++ [0])) k)
    /\ parse 10 s = (if Input <? 0 then Input + 2 ^ 64 else Input)
    /\ 1 <= zlen s <= 20.
Proof.
  intros HI Hm W. unfold KiItoa, internalItoa.
  pose proof (u_range 64 Input ltac:(lia)).
  destruct (itoa_base_ok (u64 Input) Result 10 p 21 k) as (s & E & (Hs & Hc & Hl & _) & Hn);
    [lia|lia|lia|lia|done|done|].
  exists s. kstep E. split; [done|]. split; [|lia]. rewrite Hs. unfold u.
  destruct (Z.ltb_spec Input 0); dlia.
Qed.
End Formatting.

(** ** Witnesses *)



Lemma KiItoa_spec_witness :
  exists s, @KiItoa boot_space (-1) 0x9000 kernel0 =
      Ok STATUS_SUCCESS (with_ram (write_bytes ∅ 0x9000 (s ++ [0])) kernel0)
    /\ parse 10 s = 2 ^ 64 - 1.
Proof.
  destruct (KiItoa_spec (AS := boot_space) (-1) 0x9000 0x9000 kernel0) as (s & E & Hs & _);
    [lia|apply ram_ok_empty|apply boot_window_low; lia|].
  exists s. split; [exact E|exact Hs].
Defined.

Lemma KiLog2UInt_floor_witness :
  exists Result, KiLog2UInt 8000 kernel0 = Ok (STATUS_SUCCESS, Result) kernel0
    /\ 2 ^ Result <= 8000 < 2 ^ (Result + 1).
Proof.
  destruct (KiLog2UInt_floor 8000 kernel0) as (r & E & _ & H); [lia|eauto].
Defined.

Example itoa_runs :
  match @KiItoaSigned boot_space (-1070) 0x9000 kernel0 with
  | Ok _ k => read_bytes (ram k) 0x9000 6 = [45; 49; 48; 55; 48; 0]
  | _ => False
  end.
Proof. vm_compute. reflexivity. Qed.

(** Base 36 prints the digit 35 as ['@']. *)
Example itoa_base36_35 :
  match @KiItoaBase boot_space 35 36 0x9000 kernel0 with
  | Ok _ k => read_bytes (ram k) 0x9000 2 = [64; 0]
  | _ => False
  end.
Proof. vm_compute. reflexivity. Qed.
