(* ===== verification/Strings.v ===== *)
(** * Strings ([kern/lib/kernel_stringfuncs.c], [inc/feral/string.h],
    [kern/krnlstring.c])

    Lengths of NUL-terminated strings, and the counted wide strings
    [FERALSTRING] with their comparison.  A [WCHAR] is four bytes, as on the
    targets the kernel is built for. *)

From S2P Require Import Prelude Machine Status MemFuncs.

(** [FERALSTRING]: [Length] at offset 0, [Content] at offset 8. *)
Definition FERALSTRING_Length : Z := 0.
Definition FERALSTRING_Content : Z := 8.

Section Strings.
Context `{AS : AddrSpace}.

Definition load_wchar (String Index : Z) : K Z := load32 (String + 4 * Index).

(** [*Length] is passed in and handed back, unchanged on an error. *)
Definition KiGetStringLength (String Length : Z) : K (FERALSTATUS * Z) :=
  if String =? NULL then mret (STATUS_INVALID_MEMORY_LOCATION, Length)
  else
    Len ← cloop (fun Len =>
      c ← load8 (String + Len);
      if c =? 0 then mret (inr Len) else mret (inl (u64 (Len + 1)))) 0;
    mret (STATUS_SUCCESS, Len).

Definition KiGetWideStringLength (String Length : Z) : K (FERALSTATUS * Z) :=
  if String =? NULL then mret (STATUS_INVALID_MEMORY_LOCATION, Length)
  else
    Len ← cloop (fun Len =>
      c ← load_wchar String Len;
      if c =? 0 then mret (inr Len) else mret (inl (u64 (Len + 1)))) 0;
    mret (STATUS_SUCCESS, Len).

(** [String1->Content[Index + o] == String2->Content[Index + o]]. *)
Definition same_wchar (String1 String2 Index o : Z) : K bool :=
  p1 ← load64 (String1 + FERALSTRING_Content);
  c1 ← load_wchar p1 (u64 (Index + o));
  p2 ← load64 (String2 + FERALSTRING_Content);
  c2 ← load_wchar p2 (u64 (Index + o));
  mret (c1 =? c2).

Definition FrlStringCmp (String1 String2 : Z) : K Z :=
  l1 ← load64 (String1 + FERALSTRING_Length);
  l2 ← load64 (String2 + FERALSTRING_Length);
  '(Index, Condition1, Condition2, Condition3, Condition4) ←
    cloop (fun '(Index, c1, c2, c3, c4) =>
      len ← load64 (String1 + FERALSTRING_Length);
      if Index <? len then
        e1 ← same_wchar String1 String2 Index 0;
        e2 ← same_wchar String1 String2 Index 1;
        e3 ← same_wchar String1 String2 Index 2;
        e4 ← same_wchar String1 String2 Index 3;
        mret (inl (u64 (Index + 4), c1 && e1, c2 && e2, c3 && e3, c4 && e4))
      else mret (inr (Index, c1, c2, c3, c4)))
      (0, l1 =? l2, true, true, true);
  Condition1 ←
    cloop (fun '(Index, c1) =>
      len ← load64 (String1 + FERALSTRING_Length);
      if Index <? len then
        e1 ← same_wchar String1 String2 Index 0;
        mret (inl (u64 (Index + 1), c1 && e1))
      else mret (inr c1)) (Index, Condition1);
  mret (b2z (Condition1 && Condition2)).

Definition FrlCreateString (StringLocation Length Content : Z) : K FERALSTATUS :=
  store64 (StringLocation + FERALSTRING_Length) Length ;;
  store64 (StringLocation + FERALSTRING_Content) Content ;;
  mret STATUS_SUCCESS.

Definition FrlDeleteString (String : Z) : K FERALSTATUS := mret STATUS_SUCCESS.

Definition FrlCloneString (Source OutLocation : Z) : K FERALSTATUS := mret STATUS_SUCCESS.

(** ** Lengths *)

(** The NUL-terminated string [s] lies at physical address [p]. *)
Definition cstr (m : gmap Z Z) (p : Z) (s : list Z) : Prop :=
  read_bytes m p (length s + 1) = s ++ [0] /\ Forall (fun c => c <> 0) s.

Lemma cstr_char m p s i :
  cstr m p s -> 0 <= i < zlen s ->
  rb m (p + i) = nth (Z.to_nat i) s 0 /\ rb m (p + i) <> 0.
Proof.
  intros [Hr Hnz] Hi. unfold zlen in Hi.
  assert (rb m (p + i) = nth (Z.to_nat i) s 0) as E.
  { rewrite <- (Z2Nat.id i) at 1 by lia.
    rewrite <- (nth_read_bytes m p (length s + 1)), Hr, app_nth1 by lia. done. }
  split; [done|]. rewrite E.
  rewrite Forall_forall in Hnz. apply Hnz. apply list_elem_of_In, nth_In. lia.
Qed.

Lemma cstr_nul m p s : cstr m p s -> rb m (p + zlen s) = 0.
Proof.
  intros [Hr _]. unfold zlen.
  rewrite <- (nth_read_bytes m p (length s + 1)), Hr, app_nth2, Nat.sub_diag by lia. done.
Qed.

Lemma KiGetStringLength_ok (String Length p : Z) (s : list Z) (k : kernel) :
  window String p (zlen s + 1) -> zlen s < 2 ^ 64 -> cstr (ram k) p s ->
  KiGetStringLength String Length k =
    Ok (if String =? NULL then (STATUS_INVALID_MEMORY_LOCATION, Length)
        else (STATUS_SUCCESS, zlen s)) k.
Proof.
  intros W Hlen Hs. unfold KiGetStringLength. destruct (String =? NULL); [done|].
  pose proof (zlen_nonneg s).
  match goal with |- context [cloop ?b 0] => set (body := b) end.
  destruct (cloop_total (fun i k' => k' = k /\ 0 <= i <= zlen s)
    (fun r k' => k' = k /\ r = zlen s) (fun i => zlen s - i) body)
    with (s := 0) (k := k) as (r & k' & E & -> & ->).
  - intros i k1 [-> Hi]. unfold body.
    kstep (load8_at String p (zlen s + 1) i k W ltac:(lia)).
    destruct (Z.eq_dec i (zlen s)) as [->|Hne].
    + rewrite (cstr_nul _ _ _ Hs). exists (inr (zlen s)), k. kdone.
    + destruct (cstr_char _ _ _ i Hs ltac:(lia)) as [_ Hnz].
      rewrite (proj2 (Z.eqb_neq _ _) Hnz). eexists (inl _), k. split; [reflexivity|].
      rewrite u_small by lia. kdone.
  - kdone.
  - unfold FUEL. lia.
  - by kstep E.
Qed.

(** on a mapped NUL-terminated string [KiGetStringLength] terminates,
    reads only the string, and returns the number of characters before the
    NUL; on a null pointer it reports an error and leaves [*Length] alone. *)
Theorem KiGetStringLength_spec (String Length p : Z) (s : list Z) (k : kernel) :
  window String p (zlen s + 1) -> zlen s < 2 ^ 64 -> cstr (ram k) p s ->
  KiGetStringLength String Length k =
    Ok (if String =? NULL then (STATUS_INVALID_MEMORY_LOCATION, Length)
        else (STATUS_SUCCESS, zlen s)) k.
Proof. apply KiGetStringLength_ok. Qed.

(** ** Counted strings *)

(** A [FERALSTRING] at [sp] of [len] characters at [cp], readable in whole
    blocks of four characters. *)
Record string_at (m : gmap Z Z) (s sp c cp len : Z) : Prop := {
  sa_struct : window s sp 16;
  sa_len : rdn 8 m sp = len;
  sa_content : rdn 8 m (sp + 8) = c;
  sa_chars : window c cp (4 * round4 len);
}.

Definition wchar (m : gmap Z Z) (cp i : Z) : Z := rdn 4 m (cp + 4 * i).

Lemma load_len k s sp c cp len :
  string_at (ram k) s sp c cp len -> load64 (s + FERALSTRING_Length) k = Ok len k.
Proof.
  intros [W Hl _ _]. unfold load64, FERALSTRING_Length.
  rewrite (loadn_ok 8 (s + 0) (sp + 0)) by (eapply window_sub; [exact W|lia|lia]).
  by rewrite Z.add_0_r, Hl.
Qed.

Lemma same_wchar_ok k s1 sp1 c1 cp1 l1 s2 sp2 c2 cp2 l2 n Index o :
  string_at (ram k) s1 sp1 c1 cp1 l1 -> string_at (ram k) s2 sp2 c2 cp2 l2 ->
  window c1 cp1 (4 * n) -> window c2 cp2 (4 * n) ->
  0 <= Index + o < n -> n < 2 ^ 64 ->
  same_wchar s1 s2 Index o k =
    Ok (wchar (ram k) cp1 (Index + o) =? wchar (ram k) cp2 (Index + o)) k.
Proof.
  intros [W1 _ Hc1 _] [W2 _ Hc2 _] V1 V2 Hi Hn. unfold same_wchar, load_wchar, load64, load32.
  rewrite u_small by lia. unfold FERALSTRING_Content.
  kstep (loadn_ok 8 (s1 + 8) (sp1 + 8) k ltac:(eapply window_sub; [exact W1|lia|lia])).
  rewrite Hc1.
  kstep (loadn_ok 4 (c1 + 4 * (Index + o)) (cp1 + 4 * (Index + o)) k
    ltac:(eapply window_sub; [exact V1|lia|lia])).
  kstep (loadn_ok 8 (s2 + 8) (sp2 + 8) k ltac:(eapply window_sub; [exact W2|lia|lia])).
  rewrite Hc2.
  by kstep (loadn_ok 4 (c2 + 4 * (Index + o)) (cp2 + 4 * (Index + o)) k
    ltac:(eapply window_sub; [exact V2|lia|lia])).
Qed.

(** What the result looks at: the two lengths, and of every block of four
    characters the first two. *)
Definition looks_equal (m : gmap Z Z) (cp1 cp2 l1 l2 i : Z) : Prop :=
  l1 = l2 /\ forall j, 0 <= j < i -> j mod 4 < 2 -> wchar m cp1 j = wchar m cp2 j.

(** A block more: the first two characters decide. *)
Lemma looks_equal_step m cp1 cp2 l1 l2 i a1 a2 :
  0 <= i -> i mod 4 = 0 -> (a1 && a2 = true <-> looks_equal m cp1 cp2 l1 l2 i) ->
  ((a1 && (wchar m cp1 i =? wchar m cp2 i)) && (a2 && (wchar m cp1 (i + 1) =? wchar m cp2 (i + 1))) = true
   <-> looks_equal m cp1 cp2 l1 l2 (i + 4)).
Proof.
  intros Hi Hmod Ha. split.
  - intros [[Ha1 E1]%andb_true_iff [Ha2 E2]%andb_true_iff]%andb_true_iff.
    destruct (proj1 Ha) as [Hl12 Hj]; [by rewrite Ha1, Ha2|].
    apply Z.eqb_eq in E1, E2. split; [done|]. intros j Hji Hj2.
    destruct (decide (j < i)); [apply Hj; lia|].
    assert (j = i \/ j = i + 1) as [->| ->] by dlia; done.
  - intros [Hl12 Hj].
    assert (a1 && a2 = true) as [-> ->]%andb_true_iff.
    { apply Ha. split; [done|]. intros. apply Hj; [lia|done]. }
    simpl. rewrite !(proj2 (Z.eqb_eq _ _)); [done|apply Hj; [lia|dlia]|apply Hj; [lia|dlia]].
Qed.

(** C23: [FrlStringCmp] on two strings whose characters are mapped up to the
    next multiple of four terminates, changes nothing, and answers TRUE
    exactly when the lengths are equal and the characters at positions 0 and 1
    of every block of four agree.  The characters at positions 2 and 3 are
    compared but left out of the result. *)
Theorem FrlStringCmp_spec (s1 sp1 c1 cp1 l1 s2 sp2 c2 cp2 l2 : Z) (k : kernel) :
  string_at (ram k) s1 sp1 c1 cp1 l1 -> string_at (ram k) s2 sp2 c2 cp2 l2 ->
  window c2 cp2 (4 * round4 l1) -> 0 <= l1 <= 2 ^ 60 ->
  exists r, FrlStringCmp s1 s2 k = Ok r k /\ (r = 0 \/ r = 1)
    /\ (r = 1 <-> looks_equal (ram k) cp1 cp2 l1 l2 (round4 l1)).
Proof.
  intros S1 S2 V2 Hl. pose proof (sa_chars _ _ _ _ _ _ S1) as V1. unfold FrlStringCmp.
  kstep (load_len _ _ _ _ _ _ S1). kstep (load_len _ _ _ _ _ _ S2).
  pose proof (round4_bounds l1 ltac:(lia)) as HR.
  match goal with |- context [cloop ?b (0, l1 =? l2, true, true, true)] => set (body := b) end.
  destruct (cloop_total
    (fun '(i, a1, a2, a3, a4) k' => k' = k /\ 0 <= i <= round4 l1 /\ i mod 4 = 0 /\
       (a1 && a2 = true <-> looks_equal (ram k) cp1 cp2 l1 l2 i))
    (fun '(i, a1, a2, a3, a4) k' => k' = k /\ i = round4 l1 /\
       (a1 && a2 = true <-> looks_equal (ram k) cp1 cp2 l1 l2 (round4 l1)))
    (fun '(i, _, _, _, _) => round4 l1 - i) body)
    with (s := (0, l1 =? l2, true, true, true)) (k := k) as (x & k' & E & HQ).
  - intros [[[[i a1] a2] a3] a4] k1 (-> & Hi & Hmod & Ha). unfold body.
    kstep (load_len _ _ _ _ _ _ S1). destruct (Z.ltb_spec i l1).
    + assert (i + 4 <= round4 l1) by (unfold round4; dlia).
      pose proof (fun o H H' => same_wchar_ok k s1 sp1 c1 cp1 l1 s2 sp2 c2 cp2 l2 (round4 l1) i o
        S1 S2 V1 V2 H H') as Hs.
      kstep (Hs 0 ltac:(lia) ltac:(lia)). kstep (Hs 1 ltac:(lia) ltac:(lia)).
      kstep (Hs 2 ltac:(lia) ltac:(lia)). kstep (Hs 3 ltac:(lia) ltac:(lia)).
      eexists (inl _), k. rewrite ret_ok, u_small by lia. kdone; [dlia|].
      rewrite Z.add_0_r. apply looks_equal_step; [lia|done|exact Ha].
    + exists (inr (i, a1, a2, a3, a4)), k.
      assert (i = round4 l1) as -> by (apply round4_exact; lia). kdone.
  - kdone. split.
    + intros H. rewrite andb_true_r in H. apply Z.eqb_eq in H. split; [done|lia].
    + intros [-> _]. by rewrite Z.eqb_refl.
  - unfold FUEL, round4. dlia.
  - kstep E. destruct x as [[[[i a1] a2] a3] a4]. destruct HQ as (-> & -> & Ha).
    match goal with |- context [cloop ?b (round4 l1, a1)] => set (body2 := b) end.
    destruct (cloop_total (fun s k' => s = (round4 l1, a1) /\ k' = k)
      (fun r k' => r = a1 /\ k' = k) (fun _ => 0) body2)
      with (s := (round4 l1, a1)) (k := k) as (r & k2 & E2 & -> & ->); [|done|done|].
    { intros s k1 [-> ->]. exists (inr a1), k. unfold body2.
      kstep (load_len _ _ _ _ _ _ S1). destruct (Z.ltb_spec (round4 l1) l1); [lia|done]. }
    kstep E2. exists (b2z (a1 && a2)). split; [done|].
    destruct (a1 && a2); simpl; (split; [auto|]); rewrite <- Ha; split; done.
Qed.
End Strings.

(** ** Witnesses *)

Definition hello_kernel : kernel :=
  with_ram (write_bytes ∅ 0x4000 [104; 101; 108; 108; 111; 0]) kernel0.

Lemma KiGetStringLength_spec_witness :
  @KiGetStringLength boot_space 0x4000 7 hello_kernel = Ok (STATUS_SUCCESS, 5) hello_kernel.
Proof.
  apply (KiGetStringLength_spec (AS := boot_space) 0x4000 7 0x4000
    [104; 101; 108; 108; 111] hello_kernel).
  - apply boot_window_low; vm_compute; congruence.
  - vm_compute. congruence.
  - split; [vm_compute; reflexivity|]. repeat constructor; congruence.
Defined.

(** Two three-character strings that differ in the last character. *)
Definition strings_kernel : kernel :=
  let m := write_bytes ∅ 0x1000 (le_bytes 8 3 ++ le_bytes 8 0x3000) in
  let m := write_bytes m 0x2000 (le_bytes 8 3 ++ le_bytes 8 0x4000) in
  let m := write_bytes m 0x3000 (le_bytes 4 97 ++ le_bytes 4 98 ++ le_bytes 4 99) in
  let m := write_bytes m 0x4000 (le_bytes 4 97 ++ le_bytes 4 98 ++ le_bytes 4 100) in
  with_ram m kernel0.

Lemma FrlStringCmp_spec_witness :
  exists r, @FrlStringCmp boot_space 0x1000 0x2000 strings_kernel = Ok r strings_kernel /\ r = 1.
Proof.
  destruct (FrlStringCmp_spec (AS := boot_space) 0x1000 0x1000 0x3000 0x3000 3
    0x2000 0x2000 0x4000 0x4000 3 strings_kernel) as (r & E & _ & Hr).
  - constructor; try (apply boot_window_low; vm_compute; congruence); vm_compute; reflexivity.
  - constructor; try (apply boot_window_low; vm_compute; congruence); vm_compute; reflexivity.
  - apply boot_window_low; vm_compute; congruence.
  - lia.
  - exists r. split; [exact E|]. apply Hr. split; [reflexivity|]. intros j Hj Hj2.
    change (round4 3) with 4 in Hj.
    assert (j = 0 \/ j = 1) as [-> | ->] by dlia; vm_compute; reflexivity.
Defined.
