(* ===== verification/Vga.v ===== *)
(** * The text console ([kern/arch/x86_64/vga/vga_driver.c])

    The VGA driver keeps a context (geometry, colours, cursor) and writes
    two-byte cells, character and colour, into a linear buffer.  When the
    text reaches the bottom the buffer is moved up one row with
    [KiCopyMemory] and the last row cleared with [KiSetMemoryBytes]. *)

From S2P Require Import Prelude Machine Status MemFuncs Strings.

(** ** Constants of [vga.h] and [vgaregs.h] *)

Inductive VgaColorValue :=
| VGA_BLACK | VGA_BLUE | VGA_GREEN | VGA_CYAN | VGA_RED | VGA_MAGENTA | VGA_BROWN
| VGA_LIGHT_GREY | VGA_DARK_GREY | VGA_LIGHT_BLUE | VGA_LIGHT_GREEN | VGA_LIGHT_CYAN
| VGA_LIGHT_RED | VGA_LIGHT_MAGENTA | VGA_LIGHT_BROWN | VGA_WHITE.

Definition color_val (c : VgaColorValue) : Z :=
  match c with
  | VGA_BLACK => 0 | VGA_BLUE => 1 | VGA_GREEN => 2 | VGA_CYAN => 3 | VGA_RED => 4
  | VGA_MAGENTA => 5 | VGA_BROWN => 6 | VGA_LIGHT_GREY => 7 | VGA_DARK_GREY => 8
  | VGA_LIGHT_BLUE => 9 | VGA_LIGHT_GREEN => 10 | VGA_LIGHT_CYAN => 11
  | VGA_LIGHT_RED => 12 | VGA_LIGHT_MAGENTA => 13 | VGA_LIGHT_BROWN => 14 | VGA_WHITE => 15
  end.

Definition VGA_MISC_OUTPUT_REG : Z := 0x03C2.
Definition VGA_FB_COMMAND_PORT : Z := 0x03D4.
Definition VGA_FB_DATA_PORT : Z := 0x03D5.
Definition VGA_HIGH_BYTE_COMMAND : Z := 0x0E.
Definition VGA_LOW_BYTE_COMMAND : Z := 0x0F.

(** ** The context *)

Definition set_row (r : Z) (c : VgaContext) : VgaContext :=
  let 'mkVgaContext fb sb w h b bg fg hl _ col tm fi ce := c in
  mkVgaContext fb sb w h b bg fg hl r col tm fi ce.
Definition set_col (x : Z) (c : VgaContext) : VgaContext :=
  let 'mkVgaContext fb sb w h b bg fg hl row _ tm fi ce := c in
  mkVgaContext fb sb w h b bg fg hl row x tm fi ce.
Definition set_background (v : Z) (c : VgaContext) : VgaContext :=
  let 'mkVgaContext fb sb w h b _ fg hl row col tm fi ce := c in
  mkVgaContext fb sb w h b v fg hl row col tm fi ce.
Definition set_following (v : Z) (c : VgaContext) : VgaContext :=
  let 'mkVgaContext fb sb w h b bg fg hl row col tm _ ce := c in
  mkVgaContext fb sb w h b bg fg hl row col tm v ce.
Definition set_cursor_enabled (v : Z) (c : VgaContext) : VgaContext :=
  let 'mkVgaContext fb sb w h b bg fg hl row col tm fi _ := c in
  mkVgaContext fb sb w h b bg fg hl row col tm fi v.

(** [CurVgaContext->...]: a null pointer before [VgaPrepareEnvironment]. *)
Definition ctx : K VgaContext := fun k => if vga_on k then Ok (vga k) k else Fault k.
Definition upd_ctx (f : VgaContext -> VgaContext) : K () := fun k =>
  if vga_on k then Ok () (with_vga (f (vga k)) k) else Fault k.

Section Vga.
Context `{AS : AddrSpace} `{DV : Device}.

Definition internalGetItem (Row Col : Z) : K Z :=
  c ← ctx; load8 (SwappedBuffer c + (Row * ScreenWidth c + Col)).

Definition internalSetItem (Row Col content : Z) : K () :=
  c ← ctx; store8 (SwappedBuffer c + (Row * ScreenWidth c + Col)) content.

(** [VgaMoveCursor], [internalVgaPushUp] and [VgaEntry] call one another; the
    first two are written over the [VgaEntry] they call. *)
Definition VgaMoveCursor_with (entry : Z -> Z -> Z -> Z -> Z -> K ()) (PosX PosY : Z) : K () :=
  c ← ctx;
  if CursorEnabled c =? 0 then skip
  else
    let FinalPos := u16 (u32 (PosY * ScreenWidth c + PosX)) in
    x86outb VGA_FB_COMMAND_PORT VGA_LOW_BYTE_COMMAND ;;
    x86outb VGA_FB_DATA_PORT (Z.land FinalPos 0x00FF) ;;
    x86outb VGA_FB_COMMAND_PORT VGA_HIGH_BYTE_COMMAND ;;
    x86outb VGA_FB_DATA_PORT (Z.land (Z.shiftr FinalPos 8) 0x00FF) ;;
    c ← ctx;
    entry (Highlight c) (Background c) 0 PosX PosY.

Definition internalVgaPushUp_with (entry : Z -> Z -> Z -> Z -> Z -> K ()) : K () :=
  c ← ctx;
  let RowSize := u16 (2 * ScreenWidth c) in
  let Src := SwappedBuffer c + RowSize in
  let Dst := SwappedBuffer c + 0 in
  let LastRow := SwappedBuffer c + (ScreenHeight c - 1) * RowSize in
  let Amt := u64 (2 * ScreenWidth c * (ScreenHeight c - 1)) in
  KiCopyMemory Dst Src Amt ;;
  KiSetMemoryBytes LastRow 0 RowSize ;;
  VgaMoveCursor_with entry 0 (u32 (ScreenHeight c - 1)).

(** [depth] bounds the nesting of the calls; one level is enough unless the
    screen has no rows. *)
Fixpoint VgaEntry_at (depth : nat) (foreground background Letter PosX PosY : Z) : K () :=
  c ← ctx;
  (if ScreenHeight c <=? PosY then
     match depth with
     | O => spin
     | S d => internalVgaPushUp_with (VgaEntry_at d)
     end
   else skip) ;;
  c ← ctx;
  let Color := u16 (Z.lor (Z.shiftl foreground 0) (Z.shiftl background 4)) in
  let Offset := u16 (u32 (2 * (PosX + PosY * ScreenWidth c))) in
  store8 (SwappedBuffer c + (Offset + 0)) Letter ;;
  store8 (SwappedBuffer c + (Offset + 1)) Color ;;
  upd_ctx (set_col (u16 PosX)).

Definition VgaEntry : Z -> Z -> Z -> Z -> Z -> K () := VgaEntry_at 64.
Definition VgaMoveCursor : Z -> Z -> K () := VgaMoveCursor_with VgaEntry.
Definition internalVgaPushUp : K () := internalVgaPushUp_with VgaEntry.

Definition VgaPrepareEnvironment (FB FramebufferBPP FramebufferWidth FramebufferHeight
    FramebufferTextOnly : Z) : K Z :=
  miscreg ← x86inb 0x3CC;
  x86outb VGA_MISC_OUTPUT_REG (Z.lor miscreg 0xE7) ;;
  modify (fun k => with_vga_on true k) ;;
  upd_ctx (fun c =>
    mkVgaContext (KERN_PHYS_TO_VIRT FB) (KERN_PHYS_TO_VIRT FB)
      (u16 FramebufferWidth) (u16 FramebufferHeight) FramebufferBPP
      (color_val VGA_BLACK) (color_val VGA_WHITE) (color_val VGA_LIGHT_BROWN)
      0 0 FramebufferTextOnly 0 (CursorEnabled c)) ;;
  mret miscreg.

Definition VgaSwapBuffers : K () :=
  c ← ctx;
  let ScreenSize := u64 (ScreenWidth c * ScreenHeight c) in
  for_lt 64 (Z.shiftr ScreenSize 2) 1 (fun Offset =>
    c ← ctx;
    v ← load64 (SwappedBuffer c + 8 * Offset);
    store64 (Framebuffer c + 8 * Offset) v) 0 ;;
  skip.

Definition VgaSetCursorEnabled (value : Z) : K () :=
  (if negb (value =? 0) then
     x86outb VGA_FB_COMMAND_PORT 0x0A ;;
     v ← x86inb VGA_FB_DATA_PORT;
     x86outb VGA_FB_DATA_PORT (Z.lor (Z.land v 0xC0) 0x00) ;;
     x86_io_stall ;;
     x86outb VGA_FB_COMMAND_PORT 0x0B ;;
     v ← x86inb 0x3E0;
     x86outb VGA_FB_DATA_PORT (Z.lor (Z.land v 0xE0) 0x0F) ;;
     x86_io_stall
   else
     x86outb VGA_FB_COMMAND_PORT 0x0A ;;
     x86outb VGA_FB_DATA_PORT 0x20 ;;
     x86_io_stall) ;;
  upd_ctx (set_cursor_enabled value).

Definition VgaTraceCharacters (value : Z) : K () := upd_ctx (set_following value).

Definition VgaSetCurrentPosition (X Y : Z) : K () :=
  upd_ctx (set_row Y) ;; upd_ctx (set_col X).

Definition VgaGetCurrentPosition : K (Z * Z) := c ← ctx; mret (CurrentCol c, CurrentRow c).

Definition VgaGetFramebufferDimensions : K (Z * Z) :=
  c ← ctx; mret (ScreenWidth c, ScreenHeight c).

Definition KiBlankVgaScreen (Height Width Color : Z) : K () :=
  upd_ctx (set_background Color) ;;
  for_lt 16 Height 1 (fun H =>
    for_lt 16 Width 1 (fun W => VgaEntry Color Color 0 W H) 0 ;; skip) 0 ;;
  VgaSetCurrentPosition 0 0.

Definition inc_row : K () := upd_ctx (fun c => set_row (u16 (CurrentRow c + 1)) c).

(** The two checks [VgaAutoEntry] and [VgaPutChar] start with. *)
Definition wrap_col : K () :=
  c ← ctx;
  when (ScreenWidth c <=? CurrentCol c) (upd_ctx (set_col 0) ;; inc_row).

Definition clip_row : K () :=
  c ← ctx;
  when (ScreenHeight c <=? CurrentRow c)
    (upd_ctx (set_row (u16 (ScreenHeight c - 1))) ;; internalVgaPushUp).

Definition VgaAutoEntry (foreground background letter : Z) : K () :=
  wrap_col ;;
  clip_row ;;
  c ← ctx;
  VgaEntry foreground background letter (CurrentCol c) (CurrentRow c) ;;
  upd_ctx (fun c => set_col (u16 (CurrentCol c + 1)) c).

Definition VgaPutChar (letter : Z) : K () :=
  c ← ctx;
  VgaAutoEntry (Foreground c) (Background c) letter ;;
  c ← ctx;
  if negb (FollowingInput c =? 0) then
    wrap_col ;;
    clip_row ;;
    c ← ctx;
    VgaMoveCursor (CurrentCol c) (CurrentRow c)
  else skip.

(** One round of the loop of [VgaStringEntry], for character [c] at
    ([posx], [posy]); [None] leaves the loop. *)
Definition string_char (foreground background c posx posy : Z) : K (option (Z * Z)) :=
  v ← ctx;
  '(posx, posy) ←
    (if ScreenWidth v <=? posx then
       upd_ctx (set_row (u16 (posy + 1))) ;; mret (0, u32 (posy + 1))
     else mret (posx, posy));
  posy ←
    (if ScreenHeight v <=? posy then
       internalVgaPushUp ;; mret (u32 (ScreenHeight v - 1))
     else mret posy);
  if c =? 9 then
    for_lt 31 8 1 (fun _ => VgaPutChar 32) 0 ;; mret (Some (posx, posy))
  else if c =? 10 then
    upd_ctx (set_col 0) ;; inc_row ;; mret (Some (posx, posy))
  else if c =? 0 then mret None
  else VgaEntry foreground background c posx posy ;; mret (Some (u32 (posx + 1), posy)).

Definition VgaStringEntry (foreground background String length posx posy : Z) : K () :=
  c ← load8 String;
  cloop (fun '(index, c, posx, posy) =>
    if index <? length then
      r ← string_char foreground background c posx posy;
      match r with
      | None => mret (inr ())
      | Some (posx, posy) =>
          c ← load8 (String + (index + 1));
          mret (inl (u64 (index + 1), c, posx, posy))
      end
    else mret (inr ())) (0, c, posx, posy).

Definition VgaPrintln (foreground background String length : Z) : K () :=
  c ← ctx;
  VgaStringEntry foreground background String length (CurrentCol c) (CurrentRow c) ;;
  inc_row ;;
  upd_ctx (set_col 0) ;;
  clip_row ;;
  c ← ctx;
  VgaMoveCursor (CurrentCol c) (CurrentRow c).

Definition VgaAutoPrintln (Foreground Background String : Z) : K () :=
  '(_, Length) ← KiGetStringLength String 0;
  VgaPrintln Foreground Background String (u32 Length).

Definition VgaAutoPrint (Foreground Background String : Z) : K () :=
  '(_, Length) ← KiGetStringLength String 0;
  c ← ctx;
  VgaStringEntry Foreground Background String (u32 Length) (CurrentCol c) (CurrentRow c) ;;
  upd_ctx (fun c => set_col (u16 (CurrentCol c + 1)) c) ;;
  c ← ctx;
  VgaMoveCursor (CurrentCol c) (CurrentRow c).

End Vga.

(** ** The screen *)

Section Screen.
Context `{AS : AddrSpace} `{DV : Device}.

(** The geometry a console needs: the framebuffer at virtual address [fb] is
    mapped to the [2 * W * H] bytes from [pa], and every offset fits the
    16-bit arithmetic of [VgaEntry]. *)
Variables (fb pa W H : Z).

Record geometry : Prop := mkGeometry {
  g_fb : 0 < fb;
  g_width : 1 <= W /\ W mod 2 = 0;
  g_height : 1 <= H;
  g_size : 2 * W * H < 2 ^ 16;
  g_mapped : window fb pa (2 * W * H);
}.

(** What the driver's context says of it; the cursor may be anywhere. *)
Record context_ok (v : VgaContext) : Prop := mkContextOk {
  c_buffer : SwappedBuffer v = fb;
  c_front : Framebuffer v = fb;
  c_width : ScreenWidth v = W;
  c_height : ScreenHeight v = H;
  c_row : 0 <= CurrentRow v < 2 ^ 16;
  c_col : 0 <= CurrentCol v < 2 ^ 16;
}.

(** [m] differs from [m0] inside the framebuffer only. *)
Definition only_screen (m0 m : gmap Z Z) : Prop :=
  forall q, q < pa \/ pa + 2 * W * H <= q -> rb m q = rb m0 q.

(** A state the console may reach from [k0]: the screen, the port trace and
    the driver's context have moved on, nothing else has. *)
Record console (k0 k : kernel) : Prop := mkConsole {
  con_state : k = with_ram (ram k) (with_trace (trace k) (with_vga (vga k) k0));
  con_on : vga_on k = true;
  con_ctx : context_ok (vga k);
  con_ram : ram_ok (ram k);
  con_frame : only_screen (ram k0) (ram k);
}.

(** The byte of the cell in row [y], column [x]: its character ([o = 0]) or
    its attribute ([o = 1]). *)
Definition cell (m : gmap Z Z) (x y o : Z) : Z := rb m (pa + 2 * (x + y * W) + o).

Definition attribute (fg bg : Z) : Z := u16 (Z.lor (Z.shiftl fg 0) (Z.shiftl bg 4)).

Definition put_cell (m : gmap Z Z) (x y letter attr : Z) : gmap Z Z :=
  let o := pa + 2 * (x + y * W) in
  <[o + 1 := u8 attr]> (<[o + 0 := u8 letter]> m).

(** What [VgaEntry] does to the state when the position is on the screen. *)
Definition draw (fg bg letter x y : Z) (k : kernel) : kernel :=
  with_vga (set_col (u16 x) (vga k))
    (with_ram (put_cell (ram k) x y letter (attribute fg bg)) k).

Definition on_screen (x y : Z) : Prop := 0 <= x < W /\ 0 <= y < H.

Hypothesis G : geometry.

Lemma cell_offset x y : on_screen x y -> 0 <= 2 * (x + y * W) /\ 2 * (x + y * W) + 2 <= 2 * W * H.
Proof. intros [Hx Hy]. destruct G. nia. Qed.

(** Positions whose cell [VgaEntry] computes without scrolling or wrapping
    round, and that are mapped: the screen, and a little more. *)
Definition reach (x y : Z) : Prop :=
  0 <= x /\ 0 <= y < H /\ 2 * (x + y * W) + 2 <= 2 ^ 16 /\
  window fb pa (2 * (x + y * W) + 2).

Lemma on_screen_reach x y : on_screen x y -> reach x y.
Proof.
  intros Hs. pose proof (cell_offset x y Hs). destruct G, Hs. unfold reach. kdone.
  eapply window_le; [done|lia].
Qed.

Lemma VgaEntry_reach d fg bg letter x y k :
  vga_on k = true -> context_ok (vga k) -> reach x y ->
  VgaEntry_at d fg bg letter x y k = Ok () (draw fg bg letter x y k).
Proof.
  intros Hon Hc (Hx & Hy & Hsz & Hm). pose proof (g_width G).
  assert (0 <= 2 * (x + y * W)) as Ho by nia.
  destruct Hc as [Eb _ Ew Eh Hr Hco].
  assert (ctx k = Ok (vga k) k) as Ec by (unfold ctx; by rewrite Hon).
  assert (forall j v k', 0 <= j <= 1 ->
    store8 (fb + (2 * (x + y * W) + j)) v k' =
      Ok () (with_ram (<[pa + 2 * (x + y * W) + j := u8 v]> (ram k')) k')) as St.
  { intros. rewrite <- Z.add_assoc. apply store8_ok.
    eapply window_sub; [exact Hm|lia|lia]. }
  unfold VgaEntry_at; destruct d; fold VgaEntry_at; kstep Ec; rewrite Eh;
    rewrite (proj2 (Z.leb_gt _ _)) by lia; kstep (ret_ok () k); kstep Ec;
    rewrite Ew, Eb, !(u_small 32), !(u_small 16 (2 * (x + y * W))) by lia;
    rewrite (bind_ok _ _ _ _ _ (St 0 letter k ltac:(lia)));
    rewrite (bind_ok _ _ _ _ _ (St 1 _ _ ltac:(lia)));
    unfold upd_ctx, draw, put_cell, attribute;
    destruct k; simpl in *; rewrite Hon; done.
Qed.

Lemma VgaEntry_on d fg bg letter x y k :
  vga_on k = true -> context_ok (vga k) -> on_screen x y ->
  VgaEntry_at d fg bg letter x y k = Ok () (draw fg bg letter x y k).
Proof. auto using VgaEntry_reach, on_screen_reach. Qed.

(** Moving the screen up one row and clearing the last one. *)
Definition scrolled (m : gmap Z Z) : gmap Z Z :=
  fill (copied m pa (pa + 2 * W) (2 * W * (H - 1))) (pa + 2 * W * (H - 1)) (2 * W) 0.

(** The four port writes of [VgaMoveCursor]. *)
Definition cursor_io (pos : Z) (t : list io_event) : list io_event :=
  EvOut VGA_FB_DATA_PORT (Z.land (Z.shiftr pos 8) 255)
  :: EvOut VGA_FB_COMMAND_PORT VGA_HIGH_BYTE_COMMAND
  :: EvOut VGA_FB_DATA_PORT (Z.land pos 255)
  :: EvOut VGA_FB_COMMAND_PORT VGA_LOW_BYTE_COMMAND :: t.

Definition cursor_to (x y : Z) (k : kernel) : kernel :=
  if CursorEnabled (vga k) =? 0 then k
  else
    draw (Highlight (vga k)) (Background (vga k)) 0 x y
      (with_trace (cursor_io (y * W + x) (trace k)) k).

Lemma u8_land_255 x : u8 (Z.land x 255) = Z.land x 255.
Proof. apply u_small. change 255 with (Z.ones 8). apply land_mask_range. lia. Qed.

Lemma VgaMoveCursor_reach d x y k :
  vga_on k = true -> context_ok (vga k) -> reach x y ->
  VgaMoveCursor_with (VgaEntry_at d) x y k = Ok () (cursor_to x y k).
Proof.
  intros Hon Hc Hs. destruct (id Hs) as (Hx & Hy & Hsz & _). pose proof (g_width G).
  assert (0 <= 2 * (x + y * W)) as Ho by nia.
  assert (ctx k = Ok (vga k) k) as Ec by (unfold ctx; by rewrite Hon).
  unfold VgaMoveCursor_with, cursor_to. kstep Ec.
  destruct (CursorEnabled (vga k) =? 0); [done|].
  rewrite (c_width _ Hc), !u_small by (rewrite ?u_small; lia).
  set (k1 := with_trace (cursor_io (y * W + x) (trace k)) k).
  unfold x86outb. rewrite !u8_land_255. change (u16 VGA_FB_COMMAND_PORT) with VGA_FB_COMMAND_PORT.
  change (u16 VGA_FB_DATA_PORT) with VGA_FB_DATA_PORT.
  change (u8 VGA_LOW_BYTE_COMMAND) with VGA_LOW_BYTE_COMMAND.
  change (u8 VGA_HIGH_BYTE_COMMAND) with VGA_HIGH_BYTE_COMMAND.
  transitivity ((c ← ctx; VgaEntry_at d (Highlight c) (Background c) 0 x y) k1).
  { subst k1. by destruct k. }
  assert (vga k1 = vga k /\ vga_on k1 = true) as [Ev Eo] by (subst k1; by destruct k).
  assert (ctx k1 = Ok (vga k) k1) as Ec1 by (unfold ctx; by rewrite Eo, Ev).
  kstep Ec1. apply VgaEntry_reach; [done|by rewrite Ev|done].
Qed.

Lemma VgaMoveCursor_on d x y k :
  vga_on k = true -> context_ok (vga k) -> on_screen x y ->
  VgaMoveCursor_with (VgaEntry_at d) x y k = Ok () (cursor_to x y k).
Proof. auto using VgaMoveCursor_reach, on_screen_reach. Qed.

Lemma internalVgaPushUp_on d k :
  vga_on k = true -> context_ok (vga k) -> ram_ok (ram k) ->
  internalVgaPushUp_with (VgaEntry_at d) k =
    Ok () (cursor_to 0 (H - 1) (with_ram (scrolled (ram k)) k)).
Proof.
  intros Hon Hc Hm. destruct G as [Hfb [Hw He] Hh Hsz Hwin]. destruct (id Hc) as [Eb _ Ew Eh _ _].
  assert (ctx k = Ok (vga k) k) as Ec by (unfold ctx; by rewrite Hon).
  unfold internalVgaPushUp_with. kstep Ec. rewrite Eb, Ew, Eh.
  assert (0 <= 2 * W * (H - 1) /\ 2 * W * (H - 1) + 2 * W = 2 * W * H) as [Hlo Hsplit] by nia.
  assert (2 * W < 2 ^ 16) as HW by nia.
  assert (round4 (2 * W * (H - 1)) = 2 * W * (H - 1)) as R1.
  { assert (W = 2 * (W / 2)) as E2 by dlia.
    replace (2 * W * (H - 1)) with (4 * (W / 2 * (H - 1))) by (rewrite E2 at 2; ring).
    apply round4_mul. }
  assert (round4 (2 * W) = 2 * W) as R2 by (unfold round4; dlia).
  rewrite (u_small 16), (u_small 64), Z.add_0_r by lia.
  assert (window fb pa (2 * W * (H - 1))) as W1 by (eapply window_le; [exact Hwin|lia]).
  assert (window (fb + 2 * W) (pa + 2 * W) (2 * W * (H - 1))) as W2.
  { eapply window_sub; [exact Hwin|lia|lia]. }
  assert (window (fb + (H - 1) * (2 * W)) (pa + 2 * W * (H - 1)) (round4 (2 * W))) as W3.
  { rewrite R2. replace ((H - 1) * (2 * W)) with (2 * W * (H - 1)) by lia.
    eapply window_sub; [exact Hwin|lia|lia]. }
  rewrite <- R1 in W1, W2.
  kstep (KiCopyMemory_ok fb (fb + 2 * W) (2 * W * (H - 1)) pa (pa + 2 * W) k
    ltac:(unfold NULL; lia) ltac:(unfold NULL; lia) ltac:(lia) Hm W1 W2 ltac:(lia)).
  set (k1 := with_ram _ k).
  kstep (KiSetMemoryBytes_ok (fb + (H - 1) * (2 * W)) 0 (2 * W) (pa + 2 * W * (H - 1)) k1
    ltac:(lia) ltac:(lia) W3).
  rewrite R2. unfold k1. rewrite ram_with_ram, with_ram_with_ram, R1. fold (scrolled (ram k)).
  rewrite u_small by nia. apply VgaMoveCursor_on.
  - by destruct k.
  - by destruct k.
  - split; nia.
Qed.

(** ** The console invariant *)

Section Invariant.
Variable k0 : kernel.

(** The console invariant together with a fact [P] about the context. *)
Definition con (P : VgaContext -> Prop) (k : kernel) : Prop :=
  console k0 k /\ P (vga k).

Lemma con_imp (P Q : VgaContext -> Prop) k : (forall v, P v -> Q v) -> con P k -> con Q k.
Proof. intros HPQ [Hc HP]. split; auto. Qed.

Lemma byte_u8 v : byte (u8 v).
Proof. apply (u_range 8). lia. Qed.

Lemma console_upd k v : console k0 k -> context_ok v -> console k0 (with_vga v k).
Proof.
  intros [E Hon Hc Hm Hf] Hv. destruct k, k0; simplify_eq/=. constructor; simpl; try done; congruence.
Qed.

Lemma console_trace k t : console k0 k -> console k0 (with_trace t k).
Proof.
  intros [E Hon Hc Hm Hf]. destruct k, k0; simplify_eq/=. constructor; simpl; try done; congruence.
Qed.

Lemma console_ram k m :
  console k0 k -> ram_ok m -> only_screen (ram k) m -> console k0 (with_ram m k).
Proof.
  intros [E Hon Hc Hm Hf] Hm' Hf'. destruct k, k0; simplify_eq/=. constructor; simpl; try done; try congruence.
  intros q Hq. by rewrite Hf', Hf.
Qed.

Lemma put_cell_screen m x y l a : on_screen x y -> only_screen m (put_cell m x y l a).
Proof.
  intros Hs q Hq. pose proof (cell_offset x y Hs). unfold put_cell.
  rewrite !rb_insert. bdestr; [lia..|done].
Qed.

Lemma scrolled_screen m : only_screen m (scrolled m).
Proof.
  intros q Hq. destruct G. assert (0 <= 2 * W * (H - 1)) by nia.
  unfold scrolled. rewrite rb_fill, rb_copied by nia.
  bdestr; simpl; nia || done.
Qed.

Lemma console_draw k fg bg l x y :
  console k0 k -> on_screen x y -> console k0 (draw fg bg l x y k).
Proof.
  intros Hk Hs. unfold draw. apply console_upd.
  - apply console_ram; [done| |by apply put_cell_screen].
    pose proof (con_ram _ _ Hk). unfold put_cell. auto using ram_ok_insert, byte_u8.
  - destruct (con_ctx _ _ Hk) as [? ? ? ? ? ?]. destruct k as [? ? [] ? ? ? ? ? ? ? ? ? ?].
    simpl in *. constructor; simpl; auto. apply (u_range 16). lia.
Qed.

Lemma draw_vga fg bg l x y k : vga (draw fg bg l x y k) = set_col (u16 x) (vga k).
Proof. by destruct k. Qed.

Lemma cursor_to_con x y k (P Q : VgaContext -> Prop) :
  on_screen x y -> con P k ->
  (forall v, P v -> Q v) -> (forall v, P v -> Q (set_col x v)) -> con Q (cursor_to x y k).
Proof.
  intros Hs [Hk HP] H1 H2. unfold cursor_to.
  destruct (CursorEnabled (vga k) =? 0); [split; auto|]. split.
  - apply console_draw; [|done]. by apply console_trace.
  - rewrite draw_vga. destruct Hs, G. rewrite u_small by nia.
    replace (vga (with_trace _ k)) with (vga k) by (by destruct k). auto.
Qed.

(** The driver's operations as triples over the invariant. *)

Lemma con_ctx_eq P k : con P k -> ctx k = Ok (vga k) k.
Proof. intros [Hk _]. unfold ctx. by rewrite (con_on _ _ Hk). Qed.

Lemma tr_ctx P : triple (con P) ctx (fun v => con (fun v' => v' = v /\ P v /\ context_ok v)).
Proof.
  intros k Hk. exists (vga k), k. split; [by apply (con_ctx_eq P)|].
  destruct Hk as [Hk HP]. pose proof (con_ctx _ _ Hk). split; auto.
Qed.

Lemma tr_upd (P Q : VgaContext -> Prop) f :
  (forall v, context_ok v -> P v -> context_ok (f v) /\ Q (f v)) ->
  triple (con P) (upd_ctx f) (fun _ => con Q).
Proof.
  intros Hf k [Hk HP]. destruct (Hf _ (con_ctx _ _ Hk) HP) as [H1 H2].
  exists (), (with_vga (f (vga k)) k). split.
  - unfold upd_ctx. by rewrite (con_on _ _ Hk).
  - split; [by apply console_upd|]. by destruct k.
Qed.

Lemma tr_entry (P Q : VgaContext -> Prop) d fg bg l x y :
  on_screen x y -> (forall v, P v -> Q (set_col x v)) ->
  triple (con P) (VgaEntry_at d fg bg l x y) (fun _ => con Q).
Proof.
  intros Hs HQ k [Hk HP]. exists (), (draw fg bg l x y k).
  split; [apply VgaEntry_on; [apply (con_on _ _ Hk)|apply (con_ctx _ _ Hk)|done]|].
  split; [by apply console_draw|]. rewrite draw_vga. destruct Hs, G. rewrite u_small by nia. auto.
Qed.

Lemma tr_move (P Q : VgaContext -> Prop) x y :
  on_screen x y -> (forall v, P v -> Q v) -> (forall v, P v -> Q (set_col x v)) ->
  triple (con P) (VgaMoveCursor x y) (fun _ => con Q).
Proof.
  intros Hs H1 H2 k Hk. exists (), (cursor_to x y k). split; [|by apply (cursor_to_con _ _ _ P)].
  destruct Hk as [Hk HP]. apply VgaMoveCursor_on; [apply (con_on _ _ Hk)|apply (con_ctx _ _ Hk)|done].
Qed.

Lemma last_row_on : on_screen 0 (H - 1).
Proof. destruct G. split; lia. Qed.

Lemma tr_push (P Q : VgaContext -> Prop) :
  (forall v, P v -> Q v) -> (forall v, P v -> Q (set_col 0 v)) ->
  triple (con P) internalVgaPushUp (fun _ => con Q).
Proof.
  intros H1 H2 k [Hk HP]. pose proof (con_ram _ _ Hk) as Hm.
  exists (), (cursor_to 0 (H - 1) (with_ram (scrolled (ram k)) k)). split.
  - apply internalVgaPushUp_on; [apply (con_on _ _ Hk)|apply (con_ctx _ _ Hk)|done].
  - apply (cursor_to_con _ _ _ P); auto using last_row_on. split; [|by destruct k].
    apply console_ram; [done| |apply scrolled_screen]. intros q. destruct G.
    unfold scrolled. assert (0 <= 2 * W * (H - 1)) by nia. rewrite rb_fill, rb_copied by lia.
    repeat case_match; auto. unfold byte; lia.
Qed.

Definition anywhere (v : VgaContext) : Prop := True.
Definition in_row (v : VgaContext) : Prop := CurrentCol v < W.
Definition visible (v : VgaContext) : Prop := on_screen (CurrentCol v) (CurrentRow v).

Lemma ok_set_row v r : context_ok v -> 0 <= r < 2 ^ 16 -> context_ok (set_row r v).
Proof. intros [] ?. destruct v; simpl in *. by constructor. Qed.
Lemma ok_set_col v x : context_ok v -> 0 <= x < 2 ^ 16 -> context_ok (set_col x v).
Proof. intros [] ?. destruct v; simpl in *. by constructor. Qed.
Lemma row_set_row v r : CurrentRow (set_row r v) = r.
Proof. by destruct v. Qed.
Lemma col_set_row v r : CurrentCol (set_row r v) = CurrentCol v.
Proof. by destruct v. Qed.
Lemma row_set_col v x : CurrentRow (set_col x v) = CurrentRow v.
Proof. by destruct v. Qed.
Lemma col_set_col v x : CurrentCol (set_col x v) = x.
Proof. by destruct v. Qed.

Lemma u16_range x : 0 <= u16 x < 2 ^ 16.
Proof. apply u_range. lia. Qed.

Lemma tr_get {A} P (f : VgaContext -> K A) Q :
  (forall v, P v -> context_ok v -> triple (con (fun v' => v' = v)) (f v) Q) ->
  triple (con P) (v ← ctx; f v) Q.
Proof.
  intros Hf k Hk. kstep (con_ctx_eq P k Hk). destruct Hk as [Hk HP].
  apply (Hf (vga k) HP (con_ctx _ _ Hk)). by split.
Qed.

Lemma tr_skip (P Q : VgaContext -> Prop) :
  (forall v, context_ok v -> P v -> Q v) -> triple (con P) skip (fun _ => con Q).
Proof. intros HPQ. apply triple_ret. intros k [Hk HP]. split; [done|]. apply HPQ; [apply (con_ctx _ _ Hk)|done]. Qed.

Lemma tr_inc_row (P Q : VgaContext -> Prop) :
  (forall v r, P v -> Q (set_row r v)) -> triple (con P) inc_row (fun _ => con Q).
Proof.
  intros HQ. apply tr_upd. intros v Hv HP. split; [|auto].
  apply ok_set_row; [done|apply u16_range].
Qed.

Lemma tr_wrap : triple (con anywhere) wrap_col (fun _ => con in_row).
Proof.
  apply tr_get. intros v _ Hv. unfold when. rewrite (c_width _ Hv). destruct G.
  destruct (Z.leb_spec W (CurrentCol v)).
  - eapply triple_bind; [apply (tr_upd _ in_row)|intros; apply tr_inc_row].
    + intros ? ? ->. split; [apply ok_set_col; [done|lia]|]. unfold in_row. rewrite col_set_col. lia.
    + intros v' r. unfold in_row. by rewrite col_set_row.
  - apply tr_skip. by intros ? ? ->.
Qed.

Lemma tr_clip : triple (con in_row) clip_row (fun _ => con visible).
Proof.
  apply tr_get. intros v Hr Hv. unfold when. rewrite (c_height _ Hv).
  pose proof (c_row _ Hv). pose proof (c_col _ Hv). unfold in_row in Hr.
  pose proof G as [? ? ? ? _]. assert (H < 2 ^ 16) by nia.
  destruct (Z.leb_spec H (CurrentRow v)).
  - rewrite u_small by lia.
    apply (triple_bind _ _ (fun _ => con visible)).
    + apply tr_upd. intros ? ? ->. split; [apply ok_set_row; [done|lia]|].
      unfold visible. rewrite row_set_row, col_set_row. split; lia.
    + intros _. apply tr_push; [done|]. unfold visible. intros v'.
      rewrite row_set_col, col_set_col. unfold on_screen. lia.
  - apply tr_skip. intros ? ? ->. split; lia.
Qed.

Lemma tr_wrap_clip {A} (m : K A) Q :
  triple (con visible) m Q -> triple (con anywhere) (wrap_col ;; clip_row ;; m) Q.
Proof.
  intros Hm. eapply triple_bind; [apply tr_wrap|intros ?].
  eapply triple_bind; [apply tr_clip|done].
Qed.

(** The cursor is on the screen or just behind the end of a row. *)
Definition near (v : VgaContext) : Prop := CurrentCol v <= W /\ CurrentRow v < H.

Lemma visible_near v : visible v -> near v.
Proof. intros [[] []]. split; lia. Qed.

Lemma tr_AutoEntry fg bg l :
  triple (con anywhere) (VgaAutoEntry fg bg l) (fun _ => con near).
Proof.
  apply tr_wrap_clip, tr_get. intros v Hvis Hv.
  apply (triple_bind _ _ (fun _ => con visible)).
  { apply (tr_entry _ visible); [done|]. intros ? ->. unfold visible.
    by rewrite row_set_col, col_set_col. }
  intros _. apply tr_upd. intros v' Hv' [? ?]. split; [apply ok_set_col; [done|apply u16_range]|].
  pose proof (c_col _ Hv'). pose proof G as [? [? _] ? _]. unfold near. rewrite row_set_col, col_set_col.
  pose proof (Z.mod_le (CurrentCol v' + 1) (2 ^ 16)). unfold u. lia.
Qed.

Lemma tr_PutChar l : triple (con anywhere) (VgaPutChar l) (fun _ => con near).
Proof.
  apply tr_get. intros v _ Hv.
  apply (triple_bind _ _ (fun _ => con near)).
  { eapply triple_weaken; [apply tr_AutoEntry| |done]. intros k. by apply con_imp. }
  intros _. apply tr_get. intros v' Hn Hv'. apply triple_if; intros _.
  - apply (triple_weaken _ (con anywhere) _ _ (fun _ => con near)); [|intros k; by apply con_imp|done].
    apply (tr_wrap_clip (c ← ctx; VgaMoveCursor (CurrentCol c) (CurrentRow c)) (fun _ => con near)).
    apply tr_get. intros v2 Hvis Hv2. apply tr_move; [done|intros ? ->; by apply visible_near|].
    intros ? ->. apply visible_near. unfold visible. by rewrite row_set_col, col_set_col.
  - apply tr_skip. by intros v0 _ ->.
Qed.

(** The position [VgaStringEntry] carries stays within 16 bits. *)
Definition small_pos (posx posy : Z) : Prop := 0 <= posx < 2 ^ 16 /\ 0 <= posy < 2 ^ 16.

Lemma tr_string_char fg bg c posx posy :
  small_pos posx posy ->
  triple (con anywhere) (string_char fg bg c posx posy) (fun r k =>
    con anywhere k /\ match r with Some (x, y) => small_pos x y | None => True end).
Proof.
  intros [Hx Hy]. pose proof G as [? [? ?] ? ? _]. assert (W < 2 ^ 15 /\ H < 2 ^ 16) by nia.
  apply tr_get. intros v _ Hv. rewrite (c_width _ Hv), (c_height _ Hv).
  apply (triple_bind _ _ (fun p k => (0 <= p.1 < W /\ 0 <= p.2 <= 2 ^ 16) /\ con anywhere k)).
  { apply triple_if; [intros _|intros Hlt%Z.leb_gt].
    - apply (triple_bind _ _ (fun _ => con anywhere)).
      + apply tr_upd. intros v' Hv' _. split; [apply ok_set_row; [done|apply u16_range]|done].
      + intros _. apply triple_ret. intros k Hk. rewrite u_small by lia. simpl. split; [lia|done].
    - apply triple_ret. intros k Hk. simpl. split; [lia|]. eapply con_imp; [|exact Hk]. done. }
  intros [x1 y1]. apply triple_pure. simpl. intros [Hx1 Hy1].
  apply (triple_bind _ _ (fun y k => 0 <= y < H /\ con anywhere k)).
  { apply triple_if; [intros _|intros Hlt%Z.leb_gt].
    - apply (triple_bind _ _ (fun _ => con anywhere)); [by apply (tr_push anywhere)|].
      intros _. apply triple_ret. intros k Hk. rewrite u_small by lia. split; [lia|done].
    - apply triple_ret. intros k Hk. split; [lia|done]. }
  intros y2. apply triple_pure. intros Hy2.
  assert (forall k, con anywhere k -> con anywhere k /\ small_pos x1 y2) as Hpos.
  { intros k Hk. split; [done|]. unfold small_pos. lia. }
  repeat (apply triple_if; intros _).
  - apply (triple_bind _ _ (fun _ => con anywhere)); [|intros _; by apply triple_ret].
    eapply triple_weaken; [apply (triple_for_lt 31 8 1 _ (fun _ => con anywhere))| |]; try lia.
    + intros. eapply triple_weaken; [apply tr_PutChar|done|]. intros ? ?. by apply con_imp.
    + done.
    + by intros ? k (? & _).
  - apply (triple_bind _ _ (fun _ => con anywhere)).
    { apply tr_upd. intros v' Hv' _. split; [by apply ok_set_col|done]. }
    intros _. apply (triple_bind _ _ (fun _ => con anywhere)); [by apply tr_inc_row|].
    intros _. by apply triple_ret.
  - apply triple_ret. auto.
  - apply (triple_bind _ _ (fun _ => con anywhere)); [apply (tr_entry _ anywhere); [split; lia|done]|].
    intros _. apply triple_ret. intros k Hk. rewrite u_small by lia. split; [done|].
    unfold small_pos. lia.
Qed.

Lemma tr_load8 P a p n i :
  window a p n -> 0 <= i < n -> triple P (load8 (a + i)) (fun _ => P).
Proof. intros Wd Hi k HP. exists (rb (ram k) (p + i)), k. split; [by apply (load8_at a p n)|done]. Qed.

Lemma tr_StringEntry fg bg String length p posx posy :
  window String p (length + 1) -> 0 <= length < 2 ^ 32 -> small_pos posx posy ->
  triple (con anywhere) (VgaStringEntry fg bg String length posx posy) (fun _ => con anywhere).
Proof.
  intros Wd Hl Hpos. unfold VgaStringEntry.
  apply (triple_bind _ _ (fun _ => con anywhere)).
  { rewrite <- (Z.add_0_r String). apply (tr_load8 _ _ p (length + 1)); [done|lia]. }
  intros c. match goal with |- triple _ (cloop ?b _) _ => set (body := b) end.
  eapply (triple_weaken _ (fun k => (0 <= 0 <= length /\ small_pos posx posy) /\ con anywhere k));
    [apply (triple_cloop (fun '(i, _, x, y) k => (0 <= i <= length /\ small_pos x y) /\ con anywhere k)
      (fun '(i, _, _, _) => length - i) body (fun _ => con anywhere) (0, c, posx, posy))| |].
  - intros [[[i c1] x] y]. cbv beta iota. apply triple_pure. intros [Hi Hxy]. unfold body.
    destruct (Z.ltb_spec i length); [|apply triple_ret; intros k Hk; exact Hk].
    apply (triple_bind _ _ _ _ _ (tr_string_char fg bg c1 x y Hxy)). intros r.
    apply (triple_have (match r with Some (x, y) => small_pos x y | None => True end) _ (con anywhere));
      [by intros k [? ?]|]. intros Hr. clear Hxy x y.
    destruct r as [[x y]|]; [|by apply triple_ret].
    apply (triple_bind _ _ (fun _ => con anywhere)).
    { apply (tr_load8 _ _ p (length + 1)); [done|lia]. }
    intros c'. apply triple_ret. intros k Hk. rewrite u_small by lia. kdone.
  - unfold FUEL. lia.
  - intros k Hk. kdone.
  - done.
Qed.

Lemma tr_Println fg bg String length p :
  window String p (length + 1) -> 0 <= length < 2 ^ 32 ->
  triple (con anywhere) (VgaPrintln fg bg String length) (fun _ => con visible).
Proof.
  intros Wd Hl. apply tr_get. intros v _ Hv.
  apply (triple_bind _ _ (fun _ => con anywhere)).
  { eapply triple_weaken; [apply (tr_StringEntry _ _ _ _ p); [done|done|]| |done].
    - split; [apply (c_col _ Hv)|apply (c_row _ Hv)].
    - intros k. by apply con_imp. }
  intros _. apply (triple_bind _ _ (fun _ => con anywhere)); [by apply tr_inc_row|]. intros _.
  apply (triple_bind _ _ (fun _ => con in_row)).
  { apply tr_upd. intros v' Hv' _. split; [by apply ok_set_col|].
    unfold in_row. rewrite col_set_col. destruct G. lia. }
  intros _. apply (triple_bind _ _ (fun _ => con visible)); [apply tr_clip|]. intros _.
  apply tr_get. intros v2 Hvis Hv2. apply tr_move; [done|by intros ? ->|].
  intros ? ->. unfold visible. by rewrite row_set_col, col_set_col.
Qed.

(** Blanking a screen of the console's own size. *)
Lemma tr_Blank color :
  H < 2 ^ 16 -> W < 2 ^ 16 ->
  triple (con anywhere) (KiBlankVgaScreen H W color) (fun _ => con visible).
Proof.
  intros HH HW. destruct G as [? [? _] ? _]. unfold KiBlankVgaScreen.
  apply (triple_bind _ _ (fun _ => con anywhere)).
  { apply tr_upd. intros v Hv _. split; [|done]. by destruct Hv, v; constructor. }
  intros _. apply (triple_bind _ _ (fun _ => con anywhere)).
  { eapply triple_weaken; [apply (triple_for_lt 16 H 1 _ (fun _ => con anywhere) 0); try lia|done|by intros ? ? [? _]].
    intros y Hy. apply (triple_bind _ _ (fun _ => con anywhere)); [|intros _; by apply tr_skip].
    eapply triple_weaken; [apply (triple_for_lt 16 W 1 _ (fun _ => con anywhere) 0); try lia|done|by intros ? ? [? _]].
    intros x Hx. by apply tr_entry. }
  intros _. apply (triple_bind _ _ (fun _ => con (fun v => CurrentRow v = 0))).
  { apply tr_upd. intros v Hv _. split; [by apply ok_set_row|apply row_set_row]. }
  intros _. apply tr_upd. intros v Hv Hr. split; [by apply ok_set_col|].
  unfold visible, on_screen. rewrite col_set_col, row_set_col, Hr. lia.
Qed.

End Invariant.

(** ** What is on the screen *)

Definition cell_value (letter attr o : Z) : Z := if o =? 0 then u8 letter else u8 attr.

Lemma same_offset x y o x' y' o' :
  on_screen x y -> on_screen x' y' -> 0 <= o <= 1 -> 0 <= o' <= 1 ->
  2 * (x + y * W) + o = 2 * (x' + y' * W) + o' -> x = x' /\ y = y' /\ o = o'.
Proof.
  intros [? ?] [? ?] ? ? E. assert (o = o' /\ x + y * W = x' + y' * W) as [-> E'] by lia.
  assert (y = y') as -> by nia. lia.
Qed.

Lemma cell_put_cell m x y l a x' y' o :
  on_screen x y -> on_screen x' y' -> 0 <= o <= 1 ->
  cell (put_cell m x y l a) x' y' o =
    if (x' =? x) && (y' =? y) then cell_value l a o else cell m x' y' o.
Proof.
  intros Hs Hs' Ho. unfold cell, put_cell, cell_value. rewrite !rb_insert.
  destruct ((x' =? x) && (y' =? y)) eqn:E.
  - apply andb_true_iff in E as [->%Z.eqb_eq ->%Z.eqb_eq]. bdestr; lia || done.
  - bdestr; try done; exfalso.
    + destruct (same_offset x y 1 x' y' o) as (-> & -> & _); [done..|lia|lia|lia|].
      by rewrite !Z.eqb_refl in E.
    + destruct (same_offset x y 0 x' y' o) as (-> & -> & _); [done..|lia|lia|lia|].
      by rewrite !Z.eqb_refl in E.
Qed.

Lemma cell_scrolled m x y o :
  on_screen x y -> 0 <= o <= 1 ->
  cell (scrolled m) x y o = if y =? H - 1 then 0 else cell m x (y + 1) o.
Proof.
  intros Hs Ho. pose proof (cell_offset x y Hs). destruct Hs as [Hx Hy].
  assert (0 <= 2 * W * (H - 1)) by nia. unfold cell, scrolled.
  rewrite rb_fill, rb_copied by lia. destruct (Z.eqb_spec y (H - 1)) as [->|Hne].
  - rewrite (proj2 (Z.leb_le _ _)), (proj2 (Z.ltb_lt _ _)) by nia. done.
  - assert (y < H - 1) by lia.
    rewrite (proj2 (Z.leb_gt _ _)) by nia. cbn [andb].
    rewrite (proj2 (Z.leb_le _ _)), (proj2 (Z.ltb_lt _ _)) by nia. cbn [andb].
    f_equal. lia.
Qed.

Lemma cell_cursor_to x y k x' y' o :
  on_screen x y -> on_screen x' y' -> 0 <= o <= 1 ->
  cell (ram (cursor_to x y k)) x' y' o =
    if (x' =? x) && (y' =? y) && negb (CursorEnabled (vga k) =? 0)
    then cell_value 0 (attribute (Highlight (vga k)) (Background (vga k))) o
    else cell (ram k) x' y' o.
Proof.
  intros Hs Hs' Ho. unfold cursor_to. destruct (CursorEnabled (vga k) =? 0); simpl.
  - by rewrite andb_false_r.
  - rewrite andb_true_r, <- cell_put_cell by done. by destruct k.
Qed.

(** *** Lines of plain characters *)

Definition plain (c : Z) : Prop := 0 < c < 256 /\ c <> 9 /\ c <> 10.

(** [n] characters of [s] drawn from column [x] of row [y] on. *)
Fixpoint draws (fg bg : Z) (s : list Z) (x y : Z) (k : kernel) : kernel :=
  match s with
  | [] => k
  | c :: s => draws fg bg s (x + 1) y (draw fg bg c x y k)
  end.

Lemma draws_snoc fg bg s c x y k :
  draws fg bg (s ++ [c]) x y k = draw fg bg c (x + zlen s) y (draws fg bg s x y k).
Proof.
  revert x k. induction s as [|b s IH]; intros x k; simpl.
  - unfold zlen. simpl. by rewrite Z.add_0_r.
  - rewrite IH, zlen_cons. by rewrite Z.add_assoc.
Qed.

Lemma console_draws k0 fg bg s x y k :
  console k0 k -> 0 <= x -> x + zlen s <= W -> 0 <= y < H ->
  console k0 (draws fg bg s x y k).
Proof.
  revert x k. induction s as [|c s IH]; intros x k Hk Hx Hl Hy; simpl; [done|].
  rewrite zlen_cons in Hl. pose proof (zlen_nonneg s).
  apply IH; [|lia..]. apply console_draw; [done|]. split; lia.
Qed.

Lemma draws_vga fg bg s x y k :
  0 <= x -> x + zlen s <= W -> s <> [] ->
  vga (draws fg bg s x y k) = set_col (x + zlen s - 1) (vga k).
Proof.
  revert x k. induction s as [|c s IH]; intros x k Hx Hl Hs; [done|]. simpl.
  pose proof (g_size G). pose proof (g_height G). pose proof (g_width G).
  rewrite zlen_cons in *. pose proof (zlen_nonneg s). assert (u16 x = x) as Ex by (apply u_small; nia).
  destruct s as [|d s].
  - unfold draws. rewrite draw_vga, Ex. f_equal. unfold zlen. simpl. lia.
  - rewrite IH, draw_vga by (try lia; done). destruct (vga k). simpl. f_equal. rewrite zlen_cons. lia.
Qed.

Lemma cell_draws fg bg s x y k x' y' o :
  0 <= x -> x + zlen s <= W -> 0 <= y < H -> on_screen x' y' -> 0 <= o <= 1 ->
  cell (ram (draws fg bg s x y k)) x' y' o =
    if (y' =? y) && (x <=? x') && (x' <? x + zlen s)
    then cell_value (nth (Z.to_nat (x' - x)) s 0) (attribute fg bg) o
    else cell (ram k) x' y' o.
Proof.
  intros Hx Hl Hy Hs Ho. revert x k Hx Hl. induction s as [|c s IH]; intros x k Hx Hl; simpl.
  - unfold zlen. simpl. bdestr; simpl; lia || done.
  - rewrite zlen_cons in *. pose proof (zlen_nonneg s). rewrite IH by lia.
    replace (ram (draw fg bg c x y k)) with (put_cell (ram k) x y c (attribute fg bg)) by (by destruct k).
    rewrite cell_put_cell by (try done; split; lia).
    bdestr; simpl; try lia; try done.
    + by replace (Z.to_nat (x' - x)) with (S (Z.to_nat (x' - (x + 1)))) by lia.
    + by replace (Z.to_nat (x' - x)) with 0%nat by lia.
Qed.

Lemma string_char_plain fg bg c x y k :
  vga_on k = true -> context_ok (vga k) -> on_screen x y -> plain c ->
  string_char fg bg c x y k = Ok (Some (x + 1, y)) (draw fg bg c x y k).
Proof.
  intros Hon Hc Hs (Hc0 & H9 & H10). pose proof (cell_offset x y Hs) as Ho. pose proof (g_size G).
  pose proof (g_width G). pose proof (g_height G).
  assert (ctx k = Ok (vga k) k) as Ec by (unfold ctx; by rewrite Hon).
  unfold string_char. kstep Ec. rewrite (c_width _ Hc), (c_height _ Hc).
  destruct (id Hs) as [Hx Hy]. rewrite (proj2 (Z.leb_gt _ _)) by lia. kstep (ret_ok (x, y) k).
  rewrite (proj2 (Z.leb_gt _ _)) by lia. kstep (ret_ok y k).
  rewrite !(proj2 (Z.eqb_neq _ _)) by lia.
  kstep (VgaEntry_on 64 fg bg c x y k Hon Hc Hs). rewrite u_small by nia. done.
Qed.

Definition off_screen (p n : Z) : Prop := p + n <= pa \/ pa + 2 * W * H <= p.

Lemma cstr_frame m0 m p s :
  only_screen m0 m -> off_screen p (zlen s + 1) -> cstr m0 p s -> cstr m p s.
Proof.
  intros Hf Ho [E Hnz]. split; [|done]. rewrite <- E. apply read_bytes_ext.
  intros q Hq. apply Hf. unfold off_screen, zlen in Ho. lia.
Qed.

Lemma VgaStringEntry_plain fg bg String p s x y k :
  console k k -> window String p (zlen s + 1) -> off_screen p (zlen s + 1) ->
  cstr (ram k) p s -> Forall plain s -> 0 <= x -> x + zlen s <= W -> 0 <= y < H ->
  VgaStringEntry fg bg String (zlen s) x y k = Ok () (draws fg bg s x y k).
Proof.
  intros Hk Wd Ho Hs Hp Hx Hl Hy. unfold VgaStringEntry. pose proof (zlen_nonneg s) as Hn.
  pose proof (g_size G). pose proof (g_width G). pose proof (g_height G).
  rewrite <- (Z.add_0_r String) at 1. kstep (load8_at String p (zlen s + 1) 0 k Wd ltac:(lia)).
  match goal with |- cloop ?b _ _ = _ => set (body := b) end.
  destruct (cloop_total
    (fun '(i, c, x', y') k' => 0 <= i <= zlen s /\ c = rb (ram k) (p + i) /\ x' = x + i /\ y' = y /\
       k' = draws fg bg (take (Z.to_nat i) s) x y k)
    (fun _ k' => k' = draws fg bg s x y k) (fun '(i, _, _, _) => zlen s - i) body)
    with (s := (0, rb (ram k) (p + 0), x, y)) (k := k) as ([] & k' & E & ->);
    [|kdone; by rewrite Z.add_0_r|unfold FUEL; nia|exact E].
  intros [[[i c] x'] y'] k1 (Hi & -> & -> & -> & ->). unfold body.
  destruct (Z.ltb_spec i (zlen s)) as [Hlt|].
  2:{ exists (inr ()), (draws fg bg (take (Z.to_nat i) s) x y k). split; [done|].
      rewrite take_ge; [done|unfold zlen in *; lia]. }
  assert (zlen (take (Z.to_nat i) s) = i) as Et.
  { unfold zlen in *. rewrite length_take. lia. }
  pose proof (console_draws k fg bg (take (Z.to_nat i) s) x y k Hk Hx ltac:(lia) Hy) as Hk1.
  destruct (cstr_char _ _ _ i Hs ltac:(lia)) as [Ec Hnz].
  assert (Hpc : plain (rb (ram k) (p + i))).
  { rewrite Ec. eapply Forall_forall; [exact Hp|]. apply list_elem_of_In, nth_In. unfold zlen in *. lia. }
  kstep (string_char_plain fg bg _ (x + i) y _ (con_on _ _ Hk1) (con_ctx _ _ Hk1)
    ltac:(split; lia) Hpc).
  kstep (load8_at String p (zlen s + 1) (i + 1)
    (draw fg bg (rb (ram k) (p + i)) (x + i) y (draws fg bg (take (Z.to_nat i) s) x y k))
    Wd ltac:(lia)).
  eexists (inl _), _. rewrite ret_ok. split; [reflexivity|]. rewrite u_small by nia.
  kdone.
  - apply (con_frame k); [by apply console_draw; [|split; lia]|]. unfold off_screen in Ho. lia.
  - replace (Z.to_nat (i + 1)) with (S (Z.to_nat i)) by lia.
    rewrite (take_S_r _ _ (rb (ram k) (p + i))), draws_snoc, Et; [done|].
    rewrite Ec. destruct (nth_lookup_or_length s (Z.to_nat i) 0); [done|unfold zlen in *; lia].
Qed.

(** [VgaEntry] at a position on the screen always returns; it writes the
    character and the two colours into that one cell, leaves every other cell
    and all memory outside the framebuffer alone, and sets the current column
    to the position's. *)
Theorem VgaEntry_writes_its_cell (fg bg letter x y : Z) (k : kernel) :
  console k k -> on_screen x y ->
  exists k', VgaEntry fg bg letter x y k = Ok () k' /\ console k k' /\
    vga k' = set_col x (vga k) /\
    forall x' y' o, on_screen x' y' -> 0 <= o <= 1 ->
      cell (ram k') x' y' o =
        if (x' =? x) && (y' =? y) then cell_value letter (attribute fg bg) o
        else cell (ram k) x' y' o.
Proof.
  intros Hk Hs. exists (draw fg bg letter x y k). split_and!.
  - apply VgaEntry_on; [apply (con_on _ _ Hk)|apply (con_ctx _ _ Hk)|done].
  - by apply console_draw.
  - rewrite draw_vga. destruct Hs, G. by rewrite u_small by nia.
  - intros. rewrite <- cell_put_cell by done. by destruct k.
Qed.

(** C25: [internalVgaPushUp] always returns and scrolls: every row takes the
    content of the row below it, the last row is cleared, and when the cursor
    is enabled it is drawn in the first cell of the last row; all memory
    outside the framebuffer is left alone. *)
Theorem internalVgaPushUp_scrolls (k : kernel) :
  console k k ->
  exists k', internalVgaPushUp k = Ok () k' /\ console k k' /\
    forall x y o, on_screen x y -> 0 <= o <= 1 ->
      cell (ram k') x y o =
        if y =? H - 1 then
          if (x =? 0) && negb (CursorEnabled (vga k) =? 0)
          then cell_value 0 (attribute (Highlight (vga k)) (Background (vga k))) o
          else 0
        else cell (ram k) x (y + 1) o.
Proof.
  intros Hk. pose proof (con_ram _ _ Hk) as Hm. pose proof last_row_on as Hl.
  exists (cursor_to 0 (H - 1) (with_ram (scrolled (ram k)) k)). split_and!.
  - apply internalVgaPushUp_on; [apply (con_on _ _ Hk)|apply (con_ctx _ _ Hk)|done].
  - destruct (tr_push k anywhere anywhere ltac:(done) ltac:(done) k) as (? & k' & E & [Hk' _]);
      [by split|]. unfold internalVgaPushUp, VgaEntry in E.
    rewrite internalVgaPushUp_on in E; [|apply (con_on _ _ Hk)|apply (con_ctx _ _ Hk)|done].
    by simplify_eq.
  - intros x y o Hs Ho. rewrite cell_cursor_to, ram_with_ram, cell_scrolled by done.
    replace (vga (with_ram _ k)) with (vga k) by (by destruct k).
    destruct (y =? H - 1); [by rewrite andb_true_r|by rewrite andb_false_r].
Qed.

(** C24: printing any NUL-terminated string of fewer than [2^32] characters,
    tabs, newlines, wrapping and scrolling included, always returns, changes
    no memory outside the framebuffer and no other state of the kernel than
    the console's, and leaves the cursor on the screen, wherever it was. *)
Theorem VgaAutoPrintln_safe (fg bg String p : Z) (s : list Z) (k : kernel) :
  console k k -> String <> NULL ->
  window String p (zlen s + 1) -> cstr (ram k) p s -> zlen s < 2 ^ 32 ->
  exists k', VgaAutoPrintln fg bg String k = Ok () k' /\ console k k' /\ visible (vga k').
Proof.
  intros Hk Hnz Wd Hs Hl. unfold VgaAutoPrintln. pose proof (zlen_nonneg s).
  kstep (KiGetStringLength_ok String 0 p s k Wd ltac:(lia) Hs).
  rewrite (proj2 (Z.eqb_neq _ _) Hnz), u_small by lia.
  destruct (tr_Println k fg bg String (zlen s) p Wd ltac:(lia) k) as ([] & k' & E & Hk' & Hv);
    [by split|eauto].
Qed.

(** [VgaStringEntry] of a string without tabs and newlines that fits
    between the position and the end of the row puts its characters, in order,
    with the given colours in consecutive cells of the row, leaves every other
    cell and all other memory alone, and does not move the current row. *)
Theorem VgaStringEntry_line (fg bg String p x y : Z) (s : list Z) (k : kernel) :
  console k k -> window String p (zlen s + 1) -> off_screen p (zlen s + 1) ->
  cstr (ram k) p s -> Forall plain s -> 0 <= x -> x + zlen s <= W -> 0 <= y < H ->
  exists k', VgaStringEntry fg bg String (zlen s) x y k = Ok () k' /\ console k k' /\
    CurrentRow (vga k') = CurrentRow (vga k) /\
    forall x' y' o, on_screen x' y' -> 0 <= o <= 1 ->
      cell (ram k') x' y' o =
        if (y' =? y) && (x <=? x') && (x' <? x + zlen s)
        then cell_value (nth (Z.to_nat (x' - x)) s 0) (attribute fg bg) o
        else cell (ram k) x' y' o.
Proof.
  intros Hk Wd Ho Hs Hp Hx Hl Hy. exists (draws fg bg s x y k). split_and!.
  - by apply (VgaStringEntry_plain fg bg String p).
  - by apply console_draws.
  - destruct s as [|c s]; [done|]. rewrite draws_vga by done. apply row_set_col.
  - intros. by apply cell_draws.
Qed.

(** [VgaAutoPrint] of a string that ends exactly at the end of the last
    row, with the cursor enabled, moves the cursor past the row's last column
    and draws it in the two bytes after the framebuffer, which it overwrites. *)
Theorem VgaAutoPrint_overruns (fg bg String p : Z) (s : list Z) (k : kernel) :
  console k k -> String <> NULL -> window String p (zlen s + 1) -> off_screen p (zlen s + 1) ->
  cstr (ram k) p s -> Forall plain s -> s <> [] ->
  CursorEnabled (vga k) <> 0 -> CurrentRow (vga k) = H - 1 ->
  CurrentCol (vga k) = W - zlen s -> window fb pa (2 * W * H + 2) -> 2 * W * H + 2 <= 2 ^ 16 ->
  exists k', VgaAutoPrint fg bg String k = Ok () k' /\
    rb (ram k') (pa + 2 * W * H) = 0 /\
    rb (ram k') (pa + 2 * W * H + 1) =
      u8 (attribute (Highlight (vga k)) (Background (vga k))).
Proof.
  intros Hk Hnz Wd Ho Hs Hp Hne Hcur Hrow Hcol Wd2 Hsz.
  pose proof (g_height G). pose proof (g_width G). pose proof (zlen_nonneg s).
  pose proof (c_col _ (con_ctx _ _ Hk)). assert (W < 2 ^ 15) by nia.
  unfold VgaAutoPrint. kstep (KiGetStringLength_ok String 0 p s k Wd ltac:(lia) Hs).
  rewrite (proj2 (Z.eqb_neq _ _) Hnz), u_small by lia.
  rewrite (bind_ok _ _ k (vga k) k) by (unfold ctx; by rewrite (con_on _ _ Hk)).
  rewrite Hrow, Hcol.
  kstep (VgaStringEntry_plain fg bg String p s (W - zlen s) (H - 1) k Hk Wd Ho Hs Hp
    ltac:(lia) ltac:(lia) ltac:(lia)).
  pose proof (console_draws k fg bg s (W - zlen s) (H - 1) k Hk ltac:(lia) ltac:(lia) ltac:(lia)) as Hk1.
  pose proof (draws_vga fg bg s (W - zlen s) (H - 1) k ltac:(lia) ltac:(lia) Hne) as Ev.
  set (k1 := draws _ _ _ _ _ _) in *. clearbody k1.
  replace (W - zlen s + zlen s - 1) with (W - 1) in Ev by lia.
  unfold upd_ctx at 1. rewrite (bind_ok _ _ k1 () (with_vga (set_col W (vga k)) k1)).
  2:{ rewrite (con_on _ _ Hk1), Ev, col_set_col, u_small by lia. do 2 f_equal.
      destruct (vga k). simpl. f_equal. lia. }
  set (k2 := with_vga _ k1).
  assert (vga_on k2 = true /\ vga k2 = set_col W (vga k)) as [E1 E2].
  { pose proof (con_on _ _ Hk1). subst k2. by destruct k1. }
  rewrite (bind_ok _ _ k2 (vga k2) k2) by (unfold ctx; by rewrite E1).
  rewrite E2, col_set_col, row_set_col, Hrow. unfold VgaMoveCursor, VgaEntry.
  rewrite VgaMoveCursor_reach; [|done| |].
  - eexists. split; [done|]. unfold cursor_to. rewrite E2.
    replace (CursorEnabled _) with (CursorEnabled (vga k)) by (by destruct (vga k)).
    replace (Highlight _) with (Highlight (vga k)) by (by destruct (vga k)).
    replace (Background _) with (Background (vga k)) by (by destruct (vga k)).
    rewrite (proj2 (Z.eqb_neq _ _) Hcur). unfold draw.
    rewrite !ram_with_vga, !ram_with_ram.
    unfold put_cell. rewrite !rb_insert.
    replace (2 * (W + (H - 1) * W)) with (2 * W * H) by ring. bdestr; lia || done.
  - rewrite E2. apply ok_set_col; [apply (con_ctx _ _ Hk)|lia].
  - unfold reach. replace (2 * (W + (H - 1) * W)) with (2 * W * H) by ring. kdone.
Qed.

End Screen.

(** ** Witnesses: the 80x25 text screen at [0xB8000] *)

Definition quiet : Device := fun _ _ => 0.

Definition text_base : Z := 0xB8000.

Lemma text_geometry :
  geometry (AS := boot_space) (KERN_PHYS_TO_VIRT text_base) text_base 80 25.
Proof.
  constructor; [vm_compute; congruence|split; [lia|done]|lia|lia|].
  apply boot_window_virt; unfold text_base; lia.
Qed.

(** The string "hi!" at [0x4000], the cursor at column [col] of row [row]. *)
Definition text_kernel (row col : Z) : kernel :=
  with_vga_on true (with_vga
    (mkVgaContext (KERN_PHYS_TO_VIRT text_base) (KERN_PHYS_TO_VIRT text_base)
      80 25 16 0 15 14 row col 1 0 1)
    (with_ram (write_bytes ∅ 0x4000 [104; 105; 33; 0]) kernel0)).

Lemma text_console row col :
  0 <= row < 2 ^ 16 -> 0 <= col < 2 ^ 16 ->
  console (KERN_PHYS_TO_VIRT text_base) text_base 80 25 (text_kernel row col) (text_kernel row col).
Proof.
  intros. constructor; try done.
  apply ram_ok_write; [apply ram_ok_empty|]. repeat constructor; unfold byte; lia.
Qed.

Lemma text_string row col : cstr (ram (text_kernel row col)) 0x4000 [104; 105; 33].
Proof. split; [vm_compute; reflexivity|]. repeat constructor; lia. Qed.

Lemma text_plain : Forall plain [104; 105; 33].
Proof. repeat constructor; unfold plain; lia. Qed.

Definition text_cell := cell text_base 80.

Lemma VgaEntry_writes_its_cell_witness :
  exists k', VgaEntry (AS := boot_space) 15 0 65 3 2 (text_kernel 0 0) = Ok () k'
    /\ text_cell (ram k') 3 2 0 = 65 /\ text_cell (ram k') 4 2 0 = 0.
Proof.
  destruct (VgaEntry_writes_its_cell (AS := boot_space) _ _ 80 25 text_geometry
    15 0 65 3 2 _ (text_console 0 0 ltac:(lia) ltac:(lia)) ltac:(split; lia))
    as (k' & E & _ & _ & Hc).
  exists k'. split; [exact E|]. unfold text_cell.
  rewrite !Hc by (try split; lia). split; vm_compute; reflexivity.
Defined.

Lemma internalVgaPushUp_scrolls_witness :
  exists k', internalVgaPushUp (AS := boot_space) (text_kernel 0 0) = Ok () k'
    /\ text_cell (ram k') 0 24 1 = 14 /\ text_cell (ram k') 1 24 1 = 0.
Proof.
  destruct (internalVgaPushUp_scrolls (AS := boot_space) _ _ 80 25 text_geometry
    _ (text_console 0 0 ltac:(lia) ltac:(lia))) as (k' & E & _ & Hc).
  exists k'. split; [exact E|]. unfold text_cell.
  rewrite !Hc by (try split; lia). split; vm_compute; reflexivity.
Defined.

Lemma VgaAutoPrintln_safe_witness :
  exists k', VgaAutoPrintln (AS := boot_space) 15 0 0x4000 (text_kernel 24 79) = Ok () k'
    /\ visible 80 25 (vga k').
Proof.
  destruct (VgaAutoPrintln_safe (AS := boot_space) _ _ 80 25 text_geometry
    15 0 0x4000 0x4000 [104; 105; 33] _ (text_console 24 79 ltac:(lia) ltac:(lia)))
    as (k' & E & _ & Hv).
  - unfold NULL. lia.
  - apply boot_window_low; vm_compute; congruence.
  - apply text_string.
  - vm_compute. reflexivity.
  - exists k'. split; [exact E|exact Hv].
Defined.

Lemma VgaStringEntry_line_witness :
  exists k', VgaStringEntry (AS := boot_space) 15 0 0x4000 3 77 24 (text_kernel 24 77)
      = Ok () k' /\ text_cell (ram k') 79 24 0 = 33.
Proof.
  destruct (VgaStringEntry_line (AS := boot_space) _ _ 80 25 text_geometry
    15 0 0x4000 0x4000 77 24 [104; 105; 33] _ (text_console 24 77 ltac:(lia) ltac:(lia)))
    as (k' & E & _ & _ & Hc).
  - apply boot_window_low; vm_compute; congruence.
  - left. vm_compute. congruence.
  - apply text_string.
  - apply text_plain.
  - lia.
  - vm_compute. congruence.
  - lia.
  - exists k'. split; [exact E|]. unfold text_cell.
    rewrite Hc by (try split; lia). vm_compute. reflexivity.
Defined.

Lemma VgaAutoPrint_overruns_witness :
  exists k', VgaAutoPrint (AS := boot_space) 15 0 0x4000 (text_kernel 24 77) = Ok () k'
    /\ rb (ram k') (text_base + 4000 + 1) = 14.
Proof.
  destruct (VgaAutoPrint_overruns (AS := boot_space) _ _ 80 25 text_geometry
    15 0 0x4000 0x4000 [104; 105; 33] _ (text_console 24 77 ltac:(lia) ltac:(lia)))
    as (k' & E & _ & Hc).
  - unfold NULL. lia.
  - apply boot_window_low; vm_compute; congruence.
  - left. vm_compute. congruence.
  - apply text_string.
  - apply text_plain.
  - congruence.
  - vm_compute. congruence.
  - reflexivity.
  - reflexivity.
  - apply boot_window_virt; unfold text_base; lia.
  - lia.
  - exists k'. split; [exact E|]. exact Hc.
Defined.
