(* ===== verification/Heap.v ===== *)
(** * The kernel heap ([kern/mm/heap.c], [kern/inc/mm/heap.h])

    An arena holds a list of nodes, each standing for a block of the heap.
    The structures live in memory: a field is read and written at its offset
    in the layout the x86_64 ABI gives it. *)

From S2P Require Import Prelude Machine Status MemFuncs.

Definition ALLOC_BLOCK_SIZE : Z := 128.

(** [Node]: a [BOOL] is 32 bits wide. *)
Definition Node_Used : Z := 0.
Definition Node_Last : Z := 4.
Definition Node_Area : Z := 8.
Definition Node_NodeIndex : Z := 16.
Definition Node_Previous : Z := 24.
Definition Node_Next : Z := 32.
Definition Node_ChunkIncrement : Z := 40.
Definition sizeof_Node : Z := 48.

(** [Arena]. *)
Definition Arena_Size : Z := 0.
Definition Arena_ThreadIndex : Z := 8.
Definition Arena_Root : Z := 16.
Definition Arena_NextToAllocate : Z := 24.
Definition sizeof_Arena : Z := 32.

Definition MM_STRUCTURE_TYPE_HEAP_ALLOCATOR : Z := 8.

(** Unsigned division; by zero it raises the processor's divide error. *)
Definition udiv (a b : Z) : K Z := if b =? 0 then fault else mret (a / b).

Section Heap.
Context `{AS : AddrSpace}.

Definition InternalInitializeNode (Current Previous Next Index : Z) : K () :=
  store32 (Current + Node_Used) 0 ;;
  store64 (Current + Node_Previous) Previous ;;
  (if negb (Previous =? NULL) then
     store64 (Previous + Node_Next) Current ;;
     area ← load64 (Previous + Node_Area);
     store64 (Current + Node_Area) (area + 1)
   else skip) ;;
  store64 (Current + Node_Next) Next ;;
  (if negb (Next =? NULL) then store64 (Next + Node_Previous) Current else skip) ;;
  store64 (Current + Node_NodeIndex) Index.

(** One round of the loop over the arenas. *)
Definition create_arena (NumArenas HeapAmount NodeSize ArenaStart Counter : Z) : K () :=
  size ← udiv HeapAmount NumArenas;
  let ReinterpretHeap := u64 (ArenaStart + Counter * sizeof_Arena + NumArenas * sizeof_Arena) in
  let Root := ReinterpretHeap in
  InternalInitializeNode Root NULL NULL 0 ;;
  store64 (Root + Node_Area) (ReinterpretHeap + 8 * NodeSize + 8) ;;
  let NextToAllocate := u64 (Root + sizeof_Node) in
  KiSetMemoryBytes NextToAllocate 0 sizeof_Node ;;
  store64 (NextToAllocate + Node_Previous) Root ;;
  let Slot := u64 (ArenaStart + Counter * sizeof_Arena) in
  store64 (Slot + Arena_Size) size ;;
  store64 (Slot + Arena_ThreadIndex) Counter ;;
  store64 (Slot + Arena_Root) Root ;;
  store64 (Slot + Arena_NextToAllocate) NextToAllocate.

(** The result, the address of the static, is left out. *)
Definition MmCreateAllocatorState (NumArenas HeapArea HeapSize : Z) : K () :=
  KiSetMemoryBytes HeapArea 0 HeapSize ;;
  HeapAmount ← udiv HeapSize NumArenas;
  let ArenaStart := KERN_PHYS_TO_VIRT HeapArea in
  NodeSize ← udiv HeapAmount (u64 (NumArenas * sizeof_Node));
  for_lt 64 NumArenas 1
    (create_arena NumArenas HeapAmount NodeSize ArenaStart) 0 ;;
  modify (with_heap (mkAllocatorState MM_STRUCTURE_TYPE_HEAP_ALLOCATOR NULL None ArenaStart)).

(** The condition of both inner loops, [Count++ < RequiredNodes &&
    Subindexer->Last != TRUE]; [Count] grows either way. *)
Definition more_nodes (RequiredNodes Subindexer Count : Z) : K bool :=
  if Count <? RequiredNodes then
    last ← load32 (Subindexer + Node_Last); mret (negb (last =? 1))
  else mret false.

Definition InternalMmWorstCaseMalloc (CurArena Size : Z) : K Z :=
  let RequiredNodes := u64 (Size / ALLOC_BLOCK_SIZE + 1) in
  root ← load64 (CurArena + Arena_Root);
  cloop (fun Indexer =>
    last ← load32 (Indexer + Node_Last);
    if last =? 1 then mret (inr 0)
    else
      used ← load32 (Indexer + Node_Used);
      if negb (used =? 0) then
        next ← load64 (Indexer + Node_Next); mret (inl next)
      else
        '(Okay, Count) ← cloop (fun '(Subindexer, Count) =>
          more ← more_nodes RequiredNodes Subindexer Count;
          let Count := u64 (Count + 1) in
          if more : bool then
            used ← load32 (Subindexer + Node_Used);
            if negb (used =? 0) then mret (inr (false, Count))
            else
              next ← load64 (Subindexer + Node_Next); mret (inl (next, Count))
          else mret (inr (true, Count))) (Indexer, 0);
        if Okay : bool then
          let Current := Indexer in
          Previous ← load64 (Indexer + Node_Previous);
          Next ← load64 (Indexer + Node_Next);
          Index ← load64 (Previous + Node_NodeIndex);
          InternalInitializeNode Current Previous Next (u64 (Index + 1)) ;;
          cloop (fun '(Subindexer, Count) =>
            more ← more_nodes RequiredNodes Subindexer Count;
            let Count := u64 (Count + 1) in
            if more : bool then
              store32 (Subindexer + Node_Used) 1 ;;
              next ← load64 (Subindexer + Node_Next); mret (inl (next, Count))
            else mret (inr ())) (Current, Count) ;;
          area ← load64 (Current + Node_Area); mret (inr area)
        else
          next ← load64 (Indexer + Node_Next); mret (inl next)) root.

(** [Indexer] points to the local [Attempt] ([None]) or to a [Next] field. *)
Definition deref (Attempt : Z) (Indexer : option Z) : K Z :=
  match Indexer with None => mret Attempt | Some p => load64 p end.

(** The loop that marks the nodes of the request as used. *)
Definition mark_nodes (Attempt BlockIncrement : Z) : K () :=
  cloop (fun '(Indexer, Increment) =>
    node ← deref Attempt Indexer;
    if negb (node =? NULL) && (u64 (Increment + 1) <? BlockIncrement) then
      store32 (node + Node_Used) 1 ;;
      node ← deref Attempt Indexer;
      mret (inl (Some (node + Node_Next), u64 (Increment + 1)))
    else mret (inr ())) (None, 0).

Definition MmKernelMalloc (Size : Z) : K Z :=
  ThreadArena ← gets (fun k => Arenas (heap k));
  Attempt ← load64 (ThreadArena + Arena_NextToAllocate);
  last ← (if negb (Attempt =? NULL) then load32 (Attempt + Node_Last) else mret 0);
  if negb (last =? 0) then InternalMmWorstCaseMalloc ThreadArena Size
  else
    let BlockIncrement := Size mod ALLOC_BLOCK_SIZE + 1 in
    mark_nodes Attempt BlockIncrement ;;
    store64 (Attempt + Node_ChunkIncrement) BlockIncrement ;;
    Previous ← load64 (Attempt + Node_Previous);
    Next ← load64 (Attempt + Node_Next);
    Index ← load64 (Previous + Node_NodeIndex);
    InternalInitializeNode Attempt Previous Next (u64 (Index + 1)) ;;
    load64 (Attempt + Node_Area).

End Heap.

(** ** One arena *)

Section OneArena.
Context `{AS : AddrSpace}.

(** The heap area at physical address [hp] is seen at [va]. *)
Variables (va hp len : Z).

Record heap_area : Prop := mkHeapArea {
  ha_va : 0 < va /\ va + len < 2 ^ 64;
  ha_len : 128 <= len;
  ha_window : window va hp len;
}.

(** The fields of the arena at offset 0, its root node at offset 32 and the
    node it allocates from at offset 80, as [MmCreateAllocatorState] leaves
    them; [area] is the block of the root node. *)
Record heap_ready (area : Z) (k : kernel) : Prop := mkHeapReady {
  hr_arenas : Arenas (heap k) = va;
  hr_next : rdn 8 (ram k) (hp + 24) = va + 80;
  hr_area : rdn 8 (ram k) (hp + 40) = area;
  hr_index : rdn 8 (ram k) (hp + 48) = 0;
  hr_last : rdn 4 (ram k) (hp + 84) = 0;
  hr_previous : rdn 8 (ram k) (hp + 104) = va + 32;
  hr_null : rdn 8 (ram k) (hp + 112) = 0;
}.

Hypothesis HA : heap_area.

Lemma heap_load n o a k :
  a = va + o -> 0 <= o -> o + Z.of_nat n <= 128 ->
  loadn n a k = Ok (rdn n (ram k) (hp + o)) k.
Proof. intros. destruct HA. apply (loadn_at n va hp len); auto. lia. Qed.

Lemma heap_store n o a v k :
  a = va + o -> 0 <= o -> o + Z.of_nat n <= 128 ->
  storen n a v k = Ok () (with_ram (wrn n (ram k) (hp + o) v) k).
Proof. intros. destruct HA. apply (storen_at n va hp len); auto. lia. Qed.

Ltac hsimp := rewrite ?ram_with_ram, ?with_ram_with_ram;
  repeat first [rewrite rdn_wrn_same | rewrite rdn_wrn_other by lia
    | rewrite rdn_fill_out by lia | rewrite rdn_fill_in by lia].
Ltac hload o :=
  unfold load32, load64;
  match goal with |- context [mbind _ (loadn ?n ?a) ?k] =>
    rewrite (bind_ok _ _ _ _ _ (heap_load n o a k ltac:(lia) ltac:(lia) ltac:(lia)))
  end; hsimp.
Ltac hstore o :=
  unfold store32, store64;
  match goal with |- context [mbind _ (storen ?n ?a ?v) ?k] =>
    rewrite (bind_ok _ _ _ _ _ (heap_store n o a v k ltac:(lia) ltac:(lia) ltac:(lia)))
  end; hsimp.

Ltac hskip :=
  match goal with |- context [mbind _ skip ?k] => rewrite (bind_ok skip _ k () k eq_refl) end.

Ltac fields :=
  unfold Node_Used, Node_Last, Node_Area, Node_NodeIndex, Node_Previous, Node_Next,
    Node_ChunkIncrement, Arena_Root, Arena_NextToAllocate, Arena_Size, Arena_ThreadIndex in *.

(** [m'] is [m] but for the first 128 bytes of the heap. *)
Definition heap_frame (m m' : gmap Z Z) : Prop :=
  forall q, q < hp \/ hp + 128 <= q -> rb m' q = rb m q.

(** With a single node the marking stops at its null [Next]. *)
Lemma mark_nodes_ready area BI k :
  heap_ready area k ->
  exists k1, mark_nodes (va + 80) BI k = Ok () k1 /\
    heap_ready area k1 /\ k1 = with_ram (ram k1) k /\ heap_frame (ram k) (ram k1).
Proof.
  intros Hk. destruct (id Hk) as [E1 E2 E3 E4 E5 E6 E7]. destruct (id HA) as [[H0 Hm] Hl _].
  unfold mark_nodes. fields. destruct (Z.ltb_spec 1 BI).
  - exists (with_ram (wrn 4 (ram k) (hp + 80) 1) k). split_and!.
    + apply (cloop_rounds 2); [|done].
      rewrite (rounds_inl _ _ _ _ (Some (va + 112), 1) (with_ram (wrn 4 (ram k) (hp + 80) 1) k)).
      * apply rounds_inr. cbn [deref]. hload 112. by rewrite E7.
      * cbn [deref]. kstep (ret_ok (va + 80) k). unfold NULL.
        rewrite (proj2 (Z.eqb_neq (va + 80) 0)) by lia. rewrite u_small by lia.
        rewrite (proj2 (Z.ltb_lt (0 + 1) BI)) by lia. cbn [negb andb].
        hstore 80. kstep (ret_ok (va + 80) (with_ram (wrn 4 (ram k) (hp + 80) 1) k)).
        rewrite <- Z.add_assoc. done.
    + constructor; hsimp; try done. by destruct k.
    + by destruct k.
    + intros q Hq. rewrite ram_with_ram. apply rb_wrn_other. lia.
  - exists k. split_and!; [|done|by rewrite with_ram_id|by intros q _].
    apply (cloop_rounds 1); [|done].
    apply rounds_inr. cbn [deref]. kstep (ret_ok (va + 80) k). rewrite u_small by lia.
    rewrite (proj2 (Z.ltb_ge (0 + 1) BI)) by lia. by rewrite andb_false_r.
Qed.

Lemma malloc_ready area Size k :
  heap_ready area k -> 0 <= area -> area + 1 < 2 ^ 64 -> 
  exists k', MmKernelMalloc Size k = Ok (area + 1) k' /\ heap_ready area k'
    /\ k' = with_ram (ram k') k /\ heap_frame (ram k) (ram k').
Proof.
  intros Hk Ha0 Ha. destruct (id Hk) as [E1 E2 E3 E4 E5 E6 E7]. destruct (id HA) as [[H0 Hm] Hl _].
  unfold MmKernelMalloc. fields. kstep (eq_refl : gets (fun k => Arenas (heap k)) k = _).
  rewrite E1. hload 24. rewrite E2.
  unfold NULL. rewrite (proj2 (Z.eqb_neq (va + 80) 0)) by lia. cbn [negb].
  hload 84. rewrite E5. cbn [Z.eqb negb].
  destruct (mark_nodes_ready area (Size mod ALLOC_BLOCK_SIZE + 1) k Hk)
    as (k1 & Ec & [F1 F2 F3 F4 F5 F6 F7] & Fk & Ff). kstep Ec.
  clear Ec. unfold InternalInitializeNode. fields.
  hstore 120. hload 104. rewrite F6. hload 112. rewrite F7. hload 48. rewrite F4.
  unfold NULL. rewrite (proj2 (Z.eqb_neq (va + 32) 0)) by lia. rewrite Z.eqb_refl. cbn [negb].
  rewrite !bind_assoc. hstore 80. rewrite !bind_assoc. hstore 104.
  rewrite !bind_assoc. hstore 64. rewrite !bind_assoc. hload 40. rewrite F3.
  hstore 88. rewrite !bind_assoc. hstore 112. rewrite !bind_assoc.
  hskip. hstore 96. rewrite (heap_load 8 88) by lia. hsimp.
  assert (forall v, 0 <= v < 2 ^ 64 -> v mod 2 ^ (8 * Z.of_nat 8) = v) as Hmod.
  { intros. by apply Z.mod_small. }
  eexists. split; [rewrite Hmod by lia; reflexivity|]. split_and!.
  - constructor; hsimp; rewrite ?Hmod by lia; try done. by rewrite Fk; destruct k.
  - rewrite Fk. by destruct k.
  - intros q Hq. rewrite ram_with_ram. repeat rewrite rb_wrn_other by lia. by apply Ff.
Qed.

(** The block of the root node. *)
Definition root_area (HeapSize : Z) : Z := va + 8 * (HeapSize / sizeof_Node) + 40.

Lemma create_arena_one HeapAmount NodeSize k :
  0 <= NodeSize -> va + 8 * NodeSize + 40 < 2 ^ 64 ->
  exists k', create_arena 1 HeapAmount NodeSize va 0 k = Ok () k' /\
    k' = with_ram (ram k') k /\ heap_frame (ram k) (ram k') /\
    (ram_ok (ram k) -> ram_ok (ram k')) /\
    forall k2, Arenas (heap k2) = va -> ram k2 = ram k' ->
      heap_ready (va + 8 * NodeSize + 40) k2.
Proof.
  intros HN Hs. destruct (id HA) as [[H0 Hm] Hl Hw].
  unfold create_arena, udiv, InternalInitializeNode, sizeof_Arena, sizeof_Node, NULL. fields. simpl Z.eqb.
  kstep (ret_ok (HeapAmount / 1) k).
  assert (u64 (va + 0 * 32 + 1 * 32) = va + 32) as -> by (rewrite u_small; lia).
  assert (u64 (va + 32 + 48) = va + 80) as -> by (rewrite u_small; lia).
  assert (u64 (va + 0 * 32) = va) as -> by (rewrite u_small; lia). cbn [negb].
  rewrite !bind_assoc. hstore 32. rewrite !bind_assoc. hstore 56. rewrite !bind_assoc.
  hskip. rewrite !bind_assoc. hstore 64. rewrite !bind_assoc. hskip. hstore 48. hstore 40.
  match goal with |- context [KiSetMemoryBytes (va + 80) 0 48 ≫= _] =>
    match goal with |- context [mbind _ (KiSetMemoryBytes (va + 80) 0 48) ?k] =>
      kstep (KiSetMemoryBytes_ok (va + 80) 0 48 (hp + 80) k ltac:(lia) ltac:(lia)
        ltac:(eapply window_sub; [exact Hw|lia|change (round4 48) with 48; lia]))
    end end.
  change (round4 48) with 48. hsimp.
  hstore 104. hstore 0. hstore 8. hstore 16. rewrite (heap_store 8 24) by lia. hsimp.
  eexists. split; [reflexivity|]. split_and!.
  - by destruct k.
  - intros q Hq. rewrite ram_with_ram. repeat rewrite rb_wrn_other by lia.
    rewrite rb_fill by lia. bdestr; simpl; [lia|..]; by repeat rewrite rb_wrn_other by lia.
  - intros Hok. rewrite ram_with_ram.
    repeat first [apply ram_ok_wrn | apply ram_ok_fill; [|done]]. done.
  - intros k2 Ha Er. rewrite ram_with_ram in Er.
    assert (forall v, 0 <= v < 2 ^ 64 -> v mod 2 ^ (8 * Z.of_nat 8) = v) as Hmod.
    { intros. by apply Z.mod_small. }
    constructor; rewrite ?Er; hsimp; rewrite ?Hmod by lia; lia || done.
Qed.

Lemma MmCreateAllocatorState_ready HeapArea HeapSize k :
  va = KERN_PHYS_TO_VIRT HeapArea -> window HeapArea hp (round4 HeapSize) ->
  128 <= HeapSize < 2 ^ 63 -> root_area HeapSize < 2 ^ 64 ->
  exists k', MmCreateAllocatorState 1 HeapArea HeapSize k = Ok () k' /\
    k' = with_heap (mkAllocatorState MM_STRUCTURE_TYPE_HEAP_ALLOCATOR NULL None va)
           (with_ram (ram k') k) /\
    heap_ready (root_area HeapSize) k' /\
    (ram_ok (ram k) -> ram_ok (ram k')) /\
    forall q, q < hp \/ hp + round4 HeapSize <= q -> rb (ram k') q = rb (ram k) q.
Proof.
  intros Hva Wl Hs Hr. unfold MmCreateAllocatorState, udiv.
  pose proof (round4_bounds HeapSize ltac:(lia)) as HR.
  kstep (KiSetMemoryBytes_ok HeapArea 0 HeapSize hp k ltac:(lia) ltac:(lia) Wl).
  set (k1 := with_ram _ k). simpl Z.eqb. rewrite Z.div_1_r. kstep (ret_ok HeapSize k1).
  rewrite <- Hva. change (u64 (1 * sizeof_Node)) with sizeof_Node. simpl Z.eqb.
  kstep (ret_ok (HeapSize / sizeof_Node) k1). unfold root_area in Hr.
  assert (0 <= HeapSize / sizeof_Node) by (apply Z.div_pos; [lia|done]).
  destruct (create_arena_one HeapSize (HeapSize / sizeof_Node) k1 ltac:(lia) ltac:(lia))
    as (k2 & E & Ek & Hf & Hok & Hready).
  kstep (for_lt_one 64 1 _ k1 k2 ltac:(lia) eq_refl E).
  exists (with_heap (mkAllocatorState MM_STRUCTURE_TYPE_HEAP_ALLOCATOR NULL None va) k2).
  split_and!; [done| | | |].
  - rewrite Ek. by destruct k.
  - apply Hready; by destruct k2.
  - intros Hm. replace (ram (with_heap _ k2)) with (ram k2) by (by destruct k2). apply Hok.
    subst k1. rewrite ram_with_ram. by apply ram_ok_fill.
  - intros q Hq. assert (ram (with_heap (mkAllocatorState MM_STRUCTURE_TYPE_HEAP_ALLOCATOR NULL None va) k2) = ram k2) as ->
      by (by destruct k2).
    destruct HA. rewrite Hf by lia. subst k1. rewrite ram_with_ram, rb_fill by lia.
    bdestr; simpl; lia || done.
Qed.

Lemma mallocs_ready area sizes k :
  heap_ready area k -> 0 <= area -> area + 1 < 2 ^ 64 ->
  exists k', mapM MmKernelMalloc sizes k = Ok (replicate (length sizes) (area + 1)) k' /\
    heap_ready area k'.
Proof.
  revert k. induction sizes as [|s sizes IH]; intros k Hk H0 Ha; simpl; [by eauto|].
  destruct (malloc_ready area s k Hk H0 Ha) as (k1 & E & Hk1 & _). kstep E.
  destruct (IH k1 Hk1 H0 Ha) as (k2 & E2 & Hk2). kstep E2. by eauto.
Qed.

(** [MmCreateAllocatorState] with one arena terminates, clears the heap
    area, lays out an empty arena, a root node and the node to allocate from
    at its start, points the allocator state at it, and changes nothing
    outside the area. *)
Theorem MmCreateAllocatorState_spec (HeapArea HeapSize : Z) (k : kernel) :
  va = KERN_PHYS_TO_VIRT HeapArea -> window HeapArea hp (round4 HeapSize) ->
  128 <= HeapSize < 2 ^ 63 -> root_area HeapSize < 2 ^ 64 ->
  exists k', MmCreateAllocatorState 1 HeapArea HeapSize k = Ok () k' /\
    k' = with_heap (mkAllocatorState MM_STRUCTURE_TYPE_HEAP_ALLOCATOR NULL None va)
           (with_ram (ram k') k) /\
    heap_ready (root_area HeapSize) k' /\
    forall q, q < hp \/ hp + round4 HeapSize <= q -> rb (ram k') q = rb (ram k) q.
Proof.
  intros Hva Wl Hs Hr.
  destruct (MmCreateAllocatorState_ready HeapArea HeapSize k Hva Wl Hs Hr) as (k' & ? & ? & ? & _ & ?).
  by exists k'.
Qed.

(** C26: [MmKernelMalloc] on the heap [MmCreateAllocatorState] makes never
    fails, but hands the same memory to every caller: whatever sizes are asked
    for, in whatever number, every call returns the address one byte after
    the start of the root node's block, which is odd. *)
Theorem MmKernelMalloc_same (HeapArea HeapSize : Z) (sizes : list Z) (k : kernel) :
  va = KERN_PHYS_TO_VIRT HeapArea -> window HeapArea hp (round4 HeapSize) ->
  128 <= HeapSize < 2 ^ 63 -> root_area HeapSize + 1 < 2 ^ 64 -> va mod 8 = 0 ->
  exists k', (MmCreateAllocatorState 1 HeapArea HeapSize ;; mapM MmKernelMalloc sizes) k =
      Ok (replicate (length sizes) (root_area HeapSize + 1)) k' /\
    (root_area HeapSize + 1) mod 8 = 1.
Proof.
  intros Hva Wl Hs Hr Hal. destruct (id HA) as [[H0 _] _ _].
  assert (0 <= root_area HeapSize).
  { unfold root_area. assert (0 <= HeapSize / sizeof_Node) by (apply Z.div_pos; [lia|done]). lia. }
  destruct (MmCreateAllocatorState_ready HeapArea HeapSize k Hva Wl Hs ltac:(lia))
    as (k1 & E & _ & Hk1 & _). kstep E.
  destruct (mallocs_ready (root_area HeapSize) sizes k1 Hk1) as (k2 & E2 & _); [lia..|].
  exists k2. split; [done|]. unfold root_area. dlia.
Qed.

End OneArena.

(** ** Witnesses: the 8 MiB heap the kernel asks for, at 4 MiB *)

Definition heap_base : Z := 0x400000.
Definition heap_size : Z := 8 * 1024 * 1024.

Lemma heap_area_example :
  heap_area (AS := boot_space) (KERN_PHYS_TO_VIRT heap_base) heap_base heap_size.
Proof.
  constructor; [vm_compute; split; congruence|vm_compute; congruence|].
  apply boot_window_virt; vm_compute; congruence.
Qed.

Lemma MmCreateAllocatorState_spec_witness :
  exists k', MmCreateAllocatorState (AS := boot_space) 1 heap_base heap_size kernel0 = Ok () k' /\
    rdn 8 (ram k') (heap_base + 104) = KERN_PHYS_TO_VIRT heap_base + 32.
Proof.
  destruct (MmCreateAllocatorState_spec (AS := boot_space) _ _ _ heap_area_example
    heap_base heap_size kernel0 eq_refl) as (k' & E & _ & Hr & _).
  - apply boot_window_low; vm_compute; congruence.
  - unfold heap_size. lia.
  - vm_compute. reflexivity.
  - exists k'. split; [exact E|exact (hr_previous _ _ _ _ Hr)].
Defined.

Lemma MmKernelMalloc_same_witness :
  exists k', (MmCreateAllocatorState (AS := boot_space) 1 heap_base heap_size ;;
      mapM (MmKernelMalloc (AS := boot_space)) [4096; 80; 4096]) kernel0 =
    Ok (replicate 3 (root_area (KERN_PHYS_TO_VIRT heap_base) heap_size + 1)) k'.
Proof.
  destruct (MmKernelMalloc_same (AS := boot_space) _ _ _ heap_area_example
    heap_base heap_size [4096; 80; 4096] kernel0 eq_refl) as (k' & E & _).
  - apply boot_window_low; vm_compute; congruence.
  - unfold heap_size. lia.
  - vm_compute. reflexivity.
  - reflexivity.
  - exists k'. exact E.
Defined.
