(* ===== verification/Pmm.v ===== *)
(** * The physical memory manager ([kern/mm/mmsetup.c])

    A bitmap with one bit per frame, and the setup that places it, marks the
    kernel's own frames and starts the heap.  The operations are shown to
    implement a set of used frame numbers. *)

From S2P Require Import Prelude Machine Status MemFuncs Heap.

(** ** Layouts ([mm.h]) *)

Definition MmMemoryRange_End : Z := 24.
Definition MmMemoryRange_Size : Z := 32.
Definition sizeof_MmMemoryRange : Z := 40.
Definition MmPhysicalAllocationInfo_FrameSize : Z := 16.
Definition MmPhysicalAllocationInfo_MemoryAreaRangeCount : Z := 24.
Definition MmPhysicalAllocationInfo_Ranges : Z := 32.
Definition MmCreateInfo_pPhysicalAllocationInfo : Z := 16.
Definition MmCreateInfo_SafePMMArea : Z := 24.

(** Where the linker script puts [kern_start]. *)
Definition kernel_start : Z := 0x100000.

(** [KiStopError], which the memory manager calls on a failed check. *)
Class StopError := KiStop : FERALSTATUS -> K ().

(** The macro's argument is evaluated again for the call. *)
Definition VALIDATE_SUCCESS `{StopError} (x : K FERALSTATUS) : K () :=
  s ← x;
  if negb (status_eqb s STATUS_SUCCESS) then s ← x; KiStop s else skip.

Definition set_pAllocInfo (p : Z) (s : MemoryManagementState) : MemoryManagementState :=
  mkMmState p (BitmaskUsedFrames s) (MaxPAddr s).
Definition set_BitmaskUsedFrames (p : Z) (s : MemoryManagementState) : MemoryManagementState :=
  mkMmState (pAllocInfo s) p (MaxPAddr s).
Definition set_MaxPAddr (p : Z) (s : MemoryManagementState) : MemoryManagementState :=
  mkMmState (pAllocInfo s) (BitmaskUsedFrames s) p.
Definition upd_mms (f : MemoryManagementState -> MemoryManagementState) : K () :=
  modify (fun k => with_mms (f (mms k)) k).

Definition InteralGetValueOfBit (Val BitNum : Z) : Z :=
  b2z (negb (Z.land Val (Z.shiftl 1 BitNum) =? 0)).

Section Pmm.
Context `{AS : AddrSpace} `{ST : StopError}.

(** [MmState.pAllocInfo->FrameSize]. *)
Definition get_FrameSize : K Z :=
  p ← gets (fun k => pAllocInfo (mms k));
  load64 (p + MmPhysicalAllocationInfo_FrameSize).

(** What [MmLookupPhysFrame] and [MmAllocatePhysFrame] start with: the index
    of the byte, the byte, and the number of the bit. *)
Definition locate (Location : Z) : K (Z * Z * Z) :=
  FrameSize ← get_FrameSize;
  BaseAddr ← udiv Location (u64 (8 * FrameSize));
  bitmask ← gets (fun k => BitmaskUsedFrames (mms k));
  ContainingByte ← load8 (bitmask + BaseAddr);
  q ← udiv Location FrameSize;
  mret (BaseAddr, ContainingByte, q mod 8).

(** [*Status] is passed in and handed back. *)
Definition MmLookupPhysFrame (Location Status : Z) : K (FERALSTATUS * Z) :=
  max ← gets (fun k => MaxPAddr (mms k));
  if max <? Location then mret (STATUS_INVALID_MEMORY_LOCATION, Status)
  else
    '(_, ContainingByte, BitNum) ← locate Location;
    mret (STATUS_SUCCESS, Z.land (Z.shiftr ContainingByte BitNum) 0x01).

Definition MmAllocatePhysFrame (Location Status : Z) : K FERALSTATUS :=
  max ← gets (fun k => MaxPAddr (mms k));
  if max <? Location then mret STATUS_INVALID_MEMORY_LOCATION
  else
    '(BaseAddr, ContainingByte, BitNum) ← locate Location;
    let InUse := negb (Z.land (Z.shiftr ContainingByte BitNum) 0x01 =? 0) in
    bitmask ← gets (fun k => BitmaskUsedFrames (mms k));
    if InUse && (Status =? 0) then
      store8 (bitmask + BaseAddr)
        (Z.land ContainingByte (Z.lxor 255 (Z.shiftl 1 BitNum))) ;;
      mret STATUS_SUCCESS
    else if negb InUse && negb (Status =? 0) then
      store8 (bitmask + BaseAddr) (Z.lor ContainingByte (Z.shiftl 1 BitNum)) ;;
      mret STATUS_SUCCESS
    else mret STATUS_MEMORY_ACCESS_VIOLATION.

(** The eight bits of one byte: the location of the first clear one. *)
Definition scan_block (FrameSize Bitmap PageBlock : Z) : K (option Z) :=
  cloop (fun Bit =>
    if Bit <? 8 then
      v ← load8 (Bitmap + PageBlock);
      if InteralGetValueOfBit v Bit =? 0 then
        let Base := u64 (FrameSize * PageBlock * 8) in
        let Offset := u64 (Bit * FrameSize) in
        mret (inr (Some (u64 (Base + Offset))))
      else mret (inl (u8 (Bit + 1)))
    else mret (inr None)) 0.

(** [*Location] is the second component of the result. *)
Definition MmLookupFreePhysFrame : K (FERALSTATUS * Z) :=
  FrameSize ← get_FrameSize;
  Bitmap ← gets (fun k => BitmaskUsedFrames (mms k));
  cloop (fun PageBlock =>
    max ← gets (fun k => MaxPAddr (mms k));
    if PageBlock <? max then
      r ← scan_block FrameSize Bitmap PageBlock;
      match r with
      | Some loc => mret (inr (STATUS_SUCCESS, loc))
      | None => mret (inl (u64 (PageBlock + 1)))
      end
    else mret (inr (STATUS_MEMORY_PAGE_FAILURE, 0))) 0.

(** The first loop of [KiInitializeMemMgr]: the highest end of a range. *)
Definition max_range_end : K Z :=
  cloop (fun '(n, TotalSystemMemory, MaximumPAddr) =>
    p ← gets (fun k => pAllocInfo (mms k));
    count ← load64 (p + MmPhysicalAllocationInfo_MemoryAreaRangeCount);
    if n <? count then
      ranges ← load64 (p + MmPhysicalAllocationInfo_Ranges);
      size ← load64 (ranges + n * sizeof_MmMemoryRange + MmMemoryRange_Size);
      end_ ← load64 (ranges + n * sizeof_MmMemoryRange + MmMemoryRange_End);
      mret (inl (u64 (n + 1), u64 (TotalSystemMemory + size),
                 if MaximumPAddr <? end_ then end_ else MaximumPAddr))
    else mret (inr MaximumPAddr)) (0, 0, 0).

Definition HeapSize : Z := 1024 * 1024 * 8.

(** The loop that takes the frames of the heap; the step is read again in
    every round. *)
Definition take_heap (HeapAddr : Z) : K () :=
  cloop (fun Addr =>
    if Addr <? HeapSize then
      VALIDATE_SUCCESS (MmAllocatePhysFrame Addr 1) ;;
      fs ← get_FrameSize;
      mret (inl (u64 (Addr + fs)))
    else mret (inr ())) HeapAddr.

Definition KiInitializeMemMgr (info : Z) : K FERALSTATUS :=
  p ← load64 (info + MmCreateInfo_pPhysicalAllocationInfo);
  upd_mms (set_pAllocInfo p) ;;
  max ← max_range_end;
  upd_mms (set_MaxPAddr max) ;;
  PmmLocation ← load64 (info + MmCreateInfo_SafePMMArea);
  p ← load64 (info + MmCreateInfo_pPhysicalAllocationInfo);
  FrameSize ← load64 (p + MmPhysicalAllocationInfo_FrameSize);
  BufferSize ← udiv max (u64 (8 * FrameSize));
  let PmmBitmap := u64 (PmmLocation + FrameSize) in
  KiSetMemoryBytes PmmBitmap 0 BufferSize ;;
  upd_mms (set_BitmaskUsedFrames (KERN_PHYS_TO_VIRT PmmBitmap)) ;;
  for_lt 64 (u64 (PmmLocation + BufferSize)) FrameSize (fun Index =>
    VALIDATE_SUCCESS (MmAllocatePhysFrame Index 1)) kernel_start ;;
  let HeapAddr := u64 (u64 (PmmLocation + BufferSize) + FrameSize) in
  MmCreateAllocatorState 1 HeapAddr HeapSize ;;
  take_heap HeapAddr ;;
  mret STATUS_SUCCESS.

End Pmm.

(** ** The set of used frames *)

Section Spec.
Context `{AS : AddrSpace}.

(** The allocation info at [iv] (physical [ip]), the bitmap of [nb] bytes at
    [bv] (physical [bp]), frames of [FS] bytes, addresses up to [max]. *)
Variables (FS iv ip bv bp nb max : Z).

Record pmm_layout : Prop := mkPmmLayout {
  pl_fs : 0 < FS /\ 8 * FS < 2 ^ 64;
  pl_info : window iv ip 40;
  pl_bitmap : window bv bp nb;
  pl_disjoint : ip + 40 <= bp \/ bp + nb <= ip;
}.

Record pmm_ok (k : kernel) : Prop := mkPmmOk {
  po_info : pAllocInfo (mms k) = iv;
  po_bitmap : BitmaskUsedFrames (mms k) = bv;
  po_max : MaxPAddr (mms k) = max;
  po_fs : rdn 8 (ram k) (ip + 16) = FS;
  po_ram : ram_ok (ram k);
}.

(** The bit of frame [f]. *)
Definition used (m : gmap Z Z) (f : Z) : bool := Z.testbit (rb m (bp + f / 8)) (f mod 8).

(** [S] is the set of the frames in use. *)
Definition pmm_rel (S : gset Z) (k : kernel) : Prop :=
  pmm_ok k /\ forall f, f ∈ S <-> 0 <= f < 8 * nb /\ used (ram k) f = true.

(** The specification of [MmAllocatePhysFrame]: take a free frame, or give
    back a used one. *)
Definition spec_allocate (Location Status : Z) (S : gset Z) : FERALSTATUS * gset Z :=
  let f := Location / FS in
  if max <? Location then (STATUS_INVALID_MEMORY_LOCATION, S)
  else if Status =? 0 then
    if decide (f ∈ S) then (STATUS_SUCCESS, S ∖ {[f]}) else (STATUS_MEMORY_ACCESS_VIOLATION, S)
  else
    if decide (f ∈ S) then (STATUS_MEMORY_ACCESS_VIOLATION, S) else (STATUS_SUCCESS, {[f]} ∪ S).

(** Only bitmap bytes differ. *)
Definition only_bitmap (m m' : gmap Z Z) : Prop :=
  forall q, q < bp \/ bp + nb <= q -> rb m' q = rb m q.

Hypothesis L : pmm_layout.

Lemma get_FrameSize_ok k : pmm_ok k -> get_FrameSize k = Ok FS k.
Proof.
  intros [E _ _ Ef _]. destruct L as [_ Wi _ _]. unfold get_FrameSize.
  kstep (eq_refl : gets (fun k => pAllocInfo (mms k)) k = _). rewrite E.
  unfold load64. rewrite (loadn_at 8 iv ip 40 _ 16); [by rewrite Ef|done|done|lia|lia].
Qed.

Lemma udiv_ok a b k : 0 < b -> udiv a b k = Ok (a / b) k.
Proof. intros. unfold udiv. by rewrite (proj2 (Z.eqb_neq b 0)) by lia. Qed.

Lemma byte_index Location : 0 <= Location -> Location / (8 * FS) = Location / FS / 8.
Proof. intros. destruct L. rewrite Z.div_div by lia. f_equal. lia. Qed.

Lemma locate_ok Location n k :
  pmm_ok k -> window bv bp n -> 0 <= Location -> Location / FS < 8 * n ->
  locate Location k =
    Ok (Location / FS / 8, rb (ram k) (bp + Location / FS / 8), Location / FS mod 8) k.
Proof.
  intros Hk Wb H0 Hn. pose proof L as [[Hf Hf8] _ _ _]. unfold locate.
  kstep (get_FrameSize_ok k Hk). rewrite (u_small 64) by lia.
  kstep (udiv_ok Location (8 * FS) k ltac:(lia)). rewrite byte_index by done.
  kstep (eq_refl : gets (fun k => BitmaskUsedFrames (mms k)) k = _). rewrite (po_bitmap _ Hk).
  assert (0 <= Location / FS) by (apply Z.div_pos; lia).
  kstep (load8_at bv bp n (Location / FS / 8) k Wb ltac:(dlia)).
  by kstep (udiv_ok Location FS k Hf).
Qed.

(** Writing the byte of frame [f]. *)
Lemma used_insert m f b g :
  0 <= f -> 0 <= g ->
  used (<[bp + f / 8 := b]> m) g =
    if f / 8 =? g / 8 then Z.testbit b (g mod 8) else used m g.
Proof.
  intros. unfold used. rewrite rb_insert.
  destruct (Z.eqb_spec (f / 8) (g / 8)) as [->|]; [by rewrite Z.eqb_refl|].
  by rewrite (proj2 (Z.eqb_neq _ _)) by lia.
Qed.

Lemma testbit_clear x b n :
  0 <= b < 8 -> 0 <= n < 8 ->
  Z.testbit (Z.land x (Z.lxor 255 (Z.shiftl 1 b))) n = Z.testbit x n && negb (n =? b).
Proof.
  intros Hb Hn. rewrite Z.land_spec, Z.lxor_spec, Z.shiftl_1_l, Z.pow2_bits_eqb by lia.
  change 255 with (Z.ones 8). rewrite Z.ones_spec_low by lia. f_equal.
  rewrite (Z.eqb_sym b n). by destruct (n =? b).
Qed.

Lemma same_frame f g : 0 <= f -> 0 <= g ->
  f = g <-> f / 8 = g / 8 /\ f mod 8 = g mod 8.
Proof. intros. split; [by intros ->|]. intros [? ?]. dlia. Qed.

Lemma used_take m f g :
  0 <= f -> 0 <= g -> byte (rb m (bp + f / 8)) ->
  used (<[bp + f / 8 := u8 (Z.lor (rb m (bp + f / 8)) (Z.shiftl 1 (f mod 8)))]> m) g =
    used m g || (g =? f).
Proof.
  intros Hf Hg Hb. rewrite used_insert by done. unfold u. rewrite Z.mod_pow2_bits_low by dlia.
  destruct (Z.eqb_spec (f / 8) (g / 8)) as [E|E].
  - rewrite testbit_setbit_pow by dlia. unfold used. rewrite E. f_equal.
    apply eq_true_iff_eq. rewrite !Z.eqb_eq, (same_frame g f) by done. intuition lia.
  - rewrite (proj2 (Z.eqb_neq g f)) by congruence. by rewrite orb_false_r.
Qed.

Lemma used_give m f g :
  0 <= f -> 0 <= g ->
  used (<[bp + f / 8 := u8 (Z.land (rb m (bp + f / 8)) (Z.lxor 255 (Z.shiftl 1 (f mod 8))))]> m) g =
    used m g && negb (g =? f).
Proof.
  intros Hf Hg. rewrite used_insert by done. unfold u. rewrite Z.mod_pow2_bits_low by dlia.
  destruct (Z.eqb_spec (f / 8) (g / 8)) as [E|E].
  - rewrite testbit_clear by dlia. unfold used. rewrite E. do 2 f_equal.
    apply eq_true_iff_eq. rewrite !Z.eqb_eq, (same_frame g f) by done. intuition lia.
  - rewrite (proj2 (Z.eqb_neq g f)) by congruence. by rewrite andb_true_r.
Qed.

Lemma MmAllocatePhysFrame_eq Location Status n k :
  pmm_ok k -> window bv bp n -> 0 <= Location <= max -> Location / FS < 8 * n ->
  MmAllocatePhysFrame Location Status k =
    let f := Location / FS in
    let b := rb (ram k) (bp + f / 8) in
    let put v := Ok STATUS_SUCCESS (with_ram (<[bp + f / 8 := u8 v]> (ram k)) k) in
    if used (ram k) f then
      if Status =? 0 then put (Z.land b (Z.lxor 255 (Z.shiftl 1 (f mod 8))))
      else Ok STATUS_MEMORY_ACCESS_VIOLATION k
    else
      if Status =? 0 then Ok STATUS_MEMORY_ACCESS_VIOLATION k
      else put (Z.lor b (Z.shiftl 1 (f mod 8))).
Proof.
  intros Hk Wb H0 Hn. pose proof L as [[Hf Hf8] _ _ _]. unfold MmAllocatePhysFrame.
  assert (0 <= Location / FS) by (apply Z.div_pos; lia).
  kstep (eq_refl : gets (fun k => MaxPAddr (mms k)) k = _). rewrite (po_max _ Hk).
  rewrite (proj2 (Z.ltb_ge _ _)) by lia.
  kstep (locate_ok Location n k Hk Wb ltac:(lia) Hn). cbv zeta. fold (used (ram k) (Location / FS)).
  rewrite land_1_testbit by dlia. fold (used (ram k) (Location / FS)).
  kstep (eq_refl : gets (fun k => BitmaskUsedFrames (mms k)) k = _). rewrite (po_bitmap _ Hk).
  unfold b2z; destruct (used (ram k) (Location / FS)); cbn [negb Z.eqb andb];
    destruct (Status =? 0); cbn [negb andb]; try done;
    (rewrite (bind_ok _ _ k () _ (store8_ok (bv + Location / FS / 8) (bp + Location / FS / 8) _ k
      ltac:(eapply window_sub; [exact Wb|dlia|dlia]))); done).
Qed.

Lemma pmm_ok_write k q b :
  pmm_ok k -> q < ip \/ ip + 40 <= q -> pmm_ok (with_ram (<[q := u8 b]> (ram k)) k).
Proof.
  intros [E1 E2 E3 E4 E5] Hq. constructor; rewrite ?ram_with_ram; [by destruct k..| |].
  - rewrite <- E4. change (<[q := u8 b]> (ram k)) with (write_bytes (ram k) q [u8 b]).
    apply rdn_write_other. unfold zlen. simpl. lia.
  - apply ram_ok_insert; [done|]. apply (u_range 8). lia.
Qed.

(** The bitmap byte of an existing frame is not in the allocation info. *)
Lemma bitmap_byte f : 0 <= f < 8 * nb -> bp <= bp + f / 8 < bp + nb.
Proof. intros. dlia. Qed.

Lemma pmm_rel_update S S' f k b :
  pmm_rel S k -> 0 <= f < 8 * nb ->
  (forall g, 0 <= g < 8 * nb ->
     g ∈ S' <-> used (<[bp + f / 8 := u8 b]> (ram k)) g = true) ->
  (forall g, g ∈ S' -> g ∈ S \/ g = f) ->
  pmm_rel S' (with_ram (<[bp + f / 8 := u8 b]> (ram k)) k) /\
  only_bitmap (ram k) (<[bp + f / 8 := u8 b]> (ram k)).
Proof.
  intros [Hk HS] Hf HS' Hsub. pose proof (bitmap_byte f Hf) as Hb. destruct (id L) as [_ _ _ Hd].
  split; [split|].
  - apply pmm_ok_write; [done|lia].
  - intros g. rewrite ram_with_ram. split.
    + intros Hg. assert (0 <= g < 8 * nb) as Hr.
      { destruct (Hsub g Hg) as [H1| ->]; [by apply HS in H1 as [? _]|done]. }
      split; [done|]. by apply HS'.
    + intros [Hr Hu]. by apply HS'.
  - intros q Hq. rewrite rb_insert. by rewrite (proj2 (Z.eqb_neq _ _)) by lia.
Qed.

Lemma MmAllocatePhysFrame_ok S Location Status k :
  pmm_rel S k -> 0 <= Location -> Location / FS < 8 * nb \/ max < Location ->
  exists m', MmAllocatePhysFrame Location Status k =
      Ok (fst (spec_allocate Location Status S)) (with_ram m' k) /\
    pmm_rel (snd (spec_allocate Location Status S)) (with_ram m' k) /\
    only_bitmap (ram k) m'.
Proof.
  intros Hrel H0 Hn. destruct (id Hrel) as [Hk HS]. pose proof L as [[Hf _] Wi Wb Hd].
  assert (Hsame : pmm_rel S (with_ram (ram k) k) /\ only_bitmap (ram k) (ram k)).
  { rewrite with_ram_id. split; [done|by intros q _]. }
  unfold spec_allocate. destruct (Z.ltb_spec max Location).
  { exists (ram k). split; [|done]. unfold MmAllocatePhysFrame.
    kstep (eq_refl : gets (fun k => MaxPAddr (mms k)) k = _). rewrite (po_max _ Hk).
    by rewrite (proj2 (Z.ltb_lt _ _)), with_ram_id by lia. }
  set (f := Location / FS) in *. assert (0 <= f) by (apply Z.div_pos; lia).
  assert (0 <= f < 8 * nb) as Hfr by lia.
  rewrite (MmAllocatePhysFrame_eq Location Status nb k) by (done || lia). fold f. cbv zeta.
  destruct (used (ram k) f) eqn:Eu.
  - assert (f ∈ S) as Hin by (apply HS; done). rewrite decide_True by done.
    rewrite decide_True by done. destruct (Status =? 0).
    + eexists. cbn [fst snd]. split; [done|].
      apply (pmm_rel_update S); [done|done| |intros ? [? ?]%elem_of_difference; by left].
      intros g Hg. rewrite used_give by lia. rewrite elem_of_difference, elem_of_singleton, HS.
      rewrite andb_true_iff, negb_true_iff, Z.eqb_neq. intuition lia.
    + exists (ram k). split; [by rewrite with_ram_id|done].
  - assert (f ∉ S) as Hin by (rewrite HS; intros [_ ?]; congruence).
    rewrite !decide_False by done. destruct (Status =? 0).
    + exists (ram k). split; [by rewrite with_ram_id|done].
    + eexists. cbn [fst snd]. split; [done|].
      apply (pmm_rel_update S); [done|done| |].
      2:{ intros g [->%elem_of_singleton|?]%elem_of_union; auto. }
      intros g Hg. rewrite used_take by (apply (po_ram _ Hk) || lia).
      rewrite elem_of_union, elem_of_singleton, HS, orb_true_iff, Z.eqb_eq. intuition lia.
Qed.

Lemma MmLookupPhysFrame_ok S Location Status k :
  pmm_rel S k -> 0 <= Location -> Location / FS < 8 * nb \/ max < Location ->
  MmLookupPhysFrame Location Status k =
    Ok (if max <? Location then (STATUS_INVALID_MEMORY_LOCATION, Status)
        else (STATUS_SUCCESS, b2z (bool_decide (Location / FS ∈ S)))) k.
Proof.
  intros [Hk HS] H0 Hn. pose proof L as [[Hf _] _ Wb _]. unfold MmLookupPhysFrame.
  kstep (eq_refl : gets (fun k => MaxPAddr (mms k)) k = _). rewrite (po_max _ Hk).
  destruct (Z.ltb_spec max Location); [done|].
  assert (0 <= Location / FS) by (apply Z.div_pos; lia).
  kstep (locate_ok Location nb k Hk Wb ltac:(lia) ltac:(lia)). cbv zeta.
  rewrite land_1_testbit by dlia. fold (used (ram k) (Location / FS)). rewrite ret_ok.
  do 4 f_equal. apply eq_true_iff_eq. rewrite bool_decide_eq_true, HS. intuition lia.
Qed.

Lemma scan_block_ok n B k :
  pmm_ok k -> window bv bp n -> 0 <= B < n ->
  (forall b, 0 <= b < 8 -> used (ram k) (8 * B + b) = true) /\ scan_block FS bv B k = Ok None k
  \/ exists b, 0 <= b < 8 /\ used (ram k) (8 * B + b) = false /\
       (forall c, 0 <= c < b -> used (ram k) (8 * B + c) = true) /\
       scan_block FS bv B k = Ok (Some (u64 ((8 * B + b) * FS))) k.
Proof.
  intros Hk Wb HB. unfold scan_block.
  match goal with |- context [cloop ?f] => set (body := f) end.
  assert (forall b, 0 <= b < 8 -> used (ram k) (8 * B + b) = Z.testbit (rb (ram k) (bp + B)) b) as Hu.
  { intros b Hb. unfold used. do 2 f_equal; [|dlia]. f_equal. dlia. }
  destruct (cloop_total (fun b k' => k' = k /\ 0 <= b <= 8 /\
      forall c, 0 <= c < b -> used (ram k) (8 * B + c) = true)
    (fun r k' => k' = k /\ match r with
      | None => forall c, 0 <= c < 8 -> used (ram k) (8 * B + c) = true
      | Some v => exists b, 0 <= b < 8 /\ used (ram k) (8 * B + b) = false /\
          (forall c, 0 <= c < b -> used (ram k) (8 * B + c) = true) /\ v = u64 ((8 * B + b) * FS)
      end) (fun b => 8 - b) body) with (s := 0) (k := k) as (r & k' & E & -> & HQ).
  - intros b k1 (-> & Hb & Hc). unfold body. destruct (Z.ltb_spec b 8).
    2:{ exists (inr None), k. split; [done|]. split; [done|]. intros c ?. apply Hc. lia. }
    kstep (load8_at bv bp n B k Wb HB). unfold InteralGetValueOfBit.
    rewrite Z.shiftl_1_l. pose proof (Hu b ltac:(lia)) as Hub.
    assert ((Z.land (rb (ram k) (bp + B)) (2 ^ b) =? 0) = negb (Z.testbit (rb (ram k) (bp + B)) b)) as ->.
    { rewrite land_pow2. by destruct (Z.testbit _ b); [rewrite (proj2 (Z.eqb_neq _ _)) by lia|]. }
    destruct (Z.testbit _ b); simpl.
    + exists (inl (u8 (b + 1))), k. split; [done|]. rewrite u_small by lia. split; [|lia].
      split; [done|]. split; [lia|]. intros c Hc'.
      destruct (Z.eq_dec c b) as [->|]; [done|]. apply Hc. lia.
    + eexists (inr _), k. split; [reflexivity|]. split; [done|]. exists b. split; [lia|].
      split; [done|]. split; [done|]. rewrite u_add_l, u_add_r. f_equal. ring.
  - kdone.
  - done.
  - rewrite E. destruct r as [v|]; [right|by left].
    destruct HQ as (b & H1 & H2 & H3 & ->). by exists b.
Qed.

Lemma MmLookupFreePhysFrame_ok n f k :
  pmm_ok k -> window bv bp n -> 0 <= f < 8 * n -> f / 8 < max < 2 ^ 64 ->
  used (ram k) f = false -> (forall g, 0 <= g < f -> used (ram k) g = true) ->
  MmLookupFreePhysFrame k = Ok (STATUS_SUCCESS, u64 (f * FS)) k.
Proof.
  intros Hk Wb Hf Hmax Hfree Hused. unfold MmLookupFreePhysFrame. kstep (get_FrameSize_ok k Hk).
  kstep (eq_refl : gets (fun k => BitmaskUsedFrames (mms k)) k = _). rewrite (po_bitmap _ Hk).
  match goal with |- cloop ?b _ _ = _ => set (body := b) end.
  destruct (cloop_total (fun B k' => k' = k /\ 0 <= B <= f / 8)
    (fun r k' => k' = k /\ r = (STATUS_SUCCESS, u64 (f * FS))) (fun B => f / 8 - B) body)
    with (s := 0) (k := k) as (r & k' & E & -> & ->); [|split; [done|dlia]|unfold FUEL; dlia|done].
  intros B k1 [-> HB]. unfold body.
  kstep (eq_refl : gets (fun k => MaxPAddr (mms k)) k = _). rewrite (po_max _ Hk).
  rewrite (proj2 (Z.ltb_lt _ _)) by lia.
  destruct (scan_block_ok n B k Hk Wb ltac:(dlia)) as [[Hall E]|(b & Hb & Hbf & Hbu & E)]; kstep E.
  - assert (B <> f / 8).
    { intros ->. specialize (Hall (f mod 8) ltac:(dlia)).
      replace (8 * (f / 8) + f mod 8) with f in Hall by dlia. congruence. }
    eexists (inl _), k. split; [reflexivity|]. rewrite u_small by lia. kdone.
  - eexists (inr _), k. split; [reflexivity|]. split; [done|]. do 3 f_equal.
    destruct (Z.lt_trichotomy (8 * B + b) f) as [Hlt|[?|Hgt]]; [|done|].
    + specialize (Hused (8 * B + b) ltac:(lia)). congruence.
    + assert (B = f / 8) as -> by dlia. specialize (Hbu (f mod 8) ltac:(dlia)).
      replace (8 * (f / 8) + f mod 8) with f in Hbu by dlia. congruence.
Qed.

(** *** Allocation sequences *)

(** Look for a free frame and take it, [n] times. *)
Fixpoint grab (n : nat) : K (list Z) :=
  match n with
  | O => mret []
  | Datatypes.S n =>
      '(_, loc) ← MmLookupFreePhysFrame;
      _ ← MmAllocatePhysFrame loc 1;
      locs ← grab n;
      mret (loc :: locs)
  end.

Lemma first_free (S : gset Z) (m : nat) :
  (forall g, 0 <= g < Z.of_nat m -> g ∈ S) \/
  exists f, 0 <= f < Z.of_nat m /\ f ∉ S /\ forall g, 0 <= g < f -> g ∈ S.
Proof.
  induction m as [|m [IH|(f & Hf & Hn & Hg)]]; [left; lia| |].
  - destruct (decide (Z.of_nat m ∈ S)) as [Hin|Hin].
    + left. intros g Hg. destruct (Z.eq_dec g (Z.of_nat m)) as [->|]; [done|]. apply IH. lia.
    + right. exists (Z.of_nat m). split; [lia|]. split; [done|]. intros g Hg. apply IH. lia.
  - right. exists f. split; [lia|done].
Qed.

Lemma some_free (S : gset Z) (m : nat) :
  (size S < m)%nat ->
  exists f, 0 <= f < Z.of_nat m /\ f ∉ S /\ forall g, 0 <= g < f -> g ∈ S.
Proof.
  intros Hs. destruct (first_free S m) as [Hall|?]; [exfalso|done].
  assert (list_to_set (seqZ 0 (Z.of_nat m)) ⊆ S) as Hsub.
  { intros g. rewrite elem_of_list_to_set, elem_of_seqZ. intros. apply Hall. lia. }
  apply subseteq_size in Hsub. rewrite size_list_to_set in Hsub by apply NoDup_seqZ.
  rewrite length_seqZ in Hsub. lia.
Qed.

(** Every bitmap byte stands for frames the manager knows. *)
Record pmm_sized : Prop := mkPmmSized {
  ps_bytes : 0 <= nb <= max;
  ps_max : max < 2 ^ 64;
  ps_frames : 8 * nb * FS <= max + FS;
}.

Hypothesis SZ : pmm_sized.

(** Find-and-take on the abstract set: the lowest free frame. *)
Lemma grab_one S k :
  pmm_rel S k -> (size S < Z.to_nat (8 * nb))%nat ->
  exists f m', 0 <= f < 8 * nb /\ f ∉ S /\ MmLookupFreePhysFrame k = Ok (STATUS_SUCCESS, f * FS) k /\
    MmAllocatePhysFrame (f * FS) 1 k = Ok STATUS_SUCCESS (with_ram m' k) /\
    pmm_rel ({[f]} ∪ S) (with_ram m' k) /\ only_bitmap (ram k) m'.
Proof.
  intros Hrel Hs. destruct (id Hrel) as [Hk HS]. destruct L as [[Hf Hf8] _ Wb _].
  destruct SZ as [Hnb Hm64 Hfr].
  destruct (some_free S _ Hs) as (f & Hfb & Hnf & Hg). rewrite Z2Nat.id in Hfb by lia.
  assert (f * FS <= max) by nia. assert (f * FS / FS = f) as Ediv by (apply Z.div_mul; lia).
  destruct (MmAllocatePhysFrame_ok S (f * FS) 1 k Hrel ltac:(nia)) as (m' & Ea & Hrel' & Hob).
  { left. lia. }
  unfold spec_allocate in Ea, Hrel'. rewrite Ediv in Ea, Hrel'.
  rewrite (proj2 (Z.ltb_ge max (f * FS))) in Ea, Hrel' by lia. simpl Z.eqb in Ea, Hrel'.
  rewrite !decide_False in Ea, Hrel' by done.
  exists f, m'. split; [done|]. split; [done|]. split; [|done].
  rewrite (MmLookupFreePhysFrame_ok nb f k Hk Wb Hfb).
  - by rewrite u_small by lia.
  - split; [dlia|lia].
  - apply not_true_iff_false. intros Hu. apply Hnf, HS. done.
  - intros g Hgr. apply HS. by apply Hg.
Qed.

(** C27: frames are never handed out twice: while [n] frames are left, looking
    for a free frame and taking it [n] times succeeds every time, and the
    frames obtained are distinct existing frames that were not in use, all
    of which are in use afterwards; memory outside the bitmap is unchanged. *)
Theorem grab_distinct (S : gset Z) (n : nat) (k : kernel) :
  pmm_rel S k -> (size S + n <= Z.to_nat (8 * nb))%nat ->
  exists fs m', grab n k = Ok (map (fun f => f * FS) fs) (with_ram m' k) /\
    length fs = n /\ NoDup fs /\ Forall (fun f => 0 <= f < 8 * nb /\ f ∉ S) fs /\
    pmm_rel (list_to_set fs ∪ S) (with_ram m' k) /\ only_bitmap (ram k) m'.
Proof.
  revert S k. induction n as [|n IH]; intros S k Hrel Hs.
  { exists [], (ram k). simpl. rewrite with_ram_id. split_and!; auto using NoDup_nil_2.
    - by rewrite union_empty_l_L.
    - by intros q _. }
  destruct (grab_one S k Hrel ltac:(lia)) as (f & m1 & Hf & Hnf & El & Ea & Hrel1 & Ho1).
  destruct (IH ({[f]} ∪ S) (with_ram m1 k) Hrel1) as (fs & m2 & Eg & Hlen & Hnd & Hall & Hrel2 & Ho2).
  { rewrite size_union, size_singleton by set_solver. lia. }
  exists (f :: fs), m2. rewrite with_ram_with_ram in Eg, Hrel2. rewrite ram_with_ram in Ho2.
  split_and!.
  - cbn [grab map]. kstep El. kstep Ea. by kstep Eg.
  - simpl. lia.
  - apply NoDup_cons. split; [|done]. intros Hin. rewrite Forall_forall in Hall.
    destruct (Hall f Hin). set_solver.
  - constructor; [done|]. eapply Forall_impl; [exact Hall|]. simpl. intros g [? ?]. set_solver.
  - simpl. by replace ({[f]} ∪ list_to_set fs ∪ S) with (list_to_set fs ∪ ({[f]} ∪ S)) by set_solver.
  - intros q Hq. by rewrite Ho2, Ho1.
Qed.

(** C6: [MmAllocatePhysFrame] implements taking and giving back frames of a
    set: on every location it terminates with the status the specification
    gives (unknown location, success, or an access violation on a double
    allocation or a double free), leaves the bitmap of the specification's
    set, and changes no byte outside the bitmap. *)
Theorem MmAllocatePhysFrame_refines (S : gset Z) (Location Status : Z) (k : kernel) :
  pmm_rel S k -> 0 <= Location -> Location / FS < 8 * nb \/ max < Location ->
  exists m', MmAllocatePhysFrame Location Status k =
      Ok (fst (spec_allocate Location Status S)) (with_ram m' k) /\
    pmm_rel (snd (spec_allocate Location Status S)) (with_ram m' k) /\
    only_bitmap (ram k) m'.
Proof. apply MmAllocatePhysFrame_ok. Qed.

(** [MmLookupPhysFrame] answers whether the frame of a location is in the
    set, rejects locations beyond the last address leaving [*Status] alone,
    and changes nothing. *)
Theorem MmLookupPhysFrame_refines (S : gset Z) (Location Status : Z) (k : kernel) :
  pmm_rel S k -> 0 <= Location -> Location / FS < 8 * nb \/ max < Location ->
  MmLookupPhysFrame Location Status k =
    Ok (if max <? Location then (STATUS_INVALID_MEMORY_LOCATION, Status)
        else (STATUS_SUCCESS, b2z (bool_decide (Location / FS ∈ S)))) k.
Proof. apply MmLookupPhysFrame_ok. Qed.

(** when every frame is in use and the byte after the bitmap is mapped
    with its first bit clear, [MmLookupFreePhysFrame] runs on into that byte
    (its bound is the last address, not the size of the bitmap) and reports a
    free frame at the end of memory, which does not exist;
    [MmAllocatePhysFrame] accepts it and writes the byte after the bitmap. *)
Theorem MmLookupFreePhysFrame_past_end (k : kernel) :
  pmm_ok k -> window bv bp (nb + 1) -> 0 < nb -> max = 8 * nb * FS ->
  (forall f, 0 <= f < 8 * nb -> used (ram k) f = true) ->
  Z.testbit (rb (ram k) (bp + nb)) 0 = false ->
  MmLookupFreePhysFrame k = Ok (STATUS_SUCCESS, max) k /\
  MmAllocatePhysFrame max 1 k =
    Ok STATUS_SUCCESS (with_ram (<[bp + nb := u8 (Z.lor (rb (ram k) (bp + nb)) 1)]> (ram k)) k).
Proof.
  intros Hk Wb Hnb0 Emax Hall Hbit. destruct L as [[Hf Hf8] _ _ _]. destruct SZ as [Hnb Hm64 Hfr].
  assert (8 * nb / 8 = nb) as E8 by dlia. assert (8 * nb mod 8 = 0) as Em8 by dlia.
  assert (used (ram k) (8 * nb) = false) as Hu by (unfold used; by rewrite E8, Em8).
  assert (max / FS = 8 * nb) as Ediv by (rewrite Emax; apply Z.div_mul; lia).
  assert (nb < max) by nia. split.
  - rewrite (MmLookupFreePhysFrame_ok (nb + 1) (8 * nb) k Hk Wb) by (done || lia).
    rewrite u_small by lia. by rewrite Emax.
  - rewrite (MmAllocatePhysFrame_eq max 1 (nb + 1) k Hk Wb) by lia.
    rewrite Ediv. cbv zeta. by rewrite Hu, E8, Em8.
Qed.

End Spec.

(** ** Setting up *)

Section Init.
Context `{AS : AddrSpace} `{ST : StopError}.

(** The highest of the first [n] range ends stored at [rp]. *)
Fixpoint max_end (m : gmap Z Z) (rp : Z) (n : nat) : Z :=
  match n with
  | O => 0
  | Datatypes.S n => Z.max (max_end m rp n) (rdn 8 m (rp + 40 * Z.of_nat n + 24))
  end.

(** The frames [a], ..., [b - 1]. *)
Definition frames (a b : Z) : gset Z := list_to_set (seqZ a (b - a)).

Lemma elem_of_frames a b f : f ∈ frames a b <-> a <= f < b.
Proof. unfold frames. rewrite elem_of_list_to_set, elem_of_seqZ. lia. Qed.

Lemma frames_empty a b : b <= a -> frames a b = ∅.
Proof. intros. apply set_eq. intros f. rewrite elem_of_frames. set_solver by lia. Qed.

Lemma frames_snoc a b : a <= b -> {[b]} ∪ frames a b = frames a (b + 1).
Proof.
  intros. apply set_eq. intros f. rewrite elem_of_union, elem_of_singleton, !elem_of_frames. lia.
Qed.

Lemma VALIDATE_SUCCESS_ok (x : K FERALSTATUS) k k' :
  x k = Ok STATUS_SUCCESS k' -> VALIDATE_SUCCESS x k = Ok () k'.
Proof. intros E. unfold VALIDATE_SUCCESS. kstep E. by rewrite status_eqb_refl. Qed.

Lemma rdn8_bound m p : ram_ok m -> 0 <= rdn 8 m p < 2 ^ 64.
Proof. intros Hm. by apply (rdn_bound 8). Qed.

Lemma max_range_end_ok iv ip rv rp count k :
  pAllocInfo (mms k) = iv -> window iv ip 40 -> window rv rp (40 * count) ->
  rdn 8 (ram k) (ip + 24) = count -> rdn 8 (ram k) (ip + 32) = rv -> ram_ok (ram k) ->
  max_range_end k = Ok (max_end (ram k) rp (Z.to_nat count)) k.
Proof.
  intros Ei Wi Wr Ec Er Hm. unfold max_range_end. pose proof (rdn8_bound (ram k) (ip + 24) Hm) as Hc.
  match goal with |- context [cloop ?f] => set (body := f) end.
  destruct (cloop_total (fun '(n, _, mx) k' => k' = k /\ 0 <= n <= count /\
      mx = max_end (ram k) rp (Z.to_nat n))
    (fun r k' => k' = k /\ r = max_end (ram k) rp (Z.to_nat count))
    (fun '(n, _, _) => count - n) body) with (s := (0, 0, 0)) (k := k)
    as (r & k' & E & -> & ->); [|kdone|unfold FUEL; lia|done].
  intros [[n tot] mx] k1 (-> & Hn & ->). unfold body, load64.
  kstep (eq_refl : gets (fun k => pAllocInfo (mms k)) k = _). rewrite Ei.
  kstep (loadn_at 8 iv ip 40 (iv + MmPhysicalAllocationInfo_MemoryAreaRangeCount) 24 k Wi
    eq_refl ltac:(lia) ltac:(lia)). rewrite Ec.
  destruct (Z.ltb_spec n count).
  2:{ exists (inr (max_end (ram k) rp (Z.to_nat n))), k. assert (n = count) as -> by lia. kdone. }
  kstep (loadn_at 8 iv ip 40 (iv + MmPhysicalAllocationInfo_Ranges) 32 k Wi
    eq_refl ltac:(lia) ltac:(lia)). rewrite Er. unfold sizeof_MmMemoryRange.
  kstep (loadn_at 8 rv rp (40 * count) (rv + n * 40 + MmMemoryRange_Size) (40 * n + 32) k Wr
    ltac:(unfold MmMemoryRange_Size; lia) ltac:(lia) ltac:(lia)).
  kstep (loadn_at 8 rv rp (40 * count) (rv + n * 40 + MmMemoryRange_End) (40 * n + 24) k Wr
    ltac:(unfold MmMemoryRange_End; lia) ltac:(lia) ltac:(lia)).
  eexists (inl (_, _, _)), k. split; [reflexivity|]. rewrite u_small by lia.
  split; [|lia]. split; [done|]. split; [lia|].
  replace (Z.to_nat (n + 1)) with (Datatypes.S (Z.to_nat n)) by lia. cbn [max_end].
  rewrite Z2Nat.id by lia. rewrite Z.add_assoc.
  destruct (Z.ltb_spec (max_end (ram k) rp (Z.to_nat n)) (rdn 8 (ram k) (rp + 40 * n + 24))); lia.
Qed.

(** Taking a fresh frame during the setup. *)
Lemma take_frame FS iv ip bv bp nb max S Addr k :
  pmm_layout FS iv ip bv bp nb -> pmm_rel FS iv ip bv bp nb max S k ->
  0 <= Addr <= max -> Addr / FS < 8 * nb -> Addr / FS ∉ S ->
  exists m', VALIDATE_SUCCESS (MmAllocatePhysFrame Addr 1) k = Ok () (with_ram m' k) /\
    pmm_rel FS iv ip bv bp nb max ({[Addr / FS]} ∪ S) (with_ram m' k) /\
    only_bitmap bp nb (ram k) m'.
Proof.
  intros L Hrel HA Hf Hn.
  destruct (MmAllocatePhysFrame_ok FS iv ip bv bp nb max L S Addr 1 k Hrel ltac:(lia) ltac:(lia))
    as (m' & E & Hrel' & Ho).
  unfold spec_allocate in E, Hrel'. rewrite (proj2 (Z.ltb_ge _ _)) in E, Hrel' by lia.
  simpl Z.eqb in E, Hrel'. rewrite !decide_False in E, Hrel' by done.
  cbn [fst snd] in E, Hrel'. exists m'. split; [exact (VALIDATE_SUCCESS_ok _ k _ E)|done].
Qed.

(** The memory the setup is given: the frame size, where the allocation info,
    the area for the bitmap and the heap are, and which ranges there are. *)
Variables (FS iv ip rv rp count info cp Area bp hp : Z) (k : kernel).

Definition last_end : Z := max_end (ram k) rp (Z.to_nat count).
Definition bitmap_size : Z := last_end / (8 * FS).
Definition bitmap_virt : Z := KERN_PHYS_TO_VIRT (Area + FS).
Definition heap_addr : Z := Area + bitmap_size + FS.

Record boot_memory : Prop := mkBootMemory {
  bm_ram : ram_ok (ram k);
  bm_create : window info cp 32;
  bm_create_info : rdn 8 (ram k) (cp + 16) = iv;
  bm_create_area : rdn 8 (ram k) (cp + 24) = Area;
  bm_info : window iv ip 40;
  bm_info_fs : rdn 8 (ram k) (ip + 16) = FS;
  bm_info_count : rdn 8 (ram k) (ip + 24) = count;
  bm_info_ranges : rdn 8 (ram k) (ip + 32) = rv;
  bm_ranges : window rv rp (40 * count);
  bm_fs : 0 < FS /\ kernel_start mod FS = 0;
  (** The bitmap, through both mappings. *)
  bm_bitmap_low : window (Area + FS) bp (round4 bitmap_size);
  bm_bitmap_high : window bitmap_virt bp bitmap_size;
  (** The heap, likewise. *)
  bm_heap_low : window heap_addr hp (round4 HeapSize);
  bm_heap_high : heap_area (KERN_PHYS_TO_VIRT heap_addr) hp HeapSize;
  bm_heap_fits : root_area (KERN_PHYS_TO_VIRT heap_addr) HeapSize < 2 ^ 64;
  (** They are apart, and memory reaches past the heap. *)
  bm_info_apart : ip + 40 <= bp;
  bm_heap_apart : bp + bitmap_size <= hp;
  bm_end : heap_addr + HeapSize <= 8 * bitmap_size * FS /\ last_end + FS < 2 ^ 63;
}.

(** The frames the setup marks: from the kernel to the (unshifted) end of
    the bitmap, and the heap's, but only those below the address [HeapSize]. *)
Definition kernel_frames : gset Z :=
  frames (kernel_start / FS) ((Area + bitmap_size + FS - 1) / FS).
Definition heap_frames : gset Z :=
  frames (heap_addr / FS) (heap_addr / FS + (HeapSize - heap_addr + FS - 1) / FS).

Hypothesis B : boot_memory.

Lemma boot_facts :
  0 <= Area /\ 0 <= last_end /\ 1 <= bitmap_size /\ 8 * bitmap_size * FS <= last_end /\
  heap_addr + HeapSize <= last_end.
Proof.
  destruct B. assert (0 <= Area) by (rewrite <- bm_create_area0; by apply rdn8_bound).
  assert (0 <= last_end) as Hle.
  { unfold last_end. generalize (Z.to_nat count). intros n. induction n; simpl; lia. }
  assert (8 * bitmap_size * FS <= last_end).
  { unfold bitmap_size. pose proof (Z.mul_div_le last_end (8 * FS) ltac:(lia)). lia. }
  assert (0 <= bitmap_size) by (apply Z.div_pos; lia).
  unfold HeapSize in *. assert (1 <= bitmap_size) by (unfold heap_addr in *; nia). lia.
Qed.

Lemma boot_layout : pmm_layout FS iv ip bitmap_virt bp bitmap_size.
Proof.
  pose proof boot_facts. destruct B. constructor; try done; [|by left].
  split; [lia|]. nia.
Qed.

(** The first loop. *)
Lemma take_kernel k1 :
  pmm_rel FS iv ip bitmap_virt bp bitmap_size last_end ∅ k1 ->
  exists i m', for_lt 64 (Area + bitmap_size) FS (fun Index =>
      VALIDATE_SUCCESS (MmAllocatePhysFrame Index 1)) kernel_start k1 = Ok i (with_ram m' k1) /\
    pmm_rel FS iv ip bitmap_virt bp bitmap_size last_end kernel_frames (with_ram m' k1) /\
    only_bitmap bp bitmap_size (ram k1) m'.
Proof.
  intros Hrel. pose proof boot_facts as (HA & Hle & Hbs & Hfit & Hend). pose proof boot_layout as L.
  pose proof B as [_ _ _ _ _ _ _ _ _ [Hf Hk0] _ _ _ _ _ _ _ [Hend2 Hend3]].
  unfold heap_addr, HeapSize in Hend, Hend2.
  destruct (for_lt_total 64 (Area + bitmap_size) FS
    (fun Index => VALIDATE_SUCCESS (MmAllocatePhysFrame Index 1))
    (fun i k' => i mod FS = 0 /\ exists m', k' = with_ram m' k1 /\
       pmm_rel FS iv ip bitmap_virt bp bitmap_size last_end (frames (kernel_start / FS) (i / FS)) k'
       /\ only_bitmap bp bitmap_size (ram k1) m') kernel_start k1)
    as (i & k' & E & (Hi & m' & -> & Hr & Ho) & Hlo & Hhi & Hor); try (unfold kernel_start; lia).
  - intros i k2 Hi (Hmod & m & -> & Hr & Ho).
    assert (0 <= i) by (unfold kernel_start in *; lia).
    pose proof (Z.div_mod i FS ltac:(lia)) as Edm. rewrite Hmod in Edm.
    destruct (take_frame FS iv ip bitmap_virt bp bitmap_size last_end _ i _ L Hr)
      as (m2 & E2 & Hr2 & Ho2).
    + lia.
    + apply Z.div_lt_upper_bound; lia.
    + rewrite elem_of_frames. lia.
    + rewrite with_ram_with_ram in E2, Hr2. eexists. split; [exact E2|].
      split; [by rewrite Z.add_mod, Hmod, Z.mod_same by lia|].
      exists m2. split; [done|].
      assert ((i + FS) / FS = i / FS + 1) as -> by (rewrite <- (Z.mul_1_l FS) at 1; apply Z.div_add; lia).
      rewrite <- frames_snoc; [|apply Z.div_le_mono; lia]. split; [done|].
      intros q Hq. rewrite Ho2, ram_with_ram by done. by apply Ho.
  - split; [done|]. exists (ram k1). rewrite with_ram_id, frames_empty by lia.
    split; [done|]. split; [done|]. by intros q _.
  - exists i, m'. split; [done|]. split; [|done]. unfold kernel_frames.
    pose proof (Z.div_mod i FS ltac:(lia)) as Edm. rewrite Hi in Edm.
    destruct Hor as [->|Hor].
    + rewrite frames_empty in Hr by lia. rewrite frames_empty; [done|].
      apply Z.lt_succ_r, Z.div_lt_upper_bound; lia.
    + assert ((Area + bitmap_size + FS - 1) / FS = i / FS) as ->; [|done].
      symmetry. apply (Z.div_unique _ _ _ (Area + bitmap_size + FS - 1 - i)); lia.
Qed.

(** The second loop. *)
Lemma take_heap_ok S k1 :
  pmm_rel FS iv ip bitmap_virt bp bitmap_size last_end S k1 ->
  (forall f, f ∈ S -> f < heap_addr / FS) ->
  exists m', take_heap heap_addr k1 = Ok () (with_ram m' k1) /\
    pmm_rel FS iv ip bitmap_virt bp bitmap_size last_end (S ∪ heap_frames) (with_ram m' k1) /\
    only_bitmap bp bitmap_size (ram k1) m'.
Proof.
  intros Hrel HS. pose proof boot_facts as (HA & Hle & Hbs & Hfit & Hend). pose proof boot_layout as L.
  pose proof B as [_ _ _ _ _ _ _ _ _ [Hf _] _ _ _ _ _ _ _ [Hend2 Hend3]].
  assert (0 < heap_addr) by (unfold heap_addr; lia).
  set (h := heap_addr / FS) in *. unfold take_heap.
  match goal with |- context [cloop ?b] => set (body := b) end.
  destruct (cloop_total (fun a k' => (exists i, 0 <= i /\ a = heap_addr + i * FS /\
        (i = 0 \/ a < HeapSize + FS) /\ exists m', k' = with_ram m' k1 /\
        pmm_rel FS iv ip bitmap_virt bp bitmap_size last_end (S ∪ frames h (h + i)) k' /\
        only_bitmap bp bitmap_size (ram k1) m'))
    (fun _ k' => exists m', k' = with_ram m' k1 /\
        pmm_rel FS iv ip bitmap_virt bp bitmap_size last_end (S ∪ heap_frames) k' /\
        only_bitmap bp bitmap_size (ram k1) m')
    (fun a => Z.max 0 (HeapSize - a)) body) with (s := heap_addr) (k := k1)
    as ([] & k' & E & m' & -> & ? & ?); [| |unfold FUEL, HeapSize; lia|by exists m'].
  - intros a k2 (i & Hi & -> & Hor & m & -> & Hr & Ho). unfold body.
    assert ((heap_addr + i * FS) / FS = h + i) as Ediv by (apply Z.div_add; lia).
    destruct (Z.ltb_spec (heap_addr + i * FS) HeapSize) as [Hlt|Hge].
    + destruct (take_frame FS iv ip bitmap_virt bp bitmap_size last_end _ (heap_addr + i * FS) _ L Hr)
        as (m2 & E2 & Hr2 & Ho2).
      * nia.
      * apply Z.div_lt_upper_bound; lia.
      * rewrite Ediv, elem_of_union, elem_of_frames. intros [Hin|Hin]; [|lia].
        apply HS in Hin. lia.
      * kstep E2. kstep (get_FrameSize_ok _ _ _ _ _ _ _ L _ (proj1 Hr2)).
        eexists (inl _), _. split; [reflexivity|]. rewrite u_small by (unfold HeapSize in *; nia).
        split; [|lia]. exists (i + 1). split; [lia|]. split; [lia|]. split; [lia|].
        exists m2. rewrite with_ram_with_ram in *. split; [done|].
        rewrite Ediv in Hr2. rewrite Z.add_assoc, <- frames_snoc by lia.
        replace (S ∪ ({[h + i]} ∪ frames h (h + i))) with ({[h + i]} ∪ (S ∪ frames h (h + i))) by set_solver.
        split; [done|]. intros q Hq. rewrite Ho2, ram_with_ram by done. by apply Ho.
    + exists (inr ()), (with_ram m k1). split; [done|]. exists m. split; [done|]. split; [|done].
      unfold heap_frames. fold h. destruct Hor as [->|Hor].
      * rewrite frames_empty in Hr by lia. rewrite frames_empty; [done|].
        assert ((HeapSize - heap_addr + FS - 1) / FS <= 0); [|lia].
        apply Z.lt_succ_r, Z.div_lt_upper_bound; lia.
      * assert ((HeapSize - heap_addr + FS - 1) / FS = i) as ->; [|done].
        symmetry. apply (Z.div_unique _ _ _ (HeapSize - heap_addr + FS - 1 - i * FS)); nia.
  - exists 0. split; [lia|]. split; [lia|]. split; [by left|]. exists (ram k1).
    rewrite with_ram_id, frames_empty, union_empty_r_L by lia.
    split; [done|]. split; [done|]. by intros q _.
Qed.

(** Steps that leave the bitmap and the manager's state alone. *)
Lemma pmm_rel_other S k1 k2 :
  pmm_rel FS iv ip bitmap_virt bp bitmap_size last_end S k1 ->
  mms k2 = mms k1 -> ram_ok (ram k2) ->
  (forall q, q < hp -> rb (ram k2) q = rb (ram k1) q) ->
  pmm_rel FS iv ip bitmap_virt bp bitmap_size last_end S k2.
Proof.
  intros [[E1 E2 E3 E4 E5] HS] Em Hok Hf. pose proof boot_facts. destruct B.
  split; [constructor; rewrite ?Em; try done|].
  - rewrite <- E4. apply rdn_ext. intros q Hq. apply Hf. lia.
  - intros f. rewrite HS. split; intros [Hr Hu]; (split; [done|]); revert Hu; unfold used;
      rewrite Hf by dlia; done.
Qed.

Lemma heap_ready_other va area k1 k2 :
  heap_ready va hp area k1 -> heap k2 = heap k1 ->
  (forall q, hp <= q -> rb (ram k2) q = rb (ram k1) q) -> heap_ready va hp area k2.
Proof.
  intros [] Eh Hf. constructor; rewrite ?Eh; try done;
    match goal with H : rdn _ (ram k1) ?p = _ |- rdn _ _ ?p = _ => rewrite <- H end;
    apply rdn_ext; intros; apply Hf; lia.
Qed.

(** The state after the bitmap is cleared. *)
Definition cleared : kernel :=
  with_mms (mkMmState iv bitmap_virt last_end) (with_ram (fill (ram k) bp (round4 bitmap_size) 0) k).

Lemma pmm_rel_cleared : pmm_rel FS iv ip bitmap_virt bp bitmap_size last_end ∅ cleared.
Proof.
  pose proof boot_facts as (HA & Hle & Hbs & _). pose proof (round4_bounds bitmap_size ltac:(lia)).
  assert (ram cleared = fill (ram k) bp (round4 bitmap_size) 0) as Er by (unfold cleared; by destruct k).
  assert (mms cleared = mkMmState iv bitmap_virt last_end) as Em by (unfold cleared; by destruct k).
  destruct B. split; [constructor; rewrite ?Em; try done|].
  - rewrite Er, rdn_fill_out by lia. done.
  - rewrite Er. by apply ram_ok_fill.
  - intros f. split; [set_solver|]. intros [Hf Hu]. exfalso. revert Hu. unfold used.
    rewrite Er, rb_fill by lia. destruct (_ && _) eqn:E; [by rewrite Z.bits_0|].
    apply andb_false_iff in E as [E%Z.leb_gt|E%Z.ltb_ge]; dlia.
Qed.

(** The memory the manager takes for itself. *)
Definition manager_area (q : Z) : Prop :=
  bp <= q < bp + round4 bitmap_size \/ hp <= q < hp + round4 HeapSize.

Lemma KiInitializeMemMgr_ok :
  exists k', KiInitializeMemMgr info k = Ok STATUS_SUCCESS k' /\
    pmm_rel FS iv ip bitmap_virt bp bitmap_size last_end (kernel_frames ∪ heap_frames) k' /\
    heap_ready (KERN_PHYS_TO_VIRT heap_addr) hp
      (root_area (KERN_PHYS_TO_VIRT heap_addr) HeapSize) k' /\
    k' = with_heap (heap k') (with_mms (mms k') (with_ram (ram k') k)) /\
    forall q, ~ manager_area q -> rb (ram k') q = rb (ram k) q.
Proof.
  pose proof boot_facts as (HA & Hle & Hbs & Hfit & Hend). pose proof pmm_rel_cleared as Hc.
  pose proof B as [Hok Wc Eci Eca Wi Efs Ecnt Erng Wr [Hf Hk0] Wl _ Whl Wha Hroot Hia Hha [Hend2 Hend3]].
  assert (heap_addr < 2 ^ 63) by (unfold HeapSize in *; lia).
  unfold KiInitializeMemMgr, load64, upd_mms. unfold heap_addr in *.
  kstep (loadn_at 8 info cp 32 (info + MmCreateInfo_pPhysicalAllocationInfo) 16 k Wc eq_refl
    ltac:(lia) ltac:(lia)). rewrite Eci.
  kmodify. set (k1 := with_mms (set_pAllocInfo iv (mms k)) k).
  assert (ram k1 = ram k) as Er1 by (subst k1; by destruct k).
  kstep (max_range_end_ok iv ip rv rp count k1 ltac:(subst k1; by destruct k) Wi Wr
    ltac:(by rewrite Er1) ltac:(by rewrite Er1) ltac:(by rewrite Er1)).
  rewrite Er1. fold last_end.
  kmodify. set (k2 := with_mms (set_MaxPAddr last_end (mms k1)) k1).
  assert (ram k2 = ram k) as Er2 by (subst k2; by destruct k).
  kstep (loadn_at 8 info cp 32 (info + MmCreateInfo_SafePMMArea) 24 k2 Wc eq_refl
    ltac:(lia) ltac:(lia)). rewrite Er2, Eca.
  kstep (loadn_at 8 info cp 32 (info + MmCreateInfo_pPhysicalAllocationInfo) 16 k2 Wc eq_refl
    ltac:(lia) ltac:(lia)). rewrite Er2, Eci.
  kstep (loadn_at 8 iv ip 40 (iv + MmPhysicalAllocationInfo_FrameSize) 16 k2 Wi eq_refl
    ltac:(lia) ltac:(lia)). rewrite Er2, Efs.
  rewrite (u_small 64 (8 * FS)) by nia. kstep (udiv_ok last_end (8 * FS) k2 ltac:(lia)).
  fold bitmap_size. rewrite (u_small 64 (Area + FS)), (u_small 64 (Area + bitmap_size)) by lia.
  kstep (KiSetMemoryBytes_ok (Area + FS) 0 bitmap_size bp k2 ltac:(lia) ltac:(lia) Wl).
  kmodify. replace (with_mms _ (with_ram _ k2)) with cleared
    by (unfold cleared, bitmap_virt; subst k2 k1; by destruct k).
  destruct (take_kernel cleared Hc) as (i & m & E & Hr & Ho). kstep E.
  set (k3 := with_ram m cleared) in *.
  rewrite (u_small 64 (Area + bitmap_size + FS)) by lia. fold heap_addr in *.
  destruct (MmCreateAllocatorState_ready (KERN_PHYS_TO_VIRT heap_addr) hp HeapSize Wha heap_addr HeapSize
    k3 eq_refl Whl ltac:(unfold HeapSize; lia) Hroot) as (k4 & E4 & Ek4 & Hh & Hok4 & Hf4). kstep E4.
  assert (pmm_rel FS iv ip bitmap_virt bp bitmap_size last_end kernel_frames k4) as Hr4.
  { apply (pmm_rel_other _ k3); [done| |apply Hok4, (po_ram _ _ _ _ _ _ (proj1 Hr))|].
    - rewrite Ek4. by destruct k3.
    - intros q Hq. apply Hf4. lia. }
  destruct (take_heap_ok kernel_frames k4 Hr4) as (m5 & E5 & Hr5 & Ho5).
  { intros f. unfold kernel_frames. rewrite elem_of_frames. intros [_ Hlt].
    apply (Z.lt_le_trans _ _ _ Hlt). apply Z.div_le_mono; [lia|]. unfold heap_addr. lia. }
  kstep E5. exists (with_ram m5 k4). split; [done|]. split; [done|]. split; [|split].
  - apply (heap_ready_other _ _ k4); [done|by destruct k4|].
    intros q Hq. rewrite ram_with_ram. apply Ho5. lia.
  - rewrite Ek4. generalize (ram k4). intros r4. unfold k3, cleared. clear. by destruct k.
  - unfold manager_area. intros q Hq. pose proof (round4_bounds bitmap_size ltac:(lia)).
    rewrite ram_with_ram, Ho5, Hf4 by lia. unfold k3. rewrite ram_with_ram, Ho by lia.
    replace (ram cleared) with (fill (ram k) bp (round4 bitmap_size) 0) by (unfold cleared; by destruct k).
    rewrite rb_fill by lia. bdestr; simpl; lia || done.
Qed.

(** C28: [KiInitializeMemMgr] succeeds on any memory that holds what it is
    given: it leaves an empty heap after the bitmap and a bitmap in which
    exactly the frames from the start of the kernel to [SafePMMArea] plus the
    size of the bitmap are in use, and of the heap's frames those below the
    address 8 MiB. *)
Theorem KiInitializeMemMgr_spec :
  exists k', KiInitializeMemMgr info k = Ok STATUS_SUCCESS k' /\
    pmm_rel FS iv ip bitmap_virt bp bitmap_size last_end (kernel_frames ∪ heap_frames) k' /\
    heap_ready (KERN_PHYS_TO_VIRT heap_addr) hp
      (root_area (KERN_PHYS_TO_VIRT heap_addr) HeapSize) k'.
Proof. destruct KiInitializeMemMgr_ok as (k' & ? & ? & ? & _ & _). by exists k'. Qed.

(** after [KiInitializeMemMgr] the manager offers memory that is not
    free: the first frame [MmLookupFreePhysFrame] finds is the one at address
    0, and [MmLookupPhysFrame] reports every frame of the heap at or above
    8 MiB as not in use. *)
Theorem KiInitializeMemMgr_gaps :
  exists k', KiInitializeMemMgr info k = Ok STATUS_SUCCESS k' /\
    MmLookupFreePhysFrame k' = Ok (STATUS_SUCCESS, 0) k' /\
    forall Location s, HeapSize <= Location -> heap_addr <= Location < heap_addr + HeapSize ->
      Location mod FS = 0 -> MmLookupPhysFrame Location s k' = Ok (STATUS_SUCCESS, 0) k'.
Proof.
  destruct KiInitializeMemMgr_ok as (k' & E & Hrel & _ & _ & _). exists k'. split; [done|].
  pose proof boot_facts as (HA & Hle & Hbs & Hfit & Hend). pose proof boot_layout as L.
  pose proof B as [_ _ _ _ _ _ _ _ _ [Hf Hk0] _ _ _ _ _ _ _ [Hend2 Hend3]].
  pose proof (Z.div_mod kernel_start FS ltac:(lia)) as Ek. rewrite Hk0 in Ek.
  assert (1 <= kernel_start / FS) by (unfold kernel_start in *; nia).
  assert (0 <= heap_addr / FS) by (unfold heap_addr; apply Z.div_pos; lia).
  assert (1 <= heap_addr / FS) by (unfold heap_addr; apply Z.div_le_lower_bound; lia).
  destruct (id L) as [_ _ Wb _]. split.
  - rewrite (MmLookupFreePhysFrame_ok _ _ _ _ _ _ _ L bitmap_size 0 k' (proj1 Hrel) Wb).
    + done.
    + lia.
    + rewrite Z.div_0_l by lia. unfold HeapSize, heap_addr in *. lia.
    + apply not_true_iff_false. intros Hu. assert (0 ∈ kernel_frames ∪ heap_frames) as Hin0.
      { apply Hrel. split; [lia|done]. }
      revert Hin0. unfold kernel_frames, heap_frames. rewrite elem_of_union, !elem_of_frames. lia.
    + lia.
  - intros Location s Hge Hin Hmod.
    pose proof (Z.div_mod Location FS ltac:(lia)) as El. rewrite Hmod in El.
    assert (Location / FS < 8 * bitmap_size) by (apply Z.div_lt_upper_bound; lia).
    rewrite (MmLookupPhysFrame_ok _ _ _ _ _ _ _ L _ Location s k' Hrel) by lia.
    rewrite (proj2 (Z.ltb_ge _ _)) by lia. do 3 f_equal.
    rewrite bool_decide_eq_false_2; [done|]. unfold kernel_frames, heap_frames.
    rewrite elem_of_union, !elem_of_frames. intros [[_ Hlt]|[_ Hlt]].
    + assert ((Area + bitmap_size + FS - 1) / FS <= Location / FS); [|lia].
      apply Z.div_le_mono; unfold heap_addr in *; lia.
    + pose proof (Z.mul_div_le heap_addr FS ltac:(lia)).
      assert ((HeapSize - heap_addr + FS - 1) / FS < Location / FS - heap_addr / FS + 1); [|lia].
      apply Z.div_lt_upper_bound; nia.
Qed.

End Init.

(** ** Witnesses: 64 MiB of memory, the bitmap at 3 MiB *)

Definition no_stop : StopError := fun _ => skip.

Definition pmm_memory : gmap Z Z :=
  let m := write_bytes ∅ 0x1010 (le_bytes 8 0x2000 ++ le_bytes 8 0x300000) in
  let m := write_bytes m 0x2010 (le_bytes 8 4096 ++ le_bytes 8 1 ++ le_bytes 8 0x3000) in
  write_bytes m 0x3010 (le_bytes 8 0 ++ le_bytes 8 0x4000000 ++ le_bytes 8 0x4000000).

Definition pmm_kernel : kernel := with_ram pmm_memory kernel0.

Lemma pmm_boot_memory :
  boot_memory (AS := boot_space) 4096 0x2000 0x2000 0x3000 0x3000 1 0x1000 0x1000 0x300000
    0x301000 0x301800 pmm_kernel.
Proof.
  assert (bitmap_size 4096 0x3000 1 pmm_kernel = 2048) as Eb by reflexivity.
  assert (heap_addr 4096 0x3000 1 0x300000 pmm_kernel = 0x301800) as Eh by reflexivity.
  constructor; rewrite ?Eb, ?Eh; try reflexivity;
    try (apply boot_window_low; vm_compute; congruence);
    try (apply boot_window_virt; vm_compute; congruence).
  - unfold pmm_kernel, pmm_memory. rewrite ram_with_ram. cbv zeta.
    do 3 (apply ram_ok_write; [|repeat apply Forall_app_2; apply le_bytes_byte]).
    apply ram_ok_empty.
  - split; [lia|reflexivity].
  - constructor; [vm_compute; split; congruence|vm_compute; congruence|].
    apply boot_window_virt; vm_compute; congruence.
  - vm_compute. congruence.
  - vm_compute. split; congruence.
Qed.

Lemma KiInitializeMemMgr_spec_witness :
  exists k', KiInitializeMemMgr (AS := boot_space) (ST := no_stop) 0x1000 pmm_kernel =
    Ok STATUS_SUCCESS k'.
Proof.
  destruct (KiInitializeMemMgr_spec (AS := boot_space) (ST := no_stop) _ _ _ _ _ _ _ _ _ _ _ _
    pmm_boot_memory) as (k' & E & _).
  exists k'. exact E.
Defined.

Lemma KiInitializeMemMgr_gaps_witness :
  exists k', KiInitializeMemMgr (AS := boot_space) (ST := no_stop) 0x1000 pmm_kernel =
      Ok STATUS_SUCCESS k' /\
    MmLookupFreePhysFrame (AS := boot_space) k' = Ok (STATUS_SUCCESS, 0) k' /\
    MmLookupPhysFrame (AS := boot_space) 0x800000 7 k' = Ok (STATUS_SUCCESS, 0) k'.
Proof.
  destruct (KiInitializeMemMgr_gaps (AS := boot_space) (ST := no_stop) _ _ _ _ _ _ _ _ _ _ _ _
    pmm_boot_memory) as (k' & E & Ef & Hl).
  exists k'. split; [exact E|]. split; [exact Ef|].
  apply Hl; [vm_compute; congruence|vm_compute; split; congruence|reflexivity].
Defined.

(** A manager of sixteen frames, the first eight of them in use. *)
Definition small_memory : gmap Z Z :=
  write_bytes (write_bytes ∅ 0x2010 (le_bytes 8 4096)) 0x5000 [255; 0; 0].
Definition small_kernel : kernel :=
  with_mms (mkMmState 0x2000 0x5000 0x10000) (with_ram small_memory kernel0).

Lemma small_layout : pmm_layout (AS := boot_space) 4096 0x2000 0x2000 0x5000 0x5000 2.
Proof.
  constructor; [lia| | |lia]; apply boot_window_low; lia.
Qed.

Lemma small_sized : pmm_sized 4096 2 0x10000.
Proof. constructor; lia. Qed.

Lemma small_rel : pmm_rel 4096 0x2000 0x2000 0x5000 0x5000 2 0x10000 (frames 0 8) small_kernel.
Proof.
  split; [constructor; try reflexivity|].
  - change (ram small_kernel) with small_memory. unfold small_memory.
    do 2 (apply ram_ok_write; [|first [apply le_bytes_byte|repeat constructor; unfold byte; lia]]).
    apply ram_ok_empty.
  - intros f. rewrite elem_of_frames. split.
    + intros Hf. split; [lia|].
      assert (f ∈ seqZ 0 8) as Hin by (apply elem_of_seqZ; lia).
      repeat (apply elem_of_cons in Hin as [->|Hin]; [reflexivity|]). by apply elem_of_nil in Hin.
    + intros [Hf Hu]. destruct (decide (f < 8)); [lia|]. exfalso.
      assert (f ∈ seqZ 8 8) as Hin by (apply elem_of_seqZ; lia).
      repeat (apply elem_of_cons in Hin as [->|Hin]; [vm_compute in Hu; congruence|]).
      by apply elem_of_nil in Hin.
Qed.

Lemma MmAllocatePhysFrame_refines_witness :
  exists m', MmAllocatePhysFrame (AS := boot_space) 0x1000 1 small_kernel =
    Ok STATUS_MEMORY_ACCESS_VIOLATION (with_ram m' small_kernel).
Proof.
  destruct (MmAllocatePhysFrame_refines (AS := boot_space) _ _ _ _ _ _ _ small_layout
    (frames 0 8) 0x1000 1 small_kernel small_rel ltac:(lia) ltac:(left; reflexivity)) as (m' & E & _).
  exists m'. exact E.
Defined.

Lemma MmLookupPhysFrame_refines_witness :
  MmLookupPhysFrame (AS := boot_space) 0x8000 5 small_kernel = Ok (STATUS_SUCCESS, 0) small_kernel.
Proof.
  exact (MmLookupPhysFrame_refines (AS := boot_space) _ _ _ _ _ _ _ small_layout
    (frames 0 8) 0x8000 5 small_kernel small_rel ltac:(lia) ltac:(left; reflexivity)).
Defined.

Lemma grab_distinct_witness :
  exists fs m', grab (AS := boot_space) 8 small_kernel =
      Ok (map (fun f => f * 4096) fs) (with_ram m' small_kernel) /\ NoDup fs.
Proof.
  destruct (grab_distinct (AS := boot_space) _ _ _ _ _ _ _ small_layout small_sized
    (frames 0 8) 8 small_kernel small_rel ltac:(vm_compute; lia)) as (fs & m' & E & _ & Hnd & _).
  exists fs, m'. split; [exact E|exact Hnd].
Defined.

(** All sixteen frames in use. *)
Definition full_memory : gmap Z Z :=
  write_bytes (write_bytes ∅ 0x2010 (le_bytes 8 4096)) 0x5000 [255; 255; 0].
Definition full_kernel : kernel :=
  with_mms (mkMmState 0x2000 0x5000 0x10000) (with_ram full_memory kernel0).

Lemma MmLookupFreePhysFrame_past_end_witness :
  MmLookupFreePhysFrame (AS := boot_space) full_kernel = Ok (STATUS_SUCCESS, 0x10000) full_kernel.
Proof.
  destruct (MmLookupFreePhysFrame_past_end (AS := boot_space) 4096 0x2000 0x2000 0x5000 0x5000 2 0x10000
    small_layout small_sized full_kernel) as [E _].
  - constructor; try reflexivity. change (ram full_kernel) with full_memory. unfold full_memory.
    do 2 (apply ram_ok_write; [|first [apply le_bytes_byte|repeat constructor; unfold byte; lia]]).
    apply ram_ok_empty.
  - apply boot_window_low; lia.
  - lia.
  - reflexivity.
  - intros f Hf. assert (f ∈ seqZ 0 16) as Hin by (apply elem_of_seqZ; lia).
    repeat (apply elem_of_cons in Hin as [->|Hin]; [reflexivity|]). by apply elem_of_nil in Hin.
  - reflexivity.
  - exact E.
Defined.
