(* ===== verification/Paging.v ===== *)
(** * Page tables ([kern/arch/x86_64/mm/paging.c], [pageflags.h])

    Four levels of tables of 512 entries.  [x86MapAddress] is proved correct
    against an interface for the allocator of its table pages; the kernel's
    own [MmKernelMalloc] is shown not to be an instance of it. *)

From S2P Require Import Prelude Machine Status MemFuncs Heap Pmm.

Definition X86_PAGE_FLAG_PRESENT : Z := 1.
Definition X86_PAGE_FLAG_WRITABLE : Z := 2.
Definition X86_PAGE_HUGE : Z := 128.
Definition PAGE_ALIGN (x : Z) : Z := Z.land x 0xFFFFFFFFFFFFF000.

(** A [PageMapEntry] is one 64-bit word, [Raw]; [Present] is its bit 0,
    [Writable] its bit 1. *)
Definition sizeof_PageMapEntry : Z := 8.
Definition pme_Present (Raw : Z) : bool := Z.testbit Raw 0.

(** The array the caller passes is the second component. *)
Definition x86FindPageLevels (Address : Z) : FERALSTATUS * list Z :=
  (STATUS_SUCCESS,
   [Z.land (Z.shiftr Address 12) 0x1FF; Z.land (Z.shiftr Address 21) 0x1FF;
    Z.land (Z.shiftr Address 30) 0x1FF; Z.land (Z.shiftr Address 39) 0x1FF]).

(** The allocator the mapping code calls. *)
Class Allocator := kmalloc : Z -> K Z.

Section Paging.
Context `{AS : AddrSpace} `{AL : Allocator}.

(** [Table[Index].Raw] *)
Definition load_entry (Table Index : Z) : K Z := load64 (Table + sizeof_PageMapEntry * Index).
Definition store_entry (Table Index Raw : Z) : K () :=
  store64 (Table + sizeof_PageMapEntry * Index) Raw.

(** [Table[Index].Raw |= Address; .Present = TRUE; .Writable = TRUE] *)
Definition set_entry (Table Index Address : Z) : K () :=
  e ← load_entry Table Index; store_entry Table Index (Z.lor e Address) ;;
  e ← load_entry Table Index; store_entry Table Index (Z.lor e X86_PAGE_FLAG_PRESENT) ;;
  e ← load_entry Table Index; store_entry Table Index (Z.lor e X86_PAGE_FLAG_WRITABLE).

(** The block [x86MapAddress] repeats for the upper three levels: the table
    an entry points to, created if there is none. *)
Definition next_table (Table Index : Z) : K Z :=
  e ← load_entry Table Index;
  if pme_Present e then mret (PAGE_ALIGN e)
  else
    New ← kmalloc (sizeof_PageMapEntry * 512);
    KiSetMemoryBytes New 0 (sizeof_PageMapEntry * 512) ;;
    set_entry Table Index (PAGE_ALIGN (KERN_VIRT_TO_PHYS New)) ;;
    mret New.

Definition x86MapAddress (PML4 Physical Virtual : Z) : K FERALSTATUS :=
  let '(Err, PageLevels) := x86FindPageLevels Virtual in
  if negb (status_eqb Err STATUS_SUCCESS) then mret Err
  else
    PDP ← next_table PML4 (nth 3 PageLevels 0);
    PD ← next_table PDP (nth 2 PageLevels 0);
    PT ← next_table PD (nth 1 PageLevels 0);
    e ← load_entry PT (nth 0 PageLevels 0);
    if pme_Present e then mret STATUS_MEMORY_PAGE_FAILURE
    else
      set_entry PT (nth 0 PageLevels 0) (PAGE_ALIGN Physical) ;;
      mret STATUS_SUCCESS.

(** The block [x86UnmapAddress] repeats: an entry with one of the two flags
    is cleared ([inl]), else the next table is found through a present entry. *)
Definition unmap_level (Table Index : Z) : K (FERALSTATUS + Z) :=
  e ← load_entry Table Index;
  if negb (Z.land e (Z.lor X86_PAGE_FLAG_PRESENT X86_PAGE_HUGE) =? 0) then
    store_entry Table Index 0 ;; mret (inl STATUS_SUCCESS)
  else
    e ← load_entry Table Index;
    if negb (Z.land e X86_PAGE_FLAG_PRESENT =? 0) then
      e ← load_entry Table Index; mret (inr (KERN_PHYS_TO_VIRT (PAGE_ALIGN e)))
    else mret (inl STATUS_MEMORY_PAGE_FAILURE).

Definition x86UnmapAddress (PML4 Virtual : Z) : K FERALSTATUS :=
  let '(Err, PageLevels) := x86FindPageLevels Virtual in
  if negb (status_eqb Err STATUS_SUCCESS) then mret Err
  else
    r ← unmap_level PML4 (nth 3 PageLevels 0);
    match r with
    | inl s => mret s
    | inr PDP =>
        r ← unmap_level PDP (nth 2 PageLevels 0);
        match r with
        | inl s => mret s
        | inr PD =>
            r ← unmap_level PD (nth 1 PageLevels 0);
            match r with
            | inl s => mret s
            | inr PT =>
                e ← load_entry PT (nth 0 PageLevels 0);
                if negb (Z.land e (Z.lor X86_PAGE_FLAG_PRESENT X86_PAGE_HUGE) =? 0) then
                  store_entry PT (nth 0 PageLevels 0) 0 ;; mret STATUS_SUCCESS
                else
                  e ← load_entry PT (nth 0 PageLevels 0);
                  if negb (Z.land e X86_PAGE_FLAG_PRESENT =? 0) then
                    store_entry PT (nth 0 PageLevels 0) 0 ;; mret STATUS_SUCCESS
                  else mret STATUS_MEMORY_PAGE_FAILURE
            end
        end
    end.

(** [*Result] is passed in and handed back.  The last level is looked up in
    [PDP], as the code does. *)
Definition x86ValidateVirtualAddress (PML4 Address Result : Z) : K (FERALSTATUS * Z) :=
  if PML4 =? NULL then mret (STATUS_MEMORY_PAGE_FAILURE, Result)
  else
    let '(Err, PageLevels) := x86FindPageLevels Address in
    if negb (status_eqb Err STATUS_SUCCESS) then mret (Err, Result)
    else
      e ← load_entry PML4 (nth 3 PageLevels 0);
      if pme_Present e then
        e ← load_entry PML4 (nth 3 PageLevels 0);
        let PDP := PAGE_ALIGN e in
        e ← load_entry PDP (nth 2 PageLevels 0);
        if pme_Present e then
          e ← load_entry PDP (nth 2 PageLevels 0);
          let PD := PAGE_ALIGN e in
          e ← load_entry PD (nth 1 PageLevels 0);
          if pme_Present e then
            e ← load_entry PDP (nth 1 PageLevels 0);
            let PT := PAGE_ALIGN e in
            e ← load_entry PT (nth 0 PageLevels 0);
            mret (STATUS_SUCCESS, b2z (pme_Present e))
          else mret (STATUS_SUCCESS, 0)
        else mret (STATUS_SUCCESS, 0)
      else mret (STATUS_SUCCESS, 0).

Definition PageSize : Z := 4096.

(** The three loops of [MmKernelAllocPages]; [Some] is an early return. *)
Definition check_frames (Pages PAddr : Z) : K (option FERALSTATUS) :=
  cloop (fun PageIndex =>
    if PageIndex <? Pages then
      let Addr := u64 (PAddr + u64 (PageSize * PageIndex)) in
      '(Status, PageStatus) ← MmLookupPhysFrame Addr 0;
      if negb (PageStatus =? 0) || negb (status_eqb Status STATUS_SUCCESS)
      then mret (inr (Some STATUS_MEMORY_PAGE_CONFLICT))
      else mret (inl (u64 (PageIndex + 1)))
    else mret (inr None)) 0.

Definition check_virtual (PML4 Pages VAddr : Z) : K (option FERALSTATUS) :=
  cloop (fun PageIndex =>
    if PageIndex <? Pages then
      let Addr := u64 (VAddr + u64 (PageSize * PageIndex)) in
      '(_, Unavailable) ← x86ValidateVirtualAddress PML4 Addr 0;
      if Unavailable =? 1 then mret (inr (Some STATUS_MEMORY_PAGE_CONFLICT))
      else mret (inl (u64 (PageIndex + 1)))
    else mret (inr None)) 0.

Definition map_pages (PML4 Pages PAddr VAddr : Z) : K (option FERALSTATUS) :=
  cloop (fun PageIndex =>
    if PageIndex <? Pages then
      Status ← x86MapAddress PML4 PAddr VAddr;
      if negb (status_eqb Status STATUS_SUCCESS) then mret (inr (Some Status))
      else mret (inl (u64 (PageIndex + 1)))
    else mret (inr None)) 0.

(** [*Result] is the second component. *)
Definition MmKernelAllocPages (Pages Protection Usage PML4 BaseAddr BaseVAddr Result : Z)
    : K (FERALSTATUS * Z) :=
  let PAddr := if BaseAddr =? NULL then NULL else BaseAddr in
  let VAddr := if BaseVAddr =? NULL then KERN_PHYS_TO_VIRT PAddr else BaseVAddr in
  r ← check_frames Pages PAddr;
  match r with
  | Some s => mret (s, Result)
  | None =>
      r ← check_virtual PML4 Pages VAddr;
      match r with
      | Some s => mret (s, Result)
      | None =>
          r ← map_pages PML4 Pages PAddr VAddr;
          match r with
          | Some s => mret (s, Result)
          | None => mret (STATUS_SUCCESS, VAddr)
          end
      end
  end.

Definition MmKernelDeallocPages (Pages Address : Z) : K FERALSTATUS := mret STATUS_SUCCESS.

End Paging.

(** ** What the mapping code needs of the allocator *)

(** [al_pages ps k]: the next calls return the pages at the physical
    addresses [ps]; [al_priv] is the memory the allocator keeps for itself. *)
Class AllocatorLaws `{AS : AddrSpace} (AL : Allocator) := {
  al_pages : list Z -> kernel -> Prop;
  al_priv : Z -> Prop;
  al_call : forall p ps k, al_pages (p :: ps) k -> exists m',
    kmalloc 4096 k = Ok (KERN_PHYS_TO_VIRT p) (with_ram m' k) /\
    al_pages ps (with_ram m' k) /\
    (forall q, ~ al_priv q -> rb m' q = rb (ram k) q) /\
    (ram_ok (ram k) -> ram_ok m');
  al_page : forall p ps k, al_pages (p :: ps) k ->
    p mod 4096 = 0 /\ 0 <= p < 2 ^ 52 /\ (p ∉ ps) /\
    window p p 4096 /\ window (KERN_PHYS_TO_VIRT p) p 4096 /\
    forall q, p <= q < p + 4096 -> ~ al_priv q;
  al_frame : forall ps k m', al_pages ps k ->
    (forall q, al_priv q -> rb m' q = rb (ram k) q) -> al_pages ps (with_ram m' k);
}.

(** ** Table entries *)

Definition page_index (va : Z) (level : nat) : Z :=
  Z.land (Z.shiftr va (12 + 9 * Z.of_nat level)) 511.

(** The four indices as [x86FindPageLevels] computes them. *)
Ltac fold_indices va :=
  change (Z.land (Z.shiftr va 39) 0x1FF) with (page_index va 3);
  change (Z.land (Z.shiftr va 30) 0x1FF) with (page_index va 2);
  change (Z.land (Z.shiftr va 21) 0x1FF) with (page_index va 1);
  change (Z.land (Z.shiftr va 12) 0x1FF) with (page_index va 0).

Definition entry (m : gmap Z Z) (t i : Z) : Z := rdn 8 m (t + 8 * i).

(** The walk of the hardware: [n] levels to go from the table at [t]. *)
Fixpoint walk (m : gmap Z Z) (n : nat) (t va : Z) : option Z :=
  match n with
  | O => Some t
  | S n =>
      let e := entry m t (page_index va n) in
      if pme_Present e then walk m n (PAGE_ALIGN e) va else None
  end.

Lemma page_index_range va n : 0 <= page_index va n < 512.
Proof. unfold page_index. change 511 with (Z.ones 9). apply (land_mask_range _ 9). lia. Qed.

Lemma PAGE_ALIGN_bits x n :
  0 <= n -> Z.testbit (PAGE_ALIGN x) n = Z.testbit x n && (12 <=? n) && (n <? 64).
Proof.
  intros Hn. unfold PAGE_ALIGN.
  change 0xFFFFFFFFFFFFF000 with (Z.ldiff (Z.ones 64) (Z.ones 12)).
  rewrite Z.land_spec, Z.ldiff_spec. rewrite !Z.testbit_ones_nonneg by lia.
  bdestr; simpl; try lia; by destruct (Z.testbit x n).
Qed.

Lemma testbit_high x n w : 0 <= x < 2 ^ w -> 0 <= w <= n -> Z.testbit x n = false.
Proof.
  intros Hx Hn. rewrite <- (Z.mod_small x (2 ^ w)) by lia. by rewrite Z.mod_pow2_bits_high by lia.
Qed.

Lemma PAGE_ALIGN_eq x : 0 <= x < 2 ^ 64 -> PAGE_ALIGN x = 4096 * (x / 4096).
Proof.
  intros Hx. replace (4096 * (x / 4096)) with (Z.shiftl (Z.shiftr x 12) 12)
    by (rewrite Z.shiftr_div_pow2, Z.shiftl_mul_pow2 by lia; change (2 ^ 12) with 4096; lia).
  apply Z.bits_inj'. intros n Hn. rewrite PAGE_ALIGN_bits, Z.shiftl_spec by lia.
  destruct (Z.leb_spec 12 n).
  - rewrite Z.shiftr_spec by lia. replace (n - 12 + 12) with n by lia.
    destruct (Z.ltb_spec n 64); rewrite ?andb_true_r; [done|].
    by rewrite (testbit_high x n 64) by lia.
  - rewrite (Z.testbit_neg_r _ (n - 12)) by lia. by rewrite andb_false_r.
Qed.

Lemma PAGE_ALIGN_aligned x : 0 <= x < 2 ^ 64 -> PAGE_ALIGN x mod 4096 = 0 /\ 0 <= PAGE_ALIGN x < 2 ^ 64.
Proof. intros. rewrite PAGE_ALIGN_eq by done. dlia. Qed.

Lemma PAGE_ALIGN_id x : 0 <= x < 2 ^ 64 -> x mod 4096 = 0 -> PAGE_ALIGN x = x.
Proof. intros. rewrite PAGE_ALIGN_eq by done. dlia. Qed.

(** The entry the code builds from a cleared one. *)
Definition mapping_entry (a : Z) : Z :=
  Z.lor (Z.lor a X86_PAGE_FLAG_PRESENT) X86_PAGE_FLAG_WRITABLE.

Lemma mapping_entry_spec a :
  0 <= a < 2 ^ 64 -> a mod 4096 = 0 ->
  pme_Present (mapping_entry a) = true /\ PAGE_ALIGN (mapping_entry a) = a /\
  0 <= mapping_entry a < 2 ^ 64.
Proof.
  intros Ha Hm. unfold mapping_entry. split; [|split].
  - unfold pme_Present. rewrite !Z.lor_spec. simpl. by rewrite orb_true_r.
  - unfold PAGE_ALIGN. rewrite !Z.land_lor_distr_l. fold (PAGE_ALIGN a).
    rewrite PAGE_ALIGN_id by done. change (Z.land X86_PAGE_FLAG_PRESENT _) with 0.
    change (Z.land X86_PAGE_FLAG_WRITABLE _) with 0. by rewrite !Z.lor_0_r.
  - apply lor_bound; [lia| |done]. apply lor_bound; [lia|done|done].
Qed.

Lemma entry_range m t i : ram_ok m -> 0 <= entry m t i < 2 ^ 64.
Proof. intros. by apply (rdn_bound 8). Qed.

(** Writing one slot changes that entry and no other. *)
Lemma entry_wrn m t i v t' j :
  t mod 8 = 0 -> t' mod 8 = 0 -> 0 <= v < 2 ^ 64 ->
  entry (wrn 8 m (t + 8 * i) v) t' j =
    if t' + 8 * j =? t + 8 * i then v else entry m t' j.
Proof.
  intros Ht Ht' Hv. unfold entry. destruct (Z.eqb_spec (t' + 8 * j) (t + 8 * i)) as [->|Hne].
  - rewrite rdn_wrn_same. by apply Z.mod_small.
  - apply rdn_wrn_other. dlia.
Qed.

(** Entries of pages whose bytes did not change. *)
Lemma entry_frame m m' t i :
  (forall q, t <= q < t + 4096 -> rb m' q = rb m q) -> 0 <= i < 512 ->
  entry m' t i = entry m t i.
Proof. intros Hf Hi. apply rdn_ext. intros q Hq. apply Hf. lia. Qed.

Lemma wrn_over n m p v w : wrn n (wrn n m p v) p w = wrn n m p w.
Proof. apply write_bytes_over. by rewrite !length_le_bytes. Qed.

Section Entries.
Context `{AS : AddrSpace}.

Lemma load_entry_ok tv t i k :
  window tv t 4096 -> 0 <= i < 512 -> load_entry tv i k = Ok (entry (ram k) t i) k.
Proof.
  intros W Hi. apply (loadn_at 8 tv t 4096); [done| |lia|lia]. unfold sizeof_PageMapEntry. lia.
Qed.

Lemma store_entry_ok tv t i v k :
  window tv t 4096 -> 0 <= i < 512 ->
  store_entry tv i v k = Ok () (with_ram (wrn 8 (ram k) (t + 8 * i) v) k).
Proof.
  intros W Hi. apply (storen_at 8 tv t 4096); [done| |lia|lia]. unfold sizeof_PageMapEntry. lia.
Qed.

Lemma set_entry_ok tv t i a k :
  window tv t 4096 -> 0 <= i < 512 -> entry (ram k) t i = 0 -> 0 <= a < 2 ^ 64 ->
  set_entry tv i a k = Ok () (with_ram (wrn 8 (ram k) (t + 8 * i) (mapping_entry a)) k).
Proof.
  intros W Hi E0 Ha. unfold set_entry, mapping_entry.
  assert (forall x f, 0 <= x < 2 ^ 64 -> 0 <= f < 2 ^ 64 -> 0 <= Z.lor x f < 2 ^ 64) as Hlor.
  { intros. by apply lor_bound. }
  assert (forall m v, 0 <= v < 2 ^ 64 -> entry (wrn 8 m (t + 8 * i) v) t i = v) as Hsame.
  { intros. unfold entry. rewrite rdn_wrn_same. by apply Z.mod_small. }
  kstep (load_entry_ok tv t i k W Hi). rewrite E0, Z.lor_0_l.
  kstep (store_entry_ok tv t i a k W Hi).
  kstep (load_entry_ok tv t i (with_ram (wrn 8 (ram k) (t + 8 * i) a) k) W Hi).
  rewrite ram_with_ram, Hsame by done.
  match goal with |- context [mbind _ (store_entry tv i ?v) ?kk] => kstep (store_entry_ok tv t i v kk W Hi) end.
  rewrite ram_with_ram, with_ram_with_ram, wrn_over.
  match goal with |- context [mbind _ (load_entry tv i) ?kk] => kstep (load_entry_ok tv t i kk W Hi) end.
  rewrite ram_with_ram, Hsame by (apply Hlor; done).
  rewrite (store_entry_ok tv t i _ _ W Hi), ram_with_ram, with_ram_with_ram, wrn_over. done.
Qed.

End Entries.

(** ** Address spaces *)

Section Space.
Context {AS : AddrSpace} {AL : Allocator} {LAWS : AllocatorLaws AL}.

(** The top table, at physical address [pml4]. *)
Variable pml4 : Z.

(** [t] is a table of level [l] (4: the top one, 1: the last). *)
Inductive table (m : gmap Z Z) : nat -> Z -> Prop :=
| table_root : table m 4 pml4
| table_child l t i :
    table m (S (S l)) t -> 0 <= i < 512 -> pme_Present (entry m t i) = true ->
    table m (S l) (PAGE_ALIGN (entry m t i)).

(** A page that can be used as a table. *)
Record table_page (m : gmap Z Z) (t : Z) : Prop := mkTablePage {
  tp_aligned : t mod 4096 = 0;
  tp_mapped : window t t 4096;
  tp_private : forall q, t <= q < t + 4096 -> ~ al_priv q;
  tp_clean : forall i, 0 <= i < 512 -> pme_Present (entry m t i) = false -> entry m t i = 0;
}.

(** Tables lie in identity-mapped pages apart from the allocator's memory,
    their entries are either present or zero, and no page serves on two
    levels. *)
Record space_ok (m : gmap Z Z) : Prop := mkSpaceOk {
  so_ram : ram_ok m;
  so_page : forall l t, table m l t -> table_page m t;
  so_level : forall l l' t, table m l t -> table m l' t -> l = l';
}.

Definition fresh (m : gmap Z Z) (p : Z) : Prop := forall l, ~ table m l p.

(** Every table and every present entry is kept. *)
Definition kept (m m' : gmap Z Z) : Prop :=
  forall l t, table m l t -> table m' l t /\
    forall i, 0 <= i < 512 -> pme_Present (entry m t i) = true -> entry m' t i = entry m t i.

Lemma kept_refl m : kept m m.
Proof. intros l t Ht. auto. Qed.

Lemma kept_trans m1 m2 m3 : kept m1 m2 -> kept m2 m3 -> kept m1 m3.
Proof.
  intros H1 H2 l t Ht. destruct (H1 l t Ht) as [Ht2 He1]. destruct (H2 l t Ht2) as [Ht3 He2].
  split; [done|]. intros i Hi Hp. rewrite He2; [by apply He1|done|]. by rewrite He1.
Qed.

Lemma walk_kept m m' n t va pa :
  kept m m' -> (n = 0%nat \/ table m n t) -> walk m n t va = Some pa -> walk m' n t va = Some pa.
Proof.
  intros Hk. revert t. induction n as [|n IH]; intros t Ht Hw; [done|]. cbn [walk] in *.
  destruct Ht as [?|Ht]; [done|]. destruct (Hk _ _ Ht) as [_ He].
  destruct (pme_Present (entry m t (page_index va n))) eqn:Ep; [|done].
  rewrite He by (done || apply page_index_range). rewrite Ep. apply IH; [|done].
  destruct n as [|n]; [by left|right]. by apply table_child; [|apply page_index_range|].
Qed.

(** Filling an empty slot of a table of level [l0], when the target [p] is
    either not a table page of the space (and, above level 1, zeroed). *)
Section Fill.
Variables (m m' : gmap Z Z) (l0 : nat) (t0 i0 p : Z).
Hypothesis M : space_ok m.
Hypothesis M' : ram_ok m'.
Hypothesis T0 : table m (S l0) t0.
Hypothesis I0 : 0 <= i0 < 512.
Hypothesis E0 : pme_Present (entry m t0 i0) = false.
Hypothesis P0 : p mod 4096 = 0 /\ 0 <= p < 2 ^ 64.
Hypothesis NEW : entry m' t0 i0 = mapping_entry p.
Hypothesis OLD : forall l t i, table m l t -> 0 <= i < 512 -> t + 8 * i <> t0 + 8 * i0 ->
  entry m' t i = entry m t i.
Hypothesis ZERO : (0 < l0)%nat -> fresh m p /\ forall i, 0 <= i < 512 -> entry m' p i = 0.

Lemma same_slot l t i : table m l t -> 0 <= i < 512 -> t + 8 * i = t0 + 8 * i0 -> t = t0 /\ i = i0.
Proof using All.
  intros Ht Hi E. pose proof (tp_aligned _ _ (so_page _ M _ _ Ht)).
  pose proof (tp_aligned _ _ (so_page _ M _ _ T0)). dlia.
Qed.

Lemma fill_kept : kept m m'.
Proof using All.
  assert (forall l t i, table m l t -> 0 <= i < 512 -> pme_Present (entry m t i) = true ->
    entry m' t i = entry m t i) as Hkeep.
  { intros l t i Ht Hi Hp. apply (OLD l); [done|done|]. intros E.
    destruct (same_slot _ _ _ Ht Hi E) as [-> ->]. congruence. }
  intros l t Ht. split; [|intros; by apply (Hkeep l)].
  induction Ht as [|l t i Ht IH Hi Hp]; [constructor|].
  rewrite <- (Hkeep _ _ _ Ht Hi Hp). apply table_child; [done|done|].
  by rewrite (Hkeep _ _ _ Ht Hi Hp).
Qed.

(** The tables afterwards: the old ones, and [p] one level down. *)
Lemma fill_tables l t : table m' l t -> table m l t \/ (t = p /\ S l = S l0 /\ (0 < l0)%nat).
Proof using All.
  induction 1 as [|l t i Ht IH Hi Hp]; [left; constructor|].
  destruct IH as [IH|(-> & El & Hl)].
  - destruct (Z.eq_dec (t + 8 * i) (t0 + 8 * i0)) as [E|E].
    + destruct (same_slot _ _ _ IH Hi E) as [-> ->].
      pose proof (so_level _ M _ _ _ IH T0) as Elv. right. rewrite NEW.
      destruct (mapping_entry_spec p) as (_ & -> & _); [tauto|tauto|]. split; [done|lia].
    + rewrite (OLD _ _ _ IH Hi E) in *. left. by constructor.
  - exfalso. destruct (ZERO Hl) as [_ Hz]. rewrite Hz in Hp by done. done.
Qed.

Lemma fill_space : ((0 < l0)%nat -> table_page m' p) -> space_ok m'.
Proof using All.
  intros Hp. constructor; [done| |].
  - intros l t Ht. destruct (fill_tables _ _ Ht) as [Ho|(-> & _ & Hl)]; [|auto].
    destruct (so_page _ M _ _ Ho) as [H1 H2 H3 H4]. constructor; try done.
    intros i Hi Hn. destruct (Z.eq_dec (t + 8 * i) (t0 + 8 * i0)) as [E|E].
    + destruct (same_slot _ _ _ Ho Hi E) as [-> ->]. rewrite NEW in Hn.
      destruct (mapping_entry_spec p) as (Hm & _); [tauto|tauto|congruence].
    + rewrite (OLD _ _ _ Ho Hi E) in *. auto.
  - intros l l' t Ht Ht'. destruct (fill_tables _ _ Ht) as [Ho|(-> & El & Hl)];
      destruct (fill_tables _ _ Ht') as [Ho'|(Ep & El' & Hl')].
    + by apply (so_level _ M _ _ t).
    + subst t. destruct (ZERO Hl') as [Hf _]. by apply Hf in Ho.
    + destruct (ZERO Hl) as [Hf _]. by apply Hf in Ho'.
    + lia.
Qed.

Lemma fill_fresh q : fresh m q -> q <> p -> fresh m' q.
Proof using All. intros Hq Hn l Ht. apply fill_tables in Ht as [Ht|[? _]]; [by apply (Hq l)|done]. Qed.
End Fill.

(** The state the mapping code runs in: a good space and [n] fresh pages at
    the allocator. *)
Record can_map (n : nat) (ps : list Z) (k : kernel) : Prop := mkCanMap {
  cm_space : space_ok (ram k);
  cm_pages : al_pages ps k;
  cm_fresh : Forall (fresh (ram k)) ps;
  cm_count : (n <= length ps)%nat;
}.

Lemma two_pages p t : p mod 4096 = 0 -> t mod 4096 = 0 -> p <> t -> p + 4096 <= t \/ t + 4096 <= p.
Proof. intros. dlia. Qed.

(** What creating a table does to memory: the allocator's call, the cleared
    page [p] and the slot. *)
Definition new_table (m : gmap Z Z) (t i p : Z) : gmap Z Z :=
  wrn 8 (fill m p 4096 0) (t + 8 * i) (mapping_entry p).

Lemma cleared_entry m m1 l t i p :
  space_ok m -> (forall q, ~ al_priv q -> rb m1 q = rb m q) ->
  table m l t -> 0 <= i < 512 -> p mod 4096 = 0 -> fresh m p ->
  entry (fill m1 p 4096 0) t i = entry m t i.
Proof.
  intros M Hpriv Ht Hi Hp Hf. pose proof (so_page _ M _ _ Ht) as [Ha _ Hpr _].
  rewrite (entry_frame m1); [|intros q Hq|done].
  - apply entry_frame; [|done]. intros q Hq. apply Hpriv. by apply Hpr.
  - rewrite rb_fill by lia. assert (p <> t) as Hne by (intros ->; by apply (Hf l)).
    pose proof (two_pages p t Hp Ha Hne). bdestr; simpl; lia || done.
Qed.

Lemma new_table_entry m m1 l l0 t i t0 i0 p :
  space_ok m -> (forall q, ~ al_priv q -> rb m1 q = rb m q) ->
  table m l t -> table m l0 t0 -> 0 <= i < 512 -> 0 <= i0 < 512 ->
  p mod 4096 = 0 -> 0 <= p < 2 ^ 64 -> fresh m p ->
  entry (new_table m1 t0 i0 p) t i =
    if t + 8 * i =? t0 + 8 * i0 then mapping_entry p else entry m t i.
Proof.
  intros M Hpriv Ht Ht0 Hi Hi0 Hp Hp2 Hf.
  pose proof (so_page _ M _ _ Ht) as [Ha _ Hpr _]. pose proof (so_page _ M _ _ Ht0) as [Ha0 _ _ _].
  unfold new_table. rewrite entry_wrn; [|dlia|dlia|by apply mapping_entry_spec].
  destruct (_ =? _); [done|]. by apply (cleared_entry _ _ l).
Qed.

Lemma new_table_zero m l0 t0 i0 p i :
  space_ok m -> table m l0 t0 -> 0 <= i < 512 -> 0 <= i0 < 512 ->
  p mod 4096 = 0 -> 0 <= p < 2 ^ 64 -> fresh m p -> forall m1, entry (new_table m1 t0 i0 p) p i = 0.
Proof.
  intros M Ht0 Hi Hi0 Hp Hp2 Hf m1. pose proof (so_page _ M _ _ Ht0) as [Ha0 _ _ _].
  unfold new_table. rewrite entry_wrn; [|dlia|dlia|by apply mapping_entry_spec].
  assert (p <> t0) as Hne by (intros ->; by apply (Hf l0)). pose proof (two_pages p t0 Hp Ha0 Hne).
  rewrite (proj2 (Z.eqb_neq _ _)) by lia. apply rdn_fill_in; lia.
Qed.

(** [next_table] on an entry that is present: the table it points to. *)
Lemma next_table_present l tv t i k :
  window tv t 4096 -> 0 <= i < 512 -> space_ok (ram k) -> table (ram k) (S (S l)) t ->
  pme_Present (entry (ram k) t i) = true ->
  next_table tv i k = Ok (PAGE_ALIGN (entry (ram k) t i)) k /\
  table (ram k) (S l) (PAGE_ALIGN (entry (ram k) t i)) /\
  window (PAGE_ALIGN (entry (ram k) t i)) (PAGE_ALIGN (entry (ram k) t i)) 4096.
Proof.
  intros W Hi M Ht Hp. unfold next_table. kstep (load_entry_ok tv t i k W Hi). rewrite Hp.
  assert (table (ram k) (S l) (PAGE_ALIGN (entry (ram k) t i))) as Ht' by by constructor.
  split; [done|]. split; [done|]. apply (so_page _ M _ _ Ht').
Qed.

(** ... and on one that is not: a new, empty table. *)
Lemma next_table_absent l tv t i n p ps k :
  window tv t 4096 -> 0 <= i < 512 -> table (ram k) (S (S l)) t ->
  pme_Present (entry (ram k) t i) = false -> can_map (S n) (p :: ps) k ->
  exists m', next_table tv i k = Ok (KERN_PHYS_TO_VIRT p) (with_ram m' k) /\
    can_map n ps (with_ram m' k) /\ kept (ram k) m' /\
    table m' (S l) p /\ window (KERN_PHYS_TO_VIRT p) p 4096 /\
    (forall j, 0 <= j < 512 -> entry m' p j = 0) /\
    pme_Present (entry m' t i) = true /\ PAGE_ALIGN (entry m' t i) = p.
Proof.
  intros W Hi Ht Hp [M Hps Hfr Hn]. apply Forall_cons in Hfr as [Hf Hfr]. simpl in Hn.
  destruct (al_page _ _ _ Hps) as (Ha & Hr & Hnin & Wid & Wv & Hpr).
  destruct (al_call _ _ _ Hps) as (m1 & Ek & Hps1 & Hpriv & Hok1).
  assert (0 <= p < 2 ^ 64) as Hr64 by lia.
  pose proof (tp_clean _ _ (so_page _ M _ _ Ht) i Hi Hp) as Hz.
  pose proof (fun l t' j Ht' Hj => new_table_entry (ram k) m1 l (S (S _)) t' j t i p M Hpriv Ht' Ht Hj Hi Ha Hr64 Hf)
    as Hent.
  pose proof (fun j Hj => new_table_zero (ram k) _ t i p j M Ht Hj Hi Ha Hr64 Hf m1) as Hzero.
  destruct (mapping_entry_spec p Hr64 Ha) as (Hmp & Hma & Hmr).
  assert (p mod 4096 = 0 /\ 0 <= p < 2 ^ 64) as HP0 by (split; [exact Ha|exact Hr64]).
  remember (new_table m1 t i p) as m' eqn:Em'.
  assert (ram_ok m') as Hok'.
  { subst m'. apply ram_ok_wrn, ram_ok_fill; [by apply Hok1, M|done]. }
  assert (entry m' t i = mapping_entry p) as Hnew.
  { rewrite (Hent _ t i Ht Hi). by rewrite Z.eqb_refl. }
  assert (forall l t' j, table (ram k) l t' -> 0 <= j < 512 -> t' + 8 * j <> t + 8 * i ->
    entry m' t' j = entry (ram k) t' j) as Hold.
  { intros l' t' j Ht' Hj Hne. rewrite (Hent _ _ _ Ht' Hj). by rewrite (proj2 (Z.eqb_neq _ _) Hne). }
  assert ((0 < S l)%nat -> fresh (ram k) p /\ forall j, 0 <= j < 512 -> entry m' p j = 0) as Hz' by auto.
  pose proof (so_page _ M _ _ Ht) as [Ha0 _ Hpr0 _].
  exists m'. split_and!.
  - unfold next_table. kstep (load_entry_ok tv t i k W Hi). rewrite Hp.
    change (sizeof_PageMapEntry * 512) with 4096. kstep Ek.
    kstep (KiSetMemoryBytes_ok (KERN_PHYS_TO_VIRT p) 0 4096 p (with_ram m1 k) ltac:(lia) ltac:(lia) Wv).
    change (round4 4096) with 4096. rewrite ram_with_ram, with_ram_with_ram.
    rewrite phys_virt_phys, PAGE_ALIGN_id by done.
    kstep (set_entry_ok tv t i p (with_ram (fill m1 p 4096 0) k) W Hi
      ltac:(rewrite ram_with_ram, (cleared_entry (ram k) m1 (S (S l))); done) Hr64).
    by rewrite ram_with_ram, with_ram_with_ram, Em'.
  - constructor.
    + rewrite ram_with_ram.
      apply (fill_space (ram k) m' (S l) t i p M Hok' Ht Hi Hp HP0 Hnew Hold Hz').
      intros _. apply mkTablePage; [exact Ha|exact Wid|exact Hpr|intros j Hj _; exact (Hzero j Hj)].
    + rewrite <- (with_ram_with_ram m' m1 k).
      apply al_frame; [exact Hps1|]. intros q Hq. rewrite ram_with_ram. rewrite Em'. unfold new_table.
      destruct (decide (t <= q < t + 4096)); [by destruct (Hpr0 q)|].
      rewrite rb_wrn_other by lia. rewrite rb_fill by lia. destruct (_ && _) eqn:Eb; [|done].
      apply andb_true_iff in Eb as [?%Z.leb_le ?%Z.ltb_lt]. destruct (Hpr q); [lia|exact Hq].
    + rewrite ram_with_ram. rewrite Forall_forall in *. intros q Hq.
      apply (fill_fresh (ram k) m' (S l) t i p M Hok' Ht Hi Hp HP0 Hnew Hold Hz'); [auto|].
      intros ->. exact (Hnin Hq).
    + lia.
  - apply (fill_kept (ram k) m' (S l) t i p M Hok' Ht Hi Hp HP0 Hnew Hold Hz').
  - rewrite <- Hma, <- Hnew. apply table_child; [|exact Hi|by rewrite Hnew].
    apply (fill_kept (ram k) m' (S l) t i p M Hok' Ht Hi Hp HP0 Hnew Hold Hz'), Ht.
  - exact Wv.
  - exact Hzero.
  - by rewrite Hnew.
  - by rewrite Hnew.
Qed.

Lemma next_table_ok l tv t i n ps k :
  window tv t 4096 -> 0 <= i < 512 -> table (ram k) (S (S l)) t -> can_map (S n) ps k ->
  exists nv nt ps' m', next_table tv i k = Ok nv (with_ram m' k) /\
    window nv nt 4096 /\ can_map n ps' (with_ram m' k) /\ kept (ram k) m' /\
    table m' (S l) nt /\ pme_Present (entry m' t i) = true /\ PAGE_ALIGN (entry m' t i) = nt /\
    if pme_Present (entry (ram k) t i) then m' = ram k
    else forall j, 0 <= j < 512 -> entry m' nt j = 0.
Proof.
  intros W Hi Ht Hc. destruct (pme_Present (entry (ram k) t i)) eqn:Hp.
  - destruct (next_table_present l tv t i k W Hi (cm_space _ _ _ Hc) Ht Hp) as (E & Ht' & W').
    exists (PAGE_ALIGN (entry (ram k) t i)), (PAGE_ALIGN (entry (ram k) t i)), ps, (ram k).
    rewrite with_ram_id. split; [exact E|]. split; [exact W'|]. split.
    { destruct Hc. constructor; try done. lia. }
    split; [apply kept_refl|]. by rewrite Hp.
  - destruct ps as [|p ps]; [by destruct Hc as [_ _ _ ?%Nat.nle_succ_0]|].
    destruct (next_table_absent l tv t i n p ps k W Hi Ht Hp Hc)
      as (m' & E & Hc' & Hk & Ht' & W' & Hz & Hp' & Ha).
    exists (KERN_PHYS_TO_VIRT p), p, ps, m'. auto 10.
Qed.

(** The entries of the path to [va]. *)
Lemma walk_step m n t va nt :
  pme_Present (entry m t (page_index va n)) = true ->
  PAGE_ALIGN (entry m t (page_index va n)) = nt -> walk m (S n) t va = walk m n nt va.
Proof. intros H1 H2. cbn [walk]. by rewrite H1, H2. Qed.

Lemma walk_zero m n t va :
  (forall j, 0 <= j < 512 -> entry m t j = 0) -> walk m (S n) t va = None.
Proof. intros Hz. cbn [walk]. by rewrite Hz by apply page_index_range. Qed.

(** What [next_table] leaves of the path: the rest of it leads to the same
    answer, and nothing changed if that is a mapping. *)
Lemma walk_next m m' n t nt va :
  PAGE_ALIGN (entry m' t (page_index va (S n))) = nt ->
  (if pme_Present (entry m t (page_index va (S n))) then m' = m
   else forall j, 0 <= j < 512 -> entry m' nt j = 0) ->
  walk m' (S n) nt va = walk m (S (S n)) t va /\
  (m' = m \/ walk m (S (S n)) t va = None).
Proof.
  intros Ha Hn. change (walk m (S (S n)) t va) with
    (let e := entry m t (page_index va (S n)) in
     if pme_Present e then walk m (S n) (PAGE_ALIGN e) va else None). cbv zeta.
  destruct (pme_Present (entry m t (page_index va (S n)))).
  - subst m' nt. auto.
  - split; [|by right]. by apply walk_zero.
Qed.

(** The last level of [x86MapAddress]. *)
Lemma map_last tv t va phys ps k :
  window tv t 4096 -> table (ram k) 1 t -> can_map 0 ps k ->
  pme_Present (entry (ram k) t (page_index va 0)) = false ->
  exists m', set_entry tv (page_index va 0) (PAGE_ALIGN (u64 phys)) k = Ok () (with_ram m' k) /\
    walk m' 1 t va = Some (PAGE_ALIGN (u64 phys)) /\ kept (ram k) m' /\
    can_map 0 ps (with_ram m' k).
Proof.
  intros W Ht [M Hps Hfr Hn] Hp. pose proof (page_index_range va 0) as Hi.
  set (i := page_index va 0) in *. pose proof (so_page _ M _ _ Ht) as [Ha _ Hpr Hcl].
  destruct (PAGE_ALIGN_aligned (u64 phys) (u_range 64 phys ltac:(lia))) as [Hal Hr].
  set (a := PAGE_ALIGN (u64 phys)) in *. destruct (mapping_entry_spec a Hr Hal) as (Hmp & Hma & Hmr).
  remember (wrn 8 (ram k) (t + 8 * i) (mapping_entry a)) as m' eqn:Em'.
  assert (entry m' t i = mapping_entry a) as Hnew.
  { subst m'. rewrite entry_wrn by (dlia || done). by rewrite Z.eqb_refl. }
  assert (forall l t' j, table (ram k) l t' -> 0 <= j < 512 -> t' + 8 * j <> t + 8 * i ->
    entry m' t' j = entry (ram k) t' j) as Hold.
  { intros l t' j Ht' Hj Hne. pose proof (tp_aligned _ _ (so_page _ M _ _ Ht')).
    subst m'. rewrite entry_wrn by (dlia || done). by rewrite (proj2 (Z.eqb_neq _ _) Hne). }
  assert (ram_ok m') as Hok by (subst m'; apply ram_ok_wrn, M).
  assert ((0 < 0)%nat -> fresh (ram k) a /\ forall j, 0 <= j < 512 -> entry m' a j = 0) as Hz by lia.
  assert (a mod 4096 = 0 /\ 0 <= a < 2 ^ 64) as HP0 by (split; [exact Hal|exact Hr]).
  exists m'. split; [|split; [|split]].
  - rewrite (set_entry_ok tv t i a k W Hi (Hcl i Hi Hp) Hr). by rewrite Em'.
  - cbn [walk]. fold i. by rewrite Hnew, Hmp, Hma.
  - apply (fill_kept (ram k) m' 0 t i a M Hok Ht Hi Hp HP0 Hnew Hold Hz).
  - constructor; [| | |exact Hn]; rewrite ?ram_with_ram.
    + apply (fill_space (ram k) m' 0 t i a M Hok Ht Hi Hp HP0 Hnew Hold Hz). lia.
    + apply al_frame; [exact Hps|]. intros q Hq. subst m'. apply rb_wrn_other.
      destruct (decide (t <= q < t + 4096)); [by destruct (Hpr q)|lia].
    + rewrite Forall_forall in *. intros q Hq l Hl. apply (Hfr q Hq l).
      destruct (fill_tables (ram k) m' 0 t i a M Hok Ht Hi Hp HP0 Hnew Hold Hz l q Hl)
        as [?|(_ & _ & ?)]; [done|lia].
Qed.

Lemma x86MapAddress_ok pv phys va ps k :
  window pv pml4 4096 -> 0 <= phys < 2 ^ 64 -> can_map 3 ps k ->
  match walk (ram k) 4 pml4 va with
  | Some _ => x86MapAddress pv phys va k = Ok STATUS_MEMORY_PAGE_FAILURE k
  | None => exists m' ps', x86MapAddress pv phys va k = Ok STATUS_SUCCESS (with_ram m' k) /\
      walk m' 4 pml4 va = Some (PAGE_ALIGN phys) /\ kept (ram k) m' /\
      can_map 0 ps' (with_ram m' k)
  end.
Proof.
  intros W Hphys Hc. unfold x86MapAddress, x86FindPageLevels. cbv beta iota.
  rewrite status_eqb_refl. cbn [negb nth].
  fold_indices va.
  destruct (next_table_ok 2 pv pml4 (page_index va 3) 2 ps k W (page_index_range va 3)
    (table_root _) Hc) as (pdpv & pdp & ps1 & m1 & E1 & W1 & Hc1 & K1 & T1 & P1 & A1 & N1).
  kstep E1.
  destruct (next_table_ok 1 pdpv pdp (page_index va 2) 1 ps1 (with_ram m1 k) W1 (page_index_range va 2)
    ltac:(by rewrite ram_with_ram) Hc1) as (pdv & pd & ps2 & m2 & E2 & W2 & Hc2 & K2 & T2 & P2 & A2 & N2).
  kstep E2. rewrite ram_with_ram in *. rewrite with_ram_with_ram in *.
  destruct (next_table_ok 0 pdv pd (page_index va 1) 0 ps2 (with_ram m2 k) W2 (page_index_range va 1)
    ltac:(by rewrite ram_with_ram) Hc2) as (ptv & pt & ps3 & m3 & E3 & W3 & Hc3 & K3 & T3 & P3 & A3 & N3).
  kstep E3. rewrite ram_with_ram in *. rewrite with_ram_with_ram in *.
  pose proof (kept_trans _ _ _ K1 (kept_trans _ _ _ K2 K3)) as K.
  assert (Hpath : forall m', kept m3 m' -> walk m' 4 pml4 va = walk m' 1 pt va).
  { intros m' K'. pose proof (kept_trans _ _ _ K2 (kept_trans _ _ _ K3 K')) as K14.
    rewrite (walk_step _ 3 _ _ pdp), (walk_step _ 2 _ _ pd), (walk_step _ 1 _ _ pt); [done|..].
    - rewrite (proj2 (K' _ _ (proj1 (K3 _ _ T2))) _ (page_index_range va 1) P3); exact P3.
    - rewrite (proj2 (K' _ _ (proj1 (K3 _ _ T2))) _ (page_index_range va 1) P3); exact A3.
    - rewrite (proj2 (kept_trans _ _ _ K3 K' _ _ (proj1 (K2 _ _ T1))) _ (page_index_range va 2) P2); exact P2.
    - rewrite (proj2 (kept_trans _ _ _ K3 K' _ _ (proj1 (K2 _ _ T1))) _ (page_index_range va 2) P2); exact A2.
    - rewrite (proj2 (K14 _ _ (table_root m1)) _ (page_index_range va 3) P1); exact P1.
    - rewrite (proj2 (K14 _ _ (table_root m1)) _ (page_index_range va 3) P1); exact A1. }
  kstep (load_entry_ok ptv pt (page_index va 0) (with_ram m3 k) W3 (page_index_range va 0)).
  rewrite ram_with_ram.
  destruct (walk_next _ _ _ _ _ _ A1 N1) as [F1 G1]. destruct (walk_next _ _ _ _ _ _ A2 N2) as [F2 G2].
  destruct (walk_next _ _ _ _ _ _ A3 N3) as [F3 G3]. rewrite F1 in F2, G2. rewrite F2 in F3, G3.
  revert F3 G1 G2 G3. destruct (walk (ram k) 4 pml4 va) as [pa|] eqn:Ew; intros F3 G1 G2 G3; cbn [walk] in F3.
  - revert F3. destruct (pme_Present (entry m3 pt (page_index va 0))); intros F3; [|done].
    destruct G1 as [->|?]; [|done]. destruct G2 as [->|?]; [|done]. destruct G3 as [->|?]; [|done].
    by rewrite with_ram_id.
  - revert F3. destruct (pme_Present (entry m3 pt (page_index va 0))) eqn:Ep; intros F3; [done|].
    destruct (map_last ptv pt va phys ps3 (with_ram m3 k) W3 ltac:(by rewrite ram_with_ram) Hc3
      ltac:(by rewrite ram_with_ram)) as (m4 & E4 & Hw & K4 & Hc4).
    rewrite u_small in E4, Hw by done. rewrite ram_with_ram, with_ram_with_ram in *.
    exists m4, ps3. split; [by kstep E4|]. split; [by rewrite (Hpath m4 K4)|].
    split; [by apply (kept_trans _ m3)|done].
Qed.

(** An address that is mapped: every level is there. *)
Lemma x86MapAddress_mapped pv phys va pa k :
  window pv pml4 4096 -> space_ok (ram k) -> walk (ram k) 4 pml4 va = Some pa ->
  x86MapAddress pv phys va k = Ok STATUS_MEMORY_PAGE_FAILURE k.
Proof.
  intros W M Hw. unfold x86MapAddress, x86FindPageLevels. cbv beta iota.
  rewrite status_eqb_refl. cbn [negb nth]. fold_indices va.
  cbn [walk] in Hw.
  destruct (pme_Present (entry (ram k) pml4 (page_index va 3))) eqn:P3; [|done].
  destruct (next_table_present 2 pv pml4 _ k W (page_index_range va 3) M (table_root _) P3)
    as (E3 & T3 & W3). kstep E3.
  set (pdp := PAGE_ALIGN (entry (ram k) pml4 (page_index va 3))) in *.
  destruct (pme_Present (entry (ram k) pdp (page_index va 2))) eqn:P2; [|done].
  destruct (next_table_present 1 pdp pdp _ k W3 (page_index_range va 2) M T3 P2)
    as (E2 & T2 & W2). kstep E2.
  set (pd := PAGE_ALIGN (entry (ram k) pdp (page_index va 2))) in *.
  destruct (pme_Present (entry (ram k) pd (page_index va 1))) eqn:P1; [|done].
  destruct (next_table_present 0 pd pd _ k W2 (page_index_range va 1) M T2 P1)
    as (E1 & T1 & W1). kstep E1.
  kstep (load_entry_ok _ _ (page_index va 0) k W1 (page_index_range va 0)).
  destruct (pme_Present (entry (ram k) (PAGE_ALIGN (entry (ram k) pd (page_index va 1)))
    (page_index va 0))); done.
Qed.


(** the loop of [MmKernelAllocPages] that maps the pages uses the same
    two addresses in every round: asked for two pages or more at an address
    that is free, it maps the first page, fails on the second, and leaves the
    first one mapped. *)
Theorem map_pages_fails (pv Pages PAddr VAddr : Z) (ps : list Z) (k : kernel) :
  window pv pml4 4096 -> 0 <= PAddr < 2 ^ 64 -> can_map 3 ps k ->
  walk (ram k) 4 pml4 VAddr = None -> 2 <= Pages < 2 ^ 64 ->
  exists m', map_pages pv Pages PAddr VAddr k =
      Ok (Some STATUS_MEMORY_PAGE_FAILURE) (with_ram m' k) /\
    walk m' 4 pml4 VAddr = Some (PAGE_ALIGN PAddr).
Proof.
  intros W Hp Hc Hw Hn. pose proof (x86MapAddress_ok pv PAddr VAddr ps k W Hp Hc) as Hmap.
  rewrite Hw in Hmap. destruct Hmap as (m' & ps' & E & Hw' & _ & Hc').
  exists m'. split; [|done]. apply (cloop_rounds 2); [|done].
  rewrite (rounds_inl _ _ _ _ 1 (with_ram m' k)).
  - apply rounds_inr. rewrite (proj2 (Z.ltb_lt 1 Pages)) by lia.
    rewrite (bind_ok _ _ _ _ _ (x86MapAddress_mapped pv PAddr VAddr _ (with_ram m' k) W
      (cm_space _ _ _ Hc') ltac:(rewrite ram_with_ram; exact Hw'))). done.
  - rewrite (proj2 (Z.ltb_lt 0 Pages)) by lia. by kstep E.
Qed.

End Space.

(** ** Unmapping *)

Section Unmap.
Context {AS : AddrSpace}.

Lemma unmap_level_present tv t i k :
  window tv t 4096 -> 0 <= i < 512 -> pme_Present (entry (ram k) t i) = true ->
  unmap_level tv i k = Ok (inl STATUS_SUCCESS) (with_ram (wrn 8 (ram k) (t + 8 * i) 0) k).
Proof.
  intros W Hi Hp. unfold unmap_level. kstep (load_entry_ok tv t i k W Hi).
  assert ((Z.land (entry (ram k) t i) (Z.lor X86_PAGE_FLAG_PRESENT X86_PAGE_HUGE) =? 0) = false) as ->.
  { apply Z.eqb_neq. intros E. apply (f_equal (fun z => Z.testbit z 0)) in E.
    rewrite Z.land_spec in E. unfold pme_Present in Hp. by rewrite Hp in E. }
  cbn [negb]. by kstep (store_entry_ok tv t i 0 k W Hi).
Qed.

Lemma x86UnmapAddress_ok pml4 pv va k :
  window pv pml4 4096 -> pme_Present (entry (ram k) pml4 (page_index va 3)) = true ->
  x86UnmapAddress pv va k =
    Ok STATUS_SUCCESS (with_ram (wrn 8 (ram k) (pml4 + 8 * page_index va 3) 0) k).
Proof.
  intros W Hp. unfold x86UnmapAddress, x86FindPageLevels. cbv beta iota.
  rewrite status_eqb_refl. cbn [negb nth]. fold_indices va.
  by kstep (unmap_level_present pv pml4 _ k W (page_index_range va 3) Hp).
Qed.

Lemma walk_cleared pml4 va va' m :
  pml4 mod 8 = 0 -> page_index va' 3 = page_index va 3 ->
  walk (wrn 8 m (pml4 + 8 * page_index va 3) 0) 4 pml4 va' = None.
Proof. intros Hal Ei. cbn [walk]. rewrite Ei, entry_wrn by done. by rewrite Z.eqb_refl. Qed.

(** C30: [x86UnmapAddress] of any address whose top-level entry is present
    clears that entry, the test being for either of two flags and not for
    both: it reports success, and afterwards no address that shares the entry,
    512 GiB of them, is mapped. *)
Theorem x86UnmapAddress_clears_top (pml4 pv va : Z) (k : kernel) :
  window pv pml4 4096 -> pml4 mod 8 = 0 ->
  pme_Present (entry (ram k) pml4 (page_index va 3)) = true ->
  exists m', x86UnmapAddress pv va k = Ok STATUS_SUCCESS (with_ram m' k) /\
    forall va', page_index va' 3 = page_index va 3 -> walk m' 4 pml4 va' = None.
Proof.
  intros W Hal Hp. exists (wrn 8 (ram k) (pml4 + 8 * page_index va 3) 0). split.
  - by apply x86UnmapAddress_ok.
  - intros va' Ei. by apply walk_cleared.
Qed.
End Unmap.

(** ** The checks of [x86ValidateVirtualAddress] *)

(** Four tables that map [0x200000] to [0x9000]. *)
Definition validate_memory : gmap Z Z :=
  let m := write_bytes ∅ 0x1000 (le_bytes 8 0x2003) in
  let m := write_bytes m 0x2000 (le_bytes 8 0x3003) in
  let m := write_bytes m 0x3008 (le_bytes 8 0x4003) in
  write_bytes m 0x4000 (le_bytes 8 0x9003).
Definition validate_kernel : kernel := with_ram validate_memory kernel0.

(** [x86ValidateVirtualAddress] can report a mapped address as free: it
    looks the last table up in the page directory pointer table. *)
Theorem x86ValidateVirtualAddress_wrong :
  walk (ram validate_kernel) 4 0x1000 0x200000 = Some 0x9000 /\
  x86ValidateVirtualAddress (AS := boot_space) 0x1000 0x200000 5 validate_kernel =
    Ok (STATUS_SUCCESS, 0) validate_kernel.
Proof. split; vm_compute; reflexivity. Qed.

(** ** The kernel's allocator *)

(** [MmKernelMalloc] is no allocator for page tables: in no state with
    the heap the kernel sets up, whose root block starts at a multiple of
    eight, can it be about to return a page. *)
Theorem MmKernelMalloc_not_lawful {AS : AddrSpace}
    (LAWS : AllocatorLaws (MmKernelMalloc : Allocator)) (va hp len area p : Z) (ps : list Z) (k : kernel) :
  heap_area va hp len -> heap_ready va hp area k -> 0 <= area -> area + 1 < 2 ^ 64 ->
  area mod 8 = 0 -> ~ @al_pages _ _ LAWS (p :: ps) k.
Proof.
  intros HA Hk H0 H1 Hal Hps. destruct (@al_page _ _ LAWS _ _ _ Hps) as (Hp & Hr & _).
  destruct (@al_call _ _ LAWS _ _ _ Hps) as (m' & E & _). unfold kmalloc in E.
  destruct (malloc_ready va hp len HA area 4096 k Hk H0 H1) as (k' & E' & _).
  rewrite E in E'. injection E' as E' _. unfold KERN_PHYS_TO_VIRT, KERN_VIRT_OFFSET, u in E'. dlia.
Qed.

(** ** A lawful allocator, and witnesses *)

(** The pages from [n] on, [c] of them. *)
Fixpoint bump_pages (n : Z) (c : nat) : list Z :=
  match c with
  | O => []
  | S c => n :: bump_pages (n + 4096) c
  end.

Definition bump_cell : Z := 0x8000.

(** An allocator that keeps the next page's address in the word at
    [bump_cell]. *)
Definition bump : Allocator := fun _ =>
  p ← load64 (AS := boot_space) bump_cell;
  store64 (AS := boot_space) bump_cell (p + 4096) ;; mret p.

Definition bump_state (ps : list Z) (k : kernel) : Prop := exists n,
  rdn 8 (ram k) bump_cell = KERN_PHYS_TO_VIRT n /\ ps = bump_pages n (length ps) /\
  n mod 4096 = 0 /\ 0x9000 <= n /\ n + 4096 * zlen ps <= 2 ^ 30.

Definition bump_private (q : Z) : Prop := bump_cell <= q < bump_cell + 8.

Lemma length_bump_pages n c : length (bump_pages n c) = c.
Proof. revert n. induction c; intros; simpl; auto. Qed.

Lemma bump_pages_above n c p : p ∈ bump_pages n c -> n <= p.
Proof.
  revert n. induction c as [|c IH]; intros n; simpl; [by intros ?%elem_of_nil|].
  intros [->|Hin]%elem_of_cons; [lia|]. apply IH in Hin. lia.
Qed.

Lemma bump_virt n : 0 <= n <= 2 ^ 30 -> KERN_PHYS_TO_VIRT n = n + KERN_VIRT_OFFSET.
Proof. intros. unfold KERN_PHYS_TO_VIRT, KERN_VIRT_OFFSET. apply u_small. lia. Qed.

Lemma bump_call p ps k : bump_state (p :: ps) k -> exists m',
  bump 4096 k = Ok (KERN_PHYS_TO_VIRT p) (with_ram m' k) /\ bump_state ps (with_ram m' k) /\
  (forall q, ~ bump_private q -> rb m' q = rb (ram k) q) /\ (ram_ok (ram k) -> ram_ok m').
Proof.
  intros (n & Ec & Eps & Hn & Hlo & Hhi). simpl in Eps. injection Eps as -> Eps.
  rewrite zlen_cons in Hhi. pose proof (zlen_nonneg ps).
  assert (window (AS := boot_space) bump_cell bump_cell (Z.of_nat 8)) as W.
  { apply boot_window_low; vm_compute; congruence. }
  exists (wrn 8 (ram k) bump_cell (KERN_PHYS_TO_VIRT n + 4096)). split_and!.
  - unfold bump. kstep (loadn_ok (AS := boot_space) 8 bump_cell bump_cell k W). rewrite Ec.
    by kstep (storen_ok (AS := boot_space) 8 bump_cell bump_cell (KERN_PHYS_TO_VIRT n + 4096) k W).
  - exists (n + 4096). rewrite ram_with_ram, rdn_wrn_same. rewrite !bump_virt by lia.
    split_and!; [|done|dlia|lia|lia]. unfold KERN_VIRT_OFFSET. change (8 * Z.of_nat 8) with 64.
    rewrite Z.mod_small; lia.
  - intros q Hq. apply rb_wrn_other. unfold bump_private in Hq. lia.
  - intros Hok. by apply ram_ok_wrn.
Qed.

Lemma bump_page p ps k : bump_state (p :: ps) k ->
  p mod 4096 = 0 /\ 0 <= p < 2 ^ 52 /\ (p ∉ ps) /\
  window (AS := boot_space) p p 4096 /\ window (AS := boot_space) (KERN_PHYS_TO_VIRT p) p 4096 /\
  forall q, p <= q < p + 4096 -> ~ bump_private q.
Proof.
  intros (n & Ec & Eps & Hn & Hlo & Hhi). simpl in Eps. injection Eps as -> Eps.
  rewrite zlen_cons in Hhi. pose proof (zlen_nonneg ps). split_and!; try lia.
  - rewrite Eps. intros Hin%bump_pages_above. lia.
  - apply boot_window_low; lia.
  - apply boot_window_virt; lia.
  - intros q Hq. unfold bump_private, bump_cell. lia.
Qed.

#[export, program] Instance bump_laws : AllocatorLaws (AS := boot_space) bump :=
  {| al_pages := bump_state; al_priv := bump_private; al_call := bump_call; al_page := bump_page |}.
Next Obligation.
  intros ps k m' (n & Ec & Hrest) Hp. exists n. split; [|exact Hrest].
  rewrite ram_with_ram, <- Ec. apply rdn_ext. intros q Hq. apply Hp. unfold bump_private. lia.
Qed.

(** An empty top table at [0x10000], three pages from [0x20000] on. *)
Definition space_kernel : kernel :=
  with_ram (wrn 8 ∅ bump_cell (KERN_PHYS_TO_VIRT 0x20000)) kernel0.

Lemma space_entry t i : t mod 4096 = 0 -> 0x9000 <= t -> 0 <= i < 512 -> entry (ram space_kernel) t i = 0.
Proof.
  intros Ht Hl Hi. apply rdn_zero. intros j Hj. unfold space_kernel. rewrite ram_with_ram.
  rewrite rb_wrn_other by (unfold bump_cell; lia). unfold rb. by rewrite lookup_empty.
Qed.

Lemma space_tables l t : table 0x10000 (ram space_kernel) l t -> l = 4%nat /\ t = 0x10000.
Proof.
  induction 1 as [|l t i Ht [_ ->] Hi Hp]; [done|].
  rewrite space_entry in Hp by done. done.
Qed.

Lemma space_can_map :
  can_map (LAWS := bump_laws) 0x10000 3 [0x20000; 0x21000; 0x22000] space_kernel.
Proof.
  constructor.
  - constructor.
    + apply ram_ok_wrn, ram_ok_empty.
    + intros l t [-> ->]%space_tables. constructor.
      * done.
      * apply boot_window_low; lia.
      * intros q Hq. simpl. unfold bump_private, bump_cell. lia.
      * intros i Hi _. by apply space_entry.
    + by intros l l' t [-> _]%space_tables [-> _]%space_tables.
  - exists 0x20000. split_and!; [vm_compute; reflexivity|reflexivity|reflexivity|lia|].
    vm_compute. congruence.
  - repeat constructor; intros l [_ E]%space_tables; done.
  - simpl. lia.
Qed.


Lemma map_pages_fails_witness :
  exists m', map_pages (AS := boot_space) (AL := bump) 0x10000 2 0x5000 0x600000 space_kernel
      = Ok (Some STATUS_MEMORY_PAGE_FAILURE) (with_ram m' space_kernel) /\
    walk m' 4 0x10000 0x600000 = Some 0x5000.
Proof.
  destruct (map_pages_fails (LAWS := bump_laws) 0x10000 0x10000 2 0x5000 0x600000 _ space_kernel
    ltac:(apply boot_window_low; lia) ltac:(lia) space_can_map ltac:(vm_compute; reflexivity) ltac:(lia))
    as (m' & E & Hw).
  exists m'. split; [exact E|exact Hw].
Defined.

Lemma x86UnmapAddress_clears_top_witness :
  exists m', x86UnmapAddress (AS := boot_space) 0x1000 0x200000 validate_kernel =
      Ok STATUS_SUCCESS (with_ram m' validate_kernel) /\
    walk m' 4 0x1000 0x7FFFFF000 = None.
Proof.
  destruct (x86UnmapAddress_clears_top (AS := boot_space) 0x1000 0x1000 0x200000 validate_kernel
    ltac:(apply boot_window_low; lia) eq_refl ltac:(vm_compute; reflexivity)) as (m' & E & Hw).
  exists m'. split; [exact E|]. apply Hw. vm_compute. reflexivity.
Defined.

(** Laws under which the kernel's allocator never promises a page. *)
#[program] Definition no_pages : AllocatorLaws (AS := boot_space) (MmKernelMalloc (AS := boot_space) : Allocator) :=
  {| al_pages := fun _ _ => False; al_priv := fun _ => True |}.
Next Obligation. done. Qed.
Next Obligation. done. Qed.
Next Obligation. done. Qed.

Lemma MmKernelMalloc_not_lawful_witness :
  exists k, MmCreateAllocatorState (AS := boot_space) 1 heap_base heap_size kernel0 = Ok () k /\
    ~ @al_pages _ _ no_pages [0x500000] k.
Proof.
  destruct (MmCreateAllocatorState_ready (AS := boot_space) _ _ _ heap_area_example
    heap_base heap_size kernel0 eq_refl) as (k & E & _ & Hr & _).
  - apply boot_window_low; vm_compute; congruence.
  - unfold heap_size. lia.
  - vm_compute. reflexivity.
  - exists k. split; [exact E|].
    apply (MmKernelMalloc_not_lawful no_pages _ _ _ _ 0x500000 [] k heap_area_example Hr).
    + vm_compute. congruence.
    + vm_compute. reflexivity.
    + reflexivity.
Defined.
