(* ===== verification/BootTables.v ===== *)
(** * The first instructions and the first page tables
    ([kern/arch/x86_64/boot/init.asm], [init64.asm])

    [_start] checks that a multiboot loader started it on a processor that can
    run it, clears the image's uninitialised data, fills the last of the three
    tables that [init64.asm] lays out, and turns paging on.  The translation
    these tables give the processor is [boot_xlate], under which [Machine] and
    the witnesses of the other files run. *)

From S2P Require Import Prelude Machine Status MemFuncs Heap Pmm Paging.

(** Before paging is on an address is its own physical address; addresses have
    32 bits. *)
Definition early_space : AddrSpace := fun a => if a <? 2 ^ 32 then Some a else None.

(** Where the image puts what [_start] uses, as physical addresses: the image
    less [KERN_VIRT_OFFSET]. *)
Class BootImage := mkBootImage {
  p4_table : Z; p3_table : Z; p2_table : Z;
  stack_top : Z; bss_start : Z; bss_end : Z;
  multiboot_value : Z; gdt_64 : Z; kern_start : Z;
}.

(** What the processor answers: its flags, the flags after the bit of [cpuid]
    was inverted in them, and the four registers of a leaf. *)
Class BootCpu := mkBootCpu {
  eflags : Z;
  eflags_inverted : Z;
  cpuid : Z -> Z * Z * Z * Z;
}.

(** The processor's translation: four levels of tables, of which the last is
    skipped when the entry above it is of a large page. *)
Definition X86_ADDRESS_BITS : Z := Z.ldiff (Z.ones 52) (Z.ones 12).

Definition hw_xlate (m : gmap Z Z) (p4 va : Z) : option Z :=
  let next (t : Z) (level : nat) : option Z :=
    let e := entry m t (page_index va level) in
    if pme_Present e then Some e else None in
  if canonical va then
    e4 ← next p4 3%nat;
    e3 ← next (Z.land e4 X86_ADDRESS_BITS) 2%nat;
    if negb (Z.land e3 X86_PAGE_HUGE =? 0) then
      Some (Z.lor (Z.land e3 (Z.ldiff (Z.ones 52) (Z.ones 30))) (Z.land va (Z.ones 30)))
    else
      e2 ← next (Z.land e3 X86_ADDRESS_BITS) 1%nat;
      if negb (Z.land e2 X86_PAGE_HUGE =? 0) then
        Some (Z.lor (Z.land e2 (Z.ldiff (Z.ones 52) (Z.ones 21))) (Z.land va (Z.ones 21)))
      else
        e1 ← next (Z.land e2 X86_ADDRESS_BITS) 0%nat;
        Some (Z.lor (Z.land e1 X86_ADDRESS_BITS) (Z.land va (Z.ones 12)))
  else None.

(** [_start] ends in one of the two boxes of death, or in [kern_init] with the
    loader's structure. *)
Inductive start_end := BlueBox | RedBox | Enters (MBINFO : Z).

#[global] Instance start_end_eq_dec : EqDecision start_end.
Proof. solve_decision. Defined.

(** *** The tables as the image has them *)

Section Image.
Context `{BI : BootImage}.

Definition p4_words : list Z := [p3_table + 3] ++ replicate 510 0 ++ [p3_table + 3].
Definition p3_words : list Z := [p2_table + 3] ++ replicate 510 0 ++ [p2_table + 3].
Definition p2_words : list Z := replicate 512 0.
End Image.

Section Start.
Context `{BI : BootImage} `{CPU : BootCpu}.

#[local] Existing Instance early_space.

Definition box (colour : Z) : K () :=
  store32 0xB8000 colour ;; store32 0xB8004 colour ;; store32 0xB80A0 colour ;; store32 0xB80A4 colour ;;
  emit EvCli.
Definition boot_panic : K start_end := box 0x1F001F00 ;; mret BlueBox.
Definition boot_panic_invalid_arch : K start_end := box 0x4F004F00 ;; mret RedBox.

(** [push] onto the empty stack. *)
Definition push (v : Z) : K () := store32 (stack_top - 4) v.

Definition zero_bss : K () :=
  for_lt 32 (u32 (bss_end - bss_start)) 1 (fun i => store8 (bss_start + i) 0) 0 ;; skip.

Definition map_page_tables : K () :=
  cloop (fun ecx =>
    let eax := Z.lor (u32 (0x200000 * ecx)) 0x83 in
    store32 (p2_table + ecx * 8) eax ;;
    let ecx := u32 (ecx + 1) in
    mret (if ecx =? 512 then inr () else inl ecx)) 0.

(** The accesses after paging is on, through the tables in memory. *)
Definition paged {A} (f : AddrSpace -> K A) : K A := fun k => f (hw_xlate (ram k) p4_table) k.

Definition create_gdt : K () := emit (EvLgdt (mkDescPointer 15 gdt_64)).

Definition begin_trampoline : K () :=
  paged (fun AS => store32 (AS := AS) (stack_top - 4) 8) ;;
  paged (fun AS => store32 (AS := AS) (stack_top - 8) kern_start).

Definition _start (eax ebx : Z) : K start_end :=
  if negb (eax =? 0x36D76289) then boot_panic
  else
    store32 multiboot_value ebx ;;
    push eflags ;;
    push (Z.lxor eflags (2 ^ 21)) ;;
    push eflags_inverted ;;
    if eflags_inverted =? eflags then boot_panic
    else
      push eflags ;;
      let '(eax, _, _, _) := cpuid 0x80000000 in
      if eax <? 0x80000001 then boot_panic
      else
        let '(_, ebx, _, edx) := cpuid 0x80000001 in
        if Z.land edx (2 ^ 29) =? 0 then boot_panic_invalid_arch
        else
          zero_bss ;;
          push ebx ;;
          map_page_tables ;;
          create_gdt ;;
          begin_trampoline ;;
          MBINFO ← paged (fun AS => load64 (AS := AS) multiboot_value);
          mret (Enters MBINFO).
End Start.

(** ** The words of the tables *)

(** A word of a table: flags below bit [w] of an address aligned to it. *)
Lemma word_bits a c w n :
  0 <= w -> 0 <= n -> 0 <= c < 2 ^ w -> a mod 2 ^ w = 0 ->
  Z.testbit (a + c) n = if n <? w then Z.testbit c n else Z.testbit a n.
Proof.
  intros Hw Hn Hc Ha. assert (Z.land a c = 0) as Hd.
  { apply Z.bits_inj'. intros i Hi. rewrite Z.land_spec, Z.bits_0.
    destruct (Z.ltb_spec i w).
    - rewrite <- (Z.mod_pow2_bits_low a w i), Ha, Z.bits_0 by lia. done.
    - by rewrite (testbit_high c i w), andb_false_r by lia. }
  rewrite Z.add_nocarry_lxor, Z.lxor_lor, Z.lor_spec by done.
  destruct (Z.ltb_spec n w).
  - by rewrite <- (Z.mod_pow2_bits_low a w n), Ha, Z.bits_0 by lia.
  - by rewrite (testbit_high c n w), orb_false_r by lia.
Qed.

(** The entry of a table and of a large page, taken apart by the processor. *)
Lemma table_word a c :
  0 <= a < 2 ^ 52 -> a mod 4096 = 0 -> 0 <= c < 128 -> Z.testbit c 0 = true ->
  pme_Present (a + c) = true /\ Z.land (a + c) X86_ADDRESS_BITS = a /\ Z.land (a + c) X86_PAGE_HUGE = 0.
Proof.
  intros Ha Hm Hc H0. change 4096 with (2 ^ 12) in Hm. unfold pme_Present.
  rewrite (word_bits a c 12) by lia. simpl. split; [done|]. split.
  - apply Z.bits_inj'. intros n Hn. unfold X86_ADDRESS_BITS.
    rewrite Z.land_spec, Z.ldiff_spec, (word_bits a c 12), !Z.testbit_ones_nonneg by lia.
    destruct (Z.ltb_spec n 12).
    + rewrite andb_false_r, andb_false_r. by rewrite <- (Z.mod_pow2_bits_low a 12 n), Hm, Z.bits_0 by lia.
    + destruct (Z.ltb_spec n 52); simpl; rewrite ?andb_true_r, ?andb_false_r; [done|].
      by rewrite (testbit_high a n 52) by lia.
  - unfold X86_PAGE_HUGE. change 128 with (2 ^ 7). rewrite land_pow2, (word_bits a c 12) by lia.
    change (7 <? 12) with true. cbv iota. by rewrite (testbit_high c 7 7) by lia.
Qed.

Lemma huge_word i va :
  0 <= i < 512 -> let e := 0x200000 * i + 0x83 in
  pme_Present e = true /\ (Z.land e X86_PAGE_HUGE =? 0) = false /\
  (i = page_index va 1 ->
    Z.lor (Z.land e (Z.ldiff (Z.ones 52) (Z.ones 21))) (Z.land va (Z.ones 21)) = Z.land va (Z.ones 30)).
Proof.
  intros Hi e. assert (forall n, 0 <= n -> Z.testbit e n = if n <? 21 then Z.testbit 0x83 n else Z.testbit i (n - 21)) as Hb.
  { intros n Hn. unfold e. rewrite (word_bits _ _ 21) by (dlia || lia). destruct (Z.ltb_spec n 21); [done|].
    change 0x200000 with (2 ^ 21). rewrite Z.mul_comm, <- Z.shiftl_mul_pow2, Z.shiftl_spec by lia. done. }
  unfold pme_Present, X86_PAGE_HUGE. change 128 with (2 ^ 7). rewrite land_pow2, !Hb by lia.
  split; [done|]. split; [done|]. intros ->. apply Z.bits_inj'. intros n Hn.
  rewrite Z.lor_spec, !Z.land_spec, Z.ldiff_spec, Hb, !Z.testbit_ones_nonneg by lia. unfold page_index.
  destruct (Z.ltb_spec n 21).
  - rewrite !andb_false_r. simpl. f_equal. symmetry. apply Z.ltb_lt. lia.
  - rewrite Z.land_spec, Z.shiftr_spec by lia. change 511 with (Z.ones 9). rewrite Z.testbit_ones_nonneg by lia.
    change (12 + 9 * Z.of_nat 1) with 21. replace (n - 21 + 21) with n by lia.
    rewrite !andb_false_r, orb_false_r, andb_true_r. destruct (Z.testbit va n); simpl; [|done].
    bdestr; simpl; lia || done.
Qed.

Lemma le_val_app l1 l2 : le_val (l1 ++ l2) = le_val l1 + 2 ^ (8 * zlen l1) * le_val l2.
Proof.
  induction l1 as [|x l IH]; [change (2 ^ (8 * zlen [])) with 1; simpl; lia|].
  simpl app. simpl le_val. rewrite IH, zlen_cons. pose proof (zlen_nonneg l).
  replace (8 * (1 + zlen l)) with (8 + 8 * zlen l) by lia. rewrite Z.pow_add_r by lia. change (2 ^ 8) with 256. ring.
Qed.

Lemma rdn_split a b m p : rdn (a + b) m p = rdn a m p + 2 ^ (8 * Z.of_nat a) * rdn b m (p + Z.of_nat a).
Proof. unfold rdn. rewrite read_bytes_app, le_val_app. unfold zlen. by rewrite length_read_bytes. Qed.

(** The words of the two upper tables. *)
Lemma nth_table_words x i : 0 <= i < 512 ->
  nth (Z.to_nat i) ([x] ++ replicate 510 0 ++ [x]) 0 = if (i =? 0) || (i =? 511) then x else 0.
Proof.
  intros Hi. destruct (Z.eqb_spec i 0) as [->|H0]; [done|].
  rewrite app_nth2 by (simpl; lia). replace (Z.to_nat i - length [x])%nat with (Z.to_nat (i - 1)) by (simpl; lia).
  destruct (Z.eqb_spec i 511) as [->|H1]; [done|].
  rewrite app_nth1 by (rewrite length_replicate; lia). by rewrite nth_replicate by lia.
Qed.


(** ** The translation of the tables *)

Section Tables.
Context {BI : BootImage} {CPU : BootCpu}.

#[local] Existing Instance early_space.

(** The layout [init64.asm] asks for: three pages, below a gigabyte. *)
Record tables_placed : Prop := mkTablesPlaced {
  tp_p4 : 0 <= p4_table /\ p4_table mod 4096 = 0;
  tp_p3 : p3_table = p4_table + 4096;
  tp_p2 : p2_table = p3_table + 4096;
  tp_low : p2_table + 4096 <= 2 ^ 30;
}.
Hypothesis TP : tables_placed.

Definition words_at (m : gmap Z Z) (t : Z) (ws : list Z) : Prop :=
  forall i, 0 <= i < 512 -> entry m t i = nth (Z.to_nat i) ws 0.

(** What the loop makes of the last table. *)
Definition huge_words (m : gmap Z Z) : Prop :=
  forall i, 0 <= i < 512 -> entry m p2_table i = 0x200000 * i + 0x83.

Lemma tables_translate m va :
  words_at m p4_table p4_words -> words_at m p3_table p3_words -> huge_words m ->
  hw_xlate m p4_table va = boot_xlate va.
Proof using TP.
  intros H4 H3 H2. destruct TP as [[P0 P4] P3 P2 Pl].
  destruct (table_word p3_table 3) as (A1 & A2 & A3); [lia|rewrite P3; dlia|lia|done|].
  destruct (table_word p2_table 3) as (B1 & B2 & B3); [lia|rewrite P2, P3; dlia|lia|done|].
  unfold hw_xlate, boot_xlate. cbv zeta. destruct (canonical va); [|done].
  change (Z.land (Z.shiftr va 39) 511) with (page_index va 3). change (Z.land (Z.shiftr va 30) 511) with (page_index va 2).
  pose proof (H4 _ (page_index_range va 3)) as E4. pose proof (H3 _ (page_index_range va 2)) as E3.
  pose proof (H2 _ (page_index_range va 1)) as E2. unfold p4_words, p3_words, boot_p4_present, boot_p3_present in *.
  rewrite nth_table_words in E4, E3 by apply page_index_range.
  destruct ((page_index va 3 =? 0) || (page_index va 3 =? 511)); rewrite !E4; [|done].
  rewrite A1. cbn [mbind option_bind andb]. rewrite A2.
  destruct ((page_index va 2 =? 0) || (page_index va 2 =? 511)); rewrite !E3; [|done].
  rewrite B1. cbn [mbind option_bind]. rewrite B3. cbn [Z.eqb negb]. rewrite B2, !E2.
  destruct (huge_word (page_index va 1) va (page_index_range va 1)) as (C1 & C2 & C3).
  rewrite C1. cbn [mbind option_bind]. rewrite C2. cbn [negb]. by rewrite C3.
Qed.

Lemma early_window a n : 0 <= a -> a + n <= 2 ^ 32 -> window a a n.
Proof using.
  intros Ha Hn i Hi. unfold xlate, early_space. rewrite u_small by lia. by rewrite (proj2 (Z.ltb_lt _ _)) by lia.
Qed.

(** One round of the loop fills one entry. *)
Lemma huge_entry m i v :
  0 <= v < 2 ^ 32 -> entry m p2_table i = 0 -> ram_ok m ->
  entry (wrn 4 m (p2_table + 8 * i) v) p2_table i = v.
Proof using.
  intros Hv He Hm. unfold entry in *. rewrite (rdn_split 4 4) in *. rewrite rdn_wrn_same, rdn_wrn_other by lia.
  pose proof (rdn_bound 4 m (p2_table + 8 * i) Hm). pose proof (rdn_bound 4 m (p2_table + 8 * i + Z.of_nat 4) Hm).
  change (8 * Z.of_nat 4) with 32 in *. rewrite Z.mod_small by lia. lia.
Qed.

Lemma map_page_tables_ok k :
  ram_ok (ram k) -> words_at (ram k) p2_table p2_words ->
  exists m, map_page_tables k = Ok () (with_ram m k) /\ ram_ok m /\ huge_words m /\
    forall q, q < p2_table \/ p2_table + 4096 <= q -> rb m q = rb (ram k) q.
Proof using TP.
  intros Hm Hw. destruct TP as [[P0 P4] P3 P2 Pl].
  set (I := fun i k' => exists m, k' = with_ram m k /\ ram_ok m /\
    (forall j, 0 <= j < i -> entry m p2_table j = 0x200000 * j + 0x83) /\
    (forall j, i <= j < 512 -> entry m p2_table j = 0) /\
    forall q, q < p2_table \/ p2_table + 4096 <= q -> rb m q = rb (ram k) q).
  unfold map_page_tables. match goal with |- context [cloop ?b] => set (body := b) end.
  destruct (cloop_total (fun i k' => 0 <= i < 512 /\ I i k') (fun _ => I 512) (fun i => 512 - i) body) with (s := 0) (k := k)
    as ([] & k' & E & (m & -> & Hm' & Hd & _ & Hf)).
  - intros i k1 [Hi (m & -> & Hm1 & Hd & Hz & Hf)]. unfold body. cbv zeta.
    assert (Z.lor (u32 (0x200000 * i)) 0x83 = 0x200000 * i + 0x83) as ->.
    { rewrite u_small by lia. rewrite <- Z.lxor_lor, <- Z.add_nocarry_lxor; [done|..];
        apply Z.bits_inj'; intros n Hn; rewrite Z.land_spec, Z.bits_0;
        change 0x200000 with (2 ^ 21); rewrite Z.mul_comm, <- Z.shiftl_mul_pow2, Z.shiftl_spec by lia;
        (destruct (Z.ltb_spec n 21); [by rewrite (Z.testbit_neg_r _ (n - 21)) by lia|]);
        by rewrite (testbit_high 0x83 n 8), andb_false_r by lia. }
    rewrite (Z.mul_comm i 8).
    assert (window (p2_table + 8 * i) (p2_table + 8 * i) 4) as W by (apply early_window; lia).
    unfold store32. kstep (storen_ok 4 _ _ (0x200000 * i + 0x83) (with_ram m k) W). rewrite ram_with_ram, with_ram_with_ram.
    set (m' := wrn 4 m _ _). rewrite u_small by lia.
    assert (I (i + 1) (with_ram m' k)) as HI.
    { exists m'. split; [done|]. split; [by apply ram_ok_wrn|]. split; [|split].
      - intros j Hj. destruct (Z.eq_dec j i) as [->|]; [apply huge_entry; [lia|apply Hz; lia|done]|].
        unfold m', entry. rewrite rdn_wrn_other by lia. apply Hd. lia.
      - intros j Hj. unfold m', entry. rewrite rdn_wrn_other by lia. apply Hz. lia.
      - intros q Hq. unfold m'. rewrite rb_wrn_other by lia. by apply Hf. }
    destruct (Z.eqb_spec (i + 1) 512) as [E|E]; eexists _, _; (split; [reflexivity|]); [by rewrite E in HI|].
    split; [split; [lia|done]|lia].
  - split; [lia|]. exists (ram k). split; [by rewrite with_ram_id|]. split; [done|]. split; [lia|]. split; [|done].
    intros j Hj. rewrite Hw by lia. unfold p2_words. by rewrite nth_replicate by lia.
  - unfold FUEL. lia.
  - by exists m.
Qed.

(** *** The start *)

(** The image in memory: the tables as they are laid out, the uninitialised
    data, which ends with the stack, and the word that keeps the loader's
    structure, with zeros behind it. *)
Record image_placed (k : kernel) : Prop := mkImagePlaced {
  ip_ram : ram_ok (ram k);
  ip_p4 : words_at (ram k) p4_table p4_words;
  ip_p3 : words_at (ram k) p3_table p3_words;
  ip_p2 : words_at (ram k) p2_table p2_words;
  ip_bss : 0 <= bss_start /\ bss_start + 16384 <= bss_end /\ stack_top = bss_end /\ bss_end <= 2 ^ 30;
  ip_bss_tables : bss_end <= p4_table \/ p2_table + 4096 <= bss_start;
  ip_value : 0 <= multiboot_value /\ multiboot_value + 8 <= 2 ^ 30 /\ rdn 4 (ram k) (multiboot_value + 4) = 0;
  ip_value_tables : multiboot_value + 8 <= p4_table \/ p2_table + 4096 <= multiboot_value;
  ip_value_bss : multiboot_value + 8 <= bss_start \/ bss_end <= multiboot_value;
  ip_screen : (0xB8000 + 0xA8 <= p4_table \/ p2_table + 4096 <= 0xB8000);
}.

(** What the checks come to. *)
Definition start_checks (eax : Z) : start_end + () :=
  if negb (eax =? 0x36D76289) then inl BlueBox
  else if eflags_inverted =? eflags then inl BlueBox
  else if (cpuid 0x80000000).1.1.1 <? 0x80000001 then inl BlueBox
  else if Z.land (cpuid 0x80000001).2 (2 ^ 29) =? 0 then inl RedBox
  else inr ().

(** The boxes: sixteen bytes of the screen, and interrupts off for ever. *)
Lemma box_ok colour k : exists m,
  box colour k = Ok () (with_trace (EvCli :: trace k) (with_ram m k)) /\
  rdn 4 m 0xB8000 = u32 colour /\ rdn 4 m 0xB8004 = u32 colour /\ rdn 4 m 0xB80A0 = u32 colour /\ rdn 4 m 0xB80A4 = u32 colour.
Proof using.
  assert (forall a v kk, 0 <= a -> a + 4 <= 2 ^ 32 -> store32 a v kk = Ok () (with_ram (wrn 4 (ram kk) a v) kk)) as St.
  { intros a v kk H1 H2. apply storen_ok, early_window; [done|lia]. }
  unfold box. kstep (St 0xB8000 colour k ltac:(lia) ltac:(lia)).
  do 3 (erewrite bind_ok by (apply St; lia); rewrite ?ram_with_ram, ?with_ram_with_ram).
  eexists. split; [by destruct k|]. split_and!; repeat first [rewrite rdn_wrn_same | rewrite rdn_wrn_other by lia]; done.
Qed.

Lemma zero_bss_ok k :
  0 <= bss_start <= bss_end /\ bss_end <= 2 ^ 30 -> exists m, zero_bss k = Ok () (with_ram m k) /\
    (ram_ok (ram k) -> ram_ok m) /\ (forall q, bss_start <= q < bss_end -> rb m q = 0) /\
    forall q, q < bss_start \/ bss_end <= q -> rb m q = rb (ram k) q.
Proof using.
  intros Hb. unfold zero_bss. rewrite u_small by lia. set (n := bss_end - bss_start).
  destruct (for_lt_total 32 n 1 (fun i => store8 (bss_start + i) 0)
    (fun i k' => exists m, k' = with_ram m k /\ (ram_ok (ram k) -> ram_ok m) /\ i <= n /\
      (forall q, bss_start <= q < bss_start + i -> rb m q = 0) /\
      forall q, q < bss_start \/ bss_end <= q -> rb m q = rb (ram k) q) 0 k)
    as (i & k' & E & (m & -> & Hm & Hi & Hz & Hf) & _ & Hge & _); try lia.
  - intros i k1 Hi (m & -> & Hm & _ & Hz & Hf).
    rewrite (store8_ok _ (bss_start + i) 0 (with_ram m k)) by (apply early_window; lia).
    rewrite ram_with_ram, with_ram_with_ram. eexists. split; [done|]. eexists. split; [done|]. split_and!; [|lia|..].
    + intros Hk. apply ram_ok_insert; [by apply Hm|]. apply (u_range 8). lia.
    + intros q Hq. rewrite rb_insert. destruct (Z.eqb_spec (bss_start + i) q); [done|apply Hz; lia].
    + intros q Hq. rewrite rb_insert, (proj2 (Z.eqb_neq _ _)) by lia. by apply Hf.
  - exists (ram k). rewrite with_ram_id. split_and!; try done; try lia.
  - kstep E. exists m. split_and!; try done. intros q Hq. apply Hz. lia.
Qed.

(** What holds of memory at every stage: the upper tables and the word of the
    loader's structure, [ebx], are there, and nothing else of the image has
    changed. *)
Record staged (k : kernel) (ebx : Z) (m : gmap Z Z) : Prop := mkStaged {
  sg_ram : ram_ok m;
  sg_p4 : words_at m p4_table p4_words;
  sg_p3 : words_at m p3_table p3_words;
  sg_value : rdn 8 m multiboot_value = u32 ebx;
  sg_frame : forall q, (q < bss_start \/ bss_end <= q) -> (q < p2_table \/ p2_table + 4096 <= q) ->
    (q < multiboot_value \/ multiboot_value + 4 <= q) -> rb m q = rb (ram k) q;
}.

Lemma staged_change k ebx m m' :
  image_placed k -> staged k ebx m -> ram_ok m' ->
  (forall q, (q < bss_start \/ bss_end <= q) -> (q < p2_table \/ p2_table + 4096 <= q) -> rb m' q = rb m q) ->
  staged k ebx m'.
Proof using TP.
  intros IP [H1 H2 H3 H4 H5] Hm Hf. destruct TP as [[P0 P4] P3 P2 Pl]. destruct IP as [_ _ _ _ B1 B2 V1 V2 V3 _].
  constructor; try done.
  - intros i Hi. rewrite <- H2 by done. apply rdn_ext. intros q Hq. apply Hf; lia.
  - intros i Hi. rewrite <- H3 by done. apply rdn_ext. intros q Hq. apply Hf; lia.
  - rewrite <- H4. apply rdn_ext. intros q Hq. apply Hf; lia.
  - intros q Q1 Q2 Q3. rewrite Hf by done. by apply H5.
Qed.

Lemma staged_value k ebx : image_placed k -> staged k ebx (wrn 4 (ram k) multiboot_value ebx).
Proof using TP.
  intros IP. destruct TP as [[P0 P4] P3 P2 Pl]. destruct IP as [H1 H2 H3 _ B1 B2 (V0 & V1 & Vz) V2 V3 _].
  constructor.
  - by apply ram_ok_wrn.
  - intros i Hi. rewrite <- H2 by done. unfold entry. apply rdn_wrn_other. lia.
  - intros i Hi. rewrite <- H3 by done. unfold entry. apply rdn_wrn_other. lia.
  - rewrite (rdn_split 4 4), rdn_wrn_same, rdn_wrn_other by lia. change (Z.of_nat 4) with 4. rewrite Vz.
    change (8 * 4) with 32. unfold u. lia.
  - intros q _ _ Hq. by apply rb_wrn_other.
Qed.

Lemma push_ok k kk v : image_placed k -> push v kk = Ok () (with_ram (wrn 4 (ram kk) (stack_top - 4) v) kk).
Proof using.
  intros IP. destruct (ip_bss _ IP) as (B1 & B2 & B3 & B4). apply storen_ok, early_window; lia.
Qed.

(** A push on either side of the switch. *)
Lemma staged_push k ebx m v o :
  image_placed k -> 4 <= o <= 8 -> staged k ebx m -> staged k ebx (wrn 4 m (stack_top - o) v).
Proof using TP.
  intros IP Ho Hs. pose proof (ip_bss _ IP) as (B1 & B2 & B3 & B4).
  apply (staged_change k ebx m); [done|done|apply ram_ok_wrn, Hs|].
  intros q Hq _. apply rb_wrn_other. lia.
Qed.

Lemma paged_window k ebx m a n :
  staged k ebx m -> huge_words m -> 0 <= a -> a + n <= 2 ^ 30 -> window (AS := hw_xlate m p4_table) a a n.
Proof using TP.
  intros Hs Hh Ha Hn i Hi. unfold xlate. rewrite tables_translate by (apply Hs || done).
  by apply (boot_window_low a n).
Qed.

(** From the checks on. *)
Lemma trampoline_ok k ebx m kk :
  image_placed k -> staged k ebx m -> huge_words m -> ram kk = m ->
  exists m', begin_trampoline kk = Ok () (with_ram m' kk) /\ staged k ebx m' /\ huge_words m' /\
    forall q, q < stack_top - 8 \/ stack_top <= q -> rb m' q = rb m q.
Proof using TP.
  intros IP Hs Hh Em. pose proof (ip_bss _ IP) as (B1 & B2 & B3 & B4).
  assert (forall o v x, 4 <= o <= 8 -> staged k ebx x -> huge_words x ->
    staged k ebx (wrn 4 x (stack_top - o) v) /\ huge_words (wrn 4 x (stack_top - o) v)) as Hp.
  { intros o v x Ho Hs' Hh'. split; [by apply staged_push|]. intros i Hi. rewrite <- Hh' by done.
    destruct TP as [[P0 P4] P3 P2 Pl]. destruct (ip_bss_tables _ IP); unfold entry; apply rdn_wrn_other; lia. }
  destruct (Hp 4 8 m ltac:(lia) Hs Hh) as [Hs1 Hh1]. destruct (Hp 8 kern_start _ ltac:(lia) Hs1 Hh1) as [Hs2 Hh2].
  unfold begin_trampoline, paged. unfold mbind, K_bind. rewrite Em. unfold store32.
  rewrite (storen_ok (AS := hw_xlate m p4_table) 4 _ (stack_top - 4) 8 kk)
    by (apply (paged_window k ebx); [done|done|lia|lia]).
  rewrite ram_with_ram, Em.
  rewrite (storen_ok (AS := hw_xlate (wrn 4 m (stack_top - 4) 8) p4_table) 4 _ (stack_top - 8) kern_start)
    by (apply (paged_window k ebx); [done|done|lia|lia]).
  rewrite ram_with_ram, with_ram_with_ram. eexists. split; [done|]. split; [done|]. split; [done|].
  intros q Hq. by rewrite !rb_wrn_other by lia.
Qed.

Lemma start_goes_on k ebx m ebx' kk :
  image_placed k -> staged k ebx m -> words_at m p2_table p2_words -> ram kk = m ->
  exists k', (zero_bss ;; push ebx' ;; map_page_tables ;; create_gdt ;; begin_trampoline ;;
      MBINFO ← paged (fun AS => load64 (AS := AS) multiboot_value); mret (Enters MBINFO)) kk = Ok (Enters (u32 ebx)) k' /\
    (forall va, hw_xlate (ram k') p4_table va = boot_xlate va) /\
    (forall q, bss_start <= q < bss_end - 8 -> rb (ram k') q = 0) /\
    trace k' = EvLgdt (mkDescPointer 15 gdt_64) :: trace kk /\ staged k ebx (ram k').
Proof using TP.
  intros IP Hs Hw Em. pose proof (ip_bss _ IP) as (B1 & B2 & B3 & B4). pose proof (ip_bss_tables _ IP) as B5.
  pose proof TP as [[P0 P4] P3 P2 Pl]. destruct (ip_value _ IP) as (V1 & V2 & _).
  destruct (zero_bss_ok kk ltac:(lia)) as (m1 & E1 & M1 & Z1 & F1). rewrite Em in *.
  assert (staged k ebx m1) as S1 by (apply (staged_change k ebx m); [done|done|apply M1, Hs|auto]).
  kstep E1. kstep (push_ok k (with_ram m1 kk) ebx' IP). rewrite ram_with_ram, with_ram_with_ram.
  set (m2 := wrn 4 m1 _ _). assert (staged k ebx m2) as S2 by (apply staged_push; [done|lia|done]).
  destruct (map_page_tables_ok (with_ram m2 kk)) as (m3 & E3 & M3 & H3 & F3); rewrite ?ram_with_ram in *.
  { apply S2. }
  { intros i Hi. rewrite <- Hw by done. unfold m2, entry. rewrite rdn_wrn_other by lia. apply rdn_ext.
    intros q Hq. apply F1. lia. }
  assert (staged k ebx m3) as S3 by (apply (staged_change k ebx m2); auto).
  kstep E3. rewrite with_ram_with_ram. unfold create_gdt.
  match goal with |- context [emit ?e ≫= _] => rewrite (bind_ok (emit e) _ _ () (with_trace (e :: trace kk) (with_ram m3 kk)))
    by (by destruct kk) end.
  destruct (trampoline_ok k ebx m3 (with_trace (EvLgdt (mkDescPointer 15 gdt_64) :: trace kk) (with_ram m3 kk)) IP S3 H3)
    as (m4 & E4 & S4 & H4 & F4); [by destruct kk|].
  kstep E4. set (k4 := with_ram m4 _). assert (ram k4 = m4) as E5 by (by destruct kk).
  exists k4. split; [|split; [|split; [|split]]].
  - unfold paged at 1. unfold mbind, K_bind. rewrite E5. unfold load64.
    rewrite (loadn_ok (AS := hw_xlate m4 p4_table) 8 _ multiboot_value k4)
      by (apply (paged_window k ebx); [done|done|lia|lia]).
    rewrite E5. by rewrite (sg_value _ _ _ S4).
  - intros va. rewrite E5. by apply tables_translate; [apply S4..|].
  - intros q Hq. rewrite E5, F4, F3 by lia. unfold m2. rewrite rb_wrn_other by lia. apply Z1. lia.
  - by destruct kk.
  - by rewrite E5.
Qed.

(** What every stage before the tables keeps. *)
Definition early (k : kernel) (ebx : Z) (kk : kernel) : Prop :=
  exists m, kk = with_ram m k /\ staged k ebx m /\ words_at m p2_table p2_words.

Lemma early_value k ebx {A} (f : K A) :
  image_placed k -> exists kk, early k ebx kk /\ (store32 multiboot_value ebx ;; f) k = f kk.
Proof using TP.
  intros IP. destruct (ip_value _ IP) as (V1 & V2 & _).
  exists (with_ram (wrn 4 (ram k) multiboot_value ebx) k). split.
  - eexists. split; [done|]. split; [by apply staged_value|]. intros i Hi. rewrite <- (ip_p2 _ IP) by done.
    destruct TP as [[P0 P4] P3 P2 Pl]. destruct (ip_value_tables _ IP); unfold entry; apply rdn_wrn_other; lia.
  - unfold store32. by kstep (storen_ok 4 multiboot_value multiboot_value ebx k ltac:(apply early_window; lia)).
Qed.

Lemma early_push k ebx v kk {A} (f : K A) :
  image_placed k -> early k ebx kk -> exists kk', early k ebx kk' /\ (push v ;; f) kk = f kk'.
Proof using TP.
  intros IP (m & -> & Hs & Hw). kstep (push_ok k (with_ram m k) v IP). rewrite ram_with_ram, with_ram_with_ram.
  eexists. split; [|done]. eexists. split; [done|]. split; [apply staged_push; [done|lia|done]|].
  pose proof (ip_bss _ IP) as (B1 & B2 & B3 & B4). destruct TP as [[P0 P4] P3 P2 Pl].
  intros i Hi. rewrite <- Hw by done. destruct (ip_bss_tables _ IP); unfold entry; apply rdn_wrn_other; lia.
Qed.

Definition boxed (r : start_end) (o : outcome start_end) : Prop :=
  exists k', o = Ok r k' /\ head (trace k') = Some EvCli /\
    rdn 4 (ram k') 0xB8000 = if decide (r = RedBox) then 0x4F004F00 else 0x1F001F00.

Lemma boxes_ok k : boxed BlueBox (boot_panic k) /\ boxed RedBox (boot_panic_invalid_arch k).
Proof using.
  split; [destruct (box_ok 0x1F001F00 k) as (m & E & H & _); unfold boot_panic
         |destruct (box_ok 0x4F004F00 k) as (m & E & H & _); unfold boot_panic_invalid_arch];
    kstep E; (eexists; split; [done|]); destruct k; done.
Qed.

End Tables.

(** ** Mapping on these tables *)

Section Mapping.
Context {AS : AddrSpace} {AL : Allocator} {BI : BootImage}.
Hypothesis TP : tables_placed.

(** A present entry is taken for a table's, whatever it is. *)
Lemma next_table_taken tv t i e k :
  window tv t 4096 -> 0 <= i < 512 -> entry (ram k) t i = e -> pme_Present e = true ->
  next_table tv i k = Ok (PAGE_ALIGN e) k.
Proof using.
  intros W Hi He Hp. unfold next_table. kstep (load_entry_ok tv t i k W Hi). by rewrite He, Hp.
Qed.

End Mapping.

(** ** A sample image: the stack and the tables from 0x110000 *)

Definition sample_boot_image : BootImage :=
  mkBootImage 0x120000 0x121000 0x122000 0x114000 0x110000 0x114000 0x118000 0x100000 0x101000.
Definition sample_boot_cpu : BootCpu :=
  mkBootCpu 2 0x200002 (fun _ => (0x80000008, 0, 0, 0x20000000)).

Definition word_bytes (ws : list Z) : list Z := concat (map (le_bytes 8) ws).

(** The tables in memory, the last with the words [ws]. *)
Definition table_ram (ws : list Z) : gmap Z Z :=
  write_bytes (write_bytes (write_bytes ∅ 0x120000 (word_bytes (p4_words (BI := sample_boot_image))))
    0x121000 (word_bytes (p3_words (BI := sample_boot_image)))) 0x122000 (word_bytes ws).

Lemma word_bytes_byte ws : Forall byte (word_bytes ws).
Proof. induction ws; [done|]. simpl. apply Forall_app_2; [apply (le_bytes_byte 8)|done]. Qed.

Lemma table_ram_ok ws : ram_ok (table_ram ws).
Proof. unfold table_ram. repeat (apply ram_ok_write; [|apply word_bytes_byte]). apply ram_ok_empty. Qed.

Definition words_check (m : gmap Z Z) (t : Z) (ws : list Z) : bool :=
  forallb (fun n => entry m t (Z.of_nat n) =? nth n ws 0) (seq 0 512).

Lemma words_checked m t ws : words_check m t ws = true -> words_at m t ws.
Proof.
  intros H i Hi. pose proof (proj1 (forallb_forall _ _) H (Z.to_nat i) ltac:(apply in_seq; lia)) as E.
  cbv beta in E. rewrite Z2Nat.id in E by lia. by apply Z.eqb_eq in E.
Qed.

Lemma sample_tables_placed : tables_placed (BI := sample_boot_image).
Proof. by constructor. Qed.

Definition start_kernel : kernel := with_ram (table_ram p2_words) kernel0.


Definition huge_kernel : kernel :=
  with_ram (table_ram (map (fun n => 0x200000 * Z.of_nat n + 0x83) (seq 0 512))) kernel0.

