(* ===== verification/Print.v ===== *)
(** * Printing ([kern/lib/kernel_printfuncs.c])

    The kernel prints through a table of firmware functions, which is an
    interface here.  [KiPrintFmt] is the kernel's formatted print; it is shown
    to print what a specification of its format language says. *)

From S2P Require Import Prelude Machine Status MemFuncs BinFuncs Strings Vga.

(** The table [BackingFunctions] points to ([krnlfirmware.h]), as set by
    [KiUpdateFirmwareFunctions]. *)
Class KrnlFirmwareFunctions := {
  PutChar : Z -> K ();
  Println : Z -> Z -> K ();
  Backspace : K ();
}.

(** Where the compiler puts a string literal. *)
Class Literals := lit : string -> Z.
(** A literal with a newline at its end. *)
Definition ln (s : string) : string := s +:+ String (Ascii.ascii_of_nat 10) EmptyString.
(** Where it puts the conversion buffer of [KiPrintFmt]. *)
Class FormatBuffer := fmt_buf : Z.

Section Print.
Context `{AS : AddrSpace} `{FW : KrnlFirmwareFunctions} `{LT : Literals} `{FB : FormatBuffer}.

Definition KiPutChar (c : Z) : K FERALSTATUS := PutChar c ;; mret STATUS_SUCCESS.

Definition KiBackspace : K FERALSTATUS := Backspace ;; mret STATUS_SUCCESS.

(** The macro: [f] is the rest of the function. *)
Definition PRINT_LINE_GENERIC (string : Z) (f : Z -> K FERALSTATUS) : K FERALSTATUS :=
  '(FeralStatusError, length) ← KiGetStringLength string 0;
  if negb (status_eqb FeralStatusError STATUS_SUCCESS) then mret FeralStatusError else f length.

Definition KiPrintLine (string : Z) : K FERALSTATUS :=
  PRINT_LINE_GENERIC string (fun length => Println string length ;; mret STATUS_SUCCESS).

Definition KiPrint (string : Z) : K FERALSTATUS :=
  PRINT_LINE_GENERIC string (fun length =>
    for_lt 64 length 1 (fun i => let_ ← load8 (string + i); KiPutChar let_ ;; skip) 0 ;;
    mret STATUS_SUCCESS).

Definition KiMoveCurrentPosition (X Y : Z) : K FERALSTATUS := mret STATUS_UNSUPPORTED_OPERATION.

Definition KiPrintGreyLine (string : Z) : K FERALSTATUS :=
  PRINT_LINE_GENERIC string (fun length =>
    VgaPrintln (color_val VGA_LIGHT_GREY) (color_val VGA_BLACK) string (u32 length) ;;
    mret STATUS_SUCCESS).

Definition KiPrintWarnLine (string : Z) : K FERALSTATUS :=
  PRINT_LINE_GENERIC string (fun length =>
    VgaPrintln (color_val VGA_LIGHT_BROWN) (color_val VGA_BLACK) string (u32 length) ;;
    mret STATUS_SUCCESS).

(** [va_arg]: reading past the arguments passed is undefined. *)
Definition va_arg (args : list Z) : K (Z * list Z) :=
  match args with [] => fault | a :: args => mret (a, args) end.

(** [CHAR buf[n] = {0}] *)
Definition zero_buf (n : Z) : K () :=
  for_lt 64 n 1 (fun i => store8 (fmt_buf + i) 0) 0 ;; skip.

(** Convert a number into the buffer of [n] bytes and print it. *)
Definition print_number (n : Z) (convert : Z -> K FERALSTATUS) : K FERALSTATUS :=
  zero_buf n ;; convert fmt_buf ;; KiPrint fmt_buf.

Definition is_digit (c : Z) : bool := (48 <=? c) && (c <=? 57).

(** The character [cur] after a percent sign, at [index]: the new index and
    the remaining arguments. *)
Definition format_spec (fmt index cur : Z) (args : list Z) : K (Z * list Z) :=
  if cur =? 115 then
    '(v, args) ← va_arg args;
    KiPrint v ;; mret (index, args)
  else if cur =? 105 then
    '(v, args) ← va_arg args;
    print_number 21 (KiItoaSigned (u64 (sx 32 v))) ;; mret (index, args)
  else if cur =? 108 then
    '(v, args) ← va_arg args;
    print_number 21 (KiItoaSigned (u64 (sx 64 v))) ;; mret (index, args)
  else if cur =? 117 then
    '(v, args) ← va_arg args;
    print_number 22 (KiItoa (u64 v)) ;; mret (index, args)
  else if cur =? 120 then
    '(v, args) ← va_arg args;
    print_number 17 (KiItoaBase (u64 v) 16) ;; mret (index, args)
  else if cur =? 37 then
    KiPrint (lit "%") ;; mret (index, args)
  else if is_digit cur then
    let index := u64 (index + 1) in
    c ← load8 (fmt + index);
    (if negb (c =? 0) then
       c ← load8 (fmt + index);
       let repeatedCount := u8 (sx 8 c - 48) in
       for_lt 8 repeatedCount 1 (fun _ => VgaPutChar cur) 0 ;; skip
     else skip) ;;
    mret (index, args)
  else mret (index, args).

(** A character outside a format specification; a [CHAR] is signed. *)
Definition plain_char (cur : Z) : K () :=
  if 32 <=? sx 8 cur then KiPutChar cur ;; skip
  else if cur =? 10 then KiPrintLine (lit "") ;; skip
  else if cur =? 9 then for_lt 31 8 1 (fun _ => KiPrint (lit " ") ;; skip) 0 ;; skip
  else skip.

Definition KiPrintFmt (fmt : Z) (args : list Z) : K FERALSTATUS :=
  cur ← load8 (fmt + 0);
  cloop (fun '(index, cur, upState, args) =>
    if cur =? 0 then mret (inr STATUS_SUCCESS)
    else
      '(index, upState, args) ←
        (if (cur =? 37) && negb upState then mret (index, true, args)
         else if upState : bool then
           '(index, args) ← format_spec fmt index cur args; mret (index, false, args)
         else plain_char cur ;; mret (index, upState, args));
      let index := u64 (index + 1) in
      cur ← load8 (fmt + index);
      mret (inl (index, cur, upState, args))) (0, cur, false, args).

End Print.

(** ** The firmware functions of [mb2entry.c] *)

Section Console.
Context `{AS : AddrSpace}.

Definition GetBiosFirmwareClaim : string := "PC Compatible BIOS (Multiboot 2)".

Definition InternalGetMaxPhysicalAddressFunc : K Z := gets MaxAddress.

(** The [DWORD] length parameter takes the low half of [Len]. *)
Definition InternalVgaPrintln (Str Len : Z) : K () :=
  VgaPrintln (color_val VGA_WHITE) (color_val VGA_BLACK) Str (u32 Len).

Definition InternalVgaBackspace : K () :=
  '(X, Y) ← VgaGetCurrentPosition;
  '(_, _) ← VgaGetFramebufferDimensions;
  if X =? 0 then skip
  else
    let X := u16 (X - 1) in
    VgaMoveCursor X Y ;;
    VgaPutChar 32 ;;
    VgaMoveCursor X Y.

Definition InternalPutChar (C : Z) : K () := VgaPutChar C.

Definition FirmwareFuncs : KrnlFirmwareFunctions :=
  {| PutChar := InternalPutChar; Println := InternalVgaPrintln; Backspace := InternalVgaBackspace |}.

End Console.

(** ** What the firmware promises *)

(** The kernel's state apart from memory, ports and console. *)
Definition others (k : kernel) :=
  (mms k, heap k, kbd k, timer k, (gdtp k, idtp k), bootinfo k, (MaxAddress k, MemoryRangeCount k)).

(** The state of the memory manager, the heap, the keyboard and the timer. *)
Definition managers (k : kernel) := (mms k, heap k, kbd k, timer k).

Lemma others_managers k k' : others k' = others k -> managers k' = managers k.
Proof. unfold others, managers. congruence. Qed.

(** From [k] to [k'] only the memory in [mem], the ports and the console have
    changed. *)
Definition leaves (mem : Z -> Prop) (k k' : kernel) : Prop :=
  others k' = others k /\ forall q, ~ mem q -> rb (ram k') q = rb (ram k) q.

(** Printing terminates from a good state and in a good state, and writes the
    firmware's own memory only; and other memory can change under it. *)
Class FirmwareLaws `{AS : AddrSpace} (FW : KrnlFirmwareFunctions) := {
  fw_inv : kernel -> Prop;
  fw_mem : Z -> Prop;
  fw_ram : forall k, fw_inv k -> ram_ok (ram k);
  fw_put : forall c k, fw_inv k -> exists k', PutChar c k = Ok () k' /\ fw_inv k' /\
    leaves fw_mem k k';
  fw_direct : forall c k, fw_inv k -> exists k', VgaPutChar c k = Ok () k' /\ fw_inv k' /\
    leaves fw_mem k k';
  fw_println : forall s p n k, fw_inv k -> window s p (n + 1) -> 0 <= n < 2 ^ 32 ->
    exists k', Println s n k = Ok () k' /\ fw_inv k' /\
    leaves fw_mem k k';
  fw_coloured : forall fg bg s p n k, fw_inv k -> window s p (n + 1) -> 0 <= n < 2 ^ 32 ->
    exists k', VgaPrintln fg bg s n k = Ok () k' /\ fw_inv k' /\
    leaves fw_mem k k';
  fw_backspace : forall k, fw_inv k -> exists k', Backspace k = Ok () k' /\ fw_inv k' /\
    leaves fw_mem k k';
  fw_frame : forall k k', fw_inv k -> ram_ok (ram k') ->
    vga k' = vga k -> vga_on k' = vga_on k -> fw_inv k';
}.

(** ** What is printed *)

(** The bytes of a string literal. *)
Definition chars (s : string) : list Z :=
  map (fun c => Z.of_N (Ascii.N_of_ascii c)) (String.list_ascii_of_string s).

Inductive out :=
| OChar (c : Z)      (* through the firmware *)
| ODirect (c : Z)    (* straight to the VGA console *)
| OLine.             (* an empty line *)

(** The texts a number may be printed as. *)
Definition number_text (conv v : Z) (t : list Z) : Prop :=
  Forall (fun c => 0 < c < 128) t /\
  if conv =? 105 then parse_signed t = sx 32 v
  else if conv =? 108 then parse_signed t = sx 64 v
  else if conv =? 117 then parse 10 t = u64 v
  else conv = 120 /\ renders 16 (u64 v) t.

(** The format language, over the characters of the format, the arguments and
    the strings ([strs]) that string arguments point to. *)
Inductive fmt_output (strs : Z -> list Z -> Prop) : list Z -> list Z -> list out -> Prop :=
| fo_end args : fmt_output strs [] args []
| fo_char c s args o : 32 <= c < 128 -> c <> 37 -> fmt_output strs s args o ->
    fmt_output strs (c :: s) args (OChar c :: o)
| fo_newline s args o : fmt_output strs s args o -> fmt_output strs (10 :: s) args (OLine :: o)
| fo_tab s args o : fmt_output strs s args o ->
    fmt_output strs (9 :: s) args (replicate 8 (OChar 32) ++ o)
| fo_drop c s args o : 0 < c < 32 \/ 128 <= c < 256 -> c <> 9 -> c <> 10 ->
    fmt_output strs s args o -> fmt_output strs (c :: s) args o
| fo_string v t s args o : strs v t -> fmt_output strs s args o ->
    fmt_output strs (37 :: 115 :: s) (v :: args) (map OChar t ++ o)
| fo_number conv v t s args o : number_text conv v t -> fmt_output strs s args o ->
    fmt_output strs (37 :: conv :: s) (v :: args) (map OChar t ++ o)
| fo_percent s args o : fmt_output strs s args o ->
    fmt_output strs (37 :: 37 :: s) args (OChar 37 :: o)
| fo_repeat d e s args o : is_digit d = true -> fmt_output strs s args o ->
    fmt_output strs (37 :: d :: e :: s) args
      (replicate (Z.to_nat (u8 (sx 8 e - 48))) (ODirect d) ++ o)
| fo_unknown c s args o : c ∉ [115; 105; 108; 117; 120; 37] -> is_digit c = false ->
    fmt_output strs s args o -> fmt_output strs (37 :: c :: s) args o
| fo_lone args : fmt_output strs [37] args [].

(** Formats whose meaning is defined: enough arguments, the strings there, no
    [%l] of the least [INT64], and a character after [%] and a digit. *)
Fixpoint fmt_ok (strs : Z -> list Z -> Prop) (up : bool) (s args : list Z) : Prop :=
  match s with
  | [] => True
  | c :: s =>
      if up then
        if c =? 115 then
          match args with v :: args => (exists t, strs v t) /\ fmt_ok strs false s args | [] => False end
        else if c =? 108 then
          match args with v :: args => sx 64 v <> - 2 ^ 63 /\ fmt_ok strs false s args | [] => False end
        else if (c =? 105) || (c =? 117) || (c =? 120) then
          match args with v :: args => fmt_ok strs false s args | [] => False end
        else if c =? 37 then fmt_ok strs false s args
        else if is_digit c then
          match s with e :: s => fmt_ok strs false s args | [] => False end
        else fmt_ok strs false s args
      else fmt_ok strs (c =? 37) s args
  end.

(** ** Printing runs the output *)

(** Where the conversion buffer is in physical memory, and the physical memory
    the callers of the printing functions use for themselves. *)
Class PrintArea := mkPrintArea { bp : Z; scratch : Z -> Prop }.

Section Output.
Context {AS : AddrSpace} {FW : KrnlFirmwareFunctions} {FL : FirmwareLaws FW}
  {LT : Literals} {FB : FormatBuffer} {PA : PrintArea}.

(** The cells a printing function's caller may also write: the conversion
    buffer and the caller's own memory. *)
Definition in_buf (q : Z) : Prop := bp <= q < bp + 22 \/ scratch q.

(** [prints k o k']: the calls of [o], in order, lead from [k] to [k'], with
    nothing in between but writes to the conversion buffer. *)
Inductive prints : kernel -> list out -> kernel -> Prop :=
| pr_done k : prints k [] k
| pr_char c o k k1 k2 : PutChar c k = Ok () k1 -> others k1 = others k -> prints k1 o k2 -> prints k (OChar c :: o) k2
| pr_direct c o k k1 k2 : VgaPutChar c k = Ok () k1 -> others k1 = others k -> prints k1 o k2 -> prints k (ODirect c :: o) k2
| pr_line o k k1 k2 : Println (lit "") 0 k = Ok () k1 -> others k1 = others k -> prints k1 o k2 -> prints k (OLine :: o) k2
| pr_buffer m o k k2 : (forall q, ~ in_buf q -> rb m q = rb (ram k) q) ->
    prints (with_ram m k) o k2 -> prints k o k2.

Lemma prints_app k o1 k1 o2 k2 : prints k o1 k1 -> prints k1 o2 k2 -> prints k (o1 ++ o2) k2.
Proof. induction 1; intros; simpl; eauto using prints. Qed.

Lemma prints_others k o k' : prints k o k' -> others k' = others k.
Proof.
  induction 1 as [| | | |m o k k2 _ _ IH]; [done|congruence..|]. rewrite IH. by destruct k.
Qed.

(** [k] is a good state in which only the firmware's memory differs from [k0],
    and, if [b], the conversion buffer. *)
Definition held (b : bool) (k0 k : kernel) : Prop :=
  fw_inv k /\ forall q, ~ fw_mem q -> (b = true -> ~ in_buf q) -> rb (ram k) q = rb (ram k0) q.

Lemma held_refl b k : fw_inv k -> held b k k.
Proof. by split. Qed.

Lemma held_trans b k0 k1 k2 : held b k0 k1 -> held b k1 k2 -> held b k0 k2.
Proof. intros [_ H1] [Hi H2]. split; [done|]. intros q Hq Hb. by rewrite H2, H1. Qed.

Lemma held_weaken k0 k : held false k0 k -> held true k0 k.
Proof. intros [Hi H]. split; [done|]. intros. by apply H. Qed.

(** The text [s] lies at [a], out of the firmware's reach. *)
Record text_at (m : gmap Z Z) (a p : Z) (s : list Z) : Prop := mkTextAt {
  tx_null : a <> NULL;
  tx_window : window a p (zlen s + 1);
  tx_chars : cstr m p s;
  tx_short : zlen s < 2 ^ 32;
  tx_safe : forall q, p <= q <= p + zlen s -> ~ fw_mem q;
}.

Lemma text_at_held b k0 k a p s :
  text_at (ram k0) a p s -> held b k0 k ->
  (b = true -> forall q, p <= q <= p + zlen s -> ~ in_buf q) -> text_at (ram k) a p s.
Proof.
  intros [Hn W [Ec Hz] Hl Hs] [_ Hk] Hb. constructor; try done. split; [|done].
  rewrite <- Ec. apply read_bytes_ext. intros q Hq. unfold zlen in *.
  apply Hk; [apply Hs; lia|]. intros Eb. apply (Hb Eb). lia.
Qed.

Lemma length_ok a p s k :
  text_at (ram k) a p s -> KiGetStringLength a 0 k = Ok (STATUS_SUCCESS, zlen s) k.
Proof.
  intros [Hn W Hc Hl _]. rewrite (KiGetStringLength_ok a 0 p s k W ltac:(lia) Hc).
  by rewrite (proj2 (Z.eqb_neq _ _) Hn).
Qed.

Lemma KiPutChar_ok c k : fw_inv k ->
  exists k', KiPutChar c k = Ok STATUS_SUCCESS k' /\ prints k [OChar c] k' /\ held false k k'.
Proof.
  intros Hi. destruct (fw_put c k Hi) as (k' & E & Hi' & Ho & Hf). exists k'.
  unfold KiPutChar. kstep E. split; [done|]. split; [by eauto using prints|]. by split; auto.
Qed.

Lemma KiPrint_ok a p s k :
  fw_inv k -> text_at (ram k) a p s ->
  exists k', KiPrint a k = Ok STATUS_SUCCESS k' /\ prints k (map OChar s) k' /\ held false k k'.
Proof.
  intros Hi Ht. unfold KiPrint, PRINT_LINE_GENERIC. kstep (length_ok _ _ _ _ Ht).
  rewrite status_eqb_refl. cbn [negb]. pose proof (zlen_nonneg s). pose proof (tx_short _ _ _ _ Ht).
  destruct (for_lt_total 64 (zlen s) 1 (fun i => let_ ← load8 (a + i); KiPutChar let_ ;; skip)
    (fun i k' => i <= zlen s /\ prints k (map OChar (take (Z.to_nat i) s)) k' /\ held false k k')
    0 k) as (i & k' & E & (Hle & Hp & Hh) & Hi0 & Hge & _); [lia..| | |].
  - intros i k1 Hir (_ & Hp & Hh).
    pose proof (text_at_held false k k1 a p s Ht Hh ltac:(done)) as [_ W Hc _ _].
    destruct (cstr_char _ _ _ i Hc Hir) as [Ec _].
    kstep (load8_at a p (zlen s + 1) i k1 W ltac:(lia)).
    destruct (KiPutChar_ok (rb (ram k1) (p + i)) k1 (proj1 Hh)) as (k2 & E & Hp2 & Hh2).
    exists k2. kstep E. split; [done|]. split; [lia|]. split; [|by eapply held_trans].
    replace (Z.to_nat (i + 1)) with (S (Z.to_nat i)) by lia.
    rewrite (take_S_r _ _ (rb (ram k1) (p + i))), map_app; [by eapply prints_app|].
    rewrite Ec. destruct (nth_lookup_or_length s (Z.to_nat i) 0); [done|unfold zlen in *; lia].
  - split; [lia|]. split; [constructor|by apply held_refl].
  - kstep E. exists k'. split; [done|]. rewrite take_ge in Hp by (unfold zlen in *; lia). done.
Qed.

Lemma KiPrintLine_empty_ok p k :
  fw_inv k -> text_at (ram k) (lit "") p [] ->
  exists k', KiPrintLine (lit "") k = Ok STATUS_SUCCESS k' /\ prints k [OLine] k' /\ held false k k'.
Proof.
  intros Hi Ht. unfold KiPrintLine, PRINT_LINE_GENERIC. kstep (length_ok _ _ _ _ Ht).
  rewrite status_eqb_refl. cbn [negb]. change (zlen (@nil Z)) with 0.
  destruct (fw_println (lit "") p 0 k Hi (tx_window _ _ _ _ Ht) ltac:(lia)) as (k' & E & Hi' & Ho & Hf).
  exists k'. kstep E. split; [done|]. split; [by eauto using prints|]. by split; auto.
Qed.

(** A write to the conversion buffer. *)
Lemma buffer_held k l :
  fw_inv k -> Forall byte l -> zlen l <= 22 ->
  prints k [] (with_ram (write_bytes (ram k) bp l) k) /\
  held true k (with_ram (write_bytes (ram k) bp l) k).
Proof.
  intros Hi Hl Hn.
  assert (forall q, ~ in_buf q -> rb (write_bytes (ram k) bp l) q = rb (ram k) q) as Hf.
  { intros q Hq. apply rb_write_other. unfold in_buf in Hq. lia. }
  split; [eapply pr_buffer; [exact Hf|constructor]|]. split.
  - apply (fw_frame k); [done| |by destruct k..]. rewrite ram_with_ram.
    apply ram_ok_write; [by apply fw_ram|done].
  - intros q _ Hq. rewrite ram_with_ram. apply Hf. by apply Hq.
Qed.

Record buffer_ok : Prop := mkBufferOk {
  bo_null : fmt_buf <> NULL;
  bo_window : window fmt_buf bp 22;
  bo_safe : forall q, in_buf q -> ~ fw_mem q;
}.

Hypothesis BO : buffer_ok.

Lemma zero_buf_ok n k :
  0 <= n <= 22 -> zero_buf n k = Ok () (with_ram (fill (ram k) bp n 0) k).
Proof.
  intros Hn. unfold zero_buf. destruct BO as [_ W _].
  destruct (for_lt_total 64 n 1 (fun i => store8 (fmt_buf + i) 0)
    (fun i k' => 0 <= i <= n /\ k' = with_ram (fill (ram k) bp i 0) k) 0 k)
    as (i & k' & E & (Hi & ->) & _ & Hge & _); [lia..| | |].
  - intros i k1 Hi [_ ->]. exists (with_ram (fill (ram k) bp (i + 1) 0) k).
    split; [|split; [lia|done]]. apply (set_step fmt_buf 0 bp 22 i); try lia. done.
  - split; [lia|]. unfold fill. simpl. by rewrite with_ram_id.
  - kstep E. by replace i with n by lia.
Qed.

(** The pattern of the numeric conversions. *)
Lemma number_ok n act (R : list Z -> Prop) k :
  0 <= n <= 22 -> fw_inv k ->
  (forall k, fw_inv k -> exists t, act fmt_buf k = Ok STATUS_SUCCESS (with_ram (write_bytes (ram k) bp (t ++ [0])) k)
     /\ Forall (fun c => 0 < c < 128) t /\ zlen t <= 21 /\ R t) ->
  exists t k', print_number n act k = Ok STATUS_SUCCESS k' /\ R t /\
    Forall (fun c => 0 < c < 128) t /\ prints k (map OChar t) k' /\ held true k k'.
Proof.
  intros Hn Hi Hact. unfold print_number. kstep (zero_buf_ok n k Hn).
  destruct (buffer_held k (replicate (Z.to_nat n) 0) Hi) as [Hp1 Hh1].
  { by apply Forall_replicate. }
  { rewrite zlen_replicate. lia. }
  fold (fill (ram k) bp n 0) in Hp1, Hh1. set (k1 := with_ram _ k) in *.
  destruct (Hact k1 (proj1 Hh1)) as (t & E & Ht & Hl & HR). kstep E.
  destruct (buffer_held k1 (t ++ [0]) (proj1 Hh1)) as [Hp2 Hh2].
  { apply Forall_app. split; [|by repeat constructor].
    eapply Forall_impl; [exact Ht|]. unfold byte. simpl. lia. }
  { rewrite zlen_snoc. lia. }
  set (k2 := with_ram _ k1) in *.
  assert (text_at (ram k2) fmt_buf bp t) as Htx.
  { destruct BO as [Hn0 W Hs]. constructor; [done| | |lia|].
    - eapply window_le; [exact W|lia].
    - split.
      + unfold k2. rewrite ram_with_ram. pose proof (read_write_same (ram k1) bp (t ++ [0])) as Hrw.
        rewrite length_app in Hrw. exact Hrw.
      + eapply Forall_impl; [exact Ht|]. simpl. lia.
    - intros q Hq. apply Hs. unfold in_buf. lia. }
  destruct (KiPrint_ok fmt_buf bp t k2 (proj1 Hh2) Htx) as (k3 & E3 & Hp3 & Hh3).
  exists t, k3. rewrite E3. split; [done|]. split; [done|]. split; [done|]. split.
  - apply (prints_app k [] k1 (map OChar t) k3 Hp1). by apply (prints_app k1 [] k2 (map OChar t) k3 Hp2).
  - eapply held_trans; [exact Hh1|]. eapply held_trans; [exact Hh2|]. by apply held_weaken.
Qed.

Lemma renders_chars r v t : renders r v t -> Forall (fun c => 0 < c < 128) t.
Proof. intros (_ & Hc & _). eapply Forall_impl; [exact Hc|]. simpl. lia. Qed.

(** The four numeric conversions. *)
Lemma print_signed v k :
  fw_inv k -> - 2 ^ 63 < v < 2 ^ 63 ->
  exists t k', print_number 21 (KiItoaSigned (u64 v)) k = Ok STATUS_SUCCESS k' /\
    parse_signed t = v /\ Forall (fun c => 0 < c < 128) t /\ prints k (map OChar t) k' /\ held true k k'.
Proof.
  intros Hi Hv. apply number_ok; [lia|done|]. intros k1 Hi1. destruct BO as [_ W _].
  assert (KiItoaSigned (u64 v) fmt_buf = KiItoaSigned v fmt_buf) as ->.
  { unfold KiItoaSigned. by rewrite sx_u. }
  destruct (KiItoaSigned_ok v fmt_buf bp k1) as [[? _]|(t & E & Hp & Hl & Hc)];
    [lia|by apply fw_ram|eapply window_le; [exact W|lia]|lia|].
  exists t. split; [done|]. split; [done|]. split; [lia|done].
Qed.

Lemma print_unsigned v k :
  fw_inv k -> exists t k', print_number 22 (KiItoa (u64 v)) k = Ok STATUS_SUCCESS k' /\
    parse 10 t = u64 v /\ Forall (fun c => 0 < c < 128) t /\ prints k (map OChar t) k' /\ held true k k'.
Proof.
  intros Hi. apply number_ok; [lia|done|]. intros k1 Hi1. destruct BO as [_ W _].
  pose proof (u_range 64 v ltac:(lia)).
  destruct (itoa_base_ok (u64 v) fmt_buf 10 bp 21 k1) as (t & E & Hr & Hn);
    [lia|lia|done|lia|by apply fw_ram|eapply window_le; [exact W|lia]|].
  exists t. unfold KiItoa, internalItoa. rewrite u_idemp. kstep E.
  split; [done|]. split; [by eapply renders_chars|]. split; [lia|apply Hr].
Qed.

Lemma print_hex v k :
  fw_inv k -> exists t k', print_number 17 (KiItoaBase (u64 v) 16) k = Ok STATUS_SUCCESS k' /\
    renders 16 (u64 v) t /\ Forall (fun c => 0 < c < 128) t /\ prints k (map OChar t) k' /\ held true k k'.
Proof.
  intros Hi. apply number_ok; [lia|done|]. intros k1 Hi1. destruct BO as [_ W _].
  pose proof (u_range 64 v ltac:(lia)).
  destruct (itoa_base_ok (u64 v) fmt_buf 16 bp 17 k1) as (t & E & Hr & Hn);
    [lia|lia|done|lia|by apply fw_ram|eapply window_le; [exact W|lia]|].
  exists t. unfold KiItoaBase. kstep E.
  split; [done|]. split; [by eapply renders_chars|]. split; [lia|apply Hr].
Qed.

Lemma repeat_ok w n (act : K ()) o k :
  1 <= w <= 64 -> 0 <= n < 2 ^ w -> fw_inv k ->
  (forall k1, held true k k1 -> exists k2, act k1 = Ok () k2 /\ prints k1 [o] k2 /\ held true k1 k2) ->
  exists i k', for_lt w n 1 (fun _ => act) 0 k = Ok i k' /\
    prints k (replicate (Z.to_nat n) o) k' /\ held true k k'.
Proof.
  intros Hw Hn Hi Hact.
  destruct (for_lt_total w n 1 (fun _ => act)
    (fun i k' => i <= n /\ prints k (replicate (Z.to_nat i) o) k' /\ held true k k') 0 k)
    as (i & k' & E & (Hle & Hp & Hh) & Hi0 & Hge & _); [lia..| | |].
  - intros i k1 Hir (_ & Hp & Hh). destruct (Hact k1 Hh) as (k2 & E & Hp2 & Hh2).
    exists k2. split; [done|]. split; [lia|]. split; [|by eapply held_trans].
    replace (Z.to_nat (i + 1)) with (S (Z.to_nat i)) by lia. rewrite replicate_S_end.
    by eapply prints_app.
  - split; [lia|]. split; [constructor|by apply held_refl].
  - exists i, k'. assert (i = n) as -> by lia. done.
Qed.

(** *** The format loop *)

(** The state the printing starts in, the literals and the format in it. *)
Variable k0 : kernel.

Definition clear_text (a p : Z) (s : list Z) : Prop :=
  text_at (ram k0) a p s /\ forall q, p <= q <= p + zlen s -> ~ in_buf q.

Record literals_ok : Prop := mkLiteralsOk {
  lo_percent : exists p, clear_text (lit "%") p [37];
  lo_space : exists p, clear_text (lit " ") p [32];
  lo_empty : exists p, clear_text (lit "") p [];
}.

Hypothesis LO : literals_ok.

Definition strings (v : Z) (t : list Z) : Prop := exists p, clear_text v p t.

Lemma clear_held a p s k : clear_text a p s -> held true k0 k -> text_at (ram k) a p s.
Proof. intros [Ht Hb] Hh. by apply (text_at_held true k0 k). Qed.

Lemma print_string v t k :
  strings v t -> held true k0 k ->
  exists k', KiPrint v k = Ok STATUS_SUCCESS k' /\ prints k (map OChar t) k' /\ held true k k'.
Proof.
  intros [p Hc] Hh. destruct (KiPrint_ok v p t k (proj1 Hh) (clear_held _ _ _ _ Hc Hh)) as (k' & E & Hp & Hh').
  exists k'. split; [done|]. split; [done|by apply held_weaken].
Qed.

Lemma plain_char_ok c k :
  held true k0 k -> 0 < c < 256 -> c <> 37 ->
  exists o k', plain_char c k = Ok () k' /\ prints k o k' /\ held true k k' /\
    forall s args o', fmt_output strings s args o' -> fmt_output strings (c :: s) args (o ++ o').
Proof.
  intros Hh Hc H37. unfold plain_char.
  assert (sx 8 c = if c <? 128 then c else c - 256) as Es.
  { unfold sx. rewrite u_small by lia. change (2 ^ (8 - 1)) with 128. change (2 ^ 8) with 256.
    destruct (Z.leb_spec 128 c), (Z.ltb_spec c 128); lia. }
  rewrite Es. destruct (Z.leb_spec 32 (if c <? 128 then c else c - 256)) as [Hge|Hlt].
  - assert (32 <= c < 128) by (destruct (Z.ltb_spec c 128); lia).
    destruct (KiPutChar_ok c k (proj1 Hh)) as (k' & E & Hp & Hk).
    exists [OChar c], k'. kstep E. split; [done|]. split; [done|]. split; [by apply held_weaken|].
    intros. by constructor.
  - assert (c < 32 \/ 128 <= c) by (destruct (Z.ltb_spec c 128); lia).
    destruct (Z.eqb_spec c 10) as [->|H10].
    { destruct (lo_empty LO) as (p & Hcl).
      destruct (KiPrintLine_empty_ok p k (proj1 Hh) (clear_held _ _ _ _ Hcl Hh)) as (k' & E & Hp & Hk).
      exists [OLine], k'. kstep E. split; [done|]. split; [done|]. split; [by apply held_weaken|].
      intros. by constructor. }
    destruct (Z.eqb_spec c 9) as [->|H9].
    { destruct (repeat_ok 31 8 (KiPrint (lit " ") ;; skip) (OChar 32) k ltac:(lia) ltac:(lia) (proj1 Hh))
        as (i & k' & E & Hp & Hk).
      - intros k1 Hh1. destruct (print_string (lit " ") [32] k1 (lo_space LO)) as (k2 & E & Hp & Hk).
        { by eapply held_trans. }
        exists k2. by kstep E.
      - exists (replicate 8 (OChar 32)), k'. kstep E. split; [done|]. split; [done|]. split; [done|].
        intros. by constructor. }
    exists [], k. split; [done|]. split; [constructor|]. split; [apply held_refl, Hh|].
    intros. constructor; [lia|done|done|done].
Qed.

(** The format itself: [L] characters at [fmt]. *)
Variables (fmt pf : Z) (format : list Z).
Hypothesis FMT : clear_text fmt pf format.
Hypothesis RAM0 : ram_ok (ram k0).

(** [s] is what is left of the format from index [i] on. *)
Definition rest (i : Z) (s : list Z) : Prop :=
  0 <= i /\ i + zlen s = zlen format /\ cstr (ram k0) (pf + i) s.

Lemma rest_cons i c s :
  rest i (c :: s) -> rest (i + 1) s /\ 0 < c < 256 /\ rb (ram k0) (pf + i) = c.
Proof.
  intros (Hi & Hl & Hs). rewrite zlen_cons in Hl. pose proof (zlen_nonneg s).
  destruct (cstr_char _ _ _ 0 Hs ltac:(rewrite zlen_cons; lia)) as [Ec Hnz].
  rewrite Z.add_0_r in *. simpl in Ec. pose proof (RAM0 (pf + i)) as Hb. unfold byte in Hb.
  split; [|split; [lia|done]]. split; [lia|]. split; [lia|]. destruct Hs as [Hr Hz].
  apply Forall_cons in Hz as [_ Hz]. split; [|done]. simpl in Hr. injection Hr as _ Hr.
  by rewrite Z.add_assoc.
Qed.

Lemma rest_head i s k :
  rest i s -> held true k0 k -> load8 (fmt + i) k = Ok (hd 0 s) k.
Proof.
  intros (Hi & Hl & Hs) Hh. pose proof (zlen_nonneg s).
  pose proof (clear_held _ _ _ _ FMT Hh) as [_ W _ _ Hsafe]. destruct FMT as [_ Hnb].
  rewrite (load8_at fmt pf (zlen format + 1) i k W) by lia. f_equal.
  destruct Hh as [_ Hf]. rewrite Hf; [|apply Hsafe; lia|intros _; apply Hnb; lia].
  destruct s as [|c s].
  - rewrite <- (Z.add_0_r (pf + i)). by apply (cstr_nul _ _ []).
  - destruct (cstr_char _ _ _ 0 Hs ltac:(rewrite zlen_cons; pose proof (zlen_nonneg s); lia)) as [E _].
    rewrite Z.add_0_r in E. exact E.
Qed.

Lemma format_spec_ok i c s args k :
  held true k0 k -> rest i (c :: s) -> fmt_ok strings true (c :: s) args ->
  exists o i' s' args' k', format_spec fmt i c args k = Ok (i', args') k' /\
    prints k o k' /\ held true k k' /\ rest (i' + 1) s' /\ (length s' <= length s)%nat /\
    fmt_ok strings false s' args' /\
    forall o', fmt_output strings s' args' o' -> fmt_output strings (37 :: c :: s) args (o ++ o').
Proof.
  intros Hh Hr Hok. destruct (rest_cons i c s Hr) as (Hr' & Hc & _). unfold format_spec.
  cbn [fmt_ok] in Hok.
  destruct (Z.eqb_spec c 115) as [->|N1].
  { destruct args as [|v args]; [done|]. destruct Hok as [[t Ht] Hok].
    destruct (print_string v t k Ht Hh) as (k' & E & Hp & Hk).
    exists (map OChar t), i, s, args, k'. kstep (ret_ok (v, args) k). kstep E.
    split_and!; try done. intros. by constructor. }
  assert (forall v args t k', args = args -> number_text c v t ->
    prints k (map OChar t) k' -> held true k k' -> fmt_ok strings false s args ->
    exists o i' s' args', Ok (i, args) k' = Ok (i', args') k' /\
    prints k o k' /\ held true k k' /\ rest (i' + 1) s' /\ (length s' <= length s)%nat /\
    fmt_ok strings false s' args' /\
    forall o', fmt_output strings s' args' o' ->
      fmt_output strings (37 :: c :: s) (v :: args) (o ++ o')) as Hnum.
  { intros v args' t k' _ Ht Hp Hk Hok'. exists (map OChar t), i, s, args'.
    split_and!; try done. intros. by constructor. }
  destruct (Z.eqb_spec c 105) as [->|N2].
  { destruct args as [|v args]; [done|]. simpl in Hok.
    assert (- 2 ^ 31 <= sx 32 v < 2 ^ 31) as Hs.
    { unfold sx. pose proof (u_range 32 v ltac:(lia)). change (2 ^ (32 - 1)) with (2 ^ 31).
      destruct (Z.leb_spec (2 ^ 31) (u32 v)); lia. }
    destruct (print_signed (sx 32 v) k (proj1 Hh) ltac:(lia)) as (t & k' & E & Hv & Ht & Hp & Hk).
    kstep (ret_ok (v, args) k). kstep E. 
    destruct (Hnum v args t k' eq_refl (conj Ht Hv) Hp Hk Hok) as (o & i' & s' & a' & ? & ?).
    by exists o, i', s', a', k'. }
  destruct (Z.eqb_spec c 108) as [->|N3].
  { destruct args as [|v args]; [done|]. simpl in Hok. destruct Hok as [Hmin Hok].
    assert (- 2 ^ 63 <= sx 64 v < 2 ^ 63) as Hs.
    { unfold sx. pose proof (u_range 64 v ltac:(lia)). change (2 ^ (64 - 1)) with (2 ^ 63).
      destruct (Z.leb_spec (2 ^ 63) (u64 v)); lia. }
    destruct (print_signed (sx 64 v) k (proj1 Hh) ltac:(lia)) as (t & k' & E & Hv & Ht & Hp & Hk).
    kstep (ret_ok (v, args) k). kstep E. 
    destruct (Hnum v args t k' eq_refl (conj Ht Hv) Hp Hk Hok) as (o & i' & s' & a' & ? & ?).
    by exists o, i', s', a', k'. }
  destruct (Z.eqb_spec c 117) as [->|N4].
  { destruct args as [|v args]; [done|]. simpl in Hok.
    destruct (print_unsigned v k (proj1 Hh)) as (t & k' & E & Hv & Ht & Hp & Hk).
    kstep (ret_ok (v, args) k). kstep E. 
    destruct (Hnum v args t k' eq_refl (conj Ht Hv) Hp Hk Hok) as (o & i' & s' & a' & ? & ?).
    by exists o, i', s', a', k'. }
  destruct (Z.eqb_spec c 120) as [->|N5].
  { destruct args as [|v args]; [done|]. simpl in Hok.
    destruct (print_hex v k (proj1 Hh)) as (t & k' & E & Hv & Ht & Hp & Hk).
    kstep (ret_ok (v, args) k). kstep E. 
    destruct (Hnum v args t k' eq_refl (conj Ht (conj eq_refl Hv)) Hp Hk Hok) as (o & i' & s' & a' & ? & ?).
    by exists o, i', s', a', k'. }
  simpl in Hok. clear Hnum.
  destruct (Z.eqb_spec c 37) as [->|N6].
  { destruct (print_string (lit "%") [37] k (lo_percent LO) Hh) as (k' & E & Hp & Hk).
    exists [OChar 37], i, s, args, k'. kstep E. split_and!; try done. intros. by constructor. }
  destruct (is_digit c) eqn:Ed.
  - destruct s as [|e s]; [done|]. destruct (rest_cons (i + 1) e s Hr') as (Hr2 & He & _).
    assert (i + 1 < 2 ^ 64) as Hi64.
    { destruct Hr as (H0 & H1 & _). pose proof (tx_short _ _ _ _ (proj1 FMT)). rewrite !zlen_cons in H1.
      pose proof (zlen_nonneg s). lia. }
    rewrite u_small by (destruct Hr; lia).
    kstep (rest_head (i + 1) (e :: s) k Hr' Hh). simpl hd.
    rewrite (proj2 (Z.eqb_neq e 0)) by lia. cbn [negb]. rewrite !bind_assoc.
    kstep (rest_head (i + 1) (e :: s) k Hr' Hh). simpl hd.
    pose proof (u_range 8 (sx 8 e - 48) ltac:(lia)).
    destruct (repeat_ok 8 (u8 (sx 8 e - 48)) (VgaPutChar c) (ODirect c) k ltac:(lia) ltac:(lia) (proj1 Hh))
      as (j & k' & E & Hp & Hk).
    { intros k1 [Hi1 _]. destruct (fw_direct c k1 Hi1) as (k2 & E & Hi2 & Ho & Hf). exists k2.
      split; [done|]. split; [eauto using prints|]. split; [done|]. intros. by apply Hf. }
    rewrite !bind_assoc. kstep E. eexists _, (i + 1), s, args, k'. split; [done|].
    split_and!; try done.
    { simpl. lia. }
    intros o' Ho'. by constructor.
  - exists [], i, s, args, k. split_and!; try done; [constructor|apply held_refl, Hh|].
    intros o' Ho'. constructor; [|done|done].
    intros Hin. repeat (apply elem_of_cons in Hin as [?|Hin]; [lia|]). by apply elem_of_nil in Hin.
Qed.

(** The loop from an index on; [up] says whether a percent sign came last. *)
Definition pending (up : bool) (s : list Z) : list Z := if up then 37 :: s else s.

Definition fmt_loop : Z * Z * bool * list Z -> K (Z * Z * bool * list Z + FERALSTATUS) :=
  fun '(index, cur, upState, args) =>
    if cur =? 0 then mret (inr STATUS_SUCCESS)
    else
      '(index, upState, args) ←
        (if (cur =? 37) && negb upState then mret (index, true, args)
         else if upState : bool then
           '(index, args) ← format_spec fmt index cur args; mret (index, false, args)
         else plain_char cur ;; mret (index, upState, args));
      let index := u64 (index + 1) in
      cur ← load8 (fmt + index);
      mret (inl (index, cur, upState, args)).

Lemma fmt_loop_step i c s up args k :
  held true k0 k -> rest i (c :: s) -> fmt_ok strings up (c :: s) args ->
  exists o i' s' up' args' k',
    fmt_loop (i, c, up, args) k = Ok (inl (i', hd 0 s', up', args')) k' /\
    prints k o k' /\ held true k k' /\ rest i' s' /\ (length s' <= length s)%nat /\
    fmt_ok strings up' s' args' /\
    forall o', fmt_output strings (pending up' s') args' o' ->
      fmt_output strings (pending up (c :: s)) args (o ++ o').
Proof.
  intros Hh Hr Hok. destruct (rest_cons i c s Hr) as (Hr' & Hc & _).
  assert (forall i s, rest i s -> u64 i = i) as Hu.
  { intros i1 s1 (H0 & H1 & _). pose proof (tx_short _ _ _ _ (proj1 FMT)).
    pose proof (zlen_nonneg s1). apply u_small. lia. }
  unfold fmt_loop. rewrite (proj2 (Z.eqb_neq c 0)) by lia. destruct up.
  - rewrite andb_false_r.
    destruct (format_spec_ok i c s args k Hh Hr Hok) as (o & i' & s' & args' & k' & E & Hp & Hk & Hr2 & Hl & Hok2 & Ho).
    exists o, (i' + 1), s', false, args', k'. rewrite !bind_assoc. kstep E.
    kstep (ret_ok (i', false, args') k'). rewrite (Hu _ _ Hr2).
    kstep (rest_head _ _ k' Hr2 ltac:(by eapply held_trans)). by split_and!.
  - rewrite andb_true_r. destruct (Z.eqb_spec c 37) as [->|Hne].
    + exists [], (i + 1), s, true, args, k. kstep (ret_ok (i, true, args) k). rewrite (Hu _ _ Hr').
      kstep (rest_head _ _ k Hr' Hh). split_and!; try done; [constructor|apply held_refl, Hh].
    + destruct (plain_char_ok c k Hh Hc Hne) as (o & k' & E & Hp & Hk & Ho).
      cbn [fmt_ok] in Hok. rewrite (proj2 (Z.eqb_neq c 37)) in Hok by done.
      exists o, (i + 1), s, false, args, k'. rewrite !bind_assoc. kstep E.
      kstep (ret_ok (i, false, args) k'). rewrite (Hu _ _ Hr').
      kstep (rest_head _ _ k' Hr' ltac:(by eapply held_trans)). split_and!; try done.
      intros. by apply Ho.
Qed.

Lemma fmt_loop_runs n : forall i s up args k,
  (length s <= n)%nat -> held true k0 k -> rest i s -> fmt_ok strings up s args ->
  exists o k', rounds (S n) fmt_loop (i, hd 0 s, up, args) k = Ok (inr STATUS_SUCCESS) k' /\
    prints k o k' /\ held true k k' /\ fmt_output strings (pending up s) args o.
Proof.
  induction n as [|n IH]; intros i s up args k Hn Hh Hr Hok; destruct s as [|c s]; simpl in Hn; try lia.
  - exists [], k. split; [by apply rounds_inr|]. split; [constructor|]. split; [apply held_refl, Hh|].
    destruct up; [apply fo_lone|apply fo_end].
  - exists [], k. split; [by apply rounds_inr|]. split; [constructor|]. split; [apply held_refl, Hh|].
    destruct up; [apply fo_lone|apply fo_end].
  - destruct (fmt_loop_step i c s up args k Hh Hr Hok)
      as (o & i' & s' & up' & args' & k1 & E & Hp & Hk & Hr2 & Hl & Hok2 & Ho).
    destruct (IH i' s' up' args' k1 ltac:(lia) ltac:(by eapply held_trans) Hr2 Hok2)
      as (o2 & k2 & E2 & Hp2 & Hk2 & Ho2).
    exists (o ++ o2), k2. simpl hd. rewrite (rounds_inl _ _ _ _ _ _ E). split; [exact E2|].
    split; [by eapply prints_app|]. split; [by eapply held_trans|]. by apply Ho.
Qed.

Lemma KiPrintFmt_ok args k :
  held true k0 k -> fmt_ok strings false format args ->
  exists o k', KiPrintFmt fmt args k = Ok STATUS_SUCCESS k' /\
    fmt_output strings format args o /\ prints k o k' /\ held true k k'.
Proof.
  intros Hh Hok.
  assert (rest 0 format) as Hr.
  { split; [lia|]. split; [lia|]. rewrite Z.add_0_r. apply FMT. }
  destruct (fmt_loop_runs (length format) 0 format false args k ltac:(lia) Hh Hr Hok)
    as (o & k' & E & Hp & Hk & Ho).
  exists o, k'. split; [|done]. unfold KiPrintFmt. kstep (rest_head 0 format k Hr Hh).
  apply (cloop_rounds (S (length format))); [exact E|].
  pose proof (tx_short _ _ _ _ (proj1 FMT)). unfold FUEL, zlen in *. lia.
Qed.

(** C8: [KiPrintFmt] on a format and arguments whose meaning is defined always
    returns with success, prints exactly what the format language says
    (characters as they are, strings, the numbers in the notation asked for,
    repetitions, lines), in order, through the firmware's functions, and
    changes no memory but the firmware's and its conversion buffer. *)
Theorem KiPrintFmt_prints (args : list Z) :
  fw_inv k0 -> fmt_ok strings false format args ->
  exists o k', KiPrintFmt fmt args k0 = Ok STATUS_SUCCESS k' /\
    fmt_output strings format args o /\ prints k0 o k' /\ held true k0 k'.
Proof. intros Hi. by apply KiPrintFmt_ok, held_refl. Qed.

End Output.

(** ** Printing literals *)

Section Messages.
Context {AS : AddrSpace} {FW : KrnlFirmwareFunctions} {FL : FirmwareLaws FW}
  {LT : Literals} {FB : FormatBuffer} {PA : PrintArea}.
Hypothesis BO : buffer_ok.

Lemma held_change b k0 k k' :
  held b k0 k -> ram k' = ram k -> vga k' = vga k -> vga_on k' = vga_on k -> held b k0 k'.
Proof.
  intros [Hi Hf] Em Ev Eo. split.
  - apply (fw_frame k); try done. rewrite Em. by apply fw_ram.
  - by rewrite Em.
Qed.

(** The literals [ss], and those of [KiPrintFmt], are where the compiler put
    them, and the console is ready. *)
Record printable (ss : list string) (k0 : kernel) : Prop := mkPrintable {
  pb_inv : fw_inv k0;
  pb_own : literals_ok k0;
  pb_texts : forall s, In s ss -> exists p, clear_text k0 (lit s) p (chars s);
}.

Lemma message_ok ss k0 s args k :
  printable ss k0 -> In s ss -> held true k0 k -> fmt_ok (strings k0) false (chars s) args ->
  exists o k', KiPrintFmt (lit s) args k = Ok STATUS_SUCCESS k' /\
    fmt_output (strings k0) (chars s) args o /\ prints k o k' /\ held true k0 k'.
Proof.
  intros [Hi Ho Ht] Hs Hh Hf. destruct (Ht s Hs) as [p Hc].
  destruct (KiPrintFmt_ok BO k0 Ho (lit s) p (chars s) Hc (fw_ram _ Hi) args k Hh Hf)
    as (o & k' & E & Hout & Hp & Hk). exists o, k'. split_and!; try done. by eapply held_trans.
Qed.

Lemma fmt_ok_mono (P Q : Z -> list Z -> Prop) s : forall up args,
  (forall v t, P v t -> Q v t) -> fmt_ok P up s args -> fmt_ok Q up s args.
Proof.
  induction s as [s IH] using (induction_ltof1 _ (@length Z)). unfold ltof in IH.
  intros up args HPQ. destruct s as [|c s]; [done|]. cbn [fmt_ok].
  assert (forall s' up args, (length s' <= length s)%nat -> fmt_ok P up s' args -> fmt_ok Q up s' args) as IH'
    by (intros; apply IH; simpl; auto with lia).
  assert (forall up args, fmt_ok P up s args -> fmt_ok Q up s args) as IH1 by (intros; by apply IH').
  destruct up; [|auto].
  destruct (c =? 115); [destruct args; [done|]; intros [[t Ht] Hs]; split; eauto|].
  destruct (c =? 108); [destruct args; [done|]; intros [Hm Hs]; split; eauto|].
  destruct (_ || _); [destruct args; [done|]; auto|].
  destruct (c =? 37); [auto|]. destruct (is_digit c); [|auto].
  destruct s as [|e s]; [done|]. apply IH'. simpl. lia.
Qed.

(** Without the caller's memory: what a printing function leaves alone. *)
Definition narrow : PrintArea := mkPrintArea bp (fun _ => False).

Lemma clear_narrow k0 k a p s :
  clear_text k0 a p s -> held true k0 k -> clear_text (PA := narrow) k a p s.
Proof.
  intros Hc Hh. split; [by apply (clear_held k0)|].
  intros q Hq [Hb|[]]. destruct Hc as [_ Hc]. apply (Hc q Hq). by left.
Qed.

Lemma prints_narrow k o k' : prints (PA := narrow) k o k' -> prints k o k'.
Proof.
  induction 1 as [| | | |m o k k2 Hm _ IH]; eauto using prints.
  eapply pr_buffer; [|exact IH]. intros q Hq. apply Hm. intros [?|[]]. apply Hq. by left.
Qed.

(** Printing any text, wherever it is, touches the firmware's memory and the
    conversion buffer only. *)
Lemma print_text k0 a p s args k :
  literals_ok k0 -> held true k0 k -> clear_text (PA := narrow) k a p s ->
  fmt_ok (strings k0) false s args ->
  exists o k', KiPrintFmt a args k = Ok STATUS_SUCCESS k' /\
    fmt_output (strings (PA := narrow) k) s args o /\ prints k o k' /\ held true k0 k' /\
    forall q, ~ fw_mem q -> ~ bp <= q < bp + 22 -> rb (ram k') q = rb (ram k) q.
Proof.
  intros [[p1 H1] [p2 H2] [p3 H3]] Hh Hc Hf.
  assert (buffer_ok (PA := narrow)) as BO'.
  { destruct BO as [? ? Hsafe]. constructor; [done|done|]. intros q [?|[]]. apply Hsafe. by left. }
  assert (literals_ok (PA := narrow) k) as LO'.
  { constructor; eexists; by apply (clear_narrow k0). }
  destruct (KiPrintFmt_ok (PA := narrow) BO' k LO' a p s Hc (fw_ram _ (proj1 Hh)) args k)
    as (o & k' & E & Ho & Hp & Hk').
  - apply (held_refl (PA := narrow)), Hh.
  - eapply fmt_ok_mono; [|exact Hf]. intros v t [pv Hv]. exists pv. by apply (clear_narrow k0).
  - exists o, k'. destruct Hk' as [Hi' Hfr].
    assert (forall q, ~ fw_mem q -> ~ bp <= q < bp + 22 -> rb (ram k') q = rb (ram k) q) as Hq.
    { intros q Hq Hb. apply Hfr; [done|]. by intros _ [?|[]]. }
    split_and!; try done; [by apply prints_narrow|]. eapply held_trans; [exact Hh|]. split; [done|].
    intros q Hn Hb. apply Hq; [done|]. intros ?. apply Hb; [done|]. by left.
Qed.

Lemma message_frame ss k0 s args k :
  printable ss k0 -> In s ss -> held true k0 k -> fmt_ok (strings k0) false (chars s) args ->
  exists o k', KiPrintFmt (lit s) args k = Ok STATUS_SUCCESS k' /\
    fmt_output (strings k0) (chars s) args o /\ prints k o k' /\ held true k0 k' /\
    forall q, ~ fw_mem q -> ~ bp <= q < bp + 22 -> rb (ram k') q = rb (ram k) q.
Proof.
  intros Hp Hs Hh Hf. destruct (message_ok ss k0 s args k Hp Hs Hh Hf) as (o & k' & E & Ho & Hpr & Hk').
  exists o, k'. split_and!; try done. destruct (pb_texts _ _ Hp s Hs) as [p Ht].
  destruct (print_text k0 (lit s) p (chars s) args k (pb_own _ _ Hp) Hh
    (clear_narrow _ _ _ _ _ Ht Hh) Hf) as (o2 & k2 & E2 & _ & _ & _ & Hfr). rewrite E in E2. by injection E2 as <-.
Qed.

(** Messages stay printable while only the callers write. *)
Lemma printable_held ss k k' : printable ss k -> held true k k' -> printable ss k'.
Proof.
  intros [Hi [[p1 H1] [p2 H2] [p3 H3]] Ht] Hh.
  assert (forall a p s, clear_text k a p s -> clear_text k' a p s) as Hc.
  { intros a p s [Hx Hb]. split; [|done]. by apply (text_at_held true k). }
  constructor; [apply Hh|constructor; eauto|]. intros s Hs. destruct (Ht s Hs) as [p Hp]. eauto.
Qed.

(** [k'] differs from [k] by what a printing function does: nothing but the
    firmware's memory, the conversion buffer, the console and the ports. *)
Definition quiet (k k' : kernel) : Prop :=
  fw_inv k' /\ others k' = others k /\
  forall q, ~ fw_mem q -> ~ bp <= q < bp + 22 -> rb (ram k') q = rb (ram k) q.

Lemma quiet_refl k : fw_inv k -> quiet k k.
Proof. by split. Qed.

Lemma quiet_trans k1 k2 k3 : quiet k1 k2 -> quiet k2 k3 -> quiet k1 k3.
Proof. intros (_ & O1 & H1) (Hi & O2 & H2). split; [done|]. split; [congruence|]. intros. by rewrite H2, H1. Qed.

Lemma held_quiet k0 k k' : held true k0 k -> quiet k k' -> held true k0 k'.
Proof.
  intros [_ H] (Hi & _ & H'). split; [done|]. intros q Hq Hb. rewrite H'; [by apply H|done|].
  intros Hp. apply Hb; [done|by left].
Qed.

Lemma quiet_message ss k0 s args k :
  printable ss k0 -> In s ss -> held true k0 k -> fmt_ok (strings k0) false (chars s) args ->
  exists k', KiPrintFmt (lit s) args k = Ok STATUS_SUCCESS k' /\ quiet k k'.
Proof.
  intros Hp Hs Hh Hf. destruct (message_frame ss k0 s args k Hp Hs Hh Hf) as (o & k' & E & _ & Hpr & Hk & Hq).
  exists k'. split; [done|]. split; [apply Hk|]. split; [by apply (prints_others _ o)|done].
Qed.

(** The two functions that print a line as it is. *)
Lemma leaves_quiet k k' : fw_inv k' -> leaves fw_mem k k' -> quiet k k'.
Proof. intros Hi [Ho Hf]. split; [done|]. split; [done|]. intros q Hq _. by apply Hf. Qed.

Lemma KiPrintLine_ok a p s k :
  fw_inv k -> text_at (ram k) a p s -> exists k', KiPrintLine a k = Ok STATUS_SUCCESS k' /\ quiet k k'.
Proof.
  intros Hi Ht. unfold KiPrintLine, PRINT_LINE_GENERIC. kstep (length_ok _ _ _ _ Ht).
  rewrite status_eqb_refl. cbn [negb]. pose proof (zlen_nonneg s). pose proof (tx_short _ _ _ _ Ht).
  destruct (fw_println a p (zlen s) k Hi (tx_window _ _ _ _ Ht) ltac:(lia)) as (k' & E & Hi' & Hl).
  exists k'. kstep E. split; [done|]. by apply leaves_quiet.
Qed.

Lemma KiPrintWarnLine_ok a p s k :
  fw_inv k -> text_at (ram k) a p s -> exists k', KiPrintWarnLine a k = Ok STATUS_SUCCESS k' /\ quiet k k'.
Proof.
  intros Hi Ht. unfold KiPrintWarnLine, PRINT_LINE_GENERIC. kstep (length_ok _ _ _ _ Ht).
  rewrite status_eqb_refl. cbn [negb]. pose proof (zlen_nonneg s). pose proof (tx_short _ _ _ _ Ht) as Hs.
  rewrite (u_small 32) by lia.
  destruct (fw_coloured (color_val VGA_LIGHT_BROWN) (color_val VGA_BLACK) a p (zlen s) k Hi
    (tx_window _ _ _ _ Ht) ltac:(lia)) as (k' & E & Hi' & Hl).
  exists k'. kstep E. split; [done|]. by apply leaves_quiet.
Qed.

(** A sequence of calls of [KiPrintFmt]. *)
Fixpoint print_all (ms : list (string * list Z)) : K () :=
  match ms with
  | [] => skip
  | (s, args) :: ms => KiPrintFmt (lit s) args ;; print_all ms
  end.

(** The same, before the rest of a program. *)
Fixpoint print_then {A} (ms : list (string * list Z)) (f : K A) : K A :=
  match ms with
  | [] => f
  | (s, args) :: ms => KiPrintFmt (lit s) args ;; print_then ms f
  end.

Lemma print_then_all {A} ms (f : K A) k : print_then ms f k = (print_all ms ;; f) k.
Proof.
  revert k. induction ms as [|[s args] ms IH]; intros k; [done|]. simpl. rewrite bind_assoc.
  unfold mbind, K_bind in *. destruct (KiPrintFmt _ _ _); [apply IH|done..].
Qed.

Lemma print_all_ok ss k0 ms k :
  printable ss k0 -> held true k0 k ->
  Forall (fun m => In m.1 ss /\ fmt_ok (strings k0) false (chars m.1) m.2) ms ->
  exists os k', print_all ms k = Ok () k' /\
    Forall2 (fun m o => fmt_output (strings k0) (chars m.1) m.2 o) ms os /\
    prints k (concat os) k' /\ held true k0 k'.
Proof.
  intros Hp Hh Hms. revert k Hh. induction Hms as [|[s args] ms [Hs Hf] _ IH]; intros k Hh.
  - exists [], k. split_and!; try done. constructor.
  - simpl in Hs, Hf. destruct (message_ok ss k0 s args k Hp Hs Hh Hf) as (o & k1 & E & Ho & Hpr & Hh1).
    destruct (IH k1 Hh1) as (os & k2 & E2 & Hos & Hpr2 & Hh2).
    exists (o :: os), k2. simpl. kstep E. split_and!; try done; [by constructor|by eapply prints_app].
Qed.

End Messages.

(** ** The text console keeps the promises *)

Section ConsoleLaws.
Context {AS : AddrSpace}.
Variables (fb pa W H : Z).
Hypothesis G : geometry fb pa W H.

Definition console_inv (k : kernel) : Prop :=
  vga_on k = true /\ context_ok fb W H (vga k) /\ near W H (vga k) /\ ram_ok (ram k).

Lemma console_self k : console_inv k -> console fb pa W H k k.
Proof. intros (Hon & Hc & _ & Hm). constructor; try done. by destruct k. Qed.

(** Running a console operation that keeps the cursor on the screen. *)
Lemma console_run (m : K ()) (P Q : VgaContext -> Prop) k :
  (forall k0, triple (con fb pa W H k0 P) m (fun _ => con fb pa W H k0 Q)) ->
  (forall v, near W H v -> P v) -> (forall v, Q v -> near W H v) -> console_inv k ->
  exists k', m k = Ok () k' /\ console_inv k' /\
    leaves (fun q => pa <= q < pa + 2 * W * H) k k'.
Proof.
  intros Hm HP HQ Hi. pose proof Hi as (_ & _ & Hn & _).
  destruct (Hm k k) as ([] & k' & E & [Es Hon Hc Hr Hf] & Hq); [split; [by apply console_self|auto]|].
  exists k'. split; [done|]. split; [by repeat (split; auto)|]. split; [by rewrite Es; destruct k|]. intros q Hq'. apply Hf. lia.
Qed.

Lemma console_put c k : console_inv k -> exists k', VgaPutChar c k = Ok () k' /\ console_inv k' /\
  leaves (fun q => pa <= q < pa + 2 * W * H) k k'.
Proof. apply (console_run _ anywhere (near W H)); try done. intros k0. by apply tr_PutChar. Qed.

Lemma console_coloured fg bg s p n k :
  console_inv k -> window s p (n + 1) -> 0 <= n < 2 ^ 32 ->
  exists k', VgaPrintln fg bg s n k = Ok () k' /\ console_inv k' /\
  leaves (fun q => pa <= q < pa + 2 * W * H) k k'.
Proof.
  intros Hi Wd Hn.
  apply (console_run _ anywhere (visible W H)); [|done|by apply visible_near|done].
  intros k0. by apply (tr_Println _ _ _ _ G _ _ _ _ _ p).
Qed.

Lemma console_println s p n k :
  console_inv k -> window s p (n + 1) -> 0 <= n < 2 ^ 32 ->
  exists k', InternalVgaPrintln s n k = Ok () k' /\ console_inv k' /\
  leaves (fun q => pa <= q < pa + 2 * W * H) k k'.
Proof.
  intros Hi Wd Hn. unfold InternalVgaPrintln. rewrite u_small by done. by apply (console_coloured _ _ _ p).
Qed.

(** Backing up needs the cursor where [VgaPutChar] leaves it. *)
Lemma tr_Backspace k0 :
  triple (con fb pa W H k0 (near W H)) InternalVgaBackspace (fun _ => con fb pa W H k0 (near W H)).
Proof.
  unfold InternalVgaBackspace, VgaGetCurrentPosition, VgaGetFramebufferDimensions.
  intros k [Hk Hn]. pose proof (con_ctx_eq _ _ _ _ _ _ _ (conj Hk Hn)) as Ec.
  pose proof (con_ctx _ _ _ _ _ _ Hk) as Hc. rewrite !bind_assoc. kstep Ec.
  kstep (ret_ok (CurrentCol (vga k), CurrentRow (vga k)) k). rewrite !bind_assoc. kstep Ec.
  kstep (ret_ok (ScreenWidth (vga k), ScreenHeight (vga k)) k).
  destruct (Z.eqb_spec (CurrentCol (vga k)) 0) as [E|E]; [by exists (), k|].
  destruct Hn as [Hx Hy]. pose proof (c_row _ _ _ _ Hc). pose proof (c_col _ _ _ _ Hc).
  rewrite u_small by lia. set (X := CurrentCol (vga k) - 1). set (Y := CurrentRow (vga k)).
  assert (on_screen W H X Y) as Hs by (unfold on_screen, X, Y; lia).
  assert (triple (con fb pa W H k0 (near W H)) (VgaMoveCursor X Y) (fun _ => con fb pa W H k0 (near W H))) as Hmove.
  { apply (tr_move _ _ _ _ G); [done|done|]. intros v [_ Hr]. unfold near.
    rewrite row_set_col, col_set_col. destruct Hs. lia. }
  apply ((fun T : triple (con fb pa W H k0 (near W H)) (VgaMoveCursor X Y ;; VgaPutChar 32 ;; VgaMoveCursor X Y)
    (fun _ => con fb pa W H k0 (near W H)) => T k (conj Hk (conj Hx Hy)))).
  apply (triple_bind _ _ (fun _ => con fb pa W H k0 (near W H))); [exact Hmove|]. intros _.
  apply (triple_bind _ _ (fun _ => con fb pa W H k0 (near W H))); [|intros _; exact Hmove].
  eapply triple_weaken; [apply (tr_PutChar fb pa W H G k0 32)| |intros ? ? HQ; exact HQ].
  intros k1 [Hk1 _]. by split.
Qed.

Lemma console_backspace k :
  console_inv k -> exists k', InternalVgaBackspace k = Ok () k' /\ console_inv k' /\
  leaves (fun q => pa <= q < pa + 2 * W * H) k k'.
Proof. apply (console_run _ (near W H) (near W H)); try done. intros. apply tr_Backspace. Qed.

Lemma console_change k k' : console_inv k -> ram_ok (ram k') ->
  vga k' = vga k -> vga_on k' = vga_on k -> console_inv k'.
Proof. intros (Hon & Hc & Hn & _) Hm Ev Eo. unfold console_inv. by rewrite Ev, Eo. Qed.

#[program] Definition console_laws : FirmwareLaws FirmwareFuncs :=
  {| fw_inv := console_inv; fw_mem := fun q => pa <= q < pa + 2 * W * H;
     fw_put := console_put; fw_direct := console_put; fw_println := console_println;
     fw_coloured := console_coloured; fw_backspace := console_backspace;
     fw_frame := console_change |}.
Next Obligation. by intros k (_ & _ & _ & ?). Qed.
End ConsoleLaws.

(** ** Literals in memory

    Kernels with the string literals [ss] in memory, 256 bytes apart from
    [0x10000] on, the 80x25 text screen, the conversion buffer at [0x6000] and
    the callers' memory from [0x7000] to [0xF000]. *)

Fixpoint position (s : string) (ss : list string) : Z :=
  match ss with
  | [] => 0
  | s' :: ss => if String.eqb s s' then 0 else 1 + position s ss
  end.

Definition own_literals : list string := ["%"%string; " "%string; EmptyString].

Definition lit_base : Z := 0x10000.
Definition sample_literals (ss : list string) : Literals :=
  fun s => lit_base + 256 * position s (own_literals ++ ss).
Definition sample_buffer : FormatBuffer := 0x6000.
Definition sample_area : PrintArea := mkPrintArea 0x6000 (fun q => 0x7000 <= q < 0xF000).
Definition sample_laws : FirmwareLaws (AS := boot_space) (FirmwareFuncs (AS := boot_space)) :=
  console_laws (AS := boot_space) (KERN_PHYS_TO_VIRT text_base) text_base 80 25 text_geometry.

Fixpoint lit_ram (a : Z) (ss : list string) : gmap Z Z :=
  match ss with
  | [] => ∅
  | s :: ss => write_bytes (lit_ram (a + 256) ss) a (chars s ++ [0])
  end.

Definition sample_kernel (ss : list string) : kernel :=
  with_ram (lit_ram lit_base (own_literals ++ ss)) (text_kernel 3 4).

(** Literal [s] is in memory, decided by running. *)
Definition lit_check (ss : list string) (s : string) : bool :=
  let a := sample_literals ss s in
  bool_decide (read_bytes (ram (sample_kernel ss)) a (length (chars s) + 1) = chars s ++ [0])
  && forallb (fun c => negb (c =? 0)) (chars s)
  && (lit_base <=? a) && (a + 256 <=? 0x80000) && (zlen (chars s) <=? 200).

Lemma chars_byte s : Forall byte (chars s).
Proof.
  unfold chars. apply Forall_map, Forall_true. intros c. unfold byte.
  pose proof (Ascii.N_ascii_bounded c). lia.
Qed.

Lemma lit_ram_ok a ss : ram_ok (lit_ram a ss).
Proof.
  revert a. induction ss as [|s ss IH]; intros a; [apply ram_ok_empty|].
  apply ram_ok_write; [apply IH|]. apply Forall_app. split; [apply chars_byte|].
  repeat constructor; unfold byte; lia.
Qed.

Lemma sample_ram_ok ss : ram_ok (ram (sample_kernel ss)).
Proof. unfold sample_kernel. rewrite ram_with_ram. apply lit_ram_ok. Qed.

Lemma sample_console ss : console_inv (KERN_PHYS_TO_VIRT text_base) 80 25 (sample_kernel ss).
Proof.
  split; [reflexivity|]. split; [|split; [|apply sample_ram_ok]].
  - constructor; try reflexivity; simpl; lia.
  - split; simpl; lia.
Qed.

Lemma sample_text ss s :
  lit_check ss s = true ->
  clear_text (AS := boot_space) (FL := sample_laws) (PA := sample_area) (sample_kernel ss)
    (sample_literals ss s) (sample_literals ss s) (chars s).
Proof.
  unfold lit_check. set (a := sample_literals ss s). unfold lit_base.
  intros H. apply andb_prop in H as [H Hlen]. apply andb_prop in H as [H Ha]. apply andb_prop in H as [H Hlo].
  apply andb_prop in H as [Hr Hz]. apply bool_decide_eq_true in Hr.
  apply Z.leb_le in Hlen, Ha, Hlo. pose proof (zlen_nonneg (chars s)). split.
  - constructor; [unfold NULL; lia|apply boot_window_low; lia| |lia|].
    + split; [done|]. rewrite List.forallb_forall in Hz. apply List.Forall_forall. intros c Hc. specialize (Hz c Hc).
      by apply negb_true_iff, Z.eqb_neq in Hz.
    + intros q Hq. change (~ (text_base <= q < text_base + 2 * 80 * 25)). unfold text_base. lia.
  - intros q Hq [Hb|Hb]; [change (0x6000 <= q < 0x6000 + 22) in Hb|change (0x7000 <= q < 0xF000) in Hb]; lia.
Qed.

Lemma sample_window ss s :
  lit_check ss s = true ->
  window (AS := boot_space) (sample_literals ss s) (sample_literals ss s) 200.
Proof.
  unfold lit_check. set (a := sample_literals ss s). unfold lit_base. intros H.
  apply andb_prop in H as [H _]. apply andb_prop in H as [H Ha]. apply andb_prop in H as [_ Hlo].
  apply Z.leb_le in Ha, Hlo. apply boot_window_low; lia.
Qed.

Lemma sample_buffer_ok :
  buffer_ok (AS := boot_space) (FL := sample_laws) (FB := sample_buffer) (PA := sample_area).
Proof.
  constructor; [done|apply (boot_window_low 0x6000 22); lia|].
  intros q Hb. change (~ (text_base <= q < text_base + 2 * 80 * 25)). unfold text_base.
  destruct Hb as [Hb|Hb]; [change (0x6000 <= q < 0x6000 + 22) in Hb|change (0x7000 <= q < 0xF000) in Hb]; lia.
Qed.

Lemma sample_printable ss :
  forallb (lit_check ss) (own_literals ++ ss) = true ->
  printable (AS := boot_space) (FL := sample_laws) (LT := sample_literals ss) (PA := sample_area)
    ss (sample_kernel ss).
Proof.
  intros H. rewrite List.forallb_forall in H.
  assert (forall s, In s (own_literals ++ ss) -> exists p,
    clear_text (AS := boot_space) (FL := sample_laws) (PA := sample_area) (sample_kernel ss)
      (sample_literals ss s) p (chars s)) as Ht.
  { intros s Hs. eexists. by apply sample_text, H. }
  constructor.
  - apply sample_console.
  - constructor; [apply (Ht "%"%string)|apply (Ht " "%string)|apply (Ht EmptyString)]; simpl; tauto.
  - intros s Hs. apply Ht, in_or_app. by right.
Qed.

(** ** Witness: "%i%%" with the argument -7 *)

Definition sample_format : list string := ["%i%%"%string].

Lemma KiPrintFmt_prints_witness :
  exists (o : list out) k',
    KiPrintFmt (AS := boot_space) (FW := FirmwareFuncs (AS := boot_space))
      (LT := sample_literals sample_format) (FB := sample_buffer)
      (sample_literals sample_format "%i%%") [-7] (sample_kernel sample_format) = Ok STATUS_SUCCESS k' /\
    console_inv (KERN_PHYS_TO_VIRT text_base) 80 25 k' /\ o <> [].
Proof.
  pose proof (sample_printable sample_format ltac:(vm_compute; reflexivity)) as [Hi Hl Ht].
  destruct (KiPrintFmt_prints (AS := boot_space) (LT := sample_literals sample_format)
    (FL := sample_laws) sample_buffer_ok _ Hl _ _ (chars "%i%%")
    (sample_text sample_format "%i%%" ltac:(vm_compute; reflexivity)) (sample_ram_ok _) [-7] Hi)
    as (o & k' & E & Ho & _ & [Hi' _]); [done|].
  exists o, k'. split; [exact E|]. split; [exact Hi'|]. intros ->. inversion Ho; subst; try lia.
  - destruct t; [|done].
    match goal with H : number_text _ _ [] |- _ => destruct H as [_ H]; vm_compute in H; congruence end.
  - match goal with H : _ ∉ _ |- _ => apply H, elem_of_cons; right; apply elem_of_cons; by left end.
Defined.
