(* ===== verification/Tests.v ===== *)
(** * The tests of the memory and string routines ([tests/test_main.c])

    The host program that runs the kernel's routines, with its macros'
    comparisons; what it prints to the standard error is left out.  The tests
    are executed for every placement of their locals and literals, so that
    what they show of the routines on one machine holds on all. *)

From S2P Require Import Prelude Machine Status MemFuncs Strings Vga Print.

Definition TEST_STATUS_OK : Z := 0.
Definition TEST_STATUS_ERR : Z := -1.

(** [struct SomeStruct], without padding: 4, 4 and 88 bytes. *)
Record SomeStruct := mkSomeStruct { Value : Z; SomeOther : list Z; Another : list Z }.

Definition sizeof_SomeStruct : Z := 96.

(** The bytes of an initialised structure: members an initialiser leaves out
    are zero. *)
Definition struct_bytes (s : SomeStruct) : list Z :=
  le_bytes 4 (Value s) ++ SomeOther s ++ replicate (4 - length (SomeOther s)) 0 ++
  concat (le_bytes 8 <$> Another s) ++ replicate (8 * (11 - length (Another s))) 0.

Definition zeroed : SomeStruct := mkSomeStruct 0 [] [].
Definition filled : SomeStruct := mkSomeStruct 4 [97; 98; 99; 100] [11].

(** Where the locals of a test are. *)
Class TestLocals := mkTestLocals { k1 : Z; k2 : Z; Vals : Z; Vals2 : Z }.

Section Tests.
Context `{AS : AddrSpace} `{LT : Literals} `{TL : TestLocals}.

Fixpoint store_bytes (a : Z) (bs : list Z) : K () :=
  match bs with
  | [] => skip
  | b :: bs => store8 a b ;; store_bytes (a + 1) bs
  end.

(** The C library's. *)
Fixpoint memcmp (x y : Z) (n : nat) : K Z :=
  match n with
  | O => mret 0
  | S n =>
      a ← load8 x;
      b ← load8 y;
      if a =? b then memcmp (x + 1) (y + 1) n else mret (if a <? b then -1 else 1)
  end.

(** The macros: what follows one runs when it holds.  The lengths that
    [ASSERT_EQ_MEM] compares as well are two globals that stay zero. *)
Definition ASSERT_EQ_LLD (x y : Z) (rest : K Z) : K Z :=
  if negb (x =? y) then mret TEST_STATUS_ERR else rest.
Definition ASSERT_NEQ_LLD (x y : Z) (rest : K Z) : K Z :=
  if x =? y then mret TEST_STATUS_ERR else rest.
Definition ASSERT_EQ_MEM (x y length : Z) (rest : K Z) : K Z :=
  c ← memcmp x y (Z.to_nat length);
  if negb (c =? 0) then mret TEST_STATUS_ERR else rest.
Definition ASSERT_TRUE (x : Z) (rest : K Z) : K Z := ASSERT_EQ_LLD x 1 rest.
Definition ASSERT_FALSE (x : Z) (rest : K Z) : K Z := ASSERT_EQ_LLD x 0 rest.

Definition KernelMemCpy : K Z :=
  store_bytes k1 (struct_bytes zeroed) ;;
  store_bytes k2 (struct_bytes filled) ;;
  KiCopyMemory k2 k1 sizeof_SomeStruct ;;
  ASSERT_EQ_MEM k1 k2 sizeof_SomeStruct (mret TEST_STATUS_OK).

Definition KernelMemSet : K Z :=
  store_bytes k1 (struct_bytes zeroed) ;;
  store_bytes k2 (struct_bytes filled) ;;
  KiSetMemoryBytes k2 0 sizeof_SomeStruct ;;
  ASSERT_EQ_MEM k1 k2 sizeof_SomeStruct (mret TEST_STATUS_OK).

Definition KernelMemSetNonZero : K Z :=
  store_bytes Vals [79; 79; 79; 79] ;;
  KiSetMemoryBytes Vals2 79 4 ;;
  ASSERT_EQ_MEM Vals Vals2 4 (mret TEST_STATUS_OK).

Definition KernelCStringLength : K Z :=
  '(_, Len1) ← KiGetStringLength (lit "abcdef") 0;
  '(_, Len2) ← KiGetStringLength (lit "fedcba") 0;
  ASSERT_EQ_LLD Len1 Len2 (mret TEST_STATUS_OK).

Definition KernelCStringLengthDiff : K Z :=
  '(_, Len1) ← KiGetStringLength (lit "abcdef") 0;
  '(_, Len2) ← KiGetStringLength (lit "fedcba0") 0;
  ASSERT_NEQ_LLD Len1 Len2 (mret TEST_STATUS_OK).

Definition KernelCompareMemory : K Z :=
  store_bytes k1 (struct_bytes zeroed) ;;
  store_bytes k2 (struct_bytes filled) ;;
  KiCopyMemory k2 k1 sizeof_SomeStruct ;;
  '(_, Value) ← KiCompareMemory k2 k1 sizeof_SomeStruct 0;
  ASSERT_TRUE Value (mret TEST_STATUS_OK).

Definition KernelCompareMemoryNeg : K Z :=
  store_bytes k1 (struct_bytes zeroed) ;;
  store_bytes k2 (struct_bytes filled) ;;
  '(_, Value) ← KiCompareMemory k2 k1 sizeof_SomeStruct 0;
  ASSERT_FALSE Value (mret TEST_STATUS_OK).

Definition Cases : list (K Z) :=
  [KernelCStringLength; KernelCStringLengthDiff; KernelMemCpy; KernelMemSet; KernelCompareMemory;
   KernelCompareMemoryNeg; KernelMemSetNonZero].

(** The loop of [main], with the status it assigns and drops each time. *)
Fixpoint run_cases (cs : list (K Z)) : K (list Z) :=
  match cs with
  | [] => mret []
  | Func :: cs => Status ← Func; rest ← run_cases cs; mret (Status :: rest)
  end.

Definition main : K Z := run_cases Cases ;; mret 0.
End Tests.

(** ** What the tests find *)

Lemma struct_bytes_byte s : Forall byte (SomeOther s) -> Forall byte (struct_bytes s).
Proof.
  intros H. unfold struct_bytes. rewrite !Forall_app, Forall_concat, Forall_fmap. split_and!; try done.
  - apply le_bytes_byte.
  - by apply Forall_replicate.
  - apply Forall_forall. intros x _. apply le_bytes_byte.
  - by apply Forall_replicate.
Qed.

Section Passing.
Context {AS : AddrSpace} {LT : Literals} {TL : TestLocals}.

(** The physical addresses of the locals. *)
Variables p1 p2 pv pw : Z.

Definition in_locals (q : Z) : Prop :=
  p1 <= q < p1 + 96 \/ p2 <= q < p2 + 96 \/ pv <= q < pv + 4 \/ pw <= q < pw + 4.

(** A literal of the tests: there, and apart from the locals. *)
Definition test_literal (k : kernel) (s : string) : Prop :=
  lit s <> NULL /\ exists p, window (lit s) p (zlen (chars s) + 1) /\ cstr (ram k) p (chars s) /\
    forall q, p <= q < p + zlen (chars s) + 1 -> ~ in_locals q.

Record tests_ready (k : kernel) : Prop := mkTestsReady {
  tr_ram : ram_ok (ram k);
  tr_k1 : k1 <> NULL /\ window k1 p1 104;
  tr_k2 : k2 <> NULL /\ window k2 p2 104;
  tr_apart : p1 + 96 <= p2 \/ p2 + 96 <= p1;
  tr_vals : window Vals pv 4 /\ window Vals2 pw 4 /\ (pv + 4 <= pw \/ pw + 4 <= pv);
  tr_literals : Forall (test_literal k) ["abcdef"; "fedcba"; "fedcba0"];
}.

(** What a test leaves: it writes to the locals only. *)
Definition touches (k : kernel) (m : gmap Z Z) : Prop :=
  ram_ok m /\ forall q, ~ in_locals q -> rb m q = rb (ram k) q.

Lemma ready_change k m : tests_ready k -> touches k m -> tests_ready (with_ram m k).
Proof using.
  intros [H1 H2 H3 H4 H5 H6] [Hm Hf]. constructor; rewrite ?ram_with_ram; try done.
  eapply Forall_impl; [exact H6|]. intros s (Hn & p & W & [Hc Hz] & Ha). split; [done|]. exists p.
  split_and!; [done| |done]. rewrite ram_with_ram. split; [|done]. rewrite <- Hc. apply read_bytes_ext.
  intros q Hq. apply Hf, Ha. unfold zlen. lia.
Qed.

Lemma touches_trans k m m' : touches k m -> touches (with_ram m k) m' -> touches k m'.
Proof using.
  intros [_ H1] [H2 H3]. split; [done|]. intros q Hq. rewrite H3 by done. rewrite ram_with_ram. by apply H1.
Qed.

Lemma store_bytes_ok bs : forall a p k,
  window a p (zlen bs) -> Forall byte bs -> store_bytes a bs k = Ok () (with_ram (write_bytes (ram k) p bs) k).
Proof using.
  induction bs as [|b bs IH]; intros a p k W Hb; [cbn; by rewrite with_ram_id|].
  apply Forall_cons in Hb as [Hb Hbs]. rewrite zlen_cons in W. pose proof (zlen_nonneg bs). cbn [store_bytes].
  pose proof (store8_at a p (1 + zlen bs) 0 b k W ltac:(lia) Hb) as E. rewrite !Z.add_0_r in E. kstep E.
  rewrite (IH _ (p + 1)); [by rewrite ram_with_ram, with_ram_with_ram| |done].
  apply (window_sub _ _ (1 + zlen bs)); [done|lia|lia].
Qed.

Lemma memcmp_same n : forall x y p q k,
  window x p (Z.of_nat n) -> window y q (Z.of_nat n) ->
  (forall i, 0 <= i < Z.of_nat n -> rb (ram k) (p + i) = rb (ram k) (q + i)) -> memcmp x y n k = Ok 0 k.
Proof using.
  induction n as [|n IH]; intros x y p q k Wx Wy He; [done|]. cbn [memcmp].
  assert (window x p 1) as W1 by (apply (window_le _ _ (Z.of_nat (S n))); [done|lia]).
  assert (window y q 1) as W2 by (apply (window_le _ _ (Z.of_nat (S n))); [done|lia]).
  kstep (load8_ok x p k W1). kstep (load8_ok y q k W2).
  pose proof (He 0 ltac:(lia)) as E0. rewrite !Z.add_0_r in E0. rewrite E0, Z.eqb_refl.
  apply (IH _ _ (p + 1) (q + 1)); [apply (window_sub _ _ (Z.of_nat (S n))); [done|lia|lia]..|].
  intros i Hi. rewrite <- !Z.add_assoc. apply He. lia.
Qed.

Lemma eq_mem_ok x y n p q k :
  0 <= n -> window x p n -> window y q n -> (forall i, 0 <= i < n -> rb (ram k) (p + i) = rb (ram k) (q + i)) ->
  ASSERT_EQ_MEM x y n (mret TEST_STATUS_OK) k = Ok TEST_STATUS_OK k.
Proof using.
  intros Hn Wx Wy He. unfold ASSERT_EQ_MEM. by kstep (memcmp_same (Z.to_nat n) x y p q k
    ltac:(by rewrite Z2Nat.id) ltac:(by rewrite Z2Nat.id) ltac:(by rewrite Z2Nat.id)).
Qed.

Definition passes (c : K Z) : Prop := forall k, tests_ready k ->
  exists m, c k = Ok TEST_STATUS_OK (with_ram m k) /\ touches k m.

Lemma k1_window k : tests_ready k -> k1 <> NULL /\ window k1 p1 96.
Proof using. intros R. destruct (tr_k1 _ R). split; [done|]. by apply (window_le _ _ 104). Qed.

Lemma k2_window k : tests_ready k -> k2 <> NULL /\ window k2 p2 96.
Proof using. intros R. destruct (tr_k2 _ R). split; [done|]. by apply (window_le _ _ 104). Qed.

(** Both structures initialised. *)
Definition initialised (m : gmap Z Z) : gmap Z Z :=
  write_bytes (write_bytes m p1 (struct_bytes zeroed)) p2 (struct_bytes filled).

Lemma initialise_ok {A} (f : K A) k : tests_ready k ->
  (store_bytes k1 (struct_bytes zeroed) ;; store_bytes k2 (struct_bytes filled) ;; f) k =
    f (with_ram (initialised (ram k)) k) /\ touches k (initialised (ram k)).
Proof using.
  intros R. assert (Forall byte (struct_bytes zeroed) /\ Forall byte (struct_bytes filled)) as [B1 B2].
  { split; apply struct_bytes_byte; repeat constructor; done. }
  assert (zlen (struct_bytes zeroed) = 96 /\ zlen (struct_bytes filled) = 96) as [Z1 Z2] by done.
  destruct (k1_window k R) as [_ W1]. destruct (k2_window k R) as [_ W2]. split.
  - rewrite <- Z1 in W1. rewrite <- Z2 in W2. kstep (store_bytes_ok _ k1 p1 k W1 B1).
    set (ka := with_ram _ k). kstep (store_bytes_ok _ k2 p2 ka W2 B2).
    unfold ka. by rewrite ram_with_ram, with_ram_with_ram.
  - split.
    + apply ram_ok_write; [|done]. apply ram_ok_write; [apply R|done].
    + intros q Hq. unfold in_locals in Hq. unfold initialised.
      rewrite !rb_write_other; [done|rewrite Z1; lia|rewrite Z2; lia].
Qed.

(** A test that leaves both structures alike. *)
Lemma alike_pass m k :
  tests_ready k -> (forall i, 0 <= i < 96 -> rb m (p1 + i) = rb m (p2 + i)) ->
  ASSERT_EQ_MEM k1 k2 sizeof_SomeStruct (mret TEST_STATUS_OK) (with_ram m k) = Ok TEST_STATUS_OK (with_ram m k).
Proof using.
  intros R He. apply (eq_mem_ok k1 k2 96 p1 p2); [done|apply (k1_window k R)|apply (k2_window k R)|by rewrite ram_with_ram].
Qed.

Lemma initialised_bytes m i : p1 + 96 <= p2 \/ p2 + 96 <= p1 -> 0 <= i < 96 ->
  rb (initialised m) (p1 + i) = 0 /\ rb (initialised m) (p2 + i) = nth (Z.to_nat i) (struct_bytes filled) 0.
Proof using.
  intros Ha Hi. assert (zlen (struct_bytes zeroed) = 96 /\ zlen (struct_bytes filled) = 96) as [Z1 Z2] by done.
  assert (struct_bytes zeroed = replicate 96 0) as Ez by done.
  unfold initialised. rewrite !rb_write_bytes, Z1, Z2. rewrite !Z.add_simpl_l, Ez. split; bdestr; simpl andb; cbv iota; try lia;
    first [reflexivity | apply nth_replicate; lia].
Qed.

Lemma copy_ok k : tests_ready k -> exists m,
  KiCopyMemory k2 k1 sizeof_SomeStruct k = Ok STATUS_SUCCESS (with_ram m k) /\ touches k m /\
  forall i, 0 <= i < 96 -> rb m (p1 + i) = rb m (p2 + i).
Proof using.
  intros R. destruct (k1_window k R) as [N1 W1]. destruct (k2_window k R) as [N2 W2]. pose proof (tr_apart _ R) as Ha.
  exists (copied (ram k) p2 p1 96). split; [|split].
  - apply (KiCopyMemory_ok k2 k1 96 p2 p1 k); try done; [apply R|]. change (round4 96) with 96. lia.
  - split.
    + intros q. rewrite rb_copied by done. destruct (_ && _); apply R.
    + intros q Hq. unfold in_locals in Hq. rewrite rb_copied by done. bdestr; simpl; lia || done.
  - intros i Hi. rewrite !rb_copied by done. bdestr; simpl; try lia; f_equal; lia.
Qed.

Lemma MemCpy_passes : passes KernelMemCpy.
Proof using.
  intros k R. unfold KernelMemCpy. destruct (initialise_ok (KiCopyMemory k2 k1 sizeof_SomeStruct ;;
    ASSERT_EQ_MEM k1 k2 sizeof_SomeStruct (mret TEST_STATUS_OK)) k R) as [E T1]. rewrite E.
  destruct (copy_ok _ (ready_change k _ R T1)) as (m & Ec & T2 & He). rewrite with_ram_with_ram in Ec. kstep Ec.
  exists m. split; [by apply alike_pass|by apply (touches_trans _ _ _ T1)].
Qed.

Lemma MemSet_passes : passes KernelMemSet.
Proof using.
  intros k R. unfold KernelMemSet. destruct (initialise_ok (KiSetMemoryBytes k2 0 sizeof_SomeStruct ;;
    ASSERT_EQ_MEM k1 k2 sizeof_SomeStruct (mret TEST_STATUS_OK)) k R) as [E T1]. rewrite E.
  destruct (k2_window k R) as [_ W2]. pose proof (tr_apart _ R) as Ha.
  kstep (KiSetMemoryBytes_ok k2 0 sizeof_SomeStruct p2 (with_ram (initialised (ram k)) k) ltac:(done) ltac:(done) W2).
  rewrite ram_with_ram, with_ram_with_ram. change (round4 sizeof_SomeStruct) with 96.
  set (m := fill _ _ _ _). exists m. assert (forall i, 0 <= i < 96 -> rb m (p1 + i) = 0) as Hz.
  { intros i Hi. unfold m. rewrite rb_fill by done. bdestr; simpl; try done; by apply initialised_bytes. }
  split.
  - apply alike_pass; [done|]. intros i Hi. rewrite Hz by done. unfold m. rewrite rb_fill by done.
    bdestr; simpl; lia || done.
  - apply (touches_trans _ _ _ T1). split; [apply ram_ok_fill; [apply T1|done]|].
    intros q Hq. rewrite ram_with_ram. unfold in_locals in Hq. unfold m. rewrite rb_fill by done. bdestr; simpl; lia || done.
Qed.

Lemma MemSetNonZero_passes : passes KernelMemSetNonZero.
Proof using.
  intros k R. destruct (tr_vals _ R) as (Wv & Ww & Ha). unfold KernelMemSetNonZero.
  kstep (store_bytes_ok [79; 79; 79; 79] Vals pv k Wv ltac:(repeat constructor; done)).
  set (m1 := write_bytes _ _ _). kstep (KiSetMemoryBytes_ok Vals2 79 4 pw (with_ram m1 k) ltac:(done) ltac:(done) Ww).
  rewrite ram_with_ram, with_ram_with_ram. change (round4 4) with 4. exists (fill m1 pw 4 79).
  assert (forall q, rb (fill m1 pw 4 79) q =
    if (pw <=? q) && (q <? pw + 4) then 79 else if (pv <=? q) && (q <? pv + 4) then 79 else rb (ram k) q) as Hq.
  { intros q. rewrite rb_fill by done. unfold m1. rewrite rb_write_bytes. change (zlen [79; 79; 79; 79]) with 4.
    destruct (_ && _); [done|]. destruct ((pv <=? q) && (q <? pv + 4)) eqn:E; [|done].
    apply andb_true_iff in E as [E1%Z.leb_le E2%Z.ltb_lt]. change [79; 79; 79; 79] with (replicate 4 79). by rewrite nth_replicate by lia. }
  split.
  - apply (eq_mem_ok _ _ 4 pv pw); [done..|]. intros i Hi. rewrite ram_with_ram, !Hq. bdestr; simpl; lia || done.
  - split.
    + intros q. rewrite Hq. destruct (_ && _); [done|]. destruct (_ && _); [done|apply R].
    + intros q Hn. unfold in_locals in Hn. rewrite Hq. bdestr; simpl; lia || done.
Qed.

Lemma literal_length s k : tests_ready k -> In s ["abcdef"; "fedcba"; "fedcba0"] -> zlen (chars s) < 2 ^ 64 ->
  KiGetStringLength (lit s) 0 k = Ok (STATUS_SUCCESS, zlen (chars s)) k.
Proof using.
  intros R Hs Hl. destruct (proj1 (List.Forall_forall _ _) (tr_literals _ R) s Hs) as (Hn & p & W & Hc & _).
  rewrite (KiGetStringLength_ok _ 0 p (chars s) k W Hl Hc). by rewrite (proj2 (Z.eqb_neq _ _) Hn).
Qed.

Lemma passes_still k : tests_ready k -> exists m, Ok TEST_STATUS_OK k = Ok TEST_STATUS_OK (with_ram m k) /\ touches k m.
Proof using. intros R. exists (ram k). rewrite with_ram_id. split; [done|]. by split; [apply R|]. Qed.

Lemma CStringLength_passes : passes KernelCStringLength.
Proof using.
  intros k R. unfold KernelCStringLength. kstep (literal_length "abcdef" k R ltac:(simpl; tauto) ltac:(done)).
  kstep (literal_length "fedcba" k R ltac:(simpl; tauto) ltac:(done)). by apply passes_still.
Qed.

Lemma CStringLengthDiff_passes : passes KernelCStringLengthDiff.
Proof using.
  intros k R. unfold KernelCStringLengthDiff. kstep (literal_length "abcdef" k R ltac:(simpl; tauto) ltac:(done)).
  kstep (literal_length "fedcba0" k R ltac:(simpl; tauto) ltac:(done)). by apply passes_still.
Qed.

(** The comparison of the structures, from its two possible answers. *)
Lemma compare_ok k v : tests_ready k -> v = 0 \/ v = 1 ->
  (v = 1 <-> forall i, 0 <= i < 96 -> rb (ram k) (p2 + i) = rb (ram k) (p1 + i)) ->
  KiCompareMemory k2 k1 sizeof_SomeStruct 0 k = Ok (STATUS_SUCCESS, v) k.
Proof using.
  intros R Hv Hi. destruct (tr_k1 _ R) as [N1 W1]. destruct (tr_k2 _ R) as [N2 W2].
  destruct (KiCompareMemory_ok k2 k1 sizeof_SomeStruct 0 p2 p1 k N2 N1 ltac:(done) W2 W1) as (v' & E & Hv' & Hi').
  change (round4 sizeof_SomeStruct) with 96 in Hi'. rewrite E. do 2 f_equal.
  destruct Hv as [->| ->], Hv' as [->| ->]; try done; exfalso; tauto || (assert (0 = 1) by tauto; done).
Qed.

Lemma CompareMemory_passes : passes KernelCompareMemory.
Proof using.
  intros k R. unfold KernelCompareMemory. destruct (initialise_ok (KiCopyMemory k2 k1 sizeof_SomeStruct ;;
    '(_, Value) ← KiCompareMemory k2 k1 sizeof_SomeStruct 0; ASSERT_TRUE Value (mret TEST_STATUS_OK)) k R) as [E T1].
  rewrite E. destruct (copy_ok _ (ready_change k _ R T1)) as (m & Ec & T2 & He). rewrite with_ram_with_ram in Ec. kstep Ec.
  pose proof (touches_trans _ _ _ T1 T2) as T. kstep (compare_ok (with_ram m k) 1 (ready_change k m R T) ltac:(by right) ltac:(rewrite ram_with_ram; split; [intros _ i Hi; by rewrite He|done])).
  by exists m.
Qed.

Lemma CompareMemoryNeg_passes : passes KernelCompareMemoryNeg.
Proof using.
  intros k R. unfold KernelCompareMemoryNeg. destruct (initialise_ok (
    '(_, Value) ← KiCompareMemory k2 k1 sizeof_SomeStruct 0; ASSERT_FALSE Value (mret TEST_STATUS_OK)) k R) as [E T1].
  rewrite E. assert (KiCompareMemory k2 k1 sizeof_SomeStruct 0 (with_ram (initialised (ram k)) k) =
    Ok (STATUS_SUCCESS, 0) (with_ram (initialised (ram k)) k)) as Ec.
  { apply compare_ok; [by apply ready_change|by left|]. rewrite ram_with_ram. split; [done|]. intros H. exfalso.
    destruct (initialised_bytes (ram k) 0 (tr_apart _ R) ltac:(done)) as [E1 E2].
    pose proof (H 0 ltac:(done)) as H0. rewrite E1, E2 in H0. discriminate H0. }
  kstep Ec. by exists (initialised (ram k)).
Qed.

Lemma cases_pass cs : Forall passes cs -> forall k, tests_ready k ->
  exists m, run_cases cs k = Ok (replicate (length cs) TEST_STATUS_OK) (with_ram m k) /\ touches k m.
Proof using.
  induction 1 as [|c cs Hc _ IH]; intros k R.
  { exists (ram k). rewrite with_ram_id. split; [done|]. by split; [apply R|]. }
  destruct (Hc k R) as (m & E & T). destruct (IH _ (ready_change k m R T)) as (m' & E' & T'). cbn [run_cases].
  kstep E. kstep E'. exists m'. rewrite with_ram_with_ram. split; [done|]. by apply (touches_trans _ _ _ T).
Qed.

End Passing.

(** ** Witness: the locals on a stack at 0x7000, the literals from 0x10000 on *)

Definition test_locals : TestLocals := mkTestLocals 0x7000 0x7080 0x7100 0x7110.
Definition test_literals : list string := ["abcdef"%string; "fedcba"%string; "fedcba0"%string].

Lemma sample_test_literal s :
  lit_check test_literals s = true ->
  test_literal (AS := boot_space) (LT := sample_literals test_literals) 0x7000 0x7080 0x7100 0x7110
    (sample_kernel test_literals) s.
Proof.
  intros H. pose proof (sample_text test_literals s H) as [[_ Wt Hc _ _] _].
  unfold lit_check in H. set (a := sample_literals test_literals s) in *. unfold lit_base in H.
  rewrite !andb_true_iff, !Z.leb_le in H.
  split; [change (a <> NULL); unfold NULL; lia|]. exists a. split; [done|]. split; [done|].
  intros q Hq. unfold in_locals. lia.
Qed.

