(* ===== verification/Security.v ===== *)
(** * Security clearances ([sec/secsrv/hydrogen.c])

    The branch-free check of a user's clearance level, and the order on the
    levels it decides. *)

From S2P Require Import Prelude Machine.

(** [SecurityClearanceLevel] of [hydrogen.h]. *)
Inductive SecurityClearanceLevel :=
| SECURITY_LEVEL_UNTRUSTED
| SECURITY_LEVEL_LOW_TRUST
| SECURITY_LEVEL_MED_TRUST
| SECURITY_LEVEL_HIGH_TRUST
| SECURITY_LEVEL_SUPERVISOR
| SECURITY_LEVEL_MANAGER
| SECURITY_LEVEL_ADMINISTRATOR.

#[global] Instance level_eq_dec : EqDecision SecurityClearanceLevel.
Proof. solve_decision. Defined.

Definition level_val (l : SecurityClearanceLevel) : Z :=
  match l with
  | SECURITY_LEVEL_UNTRUSTED => 0
  | SECURITY_LEVEL_LOW_TRUST => 1
  | SECURITY_LEVEL_MED_TRUST => 3
  | SECURITY_LEVEL_HIGH_TRUST => 7
  | SECURITY_LEVEL_SUPERVISOR => 15
  | SECURITY_LEVEL_MANAGER => 31
  | SECURITY_LEVEL_ADMINISTRATOR => 63
  end.

(** The arguments are C enumeration values, so any 32-bit pattern. *)
Definition CheckSecurityClearance (userHas wanted : Z) : Z :=
  let res := u64 (u8 (Z.land userHas wanted)) in
  let wantedAsBits := u64 (u8 wanted) in
  b2z (u64 (wantedAsBits - res) =? 0).

(** ** The order of the levels *)

Definition level_rank (l : SecurityClearanceLevel) : nat :=
  match l with
  | SECURITY_LEVEL_UNTRUSTED => 0
  | SECURITY_LEVEL_LOW_TRUST => 1
  | SECURITY_LEVEL_MED_TRUST => 2
  | SECURITY_LEVEL_HIGH_TRUST => 3
  | SECURITY_LEVEL_SUPERVISOR => 4
  | SECURITY_LEVEL_MANAGER => 5
  | SECURITY_LEVEL_ADMINISTRATOR => 6
  end.

Definition all_levels : list SecurityClearanceLevel :=
  [SECURITY_LEVEL_UNTRUSTED; SECURITY_LEVEL_LOW_TRUST; SECURITY_LEVEL_MED_TRUST;
   SECURITY_LEVEL_HIGH_TRUST; SECURITY_LEVEL_SUPERVISOR; SECURITY_LEVEL_MANAGER;
   SECURITY_LEVEL_ADMINISTRATOR].

Lemma u8_land x y : u8 (Z.land x y) = Z.land (u8 x) (u8 y).
Proof.
  unfold u. apply Z.bits_inj'. intros n Hn. rewrite Z.land_spec.
  destruct (Z.lt_ge_cases n 8).
  - by rewrite !Z.mod_pow2_bits_low, Z.land_spec.
  - by rewrite !Z.mod_pow2_bits_high by lia.
Qed.

Lemma check_subset user wanted :
  CheckSecurityClearance user wanted = b2z (Z.land (u8 user) (u8 wanted) =? u8 wanted).
Proof.
  unfold CheckSecurityClearance. rewrite u8_land.
  pose proof (u_range 8 user ltac:(lia)). pose proof (u_range 8 wanted ltac:(lia)).
  pose proof (land_bound_l (u8 user) (u8 wanted) 8 ltac:(lia) ltac:(lia)).
  rewrite !(u_small 64 (u8 wanted)), (u_small 64 (Z.land _ _)) by lia. f_equal.
  assert (forall x y, 0 <= x < 2 ^ 8 -> 0 <= y < 2 ^ 8 -> u64 (y - x) = 0 -> x = y) as H' by (unfold u; intros; dlia).
  destruct (Z.eqb_spec (Z.land (u8 user) (u8 wanted)) (u8 wanted)) as [->|Hne].
  - by rewrite Z.sub_diag.
  - apply Z.eqb_neq. auto.
Qed.

Lemma land_eq_subset x y :
  0 <= y < 2 ^ 8 -> Z.land x y = y <-> (forall i, 0 <= i < 8 -> Z.testbit y i = true -> Z.testbit x i = true).
Proof.
  intros Hy. split.
  - intros E i _ Hb. rewrite <- E, Z.land_spec in Hb. by apply andb_true_iff in Hb as [? _].
  - intros H. apply Z.bits_inj'. intros i Hi. rewrite Z.land_spec.
    destruct (Z.testbit y i) eqn:E; [|apply andb_false_r]. rewrite andb_true_r. apply H; [|done].
    destruct (Z.lt_ge_cases i 8); [lia|]. rewrite <- (Z.mod_small y (2 ^ 8)), Z.mod_pow2_bits_high in E by lia.
    done.
Qed.

(** access is granted exactly when the user has every one of the eight low
    bits of the level wanted; on the declared levels that is exactly when the
    user's level is at least the one wanted, so a lower level never passes. *)
Theorem CheckSecurityClearance_order :
  (forall userHas wanted, CheckSecurityClearance userHas wanted = 1 <->
     forall i, 0 <= i < 8 -> Z.testbit wanted i = true -> Z.testbit userHas i = true) /\
  (forall a b, CheckSecurityClearance (level_val a) (level_val b) =
     b2z (bool_decide (level_rank b <= level_rank a)%nat)).
Proof.
  split.
  - intros a b. rewrite check_subset.
    assert (forall c i, 0 <= i < 8 -> Z.testbit (u8 c) i = Z.testbit c i) as Hlow.
    { intros c i Hi. unfold u. apply Z.mod_pow2_bits_low. lia. }
    transitivity (Z.land (u8 a) (u8 b) = u8 b).
    { destruct (Z.eqb_spec (Z.land (u8 a) (u8 b)) (u8 b)); split; intros; done. }
    rewrite land_eq_subset by (apply u_range; lia).
    split; intros H i Hi; specialize (H i Hi).
    + by rewrite !Hlow in H by lia.
    + by rewrite !Hlow by lia.
  - intros a b. destruct a, b; vm_compute; reflexivity.
Qed.
