(* ===== verification/Serial.v ===== *)
(** * The serial driver and its debug shell
    ([drivers/serial/serial.c], [drivers/serial/kshell/kshell.c])

    Port programming is stated through a model of the UART's registers, and
    what is sent and received through the trace of port accesses. *)

From S2P Require Import Prelude Machine Status MemFuncs BinFuncs Strings Vga Print.

Definition COM1_PORT : Z := 0x3F8.
Definition SERIAL_INTERRUPT_COMMAND (port : Z) : Z := port + 1.
Definition SERIAL_FIFO_COMMAND (port : Z) : Z := port + 2.
Definition SERIAL_LINE_COMMAND (port : Z) : Z := port + 3.
Definition SERIAL_MODEM_COMMAND (port : Z) : Z := port + 4.
Definition SERIAL_LINE_STATUS (port : Z) : Z := port + 5.
Definition SERIAL_LINE_ENABLE_DLAB : Z := 0x80.

Section Serial.
Context `{AS : AddrSpace} `{DV : Device} `{FW : KrnlFirmwareFunctions} `{LT : Literals} `{FB : FormatBuffer}.

Definition SerialConfigureBaudRate (Port Divisor : Z) : K () :=
  x86outb (SERIAL_LINE_COMMAND Port) SERIAL_LINE_ENABLE_DLAB ;;
  x86outb Port (Z.land (Z.shiftr Divisor 0) 0xFF) ;;
  x86outb (SERIAL_INTERRUPT_COMMAND Port) (Z.land (Z.shiftr Divisor 8) 0xFF).

Definition SerialSetInterrupts (Port Bitmask : Z) : K () :=
  x86outb (SERIAL_FIFO_COMMAND Port) Bitmask.

Definition SerialSetFlags (Port Bitmask : Z) : K () :=
  x86outb (SERIAL_LINE_COMMAND Port) Bitmask.

Definition SerialSetMode (Port Data : Z) : K () :=
  x86outb (SERIAL_FIFO_COMMAND Port) Data.

Definition send_char (Port c Index : Z) : K () :=
  status ← x86inb (SERIAL_LINE_STATUS Port);
  when (negb (Z.land status (Z.shiftl 1 5) =? 0))
    (b ← load8 (c + Index);
     when (b =? 10) (x86outb Port 13) ;;
     b ← load8 (c + Index);
     x86outb Port b).

Definition SerialSend (Port c Len : Z) : K () := for_lt 64 Len 1 (send_char Port c) 0 ;; skip.

Definition SerialRecv (Port Amt Buf : Z) : K () :=
  for_lt 64 Amt 1 (fun Index => v ← x86inb Port; store8 (Buf + Index) v) 0 ;; skip.

(** [Item] is the address of the local variable of that name. *)
Definition InitSerialDevice (Item OutData : Z) : K FERALSTATUS :=
  KiPrintFmt (lit (ln "Initializing serial...")) [] ;;
  SerialSetInterrupts COM1_PORT 0 ;;
  x86outb (SERIAL_LINE_COMMAND COM1_PORT) SERIAL_LINE_ENABLE_DLAB ;;
  SerialConfigureBaudRate COM1_PORT 12 ;;
  x86outb (SERIAL_INTERRUPT_COMMAND COM1_PORT) 0 ;;
  SerialSetFlags COM1_PORT 3 ;;
  SerialSetMode COM1_PORT 0xC7 ;;
  x86outb (SERIAL_MODEM_COMMAND COM1_PORT) 0x0B ;;
  SerialRecv (SERIAL_LINE_STATUS COM1_PORT) 1 Item ;;
  v ← load8 Item;
  if v =? 0xFF then
    KiPrintFmt (lit (ln "%s")) [lit "Unable to initialize serial! (no port)"] ;;
    mret STATUS_ERROR
  else SerialSetInterrupts COM1_PORT 0x02 ;; mret STATUS_SUCCESS.

(** *** kshell.c *)

Definition Prompt : string := "frldbg> ".
Definition PromptLen : Z := 8.

(** [CmdBuffer] is the static buffer's address, [CurChar] the local's. *)
Definition SerialDoKShellPrompt (CmdBuffer CurChar : Z) : K () :=
  SerialSend COM1_PORT (lit Prompt) PromptLen ;;
  KiSetMemoryBytes CmdBuffer 0 1024 ;;
  store8 CurChar 0 ;;
  cloop (fun Index =>
    c ← load8 CurChar;
    if c =? 10 then mret (inr ())
    else
      SerialRecv COM1_PORT 1 CurChar ;;
      c ← load8 CurChar;
      store8 (CmdBuffer + Index) c ;;
      let Index := if negb (Index =? 0) then u16 (Index + 1) else Index in
      mret (inl (Z.rem Index 1024))) 0.
End Serial.

(** ** The UART's registers *)

(** What has been written to a UART: the divisor latch, selected by bit 7 of
    the line control register, and the write-only registers. *)
Record uart := mkUart { divisor_low : Z; divisor_high : Z; IER : Z; FCR : Z; LCR : Z; MCR : Z }.

Definition uart_write (off v : Z) (r : uart) : uart :=
  let 'mkUart dl dh ier fcr lcr mcr := r in
  if off =? 0 then if Z.testbit lcr 7 then mkUart v dh ier fcr lcr mcr else r
  else if off =? 1 then
    if Z.testbit lcr 7 then mkUart dl v ier fcr lcr mcr else mkUart dl dh v fcr lcr mcr
  else if off =? 2 then mkUart dl dh ier v lcr mcr
  else if off =? 3 then mkUart dl dh ier fcr v mcr
  else if off =? 4 then mkUart dl dh ier fcr lcr v
  else r.

(** The registers after the port accesses of a trace, from [r]. *)
Fixpoint uart_of (port : Z) (t : list io_event) (r : uart) : uart :=
  match t with
  | [] => r
  | EvOut p v :: t => uart_write (p - port) v (uart_of port t r)
  | _ :: t => uart_of port t r
  end.

(** The bytes written to a port, in order. *)
Fixpoint sent (port : Z) (t : list io_event) : list Z :=
  match t with
  | [] => []
  | EvOut p v :: t => sent port t ++ (if p =? port then [v] else [])
  | _ :: t => sent port t
  end.

(** A line feed goes out as carriage return and line feed. *)
Definition crlf (b : Z) : list Z := if b =? 10 then [13; 10] else [b].

Lemma outb_ok port v k :
  x86outb port v k = Ok () (with_trace (EvOut (u16 port) (u8 v) :: trace k) k).
Proof. done. Qed.

Lemma trace_with_trace t k : trace (with_trace t k) = t.
Proof. by destruct k. Qed.

Lemma trace_with_ram m k : trace (with_ram m k) = trace k.
Proof. by destruct k. Qed.

Lemma with_trace_twice t t' k : with_trace t (with_trace t' k) = with_trace t k.
Proof. by destruct k. Qed.

Lemma ram_ok_u8 m p v : ram_ok m -> ram_ok (<[p := u8 v]> m).
Proof. intros. apply ram_ok_insert; [done|]. apply (u_range 8). lia. Qed.

Section Theorems.
Context {AS : AddrSpace} {DV : Device}.

Lemma inb_ok port k :
  x86inb port k = Ok (u8 (dev_in8 (trace k) (u16 port)))
    (with_trace (EvIn (u16 port) (u8 (dev_in8 (trace k) (u16 port))) :: trace k) k).
Proof. done. Qed.

(** *** Sending *)

Definition ready (port : Z) (t : list io_event) : bool :=
  Z.testbit (u8 (dev_in8 t (u16 (SERIAL_LINE_STATUS port)))) 5.

(** [t] is [k]'s trace with more on it, and nothing else changed. *)
Definition io_only (k k' : kernel) : Prop := k' = with_trace (trace k') k.

Lemma send_char_ok Port c p s i k :
  window c p (zlen s) -> read_bytes (ram k) p (length s) = s -> Forall byte s ->
  0 <= i < zlen s -> 0 <= Port < 2 ^ 16 - 8 ->
  exists k', send_char Port c i k = Ok () k' /\ io_only k k' /\
    sent Port (trace k') = sent Port (trace k) ++
      (if ready Port (trace k) then crlf (nth (Z.to_nat i) s 0) else []).
Proof.
  intros W Hs Hb Hi HP. unfold send_char. kstep (inb_ok (SERIAL_LINE_STATUS Port) k).
  set (k1 := with_trace _ k). set (st := u8 _) in *.
  assert (load8 (c + i) k1 = Ok (nth (Z.to_nat i) s 0) k1) as Hl.
  { rewrite (load8_at c p (zlen s) i k1 W Hi). f_equal. unfold k1. rewrite ram_with_trace.
    rewrite <- Hs, nth_read_bytes by (unfold zlen in *; lia). f_equal. unfold zlen in *. lia. }
  assert (byte (nth (Z.to_nat i) s 0)) as Hby.
  { apply (proj1 (Forall_nth _ _ s) Hb). unfold zlen in *. lia. }
  assert (sent Port (trace k1) = sent Port (trace k)) as Et by (unfold k1; by rewrite trace_with_trace).
  unfold ready. fold st. change (Z.shiftl 1 5) with (2 ^ 5). rewrite land_pow2.
  destruct (Z.testbit st 5); simpl.
  - kstep Hl. unfold crlf. destruct (Z.eqb_spec (nth (Z.to_nat i) s 0) 10) as [E|E]; simpl.
    + kstep (outb_ok Port 13 k1). 
      assert (forall t, load8 (c + i) (with_trace t k1) = Ok (nth (Z.to_nat i) s 0) (with_trace t k1)) as Hl'.
      { intros t. clear - Hl. unfold load8 in *. destruct (xlate _); [|done]. injection Hl as Hl.
        rewrite ram_with_trace. by rewrite Hl. }
      kstep (Hl' (EvOut (u16 Port) (u8 13) :: trace k1)). rewrite outb_ok, E.
      eexists. split; [done|]. split; [by destruct k|]. rewrite !trace_with_trace. simpl.
      rewrite u_small, Z.eqb_refl by lia. rewrite Et. by rewrite <- app_assoc.
    + kstep (ret_ok () k1). kstep Hl. rewrite outb_ok.
      eexists. split; [done|]. split; [by destruct k|]. rewrite !trace_with_trace. simpl.
      rewrite u_small, Z.eqb_refl, (u_small 8) by (unfold byte in *; lia). by rewrite Et.
  - exists k1. split; [done|]. split; [by destruct k|]. by rewrite app_nil_r.
Qed.

Lemma SerialSend_ok (Port c p : Z) (s : list Z) (k : kernel) :
  window c p (zlen s) -> read_bytes (ram k) p (length s) = s -> Forall byte s ->
  zlen s < 2 ^ 64 - 1 -> 0 <= Port < 2 ^ 16 - 8 ->
  exists k' s', SerialSend Port c (zlen s) k = Ok () k' /\ io_only k k' /\
    s' `sublist_of` s /\ sent Port (trace k') = sent Port (trace k) ++ concat (map crlf s') /\
    ((forall t, ready Port t = true) -> s' = s).
Proof.
  intros W Hs Hb Hl HP. unfold SerialSend. pose proof (zlen_nonneg s).
  destruct (for_lt_total 64 (zlen s) 1 (send_char Port c)
    (fun i k' => i <= zlen s /\ io_only k k' /\ exists s', s' `sublist_of` take (Z.to_nat i) s /\
       sent Port (trace k') = sent Port (trace k) ++ concat (map crlf s') /\
       ((forall t, ready Port t = true) -> s' = take (Z.to_nat i) s)) 0 k)
    as (i & k' & E & (Hle & Hio & s' & Hsub & Hsent & Hall) & Hi0 & Hge & _); [lia..| | |].
  - intros i k1 Hi (_ & Hio & s' & Hsub & Hsent & Hall).
    assert (ram k1 = ram k) as Em by (rewrite Hio; apply ram_with_trace).
    destruct (send_char_ok Port c p s i k1) as (k2 & E & Hio2 & Hsent2); [done|by rewrite Em|done|lia|lia|].
    exists k2. split; [done|]. split; [lia|]. split.
    { unfold io_only in *. rewrite Hio2, Hio. by destruct k. }
    replace (Z.to_nat (i + 1)) with (S (Z.to_nat i)) by lia.
    assert (s !! Z.to_nat i = Some (nth (Z.to_nat i) s 0)) as Hx.
    { destruct (nth_lookup_or_length s (Z.to_nat i) 0); [done|unfold zlen in *; lia]. }
    rewrite (take_S_r _ _ _ Hx).
    destruct (ready Port (trace k1)) eqn:Er.
    + exists (s' ++ [nth (Z.to_nat i) s 0]). split; [by apply sublist_app|]. split.
      * rewrite Hsent2, Hsent, map_app, concat_app, <- app_assoc. simpl. by rewrite app_nil_r.
      * intros Hr. by rewrite Hall.
    + exists s'. split; [by apply sublist_inserts_r|]. split.
      * by rewrite Hsent2, Hsent, app_nil_r.
      * intros Hr. by rewrite Hr in Er.
  - split; [lia|]. split; [by destruct k|]. exists []. rewrite app_nil_r. split; [constructor|]. done.
  - kstep E. exists k', s'. rewrite take_ge in Hsub, Hall by (unfold zlen in *; lia). done.
Qed.


End Theorems.

(** *** Setting the port up *)

Section Init.
Context {AS : AddrSpace} {DV : Device} {FW : KrnlFirmwareFunctions} {FL : FirmwareLaws FW}
  {LT : Literals} {FB : FormatBuffer} {PA : PrintArea}.
Hypothesis BO : buffer_ok.

Definition serial_messages : list string :=
  [ln "Initializing serial..."; ln "%s"; "Unable to initialize serial! (no port)"%string].

(** The port accesses of the initialisation, oldest last, before the status
    is read. *)
Definition init_writes : list io_event :=
  [EvOut 0x3FC 0x0B; EvOut 0x3FA 0xC7; EvOut 0x3FB 3; EvOut 0x3F9 0; EvOut 0x3F9 0;
   EvOut 0x3F8 12; EvOut 0x3FB 0x80; EvOut 0x3FB 0x80; EvOut 0x3FA 0].

Lemma recv_one Port Buf p k :
  window Buf p 1 ->
  SerialRecv Port 1 Buf k =
    let v := u8 (dev_in8 (trace k) (u16 Port)) in
    Ok () (with_ram (<[p := v]> (ram k)) (with_trace (EvIn (u16 Port) v :: trace k) k)).
Proof.
  intros W. unfold SerialRecv. cbv zeta. set (k' := with_ram _ _).
  rewrite (bind_ok _ _ k 1 k'); [done|]. apply for_lt_one; [lia|done|].
  kstep (inb_ok Port k). rewrite Z.add_0_r, (store8_ok Buf p _ _ W). unfold k'.
  by rewrite ram_with_trace, u_idemp.
Qed.

(** The part of the initialisation between its two messages. *)
Lemma init_run Item pi {A} (f : K A) k :
  window Item pi 1 ->
  let v := u8 (dev_in8 (init_writes ++ trace k) 0x3FD) in
  (SerialSetInterrupts COM1_PORT 0 ;;
   x86outb (SERIAL_LINE_COMMAND COM1_PORT) SERIAL_LINE_ENABLE_DLAB ;;
   SerialConfigureBaudRate COM1_PORT 12 ;;
   x86outb (SERIAL_INTERRUPT_COMMAND COM1_PORT) 0 ;;
   SerialSetFlags COM1_PORT 3 ;;
   SerialSetMode COM1_PORT 0xC7 ;;
   x86outb (SERIAL_MODEM_COMMAND COM1_PORT) 0x0B ;;
   SerialRecv (SERIAL_LINE_STATUS COM1_PORT) 1 Item ;; f) k =
  f (with_ram (<[pi := v]> (ram k)) (with_trace (EvIn 0x3FD v :: init_writes ++ trace k) k)).
Proof.
  intros W v. unfold SerialSetInterrupts, SerialConfigureBaudRate, SerialSetFlags, SerialSetMode.
  repeat (rewrite (bind_ok _ _ _ _ _ (outb_ok _ _ _)); cbv beta;
    rewrite ?bind_assoc, ?trace_with_trace, ?with_trace_twice).
  rewrite (bind_ok _ _ _ () _ (recv_one _ _ pi _ W)).
  rewrite trace_with_trace, ram_with_trace, with_trace_twice. reflexivity.
Qed.

Lemma InitSerialDevice_ok (Item OutData pi : Z) (k0 : kernel) :
  printable serial_messages k0 -> window Item pi 1 -> scratch pi ->
  exists k1 st k', InitSerialDevice Item OutData k0 = Ok st k' /\ held true k0 k1 /\ held true k0 k' /\
    others k' = others k0 /\
    (forall q, ~ fw_mem q -> ~ bp <= q < bp + 22 -> q <> pi -> rb (ram k') q = rb (ram k0) q) /\
    let status := u8 (dev_in8 (init_writes ++ trace k1) 0x3FD) in
    (st = STATUS_ERROR <-> status = 0xFF) /\
    (status <> 0xFF -> st = STATUS_SUCCESS /\
       trace k' = [EvOut 0x3FA 2; EvIn 0x3FD status] ++ init_writes ++ trace k1 /\
       forall r, uart_of COM1_PORT (trace k') r =
         mkUart 12 0 (IER (uart_of COM1_PORT (trace k1) r)) 2 3 0x0B).
Proof.
  intros Hp W Hsc.
  destruct (message_frame BO _ k0 (ln "Initializing serial...") [] k0 Hp) as (o & k1 & E & _ & Hp1 & Hh1 & Hf1);
    [by left|apply held_refl, Hp|done|]. pose proof (prints_others _ _ _ Hp1) as Ho1.
  set (status := u8 (dev_in8 (init_writes ++ trace k1) 0x3FD)).
  set (k2 := with_ram (<[pi := status]> (ram k1))
    (with_trace (EvIn 0x3FD status :: init_writes ++ trace k1) k1)).
  assert (held true k0 k2) as Hh2.
  { destruct Hh1 as [Hi Hf]. split.
    - apply (fw_frame k1); [done| |by destruct k1..]. unfold k2. rewrite ram_with_ram.
      apply ram_ok_u8. by apply fw_ram.
    - intros q Hq Hb. unfold k2. rewrite ram_with_ram, rb_insert.
      destruct (Z.eqb_spec pi q) as [<-|]; [|by apply Hf]. exfalso. apply Hb; [done|by right]. }
  assert (others k2 = others k0) as Ho2 by (rewrite <- Ho1; by destruct k1).
  assert (forall q, ~ fw_mem q -> ~ bp <= q < bp + 22 -> q <> pi -> rb (ram k2) q = rb (ram k0) q) as Hf2.
  { intros q Hq Hb Hn. unfold k2. rewrite ram_with_ram, rb_insert, (proj2 (Z.eqb_neq pi q)) by done. by apply Hf1. }
  assert (load8 Item k2 = Ok status k2) as El.
  { rewrite (load8_ok Item pi k2 W). unfold k2 at 1. by rewrite ram_with_ram, rb_insert, Z.eqb_refl. }
  assert (exists st k', InitSerialDevice Item OutData k0 = Ok st k' /\ held true k0 k' /\
    others k' = others k0 /\
    (forall q, ~ fw_mem q -> ~ bp <= q < bp + 22 -> q <> pi -> rb (ram k') q = rb (ram k0) q) /\
    if status =? 0xFF then st = STATUS_ERROR
    else st = STATUS_SUCCESS /\ k' = with_trace (EvOut 0x3FA 2 :: trace k2) k2) as (st & k' & E' & Hh' & Ho' & Hf' & Hst).
  { unfold InitSerialDevice. kstep E. rewrite (init_run Item pi _ k1 W). fold status. fold k2. kstep El.
    destruct (status =? 0xFF).
    - destruct (message_frame BO _ k0 (ln "%s") [lit "Unable to initialize serial! (no port)"] k2 Hp)
        as (o2 & k3 & E3 & _ & Hp3 & Hh3 & Hf3); [right; by left|done| |].
      { split; [|done]. exists (chars "Unable to initialize serial! (no port)").
        apply (pb_texts _ _ Hp). right; right; by left. }
      kstep E3. eexists _, k3. split; [done|]. split; [done|]. split; [|split; [|done]].
      + by rewrite (prints_others _ _ _ Hp3), Ho2.
      + intros q Hq Hb Hn. by rewrite Hf3, Hf2.
    - eexists _, _. unfold SerialSetInterrupts. kstep (outb_ok (SERIAL_FIFO_COMMAND COM1_PORT) 2 k2). split; [done|].
      split; [by apply (held_change _ _ k2); [|destruct k2..]|]. split; [by rewrite <- Ho2; destruct k2|].
      split; [|done]. intros q Hq Hb Hn. rewrite ram_with_trace. by apply Hf2. }
  exists k1, st, k'. split; [done|]. split; [done|]. split; [done|]. split; [done|]. split; [done|]. cbv zeta. fold status.
  destruct (Z.eqb_spec status 0xFF) as [Es|Es]; [by subst|]. destruct Hst as [-> ->].
  split; [done|]. intros _. rewrite trace_with_trace. split; [done|]. split.
  - unfold k2. by destruct k1.
  - intros r. replace (trace k2) with (EvIn 0x3FD status :: init_writes ++ trace k1) by (by destruct k1).
    simpl. by destruct (uart_of COM1_PORT (trace k1) r).
Qed.

(** C31: [InitSerialDevice] fails exactly when the line status reads 0xFF.
    Otherwise it leaves the port, whatever its registers held, with divisor 12
    (9600 baud), 8 data bits without parity, the modem lines on, and with the
    FIFO control register holding 2, which turns off the FIFO it had turned on.
    The interrupt enable register keeps what it held: it is written while the
    divisor latch is selected in its place.  No memory but the caller's and the
    console's is written. *)
Theorem InitSerialDevice_programs (Item OutData pi : Z) (k0 : kernel) :
  printable serial_messages k0 -> window Item pi 1 -> scratch pi ->
  exists k1 st k', InitSerialDevice Item OutData k0 = Ok st k' /\ held true k0 k1 /\ held true k0 k' /\
    let status := u8 (dev_in8 (init_writes ++ trace k1) 0x3FD) in
    (st = STATUS_ERROR <-> status = 0xFF) /\
    (status <> 0xFF -> st = STATUS_SUCCESS /\
       trace k' = [EvOut 0x3FA 2; EvIn 0x3FD status] ++ init_writes ++ trace k1 /\
       forall r, uart_of COM1_PORT (trace k') r =
         mkUart 12 0 (IER (uart_of COM1_PORT (trace k1) r)) 2 3 0x0B).
Proof.
  intros Hp W Hsc. destruct (InitSerialDevice_ok Item OutData pi k0 Hp W Hsc) as (k1 & st & k' & E & H1 & H2 & _ & _ & H3).
  by exists k1, st, k'.
Qed.

End Init.

(** *** The debug shell *)

Section Shell.
Context {AS : AddrSpace} {DV : Device} {LT : Literals}.

(** [reads port t bs t']: reading [port] after the accesses [t] yields [bs]. *)
Inductive reads (port : Z) : list io_event -> list Z -> list io_event -> Prop :=
| rd_done t : reads port t [] t
| rd_next t b bs t' : u8 (dev_in8 t port) = b -> reads port (EvIn port b :: t) bs t' ->
    reads port t (b :: bs) t'.

Definition kshell_loop (CmdBuffer CurChar Index : Z) : K (Z + ()) :=
  c ← load8 CurChar;
  if c =? 10 then mret (inr ())
  else
    SerialRecv COM1_PORT 1 CurChar ;;
    c ← load8 CurChar;
    store8 (CmdBuffer + Index) c ;;
    let Index := if negb (Index =? 0) then u16 (Index + 1) else Index in
    mret (inl (Z.rem Index 1024)).

(** The state after reading [c]. *)
Definition got (pc pcc c : Z) (t : list io_event) (k : kernel) : kernel :=
  with_ram (<[pc := c]> (<[pcc := c]> (ram k))) (with_trace t k).

Lemma kshell_round CmdBuffer CurChar pc pcc k :
  window CmdBuffer pc 1024 -> window CurChar pcc 1 -> rb (ram k) pcc <> 10 ->
  let b := u8 (dev_in8 (trace k) COM1_PORT) in
  kshell_loop CmdBuffer CurChar 0 k =
    Ok (inl 0) (got pc pcc b (EvIn COM1_PORT b :: trace k) k).
Proof.
  intros Wc Ww Hne b. unfold kshell_loop. kstep (load8_ok CurChar pcc k Ww).
  rewrite (proj2 (Z.eqb_neq _ _) Hne). rewrite (bind_ok _ _ _ () _ (recv_one COM1_PORT CurChar pcc k Ww)).
  change (u16 COM1_PORT) with COM1_PORT. fold b. set (k1 := with_ram _ _).
  kstep (load8_ok CurChar pcc k1 Ww). replace (rb (ram k1) pcc) with b.
  2:{ unfold k1. by rewrite ram_with_ram, rb_insert, Z.eqb_refl. }
  assert (0 <= b < 256) by (apply (u_range 8); lia).
  kstep (store8_at CmdBuffer pc 1024 0 b k1 Wc ltac:(lia) ltac:(lia)). rewrite Z.add_0_r. simpl.
  unfold k1, got. rewrite ram_with_ram. destruct k; reflexivity.
Qed.

Lemma kshell_runs CmdBuffer CurChar pc pcc s : forall t t2 m k,
  window CmdBuffer pc 1024 -> window CurChar pcc 1 -> ~ (pc <= pcc < pc + 1024) ->
  Forall (fun c => c <> 10) s -> reads COM1_PORT t (s ++ [10]) t2 ->
  trace k = t -> rb (ram k) pcc <> 10 -> ram k = m ->
  exists k', rounds (length s + 2) (kshell_loop CmdBuffer CurChar) 0 k = Ok (inr ()) k' /\
    trace k' = t2 /\ forall q, rb (ram k') q = if (q =? pc) || (q =? pcc) then 10 else rb m q.
Proof.
  induction s as [|c s IH]; intros t t2 m k Wc Ww Hd Hs Hr Ht Hne Hm; simpl app in Hr; inversion Hr as [|? ? ? ? Hb Hr2]; subst.
  - inversion Hr2; subst. pose proof (kshell_round CmdBuffer CurChar pc pcc k Wc Ww Hne) as E.
    cbv zeta in E. simpl length. change (0 + 2)%nat with 2%nat. rewrite (rounds_inl _ _ _ _ _ _ E).
    set (k1 := got _ _ _ _ _). exists k1. split; [|split].
    + apply rounds_inr. unfold kshell_loop. kstep (load8_ok CurChar pcc k1 Ww).
      unfold k1, got. rewrite ram_with_ram, !rb_insert, Z.eqb_refl.
      rewrite (proj2 (Z.eqb_neq pc pcc)) by lia. by rewrite Hb.
    + unfold k1, got. rewrite Hb. by destruct k.
    + intros q. unfold k1, got. rewrite ram_with_ram, !rb_insert, Hb.
      rewrite (Z.eqb_sym pc q), (Z.eqb_sym pcc q). by destruct (q =? pc), (q =? pcc).
  - apply Forall_cons in Hs as [Hc Hs].
    pose proof (kshell_round CmdBuffer CurChar pc pcc k Wc Ww Hne) as E. cbv zeta in E.
    set (b := u8 (dev_in8 (trace k) COM1_PORT)) in *. set (k1 := got _ _ _ _ _) in E.
    destruct (IH (EvIn COM1_PORT b :: trace k) t2 (ram k1) k1) as (k' & E' & Ht' & Hq); try done.
    + unfold k1, got. by destruct k.
    + unfold k1, got. rewrite ram_with_ram, !rb_insert, Z.eqb_refl.
      by rewrite (proj2 (Z.eqb_neq pc pcc)) by lia.
    + exists k'. split; [|split; [done|]].
      * simpl length. change (S (length s) + 2)%nat with (S (length s + 2)).
        by rewrite (rounds_inl _ _ _ _ _ _ E).
      * intros q. rewrite Hq. unfold k1, got. rewrite ram_with_ram, !rb_insert.
        rewrite (Z.eqb_sym pc q), (Z.eqb_sym pcc q). by destruct (q =? pc), (q =? pcc).
Qed.

(** C33: the debug shell's prompt returns once a line has arrived, whatever the
    line is, and the buffer it leaves holds a line feed and zeros: no
    character of the line is kept, since the index never moves. *)
Theorem SerialDoKShellPrompt_loses_line (CmdBuffer CurChar pc pcc pp : Z) (k : kernel) :
  CmdBuffer <> NULL ->
  window CmdBuffer pc 1024 -> window CurChar pcc 1 -> ~ (pc <= pcc < pc + 1024) ->
  window (lit Prompt) pp 8 -> read_bytes (ram k) pp 8 = chars Prompt ->
  exists k1, SerialSend COM1_PORT (lit Prompt) PromptLen k = Ok () k1 /\
    forall s t2, Forall (fun c => c <> 10) s -> zlen s < 2 ^ 32 ->
    reads COM1_PORT (trace k1) (s ++ [10]) t2 ->
    exists k', SerialDoKShellPrompt CmdBuffer CurChar k = Ok () k' /\ trace k' = t2 /\
      rb (ram k') pc = 10 /\ forall j, 1 <= j < 1024 -> rb (ram k') (pc + j) = 0.
Proof.
  intros Hn Wc Ww Hd Wp Hp.
  destruct (SerialSend_ok COM1_PORT (lit Prompt) pp (chars Prompt) k) as (k1 & s' & E & Hio & _);
    [exact Wp|exact Hp|by repeat constructor|done|done|].
  change (zlen (chars Prompt)) with PromptLen in E.
  exists k1. split; [done|]. intros s t2 Hs Hl Hr. unfold SerialDoKShellPrompt. kstep E.
  kstep (KiSetMemoryBytes_ok CmdBuffer 0 1024 pc k1 ltac:(lia) ltac:(lia) Wc).
  set (k2 := with_ram _ k1). kstep (store8_ok CurChar pcc 0 k2 Ww). set (k3 := with_ram _ k2).
  destruct (kshell_runs CmdBuffer CurChar pc pcc s (trace k1) t2 (ram k3) k3)
    as (k' & E' & Ht & Hq); try done.
  - unfold k3, k2. by destruct k1.
  - unfold k3. by rewrite ram_with_ram, rb_insert, Z.eqb_refl.
  - exists k'. split; [|split; [done|]].
    + apply (cloop_rounds (length s + 2)); [exact E'|]. unfold zlen, FUEL in *. lia.
    + split; [by rewrite Hq, Z.eqb_refl|]. intros j Hj.
      rewrite Hq, (proj2 (Z.eqb_neq _ _)), (proj2 (Z.eqb_neq _ _)) by lia. simpl.
      unfold k3, k2. rewrite !ram_with_ram, rb_insert, (proj2 (Z.eqb_neq _ _)) by lia.
      rewrite rb_fill by done. change (round4 1024) with 1024. bdestr; simpl; lia || done.
Qed.
End Shell.

(** ** Witnesses *)

(** A device that is always ready and always answers with the letter [!]. *)
Definition willing : Device := fun _ _ => 33.


Lemma InitSerialDevice_programs_witness :
  exists k', InitSerialDevice (AS := boot_space) (DV := willing) (FW := FirmwareFuncs (AS := boot_space))
      (LT := sample_literals serial_messages) (FB := sample_buffer) 0x7000 0
      (sample_kernel serial_messages) = Ok STATUS_SUCCESS k' /\
    exists ier, uart_of COM1_PORT (trace k') (mkUart 1 2 3 4 5 6) = mkUart 12 0 ier 2 3 0x0B.
Proof.
  pose proof (sample_printable serial_messages ltac:(vm_compute; reflexivity)) as Hp.
  destruct (InitSerialDevice_programs (AS := boot_space) (DV := willing) (FL := sample_laws)
    (LT := sample_literals serial_messages) (FB := sample_buffer) (PA := sample_area) sample_buffer_ok
    0x7000 0 0x7000 (sample_kernel serial_messages) Hp) as (k1 & st & k' & E & _ & _ & _ & H);
    [apply boot_window_low; lia|simpl; lia|].
  destruct H as (-> & _ & Hu); [vm_compute; congruence|]. exists k'. split; [exact E|].
  eexists. apply Hu.
Defined.

(** A port that is ready and on which "!?" and a line feed are typed. *)
Definition typist : Device := fun t port =>
  if port =? COM1_PORT then
    match t with EvIn _ 33 :: _ => 63 | EvIn _ 63 :: _ => 10 | _ => 33 end
  else 0x20.

Definition prompt_kernel : kernel := sample_kernel [Prompt].

Definition prompt_trace : list io_event :=
  match SerialSend (AS := boot_space) (DV := typist) COM1_PORT
    (sample_literals [Prompt] Prompt) PromptLen prompt_kernel with Ok _ k => trace k | _ => [] end.

Lemma SerialDoKShellPrompt_loses_line_witness :
  exists k', SerialDoKShellPrompt (AS := boot_space) (DV := typist) (LT := sample_literals [Prompt])
      0x5000 0x7000 prompt_kernel = Ok () k' /\ rb (ram k') 0x5000 = 10.
Proof.
  destruct (SerialDoKShellPrompt_loses_line (AS := boot_space) (DV := typist)
    (LT := sample_literals [Prompt]) 0x5000 0x7000 0x5000 0x7000
    (sample_literals [Prompt] Prompt) prompt_kernel) as (k1 & E & H);
    [done|apply boot_window_low; lia|apply boot_window_low; lia|lia
    |apply boot_window_low; vm_compute; congruence|vm_compute; reflexivity|].
  destruct (H [33; 63] ([EvIn COM1_PORT 10; EvIn COM1_PORT 63; EvIn COM1_PORT 33] ++ prompt_trace))
    as (k' & E' & _ & Hb & _); [repeat constructor; lia|done| |eauto].
  assert (trace k1 = prompt_trace) as ->.
  { unfold prompt_trace. change (sample_literals [Prompt] Prompt) with (@lit (sample_literals [Prompt]) Prompt).
    by rewrite E. }
  vm_compute. repeat constructor.
Defined.
