(* ===== verification/Stop.v ===== *)
(** * Stopping the kernel ([sec/sec.c], [sec/stackcheck.c])

    [KiStopError] paints the screen blue, reports the status and hangs.  It is
    the implementation of the interface [StopError] the memory manager is
    written against. *)

From S2P Require Import Prelude Machine Status MemFuncs BinFuncs Strings Vga Pmm Print.

(** What the inline assembly of [KiStopError] leaves in its seven variables:
    its output operands are not early-clobber and the last is never written,
    so nothing is assumed of them. *)
Class StopRegisters := mkStopRegisters {
  reg_a : Z; reg_b : Z; reg_c : Z; reg_d : Z; reg_sp : Z; reg_bp : Z; reg_cr3 : Z;
}.

Definition errorMsg : string :=
  "A problem has been detected and Feral has shutdown to prevent further damage.".
Definition stop_first : string :=
  ln "If this is the first time this error has occured, try restarting your computer.".
Definition stop_persists : string :=
  ln "If the error persists, contact tech support and provide the following info:".
Definition stop_check : string := ln "Bug Check: 0x%x: %s".

Section Stop.
Context `{AS : AddrSpace} `{DV : Device} `{FW : KrnlFirmwareFunctions} `{LT : Literals}
  `{FB : FormatBuffer} `{SR : StopRegisters}.

Definition tab : string := String (Ascii.ascii_of_nat 9) EmptyString.
Definition stop_regs1 : string :=
  ln ("RAX: 0x%x" +:+ tab +:+ " RBX: 0x%x" +:+ tab +:+ " RCX: 0x%x").
Definition stop_regs2 : string :=
  ln ("RDX: 0x%x" +:+ tab +:+ " RSP: 0x%x" +:+ tab +:+ " RBP: 0x%x").
Definition stop_regs3 : string := ln "CR3: 0x%x".

Definition KiStopError (Status : FERALSTATUS) : K FERALSTATUS :=
  KiBlankVgaScreen 25 80 (color_val VGA_BLUE) ;;
  '(_, length) ← KiGetStringLength (lit errorMsg) 0;
  VgaPrintln (color_val VGA_WHITE) (color_val VGA_BLUE) (lit errorMsg) (u32 length) ;;
  KiPrintFmt (lit stop_first) [] ;;
  KiPrintLine (lit "") ;;
  KiPrintFmt (lit stop_persists) [] ;;
  KiPrintFmt (lit stop_check) [status_val Status; lit (KiGetErrorType Status)] ;;
  KiPrintFmt (lit stop_regs1) [reg_a; reg_b; reg_c] ;;
  KiPrintFmt (lit stop_regs2) [reg_d; reg_sp; reg_bp] ;;
  KiPrintFmt (lit stop_regs3) [reg_cr3] ;;
  halt (status_val Status).

(** The interface the rest of the kernel calls it through. *)
Definition stop_error : StopError := fun Status => KiStopError Status ;; skip.

Definition __stack_chk_fail : K () :=
  KiStopError STATUS_STACK_GUARD_VIOLATION ;;
  KiRestoreInterrupts 0 ;;
  halt (status_val STATUS_STACK_GUARD_VIOLATION).
End Stop.

(** ** The report *)

(** The names [KiGetErrorType] can give. *)
Definition error_names : list string := map KiGetErrorType all_status.

Definition stop_literals : list string :=
  [errorMsg; stop_first; stop_persists; stop_check; stop_regs1; stop_regs2; stop_regs3;
   ln EmptyString] ++ error_names.

Section Report.
Context {AS : AddrSpace} {LT : Literals} {FB : FormatBuffer} {PA : PrintArea} {SR : StopRegisters}.
Variables (fb pa : Z).
Hypothesis G : geometry fb pa 80 25.

#[local] Existing Instance FirmwareFuncs.
#[local] Instance report_laws : FirmwareLaws FirmwareFuncs := console_laws fb pa 80 25 G.
Hypothesis BO : buffer_ok.

(** What is reported, as formats and their arguments. *)
Definition stop_report (Status : FERALSTATUS) : list (string * list Z) :=
  [(stop_first, []); (ln EmptyString, []); (stop_persists, []);
   (stop_check, [status_val Status; lit (KiGetErrorType Status)]);
   (stop_regs1, [reg_a; reg_b; reg_c]); (stop_regs2, [reg_d; reg_sp; reg_bp]);
   (stop_regs3, [reg_cr3])].

Lemma console_held k0 k (m : K ()) (P Q : VgaContext -> Prop) :
  (forall k0, triple (con fb pa 80 25 k0 P) m (fun _ => con fb pa 80 25 k0 Q)) ->
  (forall v, near 80 25 v -> P v) -> (forall v, Q v -> near 80 25 v) -> held true k0 k ->
  exists k', m k = Ok () k' /\ held true k0 k'.
Proof.
  intros Hm HP HQ [Hi Hf]. destruct (console_run fb pa 80 25 m P Q k Hm HP HQ Hi) as (k' & E & Hi' & _ & Hf').
  exists k'. split; [done|]. split; [done|]. intros q Hq Hb. by rewrite Hf', Hf.
Qed.

(** The blue screen and its headline. *)
Lemma headline_ok k0 :
  printable stop_literals k0 ->
  exists k1 k2, KiBlankVgaScreen 25 80 (color_val VGA_BLUE) k0 = Ok () k1 /\
    KiGetStringLength (lit errorMsg) 0 k1 = Ok (STATUS_SUCCESS, zlen (chars errorMsg)) k1 /\
    VgaPrintln (color_val VGA_WHITE) (color_val VGA_BLUE) (lit errorMsg)
      (u32 (zlen (chars errorMsg))) k1 = Ok () k2 /\ held true k0 k2.
Proof.
  intros Hp.
  destruct (console_held k0 k0 (KiBlankVgaScreen 25 80 (color_val VGA_BLUE)) anywhere (visible 80 25))
    as (k1 & E1 & Hh1); [|done|by apply visible_near|by apply held_refl, Hp|].
  { intros k. by apply tr_Blank. }
  destruct (pb_texts _ _ Hp errorMsg ltac:(by left)) as [p Ht].
  pose proof (clear_held _ _ _ _ _ Ht Hh1) as Hx.
  destruct (console_held k0 k1 (VgaPrintln (color_val VGA_WHITE) (color_val VGA_BLUE) (lit errorMsg)
    (zlen (chars errorMsg))) anywhere (visible 80 25)) as (k2 & E2 & Hh2);
    [|done|by apply visible_near|done|].
  { intros k. by apply (tr_Println _ _ _ _ G _ _ _ _ _ p (tx_window _ _ _ _ Hx)). }
  exists k1, k2. split; [done|]. split; [by apply (length_ok _ p)|]. done.
Qed.

Lemma name_literal st : In (KiGetErrorType st) stop_literals.
Proof. apply in_or_app. right. apply in_map, all_status_complete. Qed.

Lemma report_fmt_ok k0 st m :
  printable stop_literals k0 -> In m (stop_report st) ->
  In m.1 stop_literals /\ fmt_ok (strings k0) false (chars m.1) m.2.
Proof.
  intros Hp Hm.
  assert (exists t, strings k0 (lit (KiGetErrorType st)) t) as Hn.
  { exists (chars (KiGetErrorType st)). apply (pb_texts _ _ Hp), name_literal. }
  simpl in Hm. repeat (destruct Hm as [<-|Hm]); try done; (split; [simpl; tauto|]); done.
Qed.

Lemma KiStopError_ok Status k0 :
  printable stop_literals k0 ->
  exists k1 os k', KiStopError Status k0 = Halted (status_val Status) k' /\
    held true k0 k1 /\ held true k0 k' /\ prints k1 (concat os) k' /\
    Forall2 (fun m o => fmt_output (strings k0) (chars m.1) m.2 o) (stop_report Status) os.
Proof.
  intros Hp. destruct (headline_ok k0 Hp) as (ka & k1 & E1 & E2 & E3 & Hh1).
  unfold KiStopError. kstep E1. kstep E2. kstep E3.
  destruct (message_ok BO _ k0 stop_first [] k1 Hp) as (o1 & k2 & E4 & Ho1 & Hp1 & Hh2);
    [right; by left|done|done|]. kstep E4.
  destruct (lo_empty _ (pb_own _ _ Hp)) as [pe He].
  destruct (KiPrintLine_empty_ok pe k2 (proj1 Hh2) (clear_held _ _ _ _ _ He Hh2))
    as (k3 & E5 & Hp2 & Hh3). kstep E5.
  apply held_weaken in Hh3. assert (held true k0 k3) as Hh3' by (by eapply held_trans).
  destruct (print_all_ok BO stop_literals k0 (drop 2 (stop_report Status)) k3 Hp Hh3')
    as (os & k' & E6 & Hos & Hp3 & Hh').
  { apply List.Forall_forall. intros m Hm. apply (report_fmt_ok k0 Status); [done|]. right; right. exact Hm. }
  exists k1, (o1 :: [OLine] :: os), k'. split; [|split; [done|split; [done|]]].
  - transitivity (print_then (drop 2 (stop_report Status)) (halt (status_val Status) : K FERALSTATUS) k3).
    + reflexivity.
    + rewrite print_then_all.
      by rewrite (bind_ok _ _ _ _ _ E6).
  - split; [simpl; eapply prints_app; [exact Hp1|]; by apply (prints_app k2 [OLine] k3)|].
    constructor; [done|]. constructor; [|exact Hos]. apply fo_newline, fo_end.
Qed.

(** C34: [KiStopError] never returns: from any state with the text screen and
    its literals in place it reaches its endless loop, after blanking the
    screen and printing the whole report in order - the advice, the status in
    hexadecimal with the name [KiGetErrorType] gives it, and the seven
    registers - and it has written no memory but the screen and the buffers of
    the printing. *)
Theorem KiStopError_reports (Status : FERALSTATUS) (k0 : kernel) :
  printable stop_literals k0 ->
  exists k1 os k', KiStopError Status k0 = Halted (status_val Status) k' /\
    held true k0 k1 /\ held true k0 k' /\ prints k1 (concat os) k' /\
    Forall2 (fun m o => fmt_output (strings k0) (chars m.1) m.2 o) (stop_report Status) os.
Proof. apply KiStopError_ok. Qed.

End Report.

(** ** Witness *)

Definition sample_registers : StopRegisters := mkStopRegisters 1 2 3 4 5 6 7.

Lemma KiStopError_reports_witness :
  exists k', KiStopError (AS := boot_space) (FW := FirmwareFuncs (AS := boot_space))
    (LT := sample_literals stop_literals) (FB := sample_buffer) (SR := sample_registers)
    STATUS_ERROR (sample_kernel stop_literals) = Halted 0xC0000000 k'.
Proof.
  destruct (KiStopError_reports (AS := boot_space) (LT := sample_literals stop_literals)
    (FB := sample_buffer) (PA := sample_area) (SR := sample_registers) _ _ text_geometry
    sample_buffer_ok STATUS_ERROR (sample_kernel stop_literals)) as (k1 & os & k' & E & _).
  - apply (sample_printable stop_literals). vm_compute. reflexivity.
  - exists k'. exact E.
Defined.
