(* ===== verification/Descriptors.v ===== *)
(** * Descriptor tables ([kern/arch/x86_64/archstart.c],
    [kern/arch/x86_64/interrupts.c], [inc/arch/x86_64/cpuinfo.h],
    [inc/arch/x86_64/idt/idt.h])

    The segment and interrupt descriptors the kernel builds in memory and
    loads, field by field as the code assigns them. *)

From S2P Require Import Prelude Machine Status MemFuncs.

Definition store16 `{AS : AddrSpace} := storen 2.

(** The static tables' addresses. *)
Class DescriptorTables := mkTables { GDTEntries : Z; IDT : Z }.

(** ** The global descriptor table *)

Definition sizeof_GDTEntry : Z := 8.

(** [GDTEntry]: offsets of the fields, and for those of [AsBits] the byte, the
    lowest bit and the width. *)
Inductive GDTBits :=
| Accessed | ReadWritable | Direction | Executable | System | PrivLevel | Present
| LimitHigh | RESERVED | SixtyFourMode | SizeBit | Granularity.

Definition gdt_bits (f : GDTBits) : Z * Z * Z :=
  match f with
  | Accessed => (5, 0, 1)
  | ReadWritable => (5, 1, 1)
  | Direction => (5, 2, 1)
  | Executable => (5, 3, 1)
  | System => (5, 4, 1)
  | PrivLevel => (5, 5, 2)
  | Present => (5, 7, 1)
  | LimitHigh => (6, 0, 4)
  | RESERVED => (6, 4, 1)
  | SixtyFourMode => (6, 5, 1)
  | SizeBit => (6, 6, 1)
  | Granularity => (6, 7, 1)
  end.

Definition GDT_Limit : Z := 0.
Definition GDT_Base : Z := 2.
Definition GDT_High : Z := 4.

(** Assigning a bit-field of a byte. *)
Definition set_bits (lo width v b : Z) : Z :=
  Z.lor (Z.ldiff b (Z.shiftl (Z.ones width) lo)) (Z.shiftl (Z.land v (Z.ones width)) lo).

Section GDT.
Context `{AS : AddrSpace} `{DT : DescriptorTables}.

Definition gdt_entry (i : Z) : Z := GDTEntries + sizeof_GDTEntry * i.

(** [GDTEntries[i].Base = 0; .High = 0; .Limit = 0] *)
Definition gdt_clear (i : Z) : K () :=
  store16 (gdt_entry i + GDT_Base) 0 ;;
  store32 (gdt_entry i + GDT_High) 0 ;;
  store16 (gdt_entry i + GDT_Limit) 0.

(** [GDTEntries[i].AsBits.f = v] *)
Definition gdt_set (i : Z) (f : GDTBits) (v : Z) : K () :=
  let '(byte, lo, width) := gdt_bits f in
  b ← load8 (gdt_entry i + byte);
  store8 (gdt_entry i + byte) (set_bits lo width v b).

(** [lgdt] and [lidt]. *)
Definition x86_install_gdt (Pointer : DescPointer) : K () := emit (EvLgdt Pointer).
Definition x86_install_idt (Pointer : DescPointer) : K () := emit (EvLidt Pointer).

Definition x86InitializeGDT : K () :=
  let Limit := 5 in
  gdt_clear 0 ;;
  gdt_clear 1 ;;
  gdt_set 1 SixtyFourMode 1 ;;
  gdt_set 1 Present 1 ;;
  gdt_set 1 System 1 ;;
  gdt_set 1 Executable 1 ;;
  gdt_set 1 ReadWritable 1 ;;
  gdt_set 1 Granularity 1 ;;
  gdt_clear 2 ;;
  gdt_set 2 SixtyFourMode 1 ;;
  gdt_set 2 Present 1 ;;
  gdt_set 2 System 1 ;;
  gdt_set 2 ReadWritable 1 ;;
  gdt_clear 3 ;;
  gdt_set 3 SixtyFourMode 1 ;;
  gdt_set 3 Present 1 ;;
  gdt_set 3 System 1 ;;
  gdt_set 3 Executable 1 ;;
  gdt_set 3 ReadWritable 1 ;;
  gdt_set 3 Granularity 1 ;;
  gdt_set 3 PrivLevel 3 ;;
  gdt_clear 4 ;;
  gdt_set 4 SixtyFourMode 1 ;;
  gdt_set 4 Present 1 ;;
  gdt_set 4 System 1 ;;
  gdt_set 4 ReadWritable 1 ;;
  gdt_set 4 PrivLevel 3 ;;
  modify (fun k => with_gdtp (mkDescPointer (u16 (sizeof_GDTEntry * Limit - 1)) GDTEntries) k) ;;
  p ← gets gdtp;
  x86_install_gdt p.

End GDT.

(** ** The interrupt descriptor table *)

Record IDTDescriptor := mkIDTDescriptor {
  Offset : Z;
  Selector : Z;
  IST : Z;
  TypeAttr : Z;
  Offset2 : Z;
  Offset3 : Z;
  IDT_RESERVED : Z;
}.

Definition sizeof_IDTDescriptor : Z := 16.

(** The handlers the table is filled with. *)
Inductive Handler :=
| H_DivideByZero | H_GenericHandler | H_GenericHandlerPIC2 | H_DoubleFaultHandler
| H_PageFaultHandler | H_PITHandler | H_PS2KeyboardHandler.

#[global] Instance Handler_eq_dec : EqDecision Handler.
Proof. solve_decision. Defined.

(** Their addresses. *)
Class HandlerAddresses := handler_address : Handler -> Z.

Section IDT.
Context `{AS : AddrSpace} `{DT : DescriptorTables} `{HA : HandlerAddresses}.

(** The assignment of a whole descriptor. *)
Definition store_descriptor (a : Z) (d : IDTDescriptor) : K () :=
  store16 a (Offset d) ;;
  store16 (a + 2) (Selector d) ;;
  store8 (a + 4) (IST d) ;;
  store8 (a + 5) (TypeAttr d) ;;
  store16 (a + 6) (Offset2 d) ;;
  store32 (a + 8) (Offset3 d) ;;
  store32 (a + 12) (IDT_RESERVED d).

Definition x86IDTSetGate (Number Base Selector Flags : Z) : K () :=
  let Descriptor := mkIDTDescriptor
    (u16 (Z.land Base 0xFFFF)) Selector 0 Flags
    (u16 (Z.land (Z.shiftr Base 16) 0xFFFF))
    (u32 (Z.land (Z.shiftr Base 32) 0xFFFFFFFF)) 0 in
  store_descriptor (IDT + sizeof_IDTDescriptor * u8 Number) Descriptor.

Definition x86SetupIDTEntries : K () :=
  for_lt 64 255 1 (fun i => x86IDTSetGate i (handler_address H_GenericHandler) 0x08 0x8E) 0 ;;
  for_lt 64 0x30 1 (fun i => x86IDTSetGate i (handler_address H_GenericHandlerPIC2) 0x08 0x8E) 0x28 ;;
  x86IDTSetGate 0x00 (handler_address H_DivideByZero) 0x08 0x8E ;;
  x86IDTSetGate 0x08 (handler_address H_DoubleFaultHandler) 0x08 0x8E ;;
  x86IDTSetGate 0x0e (handler_address H_PageFaultHandler) 0x08 0x8E ;;
  x86IDTSetGate 0x20 (handler_address H_PITHandler) 0x08 0x8E ;;
  x86IDTSetGate 0x21 (handler_address H_PS2KeyboardHandler) 0x08 0x8E ;;
  x86IDTSetGate 0x2C (handler_address H_PS2KeyboardHandler) 0x08 0x8E.
End IDT.

(** ** What the processor reads back *)

(** The gate of a vector: its target and its selector and attributes. *)
Definition gate_target (m : gmap Z Z) (p : Z) : Z :=
  rdn 2 m p + 2 ^ 16 * rdn 2 m (p + 6) + 2 ^ 32 * rdn 4 m (p + 8).

Record gate := mkGate { g_target : Z; g_selector : Z; g_ist : Z; g_attr : Z }.

Definition gate_at (m : gmap Z Z) (p : Z) : gate :=
  mkGate (gate_target m p) (rdn 2 m (p + 2)) (rdn 1 m (p + 4)) (rdn 1 m (p + 5)).

(** The handler a vector should go to; vector 255 is not set. *)
Definition vector_handler (n : Z) : option Handler :=
  if n =? 0 then Some H_DivideByZero
  else if n =? 8 then Some H_DoubleFaultHandler
  else if n =? 14 then Some H_PageFaultHandler
  else if n =? 0x20 then Some H_PITHandler
  else if (n =? 0x21) || (n =? 0x2C) then Some H_PS2KeyboardHandler
  else if (0x28 <=? n) && (n <? 0x30) then Some H_GenericHandlerPIC2
  else if n <? 255 then Some H_GenericHandler
  else None.

Section Theorems.
Context {AS : AddrSpace} {DT : DescriptorTables} {HA : HandlerAddresses}.
Implicit Types (k : kernel).

(** *** Segments *)

Definition gdt_window (p : Z) : Prop := window GDTEntries p 40.

Lemma gdt_clear_ok p i k :
  gdt_window p -> 0 <= i < 5 ->
  gdt_clear i k = Ok () (with_ram (write_bytes (ram k) (p + 8 * i) (replicate 8 0)) k).
Proof.
  intros W Hi. unfold gdt_clear, gdt_entry, sizeof_GDTEntry, GDT_Base, GDT_High, GDT_Limit, store16, store32.
  unfold gdt_window in W. set (g := GDTEntries) in *. clearbody g.
  kstep (storen_at 2 g p 40 (g + 8 * i + 2) (8 * i + 2) 0 k W ltac:(lia) ltac:(lia) ltac:(lia)).
  set (k1 := with_ram _ k).
  kstep (storen_at 4 g p 40 (g + 8 * i + 4) (8 * i + 4) 0 k1 W ltac:(lia) ltac:(lia) ltac:(lia)).
  set (k2 := with_ram _ k1).
  rewrite (storen_at 2 g p 40 (g + 8 * i + 0) (8 * i) 0 k2 W ltac:(lia) ltac:(lia) ltac:(lia)).
  unfold k2, k1. rewrite !with_ram_with_ram, !ram_with_ram. do 2 f_equal.
  set (q := p + 8 * i). replace (p + (8 * i + 2)) with (q + 2) by (unfold q; lia).
  replace (p + (8 * i + 4)) with (q + 4) by (unfold q; lia). clearbody q. clear.
  apply map_eq. intros a. unfold wrn. rewrite !lookup_write_bytes, !zlen_le_bytes, zlen_replicate.
  destruct (decide (q <= a < q + 8)) as [Ha|Ha]; [|bdestr; simpl; try lia; done].
  assert (exists j, a = q + Z.of_nat j /\ (j < 8)%nat) as (j & -> & Hj).
  { exists (Z.to_nat (a - q)). lia. }
  repeat match goal with |- context [Z.to_nat (q + Z.of_nat j - ?b)] =>
    let e := fresh "e" in set (e := Z.to_nat (q + Z.of_nat j - b)) end.
  do 8 (destruct j as [|j]; [bdestr; simpl; try lia;
    repeat match goal with e := Z.to_nat ?x |- _ =>
      let y := eval simpl in (Z.to_nat 0) in
      first [replace e with 0%nat by (unfold e; lia) | replace e with 1%nat by (unfold e; lia)
            |replace e with 2%nat by (unfold e; lia) | replace e with 3%nat by (unfold e; lia)
            |replace e with 4%nat by (unfold e; lia) | replace e with 5%nat by (unfold e; lia)
            |replace e with 6%nat by (unfold e; lia) | replace e with 7%nat by (unfold e; lia)]; clear e end;
    done|]). lia.
Qed.

Lemma gdt_set_ok p i f v l m k :
  gdt_window p -> 0 <= i < 5 -> length l = 8%nat ->
  let '(o, lo, width) := gdt_bits f in
  let b := u8 (set_bits lo width v (nth (Z.to_nat o) l 0)) in
  gdt_set i f v (with_ram (write_bytes m (p + 8 * i) l) k) =
    Ok () (with_ram (write_bytes m (p + 8 * i) (<[Z.to_nat o := b]> l)) k).
Proof.
  intros W Hi Hl. unfold gdt_set. destruct (gdt_bits f) as [[o lo] width] eqn:Ef.
  assert (0 <= o < 8) as Ho by (destruct f; injection Ef as <- <- <-; lia).
  cbv zeta. set (k1 := with_ram _ k). unfold gdt_entry, sizeof_GDTEntry.
  assert (window (GDTEntries + 8 * i + o) (p + (8 * i + o)) 1) as W1.
  { rewrite <- Z.add_assoc. apply (window_sub _ _ 40); [exact W|lia|lia]. }
  kstep (load8_ok _ _ k1 W1). rewrite (store8_ok _ _ _ k1 W1). unfold k1.
  rewrite !ram_with_ram, with_ram_with_ram. do 2 f_equal.
  rewrite rb_write_bytes. unfold zlen. rewrite Hl.
  bdestr; simpl; try lia. replace (Z.to_nat (p + (8 * i + o) - (p + 8 * i))) with (Z.to_nat o) by lia.
  rewrite Z.add_assoc. apply write_bytes_insert. unfold zlen. lia.
Qed.

(** One assignment of the initialisation, with its bytes computed. *)
Ltac gdt_step W :=
  lazymatch goal with
  | |- context [mbind _ (gdt_clear ?i) ?k] =>
      rewrite (bind_ok _ _ _ _ _ (gdt_clear_ok _ i k W ltac:(lia))); cbv beta; rewrite ?ram_with_ram, ?with_ram_with_ram
  | |- context [mbind _ (gdt_set ?i ?f ?v) (with_ram (write_bytes ?m _ ?l) ?k)] =>
      let H := fresh in
      pose proof (gdt_set_ok _ i f v l m k W ltac:(lia) eq_refl) as H; cbn [gdt_bits] in H; cbv zeta in H;
      rewrite (bind_ok _ _ _ _ _ H); clear H; cbv beta;
      lazymatch goal with |- context [<[?n := ?b]> ?l] =>
        let l' := eval vm_compute in (<[n := b]> l) in change (<[n := b]> l) with l' end
  end.

(** The descriptors as the processor's manual writes them. *)
Definition gdt_image : list Z :=
  [0; 0x00A09A0000000000; 0x0020920000000000; 0x00A0FA0000000000; 0x0020F20000000000].

Lemma x86InitializeGDT_ok p k :
  gdt_window p ->
  x86InitializeGDT k = Ok () (with_trace (EvLgdt (mkDescPointer 39 GDTEntries) :: trace k)
    (with_gdtp (mkDescPointer 39 GDTEntries)
      (with_ram (write_bytes (ram k) p (concat (map (le_bytes 8) gdt_image))) k))).
Proof.
  intros W. unfold x86InitializeGDT. cbv zeta. repeat gdt_step W. kmodify.
  unfold x86_install_gdt, emit, modify.
  change (concat (map (le_bytes 8) gdt_image)) with
    (le_bytes 8 0 ++ le_bytes 8 0x00A09A0000000000 ++ le_bytes 8 0x0020920000000000 ++
     le_bytes 8 0x00A0FA0000000000 ++ le_bytes 8 0x0020F20000000000).
  rewrite !write_bytes_app, !zlen_le_bytes. rewrite <- !Z.add_assoc, Z.add_0_r. by destruct k.
Qed.

(** [x86InitializeGDT] leaves in the table exactly a null descriptor, ring
    0 and ring 3 64-bit code and ring 0 and ring 3 data, whatever the table
    held; it loads the register with the table's address and the limit of five
    descriptors, and writes no other memory. *)
Theorem x86InitializeGDT_table (p : Z) (k : kernel) :
  gdt_window p ->
  exists k', x86InitializeGDT k = Ok () k' /\
    ram k' = write_bytes (ram k) p (concat (map (le_bytes 8) gdt_image)) /\
    gdtp k' = mkDescPointer 39 GDTEntries /\ trace k' = EvLgdt (gdtp k') :: trace k.
Proof.
  intros W. rewrite (x86InitializeGDT_ok p k W). eexists. split; [reflexivity|].
  rewrite ram_with_trace. by destruct k.
Qed.

(** *** Interrupt gates *)

Lemma read_in m p l o n :
  (o + n <= length l)%nat -> read_bytes (write_bytes m p l) (p + Z.of_nat o) n = take n (drop o l).
Proof.
  intros H. apply list_eq. intros i. destruct (decide (i < n)%nat) as [Hi|Hi].
  - rewrite lookup_take_lt, lookup_drop by done.
    destruct (lookup_lt_is_Some_2 (read_bytes (write_bytes m p l) (p + Z.of_nat o) n) i) as [x Hx];
      [by rewrite length_read_bytes|].
    rewrite Hx. apply (nth_lookup_Some _ _ 0) in Hx. rewrite nth_read_bytes, rb_write_bytes in Hx by done.
    unfold zlen in Hx. revert Hx. bdestr; simpl; try lia. intros <-.
    replace (Z.to_nat (p + Z.of_nat o + Z.of_nat i - p)) with (o + i)%nat by lia.
    destruct (nth_lookup_or_length l (o + i) 0) as [->|]; [done|lia].
  - rewrite !lookup_ge_None_2; [done|rewrite length_take, length_drop; lia|rewrite length_read_bytes; lia].
Qed.

Lemma le_val_one b : le_val [b] = b.
Proof. simpl. lia. Qed.

Definition idt_window (p : Z) : Prop := window IDT p 4096.

Definition descriptor_bytes (d : IDTDescriptor) : list Z :=
  le_bytes 2 (Offset d) ++ le_bytes 2 (Selector d) ++ [u8 (IST d)] ++ [u8 (TypeAttr d)] ++
  le_bytes 2 (Offset2 d) ++ le_bytes 4 (Offset3 d) ++ le_bytes 4 (IDT_RESERVED d).

Lemma store_descriptor_ok a q d k :
  window a q 16 ->
  store_descriptor a d k = Ok () (with_ram (write_bytes (ram k) q (descriptor_bytes d)) k).
Proof.
  intros W. unfold store_descriptor, store16, store32.
  assert (forall o n, 0 <= o -> o + n <= 16 -> window (a + o) (q + o) n) as Ws
    by (intros; by apply (window_sub _ _ 16)).
  pose proof (Ws 0 2 ltac:(lia) ltac:(lia)) as W0. rewrite !Z.add_0_r in W0.
  rewrite (bind_ok _ _ _ _ _ (storen_ok 2 a q _ k W0)).
  rewrite (bind_ok _ _ _ _ _ (storen_ok 2 _ _ _ _ (Ws 2 2 ltac:(lia) ltac:(lia)))).
  rewrite (bind_ok _ _ _ _ _ (store8_ok _ _ _ _ (Ws 4 1 ltac:(lia) ltac:(lia)))).
  rewrite (bind_ok _ _ _ _ _ (store8_ok _ _ _ _ (Ws 5 1 ltac:(lia) ltac:(lia)))).
  rewrite (bind_ok _ _ _ _ _ (storen_ok 2 _ _ _ _ (Ws 6 2 ltac:(lia) ltac:(lia)))).
  rewrite (bind_ok _ _ _ _ _ (storen_ok 4 _ _ _ _ (Ws 8 4 ltac:(lia) ltac:(lia)))).
  rewrite (storen_ok 4 _ _ _ _ (Ws 12 4 ltac:(lia) ltac:(lia))).
  rewrite !ram_with_ram, !with_ram_with_ram. unfold descriptor_bytes.
  rewrite !write_bytes_app, !zlen_le_bytes. do 2 f_equal. unfold wrn.
  rewrite <- !Z.add_assoc. reflexivity.
Qed.

Lemma x86IDTSetGate_ok p n base sel flags k :
  idt_window p -> 0 <= n < 256 ->
  exists m, x86IDTSetGate n base sel flags k = Ok () (with_ram m k) /\
    (ram_ok (ram k) -> ram_ok m) /\
    (forall q, q < p \/ p + 4096 <= q -> rb m q = rb (ram k) q) /\
    forall j, 0 <= j < 256 -> gate_at m (p + 16 * j) =
      if j =? n then mkGate (u64 base) (u16 sel) 0 (u8 flags) else gate_at (ram k) (p + 16 * j).
Proof.
  intros W Hn. unfold x86IDTSetGate. cbv zeta. rewrite (u_small 8) by lia.
  set (d := mkIDTDescriptor _ _ _ _ _ _ _). unfold sizeof_IDTDescriptor.
  rewrite (store_descriptor_ok (IDT + 16 * n) (p + 16 * n) d k)
    by (apply (window_sub _ _ 4096); [exact W|lia|lia]).
  assert (zlen (descriptor_bytes d) = 16) as Hlen by done.
  eexists. split; [done|]. split; [|split].
  { intros Hm. apply ram_ok_write; [done|]. unfold descriptor_bytes.
    rewrite !Forall_app. split_and!; try apply le_bytes_byte; repeat constructor; apply (u_range 8); lia. }
  { intros q Hq. apply rb_write_other. lia. }
  intros j Hj. unfold gate_at, gate_target. destruct (Z.eqb_spec j n) as [->|Hne].
  2:{ rewrite !rdn_write_other by lia. done. }
  set (q := p + 16 * n).
  assert (forall o len, (o + len <= 16)%nat ->
    rdn len (write_bytes (ram k) q (descriptor_bytes d)) (q + Z.of_nat o) =
      le_val (take len (drop o (descriptor_bytes d)))) as Hrd.
  { intros. unfold rdn. rewrite read_in; [done|]. unfold zlen in Hlen. lia. }
  pose proof (Hrd 0%nat 2%nat ltac:(lia)) as R0. rewrite Z.add_0_r in R0.
  pose proof (Hrd 2%nat 2%nat ltac:(lia)) as R2. pose proof (Hrd 4%nat 1%nat ltac:(lia)) as R4.
  pose proof (Hrd 5%nat 1%nat ltac:(lia)) as R5. pose proof (Hrd 6%nat 2%nat ltac:(lia)) as R6.
  pose proof (Hrd 8%nat 4%nat ltac:(lia)) as R8. change (Z.of_nat 2) with 2 in R2. change (Z.of_nat 4) with 4 in R4.
  change (Z.of_nat 5) with 5 in R5. change (Z.of_nat 6) with 6 in R6. change (Z.of_nat 8) with 8 in R8.
  rewrite R0, R2, R4, R5, R6, R8.
  change (take 2 (drop 0 (descriptor_bytes d))) with (le_bytes 2 (Offset d)).
  change (take 2 (drop 2 (descriptor_bytes d))) with (le_bytes 2 (Selector d)).
  change (take 1 (drop 4 (descriptor_bytes d))) with [u8 (IST d)].
  change (take 1 (drop 5 (descriptor_bytes d))) with [u8 (TypeAttr d)].
  change (take 2 (drop 6 (descriptor_bytes d))) with (le_bytes 2 (Offset2 d)).
  change (take 4 (drop 8 (descriptor_bytes d))) with (le_bytes 4 (Offset3 d)).
  rewrite !le_val_bytes, !le_val_one. unfold d. cbn [Offset Selector IST TypeAttr Offset2 Offset3].
  f_equal. change 0xFFFF with (Z.ones 16). change 0xFFFFFFFF with (Z.ones 32).
  rewrite !Z.land_ones, !Z.shiftr_div_pow2 by lia. unfold u.
  change (8 * Z.of_nat 2) with 16. change (8 * Z.of_nat 4) with 32. dlia.
Qed.

(** [k] is [k0] with gates [f] set. *)
Definition gates_set (p : Z) (k0 : kernel) (f : Z -> option Handler) (k : kernel) : Prop :=
  k = with_ram (ram k) k0 /\ (ram_ok (ram k0) -> ram_ok (ram k)) /\
  (forall q, q < p \/ p + 4096 <= q -> rb (ram k) q = rb (ram k0) q) /\
  forall j, 0 <= j < 256 -> gate_at (ram k) (p + 16 * j) =
    match f j with
    | Some h => mkGate (u64 (handler_address h)) 8 0 0x8E
    | None => gate_at (ram k0) (p + 16 * j)
    end.

Lemma set_gate_step p k0 f k n h :
  idt_window p -> 0 <= n < 256 -> gates_set p k0 f k ->
  exists k', x86IDTSetGate n (handler_address h) 0x08 0x8E k = Ok () k' /\
    gates_set p k0 (fun j => if j =? n then Some h else f j) k'.
Proof.
  intros W Hn (Hk & Hm & Hfr & Hg).
  destruct (x86IDTSetGate_ok p n (handler_address h) 8 0x8E k W Hn) as (m & E & Hm' & Hfr' & Hg').
  eexists. split; [exact E|]. split; [|split; [|split]]; rewrite ?ram_with_ram.
  - rewrite Hk. by rewrite with_ram_with_ram.
  - auto.
  - intros q Hq. by rewrite Hfr', Hfr.
  - intros j Hj. rewrite Hg' by done. destruct (j =? n); [done|]. by apply Hg.
Qed.

Lemma gates_ext p k0 f g k :
  (forall j, 0 <= j < 256 -> f j = g j) -> gates_set p k0 f k -> gates_set p k0 g k.
Proof. intros H (Hk & Hm & Hfr & Hg). split; [done|]. split; [done|]. split; [done|]. intros j Hj. by rewrite <- H, Hg. Qed.

Lemma set_gates_loop p k0 f k lo hi h :
  idt_window p -> 0 <= lo <= hi -> hi <= 256 -> gates_set p k0 f k ->
  exists i k', for_lt 64 hi 1 (fun i => x86IDTSetGate i (handler_address h) 0x08 0x8E) lo k = Ok i k' /\
    gates_set p k0 (fun j => if (lo <=? j) && (j <? hi) then Some h else f j) k'.
Proof.
  intros W Hlo Hhi Hk.
  destruct (for_lt_total 64 hi 1 (fun i => x86IDTSetGate i (handler_address h) 0x08 0x8E)
    (fun i k' => i <= hi /\ gates_set p k0 (fun j => if (lo <=? j) && (j <? i) then Some h else f j) k') lo k)
    as (i & k' & E & (Hle & HI) & _ & Hge & _); [lia..| | |].
  - intros i k1 Hi [_ Hk1]. destruct (set_gate_step p k0 _ k1 i h W ltac:(lia) Hk1) as (k2 & E & Hk2).
    exists k2. split; [done|]. split; [lia|]. eapply gates_ext; [|exact Hk2]. intros j Hj. simpl.
    bdestr; simpl; lia || done.
  - split; [lia|]. eapply gates_ext; [|exact Hk]. intros j Hj. simpl. bdestr; simpl; lia || done.
  - exists i, k'. by replace i with hi in * by lia.
Qed.

Lemma x86SetupIDTEntries_ok (p : Z) (k : kernel) :
  idt_window p ->
  exists k', x86SetupIDTEntries k = Ok () k' /\ gates_set p k vector_handler k' /\
    (forall n, 0 <= n < 256 -> vector_handler n = None <-> n = 255).
Proof.
  intros W.
  assert (gates_set p k (fun _ => None) k) as H0 by (split; [by rewrite with_ram_id|done]).
  destruct (set_gates_loop p k _ k 0 255 H_GenericHandler W ltac:(lia) ltac:(lia) H0) as (i1 & k1 & E1 & H1).
  destruct (set_gates_loop p k _ k1 0x28 0x30 H_GenericHandlerPIC2 W ltac:(lia) ltac:(lia) H1) as (i2 & k2 & E2 & H2).
  destruct (set_gate_step p k _ k2 0x00 H_DivideByZero W ltac:(lia) H2) as (k3 & E3 & H3).
  destruct (set_gate_step p k _ k3 0x08 H_DoubleFaultHandler W ltac:(lia) H3) as (k4 & E4 & H4).
  destruct (set_gate_step p k _ k4 0x0e H_PageFaultHandler W ltac:(lia) H4) as (k5 & E5 & H5).
  destruct (set_gate_step p k _ k5 0x20 H_PITHandler W ltac:(lia) H5) as (k6 & E6 & H6).
  destruct (set_gate_step p k _ k6 0x21 H_PS2KeyboardHandler W ltac:(lia) H6) as (k7 & E7 & H7).
  destruct (set_gate_step p k _ k7 0x2C H_PS2KeyboardHandler W ltac:(lia) H7) as (k8 & E8 & H8).
  exists k8. split; [|split].
  - unfold x86SetupIDTEntries. kstep E1. kstep E2. kstep E3. kstep E4. kstep E5. kstep E6. by kstep E7.
  - eapply gates_ext; [|exact H8]. intros j Hj. unfold vector_handler. simpl. bdestr; simpl; lia || done.
  - intros n Hn. unfold vector_handler. bdestr; simpl; split; lia || done.
Qed.

(** [x86SetupIDTEntries] sends every vector from 0 to 254 to its handler,
    through a present 64-bit interrupt gate of ring 0 with the kernel's code
    selector, and writes no other memory; vector 255 is left as it was. *)
Theorem x86SetupIDTEntries_gates (p : Z) (k : kernel) :
  idt_window p ->
  exists k', x86SetupIDTEntries k = Ok () k' /\ gates_set p k vector_handler k' /\
    (forall n, 0 <= n < 256 -> vector_handler n = None <-> n = 255).
Proof. apply x86SetupIDTEntries_ok. Qed.

End Theorems.

(** ** Witnesses *)

Definition sample_tables : DescriptorTables := mkTables 0x5000 0x8000.

Definition sample_handlers : HandlerAddresses := fun h =>
  0xFFFFFF8000100000 + 64 * match h with
  | H_DivideByZero => 0 | H_GenericHandler => 1 | H_GenericHandlerPIC2 => 2
  | H_DoubleFaultHandler => 3 | H_PageFaultHandler => 4 | H_PITHandler => 5
  | H_PS2KeyboardHandler => 6
  end.

Lemma x86InitializeGDT_table_witness :
  exists k', x86InitializeGDT (AS := boot_space) (DT := sample_tables) kernel0 = Ok () k' /\
    rdn 8 (ram k') 0x5008 = 0x00A09A0000000000 /\ gdtp k' = mkDescPointer 39 0x5000.
Proof.
  destruct (x86InitializeGDT_table (AS := boot_space) (DT := sample_tables) 0x5000 kernel0)
    as (k' & E & Hm & Hp & _); [apply (boot_window_low 0x5000 40); lia|].
  exists k'. split; [exact E|]. split; [|exact Hp]. rewrite Hm. vm_compute. reflexivity.
Defined.

Lemma x86SetupIDTEntries_gates_witness :
  exists k', x86SetupIDTEntries (AS := boot_space) (DT := sample_tables) (HA := sample_handlers) kernel0
      = Ok () k' /\
    gate_at (ram k') (0x8000 + 16 * 14) = mkGate (0xFFFFFF8000100000 + 256) 8 0 0x8E.
Proof.
  destruct (x86SetupIDTEntries_gates (AS := boot_space) (DT := sample_tables) (HA := sample_handlers)
    0x8000 kernel0) as (k' & E & (_ & _ & _ & Hg) & _); [apply (boot_window_low 0x8000 4096); lia|].
  exists k'. split; [exact E|]. rewrite (Hg 14) by lia. reflexivity.
Defined.
