(* ===== verification/Interrupts.v ===== *)
(** * Interrupts ([kern/arch/x86_64/interrupts.c], [kern/arch/x86_64/archstart.c])

    Programming the interrupt controllers, filling and loading the descriptor
    table, and the handlers it points to.  The keyboard's handler is in
    [Keyboard]. *)

From S2P Require Import Prelude Machine Status MemFuncs BinFuncs Strings Vga Pmm Print Stop Descriptors Serial.

Definition X86_PIC_1_COMMAND : Z := 0x20.
Definition X86_PIC_1_DATA : Z := 0x21.
Definition X86_PIC_2_COMMAND : Z := 0xA0.
Definition X86_PIC_2_DATA : Z := 0xA1.

Section Interrupts.
Context `{AS : AddrSpace} `{FW : KrnlFirmwareFunctions} `{LT : Literals} `{FB : FormatBuffer}
  `{SR : StopRegisters} `{DT : DescriptorTables} `{HA : HandlerAddresses}.

Definition x86PICSendEOIPIC1 : K () := x86outb X86_PIC_1_COMMAND 0x20.

Definition x86PICSendEOIPIC2 : K () :=
  x86outb X86_PIC_2_COMMAND 0x20 ;;
  x86outb X86_PIC_1_COMMAND 0x20.

Definition x86DisablePIC : K () :=
  x86outb X86_PIC_1_DATA 0xFF ;;
  x86outb X86_PIC_2_DATA 0xFF.

Definition DivideByZero : K () := KiPrintFmt (lit (ln "DIVIDING BY ZERO!!!")) [] ;; skip.

Definition GenericHandler : K () := KiPrintFmt (lit (ln "Unhandled Interrupt!")) [] ;; skip.

Definition GenericHandlerPIC1 : K () :=
  KiPrintFmt (lit (ln "Unhandled Interrupt! (PIC1) ")) [] ;;
  x86PICSendEOIPIC1.

Definition GenericHandlerPIC2 : K () :=
  KiPrintFmt (lit (ln "Unhandled Interrupt! (PIC2) ")) [] ;;
  x86PICSendEOIPIC2.

Definition DoubleFaultHandler : K () := KiStopError STATUS_ERROR ;; skip.

Definition PageFaultHandler : K () := KiStopError STATUS_ERROR ;; skip.

Definition PITHandler : K () :=
  modify (fun k => with_timer (u8 (timer k + 1)) k) ;;
  ScreenTimer ← gets timer;
  when (ScreenTimer =? 16)
    (modify (with_timer 0) ;;
     VgaSwapBuffers) ;;
  x86PICSendEOIPIC1.

Definition x86InitializeIDT : K () :=
  let Divisor := 11931840 in
  x86outb 0x43 0x36 ;;
  x86outb 0x40 (Z.land (Z.shiftr Divisor 0) 0xFF) ;;
  x86outb 0x40 (Z.land (Z.shiftr Divisor 8) 0xFF) ;;
  KiSetMemoryBytes IDT 0 (sizeof_IDTDescriptor * 256) ;;
  x86outb X86_PIC_1_COMMAND (Z.lor 0x10 0x01) ;;
  x86outb X86_PIC_2_COMMAND (Z.lor 0x10 0x01) ;;
  x86_io_stall ;;
  x86outb X86_PIC_1_DATA 0x20 ;;
  x86outb X86_PIC_2_DATA 0x28 ;;
  x86_io_stall ;;
  x86outb X86_PIC_1_DATA 0x04 ;;
  x86outb X86_PIC_2_DATA 0x02 ;;
  x86_io_stall ;;
  x86outb X86_PIC_1_DATA 0x01 ;;
  x86outb X86_PIC_2_DATA 0x01 ;;
  x86_io_stall ;;
  x86outb X86_PIC_1_DATA 0x01 ;;
  x86outb X86_PIC_2_DATA 0x01 ;;
  x86_io_stall ;;
  x86outb X86_PIC_1_DATA 0xFC ;;
  x86outb X86_PIC_2_DATA 0x80 ;;
  modify (fun k => with_idtp (mkDescPointer (u16 (sizeof_IDTDescriptor * 256 - 1)) IDT) k) ;;
  x86SetupIDTEntries ;;
  p ← gets idtp;
  x86_install_idt p ;;
  KiRestoreInterrupts 1 ;;
  KiPrintFmt (lit (ln "IDT Ready to work...")) [] ;; skip.
End Interrupts.

(** What the handlers print. *)
Definition handler_messages : list string :=
  [ln "DIVIDING BY ZERO!!!"; ln "Unhandled Interrupt!"; ln "Unhandled Interrupt! (PIC2) "].

(** ** The interrupt controllers *)

(** An 8259: the word the initialisation expects next (0 when it is over), the
    first vector, the cascade and mode words, and the mask. *)
Record pic := mkPic { icw : Z; vector_base : Z; cascade : Z; pic_mode : Z; pic_mask : Z }.

Definition pic_command (v : Z) (s : pic) : pic :=
  let 'mkPic _ b c md _ := s in if Z.testbit v 4 then mkPic 2 b c md 0 else s.

Definition pic_data (v : Z) (s : pic) : pic :=
  let 'mkPic i b c md mask := s in
  if i =? 2 then mkPic 3 v c md mask
  else if i =? 3 then mkPic 4 b v md mask
  else if i =? 4 then mkPic 0 b c v mask
  else mkPic i b c md v.

(** The controller with its command register at [port], after a trace. *)
Fixpoint pic_of (port : Z) (t : list io_event) (s : pic) : pic :=
  match t with
  | [] => s
  | EvOut p v :: t =>
      if p =? port then pic_command v (pic_of port t s)
      else if p =? port + 1 then pic_data v (pic_of port t s)
      else pic_of port t s
  | _ :: t => pic_of port t s
  end.

(** The port accesses of [x86InitializeIDT], oldest last. *)
Definition pic_writes : list io_event :=
  [EvOut 0xA1 0x80; EvOut 0x21 0xFC; EvStall; EvOut 0xA1 1; EvOut 0x21 1; EvStall;
   EvOut 0xA1 1; EvOut 0x21 1; EvStall; EvOut 0xA1 2; EvOut 0x21 4; EvStall;
   EvOut 0xA1 0x28; EvOut 0x21 0x20; EvStall; EvOut 0xA0 0x11; EvOut 0x20 0x11].
Definition pit_writes : list io_event := [EvOut 0x40 0x10; EvOut 0x40 0xC0; EvOut 0x43 0x36].

Lemma with_trace_with_ram t m k : with_trace t (with_ram m k) = with_ram m (with_trace t k).
Proof. by destruct k. Qed.

Lemma pic_init (s1 s2 : pic) t :
  pic_of 0x20 (pic_writes ++ t) s1 = mkPic 0 0x20 4 1 0xFC /\
  pic_of 0xA0 (pic_writes ++ t) s2 = mkPic 0 0x28 2 1 0x80.
Proof. simpl. by destruct (pic_of 0x20 t s1), (pic_of 0xA0 t s2). Qed.

Section Init.
Context {AS : AddrSpace} {FW : KrnlFirmwareFunctions} {FL : FirmwareLaws FW} {LT : Literals}
  {FB : FormatBuffer} {PA : PrintArea} {DT : DescriptorTables} {HA : HandlerAddresses}.
Hypothesis BO : buffer_ok.

Lemma rdn_fill_zero n m p len o :
  0 <= o -> o + Z.of_nat n <= len -> rdn n (fill m p len 0) (p + o) = 0.
Proof.
  intros Ho Hl. apply rdn_zero. intros i Hi. rewrite rb_fill by lia. bdestr; simpl; lia || done.
Qed.

(** The gates after the table has been cleared and filled. *)
Definition idt_ready (m : gmap Z Z) (p : Z) : Prop :=
  forall n, 0 <= n < 256 -> gate_at m (p + 16 * n) =
    match vector_handler n with
    | Some h => mkGate (u64 (handler_address h)) 8 0 0x8E
    | None => mkGate 0 0 0 0
    end.

Lemma emit_ok e k : emit e k = Ok () (with_trace (e :: trace k) k).
Proof. done. Qed.

(** One port access, the trace brought together. *)
Ltac io_step :=
  first [rewrite (bind_ok _ _ _ _ _ (outb_ok _ _ _)) | rewrite (bind_ok _ _ _ _ _ (emit_ok _ _))
        | progress unfold x86_io_stall];
  cbv beta; rewrite ?trace_with_trace, ?with_trace_twice, ?trace_with_ram, ?with_trace_with_ram, ?with_trace_twice.

(** Everything up to the message. *)
Lemma x86InitializeIDT_run p k :
  idt_window p ->
  exists k1, x86InitializeIDT k = (KiPrintFmt (lit (ln "IDT Ready to work...")) [] ;; skip) k1 /\
    trace k1 = [EvSti; EvLidt (mkDescPointer 4095 IDT)] ++ pic_writes ++ pit_writes ++ trace k /\
    idtp k1 = mkDescPointer 4095 IDT /\ gdtp k1 = gdtp k /\ vga k1 = vga k /\ vga_on k1 = vga_on k /\
    managers k1 = managers k /\
    (ram_ok (ram k) -> ram_ok (ram k1)) /\ idt_ready (ram k1) p /\
    (forall q, q < p \/ p + 4096 <= q -> rb (ram k1) q = rb (ram k) q).
Proof.
  intros W. unfold x86InitializeIDT. cbv zeta. repeat io_step.
  rewrite (bind_ok _ _ _ _ _ (KiSetMemoryBytes_ok IDT 0 4096 p _ ltac:(lia) ltac:(lia) W)). cbv beta.
  rewrite ram_with_trace. change (round4 4096) with 4096. repeat io_step.
  kmodify. match goal with |- context [mbind _ x86SetupIDTEntries ?k0] => set (k1 := k0) end.
  assert (ram k1 = fill (ram k) p 4096 0) as Em by (by destruct k).
  destruct (x86SetupIDTEntries_ok p k1 W) as (k2 & E & (Hk2 & Hm & Hfr & Hg) & _). kstep E.
  assert (forall k3, gets idtp k3 = Ok (idtp k3) k3) as Hgets by done. kstep (Hgets k2).
  unfold x86_install_idt. change (KiRestoreInterrupts 1) with (emit EvSti). repeat io_step.
  eexists. split; [reflexivity|]. rewrite trace_with_trace, Hk2. split_and!.
  - by destruct k.
  - by destruct k.
  - by destruct k.
  - by destruct k.
  - by destruct k.
  - by destruct k.
  - intros Hr. rewrite ram_with_trace, ram_with_ram. apply Hm. rewrite Em.
    apply ram_ok_fill; [done|]. unfold byte. lia.
  - intros n Hn. rewrite ram_with_trace, ram_with_ram, Hg by done. destruct (vector_handler n); [done|].
    rewrite Em. unfold gate_at, gate_target. rewrite <- !Z.add_assoc.
    by rewrite !rdn_fill_zero by lia.
  - intros q Hq. rewrite ram_with_trace, ram_with_ram, Hfr, Em, rb_fill by lia.
    bdestr; simpl; lia || done.
Qed.
Definition idt_message : string := ln "IDT Ready to work...".

Lemma idt_ready_frame m m' p :
  (forall q, p <= q < p + 4096 -> rb m' q = rb m q) -> idt_ready m p -> idt_ready m' p.
Proof.
  intros Hq H n Hn. rewrite <- H by done. unfold gate_at, gate_target.
  assert (forall len o, 0 <= o -> o + Z.of_nat len <= 16 -> rdn len m' (p + 16 * n + o) = rdn len m (p + 16 * n + o))
    as Hr by (intros; apply rdn_ext; intros; apply Hq; lia).
  pose proof (Hr 2%nat 0 ltac:(lia) ltac:(lia)) as H0. rewrite Z.add_0_r in H0.
  by rewrite H0, !Hr by lia.
Qed.

Lemma x86InitializeIDT_ok p k0 k ss :
  printable ss k0 -> In idt_message ss -> held true k0 k -> idt_window p ->
  (forall q, p <= q < p + 4096 -> scratch q) -> p + 4096 <= bp \/ bp + 22 <= p ->
  exists k1 k', x86InitializeIDT k = Ok () k' /\ held true k0 k' /\ idt_ready (ram k') p /\
    trace k1 = [EvSti; EvLidt (mkDescPointer 4095 IDT)] ++ pic_writes ++ pit_writes ++ trace k /\
    KiPrintFmt (lit idt_message) [] k1 = Ok STATUS_SUCCESS k' /\
    idtp k' = mkDescPointer 4095 IDT /\ gdtp k' = gdtp k /\ managers k' = managers k /\
    (forall q, ~ fw_mem q -> ~ bp <= q < bp + 22 -> ~ p <= q < p + 4096 -> rb (ram k') q = rb (ram k) q).
Proof.
  intros Hp Hin Hh W Hs Hd. destruct (x86InitializeIDT_run p k W)
    as (k1 & E & Ht & Ei & Eg & Ev & Eo & Es & Hm & Hr & Hf).
  assert (held true k0 k1) as Hh1.
  { apply (held_trans _ _ k); [done|]. split; [apply (fw_frame k); [apply Hh|by apply Hm, fw_ram, Hh|done|done]|].
    intros q Hq Hb. apply Hf. destruct (decide (p <= q < p + 4096)); [|lia].
    exfalso. apply Hb; [done|]. right. by apply Hs. }
  destruct (message_frame BO ss k0 idt_message [] k1 Hp Hin Hh1) as (o & k' & E' & _ & Hpr & Hh' & Hfr).
  { vm_compute. done. }
  pose proof (prints_others _ _ _ Hpr) as Ho. pose proof (others_managers _ _ Ho). unfold others in Ho.
  exists k1, k'. split; [rewrite E; unfold idt_message in E'; by kstep E'|]. split; [done|].
  split; [|split; [done|split; [done|split; [congruence|split; [congruence|split; [congruence|]]]]]].
  - eapply idt_ready_frame; [|exact Hr]. intros q Hq. apply Hfr; [|lia].
    apply (bo_safe BO). right. by apply Hs.
  - intros q Hq Hb Hp'. rewrite Hfr, Hf by (done || lia). done.
Qed.

(** [x86InitializeIDT] clears the table and points the vectors at their
    handlers, with nothing in vector 255; it leaves both interrupt
    controllers, whatever they were doing, initialised at vectors 0x20 and
    0x28, cascaded through line 2, in 8086 mode and masked with 0xFC and 0x80,
    loads the table's register, enables interrupts, and only then prints. *)
Theorem x86InitializeIDT_ready (p : Z) (k0 : kernel) (ss : list string) :
  printable ss k0 -> In idt_message ss -> idt_window p ->
  (forall q, p <= q < p + 4096 -> scratch q) -> p + 4096 <= bp \/ bp + 22 <= p ->
  exists k1 k', x86InitializeIDT k0 = Ok () k' /\ held true k0 k' /\ idt_ready (ram k') p /\
    trace k1 = [EvSti; EvLidt (mkDescPointer 4095 IDT)] ++ pic_writes ++ pit_writes ++ trace k0 /\
    (forall s, pic_of 0x20 (trace k1) s = mkPic 0 0x20 4 1 0xFC) /\
    (forall s, pic_of 0xA0 (trace k1) s = mkPic 0 0x28 2 1 0x80) /\
    KiPrintFmt (lit idt_message) [] k1 = Ok STATUS_SUCCESS k'.
Proof.
  intros Hp Hin W Hs Hd.
  destruct (x86InitializeIDT_ok p k0 k0 ss Hp Hin (held_refl _ _ (pb_inv _ _ Hp)) W Hs Hd)
    as (k1 & k' & E & Hh & Hr & Ht & E' & _). exists k1, k'. split_and!; try done.
  - intros s. rewrite Ht. simpl. apply (proj1 (pic_init s s _)).
  - intros s. rewrite Ht. simpl. apply (proj2 (pic_init s s _)).
Qed.

End Init.

(** ** The timer *)

Section Timer.
Context {AS : AddrSpace}.
Variables (fb pa W H : Z).
Hypothesis G : geometry fb pa W H.

(** The two buffers of the driver are one, as [VgaPrepareEnvironment] sets
    them: copying it to itself changes no byte. *)
Lemma VgaSwapBuffers_same k :
  console_inv fb W H k ->
  exists m, VgaSwapBuffers k = Ok () (with_ram m k) /\ forall q, rb m q = rb (ram k) q.
Proof.
  intros (Hon & Hc & _ & Hr0). destruct G as [_ [HW _] HH Wd]. unfold VgaSwapBuffers.
  assert (forall m, ctx (with_ram m k) = Ok (vga k) (with_ram m k)) as Ectx.
  { intros m. unfold ctx. destruct k; simpl in *. by rewrite Hon. }
  pose proof (Ectx (ram k)) as E0. rewrite with_ram_id in E0. kstep E0. cbv zeta.
  rewrite (c_width _ _ _ _ Hc), (c_height _ _ _ _ Hc).
  pose proof (u_range 64 (W * H) ltac:(lia)) as Hr. rewrite Z.shiftr_div_pow2 by lia. change (2 ^ 2) with 4.
  assert (u64 (W * H) <= W * H) by (apply Z.mod_le; lia).
  destruct (for_lt_total 64 (u64 (W * H) / 4) 1 (fun Offset => c ← ctx;
      v ← load64 (SwappedBuffer c + 8 * Offset); store64 (Framebuffer c + 8 * Offset) v)
    (fun _ k' => exists m, k' = with_ram m k /\ forall q, rb m q = rb (ram k) q) 0 k)
    as (i & k' & E & (m & -> & Hm) & _); [lia..|dlia| | |].
  - intros i k1 Hi (m & -> & Hm). kstep (Ectx m). rewrite (c_buffer _ _ _ _ Hc), (c_front _ _ _ _ Hc).
    assert (window (fb + 8 * i) (pa + 8 * i) 8) as W8.
    { apply (window_sub _ _ (2 * W * H)); [done|lia|dlia]. }
    kstep (loadn_ok 8 _ _ (with_ram m k) W8). rewrite ram_with_ram. unfold store64.
    rewrite (storen_ok 8 _ _ _ (with_ram m k) W8). rewrite ram_with_ram, with_ram_with_ram.
    eexists. split; [done|]. eexists. split; [done|]. intros q. rewrite rb_wrn_rdn; [done|].
    intros q'. rewrite Hm. apply Hr0.
  - exists (ram k). by rewrite with_ram_id.
  - kstep E. by exists m.
Qed.

(** The state after one tick, up to memory that reads the same. *)
Definition ticked (m : gmap Z Z) (k : kernel) : kernel :=
  with_trace (EvOut 0x20 0x20 :: trace k) (with_timer ((timer k + 1) mod 16) (with_ram m k)).

Lemma PITHandler_ok k :
  console_inv fb W H k -> 0 <= timer k < 16 ->
  exists m, PITHandler k = Ok () (ticked m k) /\ forall q, rb m q = rb (ram k) q.
Proof.
  intros Hi Ht. unfold PITHandler. kmodify. rewrite u_small by lia.
  assert (forall k, gets timer k = Ok (timer k) k) as Hgets by done. kstep (Hgets (with_timer (timer k + 1) k)).
  replace (timer (with_timer (timer k + 1) k)) with (timer k + 1) by (by destruct k).
  destruct (Z.eqb_spec (timer k + 1) 16) as [E|E]; unfold when.
  - rewrite !bind_assoc. kmodify. replace (with_timer 0 (with_timer (timer k + 1) k)) with (with_timer 0 k) by (by destruct k).
    destruct (VgaSwapBuffers_same (with_timer 0 k)) as (m & E2 & Hm).
    { destruct k. exact Hi. }
    kstep E2. exists m. split; [unfold ticked; rewrite E; by destruct k|].
    intros q. rewrite Hm. by destruct k.
  - kstep (ret_ok () (with_timer (timer k + 1) k)). exists (ram k). split; [|done].
    unfold ticked. rewrite Z.mod_small by lia. by destruct k.
Qed.


End Timer.

(** ** Witnesses *)

Definition idt_kernel : kernel := sample_kernel [idt_message].

Definition idt_tables : DescriptorTables := mkTables 0x5000 0x7000.

Lemma x86InitializeIDT_ready_witness :
  exists k', x86InitializeIDT (AS := boot_space) (FW := FirmwareFuncs (AS := boot_space))
      (LT := sample_literals [idt_message]) (FB := sample_buffer) (DT := idt_tables)
      (HA := sample_handlers) idt_kernel = Ok () k' /\
    gate_at (ram k') (0x7000 + 16 * 255) = mkGate 0 0 0 0.
Proof.
  destruct (x86InitializeIDT_ready (AS := boot_space) (FL := sample_laws)
    (LT := sample_literals [idt_message]) (FB := sample_buffer) (PA := sample_area)
    (DT := idt_tables) (HA := sample_handlers) sample_buffer_ok 0x7000 idt_kernel [idt_message])
    as (k1 & k' & E & _ & Hr & _).
  - apply (sample_printable [idt_message]). vm_compute. reflexivity.
  - by left.
  - apply (boot_window_low 0x7000 4096); lia.
  - intros q Hq. simpl. lia.
  - right. change (0x6000 + 22 <= 0x7000). lia.
  - exists k'. split; [exact E|]. rewrite (Hr 255) by lia. reflexivity.
Defined.

