(* ===== verification/Keyboard.v ===== *)
(** * The PS/2 keyboard
    ([kern/arch/x86_64/interrupts.c], [inc/keymaps/charmap.inl])

    Scan codes, the state of the modifiers and the keyboard's handler. *)

From S2P Require Import Prelude Machine Status MemFuncs BinFuncs Strings Vga Pmm Print Stop Descriptors Serial Interrupts.

(** [charmap.inl]. *)
Definition PS2Charmap : list string :=
  [EmptyString; "Esc"; "1"; "2"; "3"; "4"; "5"; "6"; "7"; "8"; "9"; "0"; "-"; "=";
   "Backspace"; "Tab"; "Q"; "W"; "E"; "R"; "T"; "Y"; "U"; "I"; "O"; "P"; "["; "]";
   "Enter"; "LCtrl"; "A"; "S"; "D"; "F"; "G"; "H"; "J"; "K"; "L"; ";"; "'"; "`";
   "LShift"; "\"; "Z"; "X"; "C"; "V"; "B"; "N"; "M"; ","; "."; "/"; "RShift";
   "Keypad *"; "LAlt"; " "; "CapsLock"; "F1"; "F2"; "F3"; "F4"; "F5"; "F6"; "F7";
   "F8"; "F9"; "F10"; "NumLock"; "ScrollLock"; "Keypad 7"; "Keypad 8"; "Keypad 9";
   "Keypad 4"; "Keypad 5"; "Keypad 6"; "Keypad 1"; "Keypad 2"; "Keypad 3";
   "Keypad 0"; "Keypad ."; "F11"; "F12"]%string.

Definition set_shift (v : Z) (k : kernel) : kernel :=
  let '(mkKeyboard _ c a l) := kbd k in with_kbd (mkKeyboard v c a l) k.
Definition set_caps (v : Z) (k : kernel) : kernel :=
  let '(mkKeyboard s c a _) := kbd k in with_kbd (mkKeyboard s c a v) k.

(** C's [!]. *)
Definition lnot (v : Z) : Z := b2z (v =? 0).

Section Keyboard.
Context `{AS : AddrSpace} `{DV : Device} `{FW : KrnlFirmwareFunctions} `{LT : Literals} `{FB : FormatBuffer}.

(** [PS2Charmap[Index]]; the array has 84 elements and the index goes to 127:
    reading past its end is undefined. *)
Definition charmap_at (Index : Z) : K Z :=
  match PS2Charmap !! Z.to_nat Index with Some s => mret (lit s) | None => fault end.

Definition ApplyShiftIfNeeded (In : Z) : K Z :=
  if (In <? 65) || (122 <? In) then mret In
  else
    c ← gets kbd;
    if negb (ShiftModifier c =? 0) then mret (sx 8 (Z.land In (Z.lnot 0x20)))
    else mret (sx 8 (Z.lor In 0x20)).

Definition CheckStatusCode (In : Z) : K () :=
  let Released := negb (Z.land In 0x80 =? 0) in
  let Index := u8 (Z.land In 0x7F) in
  Content ← charmap_at Index;
  let MaxLength := 6 in
  '(_, ContentLength) ← KiGetStringLength Content 0;
  let CompareLength := if ContentLength <? MaxLength then ContentLength else MaxLength in
  '(_, IsShift) ← KiCompareMemory Content (lit "LShift") CompareLength 0;
  '(_, IsShift) ←
    (if IsShift =? 0 then KiCompareMemory Content (lit "RShift") CompareLength IsShift
     else mret (STATUS_SUCCESS, IsShift));
  if negb Released && negb (IsShift =? 0) then
    modify (fun k => set_shift (lnot (CapsLock (kbd k))) k)
  else if Released && negb (IsShift =? 0) then
    modify (fun k => set_shift (CapsLock (kbd k)) k)
  else
    '(_, IsCapsLock) ← KiCompareMemory Content (lit "CapsLock") CompareLength 0;
    if negb Released && negb (IsCapsLock =? 0) then
      modify (fun k => set_shift (lnot (ShiftModifier (kbd k))) k) ;;
      modify (fun k => set_caps (lnot (CapsLock (kbd k))) k)
    else
      let MaxBackspaceLength := 9 in
      let CompareLength :=
        if ContentLength <? MaxBackspaceLength then ContentLength else MaxBackspaceLength in
      '(_, IsBackspace) ← KiCompareMemory Content (lit "Backspace") CompareLength 0;
      if negb Released && negb (IsBackspace =? 0) then KiBackspace ;; skip else skip.

(** The argument is a [CHAR], signed. *)
Definition InternalConvertPS2KeyToASCII (In : Z) : K Z :=
  let Index := u8 (Z.land In 0x7F) in
  Content ← charmap_at Index;
  '(_, ContentLength) ← KiGetStringLength Content 0;
  c ← load8 (Content + 0);
  let ProperLetter := sx 8 c in
  if (In =? 0x1C) || (In =? 0x5A) then mret 10
  else if (In =? 0x39) || (In =? 0x29) then mret 32
  else if negb (ContentLength =? 1) then mret 0
  else ApplyShiftIfNeeded ProperLetter.

(** [Buffer] is the address of the local array of two characters. *)
Definition PS2KeyboardHandler (Buffer : Z) : K () :=
  b ← x86inb 0x60;
  let Keycode := sx 8 b in
  CheckStatusCode (u8 Keycode) ;;
  Letter ← InternalConvertPS2KeyToASCII Keycode;
  store8 (Buffer + 0) 0 ;;
  store8 (Buffer + 1) 0 ;;
  store8 (Buffer + 0) Letter ;;
  store8 (Buffer + 1) 0 ;;
  when (negb (Letter =? 0) && (Z.land Keycode 0x7F =? Keycode))
    (KiPrintFmt Buffer [] ;; skip) ;;
  x86PICSendEOIPIC1.
End Keyboard.

(** ** What the keys do *)

Inductive key := KShift | KCaps | KBackspace | KOther.

(** The keys [CheckStatusCode] acts on.  Scan code 0 names the empty string,
    which compares equal to everything. *)
Definition key_of (i : Z) : key :=
  if (i =? 0) || (i =? 42) || (i =? 54) then KShift
  else if i =? 58 then KCaps
  else if i =? 14 then KBackspace
  else KOther.

(** The modifiers after a key is pressed or released. *)
Definition key_step (released : bool) (i : Z) (c : PS2KeyboardContext) : PS2KeyboardContext :=
  let '(mkKeyboard s ct a l) := c in
  match key_of i, released with
  | KShift, false => mkKeyboard (lnot l) ct a l
  | KShift, true => mkKeyboard l ct a l
  | KCaps, false => mkKeyboard (lnot s) ct a (lnot l)
  | _, _ => c
  end.

(** The character a key types. *)
Definition key_letter (i : Z) (c : PS2KeyboardContext) : Z :=
  if (i =? 0x1C) || (i =? 0x5A) then 10
  else if (i =? 0x39) || (i =? 0x29) then 32
  else match chars (default EmptyString (PS2Charmap !! Z.to_nat i)) with
  | [l] =>
      if (l <? 65) || (122 <? l) then l
      else if negb (ShiftModifier c =? 0) then Z.land l (Z.lnot 0x20) else Z.lor l 0x20
  | _ => 0
  end.

(** ** Comparing key names *)

(** What [KiCompareMemory] says of the first [n] characters of two literals,
    when their characters and terminators decide it. *)
Definition verdict (s t : string) (n : Z) : option bool :=
  if n =? 0 then Some true
  else if String.eqb s t then Some true
  else if existsb (fun i => negb (nth i (chars s ++ [0]) 0 =? nth i (chars t ++ [0]) 0))
      (seq 0 (Nat.min (Z.to_nat (round4 n)) (S (Nat.min (length (chars s)) (length (chars t))))))
  then Some false
  else None.

Definition keymap_literals : list string :=
  PS2Charmap ++ ["LShift"; "RShift"; "CapsLock"; "Backspace"]%string.

(** What the four comparisons of [CheckStatusCode] come to for key [i]. *)
Definition verdicts_ok (i : nat) : bool :=
  let s := default EmptyString (PS2Charmap !! i) in
  let len := zlen (chars s) in
  let n6 := if len <? 6 then len else 6 in
  let n9 := if len <? 9 then len else 9 in
  let k := Z.of_nat i in
  bool_decide (verdict s "LShift" n6 = Some ((k =? 0) || (k =? 42)) /\
    verdict s "RShift" n6 = Some ((k =? 0) || (k =? 54)) /\
    verdict s "CapsLock" n6 = Some ((k =? 0) || (k =? 58)) /\
    verdict s "Backspace" n9 = Some ((k =? 0) || (k =? 14))).

Lemma all_verdicts : forallb verdicts_ok (seq 0 84) = true.
Proof. vm_compute. reflexivity. Qed.

Section Keys.
Context {AS : AddrSpace} {DV : Device} {FW : KrnlFirmwareFunctions} {FL : FirmwareLaws FW}
  {LT : Literals} {FB : FormatBuffer} {PA : PrintArea}.
Hypothesis BO : buffer_ok.
Variable k0 : kernel.
Hypothesis LO : literals_ok k0.

(** The names of the keys are in memory, with some bytes after each: the
    comparison reads past them. *)
Definition keymap_ok : Prop := forall s, In s keymap_literals ->
  exists p, clear_text k0 (lit s) p (chars s) /\ window (lit s) p 24.
Hypothesis KM : keymap_ok.

Lemma text_nth k a p s i :
  clear_text k0 a p s -> held true k0 k -> (i <= length s)%nat ->
  rb (ram k) (p + Z.of_nat i) = nth i (s ++ [0]) 0.
Proof.
  intros Hc Hh Hi. destruct (clear_held _ _ _ _ _ Hc Hh) as [_ _ [Hr _] _ _].
  rewrite <- Hr, nth_read_bytes by lia. done.
Qed.

Lemma compare_lit s t n v k b :
  In s keymap_literals -> In t keymap_literals -> held true k0 k -> 0 <= n <= 9 ->
  verdict s t n = Some b ->
  KiCompareMemory (lit s) (lit t) n v k = Ok (STATUS_SUCCESS, b2z b) k.
Proof.
  intros Hs Ht Hh Hn Hv. destruct (KM s Hs) as (ps & Cs & Ws). destruct (KM t Ht) as (pt & Ct & Wt).
  destruct (KiCompareMemory_ok (lit s) (lit t) n v ps pt k) as (r & E & Hr & Hiff);
    [apply (proj1 Cs)|apply (proj1 Ct)|lia|by apply (window_le _ _ 24); [|lia]..|].
  rewrite E. do 2 f_equal. pose proof (round4_bounds n ltac:(lia)) as [HR _].
  unfold verdict in Hv. destruct (Z.eqb_spec n 0) as [->|Hn0].
  { injection Hv as <-. apply Hiff. intros i Hi. change (round4 0) with 0 in Hi. lia. }
  destruct (String.eqb_spec s t) as [<-|Hst].
  { injection Hv as <-. apply Hiff. intros i Hi. do 2 f_equal.
    pose proof (Ws 0 ltac:(lia)) as H1. pose proof (Wt 0 ltac:(lia)) as H2. rewrite H1 in H2.
    injection H2. lia. }
  destruct (existsb _ _) eqn:Ex; [|done]. injection Hv as <-.
  destruct Hr as [Hr|Hr]; [done|]. exfalso. apply existsb_exists in Ex as (i & Hi & Hne).
  apply in_seq in Hi. apply negb_true_iff, Z.eqb_neq in Hne. apply Hne.
  rewrite <- (text_nth k _ _ _ i Cs Hh), <- (text_nth k _ _ _ i Ct Hh) by lia.
  apply (proj1 Hiff Hr). lia.
Qed.

Lemma charmap_ok i k :
  0 <= i < 84 -> exists s, charmap_at i k = Ok (lit s) k /\ In s keymap_literals /\
    s = default EmptyString (PS2Charmap !! Z.to_nat i).
Proof.
  intros Hi. unfold charmap_at.
  destruct (lookup_lt_is_Some_2 PS2Charmap (Z.to_nat i)) as [s Es].
  { change (length PS2Charmap) with 84%nat. lia. }
  exists s. rewrite Es. split; [done|]. split; [|done].
  apply in_or_app. left. apply list_elem_of_In. by eapply list_elem_of_lookup_2.
Qed.

Lemma name_length s k :
  In s keymap_literals -> held true k0 k ->
  KiGetStringLength (lit s) 0 k = Ok (STATUS_SUCCESS, zlen (chars s)) k.
Proof. intros Hs Hh. destruct (KM s Hs) as (p & Hc & _). apply (length_ok _ p), (clear_held k0); done. Qed.

Lemma code_index c : 0 <= c < 256 -> u8 (Z.land c 0x7F) = c mod 128 /\ negb (Z.land c 0x80 =? 0) = (128 <=? c).
Proof.
  intros Hc. change 0x7F with (Z.ones 7). rewrite Z.land_ones by lia. change (2 ^ 7) with 128.
  split; [apply u_small; dlia|]. change (Z.land c 0x80) with (Z.land c (2 ^ 7)). rewrite land_pow2.
  assert (Z.testbit c 7 = (128 <=? c)) as ->.
  { rewrite Z.testbit_eqb by lia. change (2 ^ 7) with 128. bdestr; dlia || done. }
  by destruct (128 <=? c).
Qed.

Lemma kbd_set k c : kbd (with_kbd c k) = c.
Proof. by destruct k. Qed.

Lemma held_kbd k c : held true k0 k -> held true k0 (with_kbd c k).
Proof. intros Hh. by apply (held_change _ _ k); [|destruct k..]. Qed.

(** [CheckStatusCode] of scan code [c]: the key's effect on the modifiers, and
    a call of the firmware for backspace. *)
Lemma CheckStatusCode_ok c k :
  0 <= c < 256 -> c mod 128 < 84 -> held true k0 k ->
  exists k', CheckStatusCode c k = Ok () k' /\ held true k0 k' /\
    kbd k' = key_step (128 <=? c) (c mod 128) (kbd k) /\
    if bool_decide (c mod 128 = 14) && negb (128 <=? c) then Backspace k = Ok () k'
    else k' = with_kbd (kbd k') k.
Proof.
  intros Hc Hi Hh. destruct (code_index c Hc) as [Ei Er]. unfold CheckStatusCode. cbv zeta.
  rewrite Ei, Er. set (i := c mod 128) in *. assert (0 <= i) by (unfold i; dlia).
  destruct (charmap_ok i k ltac:(lia)) as (s & Es & Hs & Ed). kstep Es. kstep (name_length s k Hs Hh).
  pose proof (proj1 (forallb_forall _ _) all_verdicts (Z.to_nat i) ltac:(apply in_seq; lia)) as Hv.
  unfold verdicts_ok in Hv. rewrite <- Ed, Z2Nat.id in Hv by lia. apply bool_decide_eq_true in Hv.
  set (n6 := if zlen (chars s) <? 6 then zlen (chars s) else 6) in *.
  set (n9 := if zlen (chars s) <? 9 then zlen (chars s) else 9) in *.
  pose proof (zlen_nonneg (chars s)).
  assert (0 <= n6 <= 9) as H6 by (unfold n6; destruct (_ <? _) eqn:E; lia).
  assert (0 <= n9 <= 9) as H9 by (unfold n9; destruct (Z.ltb_spec (zlen (chars s)) 9); lia).
  destruct Hv as (V1 & V2 & V3 & V4).
  assert (forall t, In t ["LShift"; "RShift"; "CapsLock"; "Backspace"]%string -> In t keymap_literals) as Hin
    by (intros; apply in_or_app; by right).
  pose proof (fun v => compare_lit _ _ _ v k _ Hs (Hin "LShift"%string ltac:(simpl; tauto)) Hh H6 V1) as C1.
  pose proof (fun v => compare_lit _ _ _ v k _ Hs (Hin "RShift"%string ltac:(simpl; tauto)) Hh H6 V2) as C2.
  pose proof (fun v => compare_lit _ _ _ v k _ Hs (Hin "CapsLock"%string ltac:(simpl; tauto)) Hh H6 V3) as C3.
  pose proof (fun v => compare_lit _ _ _ v k _ Hs (Hin "Backspace"%string ltac:(simpl; tauto)) Hh H9 V4) as C4.
  kstep (C1 0). clear C1 V1 V2 V3 V4 Hin.
  rewrite (bind_ok _ _ k (STATUS_SUCCESS, b2z ((i =? 0) || (i =? 42) || (i =? 54))) k).
  2:{ destruct (Z.eqb_spec i 0); [done|]. destruct (Z.eqb_spec i 42); [done|]. simpl. apply C2. }
  unfold key_step, key_of. destruct (kbd k) as [sh ct al cl] eqn:Ek. cbv beta iota.
  destruct ((i =? 0) || (i =? 42) || (i =? 54)) eqn:Eshift.
  { assert (bool_decide (i = 14) = false) as -> by (apply bool_decide_eq_false; lia). simpl.
    destruct (128 <=? c); simpl; unfold modify; eexists; (split; [reflexivity|]);
      unfold set_shift; rewrite Ek; simpl; rewrite kbd_set; eauto using held_kbd. }
  rewrite !andb_false_r. cbn [negb b2z Z.eqb]. kstep (C3 0).
  assert ((i =? 0) = false) as E0 by lia. rewrite E0 in *. simpl orb.
  destruct (Z.eqb_spec i 58) as [E58|E58].
  { rewrite (bool_decide_eq_false_2 (i = 14)) by lia. destruct (128 <=? c); simpl.
    - kstep (C4 0). exists k. rewrite Ek. split_and!; try done.
      destruct k; simpl in *; congruence.
    - kmodify. unfold modify. eexists. split; [reflexivity|]. unfold set_shift. rewrite Ek. unfold set_caps.
      rewrite kbd_set. simpl. rewrite kbd_set. split; [by apply held_kbd, held_kbd|]. split; [done|].
      by destruct k. }
  rewrite andb_false_r. cbn [b2z]. kstep (C4 0). destruct (Z.eqb_spec i 14) as [E14|E14].
  - rewrite (bool_decide_eq_true_2 (i = 14)) by done. destruct (128 <=? c); simpl.
    + exists k. rewrite Ek. split_and!; try done. destruct k; simpl in *; congruence.
    + destruct (fw_backspace k (proj1 Hh)) as (k' & E & Hi' & Ho & Hf).
      exists k'. unfold KiBackspace. rewrite bind_assoc. kstep E. split; [done|]. split.
      { eapply held_trans; [exact Hh|]. split; [done|]. intros q Hq _. by apply Hf. }
      split; [|done]. rewrite <- Ek. unfold others in Ho. congruence.
  - rewrite (bool_decide_eq_false_2 (i = 14)) by lia. rewrite andb_false_r. simpl.
    exists k. rewrite Ek. split_and!; try done. destruct k; simpl in *; congruence.
Qed.
(** Every key types nothing, a line feed or a printable character that is not
    a percent sign. *)
Definition typable (l : Z) : bool := (l =? 10) || ((32 <=? l) && (l <? 127) && negb (l =? 37)).

Definition letters_ok (i : nat) : bool :=
  let cs := chars (default EmptyString (PS2Charmap !! i)) in
  forallb (fun sh => let l := key_letter (Z.of_nat i) (mkKeyboard sh 0 0 0) in (l =? 0) || typable l) [0; 1]
  && forallb (fun c => (0 <? c) && (c <? 128)) cs
  && (if zlen cs =? 1 then forallb (fun c => (sx 8 (Z.land c (Z.lnot 0x20)) =? Z.land c (Z.lnot 0x20))
        && (sx 8 (Z.lor c 0x20) =? Z.lor c 0x20)) cs else true).

Lemma all_letters : forallb letters_ok (seq 0 84) = true.
Proof. vm_compute. reflexivity. Qed.

Lemma letters_at i : 0 <= i < 84 -> letters_ok (Z.to_nat i) = true.
Proof. intros Hi. apply (proj1 (forallb_forall _ _) all_letters), in_seq. lia. Qed.

Lemma key_letter_shift i c c' :
  lnot (ShiftModifier c) = lnot (ShiftModifier c') -> key_letter i c = key_letter i c'.
Proof.
  unfold lnot, key_letter. intros H. assert ((ShiftModifier c =? 0) = (ShiftModifier c' =? 0)) as ->; [|done].
  by destruct (ShiftModifier c =? 0), (ShiftModifier c' =? 0).
Qed.

Lemma key_letter_typable i c : 0 <= i < 84 -> key_letter i c = 0 \/ typable (key_letter i c) = true.
Proof.
  intros Hi. pose proof (letters_at i Hi) as H. unfold letters_ok in H.
  apply andb_prop in H as [H _]. apply andb_prop in H as [H _]. rewrite Z2Nat.id in H by lia.
  cbn [forallb] in H. rewrite andb_true_r in H. apply andb_prop in H as [H1 H2].
  destruct (Z.eqb_spec (ShiftModifier c) 0) as [E|E].
  - rewrite (key_letter_shift i c (mkKeyboard 0 0 0 0)) by (unfold lnot; simpl; by rewrite E).
    apply orb_prop in H1 as [H1|H1]; [left; lia|by right].
  - rewrite (key_letter_shift i c (mkKeyboard 1 0 0 0))
      by (unfold lnot; simpl; by rewrite (proj2 (Z.eqb_neq _ _) E)).
    apply orb_prop in H2 as [H2|H2]; [left; lia|by right].
Qed.

Lemma sx8_code c : 0 <= c < 256 -> sx 8 c = if c <? 128 then c else c - 256.
Proof.
  intros Hc. unfold sx. rewrite u_small by lia. change (2 ^ (8 - 1)) with 128. change (2 ^ 8) with 256.
  bdestr; lia.
Qed.

Lemma convert_ok c k :
  0 <= c < 256 -> c mod 128 < 84 -> held true k0 k ->
  exists l, InternalConvertPS2KeyToASCII (sx 8 c) k = Ok l k /\
    (c < 128 -> l = key_letter c (kbd k)).
Proof.
  intros Hc Hi Hh. unfold InternalConvertPS2KeyToASCII.
  assert (u8 (Z.land (sx 8 c) 0x7F) = c mod 128) as ->.
  { change 0x7F with (Z.ones 7). rewrite Z.land_ones, sx8_code by lia. unfold u. destruct (Z.ltb_spec c 128); dlia. }
  destruct (charmap_ok (c mod 128) k ltac:(dlia)) as (s & Es & Hs & Ed). kstep Es. kstep (name_length s k Hs Hh).
  destruct (KM s Hs) as (p & Ct & W).
  rewrite Z.add_0_r. kstep (load8_ok (lit s) p k ltac:(apply (window_le _ _ 24); [done|lia])).
  pose proof (text_nth k _ _ _ 0 Ct Hh ltac:(lia)) as En. rewrite Z.add_0_r in En. rewrite En. cbv zeta.
  set (In := sx 8 c) in *. destruct ((In =? 0x1C) || (In =? 0x5A)) eqn:E1.
  { exists 10. split; [done|]. intros Hc'. unfold In in E1. rewrite sx8_code, (proj2 (Z.ltb_lt _ _) Hc') in E1 by lia.
    unfold key_letter. by rewrite E1. }
  destruct ((In =? 0x39) || (In =? 0x29)) eqn:E2.
  { exists 32. split; [done|]. intros Hc'. unfold In in E1, E2. rewrite sx8_code, (proj2 (Z.ltb_lt _ _) Hc') in E1, E2 by lia.
    unfold key_letter. by rewrite E1, E2. }
  assert (c < 128 -> key_letter c (kbd k) = match chars s with
    | [l] => if (l <? 65) || (122 <? l) then l
        else if negb (ShiftModifier (kbd k) =? 0) then Z.land l (Z.lnot 0x20) else Z.lor l 0x20
    | _ => 0 end) as Hk.
  { intros Hc'. unfold In in E1, E2. rewrite sx8_code, (proj2 (Z.ltb_lt _ _) Hc') in E1, E2 by lia.
    unfold key_letter. rewrite E1, E2. rewrite Z.mod_small in Ed by lia. by rewrite <- Ed. }
  pose proof (letters_at (c mod 128) ltac:(dlia)) as Hl. unfold letters_ok in Hl. rewrite <- Ed in Hl.
  apply andb_prop in Hl as [Hl Hsx]. apply andb_prop in Hl as [_ Hl].
  destruct (Z.eqb_spec (zlen (chars s)) 1) as [E3|E3]; cbn [negb].
  2:{ exists 0. split; [done|]. intros Hc'. rewrite Hk by done.
      destruct (chars s) as [|l [|l2 t]] eqn:Ecs; try done. }
  destruct (chars s) as [|l [|l2 t]] eqn:Ecs; try (unfold zlen in E3; simpl in E3; lia).
  simpl in Hsx, Hl. rewrite !andb_true_r in Hsx, Hl. apply andb_prop in Hsx as [S1 S2].
  apply Z.eqb_eq in S1, S2. simpl nth. rewrite sx_small by lia. unfold ApplyShiftIfNeeded.
  destruct ((l <? 65) || (122 <? l)) eqn:E4.
  { exists l. split; [done|]. intros Hc'. by rewrite Hk. }
  assert (gets kbd k = Ok (kbd k) k) as Hg by done. kstep Hg. rewrite S1, S2.
  destruct (negb (ShiftModifier (kbd k) =? 0)); eexists; (split; [done|]); intros Hc'; by rewrite Hk.
Qed.

(** The only output of a format of one character. *)
Lemma one_char_output (P : Z -> list Z -> Prop) t o :
  typable t = true -> fmt_output P [t] [] o -> o = if t =? 10 then [OLine] else [OChar t].
Proof.
  unfold typable. intros Ht Ho.
  inversion Ho as [|? ? ? ? ? ? Hs|? ? ? Hs|? ? ? Hs|? ? ? ? ? ? ? Hs| | | | | |]; subst; try lia;
    try (inversion Hs; subst); try done.
  by rewrite (proj2 (Z.eqb_neq t 10)) by lia.
Qed.

(** What is printed for scan code [c] with the modifiers [m]. *)
Definition typed (c : Z) (m : PS2KeyboardContext) : list out :=
  if 128 <=? c then []
  else
    let l := key_letter c m in
    if l =? 0 then [] else if l =? 10 then [OLine] else [OChar l].

Lemma pressed_code c : 0 <= c < 256 ->
  u8 (sx 8 c) = c /\ (Z.land (sx 8 c) 0x7F =? sx 8 c) = negb (128 <=? c).
Proof.
  intros Hc. rewrite sx8_code by done. change 0x7F with (Z.ones 7). rewrite Z.land_ones by lia.
  change (2 ^ 7) with 128. unfold u.
  destruct (Z.ltb_spec c 128); destruct (Z.leb_spec 128 c); simpl; try lia; (split; [dlia|]);
    bdestr; try done; dlia.
Qed.

(** The local buffer filled in. *)
Lemma buffer_filled Buffer pb l k :
  window Buffer pb 2 ->
  exists m, (forall f : K (), (store8 (Buffer + 0) 0 ;; store8 (Buffer + 1) 0 ;;
      store8 (Buffer + 0) l ;; store8 (Buffer + 1) 0 ;; f) k = f (with_ram m k)) /\
    (ram_ok (ram k) -> ram_ok m) /\
    forall q, rb m q = if q =? pb then u8 l else if q =? pb + 1 then 0 else rb (ram k) q.
Proof.
  intros W. exists (<[pb + 1 := u8 0]> (<[pb + 0 := u8 l]> (<[pb + 1 := u8 0]> (<[pb + 0 := u8 0]> (ram k))))).
  assert (forall o, 0 <= o < 2 -> window (Buffer + o) (pb + o) 1) as Ws
    by (intros; apply (window_sub _ _ 2); [done|lia|lia]).
  split; [|split].
  - intros f. kstep (store8_ok _ _ 0 k (Ws 0 ltac:(lia))).
    rewrite (bind_ok _ _ _ _ _ (store8_ok _ _ 0 _ (Ws 1 ltac:(lia)))).
    rewrite (bind_ok _ _ _ _ _ (store8_ok _ _ l _ (Ws 0 ltac:(lia)))).
    rewrite (bind_ok _ _ _ _ _ (store8_ok _ _ 0 _ (Ws 1 ltac:(lia)))).
    by rewrite ?with_ram_with_ram, ?ram_with_ram.
  - intros Hm. by repeat apply ram_ok_u8.
  - intros q. rewrite !rb_insert, (u_small 8 0), Z.add_0_r by lia. bdestr; lia || done.
Qed.

(** The buffer's two bytes are a text of one character. *)
Lemma one_char_text Buffer pb t k :
  Buffer <> NULL -> window Buffer pb 2 -> scratch pb -> scratch (pb + 1) ->
  pb + 2 <= bp \/ bp + 22 <= pb -> typable t = true ->
  rb (ram k) pb = u8 t /\ rb (ram k) (pb + 1) = 0 -> clear_text (PA := narrow) k Buffer pb [t].
Proof using BO.
  intros Hnull W S0 S1 Hd Ht [E0 E1].
  rewrite u_small in E0 by (unfold typable in Ht; lia).
  split; [constructor; [done|done| |done|]|]; change (zlen [t]) with 1.
  - split; [simpl; by rewrite E0, E1|]. repeat constructor. unfold typable in Ht. lia.
  - intros q Hq. apply (bo_safe BO). right. assert (q = pb \/ q = pb + 1) as [->| ->] by lia; done.
  - intros q Hq [Hq2|[]]. assert (bp <= q < bp + 22) by exact Hq2. lia.
Qed.

Lemma others_kbd k k' : others k = others k' -> kbd k = kbd k'.
Proof. unfold others. congruence. Qed.

(** Of the kernel's statics a key changes the modifiers only. *)
Lemma CheckStatusCode_others c k k' :
  held true k0 k -> 
  (if bool_decide (c mod 128 = 14) && negb (128 <=? c) then Backspace k = Ok () k' else k' = with_kbd (kbd k') k) ->
  others k' = others (with_kbd (kbd k') k).
Proof.
  intros Hh. destruct (_ && _).
  - destruct (fw_backspace k (proj1 Hh)) as (k2 & E & _ & Ho & _). rewrite E. intros [= <-].
    unfold others in *. destruct k, k2. simpl in *. congruence.
  - intros E. rewrite E at 1. by destruct k.
Qed.

Lemma PS2KeyboardHandler_ok (Buffer pb : Z) (k : kernel) :
  let c := u8 (dev_in8 (trace k) 0x60) in
  held true k0 k -> c mod 128 < 84 -> Buffer <> NULL ->
  window Buffer pb 2 -> scratch pb -> scratch (pb + 1) -> pb + 2 <= bp \/ bp + 22 <= pb ->
  exists k1 k2, let m := key_step (128 <=? c) (c mod 128) (kbd k) in
    PS2KeyboardHandler Buffer k = Ok () (with_trace (EvOut 0x20 0x20 :: trace k2) k2) /\
    others k2 = others (with_kbd m k) /\ prints k1 (typed c m) k2 /\ held true k0 k1 /\ held true k0 k2.
Proof.
  intros c H0 Hm Hnull W S0 S1 Hd. assert (0 <= c < 256) as Hc by (apply (u_range 8); lia).
  set (ka := with_trace (EvIn 0x60 c :: trace k) k).
  assert (held true k0 ka) as Ha by (by apply (held_change _ _ k); [|destruct k..]).
  destruct (pressed_code c Hc) as [Eu Ep].
  destruct (CheckStatusCode_ok c ka Hc Hm Ha) as (kb & E1 & Hb & Hkb & Hok).
  apply (CheckStatusCode_others c ka kb Ha) in Hok.
  assert (kbd ka = kbd k) as Eka by (by destruct k). rewrite Eka in Hkb.
  set (m := key_step (128 <=? c) (c mod 128) (kbd k)) in *.
  destruct (convert_ok c kb Hc Hm Hb) as (l & E2 & Hl). rewrite Hkb in Hl.
  unfold PS2KeyboardHandler. kstep (inb_ok 0x60 k).
  change (u16 0x60) with 0x60. fold c. fold ka. cbv zeta. rewrite Eu. kstep E1. kstep E2.
  destruct (buffer_filled Buffer pb l kb W) as (mb & Ef & Hmb & Hrb). rewrite Ef. clear Ef.
  set (kc := with_ram mb kb).
  assert (held true k0 kc) as Hkc.
  { destruct Hb as [Hbi Hbf]. split.
    - apply (fw_frame kb); [done|unfold kc; rewrite ram_with_ram; apply Hmb; by apply fw_ram|by destruct kb..].
    - intros q Hq Hn. unfold kc. rewrite ram_with_ram, Hrb.
      destruct (Z.eqb_spec q pb) as [->|]; [by destruct Hn; [|right]|].
      destruct (Z.eqb_spec q (pb + 1)) as [->|]; [by destruct Hn; [|right]|]. by apply Hbf. }
  assert (others kc = others (with_kbd m k)) as Ekc.
  { rewrite Hkb in Hok. transitivity (others kb); [by destruct kb|]. rewrite Hok. by destruct k. }
  rewrite Ep. unfold typed. destruct (Z.leb_spec 128 c) as [Hrel|Hpr].
  { exists kc, kc. rewrite andb_false_r. split; [done|]. split_and!; try done. constructor. }
  rewrite (Hl Hpr) in *. cbn [negb]. rewrite andb_true_r. set (t := key_letter c m) in *.
  destruct (Z.eqb_spec t 0) as [E0|E0]; cbn [negb]; unfold when.
  { exists kc, kc. split; [done|]. split_and!; try done. constructor. }
  assert (typable t = true) as Ht.
  { rewrite Z.mod_small in Hm by lia. destruct (key_letter_typable c m ltac:(lia)); done. }
  destruct (print_text BO k0 Buffer pb [t] [] kc LO Hkc) as (o & k2 & E3 & Ho & Hp & Hh2 & _).
  { apply one_char_text; try done. unfold kc. by rewrite ram_with_ram, !Hrb, Z.eqb_refl,
      (proj2 (Z.eqb_neq (pb + 1) pb)), Z.eqb_refl by lia. }
  { cbn [fmt_ok]. by destruct (t =? 37). }
  apply (one_char_output _ _ _ Ht) in Ho. subst o.
  exists kc, k2. rewrite !bind_assoc. kstep E3. split; [done|].
  split; [by rewrite <- Ekc; apply prints_others in Hp|]. by split_and!.
Qed.

End Keys.

(** ** Witness: the key A with caps lock on *)

Definition a_pressed : Device := fun _ _ => 30.

Definition caps_kernel : kernel :=
  with_kbd (mkKeyboard 1 0 0 1) (sample_kernel keymap_literals).

