(* ===== verification/Startup.v ===== *)
(** * Starting the kernel ([kern/kernel_main.c], [kern/kernel_private.c],
    [kern/lib/kernel_debugfuncs.c], [kern/arch/x86_64/archstart.c])

    From the environment the boot code hands over to the debug shell: the
    memory map is turned into the memory manager's, the processor gets its
    tables, the drivers are (not) loaded. *)

From S2P Require Import Prelude Machine Status MemFuncs BinFuncs Strings Vga Heap Pmm Paging Print Serial Stop Descriptors Interrupts.

(** ** Layouts ([krnlentry.h], [mm.h]) *)

Definition BootMemoryRange_Usage : Z := 0.
Definition BootMemoryRange_Start : Z := 8.
Definition BootMemoryRange_End : Z := 16.
Definition sizeof_BootMemoryRange : Z := 24.
Definition MmMemoryRange_SType : Z := 0.
Definition MmMemoryRange_PNext : Z := 8.
Definition MmMemoryRange_Start : Z := 16.
Definition MmPhysicalAllocationInfo_sType : Z := 0.
Definition MmPhysicalAllocationInfo_pNext : Z := 8.
Definition MmCreateInfo_sType : Z := 0.
Definition MmCreateInfo_pNext : Z := 8.

Definition MM_STRUCTURE_TYPE_MANAGEMENT_CREATE_INFO : Z := 0.
Definition MM_STRUCTURE_TYPE_PHYSICAL_ALLOCATION_INFO : Z := 1.
Definition MM_STRUCTURE_TYPE_FREE_AREA_RANGE : Z := 9.
Definition MM_STRUCTURE_TYPE_RESERVED_AREA_RANGE : Z := 11.
Definition MM_STRUCTURE_TYPE_OTHER_AREA_RANGE : Z := 12.

(** [KiSubsystemIdentifier] of [frlos.h]. *)
Inductive KiSubsystemIdentifier :=
| FERAL_SUBSYSTEM_MEMORY_MANAGEMENT
| FERAL_SUBSYSTEM_ARCH_SPECIFIC
| FERAL_SUBSYSTEM_FILESYSTEM_MANAGEMENT
| FERAL_SUBSYSTEM_OBJECT_MANAGEMENT
| FERAL_SUBSYSTEM_VIDEO_MANAGEMENT
| FERAL_SUBSYSTEM_POWER_MANAGEMENT
| FERAL_SUBSYSTEM_PROCESS_MANAGEMENT
| FERAL_SUBSYSTEM_NETWORK_STACK
| FERAL_SUBSYSTEM_EMULATION_STACK
| FERAL_SUBSYSTEM_AUDIO_STACK
| FERAL_SUBSYSTEM_INPUT_STACK.

#[export] Instance KiSubsystemIdentifier_eq_dec : EqDecision KiSubsystemIdentifier.
Proof. solve_decision. Defined.

(** The environment block; its [BootInfo] points to the kernel's [bootinfo].
    [GetFirmwareName] returns a pointer. *)
Class KrnlEnvironmentBlock := mkEnvironment {
  FunctionTable :: KrnlFirmwareFunctions;
  GetFirmwareName : K Z;
  GetMaxPhysicalAddress : K Z;
}.

(** [kern_ver.h], whose numbers the build fills in. *)
Definition FERAL_VERSION_SHORT : string := "Alpha Aligator".
Class KernelVersion := mkVersion {
  FERAL_VERSION_MAJOR : Z;
  FERAL_VERSION_MINOR : Z;
  FERAL_VERSION_PATCH : Z;
}.

(** Where the compiler and the linker put the locals [AllocInfo] and [info]
    of [KiStartupSystem], [Item] of [InitSerialDevice], [CmdBuffer] and
    [CurChar] of the shell, and the initial page table. *)
Class StartupAddresses := mkStartupAddresses {
  AllocInfo : Z;
  info : Z;
  Item : Z;
  CmdBuffer : Z;
  CurChar : Z;
  get_initial_p4_table : Z;
}.

(** The banner's format: its quotes and its newlines are written by code. *)
Definition chr (n : nat) : string := String (Ascii.ascii_of_nat n) EmptyString.
Definition banner : string :=
  chr 10 +:+ "Starting Feral Kernel " +:+ chr 34 +:+ "%s" +:+ chr 34 +:+
  ln " Version %01u.%01u.%01u".

Section Startup.
Context `{AS : AddrSpace} `{DV : Device} `{EB : KrnlEnvironmentBlock} `{LT : Literals} `{FB : FormatBuffer}
  `{SR : StopRegisters} `{DT : DescriptorTables} `{HA : HandlerAddresses}
  `{VR : KernelVersion} `{SA : StartupAddresses}.

(** *** kernel_private.c *)

Definition KiLoadAllDrivers : K FERALSTATUS := mret STATUS_SUCCESS.

(** *** archstart.c *)

Definition KiStartupMachineDependent : K () := skip.

Definition KiStartupProcessorMachineDependent (Core : Z) : K () :=
  KiRestoreInterrupts 0 ;;
  when (Core =? 0)
    (x86InitializeGDT ;;
     x86InitializeIDT ;;
     x86UnmapAddress get_initial_p4_table 0 ;; skip) ;;
  KiRestoreInterrupts 1.

(** *** kernel_debugfuncs.c *)

Definition SerialPrint (X : Z) : K () :=
  '(_, Len) ← KiGetStringLength X 0;
  SerialSend COM1_PORT X Len.

Definition KiDebugPrint (string : Z) : K FERALSTATUS :=
  KiPrintWarnLine string ;;
  SerialPrint string ;;
  SerialPrint (lit (ln "")) ;;
  mret STATUS_SUCCESS.

(** *** kernel_main.c *)

Definition KiStartupProcessor (ProcessorNumber : Z) : K FERALSTATUS :=
  KiStartupProcessorMachineDependent ProcessorNumber ;;
  mret STATUS_SUCCESS.

Definition KeBootstrapSystem : K FERALSTATUS := mret STATUS_SUCCESS.

(** The body of the loop over the memory ranges. *)
Definition convert_range (BootRange Ranges Index : Z) : K () :=
  let b := BootRange + Index * sizeof_BootMemoryRange in
  let r := Ranges + Index * sizeof_MmMemoryRange in
  v ← load32 (b + BootMemoryRange_Usage); store32 (r + MmMemoryRange_SType) v ;;
  store64 (r + MmMemoryRange_PNext) 0 ;;
  v ← load64 (b + BootMemoryRange_Start); store64 (r + MmMemoryRange_Start) v ;;
  v ← load64 (b + BootMemoryRange_End); store64 (r + MmMemoryRange_End) v ;;
  e ← load64 (r + MmMemoryRange_End);
  s ← load64 (r + MmMemoryRange_Start);
  store64 (r + MmMemoryRange_Size) (u64 (e - s)) ;;
  s ← load64 (r + MmMemoryRange_Start);
  when (s <? 1024 * 1024) (store32 (r + MmMemoryRange_SType) MM_STRUCTURE_TYPE_RESERVED_AREA_RANGE).

(** [BootInfo] is not written before [KiInitializeMemMgr] returns. *)
Definition KiStartupSystem (subsystem : KiSubsystemIdentifier) : K FERALSTATUS :=
  if bool_decide (subsystem = FERAL_SUBSYSTEM_MEMORY_MANAGEMENT) then
    BootInfo ← gets bootinfo;
    let MemAmt := NumMemoryRanges BootInfo in
    store32 (AllocInfo + MmPhysicalAllocationInfo_sType) MM_STRUCTURE_TYPE_PHYSICAL_ALLOCATION_INFO ;;
    store64 (AllocInfo + MmPhysicalAllocationInfo_pNext) 0 ;;
    store64 (AllocInfo + MmPhysicalAllocationInfo_FrameSize) 4096 ;;
    store64 (AllocInfo + MmPhysicalAllocationInfo_MemoryAreaRangeCount) MemAmt ;;
    let BootRange := MemoryRanges BootInfo in
    let Ranges := u64 (MemoryRanges BootInfo + (NumMemoryRanges BootInfo + 1) * sizeof_BootMemoryRange) in
    for_lt 64 MemAmt 1 (convert_range BootRange Ranges) 0 ;;
    store64 (AllocInfo + MmPhysicalAllocationInfo_Ranges) Ranges ;;
    store32 (info + MmCreateInfo_sType) MM_STRUCTURE_TYPE_MANAGEMENT_CREATE_INFO ;;
    store64 (info + MmCreateInfo_pNext) 0 ;;
    store64 (info + MmCreateInfo_pPhysicalAllocationInfo) AllocInfo ;;
    store64 (info + MmCreateInfo_SafePMMArea)
      (u64 (Ranges + (MemAmt + 4096) * sizeof_MmMemoryRange)) ;;
    Status ← KiInitializeMemMgr (ST := stop_error) info;
    if negb (status_eqb Status STATUS_SUCCESS) then mret Status else mret STATUS_SUCCESS
  else if bool_decide (subsystem = FERAL_SUBSYSTEM_ARCH_SPECIFIC) then
    KiStartupMachineDependent ;;
    InitSerialDevice Item 0 ;;
    mret STATUS_SUCCESS
  else mret STATUS_SUCCESS.

(** Line 104, [FERALSTATUS KiLoadAllDrivers(VOID);], declares the function and
    does not call it.  The last loop has an empty body. *)
Definition KiSystemStartup : K () :=
  KiStartupSystem FERAL_SUBSYSTEM_MEMORY_MANAGEMENT ;;
  KiPrintFmt (lit banner)
    [lit FERAL_VERSION_SHORT; FERAL_VERSION_MAJOR; FERAL_VERSION_MINOR; FERAL_VERSION_PATCH] ;;
  m ← GetMaxPhysicalAddress;
  KiPrintFmt (lit (ln "Found %lu mebibytes of free memory")) [m `div` (1024 * 1024)] ;;
  KiPrintLine (lit "Copyright (c) 2018-2020, Brian Schnepp") ;;
  name ← GetFirmwareName;
  KiPrintFmt (lit (ln "Booted using %s")) [name] ;;
  KiPrintFmt (lit (ln "%s")) [lit "Preparing execution environment..."] ;;
  KiStartupSystem FERAL_SUBSYSTEM_ARCH_SPECIFIC ;;
  KiStartupProcessor 0 ;;
  KiPrintFmt (lit (ln "Loading all drivers...")) [] ;;
  KiDebugPrint (lit "INIT Reached here.") ;;
  KiDebugPrint (lit "Some other serial string.") ;;
  SerialDoKShellPrompt CmdBuffer CurChar ;;
  cloop (fun _ : () => mret (inl ())) ().

End Startup.

(** ** The memory map *)

(** A boot memory range and the memory manager's range, as they lie in
    memory. *)
Record boot_range := mkBootRange { br_Usage : Z; br_Start : Z; br_End : Z }.
Record mm_range := mkMmRange {
  mr_SType : Z; mr_PNext : Z; mr_Start : Z; mr_End : Z; mr_Size : Z }.

Definition boot_range_at (m : gmap Z Z) (p : Z) : boot_range :=
  mkBootRange (rdn 4 m p) (rdn 8 m (p + 8)) (rdn 8 m (p + 16)).
Definition mm_range_at (m : gmap Z Z) (p : Z) : mm_range :=
  mkMmRange (rdn 4 m p) (rdn 8 m (p + 8)) (rdn 8 m (p + 16)) (rdn 8 m (p + 24)) (rdn 8 m (p + 32)).

(** The kernel's range for a boot range: memory below 1 MiB is reserved. *)
Definition converted (b : boot_range) : mm_range :=
  mkMmRange (if br_Start b <? 1024 * 1024 then MM_STRUCTURE_TYPE_RESERVED_AREA_RANGE else br_Usage b)
    0 (br_Start b) (br_End b) (u64 (br_End b - br_Start b)).

(** The highest end of the first [n] boot ranges. *)
Fixpoint boot_end (m : gmap Z Z) (p : Z) (n : nat) : Z :=
  match n with
  | O => 0
  | S n => Z.max (boot_end m p n) (br_End (boot_range_at m (p + 24 * Z.of_nat n)))
  end.

Lemma boot_range_at_ext m m' p :
  (forall q, p <= q < p + 24 -> rb m' q = rb m q) -> boot_range_at m' p = boot_range_at m p.
Proof. intros H. unfold boot_range_at. f_equal; apply rdn_ext; intros; apply H; lia. Qed.

Lemma mm_range_at_ext m m' p :
  (forall q, p <= q < p + 40 -> rb m' q = rb m q) -> mm_range_at m' p = mm_range_at m p.
Proof. intros H. unfold mm_range_at. f_equal; apply rdn_ext; intros; apply H; lia. Qed.

(** Read through stores elsewhere. *)
Ltac rd := rewrite ?ram_with_ram;
  repeat first [rewrite rdn_wrn_same | rewrite rdn_wrn_other by lia].

(** Run the next access, at an offset in the window [W]. *)
Ltac wstep W :=
  match type of W with
  | window ?a ?p ?len =>
      match goal with
      | |- context [mbind _ (storen ?n (a + ?o) ?v) ?kk] =>
          kstep (storen_at n a p len (a + o) o v kk W eq_refl ltac:(lia) ltac:(lia))
      | |- context [mbind _ (loadn ?n (a + ?o)) ?kk] =>
          kstep (loadn_at n a p len (a + o) o kk W eq_refl ltac:(lia) ltac:(lia))
      end
  end; rewrite ?with_ram_with_ram, ?ram_with_ram.

Section MemoryMap.
Context {AS : AddrSpace}.

(** One round of the loop, on a boot range at [pb] and a range at [pr]. *)
Lemma convert_range_ok B R i pb pr k :
  window (B + i * 24) pb 24 -> window (R + i * 40) pr 40 -> pb + 24 <= pr -> ram_ok (ram k) ->
  exists m', convert_range B R i k = Ok () (with_ram m' k) /\ ram_ok m' /\
    mm_range_at m' pr = converted (boot_range_at (ram k) pb) /\
    forall q, q < pr \/ pr + 40 <= q -> rb m' q = rb (ram k) q.
Proof.
  intros Wb Wr Hd Hm. unfold convert_range, sizeof_BootMemoryRange, sizeof_MmMemoryRange.
  set (b := B + i * 24) in *. set (r := R + i * 40) in *. cbv zeta.
  pose proof (rdn_bound 8 (ram k) (pb + 8) Hm) as Hs. pose proof (rdn_bound 8 (ram k) (pb + 16) Hm) as He.
  pose proof (rdn_bound 4 (ram k) (pb + 0) Hm) as Hu.
  unfold load32, load64, store32, store64, BootMemoryRange_Usage, BootMemoryRange_Start,
    BootMemoryRange_End, MmMemoryRange_SType, MmMemoryRange_PNext, MmMemoryRange_Start,
    MmMemoryRange_End, MmMemoryRange_Size.
  do 11 (first [wstep Wb | wstep Wr]; try rd;
    rewrite ?(Z.mod_small (rdn 8 (ram k) (pb + 8))), ?(Z.mod_small (rdn 8 (ram k) (pb + 16))) by exact Hs || exact He).
  rewrite !Z.add_0_r in *.
  match goal with |- context [with_ram ?x k] => set (m5 := x) end.
  assert (ram_ok m5) as Hm5 by (unfold m5; by repeat apply ram_ok_wrn).
  assert (forall q, q < pr \/ pr + 40 <= q -> rb m5 q = rb (ram k) q) as Hf5.
  { intros q Hq. unfold m5. by rewrite !rb_wrn_other by lia. }
  unfold converted, boot_range_at, mm_range_at. cbn [br_Usage br_Start br_End].
  destruct (_ <? 1024 * 1024); cbn [when].
  - rewrite (storen_at 4 r pr 40 r 0), with_ram_with_ram, ram_with_ram, Z.add_0_r by (done || lia). eexists. split; [done|].
    split; [by apply ram_ok_wrn|]. split; [|intros q Hq; rewrite rb_wrn_other by lia; auto].
    f_equal; unfold m5; rd; try done; apply Z.mod_small; try done; apply (u_range 64); lia.
  - exists m5. split; [done|]. split; [done|]. split; [|done].
    f_equal; unfold m5; rd; try done; apply Z.mod_small; try done; apply (u_range 64); lia.
Qed.

(** The loop. *)
Lemma convert_ranges_ok B R pb pr n k :
  window B pb (24 * n) -> window R pr (40 * n) -> pb + 24 * n <= pr -> 0 <= n < 2 ^ 63 ->
  ram_ok (ram k) ->
  exists c m', for_lt 64 n 1 (convert_range B R) 0 k = Ok c (with_ram m' k) /\ ram_ok m' /\
    (forall i, 0 <= i < n ->
       mm_range_at m' (pr + 40 * i) = converted (boot_range_at (ram k) (pb + 24 * i))) /\
    forall q, q < pr \/ pr + 40 * n <= q -> rb m' q = rb (ram k) q.
Proof.
  intros Wb Wr Hd Hn Hm.
  destruct (for_lt_total 64 n 1 (convert_range B R) (fun j k' => exists m', k' = with_ram m' k /\
      ram_ok m' /\ (forall i, 0 <= i < j ->
       mm_range_at m' (pr + 40 * i) = converted (boot_range_at (ram k) (pb + 24 * i))) /\
      forall q, q < pr \/ pr + 40 * n <= q -> rb m' q = rb (ram k) q) 0 k)
    as (c & k' & E & (m' & -> & Hm' & Hc & Hf) & _ & Hge & Hor); try lia.
  - intros j k1 Hj (m & -> & Hm1 & Hc & Hf).
    destruct (convert_range_ok B R j (pb + 24 * j) (pr + 40 * j) (with_ram m k))
      as (m2 & E2 & Hm2 & Hc2 & Hf2); rewrite ?ram_with_ram in *.
    + rewrite (Z.mul_comm j). apply (window_sub _ _ (24 * n)); [done|lia..].
    + rewrite (Z.mul_comm j). apply (window_sub _ _ (40 * n)); [done|lia..].
    + lia.
    + done.
    + rewrite with_ram_with_ram in E2. eexists. split; [exact E2|]. exists m2. split; [done|].
      split; [done|]. split.
      * intros i Hi. destruct (Z.eq_dec i j) as [->|Hne].
        -- rewrite Hc2. f_equal. apply boot_range_at_ext. intros q Hq. apply Hf. lia.
        -- rewrite <- Hc by lia. apply mm_range_at_ext. intros q Hq. apply Hf2. lia.
      * intros q Hq. rewrite Hf2 by lia. apply Hf. lia.
  - exists (ram k). rewrite with_ram_id. split; [done|]. split; [done|]. split; [lia|done].
  - exists c, m'. split; [done|]. split; [done|]. split; [|done]. intros i Hi. apply Hc. lia.
Qed.

(** The memory manager finds the end of memory the boot code found. *)
Lemma max_end_converted m m' pb pr n :
  (forall i, 0 <= i < Z.of_nat n ->
     mm_range_at m' (pr + 40 * i) = converted (boot_range_at m (pb + 24 * i))) ->
  max_end m' pr n = boot_end m pb n.
Proof.
  induction n as [|n IH]; intros H; [done|]. cbn [max_end boot_end].
  rewrite IH by (intros; apply H; lia). f_equal.
  exact (f_equal mr_End (H (Z.of_nat n) ltac:(lia))).
Qed.
End MemoryMap.

(** ** Starting the memory manager *)

Section Memory.
Context {AS : AddrSpace} {DV : Device} {EB : KrnlEnvironmentBlock} {LT : Literals} {FB : FormatBuffer}
  {SR : StopRegisters} {SA : StartupAddresses}.

(** Where the boot ranges ([mp]), the locals [AllocInfo] and [info] ([ap] and
    [cp]), the bitmap and the heap are in physical memory. *)
Variables (mp ap cp bp hp : Z) (k : kernel).

Definition range_count : Z := NumMemoryRanges (bootinfo k).
Definition ranges_virt : Z := u64 (MemoryRanges (bootinfo k) + (range_count + 1) * 24).
Definition ranges_phys : Z := mp + (range_count + 1) * 24.
(** [SafePMMArea] *)
Definition safe_area : Z := u64 (ranges_virt + (range_count + 4096) * 40).
Definition memory_end : Z := boot_end (ram k) mp (Z.to_nat range_count).
Definition startup_bitmap_size : Z := memory_end / (8 * 4096).
Definition startup_heap : Z := safe_area + startup_bitmap_size + 4096.

Record startup_memory : Prop := mkStartupMemory {
  sm_ram : ram_ok (ram k);
  sm_count : 0 <= range_count < 2 ^ 63;
  (** The boot ranges, and the space after them the kernel assumes. *)
  sm_ranges : window (MemoryRanges (bootinfo k)) mp (24 * (range_count + 1) + 40 * range_count);
  sm_AllocInfo : window AllocInfo ap 40 /\ 0 <= AllocInfo < 2 ^ 64;
  sm_info : window info cp 32;
  sm_apart : ap + 40 <= mp /\ cp + 32 <= mp /\ (ap + 40 <= cp \/ cp + 32 <= ap);
  (** The bitmap and the heap, through both mappings. *)
  sm_bitmap_low : window (safe_area + 4096) bp (round4 startup_bitmap_size);
  sm_bitmap_high : window (KERN_PHYS_TO_VIRT (safe_area + 4096)) bp startup_bitmap_size;
  sm_heap_low : window startup_heap hp (round4 HeapSize);
  sm_heap_high : heap_area (KERN_PHYS_TO_VIRT startup_heap) hp HeapSize;
  sm_heap_fits : root_area (KERN_PHYS_TO_VIRT startup_heap) HeapSize < 2 ^ 64;
  sm_after : ranges_phys + 40 * range_count <= bp;
  sm_heap_apart : bp + startup_bitmap_size <= hp;
  sm_end : startup_heap + HeapSize <= 8 * startup_bitmap_size * 4096 /\ memory_end + 4096 < 2 ^ 63;
}.

(** The frames in use when the memory manager is up. *)
Definition startup_frames : gset Z :=
  frames (kernel_start / 4096) ((safe_area + startup_bitmap_size + 4096 - 1) / 4096) ∪
  frames (startup_heap / 4096) (startup_heap / 4096 + (HeapSize - startup_heap + 4096 - 1) / 4096).

Hypothesis SM : startup_memory.

(** What [KiInitializeMemMgr] is called with. *)
Record handed_over (m : gmap Z Z) : Prop := mkHandedOver {
  ho_ram : ram_ok m;
  ho_info : rdn 8 m (cp + 16) = AllocInfo;
  ho_area : rdn 8 m (cp + 24) = safe_area;
  ho_fs : rdn 8 m (ap + 16) = 4096;
  ho_count : rdn 8 m (ap + 24) = range_count;
  ho_ranges : rdn 8 m (ap + 32) = ranges_virt;
  ho_table : forall i, 0 <= i < range_count ->
    mm_range_at m (ranges_phys + 40 * i) = converted (boot_range_at (ram k) (mp + 24 * i));
}.

Lemma handed_boot_memory m :
  handed_over m ->
  boot_memory 4096 AllocInfo ap ranges_virt ranges_phys range_count info cp safe_area bp hp (with_ram m k).
Proof.
  intros [Hm H1 H2 H3 H4 H5 Ht]. destruct (id SM).
  assert (last_end ranges_phys range_count (with_ram m k) = memory_end) as El.
  { unfold last_end. rewrite ram_with_ram. apply max_end_converted. intros. apply Ht. lia. }
  assert (bitmap_size 4096 ranges_phys range_count (with_ram m k) = startup_bitmap_size) as Eb
    by (unfold bitmap_size; by rewrite El).
  assert (heap_addr 4096 ranges_phys range_count safe_area (with_ram m k) = startup_heap) as Eh
    by (unfold heap_addr; by rewrite Eb).
  constructor; unfold bitmap_virt; rewrite ?El, ?Eb, ?Eh, ?ram_with_ram; try done; try tauto.
  - apply window_u64. unfold ranges_phys.
    apply (window_sub _ _ (24 * (range_count + 1) + 40 * range_count)); [done|lia..].
  - unfold ranges_phys in *. lia.
Qed.

Lemma handed_last m :
  ram_ok m -> rdn 8 m (ap + 16) = 4096 -> rdn 8 m (ap + 24) = range_count ->
  (forall i, 0 <= i < range_count ->
    mm_range_at m (ranges_phys + 40 * i) = converted (boot_range_at (ram k) (mp + 24 * i))) ->
  handed_over (wrn 8 (wrn 8 (wrn 8 (wrn 4 (wrn 8 m (ap + 32) ranges_virt) (cp + 0)
    MM_STRUCTURE_TYPE_MANAGEMENT_CREATE_INFO) (cp + 8) 0) (cp + 16) AllocInfo) (cp + 24) safe_area).
Proof.
  intros Hm H1 H2 Ht. destruct (id SM) as [_ Hn _ [_ Ha] _ Hap _ _ _ _ _ _ _ _].
  constructor; try (rd; try done; apply Z.mod_small; (exact Ha || apply (u_range 64); lia)).
  - by repeat apply ram_ok_wrn.
  - intros i Hi. rewrite <- Ht by done. apply mm_range_at_ext. intros q Hq. unfold ranges_phys in *.
    by rewrite !rb_wrn_other by lia.
Qed.

(** The structures [KiStartupSystem] builds. *)
Definition handed_area (q : Z) : Prop :=
  ap <= q < ap + 40 \/ cp <= q < cp + 32 \/ ranges_phys <= q < ranges_phys + 40 * range_count.

(** Everything up to the call. *)
Lemma hand_over :
  exists m, handed_over m /\ (forall q, ~ handed_area q -> rb m q = rb (ram k) q) /\
    KiStartupSystem FERAL_SUBSYSTEM_MEMORY_MANAGEMENT k =
    (Status ← KiInitializeMemMgr (ST := stop_error) info;
     if negb (status_eqb Status STATUS_SUCCESS) then mret Status else mret STATUS_SUCCESS) (with_ram m k).
Proof.
  destruct (id SM) as [Hm Hn Wm [Wa Ha] Wi Hap _ _ _ _ _ _ _ _].
  unfold KiStartupSystem, store32, store64, MmPhysicalAllocationInfo_sType, MmPhysicalAllocationInfo_pNext,
    MmPhysicalAllocationInfo_FrameSize, MmPhysicalAllocationInfo_MemoryAreaRangeCount,
    MmPhysicalAllocationInfo_Ranges, MmCreateInfo_sType, MmCreateInfo_pNext,
    MmCreateInfo_pPhysicalAllocationInfo, MmCreateInfo_SafePMMArea, sizeof_BootMemoryRange, sizeof_MmMemoryRange.
  rewrite bool_decide_eq_true_2 by done. kstep (eq_refl : gets bootinfo k = _).
  fold range_count. cbv zeta. fold ranges_virt. fold safe_area.
  do 4 wstep Wa.
  match goal with |- context [with_ram ?x k] => set (m1 := x) end.
  assert (ram_ok m1) as Hm1 by (unfold m1; by repeat apply ram_ok_wrn).
  assert (forall q, q < ap \/ ap + 40 <= q -> rb m1 q = rb (ram k) q) as Hf1.
  { intros q Hq. unfold m1. by rewrite !rb_wrn_other by lia. }
  destruct (convert_ranges_ok (MemoryRanges (bootinfo k)) ranges_virt mp ranges_phys range_count (with_ram m1 k))
    as (c & m2 & E & Hm2 & Ht2 & Hf2); rewrite ?ram_with_ram in *.
  { apply (window_le _ _ (24 * (range_count + 1) + 40 * range_count)); [done|lia]. }
  { apply window_u64. apply (window_sub _ _ (24 * (range_count + 1) + 40 * range_count)); [done|lia..]. }
  { unfold ranges_phys. lia. }
  { lia. }
  { done. }
  kstep E. rewrite with_ram_with_ram.
  do 5 first [wstep Wa | wstep Wi].
  eexists. split; [|split; [|reflexivity]].
  2:{ unfold handed_area. intros q Hq. rewrite !rb_wrn_other, Hf2, Hf1 by lia. done. }
  apply handed_last; [done| | |].
  - rewrite (rdn_ext 8 m2 m1) by (intros; apply Hf2; unfold ranges_phys; lia). unfold m1. by rd.
  - rewrite (rdn_ext 8 m2 m1) by (intros; apply Hf2; unfold ranges_phys; lia). unfold m1. rd.
    apply Z.mod_small. lia.
  - intros i Hi. rewrite Ht2 by done. f_equal. apply boot_range_at_ext. intros q Hq. apply Hf1. lia.
Qed.

(** The memory the memory manager's start writes. *)
Definition startup_area (q : Z) : Prop :=
  handed_area q \/ bp <= q < bp + round4 startup_bitmap_size \/ hp <= q < hp + round4 HeapSize.

(** The manager is up: the table, the frames in use, the heap. *)
Definition memory_up (k' : kernel) : Prop :=
  (forall i, 0 <= i < range_count ->
     mm_range_at (ram k') (ranges_phys + 40 * i) = converted (boot_range_at (ram k) (mp + 24 * i))) /\
  pmm_rel 4096 AllocInfo ap (KERN_PHYS_TO_VIRT (safe_area + 4096)) bp startup_bitmap_size memory_end
    startup_frames k' /\
  heap_ready (KERN_PHYS_TO_VIRT startup_heap) hp
    (root_area (KERN_PHYS_TO_VIRT startup_heap) HeapSize) k'.

Lemma startup_bitmap_pos : 0 < startup_bitmap_size.
Proof using SM.
  pose proof (sm_end SM) as [H _]. revert H. unfold startup_heap, HeapSize.
  assert (0 <= safe_area) by (apply (u_range 64); lia). lia.
Qed.

Lemma KiStartupSystem_memory_ok :
  exists k', KiStartupSystem FERAL_SUBSYSTEM_MEMORY_MANAGEMENT k = Ok STATUS_SUCCESS k' /\ memory_up k' /\
    k' = with_heap (heap k') (with_mms (mms k') (with_ram (ram k') k)) /\
    forall q, ~ startup_area q -> rb (ram k') q = rb (ram k) q.
Proof.
  destruct hand_over as (m & Hm & Hfm & ->). pose proof (handed_boot_memory m Hm) as BM.
  destruct (KiInitializeMemMgr_ok (ST := stop_error) _ _ _ _ _ _ _ _ _ _ _ _ BM)
    as (k' & E & Hr & Hh & Hk & Hf). kstep E. exists k'. split; [done|].
  assert (last_end ranges_phys range_count (with_ram m k) = memory_end) as El.
  { unfold last_end. rewrite ram_with_ram. apply max_end_converted. intros. apply Hm.
    destruct (id SM). lia. }
  unfold manager_area, bitmap_size in Hf. rewrite El in Hf. change (memory_end / (8 * 4096)) with startup_bitmap_size in Hf.
  assert (heap_addr 4096 ranges_phys range_count safe_area (with_ram m k) = startup_heap) as Eh
    by (unfold heap_addr, startup_heap, startup_bitmap_size, bitmap_size; by rewrite El).
  rewrite Eh in Hh. split; [split; [|split; [|exact Hh]]|split].
  - intros i Hi. rewrite <- (ho_table m Hm i Hi). apply mm_range_at_ext. intros q Hq.
    rewrite Hf, ram_with_ram; [done|]. pose proof startup_bitmap_pos. destruct (id SM). lia.
  - unfold startup_frames, startup_heap, startup_bitmap_size in *. rewrite <- El. exact Hr.
  - rewrite Hk at 1. generalize (heap k') (mms k') (ram k'). intros h s r. by destruct k.
  - unfold startup_area. intros q Hq. rewrite Hf, ram_with_ram; [apply Hfm|]; tauto.
Qed.

(** C9: [KiStartupSystem] of the memory management turns the boot loader's
    memory map into the kernel's and starts the memory manager on it: it
    succeeds; the table it leaves after the boot ranges has for every boot
    range the same bounds, the size, and its kind, but reserved if it starts
    below 1 MiB; the frames in use are those from the kernel to the end of the
    boot structures and the heap's below 8 MiB; and the heap is empty. *)
Theorem KiStartupSystem_memory :
  exists k', KiStartupSystem FERAL_SUBSYSTEM_MEMORY_MANAGEMENT k = Ok STATUS_SUCCESS k' /\
    (forall i, 0 <= i < range_count ->
       mm_range_at (ram k') (ranges_phys + 40 * i) = converted (boot_range_at (ram k) (mp + 24 * i))) /\
    pmm_rel 4096 AllocInfo ap (KERN_PHYS_TO_VIRT (safe_area + 4096)) bp startup_bitmap_size memory_end
      startup_frames k' /\
    heap_ready (KERN_PHYS_TO_VIRT startup_heap) hp
      (root_area (KERN_PHYS_TO_VIRT startup_heap) HeapSize) k'.
Proof. destruct KiStartupSystem_memory_ok as (k' & E & (? & ? & ?) & _). by exists k'. Qed.
End Memory.

(** ** Starting a processor *)

Section Processor.
Context {AS : AddrSpace} {DV : Device} {EB : KrnlEnvironmentBlock} {FL : FirmwareLaws FunctionTable}
  {LT : Literals} {FB : FormatBuffer} {PA : PrintArea} {SR : StopRegisters} {DT : DescriptorTables}
  {HA : HandlerAddresses} {SA : StartupAddresses}.
Hypothesis BO : buffer_ok.

Definition apart (a n b l : Z) : Prop := a + n <= b \/ b + l <= a.

(** Where the segment descriptors ([g]), the interrupt descriptors ([p]) and
    the top-level page table ([t]) are. *)
Record processor_memory (g p t : Z) (k : kernel) : Prop := mkProcessorMemory {
  pr_gdt : gdt_window g;
  pr_idt : idt_window p;
  pr_p4 : window get_initial_p4_table t 4096 /\ t mod 8 = 0;
  pr_low : pme_Present (entry (ram k) t 0) = true;
  pr_own : forall q, g <= q < g + 40 \/ p <= q < p + 4096 \/ t <= q < t + 4096 -> scratch q;
  pr_apart : apart g 40 p 4096 /\ apart g 40 t 4096 /\ apart p 4096 t 4096;
  pr_buffer : apart g 40 bp 22 /\ apart p 4096 bp 22 /\ apart t 4096 bp 22;
}.

(** Writes to the caller's own memory. *)
Lemma held_scratch k0 k k' :
  held true k0 k -> ram_ok (ram k') -> vga k' = vga k -> vga_on k' = vga_on k ->
  (forall q, ~ scratch q -> rb (ram k') q = rb (ram k) q) -> held true k0 k'.
Proof.
  intros Hh Hm Ev Eo Hf. apply (held_trans _ _ k); [done|]. split; [by apply (fw_frame k); [apply Hh|..]|].
  intros q _ Hq. apply Hf. intros Hs. apply Hq; [done|]. by right.
Qed.

Definition gdt_bytes : list Z := concat (map (le_bytes 8) gdt_image).

(** The segment descriptors, with interrupts disabled. *)
Lemma processor_gdt g p t k0 :
  fw_inv k0 -> processor_memory g p t k0 ->
  exists k1, x86InitializeGDT (with_trace (EvCli :: trace k0) k0) = Ok () k1 /\ held true k0 k1 /\
    ram k1 = write_bytes (ram k0) g gdt_bytes /\ gdtp k1 = mkDescPointer 39 GDTEntries /\
    managers k1 = managers k0.
Proof.
  intros Hi [Wg _ _ _ Hs _ _].
  rewrite (x86InitializeGDT_ok g (with_trace (EvCli :: trace k0) k0) Wg), ram_with_trace.
  fold gdt_bytes. eexists. split; [reflexivity|].
  assert (forall tr r, ram (with_trace tr (with_gdtp r (with_ram (write_bytes (ram k0) g gdt_bytes)
    (with_trace (EvCli :: trace k0) k0)))) = write_bytes (ram k0) g gdt_bytes) as Em by (by destruct k0).
  split; [|split; [apply Em|split; by destruct k0]].
  apply (held_scratch k0 k0); [by apply held_refl| |by destruct k0..|].
  - rewrite Em. apply ram_ok_write; [by apply fw_ram|]. repeat constructor; done.
  - intros q Hq. rewrite Em. apply rb_write_other. change (zlen gdt_bytes) with 40.
    destruct (decide (g <= q < g + 40)); [|lia]. exfalso. apply Hq, Hs. by left.
Qed.

(** The end of the first 512 GiB, with the descriptor tables left alone. *)
Lemma processor_unmap g p t k0 k k2 :
  held true k0 k2 -> processor_memory g p t k -> pme_Present (entry (ram k2) t 0) = true ->
  exists m, x86UnmapAddress get_initial_p4_table 0 k2 = Ok STATUS_SUCCESS (with_ram m k2) /\
    held true k0 (with_ram m k2) /\ pme_Present (entry m t 0) = false /\
    forall q, q < t \/ t + 4096 <= q -> rb m q = rb (ram k2) q.
Proof.
  intros Hh [_ _ [Wt Ht] _ Hs _ _] Hl. assert (page_index 0 3 = 0) as E0 by reflexivity.
  rewrite (x86UnmapAddress_ok t get_initial_p4_table 0 k2 Wt) by by rewrite E0.
  eexists. split; [reflexivity|].
  assert (forall q, q < t \/ t + 4096 <= q ->
    rb (wrn 8 (ram k2) (t + 8 * page_index 0 3) 0) q = rb (ram k2) q) as Hf.
  { intros q Hq. apply rb_wrn_other. rewrite E0. lia. }
  split; [|split; [|exact Hf]].
  - apply (held_scratch k0 k2); [done| |by destruct k2..|]; rewrite ram_with_ram.
    + apply ram_ok_wrn, fw_ram, Hh.
    + intros q Hq. apply Hf. destruct (decide (t <= q < t + 4096)); [|lia]. exfalso. apply Hq, Hs. tauto.
  - rewrite E0, (entry_wrn _ _ 0 0), Z.eqb_refl by done. done.
Qed.

(** The memory the processor's tables take. *)
Definition processor_area (g p t q : Z) : Prop :=
  g <= q < g + 40 \/ p <= q < p + 4096 \/ t <= q < t + 4096.

(** The tables are built and loaded, and the lowest 512 GiB are not mapped. *)
Definition processor_up (g p t : Z) (k' : kernel) : Prop :=
  read_bytes (ram k') g 40 = gdt_bytes /\ gdtp k' = mkDescPointer 39 GDTEntries /\
  idt_ready (ram k') p /\ idtp k' = mkDescPointer 4095 IDT /\
  pme_Present (entry (ram k') t 0) = false.

(** Without the first entry of the top-level table, nothing below 512 GiB is
    mapped. *)
Lemma low_unmapped m t : pme_Present (entry m t 0) = false ->
  forall va, page_index va 3 = 0 -> walk m 4 t va = None.
Proof. intros H va Hva. cbn [walk]. by rewrite Hva, H. Qed.

Lemma KiStartupProcessor_ok (g p t : Z) (ss : list string) (k0 k : kernel) :
  printable ss k0 -> In idt_message ss -> held true k0 k -> processor_memory g p t k ->
  exists k', KiStartupProcessor 0 k = Ok STATUS_SUCCESS k' /\ held true k0 k' /\ processor_up g p t k' /\
    head (trace k') = Some EvSti /\ managers k' = managers k /\
    forall q, ~ fw_mem q -> ~ bp <= q < bp + 22 -> ~ processor_area g p t q -> rb (ram k') q = rb (ram k) q.
Proof.
  intros Hp Hin Hh PM. destruct (id PM) as [_ Wp [Wt Ht] Hl Hs (A1 & A2 & A3) (B1 & B2 & B3)]. unfold apart in *.
  pose proof (proj1 Hh) as Hi.
  unfold KiStartupProcessor, KiStartupProcessorMachineDependent. rewrite !bind_assoc.
  change (KiRestoreInterrupts 0) with (emit EvCli). change (KiRestoreInterrupts 1) with (emit EvSti).
  kstep (emit_ok EvCli k). simpl Z.eqb. cbn [when]. rewrite !bind_assoc.
  destruct (processor_gdt g p t k Hi PM) as (k1 & E1 & Hh1 & Em1 & Eg1 & Es1). kstep E1.
  pose proof (held_trans _ _ _ _ Hh Hh1) as Hh1'. rewrite !bind_assoc.
  destruct (x86InitializeIDT_ok BO p k0 k1 ss Hp Hin Hh1' Wp ltac:(intros; apply Hs; tauto) ltac:(lia))
    as (_ & k2 & E2 & Hh2 & Hr2 & _ & _ & Ei2 & Eg2 & Es2 & Hf2). kstep E2. rewrite !bind_assoc.
  assert (forall q, g <= q < g + 40 \/ t <= q < t + 4096 -> rb (ram k2) q = rb (ram k1) q) as Hf.
  { intros q Hq. apply Hf2; [|lia|lia]. apply (bo_safe BO). right. apply Hs. tauto. }
  assert (pme_Present (entry (ram k2) t 0) = true) as Hl2.
  { rewrite <- Hl. f_equal. apply rdn_ext. intros q Hq. rewrite Hf, Em1 by lia.
    apply rb_write_other. change (zlen gdt_bytes) with 40. lia. }
  destruct (processor_unmap g p t k0 k k2 Hh2 PM Hl2) as (m & E3 & Hh3 & Hw & Hf3).
  kstep E3. kstep (ret_ok () (with_ram m k2)).
  eexists. split; [reflexivity|]. unfold processor_up. rewrite ram_with_trace, ram_with_ram, trace_with_trace. split_and!.
  - by apply (held_change _ _ (with_ram m k2)); [|destruct k2..].
  - rewrite (read_bytes_ext _ (ram k1)); [rewrite Em1; apply (read_write_same _ _ gdt_bytes)|].
    intros q Hq. rewrite Hf3 by lia. apply Hf. lia.
  - rewrite <- Eg1, <- Eg2. by destruct k2.
  - apply (idt_ready_frame (ram k2)); [|done]. intros q Hq. apply Hf3. lia.
  - rewrite <- Ei2. by destruct k2.
  - done.
  - done.
  - rewrite <- Es1, <- Es2. by destruct k2.
  - unfold processor_area. intros q Hq Hb Hn. rewrite Hf3, Hf2, Em1 by (done || lia).
    apply rb_write_other. change (zlen gdt_bytes) with 40. lia.
Qed.

(** C37: [KiStartupProcessor] of the first core returns with interrupts
    enabled, the segment and interrupt descriptor tables built and loaded, and
    no address of the lowest 512 GiB mapped by the page tables; any other core
    only has its interrupts disabled and enabled. *)
Theorem KiStartupProcessor_ready (g p t : Z) (ss : list string) (k0 : kernel) :
  printable ss k0 -> In idt_message ss -> processor_memory g p t k0 ->
  (exists k', KiStartupProcessor 0 k0 = Ok STATUS_SUCCESS k' /\ held true k0 k' /\
    read_bytes (ram k') g 40 = gdt_bytes /\ gdtp k' = mkDescPointer 39 GDTEntries /\
    idt_ready (ram k') p /\ idtp k' = mkDescPointer 4095 IDT /\
    (forall va, page_index va 3 = 0 -> walk (ram k') 4 t va = None) /\
    head (trace k') = Some EvSti) /\
  forall Core, Core <> 0 ->
    KiStartupProcessor Core k0 = Ok STATUS_SUCCESS (with_trace (EvSti :: EvCli :: trace k0) k0).
Proof.
  intros Hp Hin PM. pose proof (pb_inv _ _ Hp) as Hi. split.
  - destruct (KiStartupProcessor_ok g p t ss k0 k0 Hp Hin (held_refl _ _ Hi) PM)
      as (k' & E & Hh & (? & ? & ? & ? & ?) & ? & _). exists k'. split_and!; try done. by apply low_unmapped.
  - intros Core Hc. unfold KiStartupProcessor, KiStartupProcessorMachineDependent.
    rewrite (proj2 (Z.eqb_neq _ _) Hc). by destruct k0.
Qed.
End Processor.

(** ** A sample machine *)

(** 64 MiB of memory in two ranges, which the boot code lists at 2 MiB. *)
Definition startup_memory_map : gmap Z Z :=
  write_bytes ∅ 0x200000
    (le_bytes 8 9 ++ le_bytes 8 0 ++ le_bytes 8 0x9FC00 ++
     le_bytes 8 9 ++ le_bytes 8 0x100000 ++ le_bytes 8 0x4000000).
Definition startup_kernel : kernel :=
  with_boot (mkBootInfo 1 0 2 0x200000) 0x4000000 2 (with_ram startup_memory_map kernel0).

Definition sample_addresses : StartupAddresses := mkStartupAddresses 0x180000 0x180100 0x180200 0x180400 0x180800 0x1000.
Definition sample_registers : StopRegisters := mkStopRegisters 0 0 0 0 0 0 0.
Definition sample_environment : KrnlEnvironmentBlock :=
  mkEnvironment (FirmwareFuncs (AS := boot_space)) (mret 0) InternalGetMaxPhysicalAddressFunc.

Lemma startup_kernel_memory :
  startup_memory (AS := boot_space) (SA := sample_addresses) 0x200000 0x180000 0x180100 0x229098 0x229898 startup_kernel.
Proof.
  assert (startup_bitmap_size 0x200000 startup_kernel = 2048) as Eb by reflexivity.
  assert (startup_heap 0x200000 startup_kernel = 0x229898) as Eh by reflexivity.
  assert (safe_area startup_kernel = 0x228098) as Es by reflexivity.
  assert (range_count startup_kernel = 2) as En by reflexivity.
  assert (ranges_phys 0x200000 startup_kernel = 0x200048) as Er by reflexivity.
  assert (memory_end 0x200000 startup_kernel = 0x4000000) as Ee by reflexivity.
  constructor; rewrite ?Eb, ?Eh, ?Es, ?En, ?Er, ?Ee;
    try (apply boot_window_low; vm_compute; congruence);
    try (apply boot_window_virt; vm_compute; congruence); try lia.
  - apply ram_ok_write; [apply ram_ok_empty|]. repeat apply Forall_app_2; apply le_bytes_byte.
  - split; [apply boot_window_low; vm_compute; congruence|vm_compute; split; congruence].
  - constructor; [vm_compute; split; congruence|vm_compute; congruence|].
    apply boot_window_virt; vm_compute; congruence.
  - vm_compute. congruence.
  - unfold HeapSize. lia.
Qed.

Lemma KiStartupSystem_memory_witness :
  exists k', KiStartupSystem (AS := boot_space) (DV := fun _ _ => 0) (EB := sample_environment)
      (LT := fun _ => 0) (FB := 0) (SR := sample_registers) (SA := sample_addresses)
      FERAL_SUBSYSTEM_MEMORY_MANAGEMENT startup_kernel = Ok STATUS_SUCCESS k' /\
    mm_range_at (ram k') 0x200048 = mkMmRange 11 0 0 0x9FC00 0x9FC00.
Proof.
  destruct (KiStartupSystem_memory (AS := boot_space) (DV := fun _ _ => 0) (EB := sample_environment)
    (LT := fun _ => 0) (FB := 0) (SR := sample_registers) (SA := sample_addresses)
    _ _ _ _ _ _ startup_kernel_memory) as (k' & E & Ht & _).
  exists k'. split; [exact E|].
  rewrite (Ht 0 ltac:(vm_compute; split; congruence) : mm_range_at (ram k') 0x200048 = _).
  vm_compute. reflexivity.
Defined.

(** The descriptors at 0x7000 and 0x8000, the page table, with its first entry
    present, at 0x9000. *)
Definition processor_tables : DescriptorTables := mkTables 0x7000 0x8000.
Definition processor_addresses : StartupAddresses :=
  mkStartupAddresses 0x180000 0x180100 0x180200 0x180400 0x180800 0x9000.
Definition processor_kernel : kernel :=
  with_ram (wrn 8 (ram idt_kernel) 0x9000 0xA003) idt_kernel.

Lemma processor_printable :
  printable (AS := boot_space) (FL := sample_laws) (LT := sample_literals [idt_message])
    (PA := sample_area) [idt_message] processor_kernel.
Proof.
  pose proof (sample_printable [idt_message] ltac:(vm_compute; reflexivity)) as Hp.
  apply (printable_held (AS := boot_space) _ idt_kernel); [exact Hp|].
  apply (held_scratch (AS := boot_space) (EB := sample_environment) (FL := sample_laws)
    (PA := sample_area) _ idt_kernel); [by apply held_refl, Hp| |reflexivity..|].
  - apply ram_ok_wrn, sample_ram_ok.
  - intros q Hq. apply rb_wrn_other.
    change (~ (0x7000 <= q < 0xF000)) in Hq. lia.
Qed.

Lemma KiStartupProcessor_ready_witness :
  exists k', KiStartupProcessor (AS := boot_space) (EB := sample_environment)
      (LT := sample_literals [idt_message]) (FB := sample_buffer) (DT := processor_tables)
      (HA := sample_handlers) (SA := processor_addresses) 0 processor_kernel = Ok STATUS_SUCCESS k' /\
    gdtp k' = mkDescPointer 39 0x7000 /\ walk (ram k') 4 0x9000 0x100000 = None.
Proof.
  destruct (KiStartupProcessor_ready (AS := boot_space) (EB := sample_environment) (FL := sample_laws)
    (LT := sample_literals [idt_message]) (FB := sample_buffer) (PA := sample_area)
    (DT := processor_tables) (HA := sample_handlers) (SA := processor_addresses)
    sample_buffer_ok 0x7000 0x8000 0x9000 [idt_message] processor_kernel processor_printable)
    as [(k' & E & _ & _ & Eg & _ & _ & Hw & _) _].
  - by left.
  - constructor; try (unfold apart; change (@Print.bp sample_area) with 0x6000; lia).
    + apply (boot_window_low 0x7000 40); lia.
    + apply (boot_window_low 0x8000 4096); lia.
    + split; [|reflexivity]. apply (boot_window_low 0x9000 4096); lia.
    + vm_compute. reflexivity.
    + intros q Hq. change (0x7000 <= q < 0xF000). lia.
  - exists k'. split; [exact E|]. split; [exact Eg|]. apply Hw. reflexivity.
Defined.
