(* ===== verification/Multiboot.v ===== *)
(** * The multiboot entry ([kern/entry/mb2entry.c])

    [kern_init] walks the list of tags the boot loader left in memory: it
    picks up the strings, turns the memory map into boot memory ranges behind
    the kernel's image, and finds the framebuffer; then it sets up the console,
    looks at the processor and starts the kernel. *)

From S2P Require Import Prelude Machine Status MemFuncs BinFuncs Strings Vga Heap Pmm Paging Print Serial Stop Descriptors Interrupts Startup.

(** ** Layouts ([multiboot2.h]) *)

Definition MULTIBOOT_TAG_TYPE_END : Z := 0x00.
Definition MULTIBOOT_TAG_TYPE_CMD_LINE : Z := 0x01.
Definition MULTIBOOT_TAG_TYPE_BOOT_LOADER : Z := 0x02.
Definition MULTIBOOT_TAG_TYPE_MEM_MAP : Z := 0x06.
Definition MULTIBOOT_TAG_TYPE_FRAME_BUFFER : Z := 0x08.
Definition MULTIBOOT_FRAMEBUFFER_TYPE_EGA_TEXT : Z := Z.shiftl 1 1.

Definition E820_MEMORY_TYPE_FREE : Z := 0x01.
Definition E820_MEMORY_TYPE_RESERVED : Z := 0x02.
Definition E820_MEMORY_TYPE_ACPI : Z := 0x03.
Definition E820_MEMORY_TYPE_NVS : Z := 0x04.

Definition multiboot_tag_type : Z := 0.
Definition multiboot_tag_size : Z := 4.
Definition multiboot_tag_string_string : Z := 8.
Definition multiboot_tag_mmap_entry_size : Z := 8.
Definition multiboot_tag_mmap_entries : Z := 16.
Definition multiboot_mmap_entry_addr : Z := 0.
Definition multiboot_mmap_entry_len : Z := 8.
Definition multiboot_mmap_entry_type : Z := 16.
Definition multiboot_mmap_entry_zero : Z := 20.
Definition sizeof_multiboot_mmap_entry : Z := 24.
Definition framebuffer_addr : Z := 8.
Definition framebuffer_width : Z := 20.
Definition framebuffer_height : Z := 24.
Definition framebuffer_bpp : Z := 28.

(** The end of the kernel's image, from the linker script. *)
Class KernelImage := kern_end : Z.
Definition kernel_end `{KernelImage} : Z := u64 (kern_end + 4096).

(** Where the compiler puts the locals of [kern_init] whose address is taken. *)
Class EntryLocals := mkEntryLocals {
  FramebufferLocal : Z;
  BufBeginAddr : Z;
  BufEndAddr : Z;
}.

(** The functions of [cpuid.asm], on the registers passed in and out. *)
Class CpuId := mkCpuId {
  cpuid_vendor_func : Z * Z * Z -> Z * Z * Z;
  cpuid_brand_name : Z * Z * Z * Z -> Z * Z * Z * Z;
  cpuid_family_number : Z;
}.

(** The five locals [kern_init] reads from the framebuffer's tag. *)
Record display := mkDisplay {
  disp_Framebuffer : Z;
  disp_BPP : Z;
  disp_Width : Z;
  disp_Height : Z;
  disp_TextOnly : Z;
}.

Definition CPU_x86_64_FAMILY_ZEN : Z := 0x17.

(** The processor's family, from what [cpuid_family_number] returns. *)
Definition actual_family (familyStuff : Z) : Z :=
  let actualFamily := Z.land (Z.shiftr familyStuff 8) 15 in
  if (actualFamily =? 0x6) || (actualFamily =? 0xF) then
    let actualFamily :=
      if actualFamily =? 15
      then u32 (actualFamily + Z.land (Z.shiftr familyStuff 20) 0x0FFFFFFF)
      else actualFamily in
    u32 (actualFamily + Z.land (Z.shiftr familyStuff 16) 0x4)
  else actualFamily.

(** The switch of [HandleMemory]. *)
Definition e820_usage (type : Z) : Z :=
  if type =? E820_MEMORY_TYPE_FREE then MM_STRUCTURE_TYPE_FREE_AREA_RANGE
  else if (type =? E820_MEMORY_TYPE_RESERVED) || (type =? E820_MEMORY_TYPE_ACPI)
       || (type =? E820_MEMORY_TYPE_NVS)
  then MM_STRUCTURE_TYPE_RESERVED_AREA_RANGE
  else MM_STRUCTURE_TYPE_OTHER_AREA_RANGE.

(** A Zen 1 processor is recognised, and a Zen 2 processor, whose extended model
    has the bit set, is not. *)
Example family_zen1 : actual_family 0x00800F11 = CPU_x86_64_FAMILY_ZEN.
Proof. reflexivity. Qed.
Example family_zen2 : actual_family 0x00870F10 = 0x1B.
Proof. reflexivity. Qed.

Definition cpu_vendor_msg : string := "CPU Vendor: ".

Section Multiboot.
Context `{AS : AddrSpace} `{DV : Device} `{LT : Literals} `{KI : KernelImage} `{EL : EntryLocals}
  `{CI : CpuId}.

Definition set_MaxAddress (v : Z) : K () :=
  modify (fun k => with_boot (bootinfo k) v (MemoryRangeCount k) k).
Definition set_MemoryRangeCount (v : Z) : K () :=
  modify (fun k => with_boot (bootinfo k) (MaxAddress k) v k).
Definition upd_BootInfo (f : SystemBootInfo -> SystemBootInfo) : K () :=
  modify (fun k => with_boot (f (bootinfo k)) (MaxAddress k) (MemoryRangeCount k) k).

Definition InternalPrintRegister (reg : Z) : K () :=
  for_lt 31 4 1 (fun i =>
    VgaAutoEntry (color_val VGA_GREEN) (color_val VGA_BLACK) (u8 (Z.shiftr reg (i * 8)))) 0 ;;
  skip.

Definition InternalPrintCpuVendor (part1 part2 part3 : Z) : K () :=
  VgaAutoPrint (color_val VGA_GREEN) (color_val VGA_BLACK) (lit cpu_vendor_msg) ;;
  InternalPrintRegister part1 ;;
  InternalPrintRegister part2 ;;
  InternalPrintRegister part3 ;;
  VgaAutoPrintln (color_val VGA_WHITE) (color_val VGA_BLACK) (lit "").

(** One round of [HandleMemory]: the entry is copied, with its last field,
    before its kind is looked at. *)
Definition handle_entry (MemoryMap MemRange Index : Z) : K () :=
  let e := MemoryMap + multiboot_tag_mmap_entries + Index * sizeof_multiboot_mmap_entry in
  let r := MemRange + Index * sizeof_BootMemoryRange in
  addr ← load64 (e + multiboot_mmap_entry_addr);
  len ← load64 (e + multiboot_mmap_entry_len);
  type ← load32 (e + multiboot_mmap_entry_type);
  _ ← load32 (e + multiboot_mmap_entry_zero);
  store32 (r + BootMemoryRange_Usage) (e820_usage type) ;;
  store64 (r + BootMemoryRange_Start) addr ;;
  s ← load64 (r + BootMemoryRange_Start);
  store64 (r + BootMemoryRange_End) (u64 (s + len)) ;;
  e ← load64 (r + BootMemoryRange_End);
  max ← gets MaxAddress;
  when (max <? e) (e ← load64 (r + BootMemoryRange_End); set_MaxAddress e).

Definition HandleMemory (MemoryMap : Z) : K () :=
  let MemRangeHeader := kernel_end in
  let MemRange := u64 (MemRangeHeader + 8) in
  size ← load32 (MemoryMap + multiboot_tag_size);
  entry_size ← load32 (MemoryMap + multiboot_tag_mmap_entry_size);
  MaxIndex ← udiv size entry_size;
  set_MemoryRangeCount MaxIndex ;;
  n ← gets MemoryRangeCount;
  store64 MemRangeHeader n ;;
  for_lt 64 MaxIndex 1 (handle_entry MemoryMap MemRange) 0 ;;
  n ← gets MemoryRangeCount;
  upd_BootInfo (fun b => mkBootInfo (NumDisplays b) (FramebufferPAddrs b) n (MemoryRanges b)) ;;
  upd_BootInfo (fun b => mkBootInfo (NumDisplays b) (FramebufferPAddrs b) (NumMemoryRanges b) MemRange).

(** A string tag: the string, unless it is empty. *)
Definition tag_string (tag old : Z) : K Z :=
  let str := tag + multiboot_tag_string_string in
  '(s, len) ← KiGetStringLength str 0;
  mret (if status_eqb s STATUS_SUCCESS && negb (len =? 0) then str else old).

Definition read_display (tag : Z) : K display :=
  fb ← load64 (tag + framebuffer_addr);
  bpp ← load8 (tag + framebuffer_bpp);
  h ← load32 (tag + framebuffer_height);
  w ← load32 (tag + framebuffer_width);
  t ← load32 (tag + multiboot_tag_type);
  mret (mkDisplay fb bpp w h (b2z (t =? MULTIBOOT_FRAMEBUFFER_TYPE_EGA_TEXT))).

(** What the walk collects: the command line, the boot loader's name, and the
    display, whose locals are indeterminate until a tag sets them. *)
Definition tag_state : Type := Z * Z * option display.

Definition handle_tag (tag : Z) (s : tag_state) : K tag_state :=
  let '(CommandLine, BootloaderName, d) := s in
  t ← load32 (tag + multiboot_tag_type);
  let Type_ := u16 t in
  if Type_ =? MULTIBOOT_TAG_TYPE_CMD_LINE then
    c ← tag_string tag CommandLine; mret (c, BootloaderName, d)
  else if Type_ =? MULTIBOOT_TAG_TYPE_BOOT_LOADER then
    b ← tag_string tag BootloaderName; mret (CommandLine, b, d)
  else if Type_ =? MULTIBOOT_TAG_TYPE_MEM_MAP then
    HandleMemory tag ;; mret (CommandLine, BootloaderName, d)
  else if Type_ =? MULTIBOOT_TAG_TYPE_FRAME_BUFFER then
    d ← read_display tag;
    upd_BootInfo (fun b => mkBootInfo 1 (FramebufferPAddrs b) (NumMemoryRanges b) (MemoryRanges b)) ;;
    upd_BootInfo (fun b => mkBootInfo (NumDisplays b) FramebufferLocal (NumMemoryRanges b) (MemoryRanges b)) ;;
    mret (CommandLine, BootloaderName, Some d)
  else mret s.

(** The walk, from the tag at [p]; sizes are rounded up to eight bytes. *)
Definition walk_tags (p : Z) (s : tag_state) : K tag_state :=
  cloop (fun '(p, s) =>
    t ← load32 (p + multiboot_tag_type);
    if t =? MULTIBOOT_TAG_TYPE_END then mret (inr s)
    else
      s ← handle_tag p s;
      size ← load32 (p + multiboot_tag_size);
      mret (inl (u64 (p + Z.land (u32 (size + 7)) 0xFFFFFFF8), s))) (p, s).

(** The three parts of the processor's name. *)
Definition print_brand (part2 part3 part4 : Z) : K () :=
  cloop (fun '(Index, part2, part3, part4) =>
    if Index <? 3 then
      let '(part1, part2, part3, part4) :=
        cpuid_brand_name (u32 (0x80000002 + Index), part2, part3, part4) in
      InternalPrintRegister part1 ;;
      InternalPrintRegister part2 ;;
      InternalPrintRegister part3 ;;
      InternalPrintRegister part4 ;;
      mret (inl (u64 (Index + 1), part2, part3, part4))
    else mret (inr ())) (0, part2, part3, part4).

End Multiboot.

(** The environment block: the table of [FirmwareFuncs] with its two queries. *)
Definition EnvBlock `{AS : AddrSpace} `{LT : Literals} : KrnlEnvironmentBlock :=
  mkEnvironment FirmwareFuncs (mret (lit GetBiosFirmwareClaim)) InternalGetMaxPhysicalAddressFunc.

Section Entry.
Context `{AS : AddrSpace} `{DV : Device} `{LT : Literals} `{KI : KernelImage} `{EL : EntryLocals}
  `{CI : CpuId} `{FB : FormatBuffer} `{SR : StopRegisters} `{DT : DescriptorTables}
  `{HA : HandlerAddresses} `{VR : KernelVersion} `{SA : StartupAddresses}.

(** Reading the display's locals when no tag has set them is undefined. *)
Definition kern_init (MBINFO : Z) : K () :=
  '(CommandLine, BootloaderName, d) ←
    walk_tags (u32 (MBINFO + 8)) (lit "", lit "Unknown", None);
  d ← (match d with Some d => mret d | None => fault end : K display);
  VgaPrepareEnvironment (disp_Framebuffer d) (disp_BPP d) (disp_Width d) (disp_Height d)
    (disp_TextOnly d) ;;
  KiBlankVgaScreen (disp_Height d) (disp_Width d) (color_val VGA_BLACK) ;;
  VgaAutoPrintln (color_val VGA_WHITE) (color_val VGA_BLACK) (lit "Starting initial kernel setup...") ;;
  KiItoa (disp_Width d) BufBeginAddr ;;
  KiItoa (disp_Height d) BufEndAddr ;;
  VgaAutoPrint (color_val VGA_WHITE) (color_val VGA_BLACK) (lit "VGA resolution is : ") ;;
  VgaAutoPrint (color_val VGA_GREEN) (color_val VGA_BLACK) BufBeginAddr ;;
  VgaAutoPrint (color_val VGA_WHITE) (color_val VGA_BLACK) (lit "x") ;;
  VgaAutoPrintln (color_val VGA_RED) (color_val VGA_BLACK) BufEndAddr ;;
  VgaAutoPrint (color_val VGA_LIGHT_GREY) (color_val VGA_BLACK) (lit "Found bootloader: ") ;;
  VgaAutoPrintln (color_val VGA_GREEN) (color_val VGA_BLACK) BootloaderName ;;
  VgaAutoPrint (color_val VGA_LIGHT_GREY) (color_val VGA_BLACK) (lit "Found command line: ") ;;
  VgaAutoPrintln (color_val VGA_GREEN) (color_val VGA_BLACK) CommandLine ;;
  let '(part1, part2, part3) := cpuid_vendor_func (0, 0, 0) in
  InternalPrintCpuVendor part1 part2 part3 ;;
  print_brand part2 part3 0 ;;
  VgaAutoPrintln (color_val VGA_WHITE) (color_val VGA_BLACK) (lit "") ;;
  when (negb (actual_family cpuid_family_number =? CPU_x86_64_FAMILY_ZEN))
    (VgaAutoPrintln (color_val VGA_RED) (color_val VGA_BLACK) (lit "Unsupported CPU")) ;;
  VgaSetCursorEnabled 1 ;;
  VgaTraceCharacters 1 ;;
  VgaMoveCursor 0 24 ;;
  KiSystemStartup (EB := EnvBlock).
End Entry.

(** ** The memory map *)

(** An entry of the map's tag. *)
Record mmap_entry := mkMmapEntry { me_addr : Z; me_len : Z; me_type : Z }.

Definition mmap_entry_at (m : gmap Z Z) (p : Z) : mmap_entry :=
  mkMmapEntry (rdn 8 m p) (rdn 8 m (p + 8)) (rdn 4 m (p + 16)).

(** The range the kernel is given for an entry. *)
Definition e820_range (e : mmap_entry) : boot_range :=
  mkBootRange (e820_usage (me_type e)) (me_addr e) (u64 (me_addr e + me_len e)).

(** The highest end of the ranges, starting from [mx]. *)
Definition highest (mx : Z) (es : list mmap_entry) : Z :=
  foldl (fun mx e => Z.max mx (br_End (e820_range e))) mx es.

Lemma highest_snoc mx es e : highest mx (es ++ [e]) = Z.max (highest mx es) (br_End (e820_range e)).
Proof. unfold highest. by rewrite foldl_app. Qed.

(** The kinds of memory the kernel is told of. *)
Lemma e820_usage_cases t : e820_usage t = 9 \/ e820_usage t = 11 \/ e820_usage t = 12.
Proof. unfold e820_usage. destruct (_ =? _); [by left|]. destruct (_ || _ || _); [right; by left|by right; right]. Qed.

Section MemoryMap.
Context {AS : AddrSpace}.

Lemma mmap_entry_at_ext m m' p :
  (forall q, p <= q < p + 24 -> rb m' q = rb m q) -> mmap_entry_at m' p = mmap_entry_at m p.
Proof. intros H. unfold mmap_entry_at. f_equal; apply rdn_ext; intros; apply H; lia. Qed.

Lemma handle_entry_ok M R i pe pr k :
  window (M + 16 + i * 24) pe 24 -> window (R + i * 24) pr 24 -> pe + 24 <= pr \/ pr + 24 <= pe ->
  ram_ok (ram k) ->
  exists m', handle_entry M R i k =
      Ok () (with_boot (bootinfo k) (Z.max (MaxAddress k) (br_End (e820_range (mmap_entry_at (ram k) pe))))
        (MemoryRangeCount k) (with_ram m' k)) /\
    ram_ok m' /\ boot_range_at m' pr = e820_range (mmap_entry_at (ram k) pe) /\
    forall q, q < pr \/ pr + 24 <= q -> rb m' q = rb (ram k) q.
Proof.
  intros We Wr Hd Hm. unfold handle_entry, sizeof_BootMemoryRange, sizeof_multiboot_mmap_entry,
    multiboot_tag_mmap_entries.
  set (e := M + 16 + i * 24) in *. set (r := R + i * 24) in *. cbv zeta.
  unfold load32, load64, store32, store64, BootMemoryRange_Usage, BootMemoryRange_Start,
    BootMemoryRange_End, multiboot_mmap_entry_addr, multiboot_mmap_entry_len, multiboot_mmap_entry_type,
    multiboot_mmap_entry_zero.
  pose proof (rdn_bound 8 (ram k) (pe + 0) Hm) as Ha.
  do 9 (first [wstep We | wstep Wr]; try rd;
    rewrite ?(Z.mod_small (rdn 8 (ram k) (pe + 0))) by exact Ha).
  rewrite !Z.add_0_r in *. rewrite (Z.mod_small (u64 _)) by (apply (u_range 64); lia).
  match goal with |- context [with_ram ?x k] => set (m3 := x) end.
  set (E := u64 (rdn 8 (ram k) pe + rdn 8 (ram k) (pe + 8))).
  assert (forall kk, gets MaxAddress kk = Ok (MaxAddress kk) kk) as Hg by done. kstep (Hg (with_ram m3 k)).
  replace (MaxAddress (with_ram m3 k)) with (MaxAddress k) by (by destruct k).
  exists m3. split; [|split; [unfold m3; by repeat apply ram_ok_wrn|split]].
  - change (br_End (e820_range (mmap_entry_at (ram k) pe))) with E.
    destruct (Z.ltb_spec (MaxAddress k) E); cbn [when].
    + wstep Wr. unfold m3. rd. rewrite Z.mod_small by (apply (u_range 64); lia).
      fold E. rewrite Z.max_r by lia. by destruct k.
    + rewrite Z.max_l by lia. by destruct k.
  - unfold boot_range_at, e820_range, mmap_entry_at. cbn [me_addr me_len me_type]. fold E.
    f_equal; unfold m3; rd; apply Z.mod_small; [|done|apply (u_range 64); lia].
    change (2 ^ (8 * Z.of_nat 4)) with 4294967296.
    destruct (e820_usage_cases (rdn 4 (ram k) (pe + 16))) as [E'|[E'|E']]; rewrite E'; lia.
  - intros q Hq. unfold m3. by rewrite !rb_wrn_other by lia.
Qed.

(** The entries [es] at [p], and the ranges for them. *)
Definition mmap_at (m : gmap Z Z) (p : Z) (es : list mmap_entry) : Prop :=
  forall i e, es !! i = Some e -> mmap_entry_at m (p + 24 * Z.of_nat i) = e.
Definition ranges_at (m : gmap Z Z) (p : Z) (es : list mmap_entry) : Prop :=
  forall i e, es !! i = Some e -> boot_range_at m (p + 24 * Z.of_nat i) = e820_range e.

Lemma handle_entries_ok M R tp pr es k :
  window (M + 16) tp (24 * zlen es) -> window R pr (24 * zlen es) ->
  tp + 24 * zlen es <= pr \/ pr + 24 * zlen es <= tp -> ram_ok (ram k) -> zlen es < 2 ^ 63 ->
  mmap_at (ram k) tp es ->
  exists c m', for_lt 64 (zlen es) 1 (handle_entry M R) 0 k =
      Ok c (with_boot (bootinfo k) (highest (MaxAddress k) es) (MemoryRangeCount k) (with_ram m' k)) /\
    ram_ok m' /\ ranges_at m' pr es /\
    forall q, q < pr \/ pr + 24 * zlen es <= q -> rb m' q = rb (ram k) q.
Proof.
  intros We Wr Hd Hm Hn Hes. pose proof (zlen_nonneg es).
  set (st := fun j m => with_boot (bootinfo k) (highest (MaxAddress k) (take (Z.to_nat j) es))
    (MemoryRangeCount k) (with_ram m k)).
  destruct (for_lt_total 64 (zlen es) 1 (handle_entry M R) (fun j k' => exists m', k' = st j m' /\
      ram_ok m' /\ ranges_at m' pr (take (Z.to_nat j) es) /\
      forall q, q < pr \/ pr + 24 * zlen es <= q -> rb m' q = rb (ram k) q) 0 k)
    as (c & k' & E & (m' & -> & Hm' & Hc & Hf) & Hc0 & Hge & Hor); try lia.
  - intros j k1 Hj (m & -> & Hm1 & Hc & Hf).
    destruct (lookup_lt_is_Some_2 es (Z.to_nat j)) as [e He]; [unfold zlen in *; lia|].
    assert (forall b x c, ram (with_boot b x c (with_ram m k)) = m) as Er by (by destruct k).
    destruct (handle_entry_ok M R j (tp + 24 * j) (pr + 24 * j) (st j m)) as (m2 & E2 & Hm2 & Hc2 & Hf2);
      unfold st in *; rewrite ?Er in *.
    + rewrite (Z.mul_comm j). apply (window_sub _ _ (24 * zlen es)); [done|lia..].
    + rewrite (Z.mul_comm j). apply (window_sub _ _ (24 * zlen es)); [done|lia..].
    + lia.
    + done.
    + assert (mmap_entry_at m (tp + 24 * j) = e) as Ee.
      { pose proof (Hes _ _ He) as Hee. rewrite Z2Nat.id in Hee by lia. rewrite <- Hee.
        apply mmap_entry_at_ext. intros q Hq. apply Hf. lia. }
      rewrite Ee in *. eexists. split; [exact E2|]. exists m2.
      replace (Z.to_nat (j + 1)) with (S (Z.to_nat j)) by lia. rewrite (take_S_r _ _ _ He), highest_snoc.
      split; [by destruct k|]. split; [done|]. split.
      * intros i e' Hi. apply lookup_app_Some in Hi as [Hi|[Hi Hi']].
        -- rewrite <- (Hc _ _ Hi). apply lookup_lt_Some in Hi. rewrite length_take in Hi.
           apply boot_range_at_ext. intros q Hq. apply Hf2. lia.
        -- apply list_lookup_singleton_Some in Hi' as [Hi' <-]. rewrite length_take in Hi, Hi'.
           replace (24 * Z.of_nat i) with (24 * j) by (unfold zlen in *; lia). done.
      * intros q Hq. rewrite Hf2 by lia. apply Hf. lia.
  - exists (ram k). split; [by destruct k|]. split; [done|]. split; [|done].
    intros i e Hi. by destruct es, i.
  - assert (c = zlen es) as -> by lia. unfold st in E. unfold zlen in *.
    rewrite Nat2Z.id, firstn_all in *. by exists (Z.of_nat (length es)), m'.
Qed.
End MemoryMap.

(** ** The tags *)

Section Tags.
Context {AS : AddrSpace} {LT : Literals} {KI : KernelImage} {EL : EntryLocals}.

(** The memory behind the kernel's image, at [kp], with room for a count and
    [room] ranges. *)
Variables (kp room : Z).
Hypothesis Wk : window kernel_end kp (8 + 24 * room).

Definition image_area (q : Z) : Prop := kp <= q < kp + 8 + 24 * room.

(** A map's tag: the fields of its header and its entries. *)
Record mmap_tag (m : gmap Z Z) (p : Z) (es : list mmap_entry) : Prop := mkMmapTag {
  mt_size : rdn 4 m (p + 4) = 16 + 24 * zlen es;
  mt_entry : rdn 4 m (p + 8) = 24;
  mt_entries : mmap_at m (p + 16) es;
}.

Lemma HandleMemory_ok M tp es k :
  window M tp (16 + 24 * zlen es) -> mmap_tag (ram k) tp es -> zlen es <= room ->
  (forall q, tp <= q < tp + 16 + 24 * zlen es -> ~ image_area q) -> ram_ok (ram k) ->
  exists m', HandleMemory M k = Ok ()
      (with_boot (mkBootInfo (NumDisplays (bootinfo k)) (FramebufferPAddrs (bootinfo k)) (zlen es)
          (u64 (kernel_end + 8)))
        (highest (MaxAddress k) es) (zlen es) (with_ram m' k)) /\
    ram_ok m' /\ rdn 8 m' kp = zlen es /\ ranges_at m' (kp + 8) es /\
    forall q, ~ image_area q -> rb m' q = rb (ram k) q.
Proof.
  intros Wt [Hs He Hes] Hr Hd Hm. unfold image_area in *. pose proof (zlen_nonneg es) as Hn.
  pose proof (rdn_bound 4 (ram k) (tp + 4) Hm) as Hb. rewrite Hs in Hb. change (2 ^ (8 * Z.of_nat 4)) with 4294967296 in Hb.
  assert (tp + 16 + 24 * zlen es <= kp \/ kp + 8 + 24 * room <= tp) as Hd'.
  { destruct (Z.lt_ge_cases kp (tp + 16 + 24 * zlen es)); [|lia].
    destruct (Z.lt_ge_cases tp (kp + 8 + 24 * room)); [|lia].
    exfalso. apply (Hd (Z.max kp tp)); lia. }
  unfold HandleMemory, load32, store64, multiboot_tag_size, multiboot_tag_mmap_entry_size.
  cbv zeta. do 2 wstep Wt. rewrite Hs, He.
  replace (udiv (16 + 24 * zlen es) 24) with (mret (zlen es) : K Z)
    by (unfold udiv; simpl; f_equal; dlia).
  kstep (ret_ok (zlen es) k). unfold set_MemoryRangeCount, upd_BootInfo. kmodify.
  assert (forall kk, gets MemoryRangeCount kk = Ok (MemoryRangeCount kk) kk) as Hg by done.
  rewrite (bind_ok _ _ _ _ _ (Hg _)).
  replace (MemoryRangeCount (with_boot _ _ _ _)) with (zlen es) by (by destruct k).
  kstep (storen_at 8 kernel_end kp (8 + 24 * room) kernel_end 0 (zlen es)
    (with_boot (bootinfo k) (MaxAddress k) (zlen es) k) Wk (eq_sym (Z.add_0_r _)) ltac:(lia) ltac:(lia)).
  rewrite Z.add_0_r. match goal with |- context [(_ ≫= _) ?x] => set (k1 := x) end.
  assert (ram k1 = wrn 8 (ram k) kp (zlen es)) as Er by (by destruct k).
  destruct (handle_entries_ok M (u64 (kernel_end + 8)) (tp + 16) (kp + 8) es k1)
    as (c & m' & E & Hm' & Hra & Hf); rewrite ?Er in *.
  { apply (window_sub _ _ (16 + 24 * zlen es)); [done|lia..]. }
  { apply window_u64. apply (window_sub _ _ (8 + 24 * room)); [done|lia..]. }
  { lia. }
  { by apply ram_ok_wrn. }
  { lia. }
  { intros i e Hi. rewrite <- (Hes i e Hi). apply mmap_entry_at_ext. intros q Hq.
    pose proof (lookup_lt_Some _ _ _ Hi). apply rb_wrn_other. unfold zlen in *. lia. }
  kstep E. rewrite (bind_ok _ _ _ _ _ (Hg _)). kmodify.
  exists m'. split; [unfold modify; by destruct k|]. split; [done|]. split; [|split; [done|]].
  - rewrite (rdn_ext 8 m' (wrn 8 (ram k) kp (zlen es))) by (intros; apply Hf; lia).
    rewrite rdn_wrn_same. apply Z.mod_small. change (2 ^ (8 * Z.of_nat 8)) with 18446744073709551616. lia.
  - intros q Hq. rewrite Hf by lia. apply rb_wrn_other. lia.
Qed.

(** A tag as the walk treats it. *)
Inductive mb_tag :=
| TCmdLine (s : list Z)
| TBootLoader (s : list Z)
| TMemMap (es : list mmap_entry)
| TFramebuffer (d : display)
| TOther (type : Z).

Definition tag_type (t : mb_tag) : Z :=
  match t with
  | TCmdLine _ => 1 | TBootLoader _ => 2 | TMemMap _ => 6 | TFramebuffer _ => 8 | TOther ty => ty
  end.

(** The display a framebuffer's tag describes.  [TextOnly] is computed from
    the tag's own type instead of the framebuffer's, so it is always false. *)
Definition display_at (m : gmap Z Z) (p : Z) : display :=
  mkDisplay (rdn 8 m (p + 8)) (rdn 1 m (p + 28)) (rdn 4 m (p + 20)) (rdn 4 m (p + 24)) 0.

(** The body of a tag of [size] bytes. *)
Definition tag_body (m : gmap Z Z) (p size : Z) (t : mb_tag) : Prop :=
  match t with
  | TCmdLine s | TBootLoader s => cstr m (p + 8) s /\ 9 + zlen s <= size
  | TMemMap es => mmap_tag m p es /\ size = 16 + 24 * zlen es /\ zlen es <= room
  | TFramebuffer d => d = display_at m p /\ 32 <= size
  | TOther ty => u16 ty ∉ [1; 2; 6; 8] /\ ty <> 0
  end.

(** Tag [t] at [p], seen at [v], of [size] bytes. *)
Record tag_at (m : gmap Z Z) (v p size : Z) (t : mb_tag) : Prop := mkTagAt {
  tg_window : window v p size;
  tg_virt : 0 <= v /\ v + size + 8 < 2 ^ 64;
  tg_type : rdn 4 m p = tag_type t;
  tg_size : rdn 4 m (p + 4) = size /\ 8 <= size < 2 ^ 32 - 8;
  tg_body : tag_body m p size t;
  tg_apart : forall q, p <= q < p + size -> ~ image_area q;
}.

Definition round8 (size : Z) : Z := 8 * ((size + 7) / 8).

(** The tags from [p] on, each with the address it is seen at. *)
Inductive tags_at (m : gmap Z Z) : Z -> Z -> list (Z * mb_tag) -> Prop :=
| ta_end v p : window v p 4 -> rdn 4 m p = MULTIBOOT_TAG_TYPE_END ->
    (forall q, p <= q < p + 4 -> ~ image_area q) -> 0 <= v < 2 ^ 64 -> tags_at m v p []
| ta_cons v p size t l : tag_at m v p size t ->
    tags_at m (v + round8 size) (p + round8 size) l -> tags_at m v p ((v, t) :: l).

(** What the walk has found: its locals, the boot information, and the last
    map. *)
Record collected := mkCollected {
  c_state : tag_state;
  c_boot : SystemBootInfo;
  c_max : Z;
  c_count : Z;
  c_map : list mmap_entry;
}.

Definition collect (c : collected) (vt : Z * mb_tag) : collected :=
  let '(mkCollected (cmd, name, d) b mx n es) := c in
  let '(v, t) := vt in
  match t with
  | TCmdLine s => mkCollected (if zlen s =? 0 then cmd else v + 8, name, d) b mx n es
  | TBootLoader s => mkCollected (cmd, if zlen s =? 0 then name else v + 8, d) b mx n es
  | TMemMap es => mkCollected (cmd, name, d)
      (mkBootInfo (NumDisplays b) (FramebufferPAddrs b) (zlen es) (u64 (kernel_end + 8)))
      (highest mx es) (zlen es) es
  | TFramebuffer d => mkCollected (cmd, name, Some d)
      (mkBootInfo 1 FramebufferLocal (NumMemoryRanges b) (MemoryRanges b)) mx n es
  | TOther _ => c
  end.

(** The kernel's state, from [k0], when [c] has been found. *)
Definition found (k0 : kernel) (c : collected) (k : kernel) : Prop :=
  exists m, k = with_boot (c_boot c) (c_max c) (c_count c) (with_ram m k0) /\ ram_ok m /\
    ranges_at m (kp + 8) (c_map c) /\ forall q, ~ image_area q -> rb m q = rb (ram k0) q.

Lemma cstr_ext m m' p s :
  (forall q, p <= q < p + zlen s + 1 -> rb m' q = rb m q) -> cstr m p s -> cstr m' p s.
Proof.
  intros H [Hr Hz]. split; [|done]. rewrite <- Hr. apply read_bytes_ext. intros q Hq. apply H. unfold zlen. lia.
Qed.

Lemma tag_at_ext m m' v p size t :
  (forall q, p <= q < p + size -> rb m' q = rb m q) -> tag_at m v p size t -> tag_at m' v p size t.
Proof.
  intros H [W V Ht Hs Hb Ha].
  assert (forall n o, 0 <= o -> o + Z.of_nat n <= size -> rdn n m' (p + o) = rdn n m (p + o)) as Hr.
  { intros n o H1 H2. apply rdn_ext. intros q Hq. apply H. lia. }
  constructor; try done.
  - rewrite <- Ht. rewrite <- (Z.add_0_r p). apply Hr; lia.
  - rewrite Hr by lia. done.
  - destruct t as [s|s|es|d|ty]; simpl in *; try done.
    + destruct Hb. split; [|done]. eapply cstr_ext; [|done]. intros. apply H. lia.
    + destruct Hb. split; [|done]. eapply cstr_ext; [|done]. intros. apply H. lia.
    + destruct Hb as ([H1 H2 H3] & H4 & H5). split; [|done]. constructor; rewrite ?Hr by lia; try done.
      intros i e Hi. rewrite <- (H3 i e Hi). apply mmap_entry_at_ext. intros q Hq. apply H.
      pose proof (lookup_lt_Some _ _ _ Hi). unfold zlen in *. lia.
    + destruct Hb as [-> H5]. split; [|done]. unfold display_at. by rewrite !Hr by lia.
Qed.

Lemma tag_string_ok v p s size old k :
  window v p size -> 0 <= v -> cstr (ram k) (p + 8) s -> 9 + zlen s <= size < 2 ^ 32 ->
  tag_string v old k = Ok (if zlen s =? 0 then old else v + 8) k.
Proof.
  intros W V Hc Hs. unfold tag_string, multiboot_tag_string_string.
  kstep (KiGetStringLength_ok (v + 8) 0 (p + 8) s k ltac:(apply (window_sub _ _ size); [done|lia..]) ltac:(lia) Hc).
  unfold NULL. rewrite (proj2 (Z.eqb_neq (v + 8) 0)) by lia. cbn [fst snd].
  rewrite status_eqb_refl. by destruct (zlen s =? 0).
Qed.

Lemma found_ram k0 c k m : k = with_boot (c_boot c) (c_max c) (c_count c) (with_ram m k0) -> ram k = m.
Proof. intros ->. by destruct k0. Qed.

(** The display's fields, when the tag's type is a framebuffer's. *)
Lemma read_display_ok v p size k :
  window v p size -> 32 <= size -> rdn 4 (ram k) p = 8 ->
  read_display v k = Ok (display_at (ram k) p) k.
Proof.
  intros W Hs Ht. unfold read_display, framebuffer_addr, framebuffer_bpp, framebuffer_height,
    framebuffer_width, multiboot_tag_type, load64, load32.
  wstep W. assert (load8 (v + 28) k = Ok (rdn 1 (ram k) (p + 28)) k) as E1.
  { rewrite (load8_at v p size 28 k W ltac:(lia)). f_equal. unfold rdn. simpl. lia. }
  kstep E1. do 3 wstep W. rewrite Z.add_0_r, Ht. done.
Qed.

Lemma handle_tag_ok v p size t c k0 k :
  tag_at (ram k) v p size t -> found k0 c k ->
  exists k', handle_tag v (c_state c) k = Ok (c_state (collect c (v, t))) k' /\
    found k0 (collect c (v, t)) k'.
Proof.
  intros [W V Ht Hs Hb Ha] Hf. pose proof Hf as (m & Ek & Hm & Hr & Hfr).
  pose proof (found_ram _ _ _ _ Ek) as Er. destruct c as [[[cmd name] d] b mx n es].
  unfold handle_tag, c_state, multiboot_tag_type, load32. wstep W. rewrite Z.add_0_r, Ht. cbv zeta.
  destruct t as [s|s|es'|d'|ty]; simpl in Hb; cbn [tag_type].
  - change (u16 1 =? MULTIBOOT_TAG_TYPE_CMD_LINE) with true. cbv iota. destruct Hb.
    kstep (tag_string_ok v p s size cmd k W ltac:(lia) ltac:(done) ltac:(lia)).
    exists k. split; [done|]. by exists m.
  - change (u16 2 =? MULTIBOOT_TAG_TYPE_CMD_LINE) with false.
    change (u16 2 =? MULTIBOOT_TAG_TYPE_BOOT_LOADER) with true. cbv iota. destruct Hb.
    kstep (tag_string_ok v p s size name k W ltac:(lia) ltac:(done) ltac:(lia)).
    exists k. split; [done|]. by exists m.
  - change (u16 6 =? MULTIBOOT_TAG_TYPE_CMD_LINE) with false.
    change (u16 6 =? MULTIBOOT_TAG_TYPE_BOOT_LOADER) with false.
    change (u16 6 =? MULTIBOOT_TAG_TYPE_MEM_MAP) with true. cbv iota. destruct Hb as (Hmt & -> & Hroom).
    destruct (HandleMemory_ok v p es' k) as (m' & E & Hm' & _ & Hr' & Hf'); try done.
    { intros q Hq. apply Ha. lia. }
    { by rewrite Er. }
    kstep E. eexists. split; [reflexivity|]. exists m'. split; [subst k; by destruct k0|].
    split; [done|]. split; [done|]. intros q Hq. by rewrite Hf', Er, Hfr.
  - change (u16 8 =? MULTIBOOT_TAG_TYPE_CMD_LINE) with false.
    change (u16 8 =? MULTIBOOT_TAG_TYPE_BOOT_LOADER) with false.
    change (u16 8 =? MULTIBOOT_TAG_TYPE_MEM_MAP) with false.
    change (u16 8 =? MULTIBOOT_TAG_TYPE_FRAME_BUFFER) with true. cbv iota. destruct Hb as [-> Hsz].
    kstep (read_display_ok v p size k W Hsz Ht). unfold upd_BootInfo. do 2 kmodify.
    eexists. split; [reflexivity|]. exists m. split; [subst k; by destruct k0|done].
  - destruct Hb as [Hty Hne]. unfold MULTIBOOT_TAG_TYPE_CMD_LINE, MULTIBOOT_TAG_TYPE_BOOT_LOADER,
      MULTIBOOT_TAG_TYPE_MEM_MAP, MULTIBOOT_TAG_TYPE_FRAME_BUFFER. cbn [tag_type].
    rewrite !(proj2 (Z.eqb_neq (u16 ty) _)) by (intros Heq; apply Hty; rewrite Heq; set_solver).
    exists k. split; [done|]. by exists m.
Qed.

Lemma round8_ok size : 0 <= size < 2 ^ 32 - 8 -> Z.land (u32 (size + 7)) 0xFFFFFFF8 = round8 size.
Proof.
  intros Hs. rewrite u_small by lia. unfold round8.
  change 0xFFFFFFF8 with (Z.land (Z.ones 32) (Z.lnot (Z.ones 3))).
  rewrite Z.land_assoc, Z.land_ones, Z.mod_small, <- Z.ldiff_land by lia.
  rewrite Z.ldiff_ones_r, Z.shiftl_mul_pow2, Z.shiftr_div_pow2 by lia. change (2 ^ 3) with 8. lia.
Qed.

Lemma round8_bounds size : 8 <= size -> 8 <= round8 size /\ size <= round8 size < size + 8.
Proof. intros. unfold round8. dlia. Qed.

Lemma tags_length m v p l : tags_at m v p l -> 8 * zlen l + v < 2 ^ 64.
Proof.
  induction 1 as [v p _ _ _ V|v p size t l Ht _ IH]; [unfold zlen; simpl; lia|].
  rewrite zlen_cons. pose proof (round8_bounds size ltac:(apply (tg_size _ _ _ _ _ Ht))). lia.
Qed.

Definition walk_step : Z * tag_state -> K (Z * tag_state + tag_state) :=
  fun '(p, s) =>
    t ← load32 (p + multiboot_tag_type);
    if t =? MULTIBOOT_TAG_TYPE_END then mret (inr s)
    else
      s ← handle_tag p s;
      size ← load32 (p + multiboot_tag_size);
      mret (inl (u64 (p + Z.land (u32 (size + 7)) 0xFFFFFFF8), s)).

Lemma found_frame k0 c k q : found k0 c k -> ~ image_area q -> rb (ram k) q = rb (ram k0) q.
Proof. intros (m & Ek & _ & _ & Hf). rewrite (found_ram _ _ _ _ Ek). apply Hf. Qed.

(** One round, on a tag. *)
Lemma walk_step_ok v p size t c k0 k :
  tag_at (ram k0) v p size t -> found k0 c k ->
  exists k', walk_step (v, c_state c) k = Ok (inl (v + round8 size, c_state (collect c (v, t)))) k' /\
    found k0 (collect c (v, t)) k'.
Proof.
  intros Ht Hf.
  assert (forall kk cc, found k0 cc kk -> tag_at (ram kk) v p size t) as Hat.
  { intros kk cc Hff. apply (tag_at_ext (ram k0)); [|done]. intros q Hq.
    apply (found_frame _ _ _ _ Hff), Ht, Hq. }
  pose proof (Hat _ _ Hf) as Htk. unfold walk_step, multiboot_tag_type, multiboot_tag_size, load32.
  destruct (id Htk) as [W V Hty Hsz Hb _]. wstep W. rewrite Z.add_0_r, Hty.
  assert (tag_type t <> 0) as Hne by (destruct t; simpl in *; tauto || lia).
  rewrite (proj2 (Z.eqb_neq (tag_type t) MULTIBOOT_TAG_TYPE_END)) by done.
  destruct (handle_tag_ok v p size t c k0 k Htk Hf) as (k' & E & Hf'). kstep E. wstep W.
  rewrite (proj1 (tg_size _ _ _ _ _ (Hat _ _ Hf'))), round8_ok by lia.
  pose proof (round8_bounds size ltac:(lia)). rewrite u_small by lia. by exists k'.
Qed.

Lemma walk_rounds l : forall v p c k0 k,
  tags_at (ram k0) v p l -> found k0 c k ->
  exists k', rounds (S (length l)) walk_step (v, c_state c) k =
      Ok (inr (c_state (foldl collect c l))) k' /\ found k0 (foldl collect c l) k'.
Proof.
  induction l as [|[v' t] l IH]; intros v p c k0 k Ht Hf; inversion Ht; subst.
  - exists k. split; [|done]. apply rounds_inr. unfold walk_step, multiboot_tag_type, load32.
    match goal with W : window v p 4 |- _ => wstep W end. rewrite Z.add_0_r.
    rewrite (rdn_ext 4 (ram k) (ram k0)) by (intros; eapply found_frame; eauto).
    match goal with H : rdn 4 _ p = _ |- _ => rewrite H end. done.
  - match goal with H : tag_at _ _ _ _ _ |- _ => destruct (walk_step_ok _ _ _ _ c k0 k H Hf) as (k1 & E & Hf1) end.
    match goal with H : tags_at _ _ _ l |- _ => destruct (IH _ _ _ _ _ H Hf1) as (k' & E' & Hf') end.
    exists k'. split; [|done]. rewrite (rounds_inl _ _ _ _ _ _ E). exact E'.
Qed.

Lemma walk_tags_ok (v p : Z) (l : list (Z * mb_tag)) (s : tag_state) (k : kernel) :
  ram_ok (ram k) -> tags_at (ram k) v p l ->
  exists k', let c := foldl collect (mkCollected s (bootinfo k) (MaxAddress k) (MemoryRangeCount k) []) l in
    walk_tags v s k = Ok (c_state c) k' /\ found k c k'.
Proof.
  intros Hm Ht. set (c0 := mkCollected _ _ _ _ _).
  assert (found k c0 k) as Hf.
  { exists (ram k). split; [by destruct k|]. split; [done|]. split; [|done]. intros i e Hi. by destruct i. }
  destruct (walk_rounds l v p c0 k k Ht Hf) as (k' & E & Hf'). exists k'. split; [|done].
  apply (cloop_rounds (S (length l))); [exact E|].
  pose proof (tags_length _ _ _ _ Ht). assert (0 <= v) by (inversion Ht; subst; [lia|];
    match goal with H : tag_at _ _ _ _ _ |- _ => apply (tg_virt _ _ _ _ _ H) end).
  unfold FUEL, zlen in *. lia.
Qed.

(** C10: the walk of [kern_init] over any list of well-formed boot loader tags
    ends, and finds exactly what the list says: the command line and the boot
    loader's name are the last non-empty ones, the display is that of the last
    framebuffer tag, except that it is never marked as text only, and the boot
    information, the highest address and the ranges behind the kernel's image
    are those of the memory maps; no other memory is written. *)
Theorem walk_tags_collects (v p : Z) (l : list (Z * mb_tag)) (s : tag_state) (k : kernel) :
  ram_ok (ram k) -> tags_at (ram k) v p l ->
  exists k', let c := foldl collect (mkCollected s (bootinfo k) (MaxAddress k) (MemoryRangeCount k) []) l in
    walk_tags v s k = Ok (c_state c) k' /\ found k c k'.
Proof. apply walk_tags_ok. Qed.
End Tags.

(** ** A sample list of tags: a command line, a map and a framebuffer *)

Definition sample_image : KernelImage := 0x200000.
Definition sample_locals : EntryLocals := mkEntryLocals 0x1F0000 0x1F0100 0x1F0200.

Definition sample_entries : list mmap_entry :=
  [mkMmapEntry 0 0x9FC00 1; mkMmapEntry 0x100000 0x3F00000 1; mkMmapEntry 0xFFFC0000 0x40000 2].
Definition entry_bytes (e : mmap_entry) : list Z :=
  le_bytes 8 (me_addr e) ++ le_bytes 8 (me_len e) ++ le_bytes 4 (me_type e) ++ le_bytes 4 0.
Definition sample_tag_bytes : list Z :=
  le_bytes 4 1 ++ le_bytes 4 10 ++ [118; 0] ++ le_bytes 6 0 ++
  le_bytes 4 6 ++ le_bytes 4 88 ++ le_bytes 4 24 ++ le_bytes 4 0 ++ concat (map entry_bytes sample_entries) ++
  le_bytes 4 8 ++ le_bytes 4 32 ++ le_bytes 8 0xB8000 ++ le_bytes 4 160 ++ le_bytes 4 80 ++ le_bytes 4 25 ++
    [16; 2; 0; 0] ++
  le_bytes 4 0 ++ le_bytes 4 8.
Definition sample_tag_memory : gmap Z Z := write_bytes ∅ 0x300000 sample_tag_bytes.
Definition sample_tag_kernel : kernel := with_ram sample_tag_memory kernel0.
Definition sample_tags : list (Z * mb_tag) :=
  [(0x300000, TCmdLine [118]); (0x300010, TMemMap sample_entries);
   (0x300068, TFramebuffer (mkDisplay 0xB8000 16 80 25 0))].

Lemma sample_tags_at : tags_at (AS := boot_space) 0x201000 16 (ram sample_tag_kernel) 0x300000 0x300000 sample_tags.
Proof.
  assert (forall p n, 0x300000 <= p -> p + n <= 0x310000 ->
    window (AS := boot_space) p p n /\ forall q, p <= q < p + n -> ~ image_area 0x201000 16 q) as H.
  { intros p n H1 H2. split; [apply boot_window_low; lia|]. unfold image_area. lia. }
  assert (mmap_tag (ram sample_tag_kernel) 0x300010 sample_entries) as Hm.
  { constructor; [reflexivity..|]. intros i e Hi.
    do 3 (destruct i as [|i]; [injection Hi as <-; vm_compute; reflexivity|]). destruct i; discriminate. }
  apply (ta_cons _ _ _ _ _ 10).
  { destruct (H 0x300000 10 ltac:(lia) ltac:(lia)). constructor; try done; try lia.
    split; [split; [reflexivity|by repeat constructor]|done]. }
  apply (ta_cons _ _ _ _ _ 88).
  { destruct (H 0x300010 88 ltac:(lia) ltac:(lia)). constructor; try done; lia. }
  apply (ta_cons _ _ _ _ _ 32).
  { destruct (H 0x300068 32 ltac:(lia) ltac:(lia)). constructor; try done; lia. }
  destruct (H 0x300088 4 ltac:(lia) ltac:(lia)).
  apply ta_end; [done|reflexivity|done|done].
Qed.

Lemma walk_tags_collects_witness :
  exists k', walk_tags (AS := boot_space) (KI := sample_image) (EL := sample_locals) 0x300000 (1, 2, None)
      sample_tag_kernel = Ok (0x300008, 2, Some (mkDisplay 0xB8000 16 80 25 0)) k' /\
    bootinfo k' = mkBootInfo 1 0x1F0000 3 0x201008 /\ MaxAddress k' = 0x100000000.
Proof.
  assert (ram_ok (ram sample_tag_kernel)) as Hm.
  { apply ram_ok_write; [apply ram_ok_empty|]. repeat constructor; done. }
  destruct (walk_tags_collects (AS := boot_space) (KI := sample_image) (EL := sample_locals) 0x201000 16
    ltac:(apply boot_window_low; lia) 0x300000 0x300000 sample_tags (1, 2, None) sample_tag_kernel Hm sample_tags_at)
    as (k' & E & m & Ek & _).
  exists k'. split; [exact E|]. rewrite Ek. split; vm_compute; reflexivity.
Defined.
