(* ===== verification/Bootstrap.v ===== *)
(** * The whole start of the kernel ([kern/kernel_main.c])

    [KiSystemStartup] put together from the components it calls: the memory
    manager, printing, the serial port, the processor's tables and the debug
    shell, on one machine, each finding the memory the others left. *)

From S2P Require Import Prelude Machine Status MemFuncs BinFuncs Strings Vga Heap Pmm Paging Print Serial Stop Descriptors Interrupts Keyboard Startup Multiboot.

(** The literals [KiSystemStartup] and what it calls print. *)
Definition boot_messages : list string :=
  [banner; FERAL_VERSION_SHORT; ln "Found %lu mebibytes of free memory";
   "Copyright (c) 2018-2020, Brian Schnepp"%string; ln "Booted using %s"; ln "%s";
   "Preparing execution environment..."%string; ln "Initializing serial...";
   "Unable to initialize serial! (no port)"%string; idt_message; ln "Loading all drivers...";
   "INIT Reached here."%string; "Some other serial string."%string; ln ""].

Section Printing.
Context {AS : AddrSpace} {DV : Device} {FW : KrnlFirmwareFunctions} {FL : FirmwareLaws FW} {LT : Literals}
  {FB : FormatBuffer} {PA : PrintArea}.

(** Fewer messages, and less memory of the callers'. *)
Lemma printable_sub ss ss' k :
  (forall s, In s ss' -> In s ss) -> printable ss k -> printable ss' k.
Proof. intros H [Hi Ho Ht]. constructor; auto. Qed.

Lemma clear_less (wider : Z -> Prop) k a p s :
  (forall q, scratch q -> wider q) ->
  clear_text (PA := mkPrintArea bp wider) k a p s -> clear_text k a p s.
Proof.
  intros H [Ht Hc]. split; [done|]. intros q Hq [Hb|Hs]; apply (Hc q Hq); [by left|right; by apply H].
Qed.

Lemma printable_less (wider : Z -> Prop) ss k :
  (forall q, scratch q -> wider q) ->
  printable (PA := mkPrintArea bp wider) ss k -> printable ss k.
Proof.
  intros H [Hi [[p1 H1] [p2 H2] [p3 H3]] Ht].
  constructor; [done|constructor; eexists; by apply (clear_less wider)|].
  intros s Hs. destruct (Ht s Hs) as [p Hp]. exists p. by apply (clear_less wider).
Qed.

Lemma held_more (wider : Z -> Prop) k0 k :
  (forall q, scratch q -> wider q) -> held true k0 k -> held (PA := mkPrintArea bp wider) true k0 k.
Proof.
  intros H [Hi Hf]. split; [done|]. intros q Hq Hb. apply Hf; [done|]. intros _ [Hx|Hx]; apply (Hb eq_refl);
    [by left|right; by apply H].
Qed.

(** Port accesses are quiet. *)
Lemma io_quiet k k' : fw_inv k -> io_only k k' -> quiet k k'.
Proof.
  intros Hi E. unfold io_only in E. assert (ram k' = ram k /\ vga k' = vga k /\ vga_on k' = vga_on k /\ others k' = others k)
    as (Er & Ev & Eo & Ex) by (rewrite E; by destruct k).
  split; [|split; [done|intros; by rewrite Er]]. apply (fw_frame k); try done. rewrite Er. by apply fw_ram.
Qed.

Lemma text_quiet k0 k a p s : clear_text k0 a p s -> held true k0 k -> text_at (ram k) a p s.
Proof. intros [Ht Hb] Hh. by apply (text_at_held true k0). Qed.

Lemma send_text_ok k0 k s p :
  clear_text k0 (lit s) p (chars s) -> held true k0 k ->
  exists k', SerialSend COM1_PORT (lit s) (zlen (chars s)) k = Ok () k' /\ quiet k k'.
Proof.
  intros Hc Hh. destruct (text_quiet _ _ _ _ _ Hc Hh) as [_ W [Hr _] Hl _].
  assert (read_bytes (ram k) p (length (chars s)) = chars s) as Hr'.
  { rewrite (read_bytes_app (ram k) p (length (chars s)) 1) in Hr. apply app_inj_1 in Hr; [apply Hr|by rewrite length_read_bytes]. }
  destruct (SerialSend_ok COM1_PORT (lit s) p (chars s) k) as (k' & s' & E & Hio & _);
    [apply (window_le _ _ (zlen (chars s) + 1)); [done|lia]|done|apply chars_byte|lia|done|].
  exists k'. split; [exact E|]. by apply io_quiet; [apply Hh|].
Qed.

Lemma SerialPrint_ok k0 k s p :
  clear_text k0 (lit s) p (chars s) -> held true k0 k ->
  exists k', SerialPrint (lit s) k = Ok () k' /\ quiet k k'.
Proof.
  intros Hc Hh. unfold SerialPrint. kstep (length_ok _ _ _ _ (text_quiet _ _ _ _ _ Hc Hh)).
  by apply (send_text_ok k0 k s p).
Qed.

Lemma KiDebugPrint_ok ss k0 k s :
  printable ss k0 -> In s ss -> In (ln "") ss -> held true k0 k ->
  exists k', KiDebugPrint (lit s) k = Ok STATUS_SUCCESS k' /\ quiet k k'.
Proof.
  intros Hp Hs Hn Hh. destruct (pb_texts _ _ Hp s Hs) as [p Hc]. destruct (pb_texts _ _ Hp _ Hn) as [pn Hcn].
  destruct (KiPrintWarnLine_ok (lit s) p (chars s) k (proj1 Hh) (text_quiet _ _ _ _ _ Hc Hh)) as (k1 & E1 & Q1).
  destruct (SerialPrint_ok k0 k1 s p Hc (held_quiet _ _ _ Hh Q1)) as (k2 & E2 & Q2).
  destruct (SerialPrint_ok k0 k2 (ln "") pn Hcn (held_quiet _ _ _ (held_quiet _ _ _ Hh Q1) Q2)) as (k3 & E3 & Q3).
  exists k3. unfold KiDebugPrint. kstep E1. kstep E2. kstep E3. split; [done|]. eauto using quiet_trans.
Qed.
End Printing.

Section Boot.
Context {AS : AddrSpace} {DV : Device} {EB : KrnlEnvironmentBlock} {FL : FirmwareLaws FunctionTable}
  {LT : Literals} {FB : FormatBuffer} {PA : PrintArea} {SR : StopRegisters} {DT : DescriptorTables}
  {HA : HandlerAddresses} {VR : KernelVersion} {SA : StartupAddresses}.
Hypothesis BO : buffer_ok.

(** Where the memory manager's structures ([mp] to [hp], as in [Startup]), the
    processor's tables ([g], [p], [t]) and the serial driver's local ([pi]) are
    in physical memory; the machine before the start. *)
Variables (mp ap cp bmp hp g p t pi : Z) (k : kernel).

Definition managed (q : Z) : Prop := startup_area mp ap cp bmp hp k q.

(** The printing functions' callers use all of this. *)
Definition boot_area : PrintArea := mkPrintArea bp (fun q => scratch q \/ managed q).

(** What the boot code answers: the end of memory, and its name, a string that
    is there. *)
Record environment_ok : Prop := mkEnvironmentOk {
  en_max : exists m, 0 <= m < 2 ^ 64 /\ forall k', MaxAddress k' = MaxAddress k -> GetMaxPhysicalAddress k' = Ok m k';
  en_name : exists v s pv, (forall k', GetFirmwareName k' = Ok v k') /\ clear_text (PA := boot_area) k v pv s;
}.

Record boot_ready : Prop := mkBootReady {
  br_memory : startup_memory mp ap cp bmp hp k;
  br_processor : processor_memory g p t k;
  br_item : window Item pi 1 /\ scratch pi /\ ~ processor_area g p t pi;
  br_printable : printable (PA := boot_area) boot_messages k;
  br_apart : forall q, managed q -> ~ fw_mem q /\ ~ in_buf q;
  br_environment : environment_ok;
}.

Hypothesis BR : boot_ready.

Lemma in_boot s : existsb (String.eqb s) boot_messages = true -> In s boot_messages.
Proof.
  rewrite existsb_exists. intros (s' & Hs & E). apply String.eqb_eq in E. by subst.
Qed.

(** The first stage: the memory manager. *)
Lemma boot_memory_stage :
  exists k1, KiStartupSystem FERAL_SUBSYSTEM_MEMORY_MANAGEMENT k = Ok STATUS_SUCCESS k1 /\
    memory_up mp ap bmp hp k k1 /\ printable boot_messages k1 /\ MaxAddress k1 = MaxAddress k /\
    processor_memory g p t k1 /\ held (PA := boot_area) true k k1 /\ (kbd k1 = kbd k /\ timer k1 = timer k) /\
    exists v s pv, (forall k', GetFirmwareName k' = Ok v k') /\ clear_text k1 v pv s.
Proof using BR.
  destruct (KiStartupSystem_memory_ok mp ap cp bmp hp k (br_memory BR)) as (k1 & E & Hup & Hk & Hf).
  pose proof (pb_inv _ _ (br_printable BR)) as Hi.
  assert (vga k1 = vga k /\ vga_on k1 = vga_on k /\ MaxAddress k1 = MaxAddress k /\ kbd k1 = kbd k /\
    timer k1 = timer k) as (Ev & Eo & Emx & Ekb & Eti)
    by (rewrite Hk; generalize (heap k1) (mms k1) (ram k1); by destruct k).
  assert (held (PA := boot_area) true k k1) as Hh.
  { split; [apply (fw_frame k); try done; apply (po_ram _ _ _ _ _ _ (proj1 (proj1 (proj2 Hup))))|].
    intros q _ Hb. apply Hf. intros Hm. apply Hb; [done|]. right. by right. }
  exists k1. split; [done|]. split; [done|]. split; [|split; [done|split; [|split; [done|split; [done|]]]]].
  - apply (printable_less (fun q => scratch q \/ managed q)); [by left|].
    by apply (printable_held (PA := boot_area) _ k); [apply BR|].
  - destruct (br_processor BR) as [? ? ? Hl Ho ? ?]. constructor; try done. rewrite <- Hl. f_equal.
    apply rdn_ext. intros q Hq. apply Hf. intros Hm. destruct (br_apart BR q Hm) as [_ Hb].
    apply Hb. right. apply Ho. lia.
  - destruct (en_name (br_environment BR)) as (v & s & pv & Hv & Hc). exists v, s, pv. split; [done|].
    apply (clear_less (fun q => scratch q \/ managed q)); [by left|]. destruct Hc as [Hc Hb].
    split; [by apply (text_at_held (PA := boot_area) true k)|done].
Qed.

Lemma message_quiet s args k1 k2 :
  printable boot_messages k1 -> existsb (String.eqb s) boot_messages = true -> quiet k1 k2 ->
  fmt_ok (strings k1) false (chars s) args ->
  exists k3, KiPrintFmt (lit s) args k2 = Ok STATUS_SUCCESS k3 /\ quiet k1 k3.
Proof using BO.
  intros Hp Hs Hq Hf. pose proof (held_quiet _ _ _ (held_refl true k1 (pb_inv _ _ Hp)) Hq) as Hh.
  destruct (quiet_message BO _ k1 s args k2 Hp (in_boot s Hs) Hh Hf) as (k3 & E & Q).
  exists k3. split; [done|]. by eapply quiet_trans.
Qed.

Lemma boot_string k1 s :
  printable boot_messages k1 -> existsb (String.eqb s) boot_messages = true -> exists u, strings k1 (lit s) u.
Proof. intros Hp Hs. exists (chars s). apply (pb_texts _ _ Hp), in_boot, Hs. Qed.

(** The banner and the lines after it. *)
Lemma boot_banner k1 v s pv {A} (f : K A) :
  printable boot_messages k1 -> MaxAddress k1 = MaxAddress k ->
  (forall k', GetFirmwareName k' = Ok v k') -> clear_text k1 v pv s ->
  exists k2, quiet k1 k2 /\
    (KiPrintFmt (lit banner)
       [lit FERAL_VERSION_SHORT; FERAL_VERSION_MAJOR; FERAL_VERSION_MINOR; FERAL_VERSION_PATCH] ;;
     m ← GetMaxPhysicalAddress;
     KiPrintFmt (lit (ln "Found %lu mebibytes of free memory")) [m `div` (1024 * 1024)] ;;
     KiPrintLine (lit "Copyright (c) 2018-2020, Brian Schnepp") ;;
     name ← GetFirmwareName;
     KiPrintFmt (lit (ln "Booted using %s")) [name] ;;
     KiPrintFmt (lit (ln "%s")) [lit "Preparing execution environment..."] ;; f) k1 = f k2.
Proof using BO BR.
  intros Hp Hmx Hname Hv. pose proof (quiet_refl _ (pb_inv _ _ Hp)) as Q0.
  destruct (message_quiet banner
    [lit FERAL_VERSION_SHORT; FERAL_VERSION_MAJOR; FERAL_VERSION_MINOR; FERAL_VERSION_PATCH] k1 k1 Hp eq_refl Q0)
    as (k2 & E2 & Q2). { split; [by apply boot_string|done]. }
  destruct (en_max (br_environment BR)) as (m & Hm & Hget).
  assert (GetMaxPhysicalAddress k2 = Ok m k2) as Eg.
  { apply Hget. destruct Q2 as (_ & Ho & _). unfold others in Ho. congruence. }
  destruct (message_quiet (ln "Found %lu mebibytes of free memory") [m `div` (1024 * 1024)] k1 k2 Hp eq_refl Q2)
    as (k3 & E3 & Q3).
  { split; [|done]. rewrite sx_small by dlia. dlia. }
  destruct (pb_texts _ _ Hp "Copyright (c) 2018-2020, Brian Schnepp"%string) as [pc Hc]; [by apply in_boot|].
  pose proof (held_quiet _ _ _ (held_refl true k1 (pb_inv _ _ Hp)) Q3) as H3.
  destruct (KiPrintLine_ok _ pc _ k3 (proj1 H3) (text_quiet _ _ _ _ _ Hc H3)) as (k4 & E4 & Q4').
  pose proof (quiet_trans _ _ _ Q3 Q4') as Q4.
  destruct (message_quiet (ln "Booted using %s") [v] k1 k4 Hp eq_refl Q4) as (k5 & E5 & Q5).
  { split; [|done]. exists s. by exists pv. }
  destruct (message_quiet (ln "%s") [lit "Preparing execution environment..."] k1 k5 Hp eq_refl Q5) as (k6 & E6 & Q6).
  { split; [by apply boot_string|done]. }
  exists k6. split; [done|]. kstep E2. kstep Eg. kstep E3. kstep E4. kstep (Hname k4). kstep E5. by kstep E6.
Qed.

(** The last messages. *)
Lemma boot_tail k0 k1 {A} (f : K A) :
  printable boot_messages k0 -> held true k0 k1 ->
  exists k2, quiet k1 k2 /\
    (KiPrintFmt (lit (ln "Loading all drivers...")) [] ;;
     KiDebugPrint (lit "INIT Reached here.") ;;
     KiDebugPrint (lit "Some other serial string.") ;; f) k1 = f k2.
Proof using BO.
  intros Hp Hh.
  destruct (quiet_message BO boot_messages k0 (ln "Loading all drivers...") [] k1 Hp) as (k2 & E2 & Q2);
    [by apply in_boot|done|done|].
  destruct (KiDebugPrint_ok boot_messages k0 k2 "INIT Reached here."%string Hp) as (k3 & E3 & Q3);
    [by apply in_boot|by apply in_boot|by apply (held_quiet _ k1)|].
  pose proof (quiet_trans _ _ _ Q2 Q3) as Q3'.
  destruct (KiDebugPrint_ok boot_messages k0 k3 "Some other serial string."%string Hp) as (k4 & E4 & Q4);
    [by apply in_boot|by apply in_boot|by apply (held_quiet _ k1)|].
  exists k4. split; [by eapply quiet_trans|]. kstep E2. kstep E3. by kstep E4.
Qed.

(** The processor's tables are out of the printing functions' way. *)
Lemma processor_apart q : processor_area g p t q -> ~ fw_mem q /\ ~ bp <= q < bp + 22.
Proof using BO BR.
  destruct (br_processor BR) as [_ _ _ _ Hs _ Hb]. unfold apart, processor_area in *. intros Hq.
  split; [apply (bo_safe BO); right; by apply Hs|lia].
Qed.

(** The serial port and the processor. *)
Lemma boot_devices k1 k2 {A} (f : K A) :
  printable boot_messages k1 -> quiet k1 k2 -> processor_memory g p t k1 ->
  exists k3, held true k1 k3 /\ managers k3 = managers k2 /\ processor_up g p t k3 /\
    (forall q, ~ fw_mem q -> ~ in_buf q -> rb (ram k3) q = rb (ram k2) q) /\
    (KiStartupSystem FERAL_SUBSYSTEM_ARCH_SPECIFIC ;; KiStartupProcessor 0 ;; f) k2 = f k3.
Proof using BO BR.
  intros Hp Q2 PM. pose proof (held_quiet _ _ _ (held_refl true k1 (pb_inv _ _ Hp)) Q2) as H2.
  destruct (br_item BR) as (Wi & Si & Di). destruct (id PM) as [_ _ _ Hl Hs _ _].
  destruct (InitSerialDevice_ok BO Item 0 pi k2) as (_ & st & k3 & E3 & _ & H23 & O3 & F3 & _); [|done|done|].
  { apply (printable_sub boot_messages); [|by apply (printable_held _ k1)].
    intros s Hin. apply in_boot. simpl in Hin. by repeat destruct Hin as [<-|Hin]. }
  pose proof (held_trans _ _ _ _ H2 H23) as H3.
  assert (processor_memory g p t k3) as PM3.
  { destruct PM as [? ? ? _ ? ? ?]. constructor; try done. rewrite <- Hl. f_equal. apply rdn_ext. intros q Hq.
    assert (processor_area g p t q) as Hq' by (unfold processor_area; lia). destruct (processor_apart q Hq') as [Hq1 Hq2].
    rewrite F3 by (done || (intros ->; done)). by apply Q2. }
  destruct (KiStartupProcessor_ok BO g p t boot_messages k1 k3 Hp (in_boot idt_message eq_refl) H3 PM3)
    as (k4 & E4 & H4 & Hup & _ & M4 & F4).
  exists k4. split; [done|]. split; [by rewrite M4; apply others_managers|]. split; [done|]. split.
  - intros q Hq Hnb. rewrite F4, F3; try done; try (intros Hx; apply Hnb; (by left) || right).
    + by subst.
    + by apply Hs.
  - unfold KiStartupSystem. rewrite bool_decide_eq_false_2, bool_decide_eq_true_2 by done.
    unfold KiStartupMachineDependent. rewrite !bind_assoc. kstep (ret_ok () k2). rewrite !bind_assoc. kstep E3.
    kstep (ret_ok STATUS_SUCCESS k3). by kstep E4.
Qed.

Lemma memory_up_frame k1 k2 :
  memory_up mp ap bmp hp k k1 -> mms k2 = mms k1 -> heap k2 = heap k1 -> ram_ok (ram k2) ->
  (forall q, managed q -> rb (ram k2) q = rb (ram k1) q) -> memory_up mp ap bmp hp k k2.
Proof using BR.
  intros (Ht & [[E1 E2 E3 E4 E5] HS] & [F1 F2 F3 F4 F5 F6 F7]) Em Eh Hok Hf.
  unfold managed, startup_area, handed_area in Hf. pose proof (startup_bitmap_pos mp ap cp bmp hp k (br_memory BR)) as Hpos.
  pose proof (round4_bounds (startup_bitmap_size mp k) ltac:(lia)). change (round4 HeapSize) with HeapSize in Hf.
  unfold HeapSize in Hf.
  split; [|split; [split; [constructor; rewrite ?Em; try done|]|]].
  - intros i Hi. rewrite <- Ht by done. apply mm_range_at_ext. intros q Hq. apply Hf. lia.
  - rewrite <- E4. apply rdn_ext. intros q Hq. apply Hf. lia.
  - intros f. rewrite HS. split; intros [Hr Hu]; (split; [done|]); revert Hu; unfold used;
      rewrite Hf by dlia; done.
  - constructor; rewrite ?Eh; try done;
      match goal with H : rdn _ (ram k1) ?p = _ |- rdn _ _ ?p = _ => rewrite <- H end;
      apply rdn_ext; intros; apply Hf; lia.
Qed.

Lemma processor_up_frame k1 k2 :
  processor_up g p t k1 -> gdtp k2 = gdtp k1 -> idtp k2 = idtp k1 ->
  (forall q, processor_area g p t q -> rb (ram k2) q = rb (ram k1) q) -> processor_up g p t k2.
Proof using.
  intros (H1 & H2 & H3 & H4 & H5) Eg Ei Hq. unfold processor_area in Hq.
  split; [|split; [congruence|split; [|split; [congruence|]]]].
  - rewrite <- H1. apply read_bytes_ext. intros q Hr. apply Hq. lia.
  - apply (idt_ready_frame (ram k1)); [|done]. intros q Hr. apply Hq. lia.
  - rewrite <- H5. f_equal. apply rdn_ext. intros q Hr. apply Hq. lia.
Qed.

Lemma processor_up_quiet k1 k2 :
  processor_up g p t k1 -> quiet k1 k2 -> processor_up g p t k2.
Proof using BO BR.
  intros Hu (_ & Ho & Hf). injection Ho as _ _ _ _ Eg Ei _ _ _. apply (processor_up_frame k1); [done..|].
  intros q Hq. by apply Hf; apply processor_apart.
Qed.

(** The last loop of [KiSystemStartup] never ends. *)
Lemma forever_spins k1 : exists k2, cloop (fun _ : () => (mret (inl ()) : K (() + ()))) () k1 = Spin k2.
Proof.
  apply (cloop_diverges (fun _ _ => True)); [|done]. intros [] k2 _. by exists (), k2.
Qed.

Lemma KiSystemStartup_ok :
  exists k', KiSystemStartup k =
      (SerialDoKShellPrompt CmdBuffer CurChar ;; cloop (fun _ : () => mret (inl ())) ()) k' /\
    memory_up mp ap bmp hp k k' /\ processor_up g p t k' /\ held (PA := boot_area) true k k' /\
    kbd k' = kbd k /\ timer k' = timer k.
Proof using BO BR.
  destruct boot_memory_stage as (k1 & E1 & Hup & Hp & Emx & PM & H1 & (Ekb & Eti) & v & s & pv & Hv & Hs).
  unfold KiSystemStartup.
  match goal with |- context [KiStartupSystem FERAL_SUBSYSTEM_ARCH_SPECIFIC ≫= ?f] => set (rest := f) end.
  destruct (boot_banner k1 v s pv (KiStartupSystem FERAL_SUBSYSTEM_ARCH_SPECIFIC ≫= rest) Hp Emx Hv Hs)
    as (k2 & Q2 & E2).
  set (shell := (SerialDoKShellPrompt CmdBuffer CurChar ;; cloop (fun _ : () => mret (inl ())) ()) : K ()).
  destruct (boot_devices k1 k2 (KiPrintFmt (lit (ln "Loading all drivers...")) [] ;;
     KiDebugPrint (lit "INIT Reached here.") ;; KiDebugPrint (lit "Some other serial string.") ;; shell) Hp Q2 PM)
    as (k3 & H3 & M3 & U3 & F3 & E3).
  destruct (boot_tail k1 k3 shell Hp H3) as (k4 & Q4 & E4).
  exists k4. rewrite (bind_ok _ _ _ _ _ E1). cbv beta.
  match goal with |- ?m k1 = _ /\ _ => assert (m k1 = shell k4) as E
    by (rewrite E2; unfold rest; fold shell; rewrite E3; exact E4) end.
  assert (managers k4 = managers k1) as M4.
  { transitivity (managers k3); [apply others_managers, Q4|]. rewrite M3. apply others_managers, Q2. }
  split; [exact E|]. split; [|split; [by apply (processor_up_quiet k3)|split]].
  - unfold managers in M4. apply (memory_up_frame k1); [done|congruence|congruence|apply fw_ram, Q4|].
    intros q Hq. destruct (br_apart BR q Hq) as [Hfw Hb].
    assert (~ bp <= q < bp + 22) as Hb' by (intros ?; apply Hb; by left).
    rewrite (proj2 (proj2 Q4) q Hfw Hb'), F3 by done. by apply Q2.
  - apply (held_trans _ _ k1); [done|]. apply held_more; [by left|]. by apply (held_quiet _ k3).
  - unfold managers in M4. split; congruence.
Qed.

(** [KiSystemStartup] starts everything, in order, and ends in the debug
    shell.  On a machine with the memory the boot code promises, it reaches the
    shell, whatever the devices answer, with the memory manager up (the
    frames of the kernel and the heap in use, the heap empty, the table of
    ranges built) and still so after everything that came later; with the
    processor's tables built and loaded and the lowest 512 GiB no longer mapped
    by the page tables (whose effect on later accesses is not modelled); and it
    never returns. *)
Theorem KiSystemStartup_reaches_shell :
  exists k', KiSystemStartup k =
      (SerialDoKShellPrompt CmdBuffer CurChar ;; cloop (fun _ : () => mret (inl ())) ()) k' /\
    memory_up mp ap bmp hp k k' /\ processor_up g p t k' /\ fw_inv k' /\
    forall a k2, KiSystemStartup k <> Ok a k2.
Proof using BO BR.
  destruct KiSystemStartup_ok as (k' & E & Hm & Hu & Hh & _). exists k'.
  split; [done|]. split; [done|]. split; [done|]. split; [apply Hh|].
  intros a kf. rewrite E. intros H. apply bind_ok_inv in H as ([] & k5 & _ & H).
  destruct (forever_spins k5) as [k6 E6]. rewrite E6 in H. discriminate H.
Qed.
End Boot.

(** ** A sample machine: the literals at 0x10000, the tables from 0x7000 to
    0xA000, 64 MiB of memory in two ranges listed at 0x200000 *)

Definition boot_literals : list string :=
  boot_messages ++ [GetBiosFirmwareClaim] ++ handler_messages ++ [Prompt] ++ stop_literals ++ keymap_literals.
Definition boot_lit : Literals := sample_literals boot_literals.
Definition boot_version : KernelVersion := mkVersion 0 0 1.
Definition boot_addresses : StartupAddresses := mkStartupAddresses 0x180000 0x180100 0xB000 0xC000 0xB100 0x9000.

Definition boot_ranges : list Z :=
  le_bytes 8 9 ++ le_bytes 8 0 ++ le_bytes 8 0x9FC00 ++
  le_bytes 8 9 ++ le_bytes 8 0x100000 ++ le_bytes 8 0x4000000.
Definition boot_ram : gmap Z Z :=
  write_bytes (wrn 8 (ram (sample_kernel boot_literals)) 0x9000 0xA003) 0x200000 boot_ranges.
Definition boot_kernel : kernel :=
  with_boot (mkBootInfo 1 0 2 0x200000) 0x4000000 2 (with_ram boot_ram (sample_kernel boot_literals)).

Lemma boot_kernel_ram : ram boot_kernel = boot_ram.
Proof. unfold boot_kernel. by destruct (sample_kernel _). Qed.

Lemma boot_ram_ok : ram_ok boot_ram.
Proof.
  apply ram_ok_write; [apply ram_ok_wrn, sample_ram_ok|]. repeat apply Forall_app_2; apply le_bytes_byte.
Qed.

Lemma boot_sizes :
  startup_bitmap_size 0x200000 boot_kernel = 2048 /\ startup_heap 0x200000 boot_kernel = 0x229898 /\
  safe_area boot_kernel = 0x228098 /\ range_count boot_kernel = 2 /\
  ranges_phys 0x200000 boot_kernel = 0x200048 /\ memory_end 0x200000 boot_kernel = 0x4000000.
Proof.
  assert (memory_end 0x200000 boot_kernel = 0x4000000) as E by (vm_compute; reflexivity).
  unfold startup_heap, startup_bitmap_size. rewrite E. repeat split; vm_compute; reflexivity.
Qed.

Lemma boot_startup_memory :
  startup_memory (AS := boot_space) (SA := boot_addresses) 0x200000 0x180000 0x180100 0x229098 0x229898 boot_kernel.
Proof.
  destruct boot_sizes as (Eb & Eh & Es & En & Er & Ee).
  constructor; rewrite ?Eb, ?Eh, ?Es, ?En, ?Er, ?Ee;
    try (apply boot_window_low; vm_compute; congruence);
    try (apply boot_window_virt; vm_compute; congruence); try lia.
  - rewrite boot_kernel_ram. apply boot_ram_ok.
  - split; [apply boot_window_low; vm_compute; congruence|vm_compute; split; congruence].
  - constructor; [vm_compute; split; congruence|vm_compute; congruence|].
    apply boot_window_virt; vm_compute; congruence.
  - vm_compute. congruence.
  - unfold HeapSize. lia.
Qed.

Definition boot_managed : Z -> Prop := managed 0x200000 0x180000 0x180100 0x229098 0x229898 boot_kernel.

Lemma boot_managed_high q : boot_managed q -> 0x180000 <= q.
Proof.
  unfold boot_managed, managed, startup_area, handed_area.
  destruct boot_sizes as (Eb & _ & _ & En & Er & _). rewrite Eb, En, Er.
  change (round4 2048) with 2048. unfold HeapSize. change (round4 (1024 * 1024 * 8)) with 8388608. lia.
Qed.

(** The literals are where they were. *)
Lemma boot_text s :
  lit_check boot_literals s = true ->
  clear_text (AS := boot_space) (FL := sample_laws)
    (PA := boot_area (PA := sample_area) 0x200000 0x180000 0x180100 0x229098 0x229898 boot_kernel)
    boot_kernel (boot_lit s) (boot_lit s) (chars s).
Proof.
  intros Hc. destruct (sample_text boot_literals s Hc) as [[H1 H2 [H3 H3'] H4 H5] H6].
  fold boot_lit in *. set (a := boot_lit s) in *.
  assert (0x10000 <= a /\ a + zlen (chars s) < 0x80000) as Ha.
  { unfold lit_check in Hc. unfold lit_base in Hc. fold (boot_lit s) in Hc. fold a in Hc.
    rewrite !andb_true_iff, !Z.leb_le in Hc. change (sample_literals boot_literals s) with a in Hc. lia. }
  assert (forall q, 0x10000 <= q < 0x80000 -> rb (ram boot_kernel) q = rb (ram (sample_kernel boot_literals)) q) as Hq.
  { intros q Hr. rewrite boot_kernel_ram. unfold boot_ram. rewrite rb_write_other, rb_wrn_other by lia. done. }
  split; [constructor; try done|].
  - split; [|done]. rewrite <- H3. apply read_bytes_ext. intros q Hr. apply Hq. unfold zlen in Ha. lia.
  - intros q Hr [Hb|[Hb|Hb]]; [by apply (H6 q Hr); left|by apply (H6 q Hr); right|].
    apply boot_managed_high in Hb. lia.
Qed.

Lemma boot_literals_there s : In s (own_literals ++ boot_literals) -> lit_check boot_literals s = true.
Proof.
  assert (forallb (lit_check boot_literals) (own_literals ++ boot_literals) = true) as H by (vm_compute; reflexivity).
  rewrite List.forallb_forall in H. apply H.
Qed.

Lemma boot_printable :
  printable (AS := boot_space) (FL := sample_laws) (LT := boot_lit)
    (PA := boot_area (PA := sample_area) 0x200000 0x180000 0x180100 0x229098 0x229898 boot_kernel)
    boot_messages boot_kernel.
Proof.
  constructor.
  - apply (console_change (KERN_PHYS_TO_VIRT text_base) 80 25 (sample_kernel boot_literals));
      [apply sample_console|rewrite boot_kernel_ram; apply boot_ram_ok|reflexivity|reflexivity].
  - constructor; eexists; apply boot_text, boot_literals_there; simpl; tauto.
  - intros s Hs. eexists. apply boot_text, boot_literals_there, in_or_app. right. apply in_or_app. by left.
Qed.

Lemma sample_boot_ready :
  boot_ready (AS := boot_space) (EB := EnvBlock (AS := boot_space) (LT := boot_lit)) (FL := sample_laws)
    (LT := boot_lit) (PA := sample_area) (DT := processor_tables) (SA := boot_addresses)
    0x200000 0x180000 0x180100 0x229098 0x229898 0x7000 0x8000 0x9000 0xB000 boot_kernel.
Proof.
  constructor.
  - apply boot_startup_memory.
  - constructor; try (unfold apart; change (@Print.bp sample_area) with 0x6000; lia).
    + apply (boot_window_low 0x7000 40); lia.
    + apply (boot_window_low 0x8000 4096); lia.
    + split; [|reflexivity]. apply (boot_window_low 0x9000 4096); lia.
    + rewrite boot_kernel_ram. vm_compute. reflexivity.
    + intros q Hq. change (0x7000 <= q < 0xF000). lia.
  - split; [apply (boot_window_low 0xB000 1); lia|]. split; [change (0x7000 <= 0xB000 < 0xF000); lia|].
    unfold processor_area. lia.
  - apply boot_printable.
  - intros q Hq. apply boot_managed_high in Hq. split.
    + change (~ (text_base <= q < text_base + 2 * 80 * 25)). unfold text_base. lia.
    + intros [Hb|Hb]; [change (0x6000 <= q < 0x6000 + 22) in Hb|change (0x7000 <= q < 0xF000) in Hb]; lia.
  - constructor.
    + exists 0x4000000. split; [lia|]. intros k' E. unfold GetMaxPhysicalAddress, EnvBlock. 
      change (MaxAddress boot_kernel) with 0x4000000 in E. by rewrite <- E.
    + eexists _, _, _. split; [reflexivity|]. apply boot_text, boot_literals_there, in_or_app. right.
      apply in_or_app. right. by left.
Qed.

Lemma KiSystemStartup_reaches_shell_witness :
  exists k', KiSystemStartup (AS := boot_space) (DV := fun _ _ => 0)
      (EB := EnvBlock (AS := boot_space) (LT := boot_lit)) (LT := boot_lit) (FB := sample_buffer)
      (SR := sample_registers) (DT := processor_tables) (HA := sample_handlers) (VR := boot_version)
      (SA := boot_addresses) boot_kernel =
    (SerialDoKShellPrompt (AS := boot_space) (DV := fun _ _ => 0) (LT := boot_lit) 0xC000 0xB100 ;;
     cloop (fun _ : () => mret (inl ())) ()) k' /\
    gdtp k' = mkDescPointer 39 0x7000 /\ Arenas (heap k') = KERN_PHYS_TO_VIRT 0x229898.
Proof.
  destruct (KiSystemStartup_reaches_shell (AS := boot_space) (DV := fun _ _ => 0)
    (EB := EnvBlock (AS := boot_space) (LT := boot_lit)) (FL := sample_laws) (LT := boot_lit) (FB := sample_buffer)
    (PA := sample_area) (SR := sample_registers) (DT := processor_tables) (HA := sample_handlers)
    (VR := boot_version) (SA := boot_addresses) sample_buffer_ok _ _ _ _ _ _ _ _ _ _ sample_boot_ready)
    as (k' & E & (_ & _ & Hh) & (_ & Eg & _) & _).
  exists k'. split; [exact E|]. split; [exact Eg|].
  rewrite (proj1 (proj2 boot_sizes)) in Hh. apply Hh.
Defined.
