(* ===== verification/Dispatch.v ===== *)
(** * The running kernel: the debug shell and the interrupts
    ([kern/arch/x86_64/interrupts.c], [drivers/serial/kshell/kshell.c])

    What [KiSystemStartup] leaves running: the shell in the foreground, and
    the handlers of the vectors, which the processor finds in the table in
    memory.  Interrupts come between two operations of the shell; the system is
    a step relation over both, and its theorems are invariants of every run. *)

From S2P Require Import Prelude Machine Status MemFuncs BinFuncs Strings Vga Heap Pmm Paging Print Serial Stop Descriptors Interrupts Keyboard Startup Multiboot Bootstrap.

Definition all_handlers : list Handler :=
  [H_DivideByZero; H_GenericHandler; H_GenericHandlerPIC2; H_DoubleFaultHandler;
   H_PageFaultHandler; H_PITHandler; H_PS2KeyboardHandler].

Lemma in_all_handlers h : In h all_handlers.
Proof. destruct h; simpl; tauto. Qed.

(** The processor pushes an error code with these vectors; the handlers are
    declared without one, so that one that returns would return to it. *)
Definition error_code (n : Z) : bool := existsb (Z.eqb n) [8; 10; 11; 12; 13; 14; 17; 21; 29; 30].

(** The vectors a run may take: all that have a gate, but for those above
    whose handler returns. *)
Definition taken (n : Z) : Prop := 0 <= n < 255 /\ (error_code n = true -> n = 8 \/ n = 14).

(** Where the foreground is: before the prompt, in the shell's loop, in the
    loop that ends [KiSystemStartup]; stopped by [KiStopError]; or at an access
    that is not mapped. *)
Inductive control :=
| CPrompt
| CReading (Index : Z)
| CIdle
| CStopped (st : Z)
| CCrashed.

Definition live (c : control) : bool :=
  match c with CPrompt | CReading _ | CIdle => true | _ => false end.

Definition settle (o : outcome control) : control * kernel :=
  match o with
  | Ok c k => (c, k)
  | Halted st k => (CStopped st, k)
  | Fault k | Spin k => (CCrashed, k)
  end.

Inductive event := EvRun | EvInterrupt (n : Z).

Section Dispatch.
Context `{AS : AddrSpace} `{DV : Device} `{FW : KrnlFirmwareFunctions} `{LT : Literals} `{FB : FormatBuffer}
  `{SR : StopRegisters} `{HA : HandlerAddresses} `{SA : StartupAddresses}.

(** The local array of the keyboard's handler. *)
Variable Buffer : Z.

Definition handler_code (h : Handler) : K () :=
  match h with
  | H_DivideByZero => DivideByZero
  | H_GenericHandler => GenericHandler
  | H_GenericHandlerPIC2 => GenericHandlerPIC2
  | H_DoubleFaultHandler => DoubleFaultHandler
  | H_PageFaultHandler => PageFaultHandler
  | H_PITHandler => PITHandler
  | H_PS2KeyboardHandler => PS2KeyboardHandler Buffer
  end.

(** What the processor does with vector [n]: it reads the gate from the table
    its register points to, and goes to the code at the gate's address.  A
    vector past the end of the table, a gate that is not present and an
    address where no handler is are faults. *)
Definition fetch_gate (n : Z) : K gate :=
  r ← gets idtp;
  if dp_Limit r <? 16 * n + 15 then fault
  else
    let a := dp_Base r + 16 * n in
    low ← loadn 2 a;
    selector ← loadn 2 (a + 2);
    ist ← loadn 1 (a + 4);
    attr ← loadn 1 (a + 5);
    middle ← loadn 2 (a + 6);
    high ← loadn 4 (a + 8);
    mret (mkGate (low + 2 ^ 16 * middle + 2 ^ 32 * high) selector ist attr).

Definition handler_at (a : Z) : option Handler :=
  List.find (fun h => u64 (handler_address h) =? a) all_handlers.

Definition deliver (n : Z) : K () :=
  g ← fetch_gate n;
  if Z.testbit (g_attr g) 7 then
    match handler_at (g_target g) with Some h => handler_code h | None => fault end
  else fault.

(** [SerialDoKShellPrompt] up to its loop. *)
Definition shell_begin : K () :=
  SerialSend COM1_PORT (lit Prompt) PromptLen ;;
  KiSetMemoryBytes CmdBuffer 0 1024 ;;
  store8 CurChar 0.

(** One operation of the foreground. *)
Definition resume (c : control) : K control :=
  match c with
  | CPrompt => shell_begin ;; mret (CReading 0)
  | CReading Index =>
      x ← kshell_loop CmdBuffer CurChar Index;
      mret (match x with inl Index' => CReading Index' | inr _ => CIdle end)
  | _ => mret c
  end.

Inductive step : control * kernel -> event -> control * kernel -> Prop :=
| st_run c k : live c = true -> step (c, k) EvRun (settle (resume c k))
| st_interrupt c k n : live c = true -> taken n ->
    step (c, k) (EvInterrupt n) (settle ((deliver n ;; mret c) k)).

(** A run, with its events in order. *)
Inductive runs (s : control * kernel) : list event -> control * kernel -> Prop :=
| rs_start : runs s [] s
| rs_step es e s1 s2 : runs s es s1 -> step s1 e s2 -> runs s (es ++ [e]) s2.

Lemma SerialDoKShellPrompt_begins k :
  SerialDoKShellPrompt CmdBuffer CurChar k = (shell_begin ;; cloop (kshell_loop CmdBuffer CurChar) 0) k.
Proof.
  unfold SerialDoKShellPrompt, shell_begin, kshell_loop. rewrite !bind_assoc. unfold mbind, K_bind.
  destruct (SerialSend _ _ _ k) as [[] k1| | |]; try done. by destruct (KiSetMemoryBytes _ _ _ k1).
Qed.

(** *** Without interrupts *)

Lemma runs_reading k0 m i k1 es k :
  runs (CPrompt, k0) es (CReading i, k) -> rounds m (kshell_loop CmdBuffer CurChar) i k = Ok (inl k1.1) k1.2 ->
  runs (CPrompt, k0) (es ++ replicate m EvRun) (CReading k1.1, k1.2).
Proof.
  revert i k es. induction m as [|m IH]; intros i k es H E.
  - injection E as <- <-. by rewrite app_nil_r.
  - cbn [rounds] in E. apply bind_ok_inv in E as ([j|[]] & k2 & E & E'); [|discriminate E'].
    change (replicate (S m) EvRun) with ([EvRun] ++ replicate m EvRun). rewrite app_assoc. apply (IH j k2); [|done].
    apply (rs_step _ _ _ _ _ H). replace (CReading j, k2) with (settle (resume (CReading i) k)); [by constructor|].
    unfold resume. by kstep E.
Qed.

(** The states of the runs without interrupts. *)
Definition undisturbed (k0 : kernel) (n : nat) (s : control * kernel) : Prop :=
  match n with
  | O => s = (CPrompt, k0)
  | S n =>
      match s.1 with
      | CPrompt => False
      | CReading i => exists kb, shell_begin k0 = Ok () kb /\
          rounds n (kshell_loop CmdBuffer CurChar) 0 kb = Ok (inl i) s.2
      | CIdle => exists kb, shell_begin k0 = Ok () kb /\
          rounds n (kshell_loop CmdBuffer CurChar) 0 kb = Ok (inr ()) s.2
      | _ => True
      end
  end.

Lemma undisturbed_step k0 n s : undisturbed k0 n s -> live s.1 = true ->
  undisturbed k0 (S n) (settle (resume s.1 s.2)).
Proof.
  destruct s as [c k]. cbn [fst snd]. intros H Hl. destruct n as [|n].
  - injection H as -> ->. cbn [resume]. unfold mbind, K_bind. destruct (shell_begin k0) as [[] kb| | |] eqn:E; try done.
    simpl. by exists kb.
  - destruct c as [|i| | |]; try done; destruct H as (kb & Eb & Er); cbn [fst snd] in Er.
    + cbn [resume]. unfold mbind at 1, K_bind at 1.
      destruct (kshell_loop CmdBuffer CurChar i k) as [[j|[]] k'| | |] eqn:E; try done;
        cbn [settle undisturbed fst snd mret K_ret]; exists kb; (split; [done|]);
        rewrite <- (Nat.add_1_r n); by apply (rounds_snoc _ _ _ _ i k).
    + exists kb. split; [done|]. cbn [fst snd]. rewrite <- (Nat.add_1_r n). by apply rounds_more.
Qed.

Lemma undisturbed_runs k0 n : forall s, runs (CPrompt, k0) (replicate n EvRun) s -> undisturbed k0 n s.
Proof.
  induction n as [|n IH]; intros s H.
  - inversion H as [|es e s1 s2 H1 H2 Ees]; [done|]. by destruct es.
  - rewrite replicate_S_end in H. inversion H as [Ees|es e s1 s2 H1 H2 Ees]; [by destruct (replicate n EvRun)|].
    subst. apply app_inj_tail in Ees as [-> ->]. inversion H2; subst. by apply (undisturbed_step k0 n (c, k)); [apply IH|].
Qed.

Lemma undisturbed_shell k k' :
  SerialDoKShellPrompt CmdBuffer CurChar k = Ok () k' <->
  exists n, Z.of_nat n <= Z.pos FUEL /\ runs (CPrompt, k) (replicate (S n) EvRun) (CIdle, k').
Proof.
  rewrite SerialDoKShellPrompt_begins. split.
  - intros H. apply bind_ok_inv in H as ([] & kb & Eb & H). apply cloop_ok_inv in H.
    apply rounds_last in H as (m & i & k1 & Hm & E1 & E2). exists (S m). split; [rewrite <- positive_nat_Z; lia|].
    assert (runs (CPrompt, k) [EvRun] (CReading 0, kb)) as H0.
    { apply (rs_step _ [] EvRun (CPrompt, k)); [constructor|].
      replace (CReading 0, kb) with (settle (resume CPrompt k)); [by constructor|]. cbn [resume]. by kstep Eb. }
    pose proof (runs_reading k m 0 (i, k1) [EvRun] kb H0 E1) as H1. cbn [fst snd] in H1.
    change (replicate (S (S m)) EvRun) with ([EvRun] ++ replicate (S m) EvRun).
    rewrite replicate_S_end, app_assoc. apply (rs_step _ _ _ _ _ H1).
    replace (CIdle, k') with (settle (resume (CReading i) k1)); [by constructor|]. cbn [resume]. by kstep E2.
  - intros (n & Hn & H). apply undisturbed_runs in H as (kb & Eb & Er). kstep Eb.
    by apply (cloop_rounds n).
Qed.

(** runs without interrupts are the program: the shell as it is written
    returns in a state exactly when the runs of its operations alone lead to
    the loop after it in that state. *)
Theorem shell_operations (k k' : kernel) :
  SerialDoKShellPrompt CmdBuffer CurChar k = Ok () k' <->
  exists n, Z.of_nat n <= Z.pos FUEL /\ runs (CPrompt, k) (replicate (S n) EvRun) (CIdle, k').
Proof. apply undisturbed_shell. Qed.
End Dispatch.

(** The timer interrupts of a run. *)
Fixpoint ticks (es : list event) : Z :=
  match es with
  | [] => 0
  | EvInterrupt n :: es => (if n =? 0x20 then 1 else 0) + ticks es
  | _ :: es => ticks es
  end.

Lemma ticks_app es es' : ticks (es ++ es') = ticks es + ticks es'.
Proof.
  induction es as [|e es IH]; [done|]. destruct e as [|n]; simpl; rewrite IH; [done|].
  by rewrite Z.add_assoc.
Qed.

(** The acknowledgements a handler ends with, newest first. *)
Definition eois (h : Handler) : list io_event :=
  match h with
  | H_PITHandler | H_PS2KeyboardHandler => [EvOut 0x20 0x20]
  | H_GenericHandlerPIC2 => [EvOut 0x20 0x20; EvOut 0xA0 0x20]
  | _ => []
  end.

Definition stops (h : Handler) : bool :=
  match h with H_DoubleFaultHandler | H_PageFaultHandler => true | _ => false end.

(** ** What the interrupts find *)

Section Running.
Context {AS : AddrSpace} {DV : Device} {LT : Literals} {FB : FormatBuffer} {PA : PrintArea}
  {SR : StopRegisters} {DT : DescriptorTables} {HA : HandlerAddresses} {SA : StartupAddresses}.
Variables (fb pa : Z).
Hypothesis G : geometry fb pa 80 25.

#[local] Existing Instance FirmwareFuncs.
#[local] Instance running_laws : FirmwareLaws FirmwareFuncs := console_laws fb pa 80 25 G.
Hypothesis BO : buffer_ok.

(** The literals of the shell and of the handlers. *)
Definition run_messages : list string := handler_messages ++ [Prompt] ++ stop_literals.

Definition bit (v : Z) : Prop := v = 0 \/ v = 1.

Definition modifiers_ok (c : PS2KeyboardContext) : Prop := bit (ShiftModifier c) /\ bit (CapsLock c).

(** Where the table, the shell's buffer and its local, and the local of the
    keyboard's handler are. *)
Variables (Buffer p pc pcc pb : Z) (k0 : kernel).

(** The machine a run starts from.  The keyboard sends codes of the map only:
    the handler reads past its end for the others. *)
Record run_ready : Prop := mkRunReady {
  rr_printable : printable run_messages k0;
  rr_keymap : keymap_ok k0;
  rr_buffer : window CmdBuffer pc 1024 /\ forall q, pc <= q < pc + 1024 -> scratch q;
  rr_char : window CurChar pcc 1 /\ scratch pcc;
  rr_local : Buffer <> NULL /\ window Buffer pb 2 /\ scratch pb /\ scratch (pb + 1) /\
    (pb + 2 <= bp \/ bp + 22 <= pb);
  rr_table : idt_window p /\ idt_ready (ram k0) p /\ idtp k0 = mkDescPointer 4095 IDT /\
    forall q, p <= q < p + 4096 -> ~ fw_mem q /\ ~ in_buf q;
  rr_handlers : forall h h', u64 (handler_address h) = u64 (handler_address h') -> h = h';
  rr_timer : 0 <= timer k0 < 16;
  rr_modifiers : modifiers_ok (kbd k0);
  rr_codes : forall t, u8 (dev_in8 t 0x60) mod 128 < 84;
}.
Hypothesis RR : run_ready.

(** What every state of a run shares with the first: all memory but the
    console's, the printing's and the shell's; and the statics of the memory
    manager, the heap and the tables. *)
Record running (k : kernel) : Prop := mkRunning {
  rn_held : held true k0 k;
  rn_mms : mms k = mms k0;
  rn_heap : heap k = heap k0;
  rn_gdtp : gdtp k = gdtp k0;
  rn_idtp : idtp k = idtp k0;
  rn_timer : 0 <= timer k < 16;
  rn_modifiers : modifiers_ok (kbd k);
}.

Lemma running_start : running k0.
Proof using RR. destruct RR as [[Hi _ _] _ _ _ _ _ _ Ht Hm _]. by constructor. Qed.

Lemma running_others k k' : running k -> held true k0 k' -> others k' = others k -> running k' /\ timer k' = timer k.
Proof using.
  intros [Hh E1 E2 E3 E4 E5 E6] Hh' Ho. unfold others in Ho. injection Ho as O1 O2 O3 O4 O5 O6 _ _ _.
  split; [|congruence]. constructor; try congruence; by rewrite ?O3, ?O4.
Qed.

Lemma running_quiet k k' : running k -> quiet k k' -> running k' /\ timer k' = timer k.
Proof using.
  intros Hr Hq. apply (running_others k); [done| |apply Hq]. apply (held_quiet _ k); [apply Hr|done].
Qed.

Lemma running_trace k t : running k -> running (with_trace t k) /\ timer (with_trace t k) = timer k.
Proof using.
  intros Hr. apply (running_others k); [done| |by destruct k].
  apply (held_change _ _ k); [apply Hr|by destruct k..].
Qed.

(** Writes to the shell's memory. *)
Lemma running_scratch k m t :
  running k -> ram_ok m -> (forall q, ~ scratch q -> rb m q = rb (ram k) q) ->
  running (with_ram m (with_trace t k)) /\ timer (with_ram m (with_trace t k)) = timer k.
Proof using.
  intros Hr Hm Hf. apply (running_others k); [done| |by destruct k].
  apply (held_trans _ _ k); [apply Hr|]. split.
  - apply (fw_frame k); [apply Hr|by rewrite ram_with_ram|by destruct k..].
  - intros q _ Hb. rewrite ram_with_ram. apply Hf. intros Hs. apply Hb; [done|by right].
Qed.

Lemma running_ram k : running k -> ram_ok (ram k).
Proof using. intros Hr. apply fw_ram, (rn_held _ Hr). Qed.

Lemma running_printable k : running k -> printable run_messages k.
Proof using RR. intros Hr. apply (printable_held _ k0); [apply RR|apply Hr]. Qed.

(** *** The dispatch *)

Lemma handler_at_ok h : handler_at (u64 (handler_address h)) = Some h.
Proof using RR.
  unfold handler_at. destruct (List.find _ _) as [h'|] eqn:E.
  - apply List.find_some in E as [_ E]. apply Z.eqb_eq, (rr_handlers RR) in E. by subst.
  - pose proof (List.find_none _ _ E h (in_all_handlers h)) as Hn. cbv beta in Hn. by rewrite Z.eqb_refl in Hn.
Qed.

Lemma running_table k : running k -> idt_ready (ram k) p /\ idtp k = mkDescPointer 4095 IDT.
Proof using RR.
  intros Hr. destruct (rr_table RR) as (_ & Ht & Ei & Ha). split; [|by rewrite (rn_idtp _ Hr)].
  apply (idt_ready_frame (ram k0)); [|done]. intros q Hq. destruct (Ha q Hq). by apply (rn_held _ Hr).
Qed.

Lemma fetch_gate_ok n k : running k -> 0 <= n < 256 -> fetch_gate n k = Ok (gate_at (ram k) (p + 16 * n)) k.
Proof using RR.
  intros Hr Hn. destruct (running_table k Hr) as [_ Ei]. destruct (rr_table RR) as (W & _). unfold idt_window in W.
  unfold fetch_gate. assert (gets idtp k = Ok (idtp k) k) as Eg by done. kstep Eg. rewrite Ei. cbn [dp_Limit dp_Base].
  rewrite (proj2 (Z.ltb_ge _ _)) by lia.
  assert (window (IDT + 16 * n) (p + 16 * n) 16) as W16 by (apply (window_sub _ _ 4096); [done|lia|lia]).
  kstep (loadn_ok 2 _ _ k ltac:(apply (window_le _ _ 16); [exact W16|lia])).
  kstep (loadn_at 2 _ _ 16 _ 2 k W16 eq_refl ltac:(lia) ltac:(lia)).
  kstep (loadn_at 1 _ _ 16 _ 4 k W16 eq_refl ltac:(lia) ltac:(lia)).
  kstep (loadn_at 1 _ _ 16 _ 5 k W16 eq_refl ltac:(lia) ltac:(lia)).
  kstep (loadn_at 2 _ _ 16 _ 6 k W16 eq_refl ltac:(lia) ltac:(lia)).
  by kstep (loadn_at 4 _ _ 16 _ 8 k W16 eq_refl ltac:(lia) ltac:(lia)).
Qed.

(** The processor goes where [vector_handler] says. *)
Lemma deliver_ok n k :
  running k -> 0 <= n < 256 ->
  deliver Buffer n k = match vector_handler n with Some h => handler_code Buffer h k | None => Fault k end.
Proof using RR.
  intros Hr Hn. unfold deliver. kstep (fetch_gate_ok n k Hr Hn).
  destruct (running_table k Hr) as [Ht _]. rewrite Ht by done. destruct (vector_handler n) as [h|]; [|done].
  cbn [g_attr g_target]. change (Z.testbit 0x8E 7) with true. by rewrite handler_at_ok.
Qed.

(** *** The handlers *)

Lemma running_message k s :
  running k -> In s handler_messages ->
  exists k', KiPrintFmt (lit s) [] k = Ok STATUS_SUCCESS k' /\ running k' /\ timer k' = timer k.
Proof using BO RR.
  intros Hr Hs. destruct (quiet_message BO run_messages k0 s [] k) as (k' & E & Q).
  - apply RR.
  - apply in_or_app. by left.
  - apply Hr.
  - simpl in Hs. by repeat destruct Hs as [<-|Hs].
  - exists k'. split; [done|]. by apply running_quiet.
Qed.

Lemma key_step_bits b i c : modifiers_ok c -> modifiers_ok (key_step b i c).
Proof using.
  destruct c as [s ct a l]. intros [Hs Hl]. unfold key_step, modifiers_ok, bit in *.
  assert (forall v, v = 0 \/ v = 1 -> lnot v = 0 \/ lnot v = 1) as Hn by (intros v [->| ->]; [by right|by left]).
  destruct (key_of i), b; simpl in *; auto.
Qed.

Lemma running_keyboard k :
  running k -> exists k', PS2KeyboardHandler Buffer k = Ok () k' /\ running k' /\ timer k' = timer k /\
    exists t, trace k' = EvOut 0x20 0x20 :: t.
Proof using BO RR.
  intros Hr. destruct (rr_local RR) as (Hn & W & S0 & S1 & Hd).
  destruct (PS2KeyboardHandler_ok BO k0 (pb_own _ _ (rr_printable RR)) (rr_keymap RR) Buffer pb k
    (rn_held _ Hr) (rr_codes RR _) Hn W S0 S1 Hd) as (k1 & k2 & E & Ho & _ & _ & H2).
  set (m := key_step _ _ _) in Ho.
  eexists. split; [exact E|]. destruct (running_others (with_kbd m k) k2) as [Hr2 Et2]; [|done|done|].
  - destruct Hr as [Hh E1 E2 E3 E4 E5 E6].
    constructor; rewrite ?kbd_set; try (by destruct k); try by apply held_kbd. by apply key_step_bits.
  - destruct (running_trace k2 (EvOut 0x20 0x20 :: trace k2) Hr2) as [Hr3 Et3].
    split; [done|]. split; [rewrite Et3, Et2; by destruct k|]. eexists. apply trace_with_trace.
Qed.

Lemma running_tick k :
  running k -> exists k', PITHandler k = Ok () k' /\ running k' /\ timer k' = (timer k + 1) mod 16 /\
    exists t, trace k' = EvOut 0x20 0x20 :: t.
Proof using RR.
  intros Hr. destruct (PITHandler_ok fb pa 80 25 G k) as (m & E & Hm); [apply Hr|apply Hr|].
  assert (ram_ok m) as Hok by (intros q; rewrite Hm; by apply running_ram).
  eexists. split; [exact E|]. unfold ticked. destruct Hr as [Hh E1 E2 E3 E4 E5 E6]. split.
  - constructor; try (by destruct k); [|destruct k; apply Z.mod_pos_bound; lia].
    apply (held_trans _ _ k); [done|]. split.
    + apply (fw_frame k); [apply Hh| |by destruct k..]. by destruct k.
    + intros q _ _. rewrite <- Hm. by destruct k.
  - split; [by destruct k|]. eexists. apply trace_with_trace.
Qed.

Lemma running_stop k :
  running k -> exists k', (KiStopError STATUS_ERROR ;; skip) k = Halted 0xC0000000 k'.
Proof using BO RR.
  intros Hr. destruct (KiStopError_ok fb pa G BO STATUS_ERROR k) as (_ & _ & k' & E & _).
  - apply (printable_sub run_messages); [|by apply running_printable].
    intros s Hs. apply in_or_app. right. apply in_or_app. by right.
  - exists k'. by apply bind_halted.
Qed.

(** Every handler returns, in a running state and having acknowledged what it
    acknowledges last of all, or stops the kernel. *)
Lemma handler_ok h k :
  running k -> 
  if stops h then exists k', handler_code Buffer h k = Halted 0xC0000000 k'
  else exists k', handler_code Buffer h k = Ok () k' /\ running k' /\
    timer k' = (timer k + if bool_decide (h = H_PITHandler) then 1 else 0) mod 16 /\
    eois h `prefix_of` trace k'.
Proof using BO RR.
  intros Hr. assert (forall k', timer k' = timer k -> timer k' = (timer k + 0) mod 16) as Hsame.
  { intros k' ->. rewrite Z.add_0_r, Z.mod_small; [done|apply Hr]. }
  destruct h; simpl; unfold DivideByZero, GenericHandler, GenericHandlerPIC2.
  - destruct (running_message k (ln "DIVIDING BY ZERO!!!") Hr) as (k' & E & Hr' & Et); [simpl; tauto|].
    kstep E. exists k'. split_and!; auto. apply prefix_nil.
  - destruct (running_message k (ln "Unhandled Interrupt!") Hr) as (k' & E & Hr' & Et); [simpl; tauto|].
    kstep E. exists k'. split_and!; auto. apply prefix_nil.
  - destruct (running_message k (ln "Unhandled Interrupt! (PIC2) ") Hr) as (k' & E & Hr' & Et); [simpl; tauto|].
    kstep E. unfold x86PICSendEOIPIC2. kstep (outb_ok X86_PIC_2_COMMAND 0x20 k').
    rewrite outb_ok, trace_with_trace, with_trace_twice. eexists. split; [done|].
    destruct (running_trace k' [EvOut 0x20 0x20; EvOut 0xA0 0x20] Hr') as [_ _].
    match goal with |- running (with_trace ?t _) /\ _ => destruct (running_trace k' t Hr') as [Hr2 Et2] end.
    split; [done|]. split; [by apply Hsame; rewrite Et2|]. rewrite trace_with_trace. by eexists.
  - by apply running_stop.
  - by apply running_stop.
  - destruct (running_tick k Hr) as (k' & E & Hr' & Et & t & Htr). exists k'. split_and!; try done.
    rewrite Htr. by exists t.
  - destruct (running_keyboard k Hr) as (k' & E & Hr' & Et & t & Htr). exists k'. split_and!; auto.
    rewrite Htr. by exists t.
Qed.

(** *** The foreground *)

Lemma shell_begin_ok k :
  running k -> exists k', shell_begin k = Ok () k' /\ running k' /\ timer k' = timer k.
Proof using RR.
  intros Hr. destruct (rr_buffer RR) as [Wb Sb]. destruct (rr_char RR) as [Wc Sc].
  destruct (pb_texts _ _ (rr_printable RR) Prompt) as [pp Hp]; [apply in_or_app; right; by left|].
  destruct (send_text_ok k0 k Prompt pp Hp (rn_held _ Hr)) as (k1 & E1 & Q1).
  change (zlen (chars Prompt)) with PromptLen in E1. destruct (running_quiet k k1 Hr Q1) as [Hr1 Et1].
  unfold shell_begin. kstep E1. kstep (KiSetMemoryBytes_ok CmdBuffer 0 1024 pc k1 ltac:(lia) ltac:(lia) Wb).
  change (round4 1024) with 1024. rewrite (store8_ok CurChar pcc 0 _ Wc), ram_with_ram, with_ram_with_ram.
  destruct (running_scratch k1 (<[pcc := u8 0]> (fill (ram k1) pc 1024 0)) (trace k1) Hr1) as [Hr2 Et2].
  - apply ram_ok_u8, ram_ok_fill; [by apply running_ram|]. unfold byte. lia.
  - intros q Hq. rewrite rb_insert, rb_fill by lia. destruct (Z.eqb_spec pcc q) as [->|]; [done|].
    bdestr; simpl; try done. by destruct (Hq (Sb q ltac:(lia))).
  - replace (with_trace (trace k1) k1) with k1 in * by (by destruct k1). eexists. split; [done|].
    split; [done|congruence].
Qed.

Lemma kshell_ok k :
  running k -> kshell_loop CmdBuffer CurChar 0 k = Ok (inr ()) k \/
    exists k', kshell_loop CmdBuffer CurChar 0 k = Ok (inl 0) k' /\ running k' /\ timer k' = timer k.
Proof using RR.
  intros Hr. destruct (rr_buffer RR) as [Wb Sb]. destruct (rr_char RR) as [Wc Sc].
  destruct (Z.eq_dec (rb (ram k) pcc) 10) as [E|E].
  - left. unfold kshell_loop. kstep (load8_ok CurChar pcc k Wc). by rewrite E.
  - right. pose proof (kshell_round CmdBuffer CurChar pc pcc k Wb Wc E) as Er. cbv zeta in Er.
    eexists. split; [exact Er|]. unfold got. apply running_scratch; [done| |].
    + assert (forall t, byte (u8 t)) as Hb by (intros; apply (u_range 8); lia).
      repeat apply ram_ok_insert; try apply Hb. by apply running_ram.
    + intros q Hq. rewrite !rb_insert. destruct (Z.eqb_spec pc q) as [<-|]; [by destruct (Hq (Sb pc ltac:(lia)))|].
      by destruct (Z.eqb_spec pcc q) as [->|].
Qed.

(** *** Every run *)

(** The states of the runs: what the events [es] have come to. *)
Definition reached (es : list event) (s : control * kernel) : Prop :=
  let '(c, k) := s in
  match c with
  | CPrompt | CIdle | CReading 0 => running k /\ timer k = (timer k0 + ticks es) mod 16
  | CReading _ | CCrashed => False
  | CStopped st => st = 0xC0000000 /\ exists es' n, es = es' ++ [EvInterrupt n] /\ (n = 8 \/ n = 14)
  end.

Lemma reached_live es c k :
  reached es (c, k) -> live c = true -> running k /\ timer k = (timer k0 + ticks es) mod 16 /\
    (c = CPrompt \/ c = CReading 0 \/ c = CIdle).
Proof using. destruct c as [|[]| | |]; simpl; try done; intros [? ?] _; auto. Qed.

Lemma reached_run es c k : reached es (c, k) -> live c = true -> reached (es ++ [EvRun]) (settle (resume c k)).
Proof using RR.
  intros H Hl. destruct (reached_live es c k H Hl) as (Hr & Et & Hc).
  assert (ticks (es ++ [EvRun]) = ticks es) as En by (rewrite ticks_app; simpl; lia).
  destruct Hc as [->|[->| ->]]; unfold resume.
  - destruct (shell_begin_ok k Hr) as (k' & E & Hr' & Et'). kstep E. simpl. split; [done|]. by rewrite En, Et'.
  - destruct (kshell_ok k Hr) as [E|(k' & E & Hr' & Et')]; kstep E; simpl; (split; [done|]); by rewrite En, ?Et'.
  - simpl. by rewrite En.
Qed.

Lemma reached_interrupt es c k n :
  reached es (c, k) -> live c = true -> taken n ->
  reached (es ++ [EvInterrupt n]) (settle ((deliver Buffer n ;; mret c) k)).
Proof using BO RR.
  intros H Hl [Hn Hc8]. destruct (reached_live es c k H Hl) as (Hr & Et & Hc).
  pose proof (deliver_ok n k Hr ltac:(lia)) as Ed.
  destruct (vector_handler n) as [h|] eqn:Ev.
  2:{ exfalso. revert Ev. unfold vector_handler. repeat (case_match; try done). lia. }
  pose proof (handler_ok h k Hr) as Hh. destruct (stops h) eqn:Es.
  - destruct Hh as [k' Eh]. rewrite Eh in Ed. rewrite (bind_halted _ _ _ _ _ Ed). simpl. split; [done|].
    exists es, n. split; [done|]. revert Ev Es. unfold vector_handler. repeat (case_match; try (intros [= <-]; done)); lia.
  - destruct Hh as (k' & Eh & Hr' & Et' & _). rewrite Eh in Ed. kstep Ed.
    assert (timer k' = (timer k0 + ticks (es ++ [EvInterrupt n])) mod 16) as Et2.
    { rewrite Et', Et, ticks_app, Zplus_mod_idemp_l, <- Z.add_assoc. do 2 f_equal. simpl. rewrite Z.add_0_r. f_equal.
      revert Ev. unfold vector_handler. destruct (Z.eqb_spec n 0x20) as [->|]; [by intros [= <-]|].
      repeat (case_match; try (intros [= <-]; done)); done. }
    by destruct Hc as [->|[->| ->]].
Qed.

Lemma runs_reached es s : runs Buffer (CPrompt, k0) es s -> reached es s.
Proof using BO RR.
  induction 1 as [|es e s1 s2 _ IH Hs].
  - simpl. split; [apply running_start|]. rewrite Z.add_0_r, Z.mod_small; [done|apply RR].
  - destruct Hs; [by apply reached_run|by apply reached_interrupt].
Qed.

(** What a run cannot change. *)
Record kept (k : kernel) : Prop := mkKept {
  kp_memory : forall q, ~ fw_mem q -> ~ in_buf q -> rb (ram k) q = rb (ram k0) q;
  kp_managers : mms k = mms k0 /\ heap k = heap k0;
  kp_tables : gdtp k = gdtp k0 /\ idtp k = idtp k0 /\ idt_ready (ram k) p;
  kp_console : fw_inv k;
  kp_modifiers : modifiers_ok (kbd k);
}.

Lemma running_kept k : running k -> kept k.
Proof using RR.
  intros Hr. destruct (running_table k Hr) as [Ht _]. destruct Hr as [[Hi Hf] E1 E2 E3 E4 E5 E6].
  constructor; try done. intros q Hq Hb. by apply Hf.
Qed.

Lemma runs_safe es c k :
  runs Buffer (CPrompt, k0) es (c, k) ->
  c <> CCrashed /\
  (forall st, c = CStopped st -> st = 0xC0000000 /\
     exists es' n, es = es' ++ [EvInterrupt n] /\ (n = 8 \/ n = 14)) /\
  (live c = true -> running k /\ timer k = (timer k0 + ticks es) mod 16).
Proof using BO RR.
  intros H. apply runs_reached in H. split; [by destruct c|]. split.
  - by intros st ->.
  - intros Hl. by destruct (reached_live es c k H Hl) as (Hr & Et & _).
Qed.


End Running.

(** ** From the start of the kernel on *)

Section Whole.
Context {AS : AddrSpace} {DV : Device} {LT : Literals} {FB : FormatBuffer} {PA : PrintArea}
  {SR : StopRegisters} {DT : DescriptorTables} {HA : HandlerAddresses} {VR : KernelVersion} {SA : StartupAddresses}.
Variables (fb pa : Z).
Hypothesis G : geometry fb pa 80 25.

#[local] Existing Instance EnvBlock.
#[local] Instance whole_laws : FirmwareLaws FunctionTable := console_laws fb pa 80 25 G.
Hypothesis BO : buffer_ok.

(** The memory manager's structures, the processor's tables and the serial
    driver's local, as in [Bootstrap]; the shell's and the handlers' memory. *)
Variables (mp ap cp bmp hp g p t pi : Z) (Buffer pc pcc pb : Z) (k : kernel).
Hypothesis BR : boot_ready mp ap cp bmp hp g p t pi k.

Definition shell_area (q : Z) : Prop := pc <= q < pc + 1024 \/ q = pcc \/ pb <= q < pb + 2.
Definition run_area : PrintArea := mkPrintArea bp shell_area.

(** What the shell and the handlers need, besides what the start does. *)
Record shell_ready : Prop := mkShellReady {
  sr_printable : printable (PA := boot_area mp ap cp bmp hp k) run_messages k;
  sr_keymap : keymap_ok (PA := boot_area mp ap cp bmp hp k) k;
  sr_buffer : window CmdBuffer pc 1024;
  sr_char : window CurChar pcc 1;
  sr_local : Buffer <> NULL /\ window Buffer pb 2 /\ (pb + 2 <= bp \/ bp + 22 <= pb);
  sr_own : forall q, shell_area q -> scratch q /\ ~ processor_area g p t q;
  sr_handlers : forall h h', u64 (handler_address h) = u64 (handler_address h') -> h = h';
  sr_timer : 0 <= timer k < 16;
  sr_modifiers : modifiers_ok (kbd k);
  sr_codes : forall t, u8 (dev_in8 t 0x60) mod 128 < 84;
}.
Hypothesis SHR : shell_ready.

Lemma run_buffer_ok : buffer_ok (PA := run_area).
Proof using BO SHR.
  destruct BO as [H1 H2 H3]. constructor; [done|done|]. intros q [Hq|Hq]; apply H3; [by left|right].
  by apply (sr_own SHR).
Qed.

(** Out of the shell's reach, what is out of everybody's. *)
Lemma run_less a q0 s k1 :
  clear_text (PA := boot_area mp ap cp bmp hp k) k1 a q0 s -> clear_text (PA := run_area) k1 a q0 s.
Proof using SHR.
  apply (clear_less (PA := run_area) (fun q => scratch q \/ managed mp ap cp bmp hp k q)).
  intros q Hq. left. by apply (sr_own SHR).
Qed.

Lemma shell_starts k' :
  processor_up g p t k' -> held (PA := boot_area mp ap cp bmp hp k) true k k' -> kbd k' = kbd k ->
  timer k' = timer k -> run_ready (PA := run_area) fb pa G Buffer p pc pcc pb k'.
Proof using BO BR SHR.
  intros (_ & _ & Hi & Ei & _) Hh Ek Et. destruct SHR as [Hp Hk Hb Hc (L1 & L2 & L3) Ho Hha Htm Hmo Hco].
  constructor; rewrite ?Ek, ?Et; try done.
  - apply (printable_less (PA := run_area) (fun q => scratch q \/ managed mp ap cp bmp hp k q)).
    + intros q Hq. left. by apply Ho.
    + exact (printable_held (PA := boot_area mp ap cp bmp hp k) _ k k' Hp Hh).
  - intros s Hs. destruct (Hk s Hs) as (q0 & [Ht Hcl] & W). exists q0. split; [|done]. apply run_less. split; [|done].
    by apply (text_at_held (PA := boot_area mp ap cp bmp hp k) true k).
  - split; [done|]. intros q Hq. left. lia.
  - split; [done|]. right. by left.
  - split_and!; try done; right; right; lia.
  - destruct (br_processor _ _ _ _ _ _ _ _ _ _ BR) as [_ Wp _ _ Hs _ (_ & B2 & _)].
    split; [done|]. split; [done|]. split; [done|]. intros q Hq. split.
    + apply (bo_safe BO q). right. apply Hs. tauto.
    + intros [Hb'|Hb']; [change (bp <= q < bp + 22) in Hb'; unfold apart in B2; lia|].
      apply (Ho q Hb'). unfold processor_area. tauto.
Qed.

Lemma shell_keeps k' k2 :
  memory_up mp ap bmp hp k k' -> processor_up g p t k' ->
  running (PA := run_area) fb pa G k' k2 -> memory_up mp ap bmp hp k k2 /\ processor_up g p t k2.
Proof using BO BR SHR.
  intros Hm Hu [[Hi Hf] E1 E2 E3 E4 _ _]. split.
  - apply (memory_up_frame mp ap cp bmp hp g p t pi k BR k'); [done..|by apply (fw_ram k2)|].
    intros q Hq. destruct (br_apart _ _ _ _ _ _ _ _ _ _ BR q Hq) as [H1 H2]. apply Hf; [exact H1|].
    intros _ [Hb|Hb]; apply H2; [by left|right; by apply (sr_own SHR)].
  - apply (processor_up_frame g p t k'); [done..|]. intros q Hq.
    destruct (processor_apart BO mp ap cp bmp hp g p t pi k BR q Hq) as [H1 H2]. apply Hf; [exact H1|].
    intros _ [Hb|Hb]; [by apply H2|by apply (sr_own SHR q Hb)].
Qed.

Lemma KiSystemStartup_runs :
  exists k', KiSystemStartup k =
      (SerialDoKShellPrompt CmdBuffer CurChar ;; cloop (fun _ : () => mret (inl ())) ()) k' /\
    forall es c k2, runs Buffer (CPrompt, k') es (c, k2) ->
      c <> CCrashed /\
      (forall st, c = CStopped st -> st = 0xC0000000 /\
         exists es' n, es = es' ++ [EvInterrupt n] /\ (n = 8 \/ n = 14)) /\
      (live c = true -> memory_up mp ap bmp hp k k2 /\ processor_up g p t k2 /\ fw_inv k2 /\
         timer k2 = (timer k + ticks es) mod 16).
Proof using BO BR SHR.
  destruct (KiSystemStartup_ok BO mp ap cp bmp hp g p t pi k BR) as (k' & E & Hm & Hu & Hh & Ek & Et).
  exists k'. split; [exact E|]. intros es c k2 H.
  destruct (runs_safe (PA := run_area) fb pa G run_buffer_ok Buffer p pc pcc pb k'
    (shell_starts k' Hu Hh Ek Et) es c k2 H) as (Hc & Hs & Hr).
  split; [done|]. split; [done|]. intros Hl. destruct (Hr Hl) as [Hk Htm].
  destruct (shell_keeps k' k2 Hm Hu Hk) as [Hm2 Hu2]. split; [done|]. split; [done|].
  split; [apply (rn_held _ _ _ _ _ Hk)|]. by rewrite Htm, Et.
Qed.

(** the kernel runs.  From a machine as the boot code hands it over,
    [KiSystemStartup] reaches the debug shell, and from there on, whatever
    the devices answer and whatever interrupts come in whatever order, the
    kernel goes on, with the memory manager, the heap and the processor's
    tables as the start built them, until a double fault or a page fault stops
    it: no other end is possible. *)
Theorem KiSystemStartup_keeps_running :
  exists k', KiSystemStartup k =
      (SerialDoKShellPrompt CmdBuffer CurChar ;; cloop (fun _ : () => mret (inl ())) ()) k' /\
    forall es c k2, runs Buffer (CPrompt, k') es (c, k2) ->
      c <> CCrashed /\
      (forall st, c = CStopped st -> st = 0xC0000000 /\
         exists es' n, es = es' ++ [EvInterrupt n] /\ (n = 8 \/ n = 14)) /\
      (live c = true -> memory_up mp ap bmp hp k k2 /\ processor_up g p t k2 /\ fw_inv k2 /\
         timer k2 = (timer k + ticks es) mod 16).
Proof using BO BR SHR. exact KiSystemStartup_runs. Qed.
End Whole.

(** ** A sample machine: that of [Bootstrap], a keyboard with one key, and the
    locals of the shell and of the handlers from 0xB000 to 0xC400 *)

Definition one_key : Device := fun _ port => if port =? 0x60 then 30 else 33.

Definition sample_boot_area : PrintArea :=
  boot_area (PA := sample_area) 0x200000 0x180000 0x180100 0x229098 0x229898 boot_kernel.

Lemma boot_kernel_statics : kbd boot_kernel = mkKeyboard 0 0 0 0 /\ timer boot_kernel = 0.
Proof. by vm_compute. Qed.

Lemma sample_handlers_distinct h h' :
  u64 (@handler_address sample_handlers h) = u64 (@handler_address sample_handlers h') -> h = h'.
Proof. by destruct h, h'. Qed.

Lemma boot_clear s :
  In s (own_literals ++ boot_literals) -> exists q,
    clear_text (AS := boot_space) (FL := sample_laws) (PA := sample_boot_area) boot_kernel (boot_lit s) q (chars s).
Proof. intros Hs. eexists. by apply boot_text, boot_literals_there. Qed.

Lemma sample_shell_ready :
  shell_ready (AS := boot_space) (DV := one_key) (LT := boot_lit) (PA := sample_area)
    (HA := sample_handlers) (SA := boot_addresses) (KERN_PHYS_TO_VIRT text_base) text_base text_geometry
    0x200000 0x180000 0x180100 0x229098 0x229898 0x7000 0x8000 0x9000 0xB200 0xC000 0xB100 0xB200 boot_kernel.
Proof.
  destruct boot_kernel_statics as [Ek Et]. constructor; rewrite ?Ek, ?Et.
  - constructor; [apply boot_printable|constructor; apply boot_clear; simpl; tauto|].
    intros s Hs. apply boot_clear. unfold boot_literals, run_messages in *. rewrite !in_app_iff in *. tauto.
  - intros s Hs. assert (In s (own_literals ++ boot_literals)) as Hin
      by (unfold boot_literals; rewrite !in_app_iff; tauto).
    exists (boot_lit s). split; [by apply boot_text, boot_literals_there|].
    apply (window_le _ _ 200); [apply sample_window, boot_literals_there, Hin|lia].
  - apply boot_window_low; vm_compute; congruence.
  - apply boot_window_low; vm_compute; congruence.
  - split; [done|]. split; [apply boot_window_low; lia|]. right. change (0x6000 + 22 <= 0xB200). lia.
  - intros q Hq. unfold shell_area in Hq. split; [change (0x7000 <= q < 0xF000); lia|]. unfold processor_area. lia.
  - apply sample_handlers_distinct.
  - lia.
  - split; by left.
  - intros t. vm_compute. done.
Qed.

#[local] Existing Instance FirmwareFuncs.
#[local] Existing Instance boot_space.
#[local] Existing Instance one_key.
#[local] Existing Instance boot_lit.
#[local] Existing Instance sample_buffer.
#[local] Existing Instance sample_area.
#[local] Existing Instance sample_registers.
#[local] Existing Instance processor_tables.
#[local] Existing Instance sample_handlers.
#[local] Existing Instance boot_version.
#[local] Existing Instance boot_addresses.

Definition sample_fb : Z := KERN_PHYS_TO_VIRT text_base.

(** The sample machine when the shell starts. *)
Lemma sample_run_ready :
  exists k', run_ready (PA := run_area 0xC000 0xB100 0xB200) sample_fb text_base text_geometry 0xB200 0x8000 0xC000
    0xB100 0xB200 k' /\ timer k' = 0.
Proof.
  destruct (KiSystemStartup_ok (EB := EnvBlock) (FL := sample_laws) sample_buffer_ok _ _ _ _ _ _ _ _ _ _
    sample_boot_ready) as (k' & _ & _ & Hu & Hh & Ek & Et).
  exists k'. split; [|by rewrite Et; apply boot_kernel_statics].
  exact (shell_starts _ _ text_geometry sample_buffer_ok _ _ _ _ _ _ _ _ _ _ _ _ _ _ sample_boot_ready
    sample_shell_ready k' Hu Hh Ek Et).
Qed.

Lemma KiSystemStartup_keeps_running_witness :
  exists k', KiSystemStartup (EB := EnvBlock) boot_kernel =
      (SerialDoKShellPrompt 0xC000 0xB100 ;; cloop (fun _ : () => mret (inl ())) ()) k' /\
    forall es c k2, runs 0xB200 (CPrompt, k') es (c, k2) -> live c = true -> timer k2 = ticks es mod 16.
Proof.
  destruct (KiSystemStartup_keeps_running _ _ text_geometry sample_buffer_ok _ _ _ _ _ _ _ _ _ _ _ _ _ _
    sample_boot_ready sample_shell_ready) as (k' & E & H).
  exists k'. split; [exact E|]. intros es c k2 Hr Hl. destruct (H es c k2 Hr) as (_ & _ & Ha).
  destruct (Ha Hl) as (_ & _ & _ & Ht). by rewrite Ht, (proj2 boot_kernel_statics).
Defined.


