(* ===== verification/Entry.v ===== *)
(** * From the boot loader to the shell ([kern/entry/mb2entry.c])

    [kern_init] put together: the walk over the loader's tags, the console it
    sets up and prints on, and [KiSystemStartup] on what the two leave, down to
    the running kernel of [Dispatch]. *)

From S2P Require Import Prelude Machine Status MemFuncs BinFuncs Strings Vga Heap Pmm Paging Print Serial Stop Descriptors Interrupts Keyboard Startup Multiboot Bootstrap Dispatch.

(** The literals [kern_init] prints. *)
Definition entry_messages : list string :=
  ["Unknown"; "Starting initial kernel setup..."; "VGA resolution is : "; "x"; "Found bootloader: ";
   "Found command line: "; cpu_vendor_msg; "Unsupported CPU"; ""]%string.

(** ** The cursor stays off

    Until [VgaSetCursorEnabled], the driver's cursor is off, and [VgaAutoPrint],
    which would draw it wherever the text ends, draws nothing. *)

Definition cursor (k : kernel) : Z := CursorEnabled (vga k).

Definition still {A} (m : K A) : Prop := forall k a k', m k = Ok a k' -> cursor k' = cursor k.

Create HintDb still discriminated.

Section Monad.
Context {A B : Type}.

Lemma still_ret (a : A) : still (mret a).
Proof. intros k a' k' E. by injection E as _ <-. Qed.

Lemma still_bind (m : K A) (f : A -> K B) : still m -> (forall a, still (f a)) -> still (m ≫= f).
Proof.
  intros Hm Hf k b k' E. apply bind_ok_inv in E as (a & k1 & E1 & E2).
  rewrite (Hf _ _ _ _ E2). by apply (Hm k a).
Qed.
End Monad.

Lemma still_when b m : still m -> still (when b m).
Proof. destruct b; [done|]. intros _. apply still_ret. Qed.

Lemma still_rounds {S R} (body : S -> K (S + R)) : (forall s, still (body s)) -> forall n s, still (rounds n body s).
Proof.
  intros Hb n. induction n as [|n IH]; intros s; cbn [rounds]; [apply still_ret|].
  apply still_bind; [apply Hb|]. intros [s'|r]; [apply IH|apply still_ret].
Qed.

Lemma still_cloop {S R} (body : S -> K (S + R)) s : (forall s, still (body s)) -> still (cloop body s).
Proof.
  intros Hb k r k' E. apply cloop_ok_inv in E. by apply (still_rounds body Hb) in E.
Qed.

Lemma still_for_lt w hi step body lo : (forall i, still (body i)) -> still (for_lt w hi step body lo).
Proof.
  intros Hb. apply still_cloop. intros i. destruct (i <? hi); [|apply still_ret].
  apply still_bind; [apply Hb|]. intros _. apply still_ret.
Qed.

Lemma still_ctx : still ctx.
Proof. intros k a k' E. unfold ctx in E. destruct (vga_on k); [|done]. by injection E as _ <-. Qed.

Lemma still_upd_ctx f : (forall v, CursorEnabled (f v) = CursorEnabled v) -> still (upd_ctx f).
Proof.
  intros Hf k [] k' E. unfold upd_ctx in E. destruct (vga_on k); [|done]. injection E as <-.
  unfold cursor. rewrite <- (Hf (vga k)). by destruct k.
Qed.

Lemma still_emit e : still (emit e).
Proof. intros k [] k' E. injection E as <-. by destruct k. Qed.

Lemma still_load8 `{AS : AddrSpace} a : still (load8 a).
Proof. intros k b k' E. unfold load8 in E. destruct (xlate _); [|done]. by injection E as _ <-. Qed.

Lemma still_store8 `{AS : AddrSpace} a v : still (store8 a v).
Proof. intros k [] k' E. unfold store8 in E. destruct (xlate _); [|done]. injection E as <-. by destruct k. Qed.

Lemma still_spin {A} : still (spin : K A).
Proof. intros k a k' E. discriminate E. Qed.

#[export] Hint Resolve still_ret still_spin still_ctx still_emit still_load8 still_store8 : still.

(** Follow the program, as [typing] does. *)
Ltac still_step :=
  lazymatch goal with
  | |- forall _, _ => intros ?
  | |- still (let _ := _ in _) => cbv zeta
  | |- still (mbind _ _) => apply still_bind; [|intros ?]
  | |- still (when _ _) => apply still_when
  | |- still (cloop _ _) => apply still_cloop; intros ?
  | |- still (for_lt _ _ _ _ _) => apply still_for_lt; intros ?
  | |- still (match ?x with _ => _ end) => destruct x
  | |- still (upd_ctx _) => apply still_upd_ctx; solve [intros []; reflexivity]
  end.
Ltac still_open :=
  lazymatch goal with
  | |- still ?m => let rec head t := lazymatch t with ?f _ => head f | _ => t end in
      let h := head m in progress (unfold h)
  end.
Ltac still := repeat (cbv beta zeta; first [still_step | solve [auto 2 with still nocore] | still_open]).

Section Still.
Context {AS : AddrSpace} {LT : Literals}.

Lemma still_VgaMoveCursor_with entry x y :
  (forall a b c d e, still (entry a b c d e)) -> still (VgaMoveCursor_with entry x y).
Proof. intros He. unfold VgaMoveCursor_with. still. Qed.

Lemma still_KiCopyMemory d s n : still (KiCopyMemory d s n).
Proof. still. Qed.

Lemma still_KiSetMemoryBytes d v n : still (KiSetMemoryBytes d v n).
Proof. still. Qed.

Lemma still_internalVgaPushUp_with entry :
  (forall a b c d e, still (entry a b c d e)) -> still (internalVgaPushUp_with entry).
Proof.
  intros He. unfold internalVgaPushUp_with.
  repeat first [apply still_KiCopyMemory | apply still_KiSetMemoryBytes | by apply still_VgaMoveCursor_with
    | apply still_ctx | apply still_bind; [|intros]].
Qed.

Lemma still_VgaEntry_at d fg bg c x y : still (VgaEntry_at d fg bg c x y).
Proof.
  revert fg bg c x y. induction d as [|d IH]; intros fg bg c x y; cbn [VgaEntry_at]; fold VgaEntry_at.
  - still.
  - apply still_bind; [apply still_ctx|]. intros v. apply still_bind; [|intros _; still].
    destruct (_ <=? _); [by apply still_internalVgaPushUp_with|apply still_ret].
Qed.
#[local] Hint Resolve still_VgaEntry_at : still.

Lemma still_VgaMoveCursor x y : still (VgaMoveCursor x y).
Proof. apply still_VgaMoveCursor_with. intros. apply still_VgaEntry_at. Qed.

Lemma still_internalVgaPushUp : still internalVgaPushUp.
Proof. apply still_internalVgaPushUp_with. intros. apply still_VgaEntry_at. Qed.
#[local] Hint Resolve still_VgaMoveCursor still_internalVgaPushUp : still.

Lemma still_VgaAutoEntry fg bg c : still (VgaAutoEntry fg bg c).
Proof. still. Qed.

Lemma still_VgaStringEntry fg bg s l x y : still (VgaStringEntry fg bg s l x y).
Proof. still. Qed.
#[local] Hint Resolve still_VgaStringEntry : still.

Lemma still_VgaPrintln fg bg s l : still (VgaPrintln fg bg s l).
Proof. still. Qed.

Lemma still_KiBlankVgaScreen h w c : still (KiBlankVgaScreen h w c).
Proof. still. Qed.
End Still.

(** ** Printing on the new console *)

Section Console.
Context {AS : AddrSpace} {LT : Literals}.
Variables (fb pa W H : Z).
Hypothesis G : geometry fb pa W H.

#[local] Existing Instance FirmwareFuncs.
#[local] Instance entry_laws : FirmwareLaws FirmwareFuncs := console_laws fb pa W H G.

(** [k] follows from [k0] by what [kern_init] does after the walk: the console
    has moved on, with its cursor off, and memory has changed on the screen
    and in [L] only. *)
Record entered (L : Z -> Prop) (k0 k : kernel) : Prop := mkEntered {
  et_on : vga_on k = true;
  et_ctx : context_ok fb W H (vga k);
  et_cursor : cursor k = 0;
  et_ram : ram_ok (ram k);
  et_others : others k = others k0;
  et_frame : forall q, ~ fw_mem q -> ~ L q -> rb (ram k) q = rb (ram k0) q;
}.

Lemma entered_trans (L : Z -> Prop) k0 k1 k2 : entered L k0 k1 -> entered L k1 k2 -> entered L k0 k2.
Proof.
  intros [_ _ _ _ O1 F1] [H1 H2 H3 H4 O2 F2]. constructor; try done; [congruence|].
  intros q Hq HL. by rewrite F2, F1.
Qed.

Lemma entered_more (L L' : Z -> Prop) k0 k : (forall q, L q -> L' q) -> entered L k0 k -> entered L' k0 k.
Proof. intros HL [H1 H2 H3 H4 H5 H6]. constructor; auto. Qed.

Definition nowhere (q : Z) : Prop := False.

(** An operation of the driver that leaves the cursor alone. *)
Lemma entered_run {A} (m : K A) (P Q : VgaContext -> Prop) k0 k :
  (forall k1, triple (con fb pa W H k1 P) m (fun _ => con fb pa W H k1 Q)) -> still m -> P (vga k) ->
  entered nowhere k0 k -> exists a k', m k = Ok a k' /\ entered nowhere k0 k' /\ Q (vga k').
Proof using G.
  intros Hm Hs HP [H1 H2 H3 H4 H5 H6].
  assert (console fb pa W H k k) as Hc by (constructor; try done; by destruct k).
  destruct (Hm k k (conj Hc HP)) as (a & k' & E & [Es Hon Hx Hr Hf] & HQ).
  exists a, k'. split; [done|]. split; [|done]. constructor; try done.
  - by rewrite (Hs _ _ _ E).
  - rewrite Es, <- H5. by destruct k.
  - intros q Hq HL. rewrite Hf; [by apply H6|]. change (~ (pa <= q < pa + 2 * W * H)) in Hq. lia.
Qed.

(** The texts that are there. *)
Definition text (k : kernel) (a : Z) : Prop := exists p s, text_at (ram k) a p s.

Lemma text_entered k0 k a : text k0 a -> entered nowhere k0 k -> text k a.
Proof.
  intros (p & s & [H1 H2 [H3 H3'] H4 H5]) Hk. exists p, s. constructor; try done. split; [|done].
  rewrite <- H3. apply read_bytes_ext. intros q Hq. apply (et_frame _ _ _ Hk); [apply H5; unfold zlen; lia|by intros []].
Qed.

Lemma small_col v : context_ok fb W H v -> small_pos (CurrentCol v) (CurrentRow v).
Proof. intros [_ _ _ _ Hr Hc]. by split. Qed.

Lemma entered_ctx L k0 k : entered L k0 k -> ctx k = Ok (vga k) k.
Proof. intros Hk. unfold ctx. by rewrite (et_on _ _ _ Hk). Qed.

(** Any text, anywhere on the screen or below it. *)
Lemma AutoPrint_ok fg bg a k0 k : text k0 a -> entered nowhere k0 k ->
  exists k', VgaAutoPrint fg bg a k = Ok () k' /\ entered nowhere k0 k'.
Proof using G.
  intros Ht Hk. destruct (text_entered _ _ _ Ht Hk) as (p & s & Hs). pose proof (zlen_nonneg s).
  pose proof (tx_short _ _ _ _ Hs) as Hn. unfold VgaAutoPrint. kstep (length_ok a p s k Hs).
  rewrite u_small by lia. kstep (entered_ctx _ _ _ Hk).
  destruct (entered_run (VgaStringEntry fg bg a (zlen s) (CurrentCol (vga k)) (CurrentRow (vga k))) anywhere anywhere k0 k)
    as ([] & k1 & E1 & H1 & _); [|apply still_VgaStringEntry|done|done|].
  { intros k1. apply (tr_StringEntry _ _ _ _ G _ _ _ _ _ p); [apply (tx_window _ _ _ _ Hs)|lia|].
    apply small_col, (et_ctx _ _ _ Hk). }
  kstep E1. destruct (entered_run (upd_ctx (fun c => set_col (u16 (CurrentCol c + 1)) c)) anywhere anywhere k0 k1)
    as ([] & k2 & E2 & H2 & _); [|apply still_upd_ctx; by intros []|done|done|].
  { intros k2. apply tr_upd. intros v Hv _. split; [apply ok_set_col; [done|apply u16_range]|done]. }
  kstep E2. kstep (entered_ctx _ _ _ H2). exists k2. split; [|done].
  unfold VgaMoveCursor, VgaMoveCursor_with. kstep (entered_ctx _ _ _ H2).
  pose proof (et_cursor _ _ _ H2) as Ec. unfold cursor in Ec. by rewrite Ec.
Qed.

Lemma AutoPrintln_ok fg bg a k0 k : text k0 a -> entered nowhere k0 k ->
  exists k', VgaAutoPrintln fg bg a k = Ok () k' /\ entered nowhere k0 k' /\ near W H (vga k').
Proof using G.
  intros Ht Hk. destruct (text_entered _ _ _ Ht Hk) as (p & s & Hs). pose proof (zlen_nonneg s).
  pose proof (tx_short _ _ _ _ Hs) as Hn. unfold VgaAutoPrintln. kstep (length_ok a p s k Hs).
  rewrite u_small by lia.
  destruct (entered_run (VgaPrintln fg bg a (zlen s)) anywhere (visible W H) k0 k) as ([] & k1 & E1 & H1 & V1);
    [|apply still_VgaPrintln|done|done|].
  { intros k1. apply (tr_Println _ _ _ _ G _ _ _ _ _ p); [apply (tx_window _ _ _ _ Hs)|lia]. }
  exists k1. split; [done|]. split; [done|]. by apply visible_near.
Qed.

(** The four characters of a register. *)
Lemma PrintRegister_ok reg k0 k : entered nowhere k0 k ->
  exists k', InternalPrintRegister reg k = Ok () k' /\ entered nowhere k0 k'.
Proof using G.
  intros Hk. unfold InternalPrintRegister.
  destruct (for_lt_total 31 4 1 (fun i =>
    VgaAutoEntry (color_val VGA_GREEN) (color_val VGA_BLACK) (u8 (Z.shiftr reg (i * 8))))
    (fun _ => entered nowhere k0) 0 k) as (c & k' & E & H' & _); try lia; try done.
  - intros i k1 _ H1. destruct (entered_run (VgaAutoEntry (color_val VGA_GREEN) (color_val VGA_BLACK)
      (u8 (Z.shiftr reg (i * 8)))) anywhere (near W H) k0 k1) as ([] & k2 & E2 & H2 & _);
      [|apply still_VgaAutoEntry|done|done|by exists k2].
    intros k2. by apply tr_AutoEntry.
  - exists k'. split; [by kstep E|done].
Qed.

Lemma PrintCpuVendor_ok a b c k0 k :
  text k0 (lit cpu_vendor_msg) -> text k0 (lit "") -> entered nowhere k0 k ->
  exists k', InternalPrintCpuVendor a b c k = Ok () k' /\ entered nowhere k0 k'.
Proof using G.
  intros T1 T2 Hk. unfold InternalPrintCpuVendor.
  destruct (AutoPrint_ok (color_val VGA_GREEN) (color_val VGA_BLACK) _ k0 k T1 Hk) as (k1 & E1 & H1). kstep E1.
  destruct (PrintRegister_ok a k0 k1 H1) as (k2 & E2 & H2). kstep E2.
  destruct (PrintRegister_ok b k0 k2 H2) as (k3 & E3 & H3). kstep E3.
  destruct (PrintRegister_ok c k0 k3 H3) as (k4 & E4 & H4). kstep E4.
  destruct (AutoPrintln_ok (color_val VGA_WHITE) (color_val VGA_BLACK) _ k0 k4 T2 H4) as (k5 & E5 & H5 & _). by exists k5.
Qed.

(** *** The locals and the stages of [kern_init] *)

Context {DV : Device} {KI : KernelImage} {EL : EntryLocals} {CI : CpuId}.

Lemma print_brand_ok b c d k0 k : entered nowhere k0 k ->
  exists k', print_brand b c d k = Ok () k' /\ entered nowhere k0 k'.
Proof using G.
  intros Hk. unfold print_brand. match goal with |- context [cloop ?x _] => set (body := x) end.
  destruct (cloop_total (fun '(i, _, _, _) k1 => 0 <= i <= 3 /\ entered nowhere k0 k1)
    (fun _ k1 => entered nowhere k0 k1) (fun '(i, _, _, _) => 3 - i) body) with (s := (0, b, c, d)) (k := k)
    as ([] & k' & E & H'); [|by split|unfold FUEL; lia|by exists k'].
  intros [[[i x] y] z] k1 [Hi H1]. unfold body. destruct (Z.ltb_spec i 3); [|by exists (inr ()), k1].
  destruct (cpuid_brand_name _) as [[[p1 p2] p3] p4].
  destruct (PrintRegister_ok p1 k0 k1 H1) as (k2 & E2 & H2). kstep E2.
  destruct (PrintRegister_ok p2 k0 k2 H2) as (k3 & E3 & H3). kstep E3.
  destruct (PrintRegister_ok p3 k0 k3 H3) as (k4 & E4 & H4). kstep E4.
  destruct (PrintRegister_ok p4 k0 k4 H4) as (k5 & E5 & H5). kstep E5.
  rewrite u_small by lia. eexists _, k5. split; [reflexivity|]. cbv beta iota. split; [split; [lia|done]|lia].
Qed.

(** Where the two numbers of the banner are written. *)
Variables (b1 b2 : Z).

Definition entry_local (q : Z) : Prop := b1 <= q < b1 + 21 \/ b2 <= q < b2 + 21.

Record locals_ok : Prop := mkLocalsOk {
  lc_begin : BufBeginAddr <> NULL /\ window BufBeginAddr b1 21;
  lc_end : BufEndAddr <> NULL /\ window BufEndAddr b2 21;
  lc_apart : b1 + 21 <= b2 \/ b2 + 21 <= b1;
  lc_safe : forall q, entry_local q -> ~ fw_mem q;
}.

Lemma number_text v buf p k :
  0 <= v < 2 ^ 64 -> buf <> NULL -> window buf p 21 -> (forall q, p <= q < p + 21 -> ~ fw_mem q) -> vga_on k = true ->
  context_ok fb W H (vga k) -> cursor k = 0 -> ram_ok (ram k) ->
  exists k', KiItoa v buf k = Ok STATUS_SUCCESS k' /\ entered (fun q => p <= q < p + 21) k k' /\
    exists s, text_at (ram k') buf p s /\ zlen s <= 20.
Proof using.
  intros Hv Hn Wb Hs H1 H2 H3 H4. unfold KiItoa, internalItoa. rewrite u_small by lia.
  destruct (itoa_base_ok v buf 10 p 21 k) as (s & E & (Hs1 & Hd & Hl) & Hn1); [lia..|done|done|].
  kstep E. eexists. split; [done|]. pose proof (zlen_nonneg s). assert (zlen (s ++ [0]) = zlen s + 1) as Ez by (by rewrite zlen_app).
  split.
  - constructor; try (by destruct k).
    + rewrite ram_with_ram. apply ram_ok_write; [done|]. apply Forall_app. split; [by apply digit_chars_byte|by repeat constructor].
    + intros q _ Hq. rewrite ram_with_ram. apply rb_write_other. lia.
  - exists s. split; [|lia]. rewrite ram_with_ram. constructor; [done|apply (window_le _ _ 21); [done|lia]| |lia|].
    + split.
      * assert ((length s + 1)%nat = length (s ++ [0])) as -> by (rewrite length_app; simpl; lia). apply read_write_same.
      * eapply Forall_impl; [exact Hd|]. simpl. intros. lia.
    + intros q Hq. apply Hs. lia.
Qed.

(** A text the locals are not in. *)
Definition clear_of_locals (k : kernel) (a : Z) : Prop :=
  exists p s, text_at (ram k) a p s /\ forall q, p <= q <= p + zlen s -> ~ entry_local q.

Lemma clear_there k a : clear_of_locals k a -> text k a.
Proof using. intros (p & s & Ht & _). by exists p, s. Qed.

Lemma clear_entered k0 k a : clear_of_locals k0 a -> entered entry_local k0 k -> text k a.
Proof using.
  intros (p & s & [H1 H2 [H3 H3'] H4 H5] & Hl) Hk. exists p, s. constructor; try done. split; [|done].
  rewrite <- H3. apply read_bytes_ext. intros q Hq. apply (et_frame _ _ _ Hk); [apply H5|apply Hl]; unfold zlen; lia.
Qed.

Lemma Prepare_ok a bpp w h t k :
  ram_ok (ram k) -> cursor k = 0 -> KERN_PHYS_TO_VIRT a = fb -> w = W -> h = H -> W < 2 ^ 16 -> H < 2 ^ 16 ->
  exists r k', VgaPrepareEnvironment a bpp w h t k = Ok r k' /\ entered nowhere k k'.
Proof using.
  intros Hm Hc Ef -> -> HW HH. destruct G. unfold VgaPrepareEnvironment.
  destruct k as [m tr v on ms he kb ti gp ip bo mx mc]. unfold cursor in Hc. simpl in Hm, Hc.
  eexists _, _. split; [reflexivity|]. rewrite Ef. constructor; try done. simpl. rewrite !u_small by lia.
  constructor; simpl; done || lia.
Qed.

Lemma text_number L k buf p s k' : text_at (ram k) buf p s -> zlen s <= 20 -> entered L k k' ->
  (forall q, p <= q < p + 21 -> ~ L q) -> text k' buf.
Proof using.
  intros [H1 H2 [H3 H3'] H4 H5] Hl Hk HL. exists p, s. constructor; try done. split; [|done].
  rewrite <- H3. apply read_bytes_ext. intros q Hq. unfold zlen in *. apply (et_frame _ _ _ Hk); [apply H5|apply HL]; lia.
Qed.

Lemma entered_refl k : vga_on k = true -> context_ok fb W H (vga k) -> cursor k = 0 -> ram_ok (ram k) -> entered nowhere k k.
Proof using. by constructor. Qed.

(** The console, and the numbers of its size. *)
Lemma entry_console d k {A} (f : K A) :
  locals_ok -> ram_ok (ram k) -> cursor k = 0 -> KERN_PHYS_TO_VIRT (disp_Framebuffer d) = fb ->
  disp_Width d = W -> disp_Height d = H -> W < 2 ^ 16 -> H < 2 ^ 16 ->
  text k (lit "Starting initial kernel setup...") ->
  exists k', (VgaPrepareEnvironment (disp_Framebuffer d) (disp_BPP d) (disp_Width d) (disp_Height d) (disp_TextOnly d) ;;
    KiBlankVgaScreen (disp_Height d) (disp_Width d) (color_val VGA_BLACK) ;;
    VgaAutoPrintln (color_val VGA_WHITE) (color_val VGA_BLACK) (lit "Starting initial kernel setup...") ;;
    KiItoa (disp_Width d) BufBeginAddr ;; KiItoa (disp_Height d) BufEndAddr ;; f) k = f k' /\
    entered entry_local k k' /\ text k' BufBeginAddr /\ text k' BufEndAddr.
Proof using G.
  intros [[N1 B1] [N2 B2] Ha Hs] Hm Hc Ef Ew Eh HW HH Ht. destruct (id G) as [_ [HW0 _] HH0 _ _].
  destruct (Prepare_ok _ (disp_BPP d) _ _ (disp_TextOnly d) k Hm Hc Ef Ew Eh HW HH) as (r & k1 & E1 & H1). kstep E1.
  rewrite Ew, Eh in *. destruct (entered_run (KiBlankVgaScreen H W (color_val VGA_BLACK)) anywhere (visible W H) k k1)
    as ([] & k2 & E2 & H2 & _); [intros ?; by apply tr_Blank|apply still_KiBlankVgaScreen|done|done|]. kstep E2.
  destruct (AutoPrintln_ok (color_val VGA_WHITE) (color_val VGA_BLACK) _ k k2 Ht H2) as (k3 & E3 & H3 & _). kstep E3.
  destruct (number_text W BufBeginAddr b1 k3) as (k4 & E4 & H4 & s4 & T4 & L4); try done; try apply H3; [lia| |].
  { intros q Hq. apply Hs. by left. }
  kstep E4. destruct (number_text H BufEndAddr b2 k4) as (k5 & E5 & H5 & s5 & T5 & L5); try done; try apply H4; [lia| |].
  { intros q Hq. apply Hs. by right. }
  kstep E5. exists k5. split; [done|]. split; [|split; [|by exists b2, s5]].
  - apply (entered_trans _ _ k4); [apply (entered_trans _ _ k3)|].
    + by apply (entered_more nowhere); [intros q []|].
    + apply (entered_more (fun q => b1 <= q < b1 + 21)); [intros q ?; by left|done].
    + apply (entered_more (fun q => b2 <= q < b2 + 21)); [intros q ?; by right|done].
  - apply (text_number (fun q => b2 <= q < b2 + 21) k4 _ b1 s4 k5 T4 L4 H5). intros q Hq. cbv beta. lia.
Qed.

(** The lines of the greeting. *)
Lemma entry_greeting name cmd k0 {A} (f : K A) :
  entered nowhere k0 k0 -> text k0 BufBeginAddr -> text k0 BufEndAddr -> text k0 name -> text k0 cmd ->
  (forall s, In s entry_messages -> text k0 (lit s)) ->
  exists k', entered nowhere k0 k' /\
   (VgaAutoPrint (color_val VGA_WHITE) (color_val VGA_BLACK) (lit "VGA resolution is : ") ;;
    VgaAutoPrint (color_val VGA_GREEN) (color_val VGA_BLACK) BufBeginAddr ;;
    VgaAutoPrint (color_val VGA_WHITE) (color_val VGA_BLACK) (lit "x") ;;
    VgaAutoPrintln (color_val VGA_RED) (color_val VGA_BLACK) BufEndAddr ;;
    VgaAutoPrint (color_val VGA_LIGHT_GREY) (color_val VGA_BLACK) (lit "Found bootloader: ") ;;
    VgaAutoPrintln (color_val VGA_GREEN) (color_val VGA_BLACK) name ;;
    VgaAutoPrint (color_val VGA_LIGHT_GREY) (color_val VGA_BLACK) (lit "Found command line: ") ;;
    VgaAutoPrintln (color_val VGA_GREEN) (color_val VGA_BLACK) cmd ;; f) k0 = f k'.
Proof using G.
  intros H0 Tb Te Tn Tc Tm.
  assert (forall s, existsb (String.eqb s) entry_messages = true -> text k0 (lit s)) as T.
  { intros s Hs. apply Tm. apply existsb_exists in Hs as (s' & Hs & E). apply String.eqb_eq in E. by subst. }
  destruct (AutoPrint_ok (color_val VGA_WHITE) (color_val VGA_BLACK) (lit "VGA resolution is : ") k0 k0 (T "VGA resolution is : "%string eq_refl) H0)
    as (k1 & E1 & H1). kstep E1.
  destruct (AutoPrint_ok (color_val VGA_GREEN) (color_val VGA_BLACK) BufBeginAddr k0 k1 Tb H1) as (k2 & E2 & H2). kstep E2.
  destruct (AutoPrint_ok (color_val VGA_WHITE) (color_val VGA_BLACK) (lit "x") k0 k2 (T "x"%string eq_refl) H2) as (k3 & E3 & H3). kstep E3.
  destruct (AutoPrintln_ok (color_val VGA_RED) (color_val VGA_BLACK) BufEndAddr k0 k3 Te H3) as (k4 & E4 & H4 & _). kstep E4.
  destruct (AutoPrint_ok (color_val VGA_LIGHT_GREY) (color_val VGA_BLACK) (lit "Found bootloader: ") k0 k4 (T "Found bootloader: "%string eq_refl) H4)
    as (k5 & E5 & H5). kstep E5.
  destruct (AutoPrintln_ok (color_val VGA_GREEN) (color_val VGA_BLACK) name k0 k5 Tn H5) as (k6 & E6 & H6 & _). kstep E6.
  destruct (AutoPrint_ok (color_val VGA_LIGHT_GREY) (color_val VGA_BLACK) (lit "Found command line: ") k0 k6 (T "Found command line: "%string eq_refl) H6)
    as (k7 & E7 & H7). kstep E7.
  destruct (AutoPrintln_ok (color_val VGA_GREEN) (color_val VGA_BLACK) cmd k0 k7 Tc H7) as (k8 & E8 & H8 & _).
  exists k8. split; [done|]. by kstep E8.
Qed.

Lemma upd_ctx_on g k : vga_on k = true -> upd_ctx g k = Ok () (with_vga (g (vga k)) k).
Proof using. intros Hon. unfold upd_ctx. by rewrite Hon. Qed.

Lemma cursor_enabled_ok k : vga_on k = true ->
  exists t, VgaSetCursorEnabled 1 k = Ok () (with_vga (set_cursor_enabled 1 (vga k)) (with_trace t k)).
Proof using. destruct k as [? ? ? on ? ? ? ? ? ? ? ? ?]. intros Hon. simpl in Hon. subst on. by eexists. Qed.

(** The processor's name, and the cursor. *)
Lemma entry_processor part1 part2 part3 k0 k {A} (f : K A) :
  1 <= W -> H = 25 -> entered nowhere k0 k -> (forall s, In s entry_messages -> text k0 (lit s)) ->
  exists k', console_inv fb W H k' /\ others k' = others k0 /\
    (forall q, ~ fw_mem q -> rb (ram k') q = rb (ram k0) q) /\
   (InternalPrintCpuVendor part1 part2 part3 ;;
    print_brand part2 part3 0 ;;
    VgaAutoPrintln (color_val VGA_WHITE) (color_val VGA_BLACK) (lit "") ;;
    when (negb (actual_family cpuid_family_number =? CPU_x86_64_FAMILY_ZEN))
      (VgaAutoPrintln (color_val VGA_RED) (color_val VGA_BLACK) (lit "Unsupported CPU")) ;;
    VgaSetCursorEnabled 1 ;; VgaTraceCharacters 1 ;; VgaMoveCursor 0 24 ;; f) k = f k'.
Proof using G.
  intros HW HH Hk T.
  assert (text k0 (lit "") /\ text k0 (lit cpu_vendor_msg) /\ text k0 (lit "Unsupported CPU")) as (T1 & T2 & T3)
    by (split_and!; apply T; simpl; tauto).
  destruct (PrintCpuVendor_ok part1 part2 part3 k0 k T2 T1 Hk) as (k1 & E1 & H1). kstep E1.
  destruct (print_brand_ok part2 part3 0 k0 k1 H1) as (k2 & E2 & H2). kstep E2.
  destruct (AutoPrintln_ok (color_val VGA_WHITE) (color_val VGA_BLACK) (lit "") k0 k2 T1 H2) as (k3 & E3 & H3 & V3). kstep E3.
  assert (exists k4, when (negb (actual_family cpuid_family_number =? CPU_x86_64_FAMILY_ZEN))
      (VgaAutoPrintln (color_val VGA_RED) (color_val VGA_BLACK) (lit "Unsupported CPU")) k3 = Ok () k4 /\
    entered nowhere k0 k4 /\ near W H (vga k4)) as (k4 & E4 & H4 & V4).
  { destruct (negb _); cbn [when]; [|by exists k3].
    by apply AutoPrintln_ok. }
  kstep E4.
  destruct (cursor_enabled_ok k4 (et_on _ _ _ H4)) as (t & E5). kstep E5. set (k5 := with_vga _ _).
  assert (others k5 = others k4 /\ ram k5 = ram k4 /\ vga_on k5 = vga_on k4 /\ vga k5 = set_cursor_enabled 1 (vga k4))
    as (O5 & R5 & On5 & V5) by (by destruct k4).
  kstep (upd_ctx_on (set_following 1) k5 (eq_trans On5 (et_on _ _ _ H4))). set (k6 := with_vga _ k5).
  assert (others k6 = others k5 /\ ram k6 = ram k5 /\ vga_on k6 = vga_on k5 /\ vga k6 = set_following 1 (vga k5))
    as (O6 & R6 & On6 & V6) by (by destruct k5).
  assert (context_ok fb W H (vga k6) /\ near W H (vga k6)) as [C6 N6].
  { rewrite V6, V5. destruct (et_ctx _ _ _ H4), V4. destruct (vga k4); simpl in *. split; [by constructor|by split]. }
  assert (console fb pa W H k6 k6) as Hc6.
  { constructor; try done; [by destruct k6|rewrite On6, On5; apply H4|rewrite R6, R5; apply H4]. }
  destruct (tr_move fb pa W H G k6 (near W H) (near W H) 0 24) with (k := k6) as ([] & k7 & E7 & [Es7 On7 C7 R7 F7] & N7);
    [split; lia|done| |by split|].
  { intros v [Hv1 Hv2]. split; [rewrite col_set_col; lia|by rewrite row_set_col]. }
  kstep E7. exists k7. split; [by split_and!|]. split; [|split; [|done]].
  - transitivity (others k6); [rewrite Es7; by destruct k6|]. rewrite O6, O5. apply H4.
  - intros q Hq. rewrite F7, R6, R5; [by apply (et_frame _ _ _ H4); [|intros []]|].
    change (~ (pa <= q < pa + 2 * W * H)) in Hq. lia.
Qed.
End Console.

(** ** Two machines on which the start does the same *)

Section Same.
Context {AS : AddrSpace} {DV : Device} {EB : KrnlEnvironmentBlock} {FL : FirmwareLaws FunctionTable}
  {LT : Literals} {FB : FormatBuffer} {PA : PrintArea} {SR : StopRegisters} {DT : DescriptorTables}
  {HA : HandlerAddresses} {VR : KernelVersion} {SA : StartupAddresses}.
Variables (mp ap cp bmp hp g p t pi : Z) (k k1 : kernel).

(** [k1] has the boot information of [k] and the same ranges. *)
Record same_boot : Prop := mkSameBoot {
  sb_info : bootinfo k1 = bootinfo k;
  sb_ranges : forall i, 0 <= i < range_count k -> boot_range_at (ram k1) (mp + 24 * i) = boot_range_at (ram k) (mp + 24 * i);
}.
Hypothesis SB : same_boot.

Lemma same_count : range_count k1 = range_count k.
Proof using SB. unfold range_count. by rewrite (sb_info SB). Qed.

Lemma boot_end_same n : Z.of_nat n <= range_count k -> boot_end (ram k1) mp n = boot_end (ram k) mp n.
Proof using SB.
  induction n as [|n IH]; intros Hn; [done|]. cbn [boot_end]. rewrite IH by lia. by rewrite (sb_ranges SB) by lia.
Qed.

Lemma same_end : memory_end mp k1 = memory_end mp k.
Proof using SB.
  unfold memory_end. rewrite same_count. destruct (Z.le_gt_cases 0 (range_count k)); [apply boot_end_same; lia|].
  by replace (Z.to_nat (range_count k)) with 0%nat by lia.
Qed.

Lemma same_virt : ranges_virt k1 = ranges_virt k /\ ranges_phys mp k1 = ranges_phys mp k /\ safe_area k1 = safe_area k.
Proof using SB. unfold safe_area, ranges_virt, ranges_phys. by rewrite same_count, (sb_info SB). Qed.

Lemma same_bitmap : startup_bitmap_size mp k1 = startup_bitmap_size mp k /\ startup_heap mp k1 = startup_heap mp k.
Proof using SB. unfold startup_heap, startup_bitmap_size. by rewrite same_end, (proj2 (proj2 same_virt)). Qed.

Lemma same_area : managed mp ap cp bmp hp k1 = managed mp ap cp bmp hp k.
Proof using SB.
  unfold managed, startup_area, handed_area. destruct same_virt as (_ & -> & _). by rewrite same_count, (proj1 same_bitmap).
Qed.

Lemma startup_memory_same : startup_memory mp ap cp bmp hp k -> ram_ok (ram k1) -> startup_memory mp ap cp bmp hp k1.
Proof using SB.
  intros [? ? ? ? ? ? ? ? ? ? ? ? ? ?] Hm. destruct same_virt as (E1 & E2 & E3), same_bitmap as [E4 E5].
  constructor; rewrite ?(sb_info SB), ?same_count, ?E2, ?E3, ?E4, ?E5, ?same_end; done.
Qed.

Lemma memory_up_same k2 : memory_up mp ap bmp hp k1 k2 -> memory_up mp ap bmp hp k k2.
Proof using SB.
  intros (H1 & H2 & H3). destruct same_virt as (E1 & E2 & E3), same_bitmap as [E4 E5].
  unfold startup_frames in H2. rewrite E3, E4, E5, same_end in H2. rewrite E5 in H3. rewrite same_count, E2 in H1.
  split; [|split; [exact H2|exact H3]]. intros i Hi. rewrite H1 by done. by rewrite (sb_ranges SB).
Qed.

Hypothesis HL : held true k k1.
Hypothesis MX : MaxAddress k1 = MaxAddress k.
Hypothesis TB : entry (ram k1) t 0 = entry (ram k) t 0.

Lemma boot_area_same : boot_area mp ap cp bmp hp k1 = boot_area mp ap cp bmp hp k.
Proof using SB. unfold boot_area. by rewrite same_area. Qed.

Lemma boot_held : held (PA := boot_area mp ap cp bmp hp k) true k k1.
Proof using HL. apply held_more; [by left|exact HL]. Qed.

Lemma boot_text_held a q s :
  clear_text (PA := boot_area mp ap cp bmp hp k) k a q s -> clear_text (PA := boot_area mp ap cp bmp hp k) k1 a q s.
Proof using HL. intros [Ht Hc]. split; [|done]. by apply (text_at_held (PA := boot_area mp ap cp bmp hp k) true k _ _ _ _ Ht boot_held). Qed.

Lemma boot_ready_same : boot_ready mp ap cp bmp hp g p t pi k -> boot_ready mp ap cp bmp hp g p t pi k1.
Proof using SB HL MX TB.
  intros [H1 [P1 P2 P3 P4 P5 P6 P7] H3 H4 H5 [N1 N2]].
  constructor; rewrite ?boot_area_same, ?same_area; try done.
  - apply startup_memory_same; [done|]. apply fw_ram, HL.
  - constructor; try done. by rewrite TB.
  - by apply (printable_held (PA := boot_area mp ap cp bmp hp k) _ k k1 H4 boot_held).
  - constructor.
    + destruct N1 as (m & Hm & Hg). exists m. split; [done|]. intros k' E. apply Hg. congruence.
    + destruct N2 as (v & s & q & Hv & Hc). exists v, s, q. split; [done|]. rewrite boot_area_same. by apply boot_text_held.
Qed.
End Same.

(** ** What the walk leaves, from the tags *)

Section Walked.
Context {AS : AddrSpace} {LT : Literals} {KI : KernelImage} {EL : EntryLocals}.
Variables (kp room : Z).

(** The command line and the boot loader's name: a default, or a tag's. *)
Lemma collect_strings (P : Z -> Prop) l : forall c,
  (forall v s, In (v, TCmdLine s) l \/ In (v, TBootLoader s) l -> P (v + 8)) ->
  P (c_state c).1.1 -> P (c_state c).1.2 ->
  P (c_state (foldl collect c l)).1.1 /\ P (c_state (foldl collect c l)).1.2.
Proof.
  induction l as [|[v t] l IH]; intros c Hl H1 H2; [done|]. cbn [foldl].
  destruct c as [[[cmd name] d] b mx n es]. apply IH.
  - intros v' s [H|H]; apply (Hl v' s); [left|right]; by right.
  - destruct t as [s| | | |]; cbn [collect c_state fst snd]; try done. destruct (_ =? _); [done|]. apply (Hl v s). left. by left.
  - destruct t as [|s| | |]; cbn [collect c_state fst snd]; try done. destruct (_ =? _); [done|]. apply (Hl v s). right. by left.
Qed.

(** The last map's ranges fit behind the image. *)
Lemma collect_room m v p l : tags_at kp room m v p l -> forall c,
  zlen (c_map c) <= room -> zlen (c_map (foldl collect c l)) <= room.
Proof.
  induction 1 as [v p _ _ _ _|v p size t l Ht _ IH]; intros c Hc; [done|]. cbn [foldl]. apply IH.
  pose proof (tg_body _ _ _ _ _ _ _ Ht) as Hb. destruct c as [[[cmd name] d] b mx n es].
  destruct t as [| |es'| |]; try done. cbn [collect c_map]. apply Hb.
Qed.

(** With a map among the tags, the boot information counts its entries. *)
Lemma collect_count l : forall c,
  NumMemoryRanges (c_boot c) = zlen (c_map c) \/ (exists v es, In (v, TMemMap es) l) ->
  NumMemoryRanges (c_boot (foldl collect c l)) = zlen (c_map (foldl collect c l)).
Proof.
  induction l as [|[v t] l IH]; intros c Hc; [destruct Hc as [?|(v & es & [])]; done|]. cbn [foldl]. apply IH.
  destruct c as [[[cmd name] d] b mx n es]. destruct t as [| |es'| |]; [| |by left| |];
    (destruct Hc as [Hc|(v' & es'' & [H|H])]; [by left|discriminate H|right; by exists v', es'']).
Qed.

(** The ranges for the entries [es], written from [p] on. *)
Fixpoint plant (m : gmap Z Z) (p : Z) (es : list mmap_entry) : gmap Z Z :=
  match es with
  | [] => m
  | e :: es =>
      let r := e820_range e in
      plant (wrn 8 (wrn 8 (wrn 4 m p (br_Usage r)) (p + 8) (br_Start r)) (p + 16) (br_End r)) (p + 24) es
  end.

Lemma plant_other es : forall m p q, q < p \/ p + 24 * zlen es <= q -> rb (plant m p es) q = rb m q.
Proof.
  induction es as [|e es IH]; intros m p q Hq; [done|]. rewrite zlen_cons in Hq. pose proof (zlen_nonneg es).
  cbn [plant]. rewrite IH by lia. by rewrite !rb_wrn_other by lia.
Qed.

Lemma plant_ok es : forall m p, ram_ok m -> ram_ok (plant m p es).
Proof. induction es as [|e es IH]; intros m p Hm; [done|]. apply IH. by repeat apply ram_ok_wrn. Qed.

(** An entry of the tag, which has the widths of its fields. *)
Definition entry_fits (e : mmap_entry) : Prop := 0 <= me_addr e < 2 ^ 64.

Lemma plant_ranges es : forall m p, Forall entry_fits es -> ranges_at (plant m p es) p es.
Proof.
  induction es as [|e es IH]; intros m p Hes i e' Hi; [by destruct i|]. apply Forall_cons in Hes as [He Hes].
  cbn [plant]. destruct i as [|i].
  - injection Hi as <-. rewrite Z.mul_0_r, Z.add_0_r.
    rewrite (boot_range_at_ext _ (plant _ _ _)) by (intros q Hq; apply plant_other; lia).
    unfold boot_range_at, e820_range. cbn [br_Usage br_Start br_End]. rd.
    f_equal; apply Z.mod_small; [|exact He|apply (u_range 64); lia]. change (2 ^ (8 * Z.of_nat 4)) with 4294967296.
    destruct (e820_usage_cases (me_type e)) as [E'|[E'|E']]; rewrite E'; lia.
  - replace (p + 24 * Z.of_nat (S i)) with (p + 24 + 24 * Z.of_nat i) by lia. by apply IH.
Qed.

(** Entries that are in memory fit. *)
Lemma mmap_fits m p es : ram_ok m -> mmap_at m p es -> Forall entry_fits es.
Proof.
  intros Hm Hes. apply Forall_lookup. intros i e Hi. rewrite <- (Hes i e Hi). unfold entry_fits. simpl.
  apply (rdn_bound 8 m). done.
Qed.

Lemma collect_fits m v p l : ram_ok m -> tags_at kp room m v p l -> forall c,
  Forall entry_fits (c_map c) -> Forall entry_fits (c_map (foldl collect c l)).
Proof.
  intros Hm. induction 1 as [v p _ _ _ _|v p size t l Ht _ IH]; intros c Hc; [done|]. cbn [foldl]. apply IH.
  pose proof (tg_body _ _ _ _ _ _ _ Ht) as Hb. destruct c as [[[cmd name] d] b mx n es].
  destruct t as [| |es'| |]; try done. cbn [collect c_map]. destruct Hb as ([_ _ Hes] & _).
  exact (mmap_fits m _ _ Hm Hes).
Qed.
End Walked.

(** ** From the loader on *)

Section Entry.
Context {AS : AddrSpace} {DV : Device} {LT : Literals} {FB : FormatBuffer} {PA : PrintArea}
  {SR : StopRegisters} {DT : DescriptorTables} {HA : HandlerAddresses} {VR : KernelVersion} {SA : StartupAddresses}
  {KI : KernelImage} {EL : EntryLocals} {CI : CpuId}.
Variables (fb pa : Z).
Hypothesis G : geometry fb pa 80 25.

#[local] Existing Instance EnvBlock.
#[local] Instance loader_laws : FirmwareLaws FunctionTable := console_laws fb pa 80 25 G.
Hypothesis BO : buffer_ok.

(** The image's end and the locals of [kern_init]; the tags, seen at [v]; the
    memory of the later stages, as in [Bootstrap] and [Dispatch]. *)
Variables (kp room b1 b2 v pt : Z) (l : list (Z * mb_tag)) (d : display).
Variables (ap cp bmp hp g p t pi : Z) (Buffer pc pcc pb : Z) (MBINFO : Z) (k0 : kernel).

(** What the tags tell. *)
Definition told : collected :=
  foldl collect (mkCollected (lit "", lit "Unknown", None) (bootinfo k0) (MaxAddress k0) (MemoryRangeCount k0) []) l.

(** The machine [KiSystemStartup] may count on: the loaded one, with the
    console set up, and with the boot information and the ranges the tags
    tell of. *)
Definition machine : kernel :=
  with_vga_on true (with_vga (mkVgaContext fb fb 80 25 (disp_BPP d) (color_val VGA_BLACK) (color_val VGA_WHITE)
      (color_val VGA_LIGHT_BROWN) 0 0 (disp_TextOnly d) 0 0)
    (with_boot (c_boot told) (c_max told) (c_count told) (with_ram (plant (ram k0) (kp + 8) (c_map told)) k0))).

Record entry_ready : Prop := mkEntryReady {
  ey_ram : ram_ok (ram k0);
  ey_image : window kernel_end kp (8 + 24 * room) /\ 0 <= room;
  ey_tags : u32 (MBINFO + 8) = v /\ tags_at kp room (ram k0) v pt l;
  ey_map : exists w es, In (w, TMemMap es) l;
  ey_display : (c_state told).2 = Some d /\ KERN_PHYS_TO_VIRT (disp_Framebuffer d) = fb /\
    disp_Width d = 80 /\ disp_Height d = 25;
  ey_cursor : cursor k0 = 0;
  ey_texts : forall s, In s entry_messages -> exists q, clear_text k0 (lit s) q (chars s);
  ey_strings : forall w s, In (w, TCmdLine s) l \/ In (w, TBootLoader s) l -> exists q, clear_text k0 (w + 8) q s;
  ey_begin : BufBeginAddr <> NULL /\ window BufBeginAddr b1 21;
  ey_end : BufEndAddr <> NULL /\ window BufEndAddr b2 21;
  ey_apart : (b1 + 21 <= b2 \/ b2 + 21 <= b1) /\ forall q, image_area kp room q -> ~ entry_local b1 b2 q;
  (** The image's end and the locals are memory of the printing functions'
      callers, apart from the processor's tables. *)
  ey_own : forall q, image_area kp room q \/ entry_local b1 b2 q -> scratch q /\ ~ processor_area g p t q;
  ey_boot : boot_ready (kp + 8) ap cp bmp hp g p t pi machine;
  ey_shell : shell_ready fb pa G (kp + 8) ap cp bmp hp g p t Buffer pc pcc pb machine;
}.
Hypothesis ER : entry_ready.

Lemma own_safe q : image_area kp room q \/ entry_local b1 b2 q -> ~ fw_mem q.
Proof using BO ER. intros Hq. apply (bo_safe BO). right. by apply (ey_own ER). Qed.

Lemma entry_locals_ok : locals_ok fb pa 80 25 G b1 b2.
Proof using BO ER.
  constructor; [apply ER|apply ER|apply (ey_apart ER)|]. intros q Hq. apply own_safe. by right.
Qed.

(** After the walk. *)
Lemma entry_walk : exists k, walk_tags v (lit "", lit "Unknown", None) k0 = Ok (c_state told) k /\ found kp room k0 told k.
Proof using ER.
  destruct (ey_tags ER) as [_ Ht]. destruct (ey_image ER) as [Wk _].
  destruct (walk_tags_ok kp room Wk v pt l (lit "", lit "Unknown", None) k0 (ey_ram ER) Ht) as (k & E & Hf).
  by exists k.
Qed.

Lemma walked_text k a q s : found kp room k0 told k -> clear_text k0 a q s ->
  clear_of_locals fb pa 80 25 G b1 b2 k a.
Proof using ER.
  intros Hf [[H1 H2 [H3 H3'] H4 H5] Hc].
  assert (forall q', q <= q' <= q + zlen s -> ~ image_area kp room q' /\ ~ entry_local b1 b2 q') as Ho.
  { intros q' Hq. split; intros Hi; apply (Hc q' Hq); right; apply (ey_own ER); [by left|by right]. }
  exists q, s. split; [|intros; by apply Ho]. constructor; try done. split; [|done]. rewrite <- H3.
  apply read_bytes_ext. intros q' Hq. apply (found_frame _ _ _ _ _ _ Hf), Ho. unfold zlen. lia.
Qed.

Lemma walked_texts k cmd name : found kp room k0 told k -> c_state told = (cmd, name, Some d) ->
  clear_of_locals fb pa 80 25 G b1 b2 k cmd /\ clear_of_locals fb pa 80 25 G b1 b2 k name /\
  forall s, In s entry_messages -> clear_of_locals fb pa 80 25 G b1 b2 k (lit s).
Proof using ER.
  intros Hf Es.
  assert (forall s, In s entry_messages -> clear_of_locals fb pa 80 25 G b1 b2 k (lit s)) as Tm.
  { intros s Hs. destruct (ey_texts ER s Hs) as (q & Hq). by apply (walked_text k _ q (chars s)). }
  destruct (collect_strings (fun a => clear_of_locals fb pa 80 25 G b1 b2 k a) l
    (mkCollected (lit "", lit "Unknown", None) (bootinfo k0) (MaxAddress k0) (MemoryRangeCount k0) [])) as [Tc Tn].
  { intros w s Hs. destruct (ey_strings ER w s Hs) as (q & Hq). by apply (walked_text k _ q s). }
  { apply (Tm ""%string). simpl. tauto. }
  { apply (Tm "Unknown"%string). by left. }
  fold told in Tc, Tn. rewrite Es in Tc, Tn. by split_and!.
Qed.

(** Each entry's range is in the image's area. *)
Lemma range_in_image i q : (i < length (c_map told))%nat ->
  kp + 8 + 24 * Z.of_nat i <= q < kp + 8 + 24 * Z.of_nat i + 24 -> image_area kp room q.
Proof using ER.
  intros Hi Hq. pose proof (collect_room kp room _ _ _ _ (proj2 (ey_tags ER))
    (mkCollected (lit "", lit "Unknown", None) (bootinfo k0) (MaxAddress k0) (MemoryRangeCount k0) [])
    ltac:(apply (ey_image ER))) as Hroom. fold told in Hroom. unfold image_area, zlen in *. lia.
Qed.

(** [kern_init] up to [KiSystemStartup]. *)
Lemma entry_reaches : exists k1, kern_init MBINFO k0 = KiSystemStartup k1 /\
  console_inv fb 80 25 k1 /\ others k1 = others machine /\ ranges_at (ram k1) (kp + 8) (c_map told) /\
  forall q, ~ fw_mem q -> ~ image_area kp room q -> ~ entry_local b1 b2 q -> rb (ram k1) q = rb (ram k0) q.
Proof using BO ER.
  destruct entry_walk as (kw & Ew & Hf). pose proof Hf as (m & Ekw & Hm & Hr & Hfr).
  pose proof (found_ram _ _ _ _ Ekw) as Erw. destruct (ey_display ER) as (Ed & Efb & Edw & Edh).
  destruct (c_state told) as [[cmd name] d'] eqn:Es. cbn [snd] in Ed. subst d'.
  destruct (walked_texts kw cmd name Hf Es) as (Tc & Tn & Tm).
  assert (cursor kw = 0) as Hcur by (rewrite Ekw, <- (ey_cursor ER); by destruct k0).
  assert (ram_ok (ram kw)) as Hmw by (by rewrite Erw).
  unfold kern_init. rewrite (proj1 (ey_tags ER)), (bind_ok _ _ _ _ _ Ew). cbv beta iota. kstep (ret_ok d kw).
  match goal with |- context [VgaAutoPrint (color_val VGA_WHITE) (color_val VGA_BLACK) (lit "VGA resolution is : ") ≫= ?f] =>
    set (rest := VgaAutoPrint (color_val VGA_WHITE) (color_val VGA_BLACK) (lit "VGA resolution is : ") ≫= f) end.
  destruct (entry_console fb pa 80 25 G b1 b2 d kw rest entry_locals_ok Hmw Hcur Efb Edw Edh ltac:(done) ltac:(done)
    (clear_there _ _ _ _ _ _ _ _ _ (Tm _ ltac:(right; by left)))) as (k1 & E1 & H1 & Tb & Te). rewrite E1.
  pose proof (fun a Ha => clear_entered fb pa 80 25 G b1 b2 kw k1 a Ha H1) as Tk.
  unfold rest. destruct (cpuid_vendor_func (0, 0, 0)) as [[p1 p2] p3].
  match goal with |- context [InternalPrintCpuVendor p1 p2 p3 ≫= ?f] => set (tail := InternalPrintCpuVendor p1 p2 p3 ≫= f) end.
  destruct (entry_greeting fb pa 80 25 G name cmd k1 tail) as (k2 & H2 & E2); try (exact Tb || exact Te || by apply Tk).
  { apply entered_refl; apply H1. }
  { intros s Hs. by apply Tk, Tm. }
  rewrite E2. destruct (entry_processor fb pa 80 25 G p1 p2 p3 k1 k2 KiSystemStartup) as (k3 & Hi3 & O3 & F3 & E3);
    [lia|done|done| |].
  { intros s Hs. by apply Tk, Tm. }
  exists k3. split; [exact E3|]. split; [exact Hi3|]. split; [|split].
  - rewrite O3, (et_others _ _ _ _ _ _ _ _ H1), Ekw. unfold machine. by destruct k0.
  - intros i e He. rewrite <- (Hr i e He), <- Erw. apply boot_range_at_ext. intros q Hq.
    pose proof (range_in_image i q (lookup_lt_Some _ _ _ He) Hq) as Hq'. rewrite F3 by (apply own_safe; by left).
    apply (et_frame _ _ _ _ _ _ _ _ H1); [apply own_safe; by left|by apply (ey_apart ER)].
  - intros q Hq Q1 Q2. rewrite F3 by exact Hq.
    rewrite (et_frame _ _ _ _ _ _ _ _ H1 q Hq Q2), Erw. by apply Hfr.
Qed.

(** The machine reached is the one counted on. *)
Lemma machine_ram : ram machine = plant (ram k0) (kp + 8) (c_map told).
Proof using. unfold machine. by destruct k0. Qed.

Lemma machine_frame q : ~ image_area kp room q -> rb (ram machine) q = rb (ram k0) q.
Proof using ER.
  intros Hq. rewrite machine_ram. pose proof (collect_room kp room _ _ _ _ (proj2 (ey_tags ER))
    (mkCollected (lit "", lit "Unknown", None) (bootinfo k0) (MaxAddress k0) (MemoryRangeCount k0) [])
    ltac:(apply (ey_image ER))) as Hroom. fold told in Hroom. apply plant_other. unfold image_area in Hq.
  pose proof (zlen_nonneg (c_map told)). lia.
Qed.

Lemma machine_same k1 : others k1 = others machine -> ranges_at (ram k1) (kp + 8) (c_map told) -> same_boot (kp + 8) machine k1.
Proof using ER.
  intros Ho Hr. assert (bootinfo k1 = bootinfo machine) as Eb by (unfold others in Ho; congruence).
  constructor; [done|]. intros i Hi.
  assert (range_count machine = zlen (c_map told)) as En.
  { transitivity (NumMemoryRanges (c_boot told)); [unfold machine, range_count; by destruct k0|].
    apply collect_count. right. apply ER. }
  rewrite En in Hi. destruct (lookup_lt_is_Some_2 (c_map told) (Z.to_nat i)) as [e He]; [unfold zlen in *; lia|].
  pose proof (Hr _ _ He) as H1. rewrite machine_ram.
  assert (Forall entry_fits (c_map told)) as Hfit.
  { by apply (collect_fits kp room (ram k0) v pt); [apply ER|apply (ey_tags ER)|]. }
  pose proof (plant_ranges _ (ram k0) (kp + 8) Hfit _ _ He) as H2. rewrite !Z2Nat.id in * by lia. congruence.
Qed.

Lemma shell_ready_same k1 : others k1 = others machine -> same_boot (kp + 8) machine k1 -> held true machine k1 ->
  shell_ready fb pa G (kp + 8) ap cp bmp hp g p t Buffer pc pcc pb k1.
Proof using ER.
  intros Ho SB Hh. destruct (ey_shell ER) as [H1 H2 H3 H4 H5 H6 H7 H8 H9 H10].
  pose proof (boot_held (kp + 8) ap cp bmp hp machine k1 Hh) as Hb.
  assert (timer k1 = timer machine /\ kbd k1 = kbd machine) as [Et Ek] by (unfold others in Ho; split; congruence).
  constructor; rewrite ?Et, ?Ek, ?(boot_area_same (kp + 8) ap cp bmp hp machine k1 SB); try done.
  - exact (printable_held (PA := boot_area (kp + 8) ap cp bmp hp machine) _ machine k1 H1 Hb).
  - intros s Hs. destruct (H2 s Hs) as (q & Hc & W). exists q. split; [|done].
    by apply (boot_text_held (kp + 8) ap cp bmp hp machine k1 Hh).
Qed.

Lemma entry_ready_machine k1 : console_inv fb 80 25 k1 -> others k1 = others machine -> same_boot (kp + 8) machine k1 ->
  (forall q, ~ fw_mem q -> ~ image_area kp room q -> ~ entry_local b1 b2 q -> rb (ram k1) q = rb (ram k0) q) ->
  held true machine k1 /\ boot_ready (kp + 8) ap cp bmp hp g p t pi k1.
Proof using BO ER.
  intros Hi Ho SB Hf. assert (held true machine k1) as Hh.
  { split; [exact Hi|]. intros q Hq Hb. assert (~ image_area kp room q /\ ~ entry_local b1 b2 q) as [Q1 Q2].
    { split; intros Hx; apply (Hb eq_refl); right; apply (ey_own ER); [by left|by right]. }
    rewrite (machine_frame q Q1). by apply Hf. }
  split; [exact Hh|]. apply (boot_ready_same _ _ _ _ _ _ _ _ _ machine); try done; [unfold others in Ho; congruence| |apply ER].
  apply rdn_ext. intros q Hq. assert (processor_area g p t q) as Hp by (unfold processor_area; lia).
  destruct (processor_apart BO _ _ _ _ _ _ _ _ _ _ (ey_boot ER) q Hp) as [Hq' _].
  assert (~ image_area kp room q /\ ~ entry_local b1 b2 q) as [Q1 Q2].
  { split; intros Hx; [destruct (ey_own ER q (or_introl Hx))|destruct (ey_own ER q (or_intror Hx))]; done. }
  rewrite (machine_frame q Q1). by apply Hf.
Qed.

End Entry.

(** ** A sample machine: the image ends at 0x1FFFF8, the tags are at 0x190000 *)

Definition entry_literals : list string := boot_literals ++ entry_messages.
Definition entry_lit : Literals := sample_literals entry_literals.
Definition entry_image : KernelImage := 0x1FEFF8.
Definition entry_locals : EntryLocals := mkEntryLocals 0xB380 0xB300 0xB340.
Definition entry_area : PrintArea := mkPrintArea 0x6000 (fun q => 0x7000 <= q < 0xF000 \/ image_area 0x1FFFF8 2 q).

Definition entry_cpu : CpuId := mkCpuId (fun r => r) (fun r => r) 0x00800F11.

Definition loader_entries : list mmap_entry := [mkMmapEntry 0 0x9FC00 1; mkMmapEntry 0x100000 0x3F00000 1].
Definition loader_display : display := mkDisplay 0xB8000 16 80 25 0.
Definition loader_tags : list (Z * mb_tag) :=
  [(0x190000, TCmdLine [118]); (0x190010, TMemMap loader_entries); (0x190050, TFramebuffer loader_display)].
Definition loader_bytes : list Z :=
  le_bytes 4 1 ++ le_bytes 4 10 ++ [118; 0] ++ le_bytes 6 0 ++
  le_bytes 4 6 ++ le_bytes 4 64 ++ le_bytes 4 24 ++ le_bytes 4 0 ++ concat (map entry_bytes loader_entries) ++
  le_bytes 4 8 ++ le_bytes 4 32 ++ le_bytes 8 0xB8000 ++ le_bytes 4 160 ++ le_bytes 4 80 ++ le_bytes 4 25 ++
    [16; 2; 0; 0] ++
  le_bytes 4 0 ++ le_bytes 4 8.
Definition loader_ram : gmap Z Z :=
  write_bytes (wrn 8 (ram (sample_kernel entry_literals)) 0x9000 0xA003) 0x190000 loader_bytes.
Definition loader_kernel : kernel := with_ram loader_ram kernel0.

Lemma loader_ram_ok : ram_ok loader_ram.
Proof.
  apply ram_ok_write; [apply ram_ok_wrn, sample_ram_ok|].
  repeat first [apply Forall_app_2 | apply le_bytes_byte | (repeat constructor; done)].
Qed.

Lemma loader_tags_at : tags_at (AS := boot_space) 0x1FFFF8 2 loader_ram 0x190000 0x190000 loader_tags.
Proof.
  assert (forall p n, 0x190000 <= p -> p + n <= 0x1A0000 ->
    window (AS := boot_space) p p n /\ forall q, p <= q < p + n -> ~ image_area 0x1FFFF8 2 q) as H.
  { intros p n H1 H2. split; [apply boot_window_low; lia|]. unfold image_area. lia. }
  assert (mmap_tag loader_ram 0x190010 loader_entries) as Hm.
  { constructor; [vm_compute; reflexivity..|]. intros i e Hi.
    do 2 (destruct i as [|i]; [injection Hi as <-; vm_compute; reflexivity|]). destruct i; discriminate. }
  apply (ta_cons _ _ _ _ _ 10).
  { destruct (H 0x190000 10 ltac:(lia) ltac:(lia)). constructor; try done; try lia.
    split; [split; [vm_compute; reflexivity|by repeat constructor]|done]. }
  apply (ta_cons _ _ _ _ _ 64).
  { destruct (H 0x190010 64 ltac:(lia) ltac:(lia)). constructor; try done; lia. }
  apply (ta_cons _ _ _ _ _ 32).
  { destruct (H 0x190050 32 ltac:(lia) ltac:(lia)). constructor; try done; lia. }
  destruct (H 0x190070 4 ltac:(lia) ltac:(lia)).
  apply ta_end; [done|vm_compute; reflexivity|done|done].
Qed.

#[local] Existing Instance FirmwareFuncs.
#[local] Existing Instance boot_space.
#[local] Existing Instance one_key.
#[local] Existing Instance entry_lit.
#[local] Existing Instance sample_buffer.
#[local] Existing Instance entry_area.
#[local] Existing Instance sample_registers.
#[local] Existing Instance processor_tables.
#[local] Existing Instance sample_handlers.
#[local] Existing Instance boot_version.
#[local] Existing Instance boot_addresses.
#[local] Existing Instance entry_image.
#[local] Existing Instance entry_locals.
#[local] Existing Instance entry_cpu.

Definition loader_machine : kernel := machine sample_fb 0x1FFFF8 loader_tags loader_display loader_kernel.

Definition loader_plant : gmap Z Z := plant loader_ram 0x200000 loader_entries.

Lemma loader_machine_ram : ram loader_machine = loader_plant.
Proof. reflexivity. Qed.

Lemma loader_sizes :
  startup_bitmap_size 0x200000 loader_machine = 2048 /\ startup_heap 0x200000 loader_machine = 0x229898 /\
  safe_area loader_machine = 0x228098 /\ range_count loader_machine = 2 /\
  ranges_phys 0x200000 loader_machine = 0x200048 /\ memory_end 0x200000 loader_machine = 0x4000000.
Proof.
  assert (memory_end 0x200000 loader_machine = 0x4000000) as E by (vm_compute; reflexivity).
  unfold startup_heap, startup_bitmap_size. rewrite E. repeat split; vm_compute; reflexivity.
Qed.

Lemma loader_startup_memory : startup_memory 0x200000 0x180000 0x180100 0x229098 0x229898 loader_machine.
Proof.
  destruct loader_sizes as (Eb & Eh & Es & En & Er & Ee).
  constructor; rewrite ?Eb, ?Eh, ?Es, ?En, ?Er, ?Ee;
    try (apply boot_window_low; vm_compute; congruence);
    try (apply boot_window_virt; vm_compute; congruence); try lia.
  - rewrite loader_machine_ram. apply plant_ok, loader_ram_ok.
  - split; [apply boot_window_low; vm_compute; congruence|vm_compute; split; congruence].
  - constructor; [vm_compute; split; congruence|vm_compute; congruence|].
    apply boot_window_virt; vm_compute; congruence.
  - vm_compute. congruence.
  - unfold HeapSize. lia.
Qed.

Definition loader_managed : Z -> Prop := managed 0x200000 0x180000 0x180100 0x229098 0x229898 loader_machine.

Lemma loader_managed_high q : loader_managed q -> 0x180000 <= q < 0x180200 \/ 0x200048 <= q.
Proof.
  unfold loader_managed, managed, startup_area, handed_area.
  destruct loader_sizes as (Eb & _ & _ & En & Er & _). rewrite Eb, En, Er.
  change (round4 2048) with 2048. unfold HeapSize. change (round4 (1024 * 1024 * 8)) with 8388608. lia.
Qed.

Definition loader_area : PrintArea := boot_area 0x200000 0x180000 0x180100 0x229098 0x229898 loader_machine.

(** The literals, in any memory that has kept them. *)
Lemma loader_text k s : lit_check entry_literals s = true ->
  (forall q, 0x10000 <= q < 0x80000 -> rb (ram k) q = rb (ram (sample_kernel entry_literals)) q) ->
  clear_text (FL := sample_laws) (PA := loader_area) k (entry_lit s) (entry_lit s) (chars s).
Proof.
  intros Hc Hq. destruct (sample_text entry_literals s Hc) as [[H1 H2 [H3 H3'] H4 H5] H6].
  fold entry_lit in *. set (a := entry_lit s) in *.
  assert (0x10000 <= a /\ a + zlen (chars s) < 0x80000) as Ha.
  { unfold lit_check in Hc. unfold lit_base in Hc.
    rewrite !andb_true_iff, !Z.leb_le in Hc. change (sample_literals entry_literals s) with a in Hc. lia. }
  split; [constructor; try done|].
  - split; [|done]. rewrite <- H3. apply read_bytes_ext. intros q Hr. apply Hq. unfold zlen in Ha. lia.
  - intros q Hr [Hb|[[Hb|Hb]|Hb]].
    + by apply (H6 q Hr); left.
    + by apply (H6 q Hr); right.
    + unfold image_area in Hb. lia.
    + apply loader_managed_high in Hb. lia.
Qed.

Lemma loader_frame q : 0x10000 <= q < 0x80000 -> rb loader_ram q = rb (ram (sample_kernel entry_literals)) q.
Proof. intros Hq. unfold loader_ram. by rewrite rb_write_other, rb_wrn_other by (change (zlen loader_bytes) with 120; lia). Qed.

Lemma machine_frame_low q : 0x10000 <= q < 0x80000 -> rb (ram loader_machine) q = rb (ram (sample_kernel entry_literals)) q.
Proof. intros Hq. rewrite loader_machine_ram. unfold loader_plant. rewrite plant_other by (left; lia). by apply loader_frame. Qed.

Lemma entry_literals_there s : In s (own_literals ++ entry_literals) -> lit_check entry_literals s = true.
Proof.
  assert (forallb (lit_check entry_literals) (own_literals ++ entry_literals) = true) as H by (vm_compute; reflexivity).
  rewrite List.forallb_forall in H. apply H.
Qed.

Lemma machine_text s : In s (own_literals ++ entry_literals) ->
  exists q, clear_text (FL := sample_laws) (PA := loader_area) loader_machine (entry_lit s) q (chars s).
Proof. intros Hs. eexists. apply loader_text; [by apply entry_literals_there|apply machine_frame_low]. Qed.

Lemma machine_printable ss : (forall s, In s ss -> In s (own_literals ++ entry_literals)) ->
  printable (FL := sample_laws) (PA := loader_area) ss loader_machine.
Proof.
  intros H. constructor.
  - split; [reflexivity|]. split; [constructor; try reflexivity; simpl; lia|]. split; [split; simpl; lia|].
    rewrite loader_machine_ram. apply plant_ok, loader_ram_ok.
  - constructor; apply machine_text; simpl; tauto.
  - intros s Hs. by apply machine_text, H.
Qed.

Lemma entry_buffer_ok : buffer_ok (FL := sample_laws).
Proof.
  constructor; [done|apply (boot_window_low 0x6000 22); lia|].
  intros q Hb. change (~ (text_base <= q < text_base + 2 * 80 * 25)). unfold text_base.
  destruct Hb as [Hb|[Hb|Hb]]; [change (0x6000 <= q < 0x6000 + 22) in Hb| |unfold image_area in Hb]; lia.
Qed.

Lemma loader_boot_ready :
  boot_ready (EB := EnvBlock) (FL := sample_laws) 0x200000 0x180000 0x180100 0x229098 0x229898 0x7000 0x8000 0x9000 0xB000
    loader_machine.
Proof.
  constructor.
  - apply loader_startup_memory.
  - constructor; try (unfold apart; change (@Print.bp entry_area) with 0x6000; lia).
    + apply (boot_window_low 0x7000 40); lia.
    + apply (boot_window_low 0x8000 4096); lia.
    + split; [|reflexivity]. apply (boot_window_low 0x9000 4096); lia.
    + rewrite loader_machine_ram. vm_compute. reflexivity.
    + intros q Hq. left. lia.
  - split; [apply (boot_window_low 0xB000 1); lia|]. split; [left; lia|]. unfold processor_area. lia.
  - apply machine_printable. intros s Hs. unfold entry_literals, boot_literals. rewrite !in_app_iff. tauto.
  - intros q Hq. apply loader_managed_high in Hq. split.
    + change (~ (text_base <= q < text_base + 2 * 80 * 25)). unfold text_base. lia.
    + intros [Hb|[Hb|Hb]]; [change (0x6000 <= q < 0x6000 + 22) in Hb|..|unfold image_area in Hb]; lia.
  - constructor.
    + exists 0x4000000. split; [lia|]. intros k' E. unfold GetMaxPhysicalAddress, EnvBlock.
      change (MaxAddress loader_machine) with 0x4000000 in E. by rewrite <- E.
    + destruct (machine_text GetBiosFirmwareClaim) as [q Hq].
      { unfold entry_literals, boot_literals. rewrite !in_app_iff. simpl. tauto. }
      eexists _, _, _. split; [reflexivity|exact Hq].
Qed.

Lemma loader_shell_ready :
  shell_ready sample_fb text_base text_geometry 0x200000 0x180000 0x180100 0x229098 0x229898 0x7000 0x8000 0x9000
    0xB200 0xC000 0xB100 0xB200 loader_machine.
Proof.
  constructor.
  - apply machine_printable. intros s Hs. unfold entry_literals, boot_literals, run_messages in *. rewrite !in_app_iff in *. tauto.
  - intros s Hs. assert (In s (own_literals ++ entry_literals)) as Hin
      by (unfold entry_literals, boot_literals; rewrite !in_app_iff; tauto).
    exists (entry_lit s). split; [apply loader_text; [by apply entry_literals_there|apply machine_frame_low]|].
    apply (window_le _ _ 200); [apply sample_window, entry_literals_there, Hin|lia].
  - apply boot_window_low; vm_compute; congruence.
  - apply boot_window_low; vm_compute; congruence.
  - split; [done|]. split; [apply boot_window_low; lia|]. right. change (0x6000 + 22 <= 0xB200). lia.
  - intros q Hq. unfold shell_area in Hq. split; [left; lia|]. unfold processor_area. lia.
  - apply sample_handlers_distinct.
  - done.
  - split; by left.
  - intros t. vm_compute. done.
Qed.

(** The texts before the walk. *)
Lemma loader_there s : In s (own_literals ++ entry_literals) ->
  exists q, clear_text (FL := sample_laws) loader_kernel (entry_lit s) q (chars s).
Proof.
  intros Hs. exists (entry_lit s). apply (clear_less (fun q => scratch q \/ loader_managed q)); [by left|].
  apply (loader_text loader_kernel); [by apply entry_literals_there|apply loader_frame].
Qed.

Lemma loader_entry_ready :
  entry_ready sample_fb text_base text_geometry 0x1FFFF8 2 0xB300 0xB340 0x190000 0x190000 loader_tags loader_display
    0x180000 0x180100 0x229098 0x229898 0x7000 0x8000 0x9000 0xB000 0xB200 0xC000 0xB100 0xB200 0x18FFF8 loader_kernel.
Proof.
  constructor.
  - apply loader_ram_ok.
  - split; [apply boot_window_low; vm_compute; congruence|done].
  - split; [reflexivity|apply loader_tags_at].
  - exists 0x190010, loader_entries. right. by left.
  - by vm_compute.
  - reflexivity.
  - intros s Hs. apply loader_there. unfold entry_literals. rewrite !in_app_iff. tauto.
  - intros w s [[H|[H|[H|[]]]]|[H|[H|[H|[]]]]]; try discriminate H. injection H as <- <-. exists 0x190008.
    split; [constructor; [done|apply boot_window_low; vm_compute; congruence| |done|]|].
    + split; [vm_compute; reflexivity|by repeat constructor].
    + intros q Hq. change (zlen [118]) with 1 in Hq. change (~ (text_base <= q < text_base + 2 * 80 * 25)). unfold text_base. lia.
    + intros q Hq [Hb|[Hb|Hb]]; change (zlen [118]) with 1 in Hq; [change (0x6000 <= q < 0x6000 + 22) in Hb|..|unfold image_area in Hb]; lia.
  - split; [done|]. apply boot_window_low; vm_compute; congruence.
  - split; [done|]. apply boot_window_low; vm_compute; congruence.
  - split; [lia|]. unfold image_area, entry_local. lia.
  - intros q [Hq|Hq]; (split; [|unfold processor_area, image_area, entry_local in *; lia]); [by right|left; unfold entry_local in Hq; lia].
  - apply loader_boot_ready.
  - apply loader_shell_ready.
Qed.

