(* ===== verification/Typing.v ===== *)
(** * Types and widths: what no execution breaks

    C's types, as an invariant of the state: a cell of memory holds a byte, a
    port number has 16 bits and what is written to it 8, and the console's
    position and size, the timer, the modifiers and the limits of the tables
    stay within their types.  Every function of the
    kernel keeps it from every state that has it, whatever its arguments and
    however it ends - by a value, at an access that is not mapped, in
    [KiStopError] or in a loop without end - and never takes back a port
    access.  No hypothesis says what is mapped, what the firmware's tables
    hold or what devices answer. *)

From S2P Require Import Prelude Machine Status MemFuncs BinFuncs Strings Vga Heap Pmm Paging Print Security Serial Stop Descriptors Interrupts Keyboard Startup Multiboot Bootstrap Dispatch.

(** A port access within the widths of the instructions. *)
Definition io_typed (e : io_event) : Prop :=
  match e with
  | EvIn port v | EvOut port v => 0 <= port < 2 ^ 16 /\ byte v
  | EvLgdt d | EvLidt d => 0 <= dp_Limit d < 2 ^ 16
  | _ => True
  end.

(** The [UINT16] fields of the console's context that a pointer or a caller
    does not set as they come. *)
Definition position_typed (v : VgaContext) : Prop :=
  0 <= CurrentRow v < 2 ^ 16 /\ 0 <= CurrentCol v < 2 ^ 16 /\
  0 <= ScreenWidth v < 2 ^ 16 /\ 0 <= ScreenHeight v < 2 ^ 16.

Record typed_state (k : kernel) : Prop := mkTypedState {
  ts_ram : ram_ok (ram k);
  ts_trace : Forall io_typed (trace k);
  ts_position : position_typed (vga k);
  ts_timer : byte (timer k);
  ts_modifiers : byte (ShiftModifier (kbd k)) /\ byte (CapsLock (kbd k));
  ts_tables : 0 <= dp_Limit (gdtp k) < 2 ^ 16 /\ 0 <= dp_Limit (idtp k) < 2 ^ 16;
}.

(** Where an execution ends, however it ends. *)
Definition end_state {A} (o : outcome A) : kernel :=
  match o with Ok _ k | Fault k | Halted _ k | Spin k => k end.

Definition typed {A} (m : K A) : Prop := forall k, typed_state k ->
  typed_state (end_state (m k)) /\ trace k `suffix_of` trace (end_state (m k)).

(** ** The monad *)

Create HintDb typing discriminated.

Section Monad.
Context {A B : Type}.

Lemma typed_ret (a : A) : typed (mret a).
Proof. by split. Qed.

Lemma typed_bind (m : K A) (f : A -> K B) : typed m -> (forall a, typed (f a)) -> typed (m ≫= f).
Proof.
  intros Hm Hf k Hk. destruct (Hm k Hk) as [H1 H2]. unfold mbind, K_bind.
  destruct (m k) as [a k1| | |]; try done. destruct (Hf a k1 H1) as [H3 H4].
  split; [done|]. by transitivity (trace k1).
Qed.

Lemma typed_gets (f : kernel -> A) : typed (gets f).
Proof. by split. Qed.

Lemma typed_fault : typed (fault : K A).
Proof. by split. Qed.

Lemma typed_halt st : typed (halt st : K A).
Proof. by split. Qed.

Lemma typed_spin : typed (spin : K A).
Proof. by split. Qed.
End Monad.

Lemma typed_skip : typed skip.
Proof. apply typed_ret. Qed.

Lemma typed_when b m : typed m -> typed (when b m).
Proof. destruct b; [done|]. intros _. apply typed_skip. Qed.

Lemma typed_iterate {S R} (body : S -> K (S + R)) : (forall s, typed (body s)) -> forall p s, typed (iterate p body s).
Proof.
  intros Hb p. induction p as [p IH|p IH|]; intros s; cbn [iterate]; [| |apply Hb].
  - apply typed_bind; [apply Hb|]. intros [s1|r]; [|apply typed_ret].
    apply typed_bind; [apply IH|]. intros [s2|r]; [apply IH|apply typed_ret].
  - apply typed_bind; [apply IH|]. intros [s2|r]; [apply IH|apply typed_ret].
Qed.

Lemma typed_cloop {S R} (body : S -> K (S + R)) s : (forall s, typed (body s)) -> typed (cloop body s).
Proof.
  intros Hb. apply typed_bind; [by apply typed_iterate|]. intros [s'|r]; [apply typed_spin|apply typed_ret].
Qed.

Lemma typed_for_lt w hi step body lo : (forall i, typed (body i)) -> typed (for_lt w hi step body lo).
Proof.
  intros Hb. apply typed_cloop. intros i. destruct (i <? hi); [|apply typed_ret].
  apply typed_bind; [apply Hb|]. intros _. apply typed_ret.
Qed.

(** An assignment to statics that are not ports' traces. *)
Lemma typed_modify f :
  (forall k, typed_state k -> typed_state (f k) /\ trace (f k) = trace k) -> typed (modify f).
Proof. intros H k Hk. destruct (H k Hk) as [H1 H2]. split; [done|]. simpl. by rewrite H2. Qed.

Lemma typed_emit e : io_typed e -> typed (emit e).
Proof.
  intros He k [H1 H2 H3 H4 H5 H6]. split; [constructor; destruct k; try done; by constructor|].
  destruct k as [? tr ? ? ? ? ? ? ? ? ? ? ?]. simpl. by exists [e].
Qed.

Lemma u_typed w x : 0 <= w -> 0 <= u w x < 2 ^ w.
Proof. apply u_range. Qed.

Lemma typed_outb port v : typed (x86outb port v).
Proof. apply typed_emit. split; [apply (u_range 16); lia|apply (u_range 8); lia]. Qed.

Lemma typed_inb {DV : Device} port : typed (x86inb port).
Proof.
  intros k Hk. apply (typed_emit (EvIn (u16 port) (u8 (dev_in8 (trace k) (u16 port))))); [|done].
  split; [apply (u_range 16); lia|apply (u_range 8); lia].
Qed.

Lemma typed_upd_ctx f : (forall v, position_typed v -> position_typed (f v)) -> typed (upd_ctx f).
Proof.
  intros Hf k Hk. unfold upd_ctx. destruct (vga_on k); [|by split]. destruct Hk as [H1 H2 H3 H4 H5 H6].
  split; [|by destruct k]. constructor; destruct k; try done. by apply Hf.
Qed.

Lemma typed_ctx : typed ctx.
Proof. intros k Hk. unfold ctx. by destruct (vga_on k). Qed.

Section Access.
Context {AS : AddrSpace}.

Lemma typed_load8 a : typed (load8 a).
Proof. intros k Hk. unfold load8. by destruct (xlate _). Qed.

Lemma typed_store8 a v : typed (store8 a v).
Proof.
  intros k Hk. unfold store8. destruct (xlate _) as [p|]; [|by split]. destruct Hk as [H1 H2 H3 H4 H5 H6].
  split; [|by destruct k]. constructor; destruct k; try done. apply ram_ok_insert; [done|].
  apply (u_range 8). lia.
Qed.

Lemma typed_loadn n a : typed (loadn n a).
Proof.
  revert a. induction n as [|n IH]; intros a; [apply typed_ret|]. apply typed_bind; [apply typed_load8|].
  intros b. apply typed_bind; [apply IH|]. intros r. apply typed_ret.
Qed.

Lemma typed_storen n a v : typed (storen n a v).
Proof.
  revert a v. induction n as [|n IH]; intros a v; [apply typed_ret|].
  apply typed_bind; [apply typed_store8|]. intros _. apply IH.
Qed.
End Access.

#[export] Hint Resolve typed_ret typed_gets typed_fault typed_halt typed_spin typed_skip typed_outb typed_inb
  typed_ctx typed_load8 typed_store8 typed_loadn typed_storen : typing.

Ltac position :=
  intros [] (? & ? & ? & ?); unfold position_typed in *; cbn in *; split_and!;
  first [assumption | lia | apply (u_range 16); lia].

(** Follow the program: its binds, its choices and its loops; and open the
    definition of a function no lemma is known of. *)
Ltac typing_step :=
  lazymatch goal with
  | |- forall _, _ => intros ?
  | |- typed (let _ := _ in _) => cbv zeta
  | |- typed (mbind _ _) => apply typed_bind; [|intros ?]
  | |- typed (when _ _) => apply typed_when
  | |- typed (cloop _ _) => apply typed_cloop; intros ?
  | |- typed (for_lt _ _ _ _ _) => apply typed_for_lt; intros ?
  | |- typed (match ?x with _ => _ end) => destruct x
  | |- typed (upd_ctx _) => apply typed_upd_ctx; solve [position]
  | |- typed (emit _) => apply typed_emit; exact I
  end.
Ltac typing_open :=
  lazymatch goal with
  | |- typed ?m =>
      let rec head t := lazymatch t with ?f _ => head f | _ => t end in
      let h := head m in progress (unfold h)
  end.
Ltac typing := repeat (cbv beta zeta; first [typing_step | solve [auto 2 with typing nocore] | typing_open]).

(** ** The routines, the console and printing *)

Section Routines.
Context {AS : AddrSpace}.

Lemma typed_KiCopyMemory d s n : typed (KiCopyMemory d s n).
Proof. typing. Qed.

Lemma typed_KiCompareMemory s d n v : typed (KiCompareMemory s d n v).
Proof. typing. Qed.

Lemma typed_KiSetMemoryBytes d v n : typed (KiSetMemoryBytes d v n).
Proof. typing. Qed.

Lemma typed_internalItoaBaseChange v b r : typed (internalItoaBaseChange v b r).
Proof. typing. Qed.

Lemma typed_KiGetStringLength s l : typed (KiGetStringLength s l).
Proof. typing. Qed.

Lemma typed_VgaMoveCursor_with entry x y :
  (forall a b c d e, typed (entry a b c d e)) -> typed (VgaMoveCursor_with entry x y).
Proof. intros He. unfold VgaMoveCursor_with. typing. Qed.

Lemma typed_internalVgaPushUp_with entry :
  (forall a b c d e, typed (entry a b c d e)) -> typed (internalVgaPushUp_with entry).
Proof.
  intros He. unfold internalVgaPushUp_with.
  repeat first [apply typed_KiCopyMemory | apply typed_KiSetMemoryBytes | by apply typed_VgaMoveCursor_with
    | apply typed_ctx | apply typed_bind; [|intros]].
Qed.

Lemma typed_VgaEntry_at d fg bg c x y : typed (VgaEntry_at d fg bg c x y).
Proof.
  revert fg bg c x y. induction d as [|d IH]; intros fg bg c x y; cbn [VgaEntry_at]; fold VgaEntry_at.
  - typing.
  - apply typed_bind; [apply typed_ctx|]. intros v. apply typed_bind; [|intros _; typing].
    destruct (_ <=? _); [by apply typed_internalVgaPushUp_with|apply typed_skip].
Qed.
End Routines.

#[export] Hint Resolve typed_KiCopyMemory typed_KiCompareMemory typed_KiSetMemoryBytes
  typed_internalItoaBaseChange typed_KiGetStringLength typed_VgaEntry_at : typing.

Section Console.
Context {AS : AddrSpace} {DV : Device}.

Lemma typed_VgaMoveCursor x y : typed (VgaMoveCursor x y).
Proof. apply typed_VgaMoveCursor_with. intros. apply typed_VgaEntry_at. Qed.

Lemma typed_internalVgaPushUp : typed internalVgaPushUp.
Proof. apply typed_internalVgaPushUp_with. intros. apply typed_VgaEntry_at. Qed.
#[local] Hint Resolve typed_VgaMoveCursor typed_internalVgaPushUp : typing.

Lemma typed_VgaPutChar c : typed (VgaPutChar c).
Proof. typing. Qed.
#[local] Hint Resolve typed_VgaPutChar : typing.

Lemma typed_VgaStringEntry fg bg s l x y : typed (VgaStringEntry fg bg s l x y).
Proof. typing. Qed.
#[local] Hint Resolve typed_VgaStringEntry : typing.

Lemma typed_VgaPrintln fg bg s l : typed (VgaPrintln fg bg s l).
Proof. typing. Qed.
#[local] Hint Resolve typed_VgaPrintln : typing.

Lemma typed_VgaAutoPrintln fg bg s : typed (VgaAutoPrintln fg bg s).
Proof. typing. Qed.

Lemma typed_VgaAutoPrint fg bg s : typed (VgaAutoPrint fg bg s).
Proof. typing. Qed.

Lemma typed_KiBlankVgaScreen h w c : typed (KiBlankVgaScreen h w c).
Proof. typing. Qed.

Lemma typed_VgaSwapBuffers : typed VgaSwapBuffers.
Proof. typing. Qed.

Lemma typed_VgaPrepareEnvironment fb bpp w h t : typed (VgaPrepareEnvironment fb bpp w h t).
Proof.
  unfold VgaPrepareEnvironment. apply typed_bind; [apply typed_inb|]. intros m.
  apply typed_bind; [apply typed_outb|]. intros _. apply typed_bind.
  - apply typed_modify. intros [] [? ? ? ? ? ?]. split; [by constructor|done].
  - typing.
Qed.

Lemma typed_VgaSetCursorEnabled v : typed (VgaSetCursorEnabled v).
Proof. typing. Qed.
End Console.

#[export] Hint Resolve typed_VgaMoveCursor typed_VgaPutChar typed_VgaPrintln typed_VgaAutoPrintln typed_VgaAutoPrint
  typed_KiBlankVgaScreen typed_VgaSwapBuffers typed_VgaPrepareEnvironment typed_VgaSetCursorEnabled : typing.

(** The functions a firmware gives the kernel, and those the memory manager
    and the page tables are written against. *)
Class FirmwareTyped (FW : KrnlFirmwareFunctions) : Prop := mkFirmwareTyped {
  typed_PutChar : forall c, typed (PutChar c);
  typed_Println : forall s n, typed (Println s n);
  typed_Backspace : typed Backspace;
}.

#[export] Hint Resolve typed_PutChar typed_Println typed_Backspace : typing.

#[export] Instance FirmwareFuncs_typed {AS : AddrSpace} : FirmwareTyped FirmwareFuncs.
Proof. constructor; intros; cbn [PutChar Println Backspace FirmwareFuncs]; typing. Qed.

Section Printing.
Context {AS : AddrSpace} {DV : Device} {FW : KrnlFirmwareFunctions} {FT : FirmwareTyped FW} {LT : Literals}
  {FB : FormatBuffer}.

Lemma typed_KiPrint s : typed (KiPrint s).
Proof. typing. Qed.

Lemma typed_KiPrintLine s : typed (KiPrintLine s).
Proof. typing. Qed.

Lemma typed_KiPrintWarnLine s : typed (KiPrintWarnLine s).
Proof. typing. Qed.
#[local] Hint Resolve typed_KiPrint typed_KiPrintLine : typing.

Lemma typed_print_number n f : (forall b, typed (f b)) -> typed (print_number n f).
Proof. intros Hf. typing. Qed.

Lemma typed_format_spec fmt i c args : typed (format_spec fmt i c args).
Proof.
  unfold format_spec.
  repeat (apply typed_print_number; intros b; typing || typing_step). all: typing.
Qed.
#[local] Hint Resolve typed_format_spec : typing.

Lemma typed_KiPrintFmt fmt args : typed (KiPrintFmt fmt args).
Proof. typing. Qed.
End Printing.

#[export] Hint Resolve typed_KiPrint typed_KiPrintLine typed_KiPrintWarnLine typed_KiPrintFmt : typing.

(** ** The statics *)

Section Statics.

Lemma typed_timer (f : Z -> Z) : (forall v, byte (f v)) -> typed (modify (fun k => with_timer (f (timer k)) k)).
Proof. intros Hf. apply typed_modify. intros [] []. split; [constructor; cbn; try done; apply Hf|done]. Qed.

Lemma typed_gdtp d : 0 <= dp_Limit d < 2 ^ 16 -> typed (modify (fun k => with_gdtp d k)).
Proof. intros Hd. apply typed_modify. intros [] [? ? ? ? ? []]. split; [by constructor|done]. Qed.

Lemma typed_idtp d : 0 <= dp_Limit d < 2 ^ 16 -> typed (modify (fun k => with_idtp d k)).
Proof. intros Hd. apply typed_modify. intros [] [? ? ? ? ? []]. split; [by constructor|done]. Qed.

Lemma typed_heap h : typed (modify (with_heap h)).
Proof. apply typed_modify. intros [] []. split; [by constructor|done]. Qed.

Lemma typed_upd_mms f : typed (upd_mms f).
Proof. apply typed_modify. intros [] []. split; [by constructor|done]. Qed.

Lemma typed_boot (f : kernel -> SystemBootInfo) (g h : kernel -> Z) :
  typed (modify (fun k => with_boot (f k) (g k) (h k) k)).
Proof. apply typed_modify. intros k []. split; [by destruct k; constructor|by destruct k]. Qed.

Lemma lnot_byte v : byte (lnot v).
Proof. unfold lnot, byte. destruct (v =? 0); simpl; lia. Qed.

Lemma typed_set_shift (f : PS2KeyboardContext -> Z) :
  (forall c, byte (ShiftModifier c) -> byte (CapsLock c) -> byte (f c)) ->
  typed (modify (fun k => set_shift (f (kbd k)) k)).
Proof.
  intros Hf. apply typed_modify. intros k [? ? ? ? [Hs Hc] ?]. destruct k as [? ? ? ? ? ? [s ct a c] ? ? ? ? ? ?].
  split; [|done]. constructor; cbn in *; try done. split; [by apply (Hf (mkKeyboard s ct a c))|done].
Qed.

Lemma typed_set_caps (f : PS2KeyboardContext -> Z) :
  (forall c, byte (f c)) -> typed (modify (fun k => set_caps (f (kbd k)) k)).
Proof.
  intros Hf. apply typed_modify. intros k [? ? ? ? [Hs Hc] ?]. destruct k as [? ? ? ? ? ? [s ct a c] ? ? ? ? ? ?].
  split; [|done]. constructor; cbn in *; try done.
Qed.
End Statics.

#[export] Hint Resolve typed_heap typed_upd_mms typed_boot : typing.

(** ** The devices, the stop and the processor's tables *)

Section Devices.
Context {AS : AddrSpace} {DV : Device} {FW : KrnlFirmwareFunctions} {FT : FirmwareTyped FW} {LT : Literals}
  {FB : FormatBuffer} {SR : StopRegisters} {DT : DescriptorTables} {HA : HandlerAddresses}.

Lemma typed_SerialSend p c n : typed (SerialSend p c n).
Proof. typing. Qed.

Lemma typed_SerialRecv p n b : typed (SerialRecv p n b).
Proof. typing. Qed.
#[local] Hint Resolve typed_SerialSend typed_SerialRecv : typing.

Lemma typed_InitSerialDevice i o : typed (InitSerialDevice i o).
Proof. typing. Qed.

Lemma typed_SerialDoKShellPrompt b c : typed (SerialDoKShellPrompt b c).
Proof. typing. Qed.

Lemma typed_kshell_loop b c i : typed (kshell_loop b c i).
Proof. typing. Qed.

Lemma typed_KiStopError st : typed (KiStopError st).
Proof. typing. Qed.

(** Loading a table register with what the static holds. *)
Lemma typed_load_table (r : kernel -> DescPointer) (e : DescPointer -> io_event) {A} (f : K A) :
  (forall k, typed_state k -> 0 <= dp_Limit (r k) < 2 ^ 16) -> (forall d, 0 <= dp_Limit d < 2 ^ 16 -> io_typed (e d)) ->
  typed f -> typed (d ← gets r; emit (e d) ;; f).
Proof.
  intros Hr He Hf k Hk. unfold mbind at 1, K_bind at 1. cbn [gets].
  apply (typed_bind (emit (e (r k)))); [apply typed_emit, He, Hr, Hk|done|done].
Qed.

Lemma typed_x86InitializeGDT : typed x86InitializeGDT.
Proof.
  unfold x86InitializeGDT.
  repeat (apply typed_bind; [typing|intros _]).
  - apply typed_gdtp. cbn [dp_Limit]. apply (u_range 16). lia.
  - intros k Hk. apply (typed_emit (EvLgdt (gdtp k))); [apply Hk|done].
Qed.
#[local] Hint Resolve typed_KiStopError : typing.

Lemma typed_x86SetupIDTEntries : typed x86SetupIDTEntries.
Proof. typing. Qed.

Lemma typed_x86InitializeIDT : typed x86InitializeIDT.
Proof.
  unfold x86InitializeIDT. cbv zeta.
  repeat (apply typed_bind; [solve [apply typed_x86SetupIDTEntries|typing]|intros _]).
  apply typed_bind; [|intros _].
  - apply typed_idtp. cbn [dp_Limit]. apply (u_range 16). lia.
  - apply typed_bind; [apply typed_x86SetupIDTEntries|intros _].
    apply (typed_load_table idtp EvLidt); [intros k Hk; apply Hk|done|]. typing.
Qed.

Lemma typed_PITHandler : typed PITHandler.
Proof.
  unfold PITHandler. apply typed_bind; [apply (typed_timer (fun v => u8 (v + 1))); intros v; apply (u_range 8); lia|intros _].
  apply typed_bind; [typing|intros t]. apply typed_bind; [|intros _; typing].
  apply typed_when, typed_bind; [apply (typed_timer (fun _ => 0)); done|intros _; typing].
Qed.

Lemma typed_CheckStatusCode c : typed (CheckStatusCode c).
Proof.
  unfold CheckStatusCode. typing.
  - apply (typed_set_shift (fun c => lnot (CapsLock c))). intros. apply lnot_byte.
  - apply (typed_set_shift CapsLock). done.
  - apply (typed_set_shift (fun c => lnot (ShiftModifier c))). intros. apply lnot_byte.
  - apply (typed_set_caps (fun c => lnot (CapsLock c))). intros. apply lnot_byte.
Qed.
#[local] Hint Resolve typed_PITHandler typed_CheckStatusCode : typing.

Lemma typed_PS2KeyboardHandler b : typed (PS2KeyboardHandler b).
Proof. typing. Qed.
#[local] Hint Resolve typed_PS2KeyboardHandler : typing.

(** Whatever the table of the processor holds. *)
Lemma typed_deliver b n : typed (deliver b n).
Proof. typing. Qed.
End Devices.

#[export] Hint Resolve typed_SerialSend typed_SerialRecv typed_InitSerialDevice typed_SerialDoKShellPrompt
  typed_kshell_loop typed_KiStopError typed_x86InitializeGDT typed_x86InitializeIDT typed_deliver : typing.

(** ** Memory *)

Class StopTyped (ST : StopError) : Prop := typed_KiStop : forall st, typed (KiStop st).
Class AllocatorTyped (AL : Allocator) : Prop := typed_kmalloc : forall n, typed (kmalloc n).

#[export] Hint Resolve @typed_KiStop @typed_kmalloc : typing.

Section Memory.
Context {AS : AddrSpace}.

Lemma typed_InternalInitializeNode c p n i : typed (InternalInitializeNode c p n i).
Proof. typing. Qed.
#[local] Hint Resolve typed_InternalInitializeNode : typing.

Lemma typed_MmCreateAllocatorState n a s : typed (MmCreateAllocatorState n a s).
Proof. typing. Qed.
#[local] Hint Resolve typed_MmCreateAllocatorState : typing.

Lemma typed_MmKernelMalloc n : typed (MmKernelMalloc n).
Proof. typing. Qed.

Context {ST : StopError} {SY : StopTyped ST}.

Lemma typed_MmAllocatePhysFrame l st : typed (MmAllocatePhysFrame l st).
Proof. typing. Qed.
#[local] Hint Resolve typed_MmAllocatePhysFrame : typing.

Lemma typed_MmLookupPhysFrame l st : typed (MmLookupPhysFrame l st).
Proof. typing. Qed.

Lemma typed_MmLookupFreePhysFrame : typed MmLookupFreePhysFrame.
Proof. typing. Qed.

Lemma typed_KiInitializeMemMgr i : typed (KiInitializeMemMgr i).
Proof. typing. Qed.

Context {AL : Allocator} {AY : AllocatorTyped AL}.

Lemma typed_x86MapAddress t p v : typed (x86MapAddress t p v).
Proof. typing. Qed.

Lemma typed_x86UnmapAddress t v : typed (x86UnmapAddress t v).
Proof. typing. Qed.
End Memory.

#[export] Hint Resolve typed_MmKernelMalloc typed_MmAllocatePhysFrame typed_MmLookupPhysFrame typed_MmLookupFreePhysFrame
  typed_KiInitializeMemMgr typed_x86MapAddress typed_x86UnmapAddress : typing.

(** ** The whole kernel *)

Section Kernel.
Context {AS : AddrSpace} {DV : Device} {LT : Literals} {KI : KernelImage} {EL : EntryLocals} {CI : CpuId}
  {FB : FormatBuffer} {SR : StopRegisters} {DT : DescriptorTables} {HA : HandlerAddresses} {VR : KernelVersion}
  {SA : StartupAddresses}.

#[local] Existing Instance EnvBlock.

Lemma env_typed : FirmwareTyped FunctionTable.
Proof. exact FirmwareFuncs_typed. Qed.
#[local] Existing Instance env_typed.
#[local] Hint Resolve env_typed FirmwareFuncs_typed : typing.

Lemma stop_error_typed : StopTyped stop_error.
Proof. intros st. unfold KiStop, stop_error. typing. Qed.
#[local] Existing Instance stop_error_typed.

Lemma typed_KiStartupSystem s : typed (KiStartupSystem s).
Proof. typing. Qed.
#[local] Hint Resolve typed_KiStartupSystem : typing.

Lemma typed_KiStartupProcessor n : typed (KiStartupProcessor n).
Proof. typing. Qed.
#[local] Hint Resolve typed_KiStartupProcessor : typing.

(** The queries of the environment block. *)
Lemma typed_GetMaxPhysicalAddress : typed GetMaxPhysicalAddress.
Proof. apply typed_gets. Qed.

Lemma typed_GetFirmwareName : typed GetFirmwareName.
Proof. apply typed_ret. Qed.
#[local] Hint Resolve typed_GetMaxPhysicalAddress typed_GetFirmwareName : typing.

Lemma typed_KiSystemStartup : typed KiSystemStartup.
Proof. typing. Qed.
#[local] Hint Resolve typed_KiSystemStartup : typing.

Lemma typed_walk_tags p s : typed (walk_tags p s).
Proof. typing. Qed.
#[local] Hint Resolve typed_walk_tags : typing.

Lemma typed_kern_init i : typed (kern_init i).
Proof. typing. Qed.

Lemma typed_resume c : typed (resume c).
Proof. typing. Qed.

Lemma settle_end o : (settle o).2 = end_state o.
Proof. by destruct o. Qed.

Lemma runs_typed b s es s' : runs b s es s' -> typed_state s.2 -> typed_state s'.2 /\ trace s.2 `suffix_of` trace s'.2.
Proof.
  intros H Hs. induction H as [|es e s1 s2 _ IH H]; [done|]. destruct IH as [H1 H2].
  assert (typed_state s2.2 /\ trace s1.2 `suffix_of` trace s2.2) as [H3 H4]; [|split; [done|by transitivity (trace s1.2)]].
  destruct H as [c k _|c k n _ _]; rewrite settle_end.
  - by apply typed_resume.
  - apply (typed_bind (deliver b n) (fun _ => mret c)); [apply typed_deliver|intros; apply typed_ret|done].
Qed.

End Kernel.

(** ** Witness: the kernel as it is loaded *)

Lemma loaded_kernel_typed : typed_state kernel0.
Proof. by constructor. Qed.

Definition sample_cpuid : CpuId := mkCpuId (fun p => p) (fun p => p) 0.

