(* ===== verification/EfiBoot.v ===== *)
(** * The UEFI loader ([bootloader/boot.c], [drivers/proc/elf/elf.h])

    The loader finds the displays, loads the kernel's ELF file, reads the
    firmware's memory map and jumps to the kernel.  The firmware is not part of
    the program: its services are parameters, and the theorems assume of them
    what the UEFI specification promises. *)

From S2P Require Import Prelude Machine Status MemFuncs BinFuncs Strings Vga Heap Pmm Paging Print Serial Stop Descriptors Interrupts Startup.

(** ** Constants and layouts *)

Definition EFI_PAGE_SIZE : Z := 4096.
Definition EFI_PAGE_SHIFT : Z := 12.
Definition FERAL_VIRT_OFFSET : Z := 0xFFFFFFFFC0000000.
Definition MAX_INIT_PAGED : Z := 2 * 1024 * 1024.
Definition CUR_ARCH_ELF : Z := 0x003E.
Definition MACHINE_ID_NONE : Z := 0x0000.
Definition PT_LOAD : Z := 0x01.

(** [ElfHeader64] and [ElfProgramHeader64], both packed. *)
Definition eh_magic : Z := 0.
Definition eh_machine : Z := 18.
Definition eh_entry : Z := 24.
Definition eh_phoff : Z := 32.
Definition eh_phentsize : Z := 54.
Definition eh_phnum : Z := 56.
Definition sizeof_ElfHeader64 : Z := 60.
Definition ph_type : Z := 0.
Definition ph_flags : Z := 4.
Definition ph_offset : Z := 8.
Definition ph_vaddr : Z := 16.
Definition ph_filesz : Z := 32.
Definition ph_memsz : Z := 40.
Definition sizeof_ElfProgramHeader64 : Z := 56.

(** [EFI_MEMORY_TYPE], the part the loader names, and [EFI_ALLOCATE_TYPE]. *)
Definition EfiLoaderCode : Z := 1.
Definition EfiLoaderData : Z := 2.
Definition EfiBootServicesCode : Z := 3.
Definition EfiBootServicesData : Z := 4.
Definition EfiRuntimeServicesCode : Z := 5.
Definition EfiRuntimeServicesData : Z := 6.
Definition EfiConventionalMemory : Z := 7.
Definition AllocateMaxAddress : Z := 1.
Definition AllocateAddress : Z := 2.
Definition MM_STRUCTURE_TYPE_USED_AREA_RANGE : Z := 10.

(** [EFI_MEMORY_DESCRIPTOR], [EFI_LOADED_IMAGE_PROTOCOL] and the graphics
    protocol with its mode. *)
Definition md_Type : Z := 0.
Definition md_PhysicalStart : Z := 8.
Definition md_NumberOfPages : Z := 24.
Definition sizeof_EFI_MEMORY_DESCRIPTOR : Z := 40.
Definition li_DeviceHandle : Z := 24.
Definition gop_Mode : Z := 24.
Definition mode_Info : Z := 8.
Definition mode_FrameBufferBase : Z := 24.
Definition info_HorizontalResolution : Z := 4.
Definition info_VerticalResolution : Z := 8.

Definition PixelRedGreenBlueReserved8BitPerColor : Z := 0.
Definition ByProtocol : Z := 2.
Definition EfiResetShutdown : Z := 2.
Definition EFI_OPEN_PROTOCOL_BY_HANDLE_PROTOCOL : Z := 1.
Definition EFI_OPEN_PROTOCOL_GET_PROTOCOL : Z := 2.
Definition EFI_FILE_MODE_READ : Z := 1.
Definition EFI_FILE_READ_ONLY : Z := 1.

(** [EfiMemoryRange] and [EfiBootInfo], which the loader fills in for the
    kernel, are declared nowhere in the sources: their sizes and the offsets
    of their fields are parameters. *)
Class HandoverLayout := mkHandoverLayout {
  sizeof_EfiMemoryRange : Z;
  emr_Usage : Z;
  emr_Start : Z;
  emr_End : Z;
  sizeof_EfiBootInfo : Z;
  bi_NumMemoryRanges : Z;
  bi_MemoryRanges : Z;
  bi_NumDisplays : Z;
  bi_FramebufferPAddrs : Z;
}.

(** A call of the loaded kernel's entry point, with its argument. *)
Class KernelEntry := enter_kernel : Z -> Z -> K ().

(** Wide string literals. *)
Class WideLiterals := wlit : string -> Z.
(** The line end of the loader's messages. *)
Definition crlf_end : string := chr 13 +:+ chr 10.

(** The services the loader calls.  Pointers are passed as addresses, and
    what they point to is read and written in memory. *)
Class EfiServices := mkEfiServices {
  OutputString : Z -> K EFI_STATUS;
  ClearScreen : K EFI_STATUS;
  Stall : Z -> K EFI_STATUS;
  SetWatchdogTimer : Z -> Z -> Z -> Z -> K EFI_STATUS;
  AllocatePages : Z -> Z -> Z -> Z -> K EFI_STATUS;
  AllocatePool : Z -> Z -> Z -> K EFI_STATUS;
  GetMemoryMap : Z -> Z -> Z -> Z -> Z -> K EFI_STATUS;
  ExitBootServices : Z -> Z -> K EFI_STATUS;
  ResetSystem : Z -> Z -> Z -> Z -> K ();
  LocateHandleBuffer : Z -> Z -> Z -> Z -> Z -> K EFI_STATUS;
  OpenProtocol : Z -> Z -> Z -> Z -> Z -> Z -> K EFI_STATUS;
  GraphicsSetMode : Z -> Z -> K EFI_STATUS;
  OpenVolume : Z -> Z -> K EFI_STATUS;
  FileOpen : Z -> Z -> Z -> Z -> Z -> K EFI_STATUS;
  FileRead : Z -> Z -> Z -> K EFI_STATUS;
  FileSetPosition : Z -> Z -> K EFI_STATUS;
  FileClose : Z -> K EFI_STATUS;
}.

(** Where the compiler puts the loader's statics and the locals whose address
    is taken. *)
Class EfiLocals := mkEfiLocals {
  GuidEfiLoadedImageProtocol : Z;
  GuidEfiSimpleFSProtocol : Z;
  GuidEfiGraphicsOutputProtocol : Z;
  KernelLoc : Z;
  AllocMaxAddr_Addr : Z;
  InitialHeader : Z;
  ProgramHeader : Z;
  HdrSize : Z;
  PHdrSize : Z;
  FileSz : Z;
  ElfItoaBuf : Z;
  GraphicsProtocol : Z;
  GopItoaBuf : Z;
  MainItoaBuf : Z;
  VideoBuffers : Z;
  NumDisplaysVar : Z;
  DisplayBuffers : Z;
  LoadedImageProtocol : Z;
  FileSysProtocol : Z;
  ESPRoot : Z;
  KernelImageVar : Z;
  kern_init_var : Z;
  MapSize : Z;
  DescriptorSize : Z;
  MapKey : Z;
  DescriptorVersion : Z;
  MemoryMapVar : Z;
  MemoryRangesVar : Z;
  EnvBlockVar : Z;
}.

Definition BytesToEfiPages (Bytes : Z) : Z :=
  let RetVal := Z.shiftr Bytes EFI_PAGE_SHIFT in
  if negb (RetVal mod EFI_PAGE_SIZE =? 0) || (RetVal =? 0) then u64 (RetVal + 1) else RetVal.

Definition wide_char (Rem : Z) : Z :=
  if (Rem <=? 9) && (0 <=? Rem) then Rem + 48
  else if Rem <? 35 then Rem - 10 + 97
  else Rem - 36 + 65.

Definition efi_usage (type : Z) : Z :=
  if type =? EfiConventionalMemory then MM_STRUCTURE_TYPE_FREE_AREA_RANGE
  else if (type =? EfiLoaderCode) || (type =? EfiLoaderData) || (type =? EfiBootServicesCode)
       || (type =? EfiBootServicesData) || (type =? EfiRuntimeServicesCode)
       || (type =? EfiRuntimeServicesData)
  then MM_STRUCTURE_TYPE_USED_AREA_RANGE
  else MM_STRUCTURE_TYPE_OTHER_AREA_RANGE.

Section Loader.
Context `{AS : AddrSpace} `{WL : WideLiterals} `{ES : EfiServices} `{LO : EfiLocals}.

Definition load16 := loadn 2.

(** The message [s], the result unused. *)
Definition say (s : string) : K () := OutputString (wlit s) ;; skip.

Definition WriteMessage (String : Z) : K () := OutputString String ;; skip.

Definition wide_flip (Buf Len : Z) : K Z :=
  for_lt 64 (Len / 2) 1 (fun ReverseIndex =>
    Tmp ← load16 (Buf + 2 * ReverseIndex);
    c ← load16 (Buf + 2 * (Len - ReverseIndex - 1));
    store16 (Buf + 2 * ReverseIndex) c ;;
    store16 (Buf + 2 * (Len - ReverseIndex - 1)) Tmp) 0.

Definition InternalItoaBaseChange (Val Buf Radix : Z) : K () :=
  if Val =? 0 then store16 Buf 48 ;; store16 (Buf + 2) 0
  else
    Len ← cloop (fun '(ValCopy, Len) =>
      if ValCopy =? 0 then mret (inr Len)
      else
        if Radix =? 0 then fault
        else
          let Rem := u16 (ValCopy mod Radix) in
          store16 (Buf + 2 * Len) (wide_char Rem) ;;
          mret (inl (ValCopy / Radix, u64 (Len + 1)))) (Val, 0);
    wide_flip Buf Len ;;
    store16 (Buf + 2 * Len) 0.

Definition GetEfiMemoryMapToFreeOrNot (Place : Z) : K Z :=
  type ← load32 (Place + md_Type); mret (efi_usage type).

Definition EfiMalloc (Amt Ptr : Z) : K Z :=
  Status ← AllocatePool EfiRuntimeServicesData Amt Ptr;
  mret (b2z (Status =? EFI_SUCCESS)).

Definition memory_type (Code : Z) : Z :=
  if negb (Code =? 0) then EfiRuntimeServicesCode else EfiRuntimeServicesData.

Definition EfiAllocAddr (Amt Ptr Code : Z) : K Z :=
  Status ← AllocatePages AllocateAddress (memory_type Code) (BytesToEfiPages Amt) Ptr;
  mret (b2z (Status =? EFI_SUCCESS)).

Definition EfiAllocMaxAddr (Amt Ptr MaxAddress_ Code : Z) : K Z :=
  store64 AllocMaxAddr_Addr (u64 (MaxAddress_ - Amt)) ;;
  Status ← AllocatePages AllocateMaxAddress (memory_type Code) (BytesToEfiPages Amt) AllocMaxAddr_Addr;
  Addr ← load64 AllocMaxAddr_Addr;
  store64 Ptr Addr ;;
  mret (b2z (Status =? EFI_SUCCESS)).

(** [Header] is the address of the header. *)
Definition ValidateElfHeader (Header : Z) : K EFI_STATUS :=
  ok ← cloop (fun Index =>
    if Index <? 4 then
      c ← load8 (Header + eh_magic + Index);
      if negb (c =? nth (Z.to_nat Index) [0x7F; 69; 76; 70] 0) then mret (inr false)
      else mret (inl (u32 (Index + 1)))
    else mret (inr true)) 0;
  if negb ok then mret EFI_LOAD_ERROR
  else
    machine ← load16 (Header + eh_machine);
    if negb (machine =? MACHINE_ID_NONE) && negb (machine =? CUR_ARCH_ELF) then mret EFI_LOAD_ERROR
    else
      phnum ← load16 (Header + eh_phnum);
      if phnum =? 0 then
        say ("Not an executable: missing program headers... " +:+ crlf_end) ;;
        mret EFI_LOAD_ERROR
      else mret EFI_SUCCESS.

(** The bytes of a segment, from the (null) buffer to where it belongs. *)
Definition copy_segment (EfiMem PAddr : Z) : K () :=
  cloop (fun Index =>
    filesz ← load64 (ProgramHeader + ph_filesz);
    if Index <? filesz then
      b ← load8 (EfiMem + Index);
      store8 (PAddr + Index) b ;;
      mret (inl (u64 (Index + 1)))
    else mret (inr ())) 0.

(** A segment to be loaded: [Some] status to return, or go on. *)
Definition load_segment (File : Z) : K (option EFI_STATUS) :=
  vaddr ← load64 (ProgramHeader + ph_vaddr);
  let PAddr := if FERAL_VIRT_OFFSET <? vaddr then u64 (vaddr - FERAL_VIRT_OFFSET) else vaddr in
  memsz ← load64 (ProgramHeader + ph_memsz);
  flags ← load32 (ProgramHeader + ph_flags);
  Status ← EfiAllocAddr memsz PAddr (Z.land flags 0x01);
  if negb (Status =? EFI_SUCCESS) then
    say ("EfiAllocAddr failed..." +:+ crlf_end) ;;
    say (EfiErrorToString Status) ;;
    Stall 12500000 ;;
    mret (Some Status)
  else
    offset ← load64 (ProgramHeader + ph_offset);
    Status ← FileSetPosition File offset;
    if negb (Status =? EFI_SUCCESS) then mret (Some Status)
    else
      let EfiMem := 0 in
      filesz ← load64 (ProgramHeader + ph_filesz);
      store64 FileSz filesz ;;
      Status ← FileRead File FileSz EfiMem;
      when (negb (Status =? EFI_SUCCESS))
        (say (EfiErrorToString Status) ;;
         say (" : Failed to load program section." +:+ crlf_end) ;;
         Stall 10000 ;; skip) ;;
      copy_segment EfiMem PAddr ;;
      mret None.

(** The loop over the program headers, bounded by [e_phoff]. *)
Definition load_segments (File : Z) : K (option EFI_STATUS) :=
  cloop (fun Index =>
    phoff ← load64 (InitialHeader + eh_phoff);
    if Index <? phoff then
      phentsize ← load16 (InitialHeader + eh_phentsize);
      FileSetPosition File (u64 (phoff + u32 (phentsize * Index))) ;;
      FileRead File PHdrSize ProgramHeader ;;
      type ← load32 (ProgramHeader + ph_type);
      r ← (if type =? PT_LOAD then load_segment File else mret None : K (option EFI_STATUS));
      match r with
      | Some Status => mret (inr (Some Status))
      | None => mret (inl (u32 (Index + 1)))
      end
    else mret (inr None)) 0.

(** [Entry] is where the entry point is stored. *)
Definition ElfLoadFile (File Entry : Z) : K EFI_STATUS :=
  store64 HdrSize sizeof_ElfHeader64 ;;
  store64 PHdrSize sizeof_ElfProgramHeader64 ;;
  Status ← FileRead File HdrSize InitialHeader;
  if negb (Status =? EFI_SUCCESS) then mret Status
  else
    Status ← ValidateElfHeader InitialHeader;
    if negb (Status =? EFI_SUCCESS) then mret Status
    else
      r ← load_segments File;
      match r with
      | Some Status => mret Status
      | None =>
          e ← load64 (InitialHeader + eh_entry);
          store64 Entry e ;;
          e ← load64 Entry;
          when (FERAL_VIRT_OFFSET <? e)
            (e ← load64 Entry; store64 Entry (u64 (e - FERAL_VIRT_OFFSET))) ;;
          say "Kernel (virt) entry is at: 0x" ;;
          e ← load64 (InitialHeader + eh_entry);
          InternalItoaBaseChange e ElfItoaBuf 16 ;;
          WriteMessage ElfItoaBuf ;;
          say crlf_end ;;
          mret EFI_SUCCESS
      end.

(** What every failure of a call of the firmware does, apart from its text. *)
Definition complain (text : string) (Result : EFI_STATUS) : K () :=
  say (text +:+ crlf_end) ;;
  say (EfiErrorToString Result) ;;
  Stall 12500000 ;;
  skip.

(** Print [v] in base [Radix], through the buffer at [Buf]. *)
Definition say_number (Buf v Radix : Z) : K () :=
  InternalItoaBaseChange v Buf Radix ;;
  WriteMessage Buf.

(** One display of [SetupEfiFramebufferData]: [Some] status to return. *)
Definition setup_display (ImageHandle VideoBuffers_ DisplayBuffers_ Iterator : Z)
    : K (option EFI_STATUS) :=
  h ← load64 (VideoBuffers_ + 8 * Iterator);
  Result ← OpenProtocol h GuidEfiGraphicsOutputProtocol GraphicsProtocol ImageHandle 0
             EFI_OPEN_PROTOCOL_BY_HANDLE_PROTOCOL;
  if negb (Result =? EFI_SUCCESS) then
    complain "Failed to query display..." Result ;; mret (Some Result)
  else
    gp ← load64 GraphicsProtocol;
    Result ← GraphicsSetMode gp PixelRedGreenBlueReserved8BitPerColor;
    if negb (Result =? EFI_SUCCESS) then
      complain "Display does not use 32-bit RGB mode..." Result ;; mret (Some Result)
    else
      gp ← load64 GraphicsProtocol;
      mode ← load64 (gp + gop_Mode);
      inf ← load64 (mode + mode_Info);
      CurrentWidth ← load32 (inf + info_HorizontalResolution);
      gp ← load64 GraphicsProtocol;
      mode ← load64 (gp + gop_Mode);
      inf ← load64 (mode + mode_Info);
      CurrentHeight ← load32 (inf + info_VerticalResolution);
      store64 (DisplayBuffers_ + 8 * (3 * Iterator + 0)) CurrentWidth ;;
      store64 (DisplayBuffers_ + 8 * (3 * Iterator + 1)) CurrentHeight ;;
      gp ← load64 GraphicsProtocol;
      mode ← load64 (gp + gop_Mode);
      base ← load64 (mode + mode_FrameBufferBase);
      store64 (DisplayBuffers_ + 8 * (3 * Iterator + 2)) base ;;
      say "Got display of width: " ;;
      say_number GopItoaBuf CurrentWidth 10 ;;
      say " and height of " ;;
      say_number GopItoaBuf CurrentHeight 10 ;;
      say crlf_end ;;
      say "Which has it's framebuffer at: 0x" ;;
      gp ← load64 GraphicsProtocol;
      mode ← load64 (gp + gop_Mode);
      base ← load64 (mode + mode_FrameBufferBase);
      say_number GopItoaBuf base 16 ;;
      say crlf_end ;;
      mret None.

(** [None] is the end of the function without a [return]: its value may not be
    used, and is not. *)
Definition SetupEfiFramebufferData (ImageHandle VideoBuffers_ DisplayBuffers_ NumDisplays_ : Z)
    : K (option EFI_STATUS) :=
  store64 GraphicsProtocol 0 ;;
  cloop (fun Iterator =>
    if Iterator <? NumDisplays_ then
      r ← setup_display ImageHandle VideoBuffers_ DisplayBuffers_ Iterator;
      match r with
      | Some Result => mret (inr (Some Result))
      | None => mret (inl (u64 (Iterator + 1)))
      end
    else mret (inr None)) 0.
End Loader.

Section Main.
Context `{AS : AddrSpace} `{WL : WideLiterals} `{ES : EfiServices} `{LO : EfiLocals}
  `{HL : HandoverLayout} `{KE : KernelEntry}.

(** Where [MemoryRanges[Iterator]] is. *)
Definition range_slot (Iterator : Z) : K Z :=
  MemoryRanges ← load64 MemoryRangesVar;
  mret (MemoryRanges + Iterator * sizeof_EfiMemoryRange).

(** The range for a descriptor of the firmware's map. *)
Definition convert_descriptor (Iterator : Z) : K () :=
  MemoryMap ← load64 MemoryMapVar;
  let Current := MemoryMap + Iterator * sizeof_EFI_MEMORY_DESCRIPTOR in
  pages ← load64 (Current + md_NumberOfPages);
  let Size := u64 (EFI_PAGE_SIZE * pages) in
  Begin ← load64 (Current + md_PhysicalStart);
  start ← load64 (Current + md_PhysicalStart);
  let End_ := u64 (start + Size) in
  type ← load32 (Current + md_Type);
  (if type =? EfiRuntimeServicesCode then skip
   else type ← load32 (Current + md_Type);
        when (type =? EfiRuntimeServicesData) skip) ;;
  usage ← GetEfiMemoryMapToFreeOrNot Current;
  r ← range_slot Iterator; store32 (r + emr_Usage) usage ;;
  r ← range_slot Iterator; store64 (r + emr_Start) Begin ;;
  r ← range_slot Iterator; store64 (r + emr_End) End_ ;;
  r ← range_slot Iterator; usage ← load32 (r + emr_Usage);
  when (usage =? MM_STRUCTURE_TYPE_FREE_AREA_RANGE)
    (say "MemRange: " ;;
     r ← range_slot Iterator; start ← load64 (r + emr_Start);
     say_number MainItoaBuf start 16 ;;
     say " " ;;
     r ← range_slot Iterator; end_ ← load64 (r + emr_End);
     say_number MainItoaBuf end_ 16 ;;
     say crlf_end).

(** The memory map: how many ranges it has. *)
Definition read_memory_map : K Z :=
  store64 MapSize 0 ;;
  store64 DescriptorSize 0 ;;
  store64 MapKey 0 ;;
  store32 DescriptorVersion 0 ;;
  store64 MemoryMapVar 0 ;;
  mm ← load64 MemoryMapVar;
  GetMemoryMap MapSize mm 0 DescriptorSize 0 ;;
  size ← load64 MapSize;
  dsize ← load64 DescriptorSize;
  store64 MapSize (u64 (size + u64 (Z.shiftl dsize 1))) ;;
  size ← load64 MapSize;
  EfiAllocMaxAddr size MemoryMapVar MAX_INIT_PAGED 0 ;;
  mm ← load64 MemoryMapVar;
  GetMemoryMap MapSize mm MapKey DescriptorSize DescriptorVersion ;;
  size ← load64 MapSize;
  dsize ← load64 DescriptorSize;
  NumMemoryRanges ← udiv size dsize;
  store64 MemoryRangesVar 0 ;;
  EfiAllocMaxAddr (u64 (sizeof_EfiMemoryRange * NumMemoryRanges)) MemoryRangesVar MAX_INIT_PAGED 0 ;;
  mret NumMemoryRanges.

(** The loops over the screen after the firmware is gone: they only read the
    sizes. *)
Definition sweep_display : K () :=
  cloop (fun Row =>
    db ← load64 DisplayBuffers;
    h ← load64 (db + 8 * 1);
    if Row <? h then
      cloop (fun Col =>
        db ← load64 DisplayBuffers;
        w ← load64 (db + 8 * 0);
        if Col <? w then mret (inl (u64 (Col + 1))) else mret (inr ())) 0 ;;
      mret (inl (u64 (Row + 1)))
    else mret (inr ())) 0.

(** The environment block, and the way into the kernel. *)
Definition enter (ImageHandle NumMemoryRanges : Z) : K EFI_STATUS :=
  store64 EnvBlockVar 0 ;;
  ok ← EfiAllocMaxAddr sizeof_EfiBootInfo EnvBlockVar MAX_INIT_PAGED 0;
  when (ok =? 0)
    (say ("Firmware ran out of memory. Trying anyway." +:+ crlf_end) ;; Stall 125000 ;; skip) ;;
  EnvBlock ← load64 EnvBlockVar;
  InternalItoaBaseChange EnvBlock MainItoaBuf 16 ;;
  say "EnvBlock: 0x" ;;
  WriteMessage MainItoaBuf ;;
  say crlf_end ;;
  for_lt 64 NumMemoryRanges 1 convert_descriptor 0 ;;
  EnvBlock ← load64 EnvBlockVar; store64 (EnvBlock + bi_NumMemoryRanges) NumMemoryRanges ;;
  v ← load64 MemoryRangesVar;
  EnvBlock ← load64 EnvBlockVar; store64 (EnvBlock + bi_MemoryRanges) v ;;
  v ← load64 NumDisplaysVar;
  EnvBlock ← load64 EnvBlockVar; store64 (EnvBlock + bi_NumDisplays) v ;;
  v ← load64 DisplayBuffers;
  EnvBlock ← load64 EnvBlockVar; store64 (EnvBlock + bi_FramebufferPAddrs) v ;;
  say ("Terminating firmware services..." +:+ crlf_end) ;;
  key ← load64 MapKey;
  ExitBootServices ImageHandle key ;;
  sweep_display ;;
  EnvBlock ← load64 EnvBlockVar;
  kern_init ← load64 kern_init_var;
  enter_kernel kern_init EnvBlock ;;
  mret EFI_SUCCESS.

(** The kernel's file, from the volume the loader came from. *)
Definition open_kernel (ImageHandle : Z) : K (EFI_STATUS + Z) :=
  store64 LoadedImageProtocol 0 ;;
  Result ← OpenProtocol ImageHandle GuidEfiLoadedImageProtocol LoadedImageProtocol ImageHandle 0
             EFI_OPEN_PROTOCOL_BY_HANDLE_PROTOCOL;
  if negb (Result =? EFI_SUCCESS) then
    complain "OpenProtocol had error (loaded image)..." Result ;; mret (inl Result)
  else
    store64 FileSysProtocol 0 ;;
    lip ← load64 LoadedImageProtocol;
    dev ← load64 (lip + li_DeviceHandle);
    Result ← OpenProtocol dev GuidEfiSimpleFSProtocol FileSysProtocol ImageHandle 0
               EFI_OPEN_PROTOCOL_GET_PROTOCOL;
    if negb (Result =? EFI_SUCCESS) then
      complain "OpenProtocol had error (simple FS).." Result ;; mret (inl Result)
    else
      store64 ESPRoot 0 ;;
      fs ← load64 FileSysProtocol;
      OpenVolume fs ESPRoot ;;
      store64 KernelImageVar 0 ;;
      root ← load64 ESPRoot;
      Result ← FileOpen root KernelImageVar KernelLoc EFI_FILE_MODE_READ EFI_FILE_READ_ONLY;
      if negb (Result =? EFI_SUCCESS) then
        complain "Kernel could not be initialized..." Result ;; mret (inl Result)
      else
        f ← load64 KernelImageVar;
        mret (inr f).

(** [SystemTable] is the table of [EfiServices]. *)
Definition uefi_main (mImageHandle : Z) : K EFI_STATUS :=
  let ImageHandle := mImageHandle in
  SetWatchdogTimer 0 0 0 0 ;;
  store64 VideoBuffers 0 ;;
  store64 kern_init_var 0 ;;
  store64 NumDisplaysVar 0 ;;
  Result ← LocateHandleBuffer ByProtocol GuidEfiGraphicsOutputProtocol 0 NumDisplaysVar VideoBuffers;
  if negb (Result =? EFI_SUCCESS) then mret Result
  else
    ClearScreen ;;
    say ("Starting Feralboot..." +:+ chr 10) ;;
    store64 DisplayBuffers 0 ;;
    n ← load64 NumDisplaysVar;
    EfiAllocMaxAddr (u64 (u64 (8 * n) * 3)) DisplayBuffers (2 * 1024 * 1024) 0 ;;
    vb ← load64 VideoBuffers;
    db ← load64 DisplayBuffers;
    n ← load64 NumDisplaysVar;
    SetupEfiFramebufferData ImageHandle vb db n ;;
    f ← open_kernel ImageHandle;
    match f with
    | inl Result => mret Result
    | inr KernelImage =>
        Result ← ElfLoadFile KernelImage kern_init_var;
        when (negb (Result =? EFI_SUCCESS))
          (say (EfiErrorToString Result) ;;
           Stall 125000 ;;
           ResetSystem EfiResetShutdown EFI_SUCCESS 0 0) ;;
        kern_init ← load64 kern_init_var;
        InternalItoaBaseChange kern_init MainItoaBuf 16 ;;
        say "Got entry point: 0x" ;;
        WriteMessage MainItoaBuf ;;
        say crlf_end ;;
        f ← load64 KernelImageVar;
        FileClose f ;;
        NumMemoryRanges ← read_memory_map;
        enter ImageHandle NumMemoryRanges
    end.
End Main.

(** ** Sizes in pages *)

(** C39: the number of pages [BytesToEfiPages] asks the firmware for is the
    number of whole pages, or one more; it is never zero.  The pages are too few
    for the bytes exactly when the number of whole pages is a positive multiple
    of 4096 and a part of a page is left over: the code tests whether the number
    of pages, not the number of bytes, is a multiple of the page size. *)
Theorem BytesToEfiPages_bounds (Bytes : Z) :
  0 <= Bytes < 2 ^ 64 ->
  let pages := BytesToEfiPages Bytes in
  1 <= pages <= 2 ^ 52
  /\ Bytes / EFI_PAGE_SIZE <= pages <= Bytes / EFI_PAGE_SIZE + 1
  /\ (pages * EFI_PAGE_SIZE < Bytes <->
        2 ^ 24 <= Bytes /\ (Bytes / EFI_PAGE_SIZE) mod EFI_PAGE_SIZE = 0 /\ Bytes mod EFI_PAGE_SIZE <> 0).
Proof.
  intros HB. cbv zeta. unfold BytesToEfiPages, EFI_PAGE_SHIFT, EFI_PAGE_SIZE.
  rewrite Z.shiftr_div_pow2 by lia. change (2 ^ 12) with 4096.
  assert (0 <= Bytes / 4096 < 2 ^ 52) by dlia.
  destruct (Z.eqb_spec ((Bytes / 4096) mod 4096) 0), (Z.eqb_spec (Bytes / 4096) 0); cbn [negb orb];
    try (rewrite u_small by lia); split_and?; dlia.
Qed.

Lemma BytesToEfiPages_bounds_witness :
  0 <= 0x1000001 < 2 ^ 64 /\ BytesToEfiPages 0x1000001 * EFI_PAGE_SIZE < 0x1000001.
Proof.
  split; [lia|]. destruct (BytesToEfiPages_bounds 0x1000001 ltac:(lia)) as (_ & _ & H).
  apply H. split; [lia|]. split; [reflexivity|discriminate].
Defined.

(** ** Loading the kernel *)

Definition elf_magic : list Z := [0x7F; 69; 76; 70].

(** The header at [p] has the magic number and names no machine or this one. *)
Definition ident_ok (m : gmap Z Z) (p : Z) : bool :=
  bool_decide (read_bytes m p 4 = elf_magic)
  && ((rdn 2 m (p + eh_machine) =? MACHINE_ID_NONE) || (rdn 2 m (p + eh_machine) =? CUR_ARCH_ELF)).

Section Header.
Context {AS : AddrSpace} {WL : WideLiterals} {ES : EfiServices}.

Definition magic_step (Header Index : Z) : K (Z + bool) :=
  if Index <? 4 then
    c ← load8 (Header + eh_magic + Index);
    if negb (c =? nth (Z.to_nat Index) elf_magic 0) then mret (inr false)
    else mret (inl (u32 (Index + 1)))
  else mret (inr true).

Lemma magic_step_ok Header p i k :
  window Header p 4 -> 0 <= i < 4 ->
  magic_step Header i k =
    Ok (if rb (ram k) (p + i) =? nth (Z.to_nat i) elf_magic 0 then inl (i + 1) else inr false) k.
Proof.
  intros W Hi. unfold magic_step, eh_magic. rewrite (proj2 (Z.ltb_lt i 4)), Z.add_0_r by lia.
  kstep (load8_at Header p 4 i k W Hi). rewrite u_small by lia.
  by destruct (_ =? nth _ _ _).
Qed.

Lemma magic_ok Header p k :
  window Header p 4 ->
  cloop (magic_step Header) 0 k = Ok (bool_decide (read_bytes (ram k) p 4 = elf_magic)) k.
Proof.
  intros W. apply (cloop_rounds 5); [|done].
  pose proof (fun i => magic_step_ok Header p i k W) as Hs.
  pose proof (Hs 0 ltac:(lia)) as E0. pose proof (Hs 1 ltac:(lia)) as E1.
  pose proof (Hs 2 ltac:(lia)) as E2. pose proof (Hs 3 ltac:(lia)) as E3.
  assert (magic_step Header 4 k = Ok (inr true) k) as E4 by done. clear Hs.
  change (nth (Z.to_nat 0) elf_magic 0) with 0x7F in E0. change (nth (Z.to_nat 1) elf_magic 0) with 69 in E1.
  change (nth (Z.to_nat 2) elf_magic 0) with 76 in E2. change (nth (Z.to_nat 3) elf_magic 0) with 70 in E3.
  unfold read_bytes, elf_magic. rewrite Z.add_0_r in E0. rewrite <- !Z.add_assoc.
  change (1 + 1) with 2. change (1 + 2) with 3.
  repeat match goal with
  | E : magic_step Header ?i k = Ok (if ?x =? ?y then _ else _) k |- context [rounds (S _) _ ?i k] =>
      destruct (Z.eqb_spec x y);
      [rewrite (rounds_inl _ _ _ _ _ _ E); cbn [Z.add]
      |rewrite (rounds_inr _ _ _ _ _ _ E), bool_decide_eq_false_2 by congruence; done]
  end.
  rewrite (rounds_inr _ _ _ _ _ _ E4), bool_decide_eq_true_2 by congruence. done.
Qed.

Lemma ValidateElfHeader_ok Header p k :
  window Header p sizeof_ElfHeader64 ->
  ValidateElfHeader Header k =
    (if ident_ok (ram k) p then
       if rdn 2 (ram k) (p + eh_phnum) =? 0 then
         say ("Not an executable: missing program headers... " +:+ crlf_end) ;; mret EFI_LOAD_ERROR
       else mret EFI_SUCCESS
     else mret EFI_LOAD_ERROR) k.
Proof.
  unfold sizeof_ElfHeader64. intros W. unfold ValidateElfHeader, ident_ok, load16, eh_machine, eh_phnum.
  fold (magic_step Header).
  assert (window Header p 4) as W4 by (apply (window_le _ _ 60); [done|lia]).
  kstep (magic_ok Header p k W4). destruct (bool_decide _); cbn [negb andb]; [|done].
  wstep W. destruct (rdn 2 (ram k) (p + 18) =? MACHINE_ID_NONE); cbn [negb andb orb].
  - wstep W. by destruct (_ =? 0).
  - destruct (rdn 2 (ram k) (p + 18) =? CUR_ARCH_ELF); cbn [negb]; [|done]. wstep W. by destruct (_ =? 0).
Qed.
End Header.

(** The [n]-byte field at offset [o] of a file. *)
Definition field (n : nat) (file : list Z) (o : Z) : Z := le_val (take n (drop (Z.to_nat o) file)).

Lemma rdn_field n m p len file a o :
  read_bytes m p len = take len (drop (Z.to_nat a) file) -> 0 <= a -> 0 <= o ->
  o + Z.of_nat n <= Z.of_nat len -> rdn n m (p + o) = field n file (a + o).
Proof.
  intros H Ha Ho Hn. unfold rdn, field. rewrite <- (Z2Nat.id o) at 1 by lia.
  rewrite (read_bytes_slice m p len) by lia. rewrite H, skipn_firstn_comm, take_take, drop_drop.
  do 2 f_equal; [lia|]. f_equal. lia.
Qed.

Section Loading.
Context {AS : AddrSpace} {WL : WideLiterals} {ES : EfiServices} {LO : EfiLocals}.

(** The firmware's own memory, an open file with its contents, and where the
    firmware stands in it. *)
Variables (fw : Z -> Prop) (File : Z) (file : list Z) (pos_at : kernel -> Z -> Prop).

(** The firmware writes no memory but its own. *)
Definition fw_kept (k k' : kernel) : Prop := forall q, ~ fw q -> rb (ram k') q = rb (ram k) q.

(** What the UEFI specification says of the console, the timer and a file: a
    read of [n] bytes that the file has puts them where it is told, and leaves
    the count at [n]. *)
Record EfiLaws : Prop := mkEfiLaws {
  el_print : forall s k, exists st k', OutputString s k = Ok st k' /\ fw_kept k k';
  el_stall : forall t k, exists st k', Stall t k = Ok st k' /\ fw_kept k k';
  el_seek : forall pos k, 0 <= pos <= zlen file ->
    exists k', FileSetPosition File pos k = Ok EFI_SUCCESS k' /\ fw_kept k k' /\ pos_at k' pos;
  el_pos : forall m k pos, (forall q, fw q -> rb m q = rb (ram k) q) ->
    pos_at k pos -> pos_at (with_ram m k) pos;
  el_read : forall sz szp buf bufp n pos k,
    window sz szp 8 -> window buf bufp n -> szp + 8 <= bufp \/ bufp + n <= szp ->
    (forall q, szp <= q < szp + 8 \/ bufp <= q < bufp + n -> ~ fw q) ->
    rdn 8 (ram k) szp = n -> 0 <= n -> 0 <= pos -> pos_at k pos -> pos + n <= zlen file ->
    exists k', FileRead File sz buf k = Ok EFI_SUCCESS k' /\
      read_bytes (ram k') bufp (Z.to_nat n) = take (Z.to_nat n) (drop (Z.to_nat pos) file) /\
      forall q, ~ fw q -> ~ (bufp <= q < bufp + n) -> rb (ram k') q = rb (ram k) q;
}.

(** The locals of [ElfLoadFile] in physical memory. *)
Variables (hs ps ih ph : Z).
Definition elf_local (q : Z) : Prop :=
  hs <= q < hs + 8 \/ ps <= q < ps + 8 \/ ih <= q < ih + 60 \/ ph <= q < ph + 56.

Record elf_locals : Prop := mkElfLocals {
  lo_hs : window HdrSize hs 8;
  lo_ps : window PHdrSize ps 8;
  lo_ih : window InitialHeader ih 60;
  lo_ph : window ProgramHeader ph 56;
  lo_apart : hs + 8 <= ps /\ ps + 8 <= ih /\ ih + 60 <= ph;
  lo_fw : forall q, elf_local q -> ~ fw q;
}.

(** An allocation at a given address succeeds. *)
Definition allocates : Prop := forall ty pages ptr k,
  exists k', AllocatePages AllocateAddress ty pages ptr k = Ok EFI_SUCCESS k' /\ fw_kept k k'.

(** Where the loop looks for program header [i]. *)
Definition header_pos (i : Z) : Z :=
  u64 (field 8 file eh_phoff + u32 (field 2 file eh_phentsize * i)).

(** The file is an ELF file for this machine, and [j] is the first program
    header, of those the loop looks at, to be loaded. *)
Record loadable (j : Z) : Prop := mkLoadable {
  ld_size : sizeof_ElfHeader64 <= zlen file;
  ld_magic : take 4 file = elf_magic;
  ld_machine : field 2 file eh_machine = MACHINE_ID_NONE \/ field 2 file eh_machine = CUR_ARCH_ELF;
  ld_phnum : field 2 file eh_phnum <> 0;
  ld_first : 0 <= j < field 8 file eh_phoff /\ j < 2 ^ 32 - 1;
  ld_headers : forall i, 0 <= i <= j -> header_pos i + sizeof_ElfProgramHeader64 <= zlen file;
  ld_skipped : forall i, 0 <= i < j -> field 4 file (header_pos i) <> PT_LOAD;
  ld_load : field 4 file (header_pos j) = PT_LOAD;
}.

Context (EL : EfiLaws) (LL : elf_locals) (AL : allocates).

Lemma say_ok s k : exists k', say s k = Ok () k' /\ fw_kept k k'.
Proof. destruct (el_print EL (wlit s) k) as (st & k' & E & H). exists k'. split; [|done]. unfold say. by kstep E. Qed.

Lemma fw_kept_trans k1 k2 k3 : fw_kept k1 k2 -> fw_kept k2 k3 -> fw_kept k1 k3.
Proof. intros H1 H2 q Hq. by rewrite H2, H1. Qed.

(** A segment: the allocation succeeds, and the loader gives up. *)
Lemma load_segment_ok k :
  exists k', load_segment File k = Ok (Some 1) k' /\ fw_kept k k'.
Proof using EL LL AL.
  pose proof (lo_ph LL) as W. unfold load_segment, load64, load32, ph_vaddr, ph_memsz, ph_flags.
  wstep W. cbv zeta. do 2 wstep W. unfold EfiAllocAddr. rewrite bind_assoc.
  match goal with |- context [AllocatePages AllocateAddress ?ty ?n ?ptr] =>
    destruct (AL ty n ptr k) as (k1 & E1 & H1) end. kstep E1.
  kstep (ret_ok (b2z (EFI_SUCCESS =? EFI_SUCCESS)) k1). cbn [negb b2z Z.eqb].
  destruct (say_ok ("EfiAllocAddr failed..." +:+ crlf_end) k1) as (k2 & E2 & H2). 
  destruct (say_ok (EfiErrorToString 1) k2) as (k3 & E3 & H3).
  destruct (el_stall EL 12500000 k3) as (st & k4 & E4 & H4).
  exists k4. split; [|eauto using fw_kept_trans].
  change (negb (b2z (EFI_SUCCESS =? EFI_SUCCESS) =? EFI_SUCCESS)) with true. cbv iota.
  kstep E2. kstep E3. by kstep E4.
Qed.

Definition segment_step (Index : Z) : K (Z + option EFI_STATUS) :=
  phoff ← load64 (InitialHeader + eh_phoff);
  if Index <? phoff then
    phentsize ← load16 (InitialHeader + eh_phentsize);
    FileSetPosition File (u64 (phoff + u32 (phentsize * Index))) ;;
    FileRead File PHdrSize ProgramHeader ;;
    type ← load32 (ProgramHeader + ph_type);
    r ← (if type =? PT_LOAD then load_segment File else mret None : K (option EFI_STATUS));
    match r with
    | Some Status => mret (inr (Some Status))
    | None => mret (inl (u32 (Index + 1)))
    end
  else mret (inr None).

(** The file's header is in [InitialHeader], and only locals have changed. *)
Definition header_read (k0 k : kernel) : Prop :=
  read_bytes (ram k) ih 60 = take 60 file /\ rdn 8 (ram k) ps = sizeof_ElfProgramHeader64 /\
  forall q, ~ fw q -> ~ elf_local q -> rb (ram k) q = rb (ram k0) q.

Lemma header_field k0 k n o :
  header_read k0 k -> 0 <= o -> o + Z.of_nat n <= 60 -> rdn n (ram k) (ih + o) = field n file o.
Proof. intros (H & _) ? ?. rewrite (rdn_field n (ram k) ih 60 file 0 o) by (done || lia). done. Qed.

Lemma header_read_kept k0 k k' :
  header_read k0 k ->
  (forall q, ~ fw q -> ~ (ph <= q < ph + 56) -> rb (ram k') q = rb (ram k) q) -> header_read k0 k'.
Proof using LL.
  intros (H1 & H2 & H3) H. pose proof (lo_apart LL).
  assert (forall q, elf_local q -> q < ph -> rb (ram k') q = rb (ram k) q) as H'.
  { intros q Hq ?. apply H; [by apply (lo_fw LL)|lia]. }
  split; [|split].
  - rewrite <- H1. apply read_bytes_ext. intros q Hq. apply H'; [|lia]. unfold elf_local. lia.
  - rewrite <- H2. apply rdn_ext. intros q Hq. apply H'; [|lia]. unfold elf_local. lia.
  - intros q Hq Hl. rewrite H; [by apply H3|done|]. unfold elf_local in Hl. lia.
Qed.

(** One round, on a header that lies in the file. *)
Lemma segment_step_ok j i k0 k :
  loadable j -> 0 <= i <= j -> header_read k0 k ->
  exists k', segment_step i k = Ok (if i =? j then inr (Some 1) else inl (i + 1)) k' /\ header_read k0 k'.
Proof using EL LL AL.
  intros [_ _ _ _ Hj Hh Hs Hl] Hi Hr. pose proof (lo_ih LL) as Wi. pose proof (lo_ph LL) as Wp.
  pose proof (lo_apart LL).
  unfold segment_step, eh_phoff, eh_phentsize, load64, load32, load16, ph_type. wstep Wi.
  rewrite (header_field k0 k 8 32) by (done || lia). unfold eh_phoff in Hj. rewrite (proj2 (Z.ltb_lt i _)) by lia.
  wstep Wi. rewrite (header_field k0 k 2 54) by (done || lia).
  change (u64 (field 8 file 32 + u32 (field 2 file 54 * i))) with (header_pos i).
  specialize (Hh i Hi). unfold sizeof_ElfProgramHeader64 in Hh.
  assert (0 <= header_pos i) as Hp by (apply (u_range 64); lia).
  destruct (el_seek EL (header_pos i) k ltac:(lia)) as (k1 & E1 & H1 & P1). kstep E1.
  assert (header_read k0 k1) as Hr1 by (eapply header_read_kept; [done|by intros; apply H1]).
  destruct (el_read EL PHdrSize ps ProgramHeader ph 56 (header_pos i) k1 (lo_ps LL) Wp) as (k2 & E2 & B2 & H2);
    try done; try lia.
  { intros q Hq. apply (lo_fw LL). unfold elf_local. lia. }
  { apply Hr1. }
  kstep E2. assert (header_read k0 k2) as Hr2 by by eapply header_read_kept.
  wstep Wp. rewrite (rdn_field 4 (ram k2) ph 56 file (header_pos i) 0), Z.add_0_r by (done || lia).
  destruct (Z.eqb_spec i j) as [->|Hne].
  - rewrite Hl, Z.eqb_refl. destruct (load_segment_ok k2) as (k3 & E3 & H3). kstep E3.
    exists k3. split; [done|]. eapply header_read_kept; [done|by intros; apply H3].
  - rewrite (proj2 (Z.eqb_neq _ PT_LOAD)) by (apply Hs; lia). kstep (ret_ok (None : option EFI_STATUS) k2).
    exists k2. rewrite u_small by (destruct Hj; lia). done.
Qed.

Lemma segments_rounds j n : forall i k0 k,
  loadable j -> 0 <= i -> i + Z.of_nat n = j -> header_read k0 k ->
  exists k', rounds (S n) segment_step i k = Ok (inr (Some 1)) k' /\ header_read k0 k'.
Proof using EL LL AL.
  induction n as [|n IH]; intros i k0 k Hl Hi Hj Hr;
    destruct (segment_step_ok j i k0 k Hl ltac:(lia) Hr) as (k1 & E1 & H1).
  - rewrite (proj2 (Z.eqb_eq i j)) in E1 by lia. exists k1. split; [by apply rounds_inr|done].
  - rewrite (proj2 (Z.eqb_neq i j)) in E1 by lia. rewrite (rounds_inl _ _ _ _ _ _ E1). apply IH; done || lia.
Qed.

(** Reading the header of the file. *)
Lemma read_header_ok k :
  sizeof_ElfHeader64 <= zlen file -> pos_at k 0 ->
  exists k', header_read k k' /\ forall A (f : EFI_STATUS -> K A),
    (store64 HdrSize sizeof_ElfHeader64 ;; store64 PHdrSize sizeof_ElfProgramHeader64 ;;
     Status ← FileRead File HdrSize InitialHeader; f Status) k = f EFI_SUCCESS k'.
Proof using EL LL.
  unfold sizeof_ElfHeader64, sizeof_ElfProgramHeader64, store64. intros Hsz Hp. pose proof (lo_apart LL).
  set (m := wrn 8 (wrn 8 (ram k) hs 60) ps 56).
  assert (forall q, elf_local q -> ~ fw q) as Hfw by apply (lo_fw LL).
  assert (forall q, ~ elf_local q -> rb m q = rb (ram k) q) as Hm.
  { intros q Hq. unfold elf_local in Hq. unfold m. by rewrite !rb_wrn_other by lia. }
  assert (rdn 8 m hs = 60 /\ rdn 8 m ps = 56) as [Hh Hps].
  { unfold m. rewrite rdn_wrn_other, !rdn_wrn_same by lia. done. }
  destruct (el_read EL HdrSize hs InitialHeader ih 60 0 (with_ram m k) (lo_hs LL) (lo_ih LL))
    as (k1 & E & B & Hf); rewrite ?ram_with_ram in *; try done; try lia.
  { intros q Hq. apply Hfw. unfold elf_local. lia. }
  { apply (el_pos EL); [|done]. intros q Hq. apply Hm. intros Hl. by apply (Hfw q). }
  exists k1. split; [split; [exact B|split]|].
  - unfold sizeof_ElfProgramHeader64. rewrite <- Hps. apply rdn_ext. intros q Hq.
    apply Hf; [apply Hfw; unfold elf_local; lia|lia].
  - intros q Hq Hl. rewrite Hf, Hm; [done|done|done|]. unfold elf_local in Hl. lia.
  - intros A f. kstep (storen_ok 8 HdrSize hs 60 k (lo_hs LL)).
    kstep (storen_ok 8 PHdrSize ps 56 (with_ram (wrn 8 (ram k) hs 60) k) (lo_ps LL)).
    rewrite with_ram_with_ram, ram_with_ram. fold m. by kstep E.
Qed.

(** C38: the loader cannot load a kernel.  Given an ELF file for this machine
    with a program header to load, and a firmware that grants every allocation
    at a fixed address, [ElfLoadFile] gives up at that header with status 1:
    [EfiAllocAddr] returns a truth value, which the caller
    compares with [EFI_SUCCESS].  No memory but the firmware's own and the locals
    of the loader is written; in particular the entry point is not. *)
Theorem ElfLoadFile_gives_up (Entry j : Z) (k : kernel) :
  loadable j -> pos_at k 0 ->
  exists k', ElfLoadFile File Entry k = Ok 1 k' /\
    forall q, ~ fw q -> ~ elf_local q -> rb (ram k') q = rb (ram k) q.
Proof using EL LL AL.
  intros Hl Hp. pose proof Hl as [Hsz Hmg Hmc Hpn Hj _ _ _].
  destruct (read_header_ok k Hsz Hp) as (k1 & H1 & E1).
  destruct (segments_rounds j (Z.to_nat j) 0 k k1 Hl ltac:(lia) ltac:(lia) H1) as (k2 & E2 & H2).
  exists k2. split; [|apply H2]. unfold ElfLoadFile. rewrite E1.
  change (negb (EFI_SUCCESS =? EFI_SUCCESS)) with false. cbv iota.
  assert (ident_ok (ram k1) ih = true) as Hid.
  { unfold ident_ok. rewrite (header_field k k1 2 eh_machine) by (done || unfold eh_machine; lia).
    rewrite bool_decide_eq_true_2; [destruct Hmc as [->| ->]; done|].
    destruct H1 as [H1 _]. replace ih with (ih + Z.of_nat 0) by lia.
    rewrite (read_bytes_slice _ _ 60), H1 by lia. rewrite drop_0, take_take. exact Hmg. }
  assert (ValidateElfHeader InitialHeader k1 = Ok EFI_SUCCESS k1) as Ev.
  { rewrite (ValidateElfHeader_ok InitialHeader ih k1 (lo_ih LL)), Hid.
    rewrite (header_field k k1 2 eh_phnum) by (done || unfold eh_phnum; lia).
    by rewrite (proj2 (Z.eqb_neq _ 0)). }
  assert (load_segments File k1 = Ok (Some 1) k2) as El.
  { apply (cloop_rounds (S (Z.to_nat j))); [exact E2|]. unfold FUEL. lia. }
  kstep Ev. change (negb (EFI_SUCCESS =? EFI_SUCCESS)) with false. cbv iota. by kstep El.
Qed.
End Loading.

(** ** A sample firmware, which serves one file and grants every request *)

Fixpoint store_list `{AddrSpace} (a : Z) (bs : list Z) : K () :=
  match bs with
  | [] => skip
  | b :: bs => store8 a b ;; store_list (a + 1) bs
  end.

Lemma store_list_ok `{AddrSpace} a p bs k :
  window a p (zlen bs) -> Forall byte bs -> store_list a bs k = Ok () (with_ram (write_bytes (ram k) p bs) k).
Proof.
  intros W Hb. revert a p k W. induction Hb as [|b bs Hb _ IH]; intros a p k W; cbn [store_list write_bytes].
  - by rewrite with_ram_id.
  - rewrite zlen_cons in W. pose proof (zlen_nonneg bs).
    assert (window a p 1) as W1 by (apply (window_le _ _ (1 + zlen bs)); [done|lia]).
    kstep (store8_ok a p b k W1). rewrite (u_small 8 b) by exact Hb.
    rewrite (IH (a + 1) (p + 1)) by (apply (window_sub _ _ (1 + zlen bs)); [done|lia..]).
    rewrite with_ram_with_ram, ram_with_ram. done.
Qed.

(** A read at the position fw_kept in [timer]. *)
Definition sample_read (file : list Z) (File SizeP Buf : Z) : K EFI_STATUS :=
  n ← load64 (AS := boot_space) SizeP;
  pos ← gets timer;
  let bs := take (Z.to_nat n) (drop (Z.to_nat pos) file) in
  store_list (H := boot_space) Buf bs ;;
  when (negb (zlen bs =? n)) (store64 (AS := boot_space) SizeP (zlen bs)) ;;
  modify (with_timer (pos + zlen bs)) ;;
  mret EFI_SUCCESS.

Definition sample_firmware (file : list Z) : EfiServices :=
  let ok : K EFI_STATUS := mret EFI_SUCCESS in
  mkEfiServices (fun _ => ok) ok (fun _ => ok) (fun _ _ _ _ => ok) (fun _ _ _ _ => ok) (fun _ _ _ => ok)
    (fun _ _ _ _ _ => ok) (fun _ _ => ok) (fun _ _ _ _ => skip) (fun _ _ _ _ _ => ok)
    (fun _ _ _ _ _ _ => ok) (fun _ _ => ok) (fun _ _ => ok) (fun _ _ _ _ _ => ok) (sample_read file)
    (fun _ pos => modify (with_timer pos) ;; ok) (fun _ => ok).

Definition no_memory : Z -> Prop := fun _ => False.
Definition at_timer (k : kernel) (pos : Z) : Prop := timer k = pos.

Lemma sample_firmware_lawful File file :
  Forall byte file ->
  EfiLaws (AS := boot_space) (ES := sample_firmware file) no_memory File file at_timer.
Proof.
  intros Hb. constructor.
  - intros s k. by exists EFI_SUCCESS, k.
  - intros t k. by exists EFI_SUCCESS, k.
  - intros pos k _. eexists. split; [reflexivity|]. by destruct k.
  - intros m k pos _. by destruct k.
  - intros sz szp buf bufp n pos k Ws Wb Hd _ Hn Hn0 Hp Hpos Hlen.
    set (bs := take (Z.to_nat n) (drop (Z.to_nat pos) file)).
    assert (zlen bs = n) as Hbs.
    { unfold bs, zlen in *. rewrite length_take, length_drop. lia. }
    exists (with_timer (pos + n) (with_ram (write_bytes (ram k) bufp bs) k)).
    assert (ram (with_timer (pos + n) (with_ram (write_bytes (ram k) bufp bs) k)) = write_bytes (ram k) bufp bs)
      as Er by by destruct k.
    rewrite Er. split; [|split].
    + unfold FileRead, sample_firmware, sample_read, load64. kstep (loadn_ok 8 sz szp k Ws).
      assert (gets timer k = Ok pos k) as Eg by (unfold at_timer in Hpos; by rewrite <- Hpos).
      kstep Eg. rewrite Hn. fold bs. cbv zeta. rewrite <- Hbs in Wb.
      assert (Forall byte bs) as Hbb by by apply Forall_take, Forall_drop.
      kstep (store_list_ok buf bufp bs k Wb Hbb). rewrite Hbs, Z.eqb_refl. done.
    + pose proof (read_write_same (ram k) bufp bs) as E. unfold zlen in Hbs.
      by replace (length bs) with (Z.to_nat n) in E by lia.
    + intros q _ Hq. apply rb_write_other. lia.
Qed.

(** An image with two program headers: a note, and one segment to load. *)
Definition program_header (type : Z) : list Z :=
  le_bytes 4 type ++ le_bytes 4 5 ++ le_bytes 8 172 ++ le_bytes 8 0xFFFFFFFFC0100000 ++
  le_bytes 8 0x100000 ++ le_bytes 8 4 ++ le_bytes 8 4096 ++ le_bytes 8 4096.
Definition sample_elf : list Z :=
  elf_magic ++ [2; 1; 1; 0] ++ le_bytes 8 0 ++ le_bytes 2 2 ++ le_bytes 2 CUR_ARCH_ELF ++ le_bytes 4 1 ++
  le_bytes 8 0xFFFFFFFFC0100000 ++ le_bytes 8 60 ++ le_bytes 8 0 ++ le_bytes 4 0 ++ le_bytes 2 60 ++
  le_bytes 2 56 ++ le_bytes 2 2 ++ le_bytes 2 0 ++
  program_header 4 ++ program_header PT_LOAD ++ [0xF4; 0xF4; 0xF4; 0xF4].

Definition sample_efi_locals : EfiLocals :=
  mkEfiLocals 0x1000 0x1010 0x1020 0x1030 0x1040 0x2100 0x2200 0x2000 0x2010 0x2020 0x2300 0x3000 0x3010
    0x3100 0x3200 0x3210 0x3220 0x3230 0x3240 0x3250 0x3260 0x3270 0x3280 0x3290 0x32A0 0x32B0 0x32C0 0x32D0 0x32E0.

Lemma sample_elf_loadable : loadable sample_elf 1.
Proof.
  constructor.
  - vm_compute. discriminate.
  - reflexivity.
  - by right.
  - vm_compute. discriminate.
  - split; [split|]; vm_compute; done.
  - intros i Hi. assert (i = 0 \/ i = 1) as [->| ->] by lia; vm_compute; done.
  - intros i Hi. assert (i = 0) as -> by lia. vm_compute. done.
  - reflexivity.
Qed.

Lemma sample_elf_locals :
  elf_locals (AS := boot_space) (LO := sample_efi_locals) no_memory 0x2000 0x2010 0x2100 0x2200.
Proof. constructor; try (apply boot_window_low; lia); [lia|]. intros q _ []. Qed.

Lemma ElfLoadFile_gives_up_witness :
  exists k', ElfLoadFile (AS := boot_space) (WL := fun _ => 0) (ES := sample_firmware sample_elf)
      (LO := sample_efi_locals) 0x4000 0x3260 kernel0 = Ok 1 k'.
Proof.
  destruct (ElfLoadFile_gives_up (AS := boot_space) (WL := fun _ => 0) (ES := sample_firmware sample_elf)
    (LO := sample_efi_locals) no_memory 0x4000 sample_elf at_timer 0x2000 0x2010 0x2100 0x2200)
    with (Entry := 0x3260) (j := 1) (k := kernel0) as (k' & E & _).
  - apply sample_firmware_lawful. vm_compute. repeat constructor; discriminate.
  - apply sample_elf_locals.
  - intros ty n ptr k. by exists k.
  - apply sample_elf_loadable.
  - reflexivity.
  - exists k'. exact E.
Defined.
