(* ===== verification/CTypes.v ===== *)
(** * The types of C and their layout

    The declarations of the kernel's headers as data, and where the x86_64
    System V rules, which the program's compilers follow, put the members of a
    structure: natural alignment, [packed] structures, unions, bit-fields,
    enumerations and unnamed members.  Positions are in bits, so that members
    and bit-fields are treated alike.  The second half is about memory:
    assigning to a member and reading members back. *)

From S2P Require Import Prelude Machine.
From Stdlib Require Import Sorted.

(** ** Types *)

(** A structure's members are a name (empty for an unnamed member), the width
    of a bit-field, and the type.  [TTag] is a structure or an object named
    before, or without, its declaration. *)
Inductive ctype :=
| TVoid
| TInt (signed : bool) (bytes : Z)
| TFloat (bytes : Z)
| TEnum (values : list (string * Z))
| TPtr (t : ctype)
| TArray (t : ctype) (n : Z)
| TFun (ret : ctype) (params : list ctype)
| TTag (tag : string)
| TStruct (packed : bool) (members : list (string * option Z * ctype))
| TUnion (packed : bool) (members : list (string * option Z * ctype)).

Abbreviation member := (string * option Z * ctype)%type.

Definition fld (f : string) (t : ctype) : member := (f, None, t).
Definition bits (f : string) (t : ctype) (w : Z) : member := (f, Some w, t).
Definition unnamed (t : ctype) : member := (EmptyString, None, t).

(** A pointer to a function. *)
Definition TFunPtr (ret : ctype) (params : list ctype) : ctype := TPtr (TFun ret params).

(** Enumerators: each is its predecessor plus one, unless it is given. *)
Fixpoint enumerate_from (next : Z) (es : list (string * option Z)) : list (string * Z) :=
  match es with
  | [] => []
  | (e, v) :: es =>
      let v := default next v in (e, v) :: enumerate_from (v + 1) es
  end.
Definition enumerate : list (string * option Z) -> list (string * Z) := enumerate_from 0.
Definition enum (es : list (string * option Z)) : ctype := TEnum (enumerate es).
Definition auto (e : string) : string * option Z := (e, None).
Definition given (e : string) (v : Z) : string * option Z := (e, Some v).

(** An enumeration is four bytes wide where its values fit into an [int] or an
    [unsigned], else eight. *)
Definition fits (lo hi : Z) (vs : list (string * Z)) : bool :=
  forallb (fun v => (lo <=? v.2) && (v.2 <? hi)) vs.
Definition enum_bytes (vs : list (string * Z)) : Z :=
  if fits 0 (2 ^ 32) vs || fits (- 2 ^ 31) (2 ^ 31) vs then 4 else 8.

(** ** Alignment and size *)

Definition align_up (a x : Z) : Z := (x + a - 1) / a * a.

Fixpoint alignof (t : ctype) : Z :=
  match t with
  | TInt _ n | TFloat n => n
  | TEnum vs => enum_bytes vs
  | TPtr _ => 8
  | TArray t _ => alignof t
  | TStruct false ms | TUnion false ms =>
      fold_left (fun a m => Z.max a (alignof m.2)) ms 1
  | TVoid | TFun _ _ | TTag _ | TStruct true _ | TUnion true _ => 1
  end.

(** Where a member of the given size and alignment starts, when the members
    before it end at bit [pos]: a bit-field may not cross a boundary of its
    declared type, unless the structure is packed. *)
Definition place (packed : bool) (pos : Z) (w : option Z) (size align : Z) : Z :=
  match w with
  | None => align_up (8 * if packed then 1 else align) pos
  | Some w =>
      if packed || (pos mod (8 * size) + w <=? 8 * size) then pos
      else align_up (8 * size) pos
  end.

Definition width (w : option Z) (size : Z) : Z := default (8 * size) w.

Fixpoint sizeof (t : ctype) : Z :=
  match t with
  | TInt _ n | TFloat n => n
  | TEnum vs => enum_bytes vs
  | TPtr _ => 8
  | TArray t n => n * sizeof t
  | TStruct p ms =>
      align_up (8 * alignof t)
        (fold_left (fun pos m =>
           place p pos m.1.2 (sizeof m.2) (alignof m.2) + width m.1.2 (sizeof m.2)) ms 0) / 8
  | TUnion _ ms =>
      align_up (8 * alignof t)
        (fold_left (fun n m => Z.max n (width m.1.2 (sizeof m.2))) ms 0) / 8
  | TVoid | TFun _ _ | TTag _ => 0
  end.

(** ** Members *)

Record placed := mkPlaced {
  pl_name : string;
  pl_field : option Z;
  pl_type : ctype;
  pl_bit : Z;
}.

Definition pl_width (m : placed) : Z := width (pl_field m) (sizeof (pl_type m)).
Definition pl_end (m : placed) : Z := pl_bit m + pl_width m.

Fixpoint place_from (p : bool) (pos : Z) (ms : list member) : list placed :=
  match ms with
  | [] => []
  | (f, w, t) :: ms =>
      let m := mkPlaced f w t (place p pos w (sizeof t) (alignof t)) in
      m :: place_from p (pl_end m) ms
  end.

Definition members_of (t : ctype) : list placed :=
  match t with
  | TStruct p ms => place_from p 0 ms
  | TUnion _ ms => (fun '(f, w, t) => mkPlaced f w t 0) <$> ms
  | _ => []
  end.

(** The members an expression can name, those of unnamed members included:
    first bit, width and type. *)
Fixpoint find_member (fuel : nat) (t : ctype) (f : string) : option (Z * Z * ctype) :=
  match fuel with
  | O => None
  | S fuel =>
      foldr (fun m rest =>
        if bool_decide (pl_name m = f) then Some (pl_bit m, pl_width m, pl_type m)
        else if bool_decide (pl_name m = EmptyString) then
          match find_member fuel (pl_type m) f with
          | Some (b, w, t) => Some (pl_bit m + b, w, t)
          | None => rest
          end
        else rest) None (members_of t)
  end.

(** No declaration nests unnamed members deeper. *)
Definition DEPTH : nat := 4.

(** [t.f1.f2...]. *)
Fixpoint find_path (t : ctype) (fs : list string) : option (Z * Z * ctype) :=
  match fs with
  | [] => Some (0, 8 * sizeof t, t)
  | [f] => find_member DEPTH t f
  | f :: fs =>
      '(b, _, t) ← find_member DEPTH t f;
      '(b', w, t') ← find_path t fs;
      Some (b + b', w, t')
  end.

(** [offsetof(t, f1.f2)]; not for a bit-field that starts inside a byte. *)
Definition offsetof (t : ctype) (fs : list string) : option Z :=
  '(b, _, _) ← find_path t fs;
  if b mod 8 =? 0 then Some (b / 8) else None.

(** ** Well-formed declarations *)

Definition scalar_bytes (n : Z) : bool := (n =? 1) || (n =? 2) || (n =? 4) || (n =? 8).

Definition int_like (t : ctype) : bool :=
  match t with TInt _ _ | TEnum _ => true | _ => false end.

Fixpoint wf_type (t : ctype) : bool :=
  match t with
  | TInt _ n | TFloat n => scalar_bytes n
  | TEnum vs => bool_decide (NoDup vs.*1)
  | TPtr _ => true
  | TArray t n => (0 <=? n) && wf_type t
  | TStruct _ ms | TUnion _ ms =>
      forallb (fun m =>
        wf_type m.2 &&
        match m.1.2 with
        | None => true
        | Some w => int_like m.2 && (0 <? w) && (w <=? 8 * sizeof m.2)
        end) ms
      && bool_decide (NoDup (filter (fun f => f <> EmptyString) (fst ∘ fst <$> ms)))
  | TVoid | TFun _ _ | TTag _ => false
  end.

(** *** Induction on types, through the members *)

Section CtypeInd.
Variable P : ctype -> Prop.
Hypothesis HVoid : P TVoid.
Hypothesis HInt : forall s n, P (TInt s n).
Hypothesis HFloat : forall n, P (TFloat n).
Hypothesis HEnum : forall vs, P (TEnum vs).
Hypothesis HPtr : forall t, P (TPtr t).
Hypothesis HArray : forall t n, P t -> P (TArray t n).
Hypothesis HFun : forall r ps, P (TFun r ps).
Hypothesis HTag : forall s, P (TTag s).
Hypothesis HStruct : forall p ms, Forall (fun m : member => P m.2) ms -> P (TStruct p ms).
Hypothesis HUnion : forall p ms, Forall (fun m : member => P m.2) ms -> P (TUnion p ms).

Definition ctype_nested_ind : forall t, P t :=
  fix go t : P t :=
    let all := fix all (ms : list member) : Forall (fun m : member => P m.2) ms :=
      match ms with
      | [] => Forall_nil_2 _
      | m :: ms => Forall_cons_2 _ m ms (match m return P m.2 with (_, t) => go t end) (all ms)
      end in
    match t with
    | TVoid => HVoid
    | TInt s n => HInt s n
    | TFloat n => HFloat n
    | TEnum vs => HEnum vs
    | TPtr t => HPtr t
    | TArray t n => HArray t n (go t)
    | TFun r ps => HFun r ps
    | TTag s => HTag s
    | TStruct p ms => HStruct p ms (all ms)
    | TUnion p ms => HUnion p ms (all ms)
    end.
End CtypeInd.

(** *** Alignment *)

Lemma align_up_spec a x : 0 < a -> (a | align_up a x) /\ x <= align_up a x < x + a.
Proof.
  intros Ha. unfold align_up. split; [apply Z.divide_factor_r|].
  pose proof (Z.div_mod (x + a - 1) a ltac:(lia)).
  pose proof (Z.mod_pos_bound (x + a - 1) a Ha). lia.
Qed.

Lemma align_up_le a b x : 0 < a -> (a | b) -> x <= b -> align_up a x <= b.
Proof.
  intros Ha [q ->] Hx. unfold align_up. apply Z.mul_le_mono_nonneg_r; [lia|].
  apply Z.lt_succ_r, Z.div_lt_upper_bound; [done|]. lia.
Qed.

(** The alignments of the machine. *)
Definition good_align (a : Z) : Prop := a = 1 \/ a = 2 \/ a = 4 \/ a = 8.

Lemma good_align_divide a b : good_align a -> good_align b -> a <= b -> (a | b).
Proof.
  unfold good_align. intros [->|[->|[->| ->]]] [->|[->|[->| ->]]] H; try lia;
    apply Z.mod_divide; (lia || done).
Qed.

Lemma good_align_max a b : good_align a -> good_align b -> good_align (Z.max a b).
Proof. intros Ha Hb. destruct (Z.max_spec a b) as [[_ ->]|[_ ->]]; done. Qed.

Lemma scalar_good n : scalar_bytes n = true -> good_align n.
Proof. unfold scalar_bytes, good_align. rewrite !orb_true_iff, !Z.eqb_eq. tauto. Qed.

Lemma enum_good vs : good_align (enum_bytes vs).
Proof. unfold enum_bytes, good_align. destruct (_ || _); auto. Qed.

(** The largest alignment of the members, from that of a byte. *)
Definition max_align (ms : list member) : Z :=
  fold_left (fun a (m : member) => Z.max a (alignof m.2)) ms 1.

Lemma fold_align_spec (ms : list member) a :
  good_align a -> Forall (fun m : member => good_align (alignof m.2)) ms ->
  let r := fold_left (fun a (m : member) => Z.max a (alignof m.2)) ms a in
  good_align r /\ a <= r /\ Forall (fun m : member => alignof m.2 <= r) ms.
Proof.
  intros Ha H. revert a Ha. induction H as [|m ms Hm _ IH]; intros a Ha; cbn; [split; [done|split; [lia|done]]|].
  destruct (IH _ (good_align_max _ _ Ha Hm)) as (H1 & H2 & H3).
  split; [done|]. split; [lia|]. constructor; [lia|done].
Qed.

Lemma max_align_spec (ms : list member) :
  Forall (fun m : member => good_align (alignof m.2)) ms ->
  good_align (max_align ms) /\ Forall (fun m : member => (alignof m.2 | max_align ms)) ms.
Proof.
  intros H. destruct (fold_align_spec ms 1 ltac:(by left) H) as (H1 & _ & H3).
  split; [done|]. rewrite Forall_forall in H, H3 |- *. intros m Hm.
  apply good_align_divide; auto.
Qed.

Definition wf_member (m : member) : Prop :=
  wf_type m.2 = true /\
  match m.1.2 with
  | None => True
  | Some w => int_like m.2 = true /\ 0 < w <= 8 * sizeof m.2
  end.

Definition wf_members (ms : list member) : Prop := Forall wf_member ms.

Lemma wf_members_of p ms :
  wf_type (TStruct p ms) = true \/ wf_type (TUnion p ms) = true -> wf_members ms.
Proof.
  intros H. assert (forallb (fun m : member =>
        wf_type m.2 &&
        match m.1.2 with
        | None => true
        | Some w => int_like m.2 && (0 <? w) && (w <=? 8 * sizeof m.2)
        end) ms = true) as Hb.
  { destruct H as [H|H]; cbn in H; by apply andb_true_iff in H as [? _]. }
  clear H. unfold wf_members. rewrite forallb_forall in Hb. apply Forall_forall.
  intros m Hm. specialize (Hb m). rewrite <- list_elem_of_In in Hb. specialize (Hb Hm).
  unfold wf_member. apply andb_true_iff in Hb as [? Hw]. split; [done|].
  destruct m.1.2; [|done]. rewrite !andb_true_iff in Hw. destruct Hw as [[? ?%Z.ltb_lt] ?%Z.leb_le].
  done.
Qed.

Lemma wf_alignof t : wf_type t = true -> good_align (alignof t).
Proof.
  assert (forall ms, Forall (fun m : member => wf_type m.2 = true -> good_align (alignof m.2)) ms ->
            wf_members ms -> Forall (fun m : member => good_align (alignof m.2)) ms) as Hms.
  { intros ms IH W. unfold wf_members in W. rewrite Forall_forall in IH, W |- *.
    intros m Hm. apply IH; [done|]. by apply W. }
  induction t using ctype_nested_ind; intros Hwf; try done.
  - by apply scalar_good.
  - by apply scalar_good.
  - apply enum_good.
  - by right; right; right.
  - cbn in Hwf |- *. apply andb_true_iff in Hwf as [_ ?]. auto.
  - destruct p; [by left|]. apply max_align_spec, Hms; [done|].
    apply (wf_members_of false). by left.
  - destruct p; [by left|]. apply max_align_spec, Hms; [done|].
    apply (wf_members_of false). by right.
Qed.

(** *** Where the members go *)

Lemma int_like_size t : int_like t = true -> sizeof t = alignof t.
Proof. by destruct t. Qed.

(** The position after the members. *)
Definition end_from (p : bool) (pos : Z) (ms : list member) : Z :=
  fold_left (fun pos (m : member) =>
    place p pos m.1.2 (sizeof m.2) (alignof m.2) + width m.1.2 (sizeof m.2)) ms pos.

Definition before (m1 m2 : placed) : Prop := pl_end m1 <= pl_bit m2.

(** An ordinary member is aligned for its type (to a byte in a [packed]
    structure); a bit-field of an ordinary structure lies in one unit of its
    declared type. *)
Definition aligned_in (p : bool) (m : placed) : Prop :=
  match pl_field m with
  | None => (8 * (if p then 1 else alignof (pl_type m)) | pl_bit m)
  | Some _ => p = false ->
      pl_bit m / (8 * sizeof (pl_type m)) = (pl_end m - 1) / (8 * sizeof (pl_type m))
  end.

Lemma place_spec p pos f w t :
  wf_member (f, w, t) -> 0 <= sizeof t -> 0 <= pos ->
  let m := mkPlaced f w t (place p pos w (sizeof t) (alignof t)) in
  pos <= pl_bit m <= pl_end m /\ aligned_in p m.
Proof.
  intros [Hwf Hw] Hs Hpos. pose proof (wf_alignof t Hwf) as Ha. cbn in Hwf, Hw.
  assert (0 < alignof t) by (unfold good_align in Ha; lia).
  unfold pl_end, pl_width, aligned_in, place, width. cbn. destruct w as [w|]; cbn.
  - destruct Hw as (Hi & Hw0 & Hw). rewrite (int_like_size t Hi) in *.
    set (S := 8 * alignof t) in *. assert (0 < S) by lia. clearbody S.
    pose proof (align_up_spec S pos ltac:(lia)) as (HS & Hlo & Hhi).
    destruct p; cbn; [split; [lia|done]|].
    assert (forall b, 0 <= b -> b mod S + w <= S -> b / S = (b + w - 1) / S) as Hunit.
    { intros b Hb Hfit. pose proof (Z.div_mod b S ltac:(lia)). pose proof (Z.mod_pos_bound b S ltac:(lia)).
      apply (Z.div_unique (b + w - 1) S (b / S) (b mod S + w - 1)); lia. }
    destruct (Z.leb_spec (pos mod S + w) S) as [Hfit|Hfit].
    + split; [lia|]. intros _. replace (pl_end _) with (pos + w) by done. by apply Hunit.
    + split; [lia|]. intros _. apply Hunit; [lia|].
      rewrite (proj2 (Z.mod_divide (align_up S pos) S ltac:(lia)) HS). lia.
  - pose proof (align_up_spec (8 * (if p then 1 else alignof t)) pos ltac:(destruct p; lia)) as (HS & Hlo & Hhi).
    split; [lia|done].
Qed.

Lemma place_from_spec p ms pos :
  wf_members ms -> Forall (fun m : member => 0 <= sizeof m.2) ms -> 0 <= pos ->
  pos <= end_from p pos ms /\
  StronglySorted before (place_from p pos ms) /\
  Forall (fun m => pos <= pl_bit m <= pl_end m /\ pl_end m <= end_from p pos ms /\ aligned_in p m)
    (place_from p pos ms).
Proof.
  intros W. revert pos. induction W as [|[[f w] t] ms Hm W IH]; intros pos Hs Hpos.
  { cbn. repeat split; [lia|constructor|constructor]. }
  inversion Hs as [|?? Hs1 Hs2]; subst. cbn in Hs1.
  destruct (place_spec p pos f w t Hm Hs1 Hpos) as (Hle & Hal).
  cbn [place_from]. set (m := mkPlaced f w t _) in *.
  replace (end_from p pos _) with (end_from p (pl_end m) ms) by done.
  destruct (IH (pl_end m) Hs2 ltac:(lia)) as (H1 & H2 & H3).
  split; [lia|]. split.
  - constructor; [done|]. eapply Forall_impl; [exact H3|]. unfold before. intros x ?. lia.
  - constructor; [split; [lia|split; [lia|done]]|].
    eapply Forall_impl; [exact H3|]. intros x (?&?&?). split; [lia|]. split; [lia|done].
Qed.

(** The position after the members of a union. *)
Definition end_union (ms : list member) : Z :=
  fold_left (fun n (m : member) => Z.max n (width m.1.2 (sizeof m.2))) ms 0.

Lemma end_union_spec ms :
  0 <= end_union ms /\ Forall (fun m : member => width m.1.2 (sizeof m.2) <= end_union ms) ms.
Proof.
  unfold end_union. generalize 0 as n.
  induction ms as [|m ms IH]; intros n; cbn; [split; [lia|done]|].
  destruct (IH (Z.max n (width m.1.2 (sizeof m.2)))) as [H1 H2]. split; [lia|]. constructor; [lia|done].
Qed.

(** A size rounded up to the alignment of its type. *)
Lemma tail_padding a e : good_align a -> 0 <= e ->
  (a | align_up (8 * a) e / 8) /\ e <= 8 * (align_up (8 * a) e / 8).
Proof.
  intros Ha He. assert (0 < a) by (unfold good_align in Ha; lia).
  destruct (align_up_spec (8 * a) e ltac:(lia)) as ((q & Hq) & Hlo & _). rewrite Hq in *.
  replace (q * (8 * a)) with (q * a * 8) in * by ring. rewrite Z.div_mul by lia.
  split; [apply Z.divide_factor_r|lia].
Qed.

Lemma wf_sizeof t : wf_type t = true -> 0 <= sizeof t /\ (alignof t | sizeof t).
Proof.
  assert (forall ms, Forall (fun m : member => wf_type m.2 = true ->
              0 <= sizeof m.2 /\ (alignof m.2 | sizeof m.2)) ms ->
            wf_members ms -> Forall (fun m : member => 0 <= sizeof m.2) ms) as Hms.
  { intros ms IH W. unfold wf_members in W. rewrite Forall_forall in IH, W |- *.
    intros m Hm. apply IH; [done|]. by apply W. }
  assert (forall a e, good_align a -> 0 <= e ->
            0 <= align_up (8 * a) e / 8 /\ (a | align_up (8 * a) e / 8)) as Hpad.
  { intros a e Ha He. destruct (tail_padding a e Ha He). split; [lia|done]. }
  induction t using ctype_nested_ind; intros Hwf; pose proof (wf_alignof _ Hwf) as Ha; try done.
  - split; [unfold good_align in Ha; cbn in *; lia|apply Z.divide_refl].
  - split; [unfold good_align in Ha; cbn in *; lia|apply Z.divide_refl].
  - split; [unfold good_align in Ha; cbn in *; lia|apply Z.divide_refl].
  - cbn in Hwf |- *. apply andb_true_iff in Hwf as [Hn%Z.leb_le Hwf]. destruct (IHt Hwf) as [? ?].
    split; [lia|]. by apply Z.divide_mul_r.
  - assert (W : wf_members ms) by (apply (wf_members_of p); by left).
    change (sizeof (TStruct p ms)) with (align_up (8 * alignof (TStruct p ms)) (end_from p 0 ms) / 8).
    apply Hpad; [done|]. by apply place_from_spec; [|apply Hms|].
  - assert (W : wf_members ms) by (apply (wf_members_of p); by right).
    change (sizeof (TUnion p ms)) with (align_up (8 * alignof (TUnion p ms)) (end_union ms) / 8).
    apply Hpad; [done|]. apply end_union_spec.
Qed.

Lemma wf_members_size ms : wf_members ms -> Forall (fun m : member => 0 <= sizeof m.2) ms.
Proof.
  intros W. unfold wf_members in W. eapply Forall_impl; [exact W|]. intros m [Hm _]. by apply wf_sizeof.
Qed.

(** What the layout of a structure or a union promises. *)
Definition is_packed (t : ctype) : bool :=
  match t with TStruct p _ | TUnion p _ => p | _ => false end.

Record layout_sound (t : ctype) : Prop := {
  ls_order : (if t is TStruct _ _ then StronglySorted before (members_of t) else True);
  ls_inside : Forall (fun m => 0 <= pl_bit m <= pl_end m /\ pl_end m <= 8 * sizeof t) (members_of t);
  ls_aligned : Forall (aligned_in (is_packed t)) (members_of t);
  ls_align : is_packed t = false ->
    Forall (fun m => (alignof (pl_type m) | alignof t)) (members_of t);
  ls_tail : (alignof t | sizeof t);
}.

Lemma place_from_type (Q : ctype -> Prop) p pos ms :
  Forall (fun m : member => Q m.2) ms -> Forall (fun m => Q (pl_type m)) (place_from p pos ms).
Proof.
  intros H. revert pos. induction H as [|[[f w] t] ms Hm _ IH]; intros pos; [done|].
  cbn [place_from]. constructor; [exact Hm|apply IH].
Qed.

Lemma wf_max_align ms : wf_members ms ->
  Forall (fun m : member => (alignof m.2 | max_align ms)) ms.
Proof.
  intros W. apply max_align_spec. unfold wf_members in W. eapply Forall_impl; [exact W|].
  intros m [Hm _]. by apply wf_alignof.
Qed.

Lemma struct_layout_sound p ms : wf_type (TStruct p ms) = true -> layout_sound (TStruct p ms).
Proof.
  intros Hwf. assert (W : wf_members ms) by (apply (wf_members_of p); by left).
  destruct (place_from_spec p ms 0 W (wf_members_size ms W) ltac:(lia)) as (H1 & H2 & H3).
  destruct (tail_padding (alignof (TStruct p ms)) (end_from p 0 ms) (wf_alignof _ Hwf) H1) as [_ Ht].
  split; [exact H2| | | |by apply wf_sizeof].
  - eapply Forall_impl; [exact H3|]. intros m (?&He&_). split; [lia|].
    change (sizeof _) with (align_up (8 * alignof (TStruct p ms)) (end_from p 0 ms) / 8). lia.
  - eapply Forall_impl; [exact H3|]. by intros m (_&_&?).
  - cbn [is_packed]. intros ->. apply (place_from_type (fun t => (alignof t | max_align ms))).
    by apply wf_max_align.
Qed.

Lemma union_layout_sound p ms : wf_type (TUnion p ms) = true -> layout_sound (TUnion p ms).
Proof.
  intros Hwf. assert (W : wf_members ms) by (apply (wf_members_of p); by right).
  destruct (end_union_spec ms) as [H1 H2].
  destruct (tail_padding (alignof (TUnion p ms)) (end_union ms) (wf_alignof _ Hwf) H1) as [_ Ht].
  pose proof (wf_max_align ms W) as Hal. unfold wf_members in W.
  split; [done| | | |by apply wf_sizeof]; cbn [members_of is_packed].
  - change (sizeof _) with (align_up (8 * alignof (TUnion p ms)) (end_union ms) / 8).
    rewrite Forall_fmap. rewrite Forall_forall in H2, W |- *. intros [[f w] t] Hm.
    specialize (H2 _ Hm). destruct (W _ Hm) as [Hw1 Hw2]. cbn [fst snd] in H2, Hw1, Hw2.
    unfold compose, pl_end, pl_width. cbn [pl_bit pl_field pl_type]. destruct (wf_sizeof t Hw1) as [? _].
    assert (0 <= width w (sizeof t)) by (unfold width; destruct w; cbn in *; lia). lia.
  - rewrite Forall_fmap. rewrite Forall_forall in W |- *. intros [[f w] t] Hm.
    destruct (W _ Hm) as [Hw1 Hw2]. cbn in Hw1, Hw2. unfold aligned_in, pl_end, pl_width. cbn.
    destruct w as [w|]; cbn; [intros _|apply Z.divide_0_r]. destruct Hw2 as (_ & ? & ?).
    rewrite Z.div_0_l by lia. by rewrite Z.div_small by lia.
  - intros ->. rewrite Forall_fmap. eapply Forall_impl; [exact Hal|]. by intros [[f w] t].
Qed.

(** The layout of every well-formed structure and union is sound. *)
Lemma wf_layout_sound t : wf_type t = true -> members_of t <> [] -> layout_sound t.
Proof.
  destruct t; intros Hwf Hne; try done.
  - by apply struct_layout_sound.
  - by apply union_layout_sound.
Qed.

(** Members of an object at an aligned address are at aligned addresses. *)
Lemma member_address_aligned t m a :
  layout_sound t -> is_packed t = false -> m ∈ members_of t -> pl_field m = None ->
  (alignof t | a) -> (alignof (pl_type m) | a + pl_bit m / 8).
Proof.
  intros L Hp Hm Hf Ha. destruct L as [_ _ Hal Hdiv _].
  rewrite Forall_forall in Hal. specialize (Hal _ Hm). unfold aligned_in in Hal. rewrite Hf, Hp in Hal.
  specialize (Hdiv Hp). rewrite Forall_forall in Hdiv. specialize (Hdiv _ Hm).
  apply Z.divide_add_r; [by etrans|]. destruct Hal as [q ->].
  replace (q * (8 * alignof (pl_type m))) with (q * alignof (pl_type m) * 8) by ring.
  rewrite Z.div_mul by lia. apply Z.divide_factor_r.
Qed.

(** ** Members in memory *)

(** Bit [i] of what is stored from physical address [p] on. *)
Definition mbit (m : gmap Z Z) (p i : Z) : bool := Z.testbit (rb m (p + i / 8)) (i mod 8).

(** The bits a member covers, as bytes: the offset of the first and how many. *)
Definition span (b w : Z) : nat := Z.to_nat ((b mod 8 + w + 7) / 8).

(** The value of the bits from [b], and replacing them. *)
Definition get_bits (b w v : Z) : Z := Z.land (Z.shiftr v b) (Z.ones w).
Definition put_bits (b w x v : Z) : Z :=
  Z.lor (Z.ldiff v (Z.shiftl (Z.ones w) b)) (Z.shiftl (Z.land x (Z.ones w)) b).

Section Members.
Context `{AS : AddrSpace}.

(** Reading and assigning the member at bit [b], [w] bits wide, of an object
    at [a]: whole bytes are stored as they are, a bit-field is inserted into
    the bytes it shares. *)
Definition load_member (a b w : Z) : K Z :=
  v ← loadn (span b w) (a + b / 8);
  mret (get_bits (b mod 8) w v).

Definition store_member (a b w x : Z) : K () :=
  if (b mod 8 =? 0) && (w mod 8 =? 0) then storen (Z.to_nat (w / 8)) (a + b / 8) x
  else
    v ← loadn (span b w) (a + b / 8);
    storen (span b w) (a + b / 8) (put_bits (b mod 8) w x v).

(** [a->f1.f2] and [a->f1.f2 = x], for an object of type [t]. *)
Definition fetch (t : ctype) (fs : list string) (a : Z) : K Z :=
  match find_path t fs with Some (b, w, _) => load_member a b w | None => fault end.
Definition assign (t : ctype) (fs : list string) (a x : Z) : K () :=
  match find_path t fs with Some (b, w, _) => store_member a b w x | None => fault end.
End Members.

(** The value of a member in memory. *)
Definition member_val (m : gmap Z Z) (p b w : Z) : Z :=
  get_bits (b mod 8) w (rdn (span b w) m (p + b / 8)).

Lemma testbit_byte_cons b r j : byte b -> 0 <= j ->
  Z.testbit (b + 256 * r) j = if j <? 8 then Z.testbit b j else Z.testbit r (j - 8).
Proof.
  intros Hb Hj. unfold byte in Hb. destruct (Z.ltb_spec j 8).
  - rewrite <- (Z.mod_pow2_bits_low (b + 256 * r) 8) by lia. f_equal.
    change (2 ^ 8) with 256. dlia.
  - replace j with (j - 8 + 8) at 1 by lia. rewrite <- Z.div_pow2_bits by lia. f_equal.
    change (2 ^ 8) with 256. dlia.
Qed.

Lemma rdn_testbit n m p j : ram_ok m -> 0 <= j < 8 * Z.of_nat n ->
  Z.testbit (rdn n m p) j = mbit m p j.
Proof.
  intros Hm. revert p j. induction n as [|n IH]; intros p j Hj; [lia|].
  change (rdn (S n) m p) with (rb m p + 256 * rdn n m (p + 1)).
  rewrite testbit_byte_cons by (auto; lia). destruct (Z.ltb_spec j 8).
  - unfold mbit. rewrite Z.div_small, Z.mod_small, Z.add_0_r by lia. done.
  - rewrite IH by lia. unfold mbit. f_equal; [f_equal|]; dlia.
Qed.

Lemma le_bytes_testbit n v i j : (i < n)%nat -> 0 <= j < 8 ->
  Z.testbit (nth i (le_bytes n v) 0) j = Z.testbit v (8 * Z.of_nat i + j).
Proof.
  revert v i. induction n as [|n IH]; intros v i Hi Hj; [lia|]. cbn [le_bytes].
  destruct i as [|i]; cbn [nth].
  - change 256 with (2 ^ 8). rewrite Z.mod_pow2_bits_low by lia. f_equal; lia.
  - rewrite IH by lia. change 256 with (2 ^ 8). rewrite Z.div_pow2_bits by lia. f_equal; lia.
Qed.

(** Storing [n] bytes at the offset [o] changes exactly their bits. *)
Lemma mbit_wrn n m p o v i :
  mbit (wrn n m (p + o) v) p i =
    if (8 * o <=? i) && (i <? 8 * (o + Z.of_nat n)) then Z.testbit v (i - 8 * o) else mbit m p i.
Proof.
  unfold mbit, wrn. rewrite rb_write_bytes, zlen_le_bytes.
  pose proof (Z.div_mod i 8 ltac:(lia)). pose proof (Z.mod_pos_bound i 8 ltac:(lia)).
  bdestr; simpl; try lia; try done.
  rewrite le_bytes_testbit by lia. f_equal. lia.
Qed.

Lemma get_bits_testbit b w v j : 0 <= b -> 0 <= w -> 0 <= j ->
  Z.testbit (get_bits b w v) j = (j <? w) && Z.testbit v (j + b).
Proof.
  intros. unfold get_bits. rewrite Z.land_spec, Z.shiftr_spec by lia.
  destruct (Z.ltb_spec j w); [rewrite Z.ones_spec_low by lia|rewrite Z.ones_spec_high by lia];
    by rewrite ?andb_true_r, ?andb_false_r.
Qed.

Lemma get_bits_range b w v : 0 <= w -> 0 <= get_bits b w v < 2 ^ w.
Proof. intros. unfold get_bits. by apply land_mask_range. Qed.

Lemma put_bits_testbit b w x v j : 0 <= b -> 0 <= w -> 0 <= j ->
  Z.testbit (put_bits b w x v) j =
    if (b <=? j) && (j <? b + w) then Z.testbit x (j - b) else Z.testbit v j.
Proof.
  intros. unfold put_bits. rewrite Z.lor_spec, Z.ldiff_spec, !Z.shiftl_spec, Z.land_spec by lia.
  destruct (Z.leb_spec b j); cbn [andb].
  - destruct (Z.ltb_spec j (b + w)).
    + rewrite !Z.ones_spec_low by lia. cbn. by rewrite andb_false_r, andb_true_r.
    + rewrite !Z.ones_spec_high by lia. cbn. by rewrite andb_true_r, andb_false_r, orb_false_r.
  - rewrite !(Z.testbit_neg_r _ (j - b)) by lia. cbn. by rewrite andb_true_r, orb_false_r.
Qed.

Lemma span_bits b w : 0 <= b -> 0 < w ->
  8 * (b / 8) <= b /\ b + w <= 8 * (b / 8 + Z.of_nat (span b w)) /\
  forall N, b + w <= 8 * N -> b / 8 + Z.of_nat (span b w) <= N.
Proof.
  intros. unfold span. pose proof (Z.div_mod b 8 ltac:(lia)). pose proof (Z.mod_pos_bound b 8 ltac:(lia)).
  pose proof (Z.div_mod (b mod 8 + w + 7) 8 ltac:(lia)).
  pose proof (Z.mod_pos_bound (b mod 8 + w + 7) 8 ltac:(lia)).
  rewrite Z2Nat.id by lia. split; [lia|]. split; [lia|]. intros. lia.
Qed.

(** A member's value is the number its bits make. *)
Lemma member_val_testbit m p b w j : ram_ok m -> 0 <= b -> 0 < w -> 0 <= j ->
  Z.testbit (member_val m p b w) j = (j <? w) && mbit m p (b + j).
Proof.
  intros Hm Hb Hw Hj. unfold member_val. pose proof (Z.mod_pos_bound b 8 ltac:(lia)).
  pose proof (Z.div_mod b 8 ltac:(lia)).
  rewrite get_bits_testbit by lia. destruct (Z.ltb_spec j w); cbn [andb]; [|done].
  destruct (span_bits b w Hb Hw) as (_ & Hsp & _). rewrite rdn_testbit by (done || lia).
  unfold mbit. f_equal; [f_equal|]; dlia.
Qed.

Lemma member_val_ext m m' p b w : ram_ok m -> ram_ok m' -> 0 <= b -> 0 < w ->
  (forall i, b <= i < b + w -> mbit m p i = mbit m' p i) ->
  member_val m p b w = member_val m' p b w.
Proof.
  intros Hm Hm' Hb Hw H. apply Z.bits_inj'. intros j Hj. rewrite !member_val_testbit by done.
  destruct (Z.ltb_spec j w); cbn [andb]; [|done]. apply H. lia.
Qed.

(** [m'] is [m] with the bits from [b] of the object at [p] replaced by those
    of [x]; the object has [N] bytes. *)
Definition member_written (m m' : gmap Z Z) (p N b w x : Z) : Prop :=
  ram_ok m' /\
  (forall i, 0 <= i ->
     mbit m' p i = if (b <=? i) && (i <? b + w) then Z.testbit x (i - b) else mbit m p i) /\
  (forall q, q < p \/ p + N <= q -> rb m' q = rb m q).

Section MemberOps.
Context {AS : AddrSpace}.
Implicit Types (k : kernel).

Lemma load_member_ok a p N b w k :
  window a p N -> 0 <= b -> 0 < w -> b + w <= 8 * N ->
  load_member a b w k = Ok (member_val (ram k) p b w) k.
Proof.
  intros W Hb Hw HN. destruct (span_bits b w Hb Hw) as (_ & _ & Hs). specialize (Hs N HN).
  unfold load_member.
  kstep (loadn_at (span b w) a p N (a + b / 8) (b / 8) k W eq_refl ltac:(apply Z.div_pos; lia) Hs).
  done.
Qed.

(** Whole bytes are stored as they are. *)
Lemma store_member_bytes a b w v k n :
  b mod 8 = 0 -> w = 8 * Z.of_nat n -> store_member a b w v k = storen n (a + b / 8) v k.
Proof.
  intros Hb ->. unfold store_member. rewrite Hb.
  replace ((8 * Z.of_nat n) mod 8) with 0 by dlia. replace (8 * Z.of_nat n / 8) with (Z.of_nat n) by dlia.
  cbn [Z.eqb andb]. by rewrite Nat2Z.id.
Qed.

(** The bits of a read-modify-write of the bytes a member shares. *)
Lemma member_written_insert m p N b w x :
  ram_ok m -> 0 <= b -> 0 < w -> b + w <= 8 * N ->
  member_written m (wrn (span b w) m (p + b / 8)
    (put_bits (b mod 8) w x (rdn (span b w) m (p + b / 8)))) p N b w x.
Proof.
  intros Hm Hb Hw HN. destruct (span_bits b w Hb Hw) as (Hlo & Hhi & Hs). specialize (Hs N HN).
  pose proof (Z.div_mod b 8 ltac:(lia)). pose proof (Z.mod_pos_bound b 8 ltac:(lia)).
  split; [by apply ram_ok_wrn|]. split; [|intros q Hq; apply rb_wrn_other; lia].
  intros i Hi. rewrite mbit_wrn. destruct (Z.leb_spec (8 * (b / 8)) i); cbn [andb].
  2: { destruct (Z.leb_spec b i); [lia|done]. }
  destruct (Z.ltb_spec i (8 * (b / 8 + Z.of_nat (span b w)))).
  2: { destruct (Z.ltb_spec i (b + w)); [lia|]. by rewrite andb_false_r. }
  rewrite put_bits_testbit by lia.
  replace (b mod 8 <=? i - 8 * (b / 8)) with (b <=? i) by (bdestr; done || (exfalso; lia)).
  replace (i - 8 * (b / 8) <? b mod 8 + w) with (i <? b + w) by (bdestr; done || (exfalso; lia)).
  destruct (_ && _); [f_equal; lia|].
  rewrite rdn_testbit by (done || lia). unfold mbit. apply f_equal2; [apply f_equal|]; dlia.
Qed.

Lemma store_member_ok a p N b w x k :
  window a p N -> ram_ok (ram k) -> 0 <= b -> 0 < w -> b + w <= 8 * N ->
  exists m', store_member a b w x k = Ok () (with_ram m' k) /\ member_written (ram k) m' p N b w x.
Proof.
  intros W Hr Hb Hw HN. destruct (span_bits b w Hb Hw) as (_ & _ & Hs). specialize (Hs N HN).
  assert (0 <= b / 8) by (apply Z.div_pos; lia).
  unfold store_member. destruct (Z.eqb_spec (b mod 8) 0) as [Eb|_], (Z.eqb_spec (w mod 8) 0) as [Ew|_]; cbn [andb].
  { pose proof (Z.div_mod b 8 ltac:(lia)). pose proof (Z.div_mod w 8 ltac:(lia)).
    rewrite (storen_at (Z.to_nat (w / 8)) a p N (a + b / 8) (b / 8) x k W eq_refl) by lia.
    eexists. split; [done|]. split; [by apply ram_ok_wrn|]. split.
    - intros i Hi. rewrite mbit_wrn. bdestr; simpl; try lia; try done. f_equal. lia.
    - intros q Hq. apply rb_wrn_other. lia. }
  all: kstep (loadn_at (span b w) a p N (a + b / 8) (b / 8) k W eq_refl ltac:(lia) Hs).
  all: rewrite (storen_at (span b w) a p N (a + b / 8) (b / 8) _ k W eq_refl) by lia.
  all: eexists; split; [done|]; by apply member_written_insert.
Qed.
End MemberOps.

(** Reading back a member just written, and another one. *)
Lemma member_written_same m m' p N b w x :
  member_written m m' p N b w x -> 0 <= b -> 0 < w -> member_val m' p b w = x mod 2 ^ w.
Proof.
  intros (Hm' & Hw & _) Hb Hw0. apply Z.bits_inj'. intros j Hj.
  rewrite member_val_testbit, Hw by (done || lia).
  destruct (Z.ltb_spec j w); cbn [andb].
  - rewrite Z.mod_pow2_bits_low by lia. bdestr; simpl; try lia. f_equal. lia.
  - by rewrite Z.mod_pow2_bits_high by lia.
Qed.

Lemma member_written_other m m' p N b w x b' w' :
  ram_ok m -> member_written m m' p N b w x -> 0 <= b' -> 0 < w' ->
  b' + w' <= b \/ b + w <= b' ->
  member_val m' p b' w' = member_val m p b' w'.
Proof.
  intros Hm (Hm' & Hw & _) Hb' Hw' Hd. apply member_val_ext; [done..|].
  intros i Hi. rewrite Hw by lia. bdestr; simpl; lia || done.
Qed.

(** Members of a structure do not overlap. *)
Lemma ordered_disjoint l i j m1 m2 :
  StronglySorted before l -> l !! i = Some m1 -> l !! j = Some m2 -> i <> j ->
  pl_end m1 <= pl_bit m2 \/ pl_end m2 <= pl_bit m1.
Proof.
  intros H. revert i j. induction H as [|m l Hl IH Hm]; intros i j Hi Hj Hne; [done|].
  rewrite Forall_forall in Hm. destruct i as [|i], j as [|j]; cbn in Hi, Hj.
  - done.
  - injection Hi as ->. left. apply Hm. by eapply list_elem_of_lookup_2.
  - injection Hj as ->. right. apply Hm. by eapply list_elem_of_lookup_2.
  - apply (IH i j Hi Hj). lia.
Qed.

(** The promise a program relies on when it assigns to members: in an object
    of a sound structure, assigning to one gives it the value cut to its width,
    keeps every other, and writes nothing outside the object. *)
Definition assignment_local `{AddrSpace} (t : ctype) : Prop :=
  forall a p i m1 x k,
    window a p (sizeof t) -> ram_ok (ram k) -> members_of t !! i = Some m1 -> 0 < pl_width m1 ->
    exists m', store_member a (pl_bit m1) (pl_width m1) x k = Ok () (with_ram m' k) /\
      load_member a (pl_bit m1) (pl_width m1) (with_ram m' k) = Ok (x mod 2 ^ pl_width m1) (with_ram m' k) /\
      (forall j m2, members_of t !! j = Some m2 -> j <> i -> 0 < pl_width m2 ->
         exists v, load_member a (pl_bit m2) (pl_width m2) k = Ok v k /\
           load_member a (pl_bit m2) (pl_width m2) (with_ram m' k) = Ok v (with_ram m' k)) /\
      (forall q, q < p \/ p + sizeof t <= q -> rb m' q = rb (ram k) q).

Lemma struct_assignment_local `{AS : AddrSpace} p ms :
  layout_sound (TStruct p ms) -> assignment_local (TStruct p ms).
Proof.
  intros [Hord Hin _ _ _] a q i m1 x k W Hr H1 Hw1. set (t := TStruct p ms) in *.
  rewrite Forall_forall in Hin. pose proof (Hin m1 (list_elem_of_lookup_2 _ _ _ H1)) as [? ?].
  unfold pl_end in *.
  destruct (store_member_ok a q (sizeof t) (pl_bit m1) (pl_width m1) x k W Hr ltac:(lia) Hw1 ltac:(lia))
    as (m' & E & Hm').
  exists m'. split; [done|]. split; [|split].
  - rewrite (load_member_ok a q (sizeof t)) by (done || lia). rewrite ram_with_ram.
    by rewrite (member_written_same _ _ _ _ _ _ _ Hm') by lia.
  - intros j m2 H2 Hne Hw2. pose proof (Hin m2 (list_elem_of_lookup_2 _ _ _ H2)) as [? ?].
    exists (member_val (ram k) q (pl_bit m2) (pl_width m2)).
    rewrite !(load_member_ok a q (sizeof t)) by (done || lia). rewrite ram_with_ram. split; [done|].
    f_equal. apply (member_written_other _ _ _ _ _ _ _ _ _ Hr Hm'); [lia|done|].
    destruct (ordered_disjoint _ j i m2 m1 Hord H2 H1 Hne) as [?|?]; unfold pl_end in *; lia.
  - apply Hm'.
Qed.
