(* ===== verification/Headers.v ===== *)
(** * The declarations of the kernel's headers

    The types of [inc/], of [kern/inc/] and of the structures the source files
    declare, as data of [CTypes], member by member as the headers have them.
    A type keeps its name, or has [_decl] after it where a component has a type
    of that name of its own; [wchar_t], whose width is an option of the
    compiler, is a parameter. *)

From S2P Require Import Prelude Machine CTypes Status.

(** [-fshort-wchar] makes [wchar_t] two bytes wide. *)
Inductive WideCharAbi := ShortWideChar | LongWideChar.
Class WideChar := wide_char : WideCharAbi.
Definition wchar_bytes `{WideChar} : Z :=
  match wide_char with ShortWideChar => 2 | LongWideChar => 4 end.

Section Headers.
Context `{WC : WideChar}.

(** *** stdtypes.h: the integers of LP64 *)

Definition BYTE : ctype := TInt false 1.
Definition BOOLEAN : ctype := BYTE.
Definition CCHAR : ctype := TInt true 1.
Definition CHAR : ctype := TInt true 1.
Definition DWORD : ctype := TInt false 4.
Definition DWORDLONG : ctype := TInt false 8.
Definition DWORD32 : ctype := TInt false 4.
Definition DWORD64 : ctype := TInt false 8.
Definition FLOAT : ctype := TFloat 4.
Definition DOUBLE : ctype := TFloat 8.
Definition FLOAT32 : ctype := TFloat 4.
Definition FLOAT64 : ctype := TFloat 8.
Definition INT : ctype := TInt true 4.
Definition BOOL : ctype := INT.
Definition WORD : ctype := TInt false 2.
Definition INT8 : ctype := TInt true 1.
Definition INT16 : ctype := TInt true 2.
Definition INT32 : ctype := TInt true 4.
Definition INT64 : ctype := TInt true 8.
Definition UINT8 : ctype := TInt false 1.
Definition UINT16 : ctype := TInt false 2.
Definition UINT32 : ctype := TInt false 4.
Definition UINT64 : ctype := TInt false 8.
Definition LONG : ctype := TInt true 4.
Definition LONGLONG : ctype := TInt true 8.
Definition INT_PTR : ctype := TInt true 8.
Definition UINT_PTR : ctype := TInt false 8.
Definition LONG_PTR : ctype := INT_PTR.
Definition QUAD : ctype := TInt false 8.
Definition QWORD : ctype := QUAD.
Definition UINTN : ctype := TInt false 8.
Definition INTN : ctype := TInt true 8.
Definition WSTRING : ctype := TPtr (TInt true wchar_bytes).
Definition WCHAR : ctype := TInt true wchar_bytes.
Definition STRING : ctype := TPtr CHAR.
Definition COLORREF : ctype := UINT32.
Definition CSHORT : ctype := TInt true 2.
Definition TIMEUNIT : ctype := UINT64.
Definition FERALTIME : ctype := TStruct false [
    fld "Year" UINT16;
    fld "Month" UINT8;
    fld "Day" UINT8;
    fld "Hour" UINT8;
    fld "Minute" UINT8;
    fld "Second" UINT8].
Definition FERALTIMEHARD : ctype := TStruct false [
    fld "Year" UINT16;
    fld "Month" UINT8;
    fld "Day" UINT8;
    fld "Hour" UINT8;
    fld "Minute" UINT8;
    fld "Second" UINT8;
    fld "Millisecond" UINT8;
    fld "Microsecond" UINT8;
    fld "Nanosecond" UINT8].
Definition GUID : ctype := TStruct false [
    fld "Data1" UINT32;
    fld "Data2" UINT16;
    fld "Data3" UINT16;
    fld "Data4" (TArray UINT8 8)].
Definition POINTER : ctype := TPtr TVoid.

(** *** feralstatus.h, feraluser.h *)

Definition FERALSTATUS_decl : ctype := enum [
    given "STATUS_SEVERITY_SUCCESS" 0x00000000;
    given "STATUS_SEVERITY_INFORMATIONAL" 0x40000000;
    given "STATUS_SEVERITY_WARNING" 0x80000000; given "STATUS_SEVERITY_ERROR" 0xC0000000;
    given "STATUS_SUCCESS" STATUS_SEVERITY_SUCCESS;
    given "STATUS_INFORMATIONAL" STATUS_SEVERITY_INFORMATIONAL;
    given "STATUS_WAS_UNLOCKED" (Z.lor STATUS_SEVERITY_INFORMATIONAL 0x00000017);
    given "STATUS_WARNING" STATUS_SEVERITY_WARNING;
    given "STATUS_UNAUTHORIZED_MEMORY_LOCATION" (Z.lor STATUS_SEVERITY_WARNING 0x000000A0);
    given "STATUS_UNSUPPORTED_OPERATION" (Z.lor STATUS_SEVERITY_WARNING 0x0000F0A1);
    given "STATUS_ERROR" STATUS_SEVERITY_ERROR;
    given "STATUS_STACK_GUARD_VIOLATION" (Z.lor STATUS_SEVERITY_ERROR 0x00000001);
    given "STATUS_MEMORY_ACCESS_VIOLATION" (Z.lor STATUS_SEVERITY_ERROR 0x00000005);
    given "STATUS_MEMORY_PAGE_FAILURE" (Z.lor STATUS_SEVERITY_ERROR 0x00000006);
    given "STATUS_MEMORY_PAGE_CONFLICT" (Z.lor STATUS_SEVERITY_ERROR 0x00000007);
    given "STATUS_WRONG_VOLUME" (Z.lor STATUS_SEVERITY_ERROR 0x00000012);
    given "STATUS_NO_MEDIA_IN_DEVICE" (Z.lor STATUS_SEVERITY_ERROR 0x00000013);
    given "STATUS_UNRECOGNIZED_MEDIA" (Z.lor STATUS_SEVERITY_ERROR 0x00000014);
    given "STATUS_NONEXISTENT_SECTOR" (Z.lor STATUS_SEVERITY_ERROR 0x00000015);
    given "STATUS_OUT_OF_MEMORY" (Z.lor STATUS_SEVERITY_ERROR 0x00000017);
    given "STATUS_INVALID_MEMORY_LOCATION" (Z.lor STATUS_SEVERITY_ERROR 0x000000A0);
    given "STATUS_INVALID_OPCODE" (Z.lor STATUS_SEVERITY_ERROR 0x00080001)].
Definition PORT_PURPOSE : ctype := enum [
    auto "PORT_TYPE_RECIEVE"; auto "PORT_TYPE_SEND"; auto "PORT_TYPE_SEND_ONCE";
    auto "PORT_TYPE_BIDIRECTIONAL"].
Definition PORT_CREATION_RIGHT : ctype := enum [
    auto "PORT_RIGHT_CREATE"; auto "PORT_RIGHT_DELETE"; auto "PORT_RIGHT_LINK";
    auto "PORT_RIGHT_CREATE_LINK"; auto "PORT_RIGHT_DELETE_LINK"; auto "PORT_RIGHT_ALL"].
Definition FERALUSER : ctype := TStruct false [
    fld "Name" WSTRING;
    fld "UserID" UINT64;
    fld "Home" WSTRING;
    fld "CreationDate" (TPtr FERALTIME);
    fld "ExpirationDate" (TPtr FERALTIME);
    fld "UsesPassword" BOOLEAN;
    fld "SystemAccount" BOOLEAN;
    fld "Parent" (TPtr (TTag "FERALUSER"))].
Definition FERALPORT_USER_IDENTITIES : ctype := TStruct false [
    fld "User" FERALUSER;
    fld "Purpose" PORT_PURPOSE].

(** *** port.h *)

Definition FERALPORT : ctype := TStruct false [
    fld "WriteLocked" BOOL;
    fld "NumUsers" UINT64;
    fld "MaxUsers" UINT64;
    fld "PortSpaceHigher" UINT64;
    fld "PortSpaceLower" UINT64;
    fld "PortIdentifier" (TArray (TInt true 1) 49);
    fld "Users" (TPtr FERALPORT_USER_IDENTITIES);
    fld "Creator" FERALPORT_USER_IDENTITIES;
    fld "PortBufferSize" (TInt false 8);
    fld "PortMaxBufferSize" (TInt false 8);
    fld "Buffer" (TPtr TVoid)].
Definition PORT_ACCESS_STATUS : ctype := enum [
    given "FERAL_PORT_ATTACH_SUCCESS" 0x00000000; auto "FERAL_PORT_APPEND_ONLY";
    auto "FERAL_PORT_WRITE_BLOCKED"; auto "FERAL_PORT_NO_EXECUTE"; auto "FERAL_PORT_SYNC_ONLY";
    auto "FERAL_PORT_ANONYMOUS_PORT"; given "FERAL_PORT_WRITE_DENIED" 0x40000000;
    auto "FERAL_PORT_ALARMED"; auto "FERAL_PORT_CONNECTION_CLOSED";
    auto "FERAL_PORT_OTHER_WARNING"; given "FERAL_PORT_READ_DENIED" 0x80000000;
    auto "FERAL_PORT_ACCESS_DENIED"; auto "FERAL_PORT_PRIVATE_PORT";
    auto "FERAL_PORT_CONNECTION_REFUSED"; auto "FERAL_PORT_OTHER_FAILURE";
    given "FERAL_PORT_DOES_NOT_EXIST" 0xC0000000; auto "FERAL_PORT_TYPE_MISMATCH"].

(** *** string.h, object.h *)

Definition FERALSTRING : ctype := TStruct false [
    fld "Length" UINT64;
    fld "Content" WSTRING].
Definition Handle : ctype := UINT64.
Definition HThread : ctype := TStruct false [
    fld "Tag" Handle].
Definition HProcess : ctype := TStruct false [
    fld "Tag" Handle;
    fld "NumThreads" UINT64;
    fld "Threads" (TPtr Handle)].
Definition HTask : ctype := TStruct false [
    fld "Tag" Handle;
    fld "NumSubprocesses" UINT64;
    fld "SubprocessTags" (TPtr Handle)].

(** *** frldev.h, frlexec.h *)

Definition DEVICE_OBJECT : ctype := TStruct false [
    fld "Type" CSHORT].
Definition ExecutableFormat : ctype := enum [
    given "FORMAT_TYPE_ELF" 0x0000; auto "FORMAT_TYPE_COFF"; auto "FORMAT_TYPE_PE";
    auto "FORMAT_TYPE_MACHO"; auto "FORMAT_TYPE_LE"; auto "FORMAT_TYPE_NE";
    auto "FORMAT_TYPE_MZ"; auto "FORMAT_TYPE_AOUT"; auto "FORMAT_TYPE_COM";
    given "FORMAT_TYPE_OTHER" 0xFFFF].
Definition FormatHandler : ctype := TStruct false [
    fld "LoaderMain" (TFunPtr FERALSTATUS_decl [ExecutableFormat]);
    fld "LoaderExit" (TFunPtr FERALSTATUS_decl [])].

(** *** iopkt.h: [FERAL_DRIVER] is declared nowhere *)

Definition IRPFlags : ctype := UINT64.
Definition ReqFlags : ctype := UINT32.
Definition _IRP : ctype := TStruct false [
    fld "TimeSignature" TIMEUNIT;
    fld "Flags" IRPFlags;
    fld "RootIrpLookup" (TUnion false [
        fld "MasterIRP" (TPtr (TTag "_IRP"));
        fld "SystemMemoryBuffer" (TPtr TVoid)]);
    fld "PendingRequest" BOOLEAN;
    fld "CancelRequest" BOOLEAN;
    fld "IoDriverPacketCancel" (TPtr FERALSTATUS_decl);
    fld "IoDiskDriver" (TPtr (TTag "FERAL_DRIVER"));
    fld "RequestFlags" ReqFlags;
    fld "Data" (TArray UINT8 16);
    fld "DiskLocation" (TPtr TVoid)].

(** *** heap.h, pageflags.h, mm.h *)

Definition Node : ctype := TStruct false [
    fld "Used" BOOL;
    fld "Last" BOOL;
    fld "Area" (TPtr TVoid);
    fld "NodeIndex" UINT64;
    fld "Previous" (TPtr (TTag "Node"));
    fld "Next" (TPtr (TTag "Node"));
    fld "ChunkIncrement" UINT64].
Definition Arena : ctype := TStruct false [
    fld "Size" UINT64;
    fld "ThreadIndex" UINT64;
    fld "Root" (TPtr Node);
    fld "NextToAllocate" (TPtr Node)].
Definition PageMapEntry : ctype := TStruct true [
    unnamed (TUnion true [
        unnamed (TStruct true [
            bits "Present" UINT64 1;
            bits "Writable" UINT64 1;
            bits "UserAccessible" UINT64 1;
            bits "WriteThrough" UINT64 1;
            bits "NoCache" UINT64 1;
            bits "Accessed" UINT64 1;
            bits "Dirty" UINT64 1;
            bits "Huge" UINT64 1;
            bits "Global" UINT64 1;
            bits "Unused" UINT64 3;
            bits "Address" UINT64 51;
            bits "NoExecute" UINT64 1]);
        fld "Raw" UINT64])].
Definition MmStructureType : ctype := enum [
    given "MM_STRUCTURE_TYPE_MANAGEMENT_CREATE_INFO" 0;
    given "MM_STRUCTURE_TYPE_PHYSICAL_ALLOCATION_INFO" 1;
    given "MM_STRUCTURE_TYPE_PHYSICAL_FRAME_ALLOCATOR" 2;
    given "MM_STRUCTURE_TYPE_PHYSICAL_FRAME_BLOCK" 3;
    given "MM_STRUCTURE_TYPE_VIRTUAL_ALLOCATION_INFO" 4;
    given "MM_STRUCTURE_TYPE_VIRTUAL_FRAME_ALLOCATOR" 5;
    given "MM_STRUCTURE_TYPE_VIRTUAL_FRAME_BLOCK" 6;
    given "MM_STRUCTURE_TYPE_HEAP_ALLOCATION_INFO" 7;
    given "MM_STRUCTURE_TYPE_HEAP_ALLOCATOR" 8; given "MM_STRUCTURE_TYPE_FREE_AREA_RANGE" 9;
    given "MM_STRUCTURE_TYPE_USED_AREA_RANGE" 10;
    given "MM_STRUCTURE_TYPE_RESERVED_AREA_RANGE" 11;
    given "MM_STRUCTURE_TYPE_OTHER_AREA_RANGE" 12; given "MM_STRUCTURE_TYPE_MAX" 0xFFFF].
Definition MmMemoryRange : ctype := TStruct false [
    fld "SType" MmStructureType;
    fld "PNext" (TPtr TVoid);
    fld "Start" UINT_PTR;
    fld "End" UINT_PTR;
    fld "Size" UINT_PTR].
Definition MmPhysicalAllocationInfo : ctype := TStruct false [
    fld "sType" MmStructureType;
    fld "pNext" (TPtr TVoid);
    fld "FrameSize" UINT64;
    fld "MemoryAreaRangeCount" UINT64;
    fld "Ranges" (TPtr MmMemoryRange)].
Definition MmCreateInfo : ctype := TStruct false [
    fld "sType" MmStructureType;
    fld "pNext" (TPtr TVoid);
    fld "pPhysicalAllocationInfo" (TPtr MmPhysicalAllocationInfo);
    fld "SafePMMArea" (TPtr TVoid)].
Definition AllocatorState_decl : ctype := TStruct false [
    fld "sType" MmStructureType;
    fld "pNext" (TPtr TVoid);
    fld "NumArenas" UINT64;
    fld "Arenas" (TPtr Arena)].
Definition KernMemProtect : ctype := enum [
    given "KERN_MEM_PROTECT_ALLOW_READ" 0; given "KERN_MEM_PROTECT_ALLOW_WRITE" 1;
    given "KERN_MEM_PROTECT_ALLOW_EXECUTE" 2].
Definition KernMemUsage : ctype := enum [
    given "KERN_MEM_USAGE_RESERVE" 0; given "KERN_MEM_USAGE_SWAPPABLE" 1;
    given "KERN_MEM_USAGE_DMA" 2; given "KERN_MEM_USAGE_LARGE_PAGES" 4;
    given "KERN_MEM_USAGE_VERY_LARGE_PAGES" 8; given "KERN_MEM_USAGE_NO_CACHE" 16].

(** *** krnlentry.h, krnlfirmware.h, krnlbase.h *)

Definition BootMemoryRange : ctype := TStruct false [
    fld "Usage" MmStructureType;
    fld "Start" UINT_PTR;
    fld "End" UINT_PTR].
Definition SystemBootInfo_decl : ctype := TStruct false [
    fld "NumDisplays" UINT64;
    fld "FramebufferPAddrs" (TPtr UINT_PTR);
    fld "NumMemoryRanges" UINT64;
    fld "MemoryRanges" (TPtr BootMemoryRange)].
Definition PutCharFunc : ctype := TFunPtr TVoid [CHAR].
Definition PrintlnFunc : ctype := TFunPtr TVoid [STRING; UINT64].
Definition GetFirmwareNameFunc : ctype := TFunPtr STRING [].
Definition BackspaceFunc : ctype := TFunPtr TVoid [].
Definition GetMaxPhysicalAddressFunc : ctype := TFunPtr UINT_PTR [].
Definition GetNativeFirmwareMemoryMapFunc : ctype := TFunPtr (TPtr TVoid) [].
Definition KrnlCharMap : ctype := TStruct false [
    fld "CharMapWidth" UINT16;
    fld "CharMapHeight" UINT16;
    fld "NumNumerals" UINT16;
    fld "NumLowerCase" UINT16;
    fld "NumUpperCase" UINT16;
    fld "CharMap" (TPtr (TPtr UINT8))].
Definition KrnlFirmwareFunctions_decl : ctype := TStruct false [
    fld "GetFirmwareName" GetFirmwareNameFunc;
    fld "PutChar" PutCharFunc;
    fld "Println" PrintlnFunc;
    fld "GetNativeFirmwareMemoryMap" GetNativeFirmwareMemoryMapFunc;
    fld "GetMaxPhysicalAddress" GetMaxPhysicalAddressFunc;
    fld "Backspace" BackspaceFunc].
Definition KrnlPhysicalDisplay : ctype := TStruct false [
    fld "BitsPerAlpha" UINT8;
    fld "BitsPerRed" UINT8;
    fld "BitsPerGreen" UINT8;
    fld "BitsPerBlue" UINT8;
    fld "ResolutionX" UINT32;
    fld "ResolutionY" UINT32;
    fld "Framebuffer" (TPtr TVoid)].
Definition KrnlEnvironmentBlock_decl : ctype := TStruct false [
    fld "CommandLineArgs" STRING;
    fld "KernelPageSize" UINT64;
    fld "BootInfo" (TPtr SystemBootInfo_decl);
    fld "FunctionTable" (TPtr KrnlFirmwareFunctions_decl);
    fld "CharMap" (TPtr KrnlCharMap);
    fld "PrimaryDisplayIndex" UINT32;
    fld "NumDisplays" UINT32;
    fld "Displays" (TPtr KrnlPhysicalDisplay);
    fld "KernelVendor" STRING;
    fld "FeralVersionMajor" UINT8;
    fld "FeralVersionMinor" UINT8;
    fld "FeralVersionPatch" UINT8].

(** *** krnl.h, frlos.h *)

Definition FeralStructureType : ctype := enum [
    given "FERAL_STRUCTURE_TYPE_APPLICATION_INFO" 0;
    given "FERAL_STRUCTURE_TYPE_APPLICATION_CREATE_INFO" 1;
    given "FERAL_STRUCTURE_TYPE_PORT_CREATE_INFO" 2; given "FERAL_STRUCTURE_TYPE_PORT_INFO" 3;
    given "FERAL_STRUCTURE_TYPE_GRAPHICS_CONTEXT_CREATE_INFO" 4;
    given "FERAL_STRUCTURE_TYPE_GRAPHICS_CONTEXT_INFO" 5].
Definition PROCESSOR_STATE : ctype := enum [
    auto "ProcessorStateActive"; auto "ProcessorStateIdle"].
Definition TASK_STATE : ctype := enum [
    auto "TaskStateActive"; auto "TaskStateInactive"; auto "TaskStateActiveInSwap";
    auto "TaskStateInactiveInSwap"; auto "TaskStateTransitionToSwap";
    auto "TaskStateTransitionActivity"].
Definition THREAD_STATE : ctype := enum [
    auto "ThreadStateBlocking"; auto "ThreadStateRunning"; auto "ThreadStateInactive"].
Definition KTIMER : ctype := TStruct false [
    fld "InterruptTime" FERALTIME].
Definition KiSubsystemIdentifier_decl : ctype := enum [
    auto "FERAL_SUBSYSTEM_MEMORY_MANAGEMENT"; auto "FERAL_SUBSYSTEM_ARCH_SPECIFIC";
    auto "FERAL_SUBSYSTEM_FILESYSTEM_MANAGEMENT"; auto "FERAL_SUBSYSTEM_OBJECT_MANAGEMENT";
    auto "FERAL_SUBSYSTEM_VIDEO_MANAGEMENT"; auto "FERAL_SUBSYSTEM_POWER_MANAGEMENT";
    auto "FERAL_SUBSYSTEM_PROCESS_MANAGEMENT"; auto "FERAL_SUBSYSTEM_NETWORK_STACK";
    auto "FERAL_SUBSYSTEM_EMULATION_STACK"; auto "FERAL_SUBSYSTEM_AUDIO_STACK";
    auto "FERAL_SUBSYSTEM_INPUT_STACK"].

(** *** cpuinfo.h, cpufuncs.h, idt.h, krnlprocessor.h *)

Definition CPUID_ECX_FEATURES : ctype := enum [
    given "CPUID_FEATURES_ECX_SSE3" (Z.shiftl 1 0);
    given "CPUID_FEATURES_ECX_PCLMUL" (Z.shiftl 1 1);
    given "CPUID_FEATURES_ECX_DTES64" (Z.shiftl 1 2);
    given "CPUID_FEATURES_ECX_MONITOR" (Z.shiftl 1 3);
    given "CPUID_FEATURES_ECX_DS_CPL" (Z.shiftl 1 4);
    given "CPUID_FEATURES_ECX_VMX" (Z.shiftl 1 5);
    given "CPUID_FEATURES_ECX_SMX" (Z.shiftl 1 6);
    given "CPUID_FEATURES_ECX_EST" (Z.shiftl 1 7);
    given "CPUID_FEATURES_ECX_TM2" (Z.shiftl 1 8);
    given "CPUID_FEATURES_ECX_SSSE3" (Z.shiftl 1 9);
    given "CPUID_FEATURES_ECX_CID" (Z.shiftl 1 10);
    given "CPUID_FEATURES_ECX_FMA" (Z.shiftl 1 12);
    given "CPUID_FEATURES_ECX_CX16" (Z.shiftl 1 13);
    given "CPUID_FEATURES_ECX_ETPRD" (Z.shiftl 1 14);
    given "CPUID_FEATURES_ECX_PDCM" (Z.shiftl 1 15)].
Definition X8664CPUFeatures : ctype := enum [
    given "X8664_CPU_FEATURE_NONE" (Z.shiftl 0 0);
    given "X8664_CPU_FEATURE_SSE3" (Z.shiftl 1 0);
    given "X8664_CPU_FEATURE_SSE4" (Z.shiftl 1 1);
    given "X8664_CPU_FEATURE_AVX" (Z.shiftl 1 2);
    given "X8664_CPU_FEATURE_AVX2" (Z.shiftl 1 3);
    given "X8664_CPU_FEATURE_RDTSC" (Z.shiftl 1 4)].
Definition GDTPointer : ctype := TStruct true [
    fld "Limit" UINT16;
    fld "Base" UINT_PTR].
Definition GDTEntry : ctype := TStruct true [
    fld "Limit" UINT16;
    fld "Base" UINT16;
    unnamed (TUnion true [
        fld "AsBytes" (TStruct true [
            fld "MiddleBase" UINT8;
            fld "Access" UINT8;
            fld "Flags" UINT8;
            fld "HighBase" UINT8]);
        fld "AsBits" (TStruct true [
            fld "MiddleBase" UINT8;
            bits "Accessed" UINT8 1;
            bits "ReadWritable" UINT8 1;
            bits "Direction" UINT8 1;
            bits "Executable" UINT8 1;
            bits "System" UINT8 1;
            bits "PrivLevel" UINT8 2;
            bits "Present" UINT8 1;
            bits "LimitHigh" UINT8 4;
            bits "RESERVED" UINT8 1;
            bits "SixtyFourMode" UINT8 1;
            bits "SizeBit" UINT8 1;
            bits "Granularity" UINT8 1;
            fld "HighBase" UINT8]);
        fld "High" UINT32])].
Definition CR0_Flags : ctype := enum [
    given "CR0_NONE" (Z.shiftl 0 0); given "CR0_PROTECTED_MODE" (Z.shiftl 1 0);
    given "CR0_COPROCESSOR" (Z.shiftl 1 1); given "CR0_EMULATION" (Z.shiftl 1 2);
    given "CR0_TASK_SWITCHED" (Z.shiftl 1 3); given "CR0_EXTENSION_TYPE" (Z.shiftl 1 4);
    given "CR0_NUMERIC_ERROR" (Z.shiftl 1 5); given "CR0_WRITE_PROTECT" (Z.shiftl 1 16);
    given "CR0_ALIGNMENT_MASK" (Z.shiftl 1 18); given "CR0_NO_WRITE_THROUGH" (Z.shiftl 1 29);
    given "CR0_CACHE_DISABLE" (Z.shiftl 1 30); given "CR0_PAGING" (Z.shiftl 1 31)].
Definition CR4_Flags : ctype := enum [
    given "CR4_NONE" (Z.shiftl 0 0); given "CR4_VIRTUAL_8086" (Z.shiftl 1 0);
    given "CR4_VIRT_INTERRUPTS" (Z.shiftl 1 1); given "CR4_TIME_STAMP_DISABLE" (Z.shiftl 1 2);
    given "CR4_DEBUGGING_EXT" (Z.shiftl 1 3); given "CR4_PAGE_SIZE_EXTENSION" (Z.shiftl 1 4);
    given "CR4_PHYS_ADDR_EXT" (Z.shiftl 1 5);
    given "CR4_MACHINE_CHECK_EXCEPTION" (Z.shiftl 1 6);
    given "CR4_PAGE_GLOBAL_ENABLE" (Z.shiftl 1 7); given "CR4_PERF_MONITOR" (Z.shiftl 1 8);
    given "CR4_FX_SAVE_STORE" (Z.shiftl 1 9); given "CR4_FLOAT_EXCEPT" (Z.shiftl 1 10);
    given "CR4_USER_INST_PREV" (Z.shiftl 1 11); given "CR4_VM_EXT" (Z.shiftl 1 12);
    given "CR4_PCID" (Z.shiftl 1 17); given "CR4_XSAVE" (Z.shiftl 1 18);
    given "CR4_SMEP" (Z.shiftl 1 20); given "CR4_SMAP" (Z.shiftl 1 21)].
Definition EFER_Flags : ctype := enum [
    given "EFER_NONE" (Z.shiftl 0 0); given "EFER_LONG_MODE_ENABLE" (Z.shiftl 1 8);
    given "EFER_LONG_MODE_ACTIVE" (Z.shiftl 1 10);
    given "EFER_NO_EXECUTE_ENABLE" (Z.shiftl 1 11);
    given "EFER_SVM_SECURE_ENABLE" (Z.shiftl 1 12);
    given "EFER_LONG_MODE_SEGMENT_LIMIT_ENABLE" (Z.shiftl 1 13);
    given "EFER_FAST_FXSAVE_FXSTORE_ENABLE" (Z.shiftl 1 14);
    given "EFER_TRANSLATION_CACHE_EXT" (Z.shiftl 1 15)].
Definition KiPrivateProcessorInfo : ctype := TStruct false [
    fld "Features" X8664CPUFeatures;
    fld "CurProcGDT" GDTPointer;
    fld "CurProcGDTRoot" (TPtr GDTEntry)].
Definition x86InterruptFrame : ctype := TStruct false [
    fld "IP" UINTN;
    fld "CS" UINTN;
    fld "FLAGS" UINTN;
    fld "SP" UINTN;
    fld "SS" UINTN].
Definition IDTDescriptor_decl : ctype := TStruct true [
    fld "Offset" UINT16;
    fld "Selector" UINT16;
    fld "IST" UINT8;
    fld "TypeAttr" UINT8;
    fld "Offset2" UINT16;
    fld "Offset3" UINT32;
    fld "RESERVED" UINT32].
Definition IDTPointer : ctype := TStruct true [
    fld "Limit" UINT16;
    fld "Location" UINT_PTR].
Definition KeProcessorFamily : ctype := enum [
    given "KERNEL_PROCESSOR_FAMILY_INVALID" 0; auto "KERNEL_PROCESSOR_FAMILY_X86_64";
    auto "KERNEL_PROCESSOR_FAMILY_AARCH64"; auto "KERNEL_PROCESSOR_FAMILY_RV64GCH";
    auto "KERNEL_PROCESSOR_FAMILY_OPENPOWER"; auto "KERNEL_PROCESSOR_FAMILY_XEN_X86_64"].
Definition KiProcessorInfo : ctype := TStruct false [
    fld "CpuType" KeProcessorFamily;
    fld "ProcessorVendor" (TPtr CHAR);
    fld "ProcessorName" (TPtr CHAR);
    fld "PhysCores" UINT32;
    fld "VirtCores" UINT32;
    fld "CPUStepping" UINT32;
    fld "PrivateInfo" KiPrivateProcessorInfo].

(** *** vga.h *)

Definition VgaColorValue_decl : ctype := enum [
    given "VGA_BLACK" 0; given "VGA_BLUE" 1; given "VGA_GREEN" 2; given "VGA_CYAN" 3;
    given "VGA_RED" 4; given "VGA_MAGENTA" 5; given "VGA_BROWN" 6; given "VGA_LIGHT_GREY" 7;
    given "VGA_DARK_GREY" 8; given "VGA_LIGHT_BLUE" 9; given "VGA_LIGHT_GREEN" 10;
    given "VGA_LIGHT_CYAN" 11; given "VGA_LIGHT_RED" 12; given "VGA_LIGHT_MAGENTA" 13;
    given "VGA_LIGHT_BROWN" 14; given "VGA_WHITE" 15].
Definition VgaContext_decl : ctype := TStruct false [
    fld "Framebuffer" (TPtr UINT8);
    fld "SwappedBuffer" (TPtr UINT8);
    fld "ScreenWidth" UINT16;
    fld "ScreenHeight" UINT16;
    fld "BPP" UINT16;
    fld "Background" VgaColorValue_decl;
    fld "Foreground" VgaColorValue_decl;
    fld "Highlight" VgaColorValue_decl;
    fld "CurrentRow" UINT16;
    fld "CurrentCol" UINT16;
    fld "TextMode" BOOL;
    fld "FollowingInput" BOOL;
    fld "CursorEnabled" BOOL].

(** *** hydrogen.h

    [SecurityClassStructureType] shifts an [int] by 63, which C leaves undefined. *)

Definition SecurityClearanceLevel_decl : ctype := enum [
    given "SECURITY_LEVEL_UNTRUSTED" 0; given "SECURITY_LEVEL_LOW_TRUST" 1;
    given "SECURITY_LEVEL_MED_TRUST" 3; given "SECURITY_LEVEL_HIGH_TRUST" 7;
    given "SECURITY_LEVEL_SUPERVISOR" 15; given "SECURITY_LEVEL_MANAGER" 31;
    given "SECURITY_LEVEL_ADMINISTRATOR" 63].

(** *** Structures of the source files: sec.c, mmsetup.c, interrupts.c, test_main.c *)

Definition SeUserContext : ctype := TStruct false [
    fld "UserMapping" FERALSTRING;
    fld "RootDir" WSTRING].
Definition SeSecurityContext : ctype := TStruct false [
    fld "IdentifierPrimary" UINT64;
    fld "IdentifierSeconday" UINT64;
    fld "UserContext" SeUserContext].
Definition MemoryManagementState_decl : ctype := TStruct false [
    fld "pAllocInfo" (TPtr MmPhysicalAllocationInfo);
    fld "BitmaskUsedFrames" (TPtr UINT8);
    fld "MaxPAddr" UINT_PTR].
Definition PS2KeyboardContext_decl : ctype := TStruct false [
    fld "ShiftModifier" UINT8;
    fld "ControlModifier" UINT8;
    fld "AltModifier" UINT8;
    fld "CapsLock" UINT8].
Definition SomeStruct_decl : ctype := TStruct false [
    fld "Value" (TInt true 4);
    fld "SomeOther" (TArray (TInt true 1) 4);
    fld "Another" (TArray (TInt true 8) 11)].

(** Every structure above, with its name. *)
Definition kernel_structs : list (string * ctype) := [
  ("FERALTIME", FERALTIME);
  ("FERALTIMEHARD", FERALTIMEHARD);
  ("GUID", GUID);
  ("FERALUSER", FERALUSER);
  ("FERALPORT_USER_IDENTITIES", FERALPORT_USER_IDENTITIES);
  ("FERALPORT", FERALPORT);
  ("FERALSTRING", FERALSTRING);
  ("HThread", HThread);
  ("HProcess", HProcess);
  ("HTask", HTask);
  ("DEVICE_OBJECT", DEVICE_OBJECT);
  ("FormatHandler", FormatHandler);
  ("_IRP", _IRP);
  ("Node", Node);
  ("Arena", Arena);
  ("PageMapEntry", PageMapEntry);
  ("MmMemoryRange", MmMemoryRange);
  ("MmPhysicalAllocationInfo", MmPhysicalAllocationInfo);
  ("MmCreateInfo", MmCreateInfo);
  ("AllocatorState", AllocatorState_decl);
  ("BootMemoryRange", BootMemoryRange);
  ("SystemBootInfo", SystemBootInfo_decl);
  ("KrnlCharMap", KrnlCharMap);
  ("KrnlFirmwareFunctions", KrnlFirmwareFunctions_decl);
  ("KrnlPhysicalDisplay", KrnlPhysicalDisplay);
  ("KrnlEnvironmentBlock", KrnlEnvironmentBlock_decl);
  ("KTIMER", KTIMER);
  ("GDTPointer", GDTPointer);
  ("GDTEntry", GDTEntry);
  ("KiPrivateProcessorInfo", KiPrivateProcessorInfo);
  ("x86InterruptFrame", x86InterruptFrame);
  ("IDTDescriptor", IDTDescriptor_decl);
  ("IDTPointer", IDTPointer);
  ("KiProcessorInfo", KiProcessorInfo);
  ("VgaContext", VgaContext_decl);
  ("SeUserContext", SeUserContext);
  ("SeSecurityContext", SeSecurityContext);
  ("MemoryManagementState", MemoryManagementState_decl);
  ("PS2KeyboardContext", PS2KeyboardContext_decl);
  ("SomeStruct", SomeStruct_decl)].

End Headers.
