(* ===== verification/EfiHeaders.v ===== *)
(** * The declarations of the firmware's headers ([kern/inc/libreefi/])

    The tables, protocols and services of UEFI as the loader declares them.  A
    service is a pointer to a function; a pointer to a structure that is still
    being declared names its tag.  Names are as in [Headers]. *)

From S2P Require Import Prelude Machine CTypes Headers.

Section EfiHeaders.
Context `{WC : WideChar}.

(** *** efistatus.h, eficommon.h *)

Definition EFI_STATUS_decl : ctype := UINTN.
Definition CHAR16 : ctype := WCHAR.
Definition EFI_HANDLE : ctype := TPtr TVoid.
Definition EFI_EVENT : ctype := TPtr TVoid.
Definition EFI_TPL : ctype := UINTN.
Definition EFI_LBA : ctype := UINT64.
Definition EFI_PHYSICAL_ADDRESS : ctype := UINT64.
Definition EFI_VIRTUAL_ADDRESS : ctype := UINT64.
Definition EFI_GUID : ctype := TStruct false [
    fld "Data1" UINT32;
    fld "Data2" UINT16;
    fld "Data3" UINT16;
    fld "Data4" UINT8;
    fld "Data5" UINT8;
    fld "Data6" UINT8;
    fld "Data7" UINT8;
    fld "Data8" UINT8;
    fld "Data9" UINT8;
    fld "Data11" UINT8;
    fld "Data12" UINT8].
Definition EFI_ALLOCATE_TYPE : ctype := enum [
    auto "AllocateAnyPages"; auto "AllocateMaxAddress"; auto "AllocateAddress";
    auto "MaxAllocateType"].
Definition EFI_TIMER_DELAY : ctype := enum [
    auto "TimerCancel"; auto "TimerPeriodic"; auto "TimerRelative"].
Definition EFI_TABLE_HEADER : ctype := TStruct false [
    fld "Signature" UINT64;
    fld "Revision" UINT32;
    fld "HeaderSize" UINT32;
    fld "CRC32" UINT32;
    fld "Reserved" UINT32].
Definition EFI_INPUT_KEY : ctype := TStruct false [
    fld "ScanCode" UINT16;
    fld "UnicodeChar" CHAR16].
Definition EFI_MEMORY_DESCRIPTOR : ctype := TStruct false [
    fld "Type" UINT32;
    fld "PhysicalStart" EFI_PHYSICAL_ADDRESS;
    fld "VirtualStart" EFI_VIRTUAL_ADDRESS;
    fld "NumberOfPages" UINT64;
    fld "Attribute" UINT64].
Definition EFI_INTERFACE_TYPE : ctype := enum [
    auto "EFI_NATIVE_INTERFACE"].

(** *** efi.h *)

Definition EFI_MEMORY_TYPE : ctype := enum [
    auto "EfiReservedMemoryType"; auto "EfiLoaderCode"; auto "EfiLoaderData";
    auto "EfiBootServicesCode"; auto "EfiBootServicesData"; auto "EfiRuntimeServicesCode";
    auto "EfiRuntimeServicesData"; auto "EfiConventionalMemory"; auto "EfiUnusableMemory";
    auto "EfiACPIReclaimMemory"; auto "EfiACPIMemoryNVS"; auto "EfiMemoryMappedIO";
    auto "EfiMemoryMappedIOPortSpace"; auto "EfiPalCode"; auto "EfiMaxMemoryType"].

(** *** efirt.h *)

Definition EFI_RESET_TYPE : ctype := enum [
    auto "EfiResetCold"; auto "EfiResetWarm"; auto "EfiResetShutdown";
    auto "EfiResetPlatformSpecific"].
Definition EFI_TIME : ctype := TStruct false [
    fld "Year" UINT16;
    fld "Month" UINT8;
    fld "Day" UINT8;
    fld "Hour" UINT8;
    fld "Minute" UINT8;
    fld "Second" UINT8;
    fld "Pad1" UINT8;
    fld "Nanosecond" UINT32;
    fld "TimeZone" INT16;
    fld "Daylight" UINT8;
    fld "Pad2" UINT8].
Definition EFI_TIME_CAPABILITIES : ctype := TStruct false [
    fld "Resolution" UINT32;
    fld "Accuracy" UINT32;
    fld "SetsToZero" BOOLEAN].
Definition EFI_CAPSULE_HEADER : ctype := TStruct false [
    fld "CapsuleGuid" EFI_GUID;
    fld "HeaderSize" UINT32;
    fld "Flags" UINT32;
    fld "CapsuleImageSize" UINT32].
Definition EFI_GET_TIME : ctype :=
  TFunPtr EFI_STATUS_decl [TPtr EFI_TIME; TPtr EFI_TIME_CAPABILITIES].
Definition EFI_SET_TIME : ctype := TFunPtr EFI_STATUS_decl [TPtr EFI_TIME].
Definition EFI_GET_WAKEUP_TIME : ctype :=
  TFunPtr EFI_STATUS_decl [TPtr BOOLEAN; TPtr BOOLEAN; TPtr EFI_TIME].
Definition EFI_SET_WAKEUP_TIME : ctype := TFunPtr EFI_STATUS_decl [BOOLEAN; TPtr EFI_TIME].
Definition EFI_SET_VIRTUAL_ADDRESS_MAP : ctype :=
  TFunPtr EFI_STATUS_decl [UINTN; UINTN; UINT32; TPtr EFI_MEMORY_DESCRIPTOR].
Definition EFI_CONVERT_POINTER : ctype := TFunPtr EFI_STATUS_decl [UINTN; TPtr (TPtr TVoid)].
Definition EFI_GET_VARIABLE : ctype :=
  TFunPtr EFI_STATUS_decl [TPtr CHAR16; TPtr EFI_GUID; TPtr UINT32; TPtr UINTN; TPtr TVoid].
Definition EFI_SET_VARIABLE : ctype :=
  TFunPtr EFI_STATUS_decl [TPtr CHAR16; TPtr EFI_GUID; UINT32; UINTN; TPtr TVoid].
Definition EFI_GET_NEXT_VARIABLE_NAME : ctype :=
  TFunPtr EFI_STATUS_decl [TPtr UINTN; TPtr CHAR16; TPtr EFI_GUID].
Definition EFI_GET_NEXT_HIGH_MONO_COUNT : ctype := TFunPtr EFI_STATUS_decl [TPtr UINT32].
Definition EFI_RESET_SYSTEM : ctype :=
  TFunPtr TVoid [EFI_RESET_TYPE; EFI_STATUS_decl; UINTN; TPtr TVoid].
Definition EFI_UPDATE_CAPSULE : ctype :=
  TFunPtr EFI_STATUS_decl [TPtr (TPtr EFI_CAPSULE_HEADER); UINTN; EFI_PHYSICAL_ADDRESS].
Definition EFI_QUERY_CAPSULE_CAPABILITIES : ctype :=
  TFunPtr EFI_STATUS_decl [TPtr (TPtr EFI_CAPSULE_HEADER); UINTN; TPtr UINT64; TPtr EFI_RESET_TYPE].
Definition EFI_QUERY_VARIABLE_INFO : ctype :=
  TFunPtr EFI_STATUS_decl [UINT32; TPtr UINT64; TPtr UINT64; TPtr UINT64].
Definition EFI_INPUT_READ_KEY : ctype :=
  TFunPtr EFI_STATUS_decl [TPtr (TTag "EFI_SIMPLE_TEXT_INPUT_PROTOCOL"); EFI_INPUT_KEY].
Definition EFI_INPUT_RESET : ctype :=
  TFunPtr EFI_STATUS_decl [TPtr (TTag "EFI_SIMPLE_TEXT_INPUT_PROTOCOL"); BOOLEAN].
Definition EFI_TEXT_RESET : ctype :=
  TFunPtr EFI_STATUS_decl [TPtr (TTag "EFI_SIMPLE_TEXT_OUTPUT_PROTOCOL"); BOOLEAN].
Definition EFI_TEXT_STRING : ctype :=
  TFunPtr EFI_STATUS_decl [TPtr (TTag "EFI_SIMPLE_TEXT_OUTPUT_PROTOCOL"); TPtr CHAR16].
Definition EFI_TEXT_TEST_STRING : ctype :=
  TFunPtr EFI_STATUS_decl [TPtr (TTag "EFI_SIMPLE_TEXT_OUTPUT_PROTOCOL"); TPtr CHAR16].
Definition EFI_TEXT_QUERY_MODE : ctype :=
  TFunPtr EFI_STATUS_decl [TPtr (TTag "EFI_SIMPLE_TEXT_OUTPUT_PROTOCOL"); UINTN; TPtr UINTN;
    TPtr UINTN].
Definition EFI_TEXT_SET_MODE : ctype :=
  TFunPtr EFI_STATUS_decl [TPtr (TTag "EFI_SIMPLE_TEXT_OUTPUT_PROTOCOL"); UINTN].
Definition EFI_TEXT_SET_ATTRIBUTE : ctype :=
  TFunPtr EFI_STATUS_decl [TPtr (TTag "EFI_SIMPLE_TEXT_OUTPUT_PROTOCOL"); UINTN].
Definition EFI_TEXT_CLEAR_SCREEN : ctype :=
  TFunPtr EFI_STATUS_decl [TPtr (TTag "EFI_SIMPLE_TEXT_OUTPUT_PROTOCOL")].
Definition EFI_TEXT_SET_CURSOR_POSITION : ctype :=
  TFunPtr EFI_STATUS_decl [TPtr (TTag "EFI_SIMPLE_TEXT_OUTPUT_PROTOCOL"); UINTN; UINTN; UINTN].
Definition EFI_TEXT_ENABLE_CURSOR : ctype :=
  TFunPtr EFI_STATUS_decl [TPtr (TTag "EFI_SIMPLE_TEXT_OUTPUT_PROTOCOL"); BOOLEAN].

(** *** efibserv.h *)

Definition EFI_DEVICE_PATH_PROTOCOL : ctype := TStruct false [
    fld "Type" UINT8;
    fld "SubType" UINT8;
    fld "Length" (TArray UINT8 2)].
Definition EFI_LOCATE_SEARCH_TYPE : ctype := enum [
    auto "AllHandles"; auto "ByRegisterNotify"; auto "ByProtocol"].
Definition EFI_OPEN_PROTOCOL_INFORMATION_ENTRY : ctype := TStruct false [
    fld "AgentHandle" EFI_HANDLE;
    fld "ControllerHandle" EFI_HANDLE;
    fld "Attributes" UINT32;
    fld "OpenCount" UINT32].
Definition EFI_EVENT_NOTIFY : ctype := TFunPtr TVoid [EFI_EVENT; TPtr TVoid].
Definition EFI_RAISE_TPL : ctype := TFunPtr EFI_TPL [EFI_TPL].
Definition EFI_RESTORE_TPL : ctype := TFunPtr TVoid [EFI_TPL].
Definition EFI_ALLOCATE_PAGES : ctype :=
  TFunPtr EFI_STATUS_decl [EFI_ALLOCATE_TYPE; EFI_MEMORY_TYPE; UINTN; TPtr EFI_PHYSICAL_ADDRESS].
Definition EFI_FREE_PAGES : ctype := TFunPtr EFI_STATUS_decl [EFI_PHYSICAL_ADDRESS; UINTN].
Definition EFI_GET_MEMORY_MAP : ctype :=
  TFunPtr EFI_STATUS_decl [TPtr UINTN; TPtr EFI_MEMORY_DESCRIPTOR; TPtr UINTN; TPtr UINTN;
    TPtr UINT32].
Definition EFI_ALLOCATE_POOL : ctype :=
  TFunPtr EFI_STATUS_decl [EFI_MEMORY_TYPE; UINTN; TPtr (TPtr TVoid)].
Definition EFI_FREE_POOL : ctype := TFunPtr EFI_STATUS_decl [TPtr TVoid].
Definition EFI_CREATE_EVENT : ctype :=
  TFunPtr EFI_STATUS_decl [UINT32; EFI_TPL; EFI_EVENT_NOTIFY; TPtr TVoid; TPtr EFI_EVENT].
Definition EFI_SET_TIMER : ctype := TFunPtr EFI_STATUS_decl [EFI_EVENT; EFI_TIMER_DELAY; UINT64].
Definition EFI_WAIT_FOR_EVENT : ctype := TFunPtr EFI_STATUS_decl [UINTN; TPtr EFI_EVENT; TPtr UINTN].
Definition EFI_SIGNAL_EVENT : ctype := TFunPtr EFI_STATUS_decl [EFI_EVENT].
Definition EFI_CLOSE_EVENT : ctype := TFunPtr EFI_STATUS_decl [EFI_EVENT].
Definition EFI_CHECK_EVENT : ctype := TFunPtr EFI_STATUS_decl [EFI_EVENT].
Definition EFI_INSTALL_PROTOCOL_INTERFACE : ctype :=
  TFunPtr EFI_STATUS_decl [TPtr EFI_HANDLE; TPtr EFI_GUID; EFI_INTERFACE_TYPE; TPtr TVoid].
Definition EFI_REINSTALL_PROTOCOL_INTERFACE : ctype :=
  TFunPtr EFI_STATUS_decl [TPtr EFI_HANDLE; TPtr EFI_GUID; TPtr TVoid; TPtr TVoid].
Definition EFI_UNINSTALL_PROTOCOL_INTERFACE : ctype :=
  TFunPtr EFI_STATUS_decl [TPtr EFI_HANDLE; TPtr EFI_GUID; TPtr TVoid].
Definition EFI_HANDLE_PROTOCOL : ctype :=
  TFunPtr EFI_STATUS_decl [EFI_HANDLE; TPtr EFI_GUID; TPtr (TPtr TVoid)].
Definition EFI_REGISTER_PROTOCOL_NOTIFY : ctype :=
  TFunPtr EFI_STATUS_decl [TPtr EFI_GUID; EFI_EVENT; TPtr (TPtr TVoid)].
Definition EFI_LOCATE_HANDLE : ctype :=
  TFunPtr EFI_STATUS_decl [EFI_LOCATE_SEARCH_TYPE; TPtr EFI_GUID; TPtr TVoid; TPtr UINTN;
    TPtr EFI_HANDLE].
Definition EFI_LOCATE_DEVICE_PATH : ctype :=
  TFunPtr EFI_STATUS_decl [TPtr EFI_GUID; TPtr (TPtr EFI_DEVICE_PATH_PROTOCOL); TPtr EFI_HANDLE].
Definition EFI_INSTALL_CONFIGURATION_TABLE : ctype :=
  TFunPtr EFI_STATUS_decl [TPtr EFI_GUID; TPtr TVoid].
Definition EFI_IMAGE_LOAD : ctype :=
  TFunPtr EFI_STATUS_decl [BOOLEAN; EFI_HANDLE; TPtr EFI_DEVICE_PATH_PROTOCOL; TPtr TVoid; UINTN;
    TPtr EFI_HANDLE].
Definition EFI_IMAGE_START : ctype :=
  TFunPtr EFI_STATUS_decl [EFI_HANDLE; TPtr UINTN; TPtr (TPtr CHAR16)].
Definition EFI_LOCATE_PROTOCOL : ctype :=
  TFunPtr EFI_STATUS_decl [TPtr EFI_GUID; TPtr TVoid; TPtr (TPtr TVoid)].
Definition EFI_OPEN_PROTOCOL : ctype :=
  TFunPtr EFI_STATUS_decl [EFI_HANDLE; TPtr EFI_GUID; TPtr (TPtr TVoid); EFI_HANDLE; EFI_HANDLE;
    UINT32].
Definition EFI_CLOSE_PROTOCOL : ctype :=
  TFunPtr EFI_STATUS_decl [EFI_HANDLE; TPtr EFI_GUID; EFI_HANDLE; EFI_HANDLE].
Definition EFI_OPEN_PROTOCOL_INFORMATION : ctype :=
  TFunPtr EFI_STATUS_decl [EFI_HANDLE; TPtr EFI_GUID;
    TPtr (TPtr EFI_OPEN_PROTOCOL_INFORMATION_ENTRY); TPtr UINTN].
Definition EFI_EXIT : ctype := TFunPtr EFI_STATUS_decl [EFI_HANDLE; EFI_STATUS_decl; UINTN; TPtr CHAR16].
Definition EFI_IMAGE_UNLOAD : ctype := TFunPtr EFI_STATUS_decl [EFI_HANDLE].
Definition EFI_EXIT_BOOT_SERVICES : ctype := TFunPtr EFI_STATUS_decl [EFI_HANDLE; UINTN].
Definition EFI_GET_NEXT_MONOTONIC_COUNT : ctype := TFunPtr EFI_STATUS_decl [TPtr UINT64].
Definition EFI_STALL : ctype := TFunPtr EFI_STATUS_decl [UINTN].
Definition EFI_SET_WATCHDOG_TIMER : ctype :=
  TFunPtr EFI_STATUS_decl [UINTN; UINT64; UINTN; TPtr CHAR16].
Definition EFI_CONNECT_CONTROLLER : ctype :=
  TFunPtr EFI_STATUS_decl [EFI_HANDLE; TPtr EFI_HANDLE; TPtr EFI_DEVICE_PATH_PROTOCOL; BOOLEAN].
Definition EFI_DISCONNECT_CONTROLLER : ctype :=
  TFunPtr EFI_STATUS_decl [EFI_HANDLE; EFI_HANDLE; EFI_HANDLE].
Definition EFI_PROTOCOLS_PER_HANDLE : ctype :=
  TFunPtr EFI_STATUS_decl [EFI_HANDLE; TPtr (TPtr (TPtr EFI_GUID)); TPtr UINTN].
Definition EFI_LOCATE_HANDLE_BUFFER : ctype :=
  TFunPtr EFI_STATUS_decl [EFI_LOCATE_SEARCH_TYPE; TPtr EFI_GUID; TPtr TVoid; TPtr UINTN;
    TPtr (TPtr EFI_HANDLE)].
Definition EFI_INSTALL_MULTIPLE_PROTOCOL_INTERFACES : ctype :=
  TFunPtr EFI_STATUS_decl [TPtr EFI_HANDLE; TTag "..."].
Definition EFI_UNINSTALL_MULTIPLE_PROTOCOL_INTERFACES : ctype :=
  TFunPtr EFI_STATUS_decl [TPtr EFI_HANDLE; TTag "..."].
Definition EFI_CALCULATE_CRC32 : ctype := TFunPtr EFI_STATUS_decl [TPtr TVoid; UINTN; TPtr UINT32].
Definition EFI_COPY_MEM : ctype := TFunPtr TVoid [TPtr TVoid; TPtr TVoid; UINTN].
Definition EFI_SET_MEM : ctype := TFunPtr TVoid [TPtr TVoid; UINTN; UINT8].
Definition EFI_CREATE_EVENT_EX : ctype :=
  TFunPtr EFI_STATUS_decl [UINT32; EFI_TPL; EFI_EVENT_NOTIFY; TPtr TVoid; TPtr EFI_GUID;
    TPtr EFI_EVENT].

(** *** efiapi.h *)

Definition SIMPLE_TEXT_OUTPUT_MODE : ctype := TStruct false [
    fld "MaxMode" INT32;
    fld "Mode" INT32;
    fld "Attribute" INT32;
    fld "CursorColumn" INT32;
    fld "CursorRow" INT32;
    fld "CursorVisible" BOOLEAN].
Definition EFI_SIMPLE_TEXT_INPUT_PROTOCOL : ctype := TStruct false [
    fld "Reset" EFI_INPUT_RESET;
    fld "ReadKeyStroke" EFI_INPUT_READ_KEY;
    fld "WaitForKey" EFI_EVENT].
Definition EFI_SIMPLE_TEXT_OUTPUT_PROTOCOL : ctype := TStruct false [
    fld "Reset" EFI_TEXT_RESET;
    fld "OutputString" EFI_TEXT_STRING;
    fld "TestString" EFI_TEXT_TEST_STRING;
    fld "QueryMode" EFI_TEXT_QUERY_MODE;
    fld "SetMode" EFI_TEXT_SET_MODE;
    fld "SetAttribute" EFI_TEXT_SET_ATTRIBUTE;
    fld "ClearScreen" EFI_TEXT_CLEAR_SCREEN;
    fld "SetCursorPosition" EFI_TEXT_SET_CURSOR_POSITION;
    fld "EnableCursor" EFI_TEXT_ENABLE_CURSOR;
    fld "Mode" (TPtr SIMPLE_TEXT_OUTPUT_MODE)].
Definition EFI_RUNTIME_SERVICES : ctype := TStruct false [
    fld "Hdr" EFI_TABLE_HEADER;
    fld "GetTime" EFI_GET_TIME;
    fld "SetTime" EFI_SET_TIME;
    fld "GetWakeupTime" EFI_GET_WAKEUP_TIME;
    fld "SetWakeupTime" EFI_SET_WAKEUP_TIME;
    fld "SetVirtualAddressMap" EFI_SET_VIRTUAL_ADDRESS_MAP;
    fld "ConvertPointer" EFI_CONVERT_POINTER;
    fld "GetVariable" EFI_GET_VARIABLE;
    fld "GetNextVariableName" EFI_GET_NEXT_VARIABLE_NAME;
    fld "SetVariable" EFI_SET_VARIABLE;
    fld "GetNextHighMonotonicCount" EFI_GET_NEXT_HIGH_MONO_COUNT;
    fld "ResetSystem" EFI_RESET_SYSTEM;
    fld "UpdateCapsule" EFI_UPDATE_CAPSULE;
    fld "QueryCapsuleCapabilities" EFI_QUERY_CAPSULE_CAPABILITIES;
    fld "QueryVariableInfo" EFI_QUERY_VARIABLE_INFO].
Definition EFI_BOOT_SERVICES : ctype := TStruct false [
    fld "Hdr" EFI_TABLE_HEADER;
    fld "RaiseTPL" EFI_RAISE_TPL;
    fld "RestoreTPL" EFI_RESTORE_TPL;
    fld "AllocatePages" EFI_ALLOCATE_PAGES;
    fld "FreePages" EFI_FREE_PAGES;
    fld "GetMemoryMap" EFI_GET_MEMORY_MAP;
    fld "AllocatePool" EFI_ALLOCATE_POOL;
    fld "FreePool" EFI_FREE_POOL;
    fld "CreateEvent" EFI_CREATE_EVENT;
    fld "SetTimer" EFI_SET_TIMER;
    fld "WaitForEvent" EFI_WAIT_FOR_EVENT;
    fld "SignalEvent" EFI_SIGNAL_EVENT;
    fld "CloseEvent" EFI_CLOSE_EVENT;
    fld "CheckEvent" EFI_CHECK_EVENT;
    fld "InstallProtocolInterface" EFI_INSTALL_PROTOCOL_INTERFACE;
    fld "ReinstallProtocolInterface" EFI_REINSTALL_PROTOCOL_INTERFACE;
    fld "UninstallProtocolInterface" EFI_UNINSTALL_PROTOCOL_INTERFACE;
    fld "HandleProtocol" EFI_HANDLE_PROTOCOL;
    fld "Reserved" (TPtr TVoid);
    fld "RegisterProtocolNotify" EFI_REGISTER_PROTOCOL_NOTIFY;
    fld "LocateHandle" EFI_LOCATE_HANDLE;
    fld "LocateDevicePath" EFI_LOCATE_DEVICE_PATH;
    fld "InstallConfigurationTable" EFI_INSTALL_CONFIGURATION_TABLE;
    fld "LoadImage" EFI_IMAGE_LOAD;
    fld "StartImage" EFI_IMAGE_START;
    fld "Exit" EFI_EXIT;
    fld "UnloadImage" EFI_IMAGE_UNLOAD;
    fld "ExitBootServices" EFI_EXIT_BOOT_SERVICES;
    fld "GetNextMonotonicCount" EFI_GET_NEXT_MONOTONIC_COUNT;
    fld "Stall" EFI_STALL;
    fld "SetWatchdogTimer" EFI_SET_WATCHDOG_TIMER;
    fld "ConnectController" EFI_CONNECT_CONTROLLER;
    fld "DisconnectController" EFI_DISCONNECT_CONTROLLER;
    fld "OpenProtocol" EFI_OPEN_PROTOCOL;
    fld "CloseProtocol" EFI_CLOSE_PROTOCOL;
    fld "OpenProtocolInformation" EFI_OPEN_PROTOCOL_INFORMATION;
    fld "ProtocolsPerHandle" EFI_PROTOCOLS_PER_HANDLE;
    fld "LocateHandleBuffer" EFI_LOCATE_HANDLE_BUFFER;
    fld "LocateProtocol" EFI_LOCATE_PROTOCOL;
    fld "InstallMultipleProtocolInterfaces" EFI_INSTALL_MULTIPLE_PROTOCOL_INTERFACES;
    fld "UninstallMultipleProtocolInterfaces" EFI_UNINSTALL_MULTIPLE_PROTOCOL_INTERFACES;
    fld "CalculateCrc32" EFI_CALCULATE_CRC32;
    fld "CopyMem" EFI_COPY_MEM;
    fld "SetMem" EFI_SET_MEM;
    fld "CreateEventEx" EFI_CREATE_EVENT_EX].
Definition EFI_CONFIGURATION_TABLE : ctype := TStruct false [
    fld "VendorGuid" EFI_GUID;
    fld "VendorTable" (TPtr TVoid)].
Definition EFI_SYSTEM_TABLE : ctype := TStruct false [
    fld "Hdr" EFI_TABLE_HEADER;
    fld "FirmwareVendor" (TPtr CHAR16);
    fld "FirmwareRevision" UINT32;
    fld "ConsoleInHandle" EFI_HANDLE;
    fld "ConIn" (TPtr EFI_SIMPLE_TEXT_INPUT_PROTOCOL);
    fld "ConsoleOutHandle" EFI_HANDLE;
    fld "ConOut" (TPtr EFI_SIMPLE_TEXT_OUTPUT_PROTOCOL);
    fld "StandardErrorHandle" EFI_HANDLE;
    fld "StdErr" (TPtr EFI_SIMPLE_TEXT_OUTPUT_PROTOCOL);
    fld "RuntimeServices" (TPtr EFI_RUNTIME_SERVICES);
    fld "BootServices" (TPtr EFI_BOOT_SERVICES);
    fld "NumberOfTableEntries" UINTN;
    fld "ConfigurationTable" (TPtr EFI_CONFIGURATION_TABLE)].

(** *** efivid.h *)

Definition EFI_GRAPHICS_PIXEL_FORMAT : ctype := enum [
    auto "PixelRedGreenBlueReserved8BitPerColor"; auto "PixelBlueGreenRedReserved8BitPerColor";
    auto "PixelBitMask"; auto "PixelBltOnly"; auto "PixelFormatMax"].
Definition EFI_PIXEL_BITMASK : ctype := TStruct false [
    fld "RedMask" UINT32;
    fld "GreenMask" UINT32;
    fld "BlueMask" UINT32;
    fld "RESERVED" UINT32].
Definition EFI_GRAPHICS_OUTPUT_MODE_INFORMATION : ctype := TStruct false [
    fld "Version" UINT32;
    fld "HorizontalResolution" UINT32;
    fld "VerticalResolution" UINT32;
    fld "PixelFormat" EFI_GRAPHICS_PIXEL_FORMAT;
    fld "PixelInformation" EFI_PIXEL_BITMASK;
    fld "PixelsPerScanline" UINT32].
Definition EFI_GRAPHICS_OUTPUT_PROTOCOL_MODE : ctype := TStruct false [
    fld "MaxMode" UINT32;
    fld "Mode" UINT32;
    fld "Info" (TPtr EFI_GRAPHICS_OUTPUT_MODE_INFORMATION);
    fld "SizeOfInfo" UINTN;
    fld "FrameBufferBase" EFI_PHYSICAL_ADDRESS;
    fld "FrameBufferSize" UINTN].
Definition EFI_GRAPHICS_OUTPUT_BLT_PIXEL : ctype := TStruct false [
    fld "Blue" UINT8;
    fld "Green" UINT8;
    fld "Red" UINT8;
    fld "RESERVED" UINT8].
Definition EFI_GRAPHICS_OUTPUT_BLT_OPERATION : ctype := enum [
    auto "EfiBltVideoFill"; auto "EfiBltVideoToBltBuffer"; auto "EfiBltBufferToVideo";
    auto "EfiBltVideoToVideo"; auto "EfiGraphicsOutputBltOperationMax"].
Definition EFI_GRAPHICS_OUTPUT_PROTOCOL_QUERY_MODE : ctype :=
  TFunPtr EFI_STATUS_decl [TPtr (TTag "EFI_GRAPHICS_OUTPUT_PROTOCOL"); UINT32; TPtr UINTN;
    TPtr (TPtr EFI_GRAPHICS_OUTPUT_MODE_INFORMATION)].
Definition EFI_GRAPHICS_OUTPUT_PROTOCOL_SET_MODE : ctype :=
  TFunPtr EFI_STATUS_decl [TPtr (TTag "EFI_GRAPHICS_OUTPUT_PROTOCOL"); UINT32].
Definition EFI_GRAPHICS_OUTPUT_PROTOCOL_BLT : ctype :=
  TFunPtr EFI_STATUS_decl [TPtr (TTag "EFI_GRAPHICS_OUTPUT_PROTOCOL");
    TPtr EFI_GRAPHICS_OUTPUT_BLT_PIXEL; EFI_GRAPHICS_OUTPUT_BLT_OPERATION; UINTN; UINTN; UINTN;
    UINTN; UINTN; UINTN; UINTN].
Definition EFI_GRAPHICS_OUTPUT_PROTOCOL : ctype := TStruct false [
    fld "QueryMode" EFI_GRAPHICS_OUTPUT_PROTOCOL_QUERY_MODE;
    fld "SetMode" EFI_GRAPHICS_OUTPUT_PROTOCOL_SET_MODE;
    fld "Blt" EFI_GRAPHICS_OUTPUT_PROTOCOL_BLT;
    fld "Mode" (TPtr EFI_GRAPHICS_OUTPUT_PROTOCOL_MODE)].

(** *** efiprotocols.h *)

Definition EFI_LOADED_IMAGE_PROTOCOL : ctype := TStruct false [
    fld "Revision" UINT32;
    fld "ParentHandle" EFI_HANDLE;
    fld "SystemTable" (TPtr EFI_SYSTEM_TABLE);
    fld "DeviceHandle" EFI_HANDLE;
    fld "FilePath" (TPtr EFI_DEVICE_PATH_PROTOCOL);
    fld "RESERVED1" (TPtr TVoid);
    fld "LoadOptionsSize" UINT32;
    fld "LoadOptions" (TPtr TVoid);
    fld "ImageBase" (TPtr TVoid);
    fld "ImageSize" UINT64;
    fld "ImageCodeType" EFI_MEMORY_TYPE;
    fld "ImageDataType" EFI_MEMORY_TYPE;
    fld "Unload" EFI_IMAGE_UNLOAD].
Definition EFI_SIMPLE_FILESYSTEM_PROTOCOL_OPEN_VOLUME : ctype :=
  TFunPtr EFI_STATUS_decl [TPtr (TTag "_EFI_SIMPLE_FILESYSTEM_PROTOCOL");
    TPtr (TPtr (TTag "_EFI_FILE_PROTOCOL"))].
Definition EFI_FILE_OPEN : ctype :=
  TFunPtr EFI_STATUS_decl [TPtr (TTag "_EFI_FILE_PROTOCOL"); TPtr (TPtr (TTag "_EFI_FILE_PROTOCOL"));
    TPtr CHAR16; UINT64; UINT64].
Definition EFI_FILE_CLOSE : ctype := TFunPtr EFI_STATUS_decl [TPtr (TTag "_EFI_FILE_PROTOCOL")].
Definition EFI_FILE_DELETE : ctype := TFunPtr EFI_STATUS_decl [TPtr (TTag "_EFI_FILE_PROTOCOL")].
Definition EFI_FILE_READ : ctype :=
  TFunPtr EFI_STATUS_decl [TPtr (TTag "_EFI_FILE_PROTOCOL"); TPtr UINTN; TPtr TVoid].
Definition EFI_FILE_WRITE : ctype :=
  TFunPtr EFI_STATUS_decl [TPtr (TTag "_EFI_FILE_PROTOCOL"); TPtr UINTN; TPtr TVoid].
Definition EFI_FILE_IO_TOKEN : ctype := TStruct false [
    fld "Event" EFI_EVENT;
    fld "Status" EFI_STATUS_decl;
    fld "BufferSize" UINTN;
    fld "Buffer" (TPtr TVoid)].
Definition EFI_FILE_OPEN_EX : ctype :=
  TFunPtr EFI_STATUS_decl [TPtr (TTag "_EFI_FILE_PROTOCOL"); TPtr (TPtr (TTag "_EFI_FILE_PROTOCOL"));
    TPtr CHAR16; UINT64; UINT64; TPtr EFI_FILE_IO_TOKEN].
Definition EFI_FILE_READ_EX : ctype :=
  TFunPtr EFI_STATUS_decl [TPtr (TTag "_EFI_FILE_PROTOCOL"); TPtr EFI_FILE_IO_TOKEN].
Definition EFI_FILE_WRITE_EX : ctype :=
  TFunPtr EFI_STATUS_decl [TPtr (TTag "_EFI_FILE_PROTOCOL"); TPtr EFI_FILE_IO_TOKEN].
Definition EFI_FILE_FLUSH : ctype := TFunPtr EFI_STATUS_decl [TPtr (TTag "_EFI_FILE_PROTOCOL")].
Definition EFI_FILE_FLUSH_EX : ctype :=
  TFunPtr EFI_STATUS_decl [TPtr (TTag "_EFI_FILE_PROTOCOL"); TPtr EFI_FILE_IO_TOKEN].
Definition EFI_FILE_SET_POSITION : ctype :=
  TFunPtr EFI_STATUS_decl [TPtr (TTag "_EFI_FILE_PROTOCOL"); UINT64].
Definition EFI_FILE_GET_POSITION : ctype :=
  TFunPtr EFI_STATUS_decl [TPtr (TTag "_EFI_FILE_PROTOCOL"); TPtr UINT64].
Definition EFI_FILE_GET_INFO : ctype :=
  TFunPtr EFI_STATUS_decl [TPtr (TTag "_EFI_FILE_PROTOCOL"); TPtr EFI_GUID; TPtr UINTN; TPtr TVoid].
Definition EFI_FILE_SET_INFO : ctype :=
  TFunPtr EFI_STATUS_decl [TPtr (TTag "_EFI_FILE_PROTOCOL"); TPtr EFI_GUID; TPtr UINTN; TPtr TVoid].
Definition EFI_DISK_READ : ctype :=
  TFunPtr EFI_STATUS_decl [TPtr (TTag "_EFI_FILE_PROTOCOL"); UINT32; UINT64; UINTN; TPtr TVoid].
Definition EFI_DISK_WRITE : ctype :=
  TFunPtr EFI_STATUS_decl [TPtr (TTag "_EFI_FILE_PROTOCOL"); UINT32; UINT64; UINTN; TPtr TVoid].
Definition EFI_FILE_PROTOCOL : ctype := TStruct false [
    fld "Revision" UINT64;
    fld "Open" EFI_FILE_OPEN;
    fld "Close" EFI_FILE_CLOSE;
    fld "Delete" EFI_FILE_DELETE;
    fld "Read" EFI_FILE_READ;
    fld "Write" EFI_FILE_WRITE;
    fld "GetPosition" EFI_FILE_GET_POSITION;
    fld "SetPosition" EFI_FILE_SET_POSITION;
    fld "GetInfo" EFI_FILE_GET_INFO;
    fld "SetInfo" EFI_FILE_SET_INFO;
    fld "Flush" EFI_FILE_FLUSH;
    fld "OpenEx" EFI_FILE_OPEN_EX;
    fld "ReadEx" EFI_FILE_READ_EX;
    fld "WriteEx" EFI_FILE_WRITE_EX;
    fld "FlushEx" EFI_FILE_FLUSH_EX].
Definition EFI_SIMPLE_FILESYSTEM_PROTOCOL : ctype := TStruct false [
    fld "Revision" UINT64;
    fld "OpenVolume" EFI_SIMPLE_FILESYSTEM_PROTOCOL_OPEN_VOLUME].
Definition EFI_FILE_INFO : ctype := TStruct false [
    fld "Size" UINT64;
    fld "FileSize" UINT64;
    fld "PhysicalSize" UINT64;
    fld "CreateTime" EFI_TIME;
    fld "LastAccessTime" EFI_TIME;
    fld "ModificationTime" EFI_TIME;
    fld "Attribute" UINT64;
    fld "FileName" (TArray CHAR16 0)].
Definition EFI_FILE_SYSTEM_INFO : ctype := TStruct false [
    fld "Size" UINT64;
    fld "ReadOnly" BOOLEAN;
    fld "VolumeSize" UINT64;
    fld "FreeSpace" UINT64;
    fld "BlockSize" UINT32;
    fld "VolumeLabel" (TArray CHAR16 0)].
Definition EFI_FILE_SYSTEM_VOLUME_LABEL : ctype := TStruct false [
    fld "VolumeLabel" (TPtr CHAR)].
Definition EFI_DISK_IO_PROTOCOL : ctype := TStruct false [
    fld "Revision" UINT64;
    fld "ReadDisk" EFI_DISK_READ;
    fld "WriteDisk" EFI_DISK_WRITE].

(** *** Identifiers

    The initialisers of the GUIDs the headers define, one value per member of
    [EFI_GUID].  That of [EFI_SIMPLE_TEXT_INPUT_PROTOCOL_GUID] lacks a comma and
    is no initialiser. *)

Definition EFI_EVENT_GROUP_EXIT_BOOT_SERVICES : list Z :=
  [0x27ABF055; 0xB1B8; 0x4C26; 0x80; 0x48; 0x74; 0x8F; 0x37; 0xBA; 0xA2; 0xDF].
Definition EFI_EVENT_GROUP_VIRTUAL_ADDRESS_CHANGE : list Z :=
  [0x13FA7698; 0xC831; 0x49C7; 0x87; 0xEA; 0x8F; 0x43; 0xFC; 0xC2; 0x51; 0x96].
Definition EFI_EVENT_GROUP_MEMORY_MAP_CHANGE : list Z :=
  [0x78BEE926; 0x692F; 0x48FD; 0x9E; 0xDB; 0x1; 0x42; 0x2E; 0xF0; 0xD7; 0xAB].
Definition EFI_EVENT_GROUP_READY_TO_BOOT : list Z :=
  [0x7CE88FB3; 0x4BD7; 0x4679; 0x87; 0xA8; 0xA8; 0xD8; 0xDE; 0xE5; 0xD; 0x2B].
Definition EFI_SIMPLE_TEXT_OUTPUT_PROTOCOL_GUID : list Z :=
  [0x387477C2; 0x69C7; 0x11D2; 0x8E; 0x39; 0x0; 0xA0; 0xC9; 0x69; 0x72; 0x3B].
Definition EFI_GRAPHICS_OUTPUT_PROTOCOL_GUID : list Z :=
  [0x9042A9DE; 0x23DC; 0x4A38; 0x96; 0xFB; 0x7A; 0xDE; 0xD0; 0x80; 0x51; 0x6A].
Definition EFI_SIMPLE_FILE_SYSTEM_PROTOCOL_GUID : list Z :=
  [0x964E5B22; 0x6459; 0x11D2; 0x8E; 0x39; 0x0; 0xA0; 0xC9; 0x69; 0x72; 0x3B].
Definition EFI_LOADED_IMAGE_PROTOCOL_GUID : list Z :=
  [0x5B1B31A1; 0x9562; 0x11D2; 0x8E; 0x3F; 0x0; 0xA0; 0xC9; 0x69; 0x72; 0x3B].
Definition EFI_LOADED_IMAGE_DEVICE_PATH_PROTOCOL_GUID : list Z :=
  [0xBC62157E; 0x3E33; 0x4FEC; 0x99; 0x20; 0x2D; 0x3B; 0x36; 0xD7; 0x50; 0xDF].
Definition EFI_FILE_INFO_ID : list Z :=
  [0x9576E92; 0x6D3F; 0x11D2; 0x39; 0x8E; 0x0; 0xA0; 0xC9; 0x69; 0x72; 0x3B].
Definition EFI_FILE_SYSTEM_INFO_ID : list Z :=
  [0x9576E93; 0x6D3F; 0x11D2; 0x39; 0x8E; 0x0; 0xA0; 0xC9; 0x69; 0x72; 0x3B].
Definition EFI_FILE_SYSTEM_VOLUME_LABEL_ID : list Z :=
  [0xDB47D7D3; 0xFE81; 0x11D3; 0x35; 0x9A; 0x0; 0x90; 0x27; 0x3F; 0xC1; 0x4D].
Definition EFI_DISK_IO_PROTOCOL_GUID : list Z :=
  [0xCE345171; 0xBA0B; 0x11D2; 0x8E; 0x4F; 0x0; 0xA0; 0xC9; 0x69; 0x72; 0x3B].

Definition efi_guids : list (list Z) := [
  EFI_EVENT_GROUP_EXIT_BOOT_SERVICES;
  EFI_EVENT_GROUP_VIRTUAL_ADDRESS_CHANGE;
  EFI_EVENT_GROUP_MEMORY_MAP_CHANGE;
  EFI_EVENT_GROUP_READY_TO_BOOT;
  EFI_SIMPLE_TEXT_OUTPUT_PROTOCOL_GUID;
  EFI_GRAPHICS_OUTPUT_PROTOCOL_GUID;
  EFI_SIMPLE_FILE_SYSTEM_PROTOCOL_GUID;
  EFI_LOADED_IMAGE_PROTOCOL_GUID;
  EFI_LOADED_IMAGE_DEVICE_PATH_PROTOCOL_GUID;
  EFI_FILE_INFO_ID;
  EFI_FILE_SYSTEM_INFO_ID;
  EFI_FILE_SYSTEM_VOLUME_LABEL_ID;
  EFI_DISK_IO_PROTOCOL_GUID].

(** The bytes of an initialised GUID. *)
Definition guid_bytes (g : list Z) : list Z :=
  concat (zip_with (fun m v => le_bytes (Z.to_nat (pl_width m / 8)) v) (members_of EFI_GUID) g).

(** Every structure above, with its name. *)
Definition efi_structs : list (string * ctype) := [
  ("EFI_GUID", EFI_GUID);
  ("EFI_TABLE_HEADER", EFI_TABLE_HEADER);
  ("EFI_INPUT_KEY", EFI_INPUT_KEY);
  ("EFI_MEMORY_DESCRIPTOR", EFI_MEMORY_DESCRIPTOR);
  ("EFI_TIME", EFI_TIME);
  ("EFI_TIME_CAPABILITIES", EFI_TIME_CAPABILITIES);
  ("EFI_CAPSULE_HEADER", EFI_CAPSULE_HEADER);
  ("EFI_DEVICE_PATH_PROTOCOL", EFI_DEVICE_PATH_PROTOCOL);
  ("EFI_OPEN_PROTOCOL_INFORMATION_ENTRY", EFI_OPEN_PROTOCOL_INFORMATION_ENTRY);
  ("SIMPLE_TEXT_OUTPUT_MODE", SIMPLE_TEXT_OUTPUT_MODE);
  ("EFI_SIMPLE_TEXT_INPUT_PROTOCOL", EFI_SIMPLE_TEXT_INPUT_PROTOCOL);
  ("EFI_SIMPLE_TEXT_OUTPUT_PROTOCOL", EFI_SIMPLE_TEXT_OUTPUT_PROTOCOL);
  ("EFI_RUNTIME_SERVICES", EFI_RUNTIME_SERVICES);
  ("EFI_BOOT_SERVICES", EFI_BOOT_SERVICES);
  ("EFI_CONFIGURATION_TABLE", EFI_CONFIGURATION_TABLE);
  ("EFI_SYSTEM_TABLE", EFI_SYSTEM_TABLE);
  ("EFI_PIXEL_BITMASK", EFI_PIXEL_BITMASK);
  ("EFI_GRAPHICS_OUTPUT_MODE_INFORMATION", EFI_GRAPHICS_OUTPUT_MODE_INFORMATION);
  ("EFI_GRAPHICS_OUTPUT_PROTOCOL_MODE", EFI_GRAPHICS_OUTPUT_PROTOCOL_MODE);
  ("EFI_GRAPHICS_OUTPUT_BLT_PIXEL", EFI_GRAPHICS_OUTPUT_BLT_PIXEL);
  ("EFI_GRAPHICS_OUTPUT_PROTOCOL", EFI_GRAPHICS_OUTPUT_PROTOCOL);
  ("EFI_LOADED_IMAGE_PROTOCOL", EFI_LOADED_IMAGE_PROTOCOL);
  ("EFI_FILE_IO_TOKEN", EFI_FILE_IO_TOKEN);
  ("EFI_FILE_PROTOCOL", EFI_FILE_PROTOCOL);
  ("EFI_SIMPLE_FILESYSTEM_PROTOCOL", EFI_SIMPLE_FILESYSTEM_PROTOCOL);
  ("EFI_FILE_INFO", EFI_FILE_INFO);
  ("EFI_FILE_SYSTEM_INFO", EFI_FILE_SYSTEM_INFO);
  ("EFI_FILE_SYSTEM_VOLUME_LABEL", EFI_FILE_SYSTEM_VOLUME_LABEL);
  ("EFI_DISK_IO_PROTOCOL", EFI_DISK_IO_PROTOCOL)].

End EfiHeaders.
