(* ===== verification/BootHeaders.v ===== *)
(** * The declarations of the boot protocol and of the kernel's file format
    ([kern/inc/multiboot/multiboot2.h], [drivers/proc/elf/elf.h])

    What the boot loaders and the kernel exchange in memory and on disk. *)

From S2P Require Import Prelude Machine CTypes Headers.

(** *** multiboot2.h *)

Definition multiboot_e820_mm_type : ctype := enum [
    given "E820_MEMORY_TYPE_INV" 0x00; given "E820_MEMORY_TYPE_FREE" 0x01;
    given "E820_MEMORY_TYPE_RESERVED" 0x02; given "E820_MEMORY_TYPE_ACPI" 0x03;
    given "E820_MEMORY_TYPE_NVS" 0x04; given "E820_MEMORY_TYPE_BADMEM" 0x05;
    given "E820_MEMORY_TYPE_DISABLED" 0x06].
(** The members the macros add. *)
Definition MULTIBOOT_BASE_HEADER_TAG_BASE_VALUES : list member := [
  fld "type" UINT16;
  fld "flags" UINT16;
  fld "size" UINT32].
Definition MULTIBOOT_BASE_TAG_BASE_VALUES : list member := [
  fld "type" UINT32;
  fld "size" UINT32].

Definition multiboot_header : ctype := TStruct false [
    fld "magic" UINT32;
    fld "architecture" UINT32;
    fld "header_length" UINT32;
    fld "checksum" UINT32].
Definition multiboot_header_tag : ctype :=
  TStruct false (MULTIBOOT_BASE_HEADER_TAG_BASE_VALUES).
Definition multiboot_header_tag_information_request : ctype := TStruct false
  (MULTIBOOT_BASE_HEADER_TAG_BASE_VALUES ++ [
    fld "requests" (TArray UINT32 0)]).
Definition multiboot_header_tag_address : ctype := TStruct false
  (MULTIBOOT_BASE_HEADER_TAG_BASE_VALUES ++ [
    fld "header_addr" UINT32;
    fld "load_addr" UINT32;
    fld "load_end_addr" UINT32;
    fld "bss_end_addr" UINT32]).
Definition multiboot_header_tag_entry_address : ctype := TStruct false
  (MULTIBOOT_BASE_HEADER_TAG_BASE_VALUES ++ [
    fld "entry_addr" UINT32]).
Definition multiboot_header_tag_console_flags : ctype := TStruct false
  (MULTIBOOT_BASE_HEADER_TAG_BASE_VALUES ++ [
    fld "console_flags" UINT32]).
Definition multiboot_header_tag_framebuffer : ctype := TStruct false
  (MULTIBOOT_BASE_HEADER_TAG_BASE_VALUES ++ [
    fld "width" UINT32;
    fld "height" UINT32;
    fld "depth" UINT32]).
Definition multiboot_header_tag_module_align : ctype := TStruct false
  (MULTIBOOT_BASE_HEADER_TAG_BASE_VALUES ++ [
    fld "width" UINT32;
    fld "height" UINT32;
    fld "depth" UINT32]).
Definition multiboot_color : ctype := TStruct false [
    fld "red" UINT8;
    fld "green" UINT8;
    fld "blue" UINT8].
Definition multiboot_mmap_entry : ctype := TStruct false [
    fld "addr" UINT64;
    fld "len" UINT64;
    fld "type" UINT32;
    fld "zero" UINT32].
Definition multiboot_memory_map_t : ctype := multiboot_mmap_entry.
Definition multiboot_tag : ctype := TStruct false (MULTIBOOT_BASE_TAG_BASE_VALUES).
Definition multiboot_tag_string : ctype := TStruct false
  (MULTIBOOT_BASE_TAG_BASE_VALUES ++ [
    fld "string" (TArray CHAR 0)]).
Definition multiboot_tag_module : ctype := TStruct false
  (MULTIBOOT_BASE_TAG_BASE_VALUES ++ [
    fld "mod_start" UINT32;
    fld "mod_end" UINT32;
    fld "cmdline" (TArray CHAR 0)]).
Definition multiboot_tag_basic_meminfo : ctype := TStruct false
  (MULTIBOOT_BASE_TAG_BASE_VALUES ++ [
    fld "mem_lower" UINT32;
    fld "mem_upper" UINT32]).
Definition multiboot_tag_bootdev : ctype := TStruct false
  (MULTIBOOT_BASE_TAG_BASE_VALUES ++ [
    fld "biosdev" UINT32;
    fld "slice" UINT32;
    fld "part" UINT32]).
Definition multiboot_tag_mmap : ctype := TStruct false
  (MULTIBOOT_BASE_TAG_BASE_VALUES ++ [
    fld "entry_size" UINT32;
    fld "entry_version" UINT32;
    fld "entries" (TArray multiboot_mmap_entry 0)]).
Definition multiboot_vbe_info_block : ctype := TStruct false [
    fld "external_specification" (TArray UINT8 512)].
Definition multiboot_vbe_mode_info_block : ctype := TStruct false [
    fld "external_specification" (TArray UINT8 256)].
Definition multiboot_tag_vbe : ctype := TStruct false
  (MULTIBOOT_BASE_TAG_BASE_VALUES ++ [
    fld "vbe_mode" UINT16;
    fld "vbe_interface_seg" UINT16;
    fld "vbe_interface_off" UINT16;
    fld "vbe_interface_len" UINT16;
    fld "vbe_control_info" multiboot_vbe_info_block;
    fld "vbe_mode_info" multiboot_vbe_mode_info_block]).
Definition multiboot_tag_framebuffer_common : ctype := TStruct false
  (MULTIBOOT_BASE_TAG_BASE_VALUES ++ [
    fld "framebuffer_addr" UINT64;
    fld "framebuffer_pitch" UINT32;
    fld "framebuffer_width" UINT32;
    fld "framebuffer_height" UINT32;
    fld "framebuffer_bpp" UINT8;
    fld "framebuffer_type" UINT8;
    fld "MULTIBOOT_RESERVED" UINT16]).
Definition multiboot_tag_framebuffer : ctype := TStruct false [
    fld "common" multiboot_tag_framebuffer_common;
    unnamed (TUnion false [
        unnamed (TStruct false [
            fld "framebuffer_palette_num_colors" UINT16;
            fld "framebuffer_palette" (TArray multiboot_color 0)]);
        unnamed (TStruct false [
            fld "framebuffer_red_field_position" UINT8;
            fld "framebuffer_red_mask_size" UINT8;
            fld "framebuffer_green_field_position" UINT8;
            fld "framebuffer_green_mask_size" UINT8;
            fld "framebuffer_blue_field_position" UINT8;
            fld "framebuffer_blue_mask_size" UINT8])])].
Definition multiboot_tag_elf_sections : ctype := TStruct false
  (MULTIBOOT_BASE_TAG_BASE_VALUES ++ [
    fld "num" UINT32;
    fld "entsize" UINT32;
    fld "shndx" UINT32;
    fld "sections" (TArray CHAR 0)]).
Definition multiboot_tag_apm : ctype := TStruct false
  (MULTIBOOT_BASE_TAG_BASE_VALUES ++ [
    fld "version" UINT16;
    fld "cseg" UINT16;
    fld "offset" UINT32;
    fld "cseg_16" UINT16;
    fld "dseg" UINT16;
    fld "flags" UINT16;
    fld "cseg_len" UINT16;
    fld "cseg_16_len" UINT16;
    fld "dseg_len" UINT16]).
Definition multiboot_tag_efi : ctype := TStruct false
  (MULTIBOOT_BASE_TAG_BASE_VALUES ++ [
    fld "pointer" UINTN]).
Definition multiboot_tag_efi32 : ctype := TStruct false
  (MULTIBOOT_BASE_TAG_BASE_VALUES ++ [
    fld "pointer" UINT32]).
Definition multiboot_tag_efi64 : ctype := TStruct false
  (MULTIBOOT_BASE_TAG_BASE_VALUES ++ [
    fld "pointer" UINT64]).
Definition multiboot_tag_smbios : ctype := TStruct false
  (MULTIBOOT_BASE_TAG_BASE_VALUES ++ [
    fld "major" UINT8;
    fld "minor" UINT8;
    fld "MULTIBOOT_RESERVED" (TArray UINT8 6);
    fld "tables" (TArray UINT8 0)]).
Definition multiboot_tag_acpi : ctype := TStruct false
  (MULTIBOOT_BASE_TAG_BASE_VALUES ++ [
    fld "rsdp" (TArray UINT8 0)]).
Definition multiboot_tag_old_acpi : ctype := multiboot_tag_acpi.
Definition multiboot_tag_new_acpi : ctype := multiboot_tag_acpi.
Definition multiboot_tag_network : ctype := TStruct false
  (MULTIBOOT_BASE_TAG_BASE_VALUES ++ [
    fld "dhcpack" (TArray UINT8 0)]).

(** *** elf.h *)

Definition ElfFormatArchitecture : ctype := enum [
    given "ELF_ARCH_NONE" 0x00; given "ELF_ARCH_SPARC" 0x02; given "ELF_ARCH_I386" 0x03;
    given "ELF_ARCH_MIPS" 0x08; given "ELF_ARCH_POWER" 0x14; given "ELF_ARCH_AARCH32" 0x28;
    given "ELF_ARCH_JCORE" 0x2A; given "ELF_ARCH_IA64" 0x32; given "ELF_ARCH_X86_64" 0x3E;
    given "ELF_ARCH_AARCH64" 0xB7].
Definition ElfFormatIdentifier : ctype := enum [
    given "ELF_SYSTEM_V" 0x00; given "ELF_NETBSD" 0x02; given "ELF_LINUX" 0x03;
    given "ELF_GNU" 0x04; given "ELF_INDIANA" 0x06; given "ELF_FREEBSD" 0x09;
    given "ELF_FERAL_WAYPOINT" 0xFE].
Definition ElfExecTypes : ctype := enum [
    given "ELF_RELOCATABLE" 0; given "ELF_EXECUTABLE" 1; given "ELF_SHARED" 2;
    given "ELF_CORE" 3].
Definition ElfHeader64 : ctype := TStruct true [
    fld "magic" (TArray CHAR 4);
    fld "cpu_bitsz" UINT8;
    fld "cpu_endian" UINT8;
    fld "elf_version" UINT8;
    fld "e_identifier" UINT8;
    fld "e_padding" UINT64;
    fld "e_type" UINT16;
    fld "e_machine" UINT16;
    fld "e_version" UINT32;
    fld "e_entry" UINT64;
    fld "e_phoff" UINT64;
    fld "e_shoff" UINT64;
    fld "e_flags" UINT32;
    fld "e_ehsize" UINT16;
    fld "e_phentsize" UINT16;
    fld "e_phnum" UINT16;
    fld "e_shentsize" UINT16].
Definition ElfHeader32 : ctype := TStruct true [
    fld "magic" (TArray CHAR 4);
    fld "cpu_bitsz" UINT8;
    fld "cpu_endian" UINT8;
    fld "elf_version" UINT8;
    fld "e_identifier" UINT8;
    fld "e_padding" UINT64;
    fld "e_type" UINT16;
    fld "e_machine" UINT16;
    fld "e_version" UINT32;
    fld "e_entry" UINT32;
    fld "e_phoff" UINT32;
    fld "e_shoff" UINT32;
    fld "e_flags" UINT32;
    fld "e_ehsize" UINT16;
    fld "e_phentsize" UINT16;
    fld "e_phnum" UINT16;
    fld "e_shentsize" UINT16].
Definition ElfProgramHeader64 : ctype := TStruct true [
    fld "p_type" UINT32;
    fld "p_flags" UINT32;
    fld "p_offset" UINT64;
    fld "p_vaddr" UINT64;
    fld "p_paddr" UINT64;
    fld "p_filesz" UINT64;
    fld "p_memsz" UINT64;
    fld "p_align" UINT64].
Definition ElfSectionHeader64 : ctype := TStruct true [
    fld "sh_name" UINT32;
    fld "sh_type" UINT32;
    fld "sh_flags" UINT64;
    fld "sh_addr" UINT64;
    fld "sh_offset" UINT64;
    fld "sh_size" UINT64;
    fld "sh_link" UINT32;
    fld "sh_info" UINT32;
    fld "sh_addralign" UINT64;
    fld "sh_entsize" UINT64].
Definition ElfProgramHeader32 : ctype := TStruct true [
    fld "p_type" UINT32;
    fld "p_offset" UINT32;
    fld "p_vaddr" UINT32;
    fld "p_paddr" UINT32;
    fld "p_filesz" UINT32;
    fld "p_memsz" UINT32;
    fld "p_flags" UINT32;
    fld "p_align" UINT32].
Definition ElfSectionHeader32 : ctype := TStruct true [
    fld "sh_name" UINT32;
    fld "sh_type" UINT32;
    fld "sh_flags" UINT64;
    fld "sh_addr" UINT32;
    fld "sh_offset" UINT32;
    fld "sh_size" UINT32;
    fld "sh_link" UINT32;
    fld "sh_info" UINT32;
    fld "sh_addralign" UINT32;
    fld "sh_entsize" UINT32].

(** Every structure above, with its name. *)
Definition boot_structs : list (string * ctype) := [
  ("multiboot_header", multiboot_header);
  ("multiboot_header_tag", multiboot_header_tag);
  ("multiboot_header_tag_information_request", multiboot_header_tag_information_request);
  ("multiboot_header_tag_address", multiboot_header_tag_address);
  ("multiboot_header_tag_entry_address", multiboot_header_tag_entry_address);
  ("multiboot_header_tag_console_flags", multiboot_header_tag_console_flags);
  ("multiboot_header_tag_framebuffer", multiboot_header_tag_framebuffer);
  ("multiboot_header_tag_module_align", multiboot_header_tag_module_align);
  ("multiboot_color", multiboot_color);
  ("multiboot_mmap_entry", multiboot_mmap_entry);
  ("multiboot_tag", multiboot_tag);
  ("multiboot_tag_string", multiboot_tag_string);
  ("multiboot_tag_module", multiboot_tag_module);
  ("multiboot_tag_basic_meminfo", multiboot_tag_basic_meminfo);
  ("multiboot_tag_bootdev", multiboot_tag_bootdev);
  ("multiboot_tag_mmap", multiboot_tag_mmap);
  ("multiboot_vbe_info_block", multiboot_vbe_info_block);
  ("multiboot_vbe_mode_info_block", multiboot_vbe_mode_info_block);
  ("multiboot_tag_vbe", multiboot_tag_vbe);
  ("multiboot_tag_framebuffer_common", multiboot_tag_framebuffer_common);
  ("multiboot_tag_framebuffer", multiboot_tag_framebuffer);
  ("multiboot_tag_elf_sections", multiboot_tag_elf_sections);
  ("multiboot_tag_apm", multiboot_tag_apm);
  ("multiboot_tag_efi", multiboot_tag_efi);
  ("multiboot_tag_efi32", multiboot_tag_efi32);
  ("multiboot_tag_efi64", multiboot_tag_efi64);
  ("multiboot_tag_smbios", multiboot_tag_smbios);
  ("multiboot_tag_acpi", multiboot_tag_acpi);
  ("multiboot_tag_network", multiboot_tag_network);
  ("ElfHeader64", ElfHeader64);
  ("ElfHeader32", ElfHeader32);
  ("ElfProgramHeader64", ElfProgramHeader64);
  ("ElfSectionHeader64", ElfSectionHeader64);
  ("ElfProgramHeader32", ElfProgramHeader32);
  ("ElfSectionHeader32", ElfSectionHeader32)].

