(* ===== verification/CharMap.v ===== *)
(** * The character map ([kern/entry/charmap_default.inl]) and the console of
    the UEFI entry ([kern/entry/efientry.c])

    The bitmap font the UEFI entry hands to the kernel, glyph by glyph with the
    binary digits of the source, the [KrnlCharMap] it is described with, and the
    firmware functions that entry installs. *)

From S2P Require Import Prelude Machine Status MemFuncs Strings Print CTypes Headers.

(** The value of a binary literal. *)
Fixpoint binary_from (n : Z) (s : string) : Z :=
  match s with
  | EmptyString => n
  | String c s => binary_from (2 * n + b2z (bool_decide (c = Ascii.ascii_of_nat 49))) s
  end.
Definition binary : string -> Z := binary_from 0.

(** One glyph's rows; the character it shows is only a comment. *)
Definition glyph (_ : string) (rows : list string) : list Z := binary <$> rows.

(** The numerals. *)
Definition numerals : list (list Z) := [
  glyph "0" ["01111110"; "01000010"; "10000001"; "10000001";
    "10000001"; "10000001"; "01000010"; "01111110"];
  glyph "1" ["00001000"; "00011000"; "00101000"; "00001000";
    "00001000"; "00001000"; "00001000"; "01111110"];
  glyph "2" ["01111100"; "10000100"; "00000100"; "00011000";
    "00100000"; "01000000"; "10000000"; "11111110"];
  glyph "3" ["11111000"; "00000100"; "00000010"; "11111110";
    "00000010"; "00000010"; "00000100"; "11111000"];
  glyph "4" ["00001100"; "00010100"; "00100100"; "01000100";
    "11111110"; "00000100"; "00000100"; "00000100"];
  glyph "5" ["01111110"; "01000000"; "01000000"; "01111100";
    "00000010"; "00000010"; "00000010"; "01111100"];
  glyph "6" ["01110000"; "10000000"; "10000000"; "11111000";
    "10000100"; "10000010"; "10000010"; "01111100"];
  glyph "7" ["11111110"; "00000010"; "00000010"; "00000100";
    "00001000"; "00010000"; "00100000"; "01000000"];
  glyph "8" ["01111110"; "01000010"; "01000010"; "01000010";
    "00111100"; "01000010"; "01000010"; "01111110"];
  glyph "9" ["01111110"; "10000010"; "10000010"; "01111110";
    "00000010"; "00000010"; "00000010"; "01111110"]].

(** The letters a to m. *)
Definition lowercase_a_m : list (list Z) := [
  glyph "a" ["00000000"; "00000000"; "00000000"; "01111000";
    "10000100"; "10000100"; "10001010"; "01110010"];
  glyph "b" ["00000000"; "10000000"; "10000000"; "11111000";
    "10000100"; "10000010"; "10000100"; "01111000"];
  glyph "c" ["00000000"; "01111000"; "10000100"; "10000000";
    "10000000"; "10000000"; "10000100"; "01111000"];
  glyph "d" ["00000000"; "00000010"; "00000010"; "01111110";
    "10000010"; "10000010"; "10000010"; "01111100"];
  glyph "e" ["00000000"; "00000000"; "01111000"; "10000100";
    "11111000"; "10000000"; "10000100"; "01111000"];
  glyph "f" ["00001110"; "00010000"; "00100000"; "11111100";
    "00100000"; "00100000"; "00100000"; "00100000"];
  glyph "g" ["01111110"; "10000010"; "10000010"; "10000010";
    "01111100"; "00000010"; "00000010"; "1111110"];
  glyph "h" ["00000000"; "10000000"; "10000000"; "11111000";
    "10000100"; "10000010"; "10000010"; "10000010"];
  glyph "i" ["00000000"; "00100000"; "00100000"; "00000000";
    "00100000"; "00100000"; "00100000"; "00100000"];
  glyph "j" ["00001000"; "00001000"; "00000000"; "00001000";
    "00001000"; "00001000"; "00010000"; "01100000"];
  glyph "k" ["10000000"; "10000000"; "10000010"; "10000100";
    "11111000"; "10000010"; "10000010"; "10000010"];
  glyph "l" ["00100000"; "00100000"; "00100000"; "00100000";
    "00100000"; "00100000"; "00100000"; "00011000"];
  glyph "m" ["00000000"; "00000000"; "00000000"; "01111100";
    "10010010"; "10010010"; "10010010"; "10000010"]].

(** The letters n to z. *)
Definition lowercase_n_z : list (list Z) := [
  glyph "n" ["00000000"; "00000000"; "00000000"; "00111000";
    "01000100"; "01000100"; "01000100"; "01000100"];
  glyph "o" ["00000000"; "00000000"; "00000000"; "00111000";
    "01000100"; "01000100"; "01000100"; "00111000"];
  glyph "p" ["00000000"; "00111000"; "01000100"; "01000100";
    "01111000"; "01000000"; "01000000"; "01000000"];
  glyph "q" ["00000000"; "00111000"; "01000100"; "01000100";
    "00111100"; "00000100"; "00000100"; "00000100"];
  glyph "r" ["00000000"; "00000000"; "00000000"; "00111000";
    "01000000"; "01000000"; "01000000"; "01000000"];
  glyph "s" ["00000000"; "00000000"; "00000000"; "00111000";
    "01000000"; "01111100"; "00000100"; "01111000"];
  glyph "t" ["00100000"; "00100000"; "00100000"; "11111000";
    "00100000"; "00100000"; "00100000"; "00011000"];
  glyph "u" ["00000000"; "00000000"; "00000000"; "00000000";
    "01000100"; "01000100"; "01000100"; "00111000"];
  glyph "v" ["00000000"; "00000000"; "00000000"; "00000000";
    "01000100"; "01000100"; "00101000"; "00010000"];
  glyph "w" ["00000000"; "00000000"; "00000000"; "00000000";
    "01011010"; "01011010"; "00100100"; "00000000"];
  glyph "x" ["00000000"; "00000000"; "00000000"; "01000100";
    "00101000"; "00010000"; "00101000"; "01000100"];
  glyph "y" ["00000000"; "00000000"; "00000000"; "01000100";
    "00101000"; "00010000"; "00100000"; "01000000"];
  glyph "z" ["00000000"; "00000000"; "00000000"; "01111100";
    "00001000"; "00010000"; "00100000"; "01111100"]].

(** The letters A to M. *)
Definition uppercase_A_M : list (list Z) := [
  glyph "A" ["00111100"; "01000010"; "01000010"; "01111110";
    "10000001"; "10000001"; "10000001"; "10000001"];
  glyph "B" ["11111000"; "10000100"; "10000100"; "11111100";
    "10000010"; "10000010"; "10000010"; "11111100"];
  glyph "C" ["01111000"; "10000100"; "10000000"; "10000000";
    "10000000"; "10000000"; "10000100"; "01111000"];
  glyph "D" ["11111000"; "10000100"; "10000010"; "10000010";
    "10000010"; "10000010"; "10000010"; "11111100"];
  glyph "E" ["11111110"; "10000000"; "10000000"; "11111110";
    "10000000"; "10000000"; "10000000"; "11111110"];
  glyph "F" ["11111110"; "10000000"; "10000000"; "11111100";
    "10000000"; "10000000"; "10000000"; "10000000"];
  glyph "G" ["01111100"; "10000010"; "10000010"; "1000000";
    "10001110"; "10000010"; "10000010"; "01111100"];
  glyph "H" ["10000010"; "10000010"; "10000010"; "11111110";
    "10000010"; "10000010"; "10000010"; "10000010"];
  glyph "I" ["01111110"; "00010000"; "00010000"; "00010000";
    "00010000"; "00010000"; "00010000"; "01111110"];
  glyph "J" ["11111111"; "00001000"; "00001000"; "00001000";
    "00001000"; "00001000"; "00010000"; "11100000"];
  glyph "K" ["10000001"; "10000010"; "10000100"; "11111000";
    "10000100"; "10000010"; "10000010"; "10000010"];
  glyph "L" ["01000000"; "01000000"; "01000000"; "01000000";
    "01000000"; "01000000"; "01000000"; "01111110"];
  glyph "M" ["11000110"; "10101010"; "10010010"; "10010010";
    "10010010"; "10010010"; "10010010"; "10000010"]].

(** The letters N to Z. *)
Definition uppercase_N_Z : list (list Z) := [
  glyph "N" ["10000010"; "11000010"; "10100010"; "10100010";
    "10010010"; "10001010"; "10000110"; "10000010"];
  glyph "O" ["01111100"; "10000010"; "10000010"; "10000010";
    "10000010"; "10000010"; "10000010"; "01111100"];
  glyph "P" ["01111110"; "01000010"; "01000010"; "01111110";
    "01000000"; "01000000"; "01000000"; "01000000"];
  glyph "Q" ["01111110"; "01000010"; "01000010"; "01000010";
    "01001010"; "01000110"; "01111110"; "00000001"];
  glyph "R" ["01111100"; "01000010"; "01000010"; "01111110";
    "01000001"; "01000001"; "01000001"; "01000001"];
  glyph "S" ["00111110"; "01000000"; "01000000"; "01111110";
    "00000010"; "00000010"; "00000010"; "01111100"];
  glyph "T" ["11111111"; "00011000"; "00011000"; "00011000";
    "00011000"; "00011000"; "00011000"; "00011000"];
  glyph "U" ["10000010"; "10000010"; "10000010"; "10000010";
    "10000010"; "10000010"; "10000010"; "01111100"];
  glyph "V" ["10000001"; "10000001"; "01000010"; "01000010";
    "00100100"; "00100100"; "00100100"; "00011000"];
  glyph "W" ["10000001"; "10000001"; "10000001"; "10000001";
    "10011001"; "01011010"; "01011010"; "00100100"];
  glyph "X" ["10000010"; "01000100"; "01000100"; "00101000";
    "00010000"; "00101000"; "01000100"; "10000010"];
  glyph "Y" ["10000010"; "01000100"; "00101000"; "00010000";
    "00010000"; "00010000"; "00010000"; "00010000"];
  glyph "Z" ["11111111"; "00000001"; "00000010"; "00011100";
    "00100000"; "01000000"; "10000000"; "11111111"]].

Definition CHARMAP_NUM_ENTRIES : Z := 62.
Definition CHARMAP_BITMAP_HEIGHT : Z := 8.

Definition DefaultCharMap : list (list Z) :=
  numerals ++ lowercase_a_m ++ lowercase_n_z ++ uppercase_A_M ++ uppercase_N_Z.

(** The array in memory. *)
Definition font_bytes : list Z := concat DefaultCharMap.

(** The entry a character has in a map, "numerals, lowercase, uppercase, in
    order" as krnlfirmware.h says, for the numbers of each. *)
Definition char_entry (NumNumerals NumLowerCase NumUpperCase c : Z) : option Z :=
  if (48 <=? c) && (c <? 48 + NumNumerals) then Some (c - 48)
  else if (97 <=? c) && (c <? 97 + NumLowerCase) then Some (NumNumerals + (c - 97))
  else if (65 <=? c) && (c <? 65 + NumUpperCase) then Some (NumNumerals + NumLowerCase + (c - 65))
  else None.

(** Where the linker puts the array and the static [CharMap]. *)
Class FontAddresses := mkFontAddresses { DefaultCharMapAddr : Z; CharMapAddr : Z }.

Section EfiEntry.
Context `{AS : AddrSpace} `{FA : FontAddresses}.

(** What [kern_init] stores into [CharMap]. *)
Definition set_up_char_map : K () :=
  assign KrnlCharMap ["CharMapWidth"] CharMapAddr 8 ;;
  assign KrnlCharMap ["CharMapHeight"] CharMapAddr 8 ;;
  assign KrnlCharMap ["NumNumerals"] CharMapAddr 10 ;;
  assign KrnlCharMap ["NumLowerCase"] CharMapAddr 26 ;;
  assign KrnlCharMap ["NumUpperCase"] CharMapAddr 26 ;;
  assign KrnlCharMap ["CharMap"] CharMapAddr DefaultCharMapAddr.

(** [Map->CharMap[Entry][Row]] with the type the header gives it: an array of
    pointers to rows. *)
Definition read_glyph_row (Map Entry Row : Z) : K Z :=
  t ← fetch KrnlCharMap ["CharMap"] Map;
  g ← load64 (t + sizeof (TPtr UINT8) * Entry);
  load8 (g + Row).
End EfiEntry.

(** The firmware functions of the entry; [Backspace] is not set, and calling
    it is a call through a null pointer. *)
Definition GetEfiFirmwareClaim : string := "UEFI 2.8 compatible firmware".
Definition EfiPutChar (Char : Z) : K () := skip.
Definition EfiPrintln (Str Strlen : Z) : K () := skip.
Definition EfiFirmwareFuncs : KrnlFirmwareFunctions :=
  {| PutChar := EfiPutChar; Println := EfiPrintln; Backspace := fault |}.

(** ** The font *)

Definition glyph_ok (g : list Z) : bool :=
  (zlen g =? CHARMAP_BITMAP_HEIGHT) && forallb (fun r => (0 <=? r) && (r <? 2 ^ 8)) g &&
  negb (forallb (Z.eqb 0) g).

Lemma font_ok : forallb glyph_ok DefaultCharMap = true.
Proof. by vm_compute. Qed.

Lemma font_nodup : NoDup DefaultCharMap.
Proof. apply (bool_decide_unpack _). by vm_compute. Qed.

Lemma char_entry_range c e : char_entry 10 26 26 c = Some e -> 0 <= e < CHARMAP_NUM_ENTRIES.
Proof.
  unfold char_entry, CHARMAP_NUM_ENTRIES. bdestr; cbn [andb]; intros E; simplify_eq; lia.
Qed.

Lemma char_entry_inj c c' e :
  char_entry 10 26 26 c = Some e -> char_entry 10 26 26 c' = Some e -> c = c'.
Proof.
  unfold char_entry. bdestr; cbn [andb]; intros E1 E2; simplify_eq; lia.
Qed.

(** the font has the shape [kern_init] describes: as many glyphs as the
    numerals, small and capital letters it counts, each of eight rows of eight
    pixels, none of them blank; and by the order krnlfirmware.h prescribes each
    of these characters has a glyph of its own, so that no two look the same. *)
Theorem font_shows_characters :
  zlen DefaultCharMap = CHARMAP_NUM_ENTRIES /\
  CHARMAP_NUM_ENTRIES = 10 + 26 + 26 /\
  Forall (fun g => zlen g = 8 /\ Forall byte g /\ exists r, r ∈ g /\ r <> 0) DefaultCharMap /\
  (forall c, 48 <= c < 58 \/ 97 <= c < 123 \/ 65 <= c < 91 ->
     exists e, char_entry 10 26 26 c = Some e /\ 0 <= e < CHARMAP_NUM_ENTRIES) /\
  (forall c c' e e', char_entry 10 26 26 c = Some e -> char_entry 10 26 26 c' = Some e' -> c <> c' ->
     nth (Z.to_nat e) DefaultCharMap [] <> nth (Z.to_nat e') DefaultCharMap []).
Proof.
  split; [done|]. split; [done|]. split; [|split].
  - apply Forall_forall. intros g Hg. pose proof font_ok as H. rewrite forallb_forall in H.
    specialize (H g (proj1 (list_elem_of_In _ _) Hg)). unfold glyph_ok in H.
    rewrite !andb_true_iff, Z.eqb_eq, negb_true_iff in H. destruct H as [[Hl Hb] Hz].
    split; [done|]. split.
    + rewrite forallb_forall in Hb. apply Forall_forall. intros r Hr. specialize (Hb r).
      rewrite <- list_elem_of_In in Hb. specialize (Hb Hr). rewrite andb_true_iff, Z.leb_le, Z.ltb_lt in Hb. done.
    + clear - Hz. induction g as [|r g IH]; [done|]. cbn [forallb] in Hz.
      destruct (Z.eqb_spec 0 r) as [<-|Hr]; [|exists r; split; [by left|lia]].
      destruct (IH Hz) as (x & ? & ?). exists x. split; [by right|done].
  - intros c Hc. destruct (char_entry 10 26 26 c) as [e|] eqn:E; [eauto using char_entry_range|].
    exfalso. revert E. unfold char_entry. bdestr; cbn [andb]; (done || lia).
  - intros c c' e e' H1 H2 Hne Hg. apply Hne.
    pose proof (char_entry_range _ _ H1). pose proof (char_entry_range _ _ H2). unfold CHARMAP_NUM_ENTRIES in *.
    assert (Z.to_nat e = Z.to_nat e') as He.
    { apply (proj1 (NoDup_nth DefaultCharMap []) (proj1 (NoDup_ListNoDup _) font_nodup)); [| |done];
        change (length DefaultCharMap) with 62%nat; lia. }
    assert (e = e') as <- by lia. by apply (char_entry_inj c c' e).
Qed.

(** ** What the UEFI entry leaves behind *)

Section EfiEntryLaws.
Context {AS : AddrSpace} {FA : FontAddresses}.
Implicit Types (k : kernel).

(** [m] with the fields of the character map at [p]. *)
Definition char_map_ram (m : gmap Z Z) (p addr : Z) : gmap Z Z :=
  wrn 8 (wrn 2 (wrn 2 (wrn 2 (wrn 2 (wrn 2 m (p + 0) 8) (p + 2) 8) (p + 4) 10) (p + 6) 26) (p + 8) 26)
    (p + 16) addr.

Lemma assign_whole t fs a p len b w ty n v k :
  window a p len -> find_path t fs = Some (b, w, ty) ->
  b mod 8 = 0 -> w = 8 * Z.of_nat n -> 0 <= b / 8 -> b / 8 + Z.of_nat n <= len ->
  assign t fs a v k = Ok () (with_ram (wrn n (ram k) (p + b / 8) v) k).
Proof.
  intros W Hf Hb Hw Ho Hn. unfold assign. rewrite Hf.
  rewrite (store_member_bytes _ _ _ _ _ n) by done. by apply (storen_at n a p len _ (b / 8)).
Qed.

Ltac assign_field W c :=
  erewrite bind_ok; [|eapply (assign_whole KrnlCharMap) with (n := c);
    [exact W|reflexivity|reflexivity|reflexivity|vm_compute; discriminate..]]; cbv beta.

Lemma set_up_char_map_ok p k : window CharMapAddr p 24 ->
  set_up_char_map k = Ok () (with_ram (char_map_ram (ram k) p DefaultCharMapAddr) k).
Proof.
  intros W. unfold set_up_char_map. do 5 assign_field W 2%nat.
  erewrite (assign_whole KrnlCharMap) with (n := 8%nat);
    [|exact W|reflexivity|reflexivity|reflexivity|vm_compute; discriminate..].
  by destruct k.
Qed.

Lemma char_map_ram_other m p addr q : q < p \/ p + 24 <= q -> rb (char_map_ram m p addr) q = rb m q.
Proof. intros. unfold char_map_ram. by rewrite !rb_wrn_other by lia. Qed.

(** Eight bytes of the font are no address. *)
Definition entry_pointer (e : nat) : Z := le_val (take 8 (drop (8 * e) font_bytes)).

Lemma entry_pointers_bad :
  forallb (fun e => forallb (fun r => negb (canonical (u64 (entry_pointer e + Z.of_nat r)))) (seq 0 8))
    (seq 0 62) = true.
Proof. by vm_compute. Qed.

Lemma font_rows :
  forallb (fun e => forallb (fun r =>
      nth (8 * e + r) font_bytes 0 =? nth r (nth e DefaultCharMap []) 0) (seq 0 8)) (seq 0 62) = true.
Proof. by vm_compute. Qed.

Lemma forallb_entries (f : nat -> nat -> bool) e r :
  forallb (fun e => forallb (f e) (seq 0 8)) (seq 0 62) = true -> 0 <= e < 62 -> 0 <= r < 8 ->
  f (Z.to_nat e) (Z.to_nat r) = true.
Proof.
  intros H He Hr. rewrite forallb_forall in H. specialize (H (Z.to_nat e)).
  rewrite forallb_forall in H. apply H; apply in_seq; lia.
Qed.

(** The font in memory at [p], mapped at its address. *)
Definition font_at (m : gmap Z Z) (p : Z) : Prop :=
  window DefaultCharMapAddr p 496 /\ read_bytes m p 496 = font_bytes.

Lemma font_row p e r k : font_at (ram k) p -> 0 <= e < 62 -> 0 <= r < 8 ->
  load8 (DefaultCharMapAddr + (8 * e + r)) k =
    Ok (nth (Z.to_nat r) (nth (Z.to_nat e) DefaultCharMap []) 0) k.
Proof.
  intros [W Hf] He Hr. rewrite (load8_at _ p 496) by (done || lia). f_equal.
  pose proof (forallb_entries _ e r font_rows He Hr) as H%Z.eqb_eq. rewrite <- H, <- Hf.
  rewrite nth_read_bytes by lia. f_equal. lia.
Qed.

Lemma font_entry p e k : font_at (ram k) p -> 0 <= e < 62 ->
  load64 (DefaultCharMapAddr + 8 * e) k = Ok (entry_pointer (Z.to_nat e)) k.
Proof.
  intros [W Hf] He. unfold load64.
  rewrite (loadn_at 8 _ p 496 _ (8 * e) k W eq_refl) by lia. f_equal.
  unfold rdn, entry_pointer. f_equal. rewrite <- Hf.
  rewrite <- (read_bytes_slice _ p 496 (8 * Z.to_nat e) 8) by lia. f_equal. lia.
Qed.

Lemma fetch_whole t fs a p len b w ty n k :
  window a p len -> find_path t fs = Some (b, w, ty) ->
  b mod 8 = 0 -> w = 8 * Z.of_nat n -> 0 <= b -> 0 < w -> b + w <= 8 * len ->
  ram_ok (ram k) ->
  fetch t fs a k = Ok (rdn n (ram k) (p + b / 8)) k.
Proof.
  intros W Hf Hb Hw Ho Hw0 Hn Hr. unfold fetch. rewrite Hf.
  rewrite (load_member_ok a p len) by done. f_equal. unfold member_val, get_bits. rewrite Hb, Z.shiftr_0_r.
  assert (span b w = n) as -> by (unfold span; rewrite Hb, Hw; apply Nat2Z.inj; rewrite Z2Nat.id; dlia).
  rewrite Z.land_ones, Hw by lia. apply Z.mod_small. by apply rdn_bound.
Qed.

Ltac fetch_field W c :=
  erewrite (fetch_whole KrnlCharMap) with (n := c);
    [|exact W|reflexivity|reflexivity|reflexivity|vm_compute; (reflexivity || discriminate)..|assumption].

Lemma char_map_ram_ok m p addr : ram_ok m -> ram_ok (char_map_ram m p addr).
Proof. intros. unfold char_map_ram. by repeat apply ram_ok_wrn. Qed.

Lemma char_map_pointer p m k : window CharMapAddr p 24 -> 0 <= DefaultCharMapAddr < 2 ^ 64 -> ram_ok m ->
  ram k = char_map_ram m p DefaultCharMapAddr ->
  fetch KrnlCharMap ["CharMap"] CharMapAddr k = Ok DefaultCharMapAddr k.
Proof.
  intros W Ha Hm Hr. assert (ram_ok (ram k)) by (rewrite Hr; by apply char_map_ram_ok).
  fetch_field W 8%nat. change (128 / 8) with 16. rewrite Hr. unfold char_map_ram.
  rewrite rdn_wrn_same. f_equal. by apply Z.mod_small.
Qed.

Lemma glyph_row_faults p e r k :
  (forall a, canonical a = false -> xlate a = None) ->
  fetch KrnlCharMap ["CharMap"] CharMapAddr k = Ok DefaultCharMapAddr k ->
  font_at (ram k) p -> 0 <= e < 62 -> 0 <= r < 8 ->
  read_glyph_row CharMapAddr e r k = Fault k.
Proof.
  intros Hx Hf Ha He Hr. unfold read_glyph_row. kstep Hf.
  change (sizeof (TPtr UINT8)) with 8. kstep (font_entry p e k Ha He).
  pose proof (forallb_entries _ e r entry_pointers_bad He Hr) as Hc.
  cbv beta in Hc. rewrite Z2Nat.id, negb_true_iff in Hc by lia.
  unfold load8. by rewrite (Hx _ Hc).
Qed.


(** Text through the functions of the UEFI entry. *)
Lemma uefi_for_print (a : Z) p n k lo : window a p n -> 0 <= lo <= n -> n < 2 ^ 32 ->
  exists i, for_lt 64 n 1 (fun i => let_ ← load8 (a + i);
    KiPutChar (FW := EfiFirmwareFuncs) let_ ;; skip) lo k = Ok i k.
Proof.
  intros W Hlo Hn.
  destruct (for_lt_total 64 n 1 (fun i => let_ ← load8 (a + i);
    KiPutChar (FW := EfiFirmwareFuncs) let_ ;; skip) (fun i k' => k' = k) lo k)
    as (i & k' & E & -> & _); [lia..| |done|by exists i].
  intros i k1 Hi ->. kstep (load8_at a p n i k W ltac:(lia)). by exists k.
Qed.

(** on the UEFI entry the kernel's printing succeeds and shows nothing:
    characters, texts and lines are accepted and leave the state as it was,
    except that a backspace calls through the null pointer the entry left in
    its table. *)
Theorem uefi_console_silent a p s c k :
  window a p (zlen s + 1) -> cstr (ram k) p s -> a <> NULL -> zlen s < 2 ^ 32 ->
  KiPutChar (FW := EfiFirmwareFuncs) c k = Ok STATUS_SUCCESS k /\
  KiPrint (FW := EfiFirmwareFuncs) a k = Ok STATUS_SUCCESS k /\
  KiPrintLine (FW := EfiFirmwareFuncs) a k = Ok STATUS_SUCCESS k /\
  KiBackspace (FW := EfiFirmwareFuncs) k = Fault k.
Proof.
  intros W Hc Ha Hl. pose proof (zlen_nonneg s).
  assert (KiGetStringLength a 0 k = Ok (STATUS_SUCCESS, zlen s) k) as El.
  { rewrite (KiGetStringLength_ok a 0 p s k W ltac:(lia) Hc). by rewrite (proj2 (Z.eqb_neq _ _) Ha). }
  split; [done|]. unfold KiPrint, KiPrintLine, PRINT_LINE_GENERIC. split; [|split; [|done]].
  - kstep El. rewrite status_eqb_refl. cbn [negb].
    destruct (uefi_for_print a p (zlen s) k 0) as (i & E); [|lia..|by kstep E].
    intros j Hj. apply W. lia.
  - kstep El. by rewrite status_eqb_refl.
Qed.
End EfiEntryLaws.

(** A placement of the font and of the character map, in the boot address
    space. *)
Definition sample_font_addresses : FontAddresses :=
  {| DefaultCharMapAddr := 0x300000; CharMapAddr := 0x200000 |}.
Definition font_kernel : kernel :=
  with_ram (write_bytes (ram kernel0) 0x300000 font_bytes) kernel0.

Lemma font_bytes_byte : Forall byte font_bytes.
Proof.
  apply (Forall_impl (fun b => (0 <=? b) && (b <? 256) = true)).
  - apply Forall_forall. intros b Hb. apply list_elem_of_In in Hb. revert b Hb. apply forallb_forall.
    by vm_compute.
  - intros b. rewrite andb_true_iff, Z.leb_le, Z.ltb_lt. by unfold byte.
Qed.

Lemma boot_canonical a : canonical a = false -> xlate (AddrSpace := boot_space) a = None.
Proof. intros H. unfold xlate, boot_space, boot_xlate. by rewrite H. Qed.


Lemma uefi_console_silent_witness :
  KiPrint (AS := boot_space) (FW := EfiFirmwareFuncs) 0x200000
    (with_ram (write_bytes (ram kernel0) 0x200000 [72; 105; 0]) kernel0) =
  Ok STATUS_SUCCESS (with_ram (write_bytes (ram kernel0) 0x200000 [72; 105; 0]) kernel0).
Proof.
  apply (uefi_console_silent (AS := boot_space) 0x200000 0x200000 [72; 105] 33).
  - apply boot_window_low; by vm_compute.
  - split; [vm_compute; reflexivity|]. repeat constructor; done.
  - done.
  - by vm_compute.
Defined.
