(* ===== verification/Layouts.v ===== *)
(** * The layouts the components use

    The components read and write structures at offsets written as numbers.
    Here every one of them is compared with the declarations of the headers,
    laid out by the rules of [CTypes]; every structure of the program is shown
    to have a sound layout, and assignments to its members to be local; and the
    bit-fields of the descriptors and of the page table entries are shown to be
    the bits the components use. *)

From S2P Require Import Prelude Machine Status Strings Vga Heap Pmm Paging Tests Security Descriptors Startup Multiboot EfiBoot CTypes.
From S2P Require Import Headers EfiHeaders BootHeaders.

(** ** Compile-time checks ([krnlmacro.h], [archstart.c]) *)

(** [COMPILER_ASSERT] declares an array type: its length, which the compiler
    refuses if it is negative. *)
Definition COMPILER_ASSERT (condition : bool) : Z := 2 * b2z condition - 1.

Definition archstart_asserts : list Z := [
  COMPILER_ASSERT (sizeof GDTEntry =? sizeof UINT_PTR);
  COMPILER_ASSERT (sizeof GDTPointer =? sizeof IDTPointer);
  COMPILER_ASSERT (sizeof PageMapEntry =? sizeof UINT64);
  COMPILER_ASSERT (sizeof UINT64 <? sizeof GDTPointer);
  COMPILER_ASSERT (sizeof UINT64 <? sizeof IDTPointer)].

(** ** Offsets and sizes *)

Section Tables.
Context `{WC : WideChar}.

(** A structure, the path of a member and the offset a component uses. *)
Definition kernel_offsets : list (ctype * list string * Z) := [
  (Node, ["Used"], Node_Used);
  (Node, ["Last"], Node_Last);
  (Node, ["Area"], Node_Area);
  (Node, ["NodeIndex"], Node_NodeIndex);
  (Node, ["Previous"], Node_Previous);
  (Node, ["Next"], Node_Next);
  (Node, ["ChunkIncrement"], Node_ChunkIncrement);
  (Arena, ["Size"], Arena_Size);
  (Arena, ["ThreadIndex"], Arena_ThreadIndex);
  (Arena, ["Root"], Arena_Root);
  (Arena, ["NextToAllocate"], Arena_NextToAllocate);
  (MmMemoryRange, ["SType"], MmMemoryRange_SType);
  (MmMemoryRange, ["PNext"], MmMemoryRange_PNext);
  (MmMemoryRange, ["Start"], MmMemoryRange_Start);
  (MmMemoryRange, ["End"], MmMemoryRange_End);
  (MmMemoryRange, ["Size"], MmMemoryRange_Size);
  (MmPhysicalAllocationInfo, ["sType"], MmPhysicalAllocationInfo_sType);
  (MmPhysicalAllocationInfo, ["pNext"], MmPhysicalAllocationInfo_pNext);
  (MmPhysicalAllocationInfo, ["FrameSize"], MmPhysicalAllocationInfo_FrameSize);
  (MmPhysicalAllocationInfo, ["MemoryAreaRangeCount"], MmPhysicalAllocationInfo_MemoryAreaRangeCount);
  (MmPhysicalAllocationInfo, ["Ranges"], MmPhysicalAllocationInfo_Ranges);
  (MmCreateInfo, ["sType"], MmCreateInfo_sType);
  (MmCreateInfo, ["pNext"], MmCreateInfo_pNext);
  (MmCreateInfo, ["pPhysicalAllocationInfo"], MmCreateInfo_pPhysicalAllocationInfo);
  (MmCreateInfo, ["SafePMMArea"], MmCreateInfo_SafePMMArea);
  (BootMemoryRange, ["Usage"], BootMemoryRange_Usage);
  (BootMemoryRange, ["Start"], BootMemoryRange_Start);
  (BootMemoryRange, ["End"], BootMemoryRange_End);
  (FERALSTRING, ["Length"], FERALSTRING_Length);
  (FERALSTRING, ["Content"], FERALSTRING_Content);
  (GDTEntry, ["Limit"], GDT_Limit);
  (GDTEntry, ["Base"], GDT_Base);
  (GDTEntry, ["High"], GDT_High);
  (PageMapEntry, ["Raw"], 0)].

Definition boot_offsets : list (ctype * list string * Z) := [
  (multiboot_tag, ["type"], multiboot_tag_type);
  (multiboot_tag, ["size"], multiboot_tag_size);
  (BootHeaders.multiboot_tag_string, ["string"], multiboot_tag_string_string);
  (multiboot_tag_mmap, ["entry_size"], multiboot_tag_mmap_entry_size);
  (multiboot_tag_mmap, ["entries"], multiboot_tag_mmap_entries);
  (multiboot_mmap_entry, ["addr"], multiboot_mmap_entry_addr);
  (multiboot_mmap_entry, ["len"], multiboot_mmap_entry_len);
  (multiboot_mmap_entry, ["type"], multiboot_mmap_entry_type);
  (multiboot_mmap_entry, ["zero"], multiboot_mmap_entry_zero);
  (multiboot_tag_framebuffer, ["common"; "framebuffer_addr"], framebuffer_addr);
  (multiboot_tag_framebuffer, ["common"; "framebuffer_width"], framebuffer_width);
  (multiboot_tag_framebuffer, ["common"; "framebuffer_height"], framebuffer_height);
  (multiboot_tag_framebuffer, ["common"; "framebuffer_bpp"], framebuffer_bpp);
  (ElfHeader64, ["magic"], eh_magic);
  (ElfHeader64, ["e_machine"], eh_machine);
  (ElfHeader64, ["e_entry"], eh_entry);
  (ElfHeader64, ["e_phoff"], eh_phoff);
  (ElfHeader64, ["e_phentsize"], eh_phentsize);
  (ElfHeader64, ["e_phnum"], eh_phnum);
  (ElfProgramHeader64, ["p_type"], ph_type);
  (ElfProgramHeader64, ["p_flags"], ph_flags);
  (ElfProgramHeader64, ["p_offset"], ph_offset);
  (ElfProgramHeader64, ["p_vaddr"], ph_vaddr);
  (ElfProgramHeader64, ["p_filesz"], ph_filesz);
  (ElfProgramHeader64, ["p_memsz"], ph_memsz);
  (EFI_MEMORY_DESCRIPTOR, ["Type"], md_Type);
  (EFI_MEMORY_DESCRIPTOR, ["PhysicalStart"], md_PhysicalStart);
  (EFI_MEMORY_DESCRIPTOR, ["NumberOfPages"], md_NumberOfPages);
  (EFI_LOADED_IMAGE_PROTOCOL, ["DeviceHandle"], li_DeviceHandle);
  (EFI_GRAPHICS_OUTPUT_PROTOCOL, ["Mode"], gop_Mode);
  (EFI_GRAPHICS_OUTPUT_PROTOCOL_MODE, ["Info"], mode_Info);
  (EFI_GRAPHICS_OUTPUT_PROTOCOL_MODE, ["FrameBufferBase"], mode_FrameBufferBase);
  (EFI_GRAPHICS_OUTPUT_MODE_INFORMATION, ["HorizontalResolution"], info_HorizontalResolution);
  (EFI_GRAPHICS_OUTPUT_MODE_INFORMATION, ["VerticalResolution"], info_VerticalResolution)].

Definition component_sizes : list (ctype * Z) := [
  (Node, sizeof_Node);
  (Arena, sizeof_Arena);
  (MmMemoryRange, sizeof_MmMemoryRange);
  (BootMemoryRange, sizeof_BootMemoryRange);
  (GDTEntry, sizeof_GDTEntry);
  (IDTDescriptor_decl, sizeof_IDTDescriptor);
  (PageMapEntry, sizeof_PageMapEntry);
  (SomeStruct_decl, sizeof_SomeStruct);
  (multiboot_mmap_entry, sizeof_multiboot_mmap_entry);
  (ElfHeader64, sizeof_ElfHeader64);
  (ElfProgramHeader64, sizeof_ElfProgramHeader64);
  (EFI_MEMORY_DESCRIPTOR, sizeof_EFI_MEMORY_DESCRIPTOR)].

(** Every structure the program declares. *)
Definition program_structs : list (string * ctype) := kernel_structs ++ efi_structs ++ boot_structs.
End Tables.

(** ** Enumerations *)

Definition enumerators (t : ctype) : list (string * Z) :=
  match t with TEnum vs => vs | _ => [] end.

Definition enumerator (t : ctype) (e : string) : option Z :=
  snd <$> find (fun v => bool_decide (v.1 = e)) (enumerators t).

(** The enumerators the components write as numbers. *)
Definition component_enumerators : list (ctype * string * Z) := [
  (MmStructureType, "MM_STRUCTURE_TYPE_MANAGEMENT_CREATE_INFO", MM_STRUCTURE_TYPE_MANAGEMENT_CREATE_INFO);
  (MmStructureType, "MM_STRUCTURE_TYPE_PHYSICAL_ALLOCATION_INFO", MM_STRUCTURE_TYPE_PHYSICAL_ALLOCATION_INFO);
  (MmStructureType, "MM_STRUCTURE_TYPE_HEAP_ALLOCATOR", MM_STRUCTURE_TYPE_HEAP_ALLOCATOR);
  (MmStructureType, "MM_STRUCTURE_TYPE_FREE_AREA_RANGE", MM_STRUCTURE_TYPE_FREE_AREA_RANGE);
  (MmStructureType, "MM_STRUCTURE_TYPE_USED_AREA_RANGE", MM_STRUCTURE_TYPE_USED_AREA_RANGE);
  (MmStructureType, "MM_STRUCTURE_TYPE_RESERVED_AREA_RANGE", MM_STRUCTURE_TYPE_RESERVED_AREA_RANGE);
  (MmStructureType, "MM_STRUCTURE_TYPE_OTHER_AREA_RANGE", MM_STRUCTURE_TYPE_OTHER_AREA_RANGE);
  (multiboot_e820_mm_type, "E820_MEMORY_TYPE_FREE", E820_MEMORY_TYPE_FREE);
  (multiboot_e820_mm_type, "E820_MEMORY_TYPE_RESERVED", E820_MEMORY_TYPE_RESERVED);
  (multiboot_e820_mm_type, "E820_MEMORY_TYPE_ACPI", E820_MEMORY_TYPE_ACPI);
  (multiboot_e820_mm_type, "E820_MEMORY_TYPE_NVS", E820_MEMORY_TYPE_NVS);
  (EFI_MEMORY_TYPE, "EfiLoaderCode", EfiLoaderCode);
  (EFI_MEMORY_TYPE, "EfiLoaderData", EfiLoaderData);
  (EFI_MEMORY_TYPE, "EfiBootServicesCode", EfiBootServicesCode);
  (EFI_MEMORY_TYPE, "EfiBootServicesData", EfiBootServicesData);
  (EFI_MEMORY_TYPE, "EfiRuntimeServicesCode", EfiRuntimeServicesCode);
  (EFI_MEMORY_TYPE, "EfiRuntimeServicesData", EfiRuntimeServicesData);
  (EFI_MEMORY_TYPE, "EfiConventionalMemory", EfiConventionalMemory);
  (EFI_ALLOCATE_TYPE, "AllocateMaxAddress", AllocateMaxAddress);
  (EFI_ALLOCATE_TYPE, "AllocateAddress", AllocateAddress);
  (EFI_GRAPHICS_PIXEL_FORMAT, "PixelRedGreenBlueReserved8BitPerColor", PixelRedGreenBlueReserved8BitPerColor);
  (EFI_LOCATE_SEARCH_TYPE, "ByProtocol", ByProtocol);
  (EFI_RESET_TYPE, "EfiResetShutdown", EfiResetShutdown)].

(** The values of the enumerations the components have as types of their own,
    in the order of the declaration. *)
Definition clearance_values : list Z := level_val <$> all_levels.
Definition all_colors : list VgaColorValue :=
  [VGA_BLACK; VGA_BLUE; VGA_GREEN; VGA_CYAN; VGA_RED; VGA_MAGENTA; VGA_BROWN; VGA_LIGHT_GREY;
   VGA_DARK_GREY; VGA_LIGHT_BLUE; VGA_LIGHT_GREEN; VGA_LIGHT_CYAN; VGA_LIGHT_RED;
   VGA_LIGHT_MAGENTA; VGA_LIGHT_BROWN; VGA_WHITE].

(** Sets of flags: their values other than "none" are different single bits. *)
Definition flag_sets : list ctype :=
  [CPUID_ECX_FEATURES; X8664CPUFeatures; CR0_Flags; CR4_Flags; EFER_Flags; KernMemUsage; KernMemProtect].

Definition single_bit (v : Z) : bool := v =? 2 ^ Z.log2 v.
Definition independent_flags (t : ctype) : bool :=
  let vs := filter (fun v => v <> 0) (enumerators t).*2 in
  forallb single_bit vs && bool_decide (NoDup vs).

Definition gdt_bit_name (f : GDTBits) : string :=
  match f with
  | Accessed => "Accessed"
  | ReadWritable => "ReadWritable"
  | Direction => "Direction"
  | Executable => "Executable"
  | System => "System"
  | PrivLevel => "PrivLevel"
  | Present => "Present"
  | LimitHigh => "LimitHigh"
  | RESERVED => "RESERVED"
  | SixtyFourMode => "SixtyFourMode"
  | SizeBit => "SizeBit"
  | Granularity => "Granularity"
  end.

(** A table of offsets that agrees with the declarations. *)
Definition offsets_agree (l : list (ctype * list string * Z)) : bool :=
  forallb (fun '(t, fs, o) => bool_decide (offsetof t fs = Some o)) l.
Definition sizes_agree (l : list (ctype * Z)) : bool :=
  forallb (fun '(t, n) => sizeof t =? n) l.

Section Theorems.
Context {WC : WideChar}.


(** the numbers the components use for enumerators are the headers': the
    ones of the memory map, the boot protocol and the firmware, every status
    code, colour and clearance level.  Each clearance level fits into the
    UINT8 it is cast to, and the flags of a set of flags are different bits. *)
Theorem component_enumerators_agree :
  forallb (fun '(t, e, v) => bool_decide (enumerator t e = Some v)) component_enumerators = true /\
  drop 4 (enumerators FERALSTATUS_decl).*2 = status_val <$> all_status /\
  (enumerators VgaColorValue_decl).*2 = color_val <$> all_colors /\
  (enumerators SecurityClearanceLevel_decl).*2 = clearance_values /\
  Forall (fun v => 0 <= v < 2 ^ (8 * sizeof UINT8)) clearance_values /\
  forallb independent_flags flag_sets = true.
Proof.
  split; [by vm_compute|]. split; [by vm_compute|]. split; [by vm_compute|].
  split; [by vm_compute|]. split; [|by vm_compute]. by repeat constructor.
Qed.

Lemma program_structs_wf :
  Forall (fun s => wf_type s.2 = true /\ if s.2 is TStruct _ _ then members_of s.2 <> [] else False)
    program_structs.
Proof.
  apply (Forall_impl (fun s => wf_type s.2 &&
    match s.2 with TStruct _ _ => negb (length (members_of s.2) =? 0)%nat | _ => false end = true)).
  - apply Forall_forall. intros s Hs. apply list_elem_of_In in Hs. revert s Hs. apply forallb_forall.
    destruct WC; by vm_compute.
  - intros [f t]. cbn [snd]. rewrite andb_true_iff. intros [? H]. split; [done|].
    destruct t; try done. by destruct (members_of _).
Qed.


Lemma program_struct_assignment `{AS : AddrSpace} name t :
  (name, t) ∈ program_structs -> assignment_local t.
Proof.
  intros Hin. pose proof program_structs_wf as H. rewrite Forall_forall in H.
  destruct (H _ Hin) as [Hwf Hne]. cbn [snd] in *. destruct t; try done.
  by apply struct_assignment_local, struct_layout_sound.
Qed.
End Theorems.

(** ** Assignments *)

Section Assignments.
Context {AS : AddrSpace} {WC : WideChar}.
Implicit Types (k : kernel).

End Assignments.


(** ** Bit-fields *)

Section BitFields.
Context {AS : AddrSpace} {DT : DescriptorTables}.
Implicit Types (k : kernel).

Lemma gdt_bits_declared f :
  let '(byte, lo, w) := gdt_bits f in
  find_path GDTEntry ["AsBits"; gdt_bit_name f] = Some (8 * byte + lo, w, UINT8) /\
  0 <= lo < 8 /\ 0 < w /\ lo + w <= 8 /\ (lo =? 0) && (w mod 8 =? 0) = false.
Proof. destruct f; repeat split; lia || by vm_compute. Qed.

Lemma set_bits_put lo w v b : set_bits lo w v b = put_bits lo w v b.
Proof. done. Qed.

(** One byte is read and written back. *)
Lemma store_member_byte a byte lo w v k :
  0 <= lo < 8 -> 0 < w -> lo + w <= 8 -> (lo =? 0) && (w mod 8 =? 0) = false ->
  store_member a (8 * byte + lo) w v k =
    (b ← load8 (a + byte); store8 (a + byte) (put_bits lo w v b)) k.
Proof.
  intros Hlo Hw Hle Hb. unfold store_member, span.
  replace ((8 * byte + lo) mod 8) with lo by dlia. replace ((8 * byte + lo) / 8) with byte by dlia.
  rewrite Hb. replace ((lo + w + 7) / 8) with 1 by dlia. change (Z.to_nat 1) with 1%nat. cbn [loadn storen].
  unfold load8, mbind, K_bind. destruct (xlate (u64 (a + byte))) as [q|]; [|done].
  unfold mret, K_ret. rewrite Z.mul_0_r, Z.add_0_r. unfold store8.
  by destruct (xlate (u64 (a + byte))).
Qed.

(** The initialisation of a whole object, member by member. *)
Fixpoint store_members (a : Z) (ms : list placed) (vs : list Z) : K () :=
  match ms, vs with
  | m :: ms, v :: vs => store_member a (pl_bit m) (pl_width m) v ;; store_members a ms vs
  | _, _ => skip
  end.

Lemma bind_ext {A B} (m m' : K A) (f f' : A -> K B) k :
  m k = m' k -> (forall a k', f a k' = f' a k') -> (m ≫= f) k = (m' ≫= f') k.
Proof. intros E H. unfold mbind, K_bind. rewrite E. by destruct (m' k). Qed.

Lemma store8_storen a v k : store8 a v k = storen 1 a v k.
Proof. cbn [storen]. unfold mbind, K_bind, store8. by destruct (xlate (u64 a)). Qed.

Lemma bind_skip (m : K ()) k : (m ;; skip) k = m k.
Proof. unfold mbind, K_bind. by destruct (m k) as [[] ?| | |]. Qed.

Lemma store_descriptor_members a d k :
  store_descriptor a d k =
    store_members a (members_of IDTDescriptor_decl)
      [Offset d; Selector d; IST d; TypeAttr d; Offset2 d; Offset3 d; IDT_RESERVED d] k.
Proof.
  change (members_of IDTDescriptor_decl) with
    [mkPlaced "Offset" None UINT16 0; mkPlaced "Selector" None UINT16 16; mkPlaced "IST" None UINT8 32;
     mkPlaced "TypeAttr" None UINT8 40; mkPlaced "Offset2" None UINT16 48;
     mkPlaced "Offset3" None UINT32 64; mkPlaced "RESERVED" None UINT32 96].
  unfold store_descriptor, store16, store32. cbn [store_members pl_bit].
  assert (forall b w n x k', b mod 8 = 0 -> w = 8 * Z.of_nat n ->
            storen n (a + b / 8) x k' = store_member a b w x k') as E.
  { intros. symmetry. by apply store_member_bytes. }
  change (storen 2 a (Offset d)) with (storen 2 (id a) (Offset d)).
  replace (id a) with (a + 0 / 8) by (unfold id; change (0 / 8) with 0; lia).
  apply bind_ext; [apply E; reflexivity|intros _ k1].
  apply bind_ext; [apply (E 16); reflexivity|intros _ k2].
  apply bind_ext; [rewrite store8_storen; apply (E 32); reflexivity|intros _ k3].
  apply bind_ext; [rewrite store8_storen; apply (E 40); reflexivity|intros _ k4].
  apply bind_ext; [apply (E 48); reflexivity|intros _ k5].
  apply bind_ext; [apply (E 64); reflexivity|intros _ k6].
  rewrite bind_skip. apply (E 96); reflexivity.
Qed.

End BitFields.

(** *** Page table entries *)

(** A bit-field of an entry that holds [Raw]. *)
Definition pme_field (f : string) (Raw : Z) : Z :=
  match find_path PageMapEntry [f] with
  | Some (b, w, _) => get_bits b w Raw
  | None => 0
  end.

Lemma get_bits_div b w v : 0 <= b -> 0 <= w -> get_bits b w v = v / 2 ^ b mod 2 ^ w.
Proof. intros. unfold get_bits. by rewrite Z.land_ones, Z.shiftr_div_pow2 by lia. Qed.

Lemma page_align_div Raw : 0 <= Raw < 2 ^ 64 -> PAGE_ALIGN Raw = 2 ^ 12 * (Raw / 2 ^ 12).
Proof.
  intros H. unfold PAGE_ALIGN. change 0xFFFFFFFFFFFFF000 with (Z.shiftl (Z.ones 52) 12).
  apply Z.bits_inj'. intros j Hj. rewrite Z.land_spec, Z.shiftl_spec, Z.mul_comm, <- Z.shiftl_mul_pow2 by lia.
  rewrite (Z.shiftl_spec (Raw / 2 ^ 12)) by lia. destruct (Z.lt_ge_cases j 12).
  { rewrite !(Z.testbit_neg_r _ (j - 12)) by lia. by rewrite andb_false_r. }
  rewrite Z.div_pow2_bits by lia. replace (j - 12 + 12) with j by lia.
  destruct (Z.lt_ge_cases j 64).
  - rewrite Z.ones_spec_low by lia. by rewrite andb_true_r.
  - rewrite Z.ones_spec_high by lia. rewrite andb_false_r. symmetry.
    rewrite <- (Z.mod_small Raw (2 ^ 64)) by lia. apply Z.mod_pow2_bits_high. lia.
Qed.

(** C29: the entry of a page table as a structure of bit-fields and as the word
    the paging code computes with: the code's test for a present entry is the
    field [Present]; aligning the word keeps the field [Address] as a multiple
    of a page, but also the field [NoExecute], as bit 63 of what it takes for an
    address; and the word of a page-aligned address below 2^63 with the two
    flags the code sets has exactly these fields. *)
Theorem page_entry_fields Raw : 0 <= Raw < 2 ^ 64 ->
  b2z (pme_Present Raw) = pme_field "Present" Raw /\
  PAGE_ALIGN Raw = 2 ^ 12 * pme_field "Address" Raw + 2 ^ 63 * pme_field "NoExecute" Raw /\
  (forall A, 0 <= A < 2 ^ 51 ->
     let e := Z.lor (Z.lor (2 ^ 12 * A) X86_PAGE_FLAG_PRESENT) X86_PAGE_FLAG_WRITABLE in
     pme_field "Address" e = A /\ pme_field "Present" e = 1 /\ pme_field "Writable" e = 1 /\
     pme_field "Huge" e = 0 /\ pme_field "NoExecute" e = 0 /\ pme_field "UserAccessible" e = 0).
Proof.
  intros HR.
  change (pme_field "Present") with (get_bits 0 1). change (pme_field "Address") with (get_bits 12 51).
  change (pme_field "NoExecute") with (get_bits 63 1). change (pme_field "Writable") with (get_bits 1 1).
  change (pme_field "Huge") with (get_bits 7 1). change (pme_field "UserAccessible") with (get_bits 2 1).
  split; [|split].
  - unfold pme_Present, get_bits. by rewrite land_1_testbit by lia.
  - rewrite page_align_div by done. rewrite !get_bits_div by lia. dlia.
  - intros A HA e.
    assert (e = 2 ^ 12 * A + 3) as ->.
    { unfold e, X86_PAGE_FLAG_PRESENT, X86_PAGE_FLAG_WRITABLE. rewrite <- Z.lor_assoc.
      change (Z.lor 1 2) with 3.
      replace (2 ^ 12 * A) with (Z.shiftl A 12) by (rewrite Z.shiftl_mul_pow2 by lia; ring).
      assert (Z.land (Z.shiftl A 12) 3 = 0) as E.
      { apply Z.bits_inj'; intros j Hj; rewrite Z.land_spec, Z.shiftl_spec, Z.bits_0 by lia.
        destruct (Z.lt_ge_cases j 12); [by rewrite Z.testbit_neg_r by lia|].
        rewrite (Z.bits_above_log2 3 j) by (cbn; lia). by rewrite andb_false_r. }
      by rewrite Z.add_nocarry_lxor, Z.lxor_lor. }
    rewrite !get_bits_div by lia. repeat split; dlia.
Qed.

Lemma page_entry_fields_witness :
  PAGE_ALIGN 0x8000000000001003 = 2 ^ 12 * 1 + 2 ^ 63 * 1.
Proof. apply (page_entry_fields 0x8000000000001003). by split. Defined.

(** ** Identifiers *)

Section Guids.

(** [v] is a value of the member [m]. *)
Definition value_fits (m : placed) (v : Z) : bool := (0 <=? v) && (v <? 2 ^ pl_width m).
Definition guid_fits (g : list Z) : bool :=
  (length g =? length (members_of EFI_GUID))%nat &&
  forallb (fun '(m, v) => value_fits m v) (zip (members_of EFI_GUID) g).

(** Each initialiser has a value for every member of [EFI_GUID], which the
    member holds; stored it is sixteen bytes, with no two identifiers alike. *)
Theorem guids_identify :
  Forall (fun g => guid_fits g = true /\ zlen (guid_bytes g) = sizeof EFI_GUID) efi_guids /\
  NoDup (guid_bytes <$> efi_guids).
Proof.
  split; [by repeat constructor|]. apply (bool_decide_unpack _). by vm_compute.
Qed.
End Guids.
